(* ===== verification/_CoqProject ===== *)
-Q . S2P
Prelude.v
GoStrings.v
Types.v
Kube.v
Config.v
Azure.v
Sim.v
LBRules.v
LBConfig.v
VMNet.v
PublicIP.v
AgentPoolVMs.v
VMConfig.v
ManagerSGC.v
HealthProbe.v
NetIP.v
Floats.v
JSON.v
JSONReads.v
JSONValues.v
JSONDecode.v
Files.v
Network.v
CNIConf.v
CNIServer.v
CNITypes.v
CNIRoutes.v
CNINic.v
CNIPlugin.v
CNIComposed.v
Tools.v
CNISim.v
Imds.v
NodeStatus.v
DaemonSGC.v
DaemonPod.v
NatTables.v
NodeSim.v
NatTablesWitness.v
NodeStatusLife.v
NodeStatusRace.v
CNIWitness.v
Tunnel.v
TunnelWitness.v
Visualizer.v
VisualizerFlows.v
VisualizerWitness.v
Provisioning.v
ProvisioningWitness.v
Watches.v
Programs.v
ProgramsWitness.v
Memory.v
DeepCopy.v
DeepCopyWitness.v
