(* ===== verification/Prelude.v ===== *)
(** * kube-egress-gateway: a verification development

    ** The program

    kube-egress-gateway gives pods of a Kubernetes cluster on Azure static egress
    addresses.  A StaticGatewayConfiguration names a gateway and a node pool; the
    pods that refer to it send their traffic through a WireGuard tunnel to the
    pool's nodes, which translate it to the gateway's public IP prefix.

    - The manager ([src/controllers/manager]) runs three reconcilers in a chain.
      The one for StaticGatewayConfigurations validates the object, makes the
      WireGuard key pair and creates a GatewayLBConfiguration; the one for LB
      configurations puts a frontend, a backend, a rule with a port and a health
      probe on an internal load balancer and creates a GatewayVMConfiguration; the
      one for VM configurations provides the public IP prefix and adds an IP
      configuration per gateway to the machines of the pool, a scale set or single
      virtual machines.  Each reports its result in the status of its object, and
      deletion runs down the chain behind finalizers.
    - The daemon ([src/controllers/daemon]) runs on every gateway node.  It
      configures the node's network for each gateway of its pool, adds the pods as
      WireGuard peers, cleans up what belongs to no gateway or pod, answers the load
      balancer's health probes ([src/pkg/healthprobe]) and reports in a
      GatewayStatus object.
    - [src/pkg/azmanager] wraps the Azure clients, [src/pkg/config] holds the cloud
      configuration, [src/pkg/imds] reads the node's metadata.
    - The CNI manager ([src/controllers/cnimanager], [src/pkg/cni/conf]) runs on
      every node.  It puts the egress plugin into the node's CNI configuration,
      regenerates it when the main one changes, lifts the node's taint once it is
      there, and serves the plugin: [NicAdd] records a pod as a PodEndpoint and
      answers with the gateway's end of the tunnel.
    - The CNI plugin ([src/cmd/kube-egress-cni] with [src/pkg/cni]) sets up the pod's
      end: a WireGuard link, the addresses that the IPAM plugin
      ([src/cmd/kube-egress-cni-ipam]) reports, the gateway as the link's peer, and
      the pod's routes.
    - Beside the gateway, [src/network-visualizer/backend] is a web server that draws
      the cluster.

    ** The model

    Go code is translated to functions of the state-and-error monad [M] of this
    file: a call takes the world and returns a value, an error or a panic together
    with the world it leaves.  [defer] runs the deferred code on every path out,
    [try] is [x, err := f()], [?:] wraps the error of a call, a nil dereference or
    an index out of range is [Panic].  Loops over slices are [fold_left],
    [find_index] or [foldM]; all recursion is structural, so every function is total.
    Fuel occurs where the source has a bound: the sixteen hexadecimal digits of a
    64-bit number, the eight groups of an IPv6 address, the [Steps] of a retry, and the
    ten pods of a tick.
    Logging is left out, and Go's [context] with it.  Pointers are [option], slices
    [list] (nil and empty are the same, except in [Visualizer]), maps [gmap], strings byte
    strings with the case folding and white space of ASCII, integers [Z] with the range
    where it matters.  Objects are values; [Memory] and [DeepCopy] have them in a memory
    with pointers and slices, for the code in which sharing matters.

    What the program calls outside the repository is a parameter: a class over the
    type [W] of worlds, such as [Store] for the API server's client of a kind of
    object, [AzureClients], [NetLink], [IPTables].  A theorem that relies on the
    behaviour of such code has it as a hypothesis or as a class of laws
    ([LBServer], [BackoffLaws], [FinalizersLaws], [FilesLaws], [MainTable], ...).
    [Sim], [NodeSim] and [CNISim] are executable worlds that implement all the
    classes; the witnesses run the controllers and the plugins on them.

    - [Prelude]: errors, outcomes, the monad, its inversion tactics ([go_inv]), and
      frames: [keeps P c] says that the calls of [c] do not falsify [P]; the hint
      database [keeps] and [keeps_tac] prove such facts by going through the code;
      [succeeds P c], with [succeeds_tac], says that [c] returns a value.
    - [GoStrings], [NetIP]: what is used of [strings], [strconv], [fmt],
      [hash/fnv], [net] and [net/netip], with read-back lemmas.
    - [Types]: [src/pkg/consts], [src/pkg/utils/to] and [src/api/v1alpha1].
    - [Kube]: the Kubernetes interfaces; [src/pkg/metrics] (module [metrics]).
    - [Config]: [src/pkg/config/config.go].
    - [Azure]: [src/pkg/azmanager/azmanager.go] (module [azmanager]) over the
      clients; the retry loop [wrapRetry].
    - [LBRules], [LBConfig] (module [lbconfig]):
      [gatewaylbconfiguration_controller.go].  [LBRules] has the planning of rules,
      ports and probes on lists, [LBConfig] the plan for a whole load balancer and
      the reconciler around it.  [reconcileLBRule], one function of 240 lines, is
      cut into [reconcileExistingLB], [ensureFrontend], [planLB] and [writeLB]
      along its sections.
    - [VMNet], [PublicIP] (module [publicip]), [VMConfig] (modules [vmss] and
      [vmconfig]): [gatewayvmconfiguration_controller.go]; [AgentPoolVMs] (module
      [agentpoolvms]): [agentpoolvms.go].
    - [ManagerSGC] (module [sgc]): the manager's
      [staticgatewayconfiguration_controller.go].
    - [HealthProbe]: [src/pkg/healthprobe/gw_health.go].
    - [Network]: the interfaces to netlink, network namespaces, iptables and
      WireGuard; [Imds]: [src/pkg/imds] and the functions on the node's metadata.
    - [NodeStatus], [DaemonSGC] (module [daemonsgc]), [DaemonPod] (module
      [daemonpod]): [src/controllers/daemon].  [NodeStatusLife] follows the status
      object of a node through the calls of both controllers, [NodeStatusRace] through
      the interleaved reads and writes of any number of writers.  [NatTables] has the nat
      tables of a node as data with the walk of a packet through them, and what the
      daemon makes of them; [NatTablesWitness] runs it for two gateways.
    - [Files]: what is used of [path/filepath] (module [filepath]) and of [os] for files.
    - [Floats], [JSON], [JSONReads], [JSONValues], [JSONDecode]: [encoding/json].  The
      scanner is a state machine on the bytes with the package's errors, [MarshalIndent]
      writes, and decoders read structs by their fields' names; numbers are rounded to
      [float64] and written in their shortest form.  What is written is read back
      ([parse_print], [UnmarshalMap_Marshal]).
    - [CNIConf] (module [confmgr]): [src/pkg/cni/conf/confmanager.go]; [CNITypes]:
      [src/pkg/cni/conf/conf.go] and the types of the CNI library.
    - [CNIServer] (module [nicservice]): [src/controllers/cnimanager/server.go], the
      messages of [src/pkg/cniprotocol] and [removeNodeTaintIfNeeded] of
      [src/cmd/kube-egress-gateway-cnimanager/cmd/serve.go].  Its instance [served]
      is the interface [NicServiceClient] that the plugin calls.
    - [CNIRoutes], [CNINic]: [src/pkg/cni/routes], [src/pkg/cni/wireguard] and
      [src/pkg/cni/ipam]; [CNIPlugin] (modules [cni] and [cniipam]): the two plugins.
      The plugin's result, which the source completes in place, is passed on and
      returned.
    - [CNIComposed], [Tunnel]: the CNI components together, and the two ends of a
      pod's tunnel, of which one is the plugin's and one the daemon's.
    - [Provisioning]: the manager's three reconcilers together over one API server; its
      classes [StoreView] and [StatusAccepted] are what they rely on, [turns] are their
      interleaved reconciliations.  [ProvisioningWitness]: its witnesses.
    - [Watches]: the [SetupWithManager] methods of the five controllers, which events
      lead to which requests.
    - [Programs]: [src/cmd/kube-egress-gateway-controller], [-daemon] and [-cnimanager]:
      flags with their defaults and the order in which each program makes, wires and
      starts its parts.  [ProgramsWitness]: its witnesses.
    - [Tools]: [src/pkg/netnswrapper], [src/cmd/add-netns] and [src/cmd/copy].
    - [CNIWitness], [TunnelWitness]: the witnesses of the CNI side.
    - [Visualizer], [VisualizerFlows]: [src/network-visualizer/backend/main.go], the
      handlers with the graph they send, and the interleaving of the collector of flows
      with the handlers as a step relation; [VisualizerWitness]: their witnesses.
    - [Memory]: cells, pointers and slices, the shapes of the generated copy functions, and
      what memory represents; [DeepCopy]: [src/api/v1alpha1/zz_generated.deepcopy.go] and
      the places where the LB and the VM controller copy an object, change it in place
      and compare; [DeepCopyWitness]: its witnesses.

    ** What is shown

    - Ports: on a load balancer of this controller the gateways of a pool have
      distinct ports of the range, a gateway's rule is always found or made while a
      port is free, and the others are left alone ([reachable_ports_distinct] over
      all sequences of reconciliations, [wantRule_settles],
      [selectPortForLBRule_spec]).  The packet marks on the nodes are these ports
      ([mark_is_port]).
    - Convergence: when a reconciliation reports success the state it promises
      holds, and a second one changes nothing ([reconcileLBRule_establishes] with
      [reconcileLBRule_quiet], [network_interface_settles], [planNicConfs_settles],
      [reconcileVMSS_profiles], [ready_gateways_update], [ready_peers_update],
      [route_settles], [DefaultAndValidate_fixpoint]).
    - Provisioning: in whatever order the reconciliations of a gateway's objects run
      beside each other, once each has had its turns the gateway's status holds what the
      load balancer serves and the machines send from ([gateway_provisioned]); each
      write wakes the controller whose turn is next ([reconciliations_wake_each_other]);
      the controllers mean the same node pool unless its name is ambiguous
      ([controllers_agree_on_pool]).
    - Deletion: a gateway's deletion removes its own objects only
      ([planLB_delete]), and each finalizer is dropped last
      ([lb_finalizer_last], [vm_finalizer_last], [sgc_finalizer_last]).
    - The daemon: a node is probed as healthy exactly when the gateway's set-up has
      succeeded ([served_iff_reconciled]), at the port and path the manager has
      configured ([probe_reaches_gateway]); the node's status object stays well-formed
      and says what was done ([node_status_wellformed]), and its concurrent writers lose
      no update ([status_writes_serialize]); the packets of each gateway get its address
      by the chains of the nat table, whatever is done about the others
      ([gateway_translates]); the clean-up
      spares what is in use and removes the rest ([cleanUp_spares],
      [cleanUp_removes_orphan], [peer_in_use_spared], [stale_peers_removed],
      [gateway_address_kept], [createWireguardLink_clean]).
    - Inputs: exactly the valid specifications, configurations and prefix
      identifiers are accepted ([validate_accepts], [DefaultAndValidate_accepts],
      [user_prefix_used]); keys are stable ([wireguard_key_stable]); retries are
      bounded ([retried_spec]).
    - The pod's traffic: the routes of a pod refine the policy by longest prefix
      match, and are set whenever the node works and the CIDRs are well-formed
      ([gateway_default_policy], [azure_default_policy]); a pod for which the
      plugin has succeeded is registered with the key of its link and has the gateway
      as its peer ([cmdAdd_connects]), and the gateway accepts exactly this key and
      address ([gateway_accepts_pod]), while the pod's peer is the key and the port of the
      gateway's link ([pod_reaches_gateway]); a failed set-up leaves no link
      ([nic_failure_leaves_no_link]), a pod without the annotation is not touched
      ([unannotated_pod_untouched]), deletion is described on every branch
      ([cmdDel_outcome]).
    - The node's CNI configuration: it is replaced as a whole, by text that reads back
      as meant ([insert_atomic]), from the first main configuration ([masterOf_first]),
      with the egress plugin second and only once ([conflist_regenerated], [conf_converted]); the manager's own writing
      does not trigger it again ([own_events_ignored]); the plugin reads what the
      manager was given ([plugin_reads_manager_conf]); the file's removal and the
      node's taint follow their conditions ([removal_follows_flag],
      [taint_lifted_when_ready]).
    - The service: [NicAdd_records], [add_then_delete]; it is served at the port the
      plugins are told ([plugins_dial_the_service]).
    - The programs start only what was set up in full ([manager_runs_configured],
      [daemon_runs_configured]); every tick of the daemon is a clean-up
      ([ticks_clean_up]).
    - The visualizer: its graph has no dangling edges and connects services with the
      pods they select ([topology_edges], [matchesSelector_subset], [statuses]), the
      issues are the cluster's ([issues_reported]), the flows are those of the first
      ten pods with exact totals ([collectTick_flows]), and its goroutines do not race
      and send whole lists only ([flows_snapshot]).
    - Memory: deep copies share nothing with their originals ([deep_copies_independent]),
      so that the controllers see the changes they have made in place, which are those of
      the functions on values ([status_changes_seen]).
    - Some theorems record behaviour the code does not mean:
      [wantProbe_nil_properties], [patch_error_counted_as_success],
      [lone_plugin_panics], [copyFile_overwrites], [ipam_prints_pod_addresses],
      [pod_ids_collide], [matchesSelector_missing_label], [nil_sends_null],
      [node_deletion_ignored].

    Theorems of the form "[P] is kept" or "if [P] is falsified then ..." quantify
    over a property [P] of the world that the other calls keep: with [P] "the object
    has its finalizer" or "the link exists", they say which call happens only after
    which, or not at all, for every implementation of the interfaces.

    ** What is not modelled

    Cobra's parsing of the command lines, signals, logging and the registration of the
    types in the scheme have no logic of the program's own.  The protobuf and gRPC code is
    generated for libraries that are not part of the repository; the mocks, the fakes and
    the end-to-end utilities are there for tests only.  The retries of the gRPC client are
    not modelled either, nor is the work queue of controller-runtime.  A reconciler or a
    plugin runs alone on its world: interleavings are those of whole reconciliations
    ([Provisioning]), of the reads and writes of a node's status ([NodeStatusRace]) and of
    the visualizer's goroutines.  In [NatTables] the packets' walk covers the options the
    daemon's rules use; the kernel's connection tracking is the mark the walk carries. *)

From stdpp Require Import base tactics list strings gmap.
From Stdlib Require Import Ascii ZArith Lia.

#[export] Set Default Goal Selector "!".

(** ** Go errors

    The values of Go's [error] interface the program builds or inspects.
    Every leaf carries the text its [Error] method returns. *)
Inductive gerror : Type :=
| EText (msg : string)
    (** [errors.New] and [fmt.Errorf] without [%w] *)
| EWrapped (pre : string) (e : gerror) (post : string)
    (** [fmt.Errorf] with one [%w]: the text before it, the wrapped error and
        the text after it *)
| EJoined (e1 e2 : gerror)
    (** [errors.Join] of two non-nil errors *)
| EResponse (status : Z) (code : string) (msg : string)
    (** [*azcore.ResponseError]: [StatusCode] and [ErrorCode] *)
| EStatus (reason : string) (msg : string)
    (** [*apierrors.StatusError]: the [Reason] of its status *)
| ELinkNotFound (msg : string)
    (** [netlink.LinkNotFoundError] *)
| ENSPathNotExist (msg : string)
    (** [ns.NSPathNotExistErr] *)
| EGrpc (code : string) (msg : string)
    (** [status.Errorf] of gRPC *)
| EPath (notExist : bool) (msg : string)
    (** [*fs.PathError] of [os]: whether it is [fs.ErrNotExist] *)
| EMulti (e1 e2 : gerror).
    (** [multierr.Append] of two non-nil errors *)

#[export] Instance gerror_eq_dec : EqDecision gerror.
Proof. solve_decision. Defined.

(** The text of an error ([err.Error()]). *)
Fixpoint Error (e : gerror) : string :=
  match e with
  | EText m => m
  | EWrapped p e q => p +:+ Error e +:+ q
  | EJoined a b => Error a +:+ String "010"%char (Error b)
  | EResponse _ _ m => m
  | EStatus _ m => m
  | ELinkNotFound m => m
  | ENSPathNotExist m => m
  | EGrpc _ m => m
  | EPath _ m => m
  | EMulti a b => Error a +:+ "; " +:+ Error b
  end.

(** [errors.As]: the first error of the tree, in pre-order, that the target
    type accepts. *)
Fixpoint errors_as {A} (accept : gerror -> option A) (e : gerror) : option A :=
  match accept e with
  | Some a => Some a
  | None =>
      match e with
      | EWrapped _ e' _ => errors_as accept e'
      | EJoined a b | EMulti a b =>
          match errors_as accept a with
          | Some x => Some x
          | None => errors_as accept b
          end
      | _ => None
      end
  end.

Definition as_response (e : gerror) : option (Z * string) :=
  match e with EResponse s c _ => Some (s, c) | _ => None end.

Definition as_status (e : gerror) : option string :=
  match e with EStatus r _ => Some r | _ => None end.

(** [apierrors.IsNotFound]: the reason of the first [StatusError] in the error
    tree is [NotFound]. *)
Definition IsNotFound (e : gerror) : bool :=
  match errors_as as_status e with
  | Some r => String.eqb r "NotFound"
  | None => false
  end.

(** The type assertion [err.(netlink.LinkNotFoundError)], which does not
    unwrap. *)
Definition isLinkNotFound (e : gerror) : bool :=
  match e with ELinkNotFound _ => true | _ => false end.

(** [err.(ns.NSPathNotExistErr)] and [os.IsNotExist(err)]. *)
Definition isNSPathNotExist (e : gerror) : bool :=
  match e with ENSPathNotExist _ => true | _ => false end.
Definition IsNotExist (e : gerror) : bool :=
  match e with EPath b _ => b | _ => false end.

(** [multierr.Append(left, right)] where either may be nil. *)
Definition multierr_Append (left right : option gerror) : option gerror :=
  match left, right with
  | None, e | e, None => e
  | Some a, Some b => Some (EMulti a b)
  end.

Definition http_StatusNotFound : Z := 404.

(** ** Outcomes and effectful code

    A Go call returns a value, returns an error or panics.  An effectful
    function of the program is a function from the world to an outcome and the
    world it leaves; a call that fails or panics keeps the effects it had. *)
Inductive outcome (A : Type) : Type :=
| Ok (a : A)
| Err (e : gerror)
| Panic.
Arguments Ok {_} _.
Arguments Err {_} _.
Arguments Panic {_}.

Definition is_Ok {A} (o : outcome A) : bool :=
  match o with Ok _ => true | _ => false end.

Definition obind {A B} (c : outcome A) (k : A -> outcome B) : outcome B :=
  match c with Ok a => k a | Err e => Err e | Panic => Panic end.

(** Dereferencing a pointer: a nil pointer panics. *)
Definition deref {A} (p : option A) : outcome A :=
  match p with Some a => Ok a | None => Panic end.

Definition M (W A : Type) : Type := W -> outcome A * W.

Definition ret {W A} (a : A) : M W A := fun w => (Ok a, w).
Definition throw {W A} (e : gerror) : M W A := fun w => (Err e, w).
Definition lift {W A} (o : outcome A) : M W A := fun w => (o, w).

Definition bind {W A B} (c : M W A) (k : A -> M W B) : M W B := fun w =>
  match c w with
  | (Ok a, w') => k a w'
  | (Err e, w') => (Err e, w')
  | (Panic, w') => (Panic, w')
  end.

(** [x, err := c]: the error becomes a value the code can inspect. *)
Definition try {W A} (c : M W A) : M W (gerror + A) := fun w =>
  match c w with
  | (Ok a, w') => (Ok (inr a), w')
  | (Err e, w') => (Ok (inl e), w')
  | (Panic, w') => (Panic, w')
  end.

(** [if err != nil { return f(err) }] after a call. *)
Definition on_err {W A} (f : gerror -> gerror) (c : M W A) : M W A := fun w =>
  match c w with
  | (Err e, w') => (Err (f e), w')
  | r => r
  end.

(** [fmt.Errorf(pre + "%w", err)] *)
Definition wrap (pre : string) (e : gerror) : gerror := EWrapped pre e "".

(** An effect that cannot fail. *)
Definition effect {W} (f : W -> W) : M W unit := fun w => (Ok tt, f w).

(** [defer cleanup]: the deferred code runs with the outcome of the body, on
    every path out of it, a panic included. *)
Definition defer {W A} (cleanup : outcome A -> W -> W) (c : M W A) : M W A :=
  fun w => let '(r, w') := c w in (r, cleanup r w').

(** [defer func() { if err != nil { ... } }()] with the error as a named result: on an
    error the deferred code runs and gives the error that is returned. *)
Definition recovering {W A} (recovery : gerror -> M W gerror) (c : M W A) : M W A := fun w =>
  match c w with
  | (Err e, w1) =>
      match recovery e w1 with
      | (Ok e', w2) | (Err e', w2) => (Err e', w2)
      | (Panic, w2) => (Panic, w2)
      end
  | r => r
  end.

(** A [for range] loop whose body may fail: the accumulator is the state of the
    loop's variables. *)
Fixpoint foldM {W A B} (f : B -> A -> M W B) (l : list A) (b : B) : M W B :=
  match l with
  | [] => ret b
  | x :: l' => bind (f b x) (fun b' => foldM f l' b')
  end.

Declare Scope go_scope.
Delimit Scope go_scope with go.
Notation "'let!' x ':=' c 'in' k" := (bind c (fun x => k))
  (at level 10, x pattern, c at level 100, k at level 200,
   format "'let!'  x  ':='  c  'in' '//' k") : go_scope.
Notation "'do!' c ; k" := (bind c (fun _ => k))
  (at level 10, c at level 100, k at level 200,
   format "'do!'  c ; '//' k") : go_scope.
Notation "'let?' x ':=' c 'in' k" := (obind c (fun x => k))
  (at level 10, x pattern, c at level 100, k at level 200,
   format "'let?'  x  ':='  c  'in' '//' k") : go_scope.
Notation "c '?:' f" := (on_err f c) (at level 90, f at level 0) : go_scope.
#[global] Open Scope go_scope.

(** ** Inversion of the effect combinators *)
Section monad_inversion.
Context {W A B : Type}.
Implicit Types (c : M W A) (k : A -> M W B) (w : W).

Lemma bind_Ok_inv c k w b w' :
  bind c k w = (Ok b, w') ->
  exists a w1, c w = (Ok a, w1) /\ k a w1 = (Ok b, w').
Proof. unfold bind. destruct (c w) as [[a|e|] w1]; naive_solver. Qed.

Lemma bind_Err_inv c k w e w' :
  bind c k w = (Err e, w') ->
  c w = (Err e, w') \/ exists a w1, c w = (Ok a, w1) /\ k a w1 = (Err e, w').
Proof. unfold bind. destruct (c w) as [[a|e0|] w1]; naive_solver. Qed.

Lemma bind_Panic_inv c k w w' :
  bind c k w = (Panic, w') ->
  c w = (Panic, w') \/ exists a w1, c w = (Ok a, w1) /\ k a w1 = (Panic, w').
Proof. unfold bind. destruct (c w) as [[a|e0|] w1]; naive_solver. Qed.

Lemma on_err_Ok_inv f c w a w' :
  on_err f c w = (Ok a, w') -> c w = (Ok a, w').
Proof. unfold on_err. destruct (c w) as [[]]; naive_solver. Qed.

Lemma on_err_Err_inv f c w e w' :
  on_err f c w = (Err e, w') -> exists e0, c w = (Err e0, w') /\ e = f e0.
Proof. unfold on_err. destruct (c w) as [[]]; naive_solver. Qed.

Lemma try_Ok_inv c w r w' :
  try c w = (Ok r, w') ->
  match r with
  | inr a => c w = (Ok a, w')
  | inl e => c w = (Err e, w')
  end.
Proof. unfold try. destruct (c w) as [[]]; naive_solver. Qed.

Lemma try_Err_inv c w e w' : try c w <> (Err e, w').
Proof. unfold try. destruct (c w) as [[]]; naive_solver. Qed.

Lemma defer_inv cl c w r w' :
  defer cl c w = (r, w') -> exists w1, c w = (r, w1) /\ w' = cl r w1.
Proof. unfold defer. destruct (c w) as [r1 w1]; naive_solver. Qed.

Lemma recovering_Ok_inv rec c w a w' :
  recovering rec c w = (Ok a, w') -> c w = (Ok a, w').
Proof.
  unfold recovering. destruct (c w) as [[a0|e|] w1]; [naive_solver| |naive_solver].
  by destruct (rec e w1) as [[] ?].
Qed.

Lemma bind_Ok c k w a w1 : c w = (Ok a, w1) -> bind c k w = k a w1.
Proof. unfold bind. by intros ->. Qed.

Lemma bind_Err c k w e w1 : c w = (Err e, w1) -> bind c k w = (Err e, w1).
Proof. unfold bind. by intros ->. Qed.

Lemma obind_Ok_inv (c : outcome A) (k : A -> outcome B) b :
  obind c k = Ok b -> exists a, c = Ok a /\ k a = Ok b.
Proof. destruct c; naive_solver. Qed.

Lemma deref_Ok_inv (p : option A) a : deref p = Ok a -> p = Some a.
Proof. destruct p; naive_solver. Qed.
End monad_inversion.

(** An invariant of a loop that ends without an error, over the elements done. *)
Lemma foldM_Ok_ind {W A B} (f : B -> A -> M W B) (I : list A -> B -> Prop) l b w b' w' :
  I [] b ->
  (forall done x b b' w w', I done b -> f b x w = (Ok b', w') -> I (done ++ [x]) b') ->
  foldM f l b w = (Ok b', w') -> I l b'.
Proof.
  intros H0 Hs. change l with ([] ++ l) at 2. revert H0. generalize (@nil A) as done.
  revert b w. induction l as [|x l IH]; intros b w done Hi; simpl.
  - intros [= <- <-]. by rewrite app_nil_r.
  - intros (b1 & w1 & Hf & Hrest)%bind_Ok_inv. apply Hs with (1 := Hi) in Hf.
    specialize (IH b1 w1 (done ++ [x]) Hf Hrest). by rewrite <- (assoc_L (++)) in IH.
Qed.

(** [go_inv]: open every hypothesis that says how a piece of effectful code
    ended. *)
Ltac go_inv_step :=
  match goal with
  | H : bind _ _ _ = (Ok _, _) |- _ =>
      let a := fresh "a" in let w := fresh "w" in let H1 := fresh "Hc" in
      apply bind_Ok_inv in H as (a & w & H1 & H)
  | H : on_err _ _ _ = (Ok _, _) |- _ => apply on_err_Ok_inv in H
  | H : try _ _ = (Ok _, _) |- _ => apply try_Ok_inv in H
  | H : defer _ _ _ = (_, _) |- _ =>
      let w := fresh "w" in let H1 := fresh "Hw" in
      apply defer_inv in H as (w & H & H1)
  | H : recovering _ _ _ = (Ok _, _) |- _ => apply recovering_Ok_inv in H
  | H : obind _ _ = Ok _ |- _ =>
      let a := fresh "a" in let H1 := fresh "Hc" in
      apply obind_Ok_inv in H as (a & H1 & H)
  | H : deref _ = Ok _ |- _ => apply deref_Ok_inv in H
  | H : ret _ _ = (_, _) |- _ => unfold ret in H
  | H : throw _ _ = (_, _) |- _ => unfold throw in H
  | H : lift _ _ = (_, _) |- _ => unfold lift in H
  | H : effect _ _ = (_, _) |- _ => unfold effect in H
  end.
Ltac go_inv := repeat (go_inv_step; simplify_eq/=).

(** Close a goal about code that has ended. *)
Ltac go_done := solve [go_inv; simplify_eq/=; first [done | by eauto]].

(** [go_case]: split on the scrutinee of a [match] or [if] a hypothesis is
    stuck on. *)
Ltac go_case :=
  match goal with
  | H : context [match ?x with _ => _ end] |- _ =>
      let E := fresh "E" in destruct x eqn:E; simplify_eq/=
  | |- context [match ?x with _ => _ end] =>
      let E := fresh "E" in destruct x eqn:E; simplify_eq/=
  end.

(** ** Frames

    [keeps P c]: the effects of [c] keep [P], however [c] ends.  A predicate that
    every call of a function keeps, one call excepted, says when that call
    happens. *)
Definition keeps {W A} (P : W -> Prop) (c : M W A) : Prop := forall w, P w -> P (snd (c w)).

(** The tactics below close goals [keeps P c] for code built from calls that are
    known to keep [P]. *)
Create HintDb keeps discriminated.

Section keeps.
Context {W : Type} (P : W -> Prop).

Lemma keeps_ret {A} (a : A) : keeps P (ret a).
Proof. by intros w. Qed.
Lemma keeps_throw {A} e : keeps P (throw (A := A) e).
Proof. by intros w. Qed.
Lemma keeps_lift {A} (o : outcome A) : keeps P (lift o).
Proof. by intros w. Qed.
Lemma keeps_bind {A B} (c : M W A) (k : A -> M W B) :
  keeps P c -> (forall a, keeps P (k a)) -> keeps P (bind c k).
Proof.
  intros Hc Hk w Hw. specialize (Hc w Hw). unfold bind.
  destruct (c w) as [[a|e|] w']; [by apply Hk|done..].
Qed.
Lemma keeps_try {A} (c : M W A) : keeps P c -> keeps P (try c).
Proof. intros Hc w Hw. specialize (Hc w Hw). unfold try. by destruct (c w) as [[] ?]. Qed.
Lemma keeps_on_err {A} f (c : M W A) : keeps P c -> keeps P (on_err f c).
Proof. intros Hc w Hw. specialize (Hc w Hw). unfold on_err. by destruct (c w) as [[] ?]. Qed.
Lemma keeps_effect f : (forall w, P w -> P (f w)) -> keeps P (effect f).
Proof. intros Hf w. apply Hf. Qed.
Lemma keeps_defer {A} cl (c : M W A) :
  keeps P c -> (forall r w, P w -> P (cl r w)) -> keeps P (defer cl c).
Proof. intros Hc Hcl w Hw. specialize (Hc w Hw). unfold defer. destruct (c w). by apply Hcl. Qed.
Lemma keeps_recovering {A} rec (c : M W A) :
  keeps P c -> (forall e, keeps P (rec e)) -> keeps P (recovering rec c).
Proof.
  intros Hc Hr w Hw. specialize (Hc w Hw). unfold recovering.
  destruct (c w) as [[a|e|] w1]; [done| |done]. specialize (Hr e w1 Hc). by destruct (rec e w1) as [[] ?].
Qed.
Lemma keeps_foldM {A B} (f : B -> A -> M W B) l b :
  (forall b a, keeps P (f b a)) -> keeps P (foldM f l b).
Proof. intros Hf. revert b. induction l; intros b; [apply keeps_ret|by apply keeps_bind]. Qed.
End keeps.

#[export] Hint Resolve keeps_ret keeps_throw keeps_lift : keeps.

(** Go through code that keeps a predicate, splitting its branches; the calls it
    makes are looked up in [keeps]. *)
Ltac keeps_tac :=
  repeat (intros; match goal with
    | |- keeps _ (bind _ _) => apply keeps_bind
    | |- keeps _ (try _) => apply keeps_try
    | |- keeps _ (on_err _ _) => apply keeps_on_err
    | |- keeps _ (foldM _ _ _) => apply keeps_foldM
    | |- keeps _ (defer _ _) => apply keeps_defer
    | |- keeps _ (recovering _ _) => apply keeps_recovering
    | |- keeps _ (match ?x with _ => _ end) => destruct x
    | |- keeps _ ((match ?x with _ => _ end) _) => destruct x; cbv beta
    | |- keeps _ _ => solve [auto with keeps nocore | eauto with keeps nocore]
    end).

(** ** Success

    [succeeds P c]: started where [P] holds, [c] returns a value, neither an error nor
    a panic, and [P] holds again. *)
Definition succeeds {W A} (P : W -> Prop) (c : M W A) : Prop :=
  forall w, P w -> exists a w', c w = (Ok a, w') /\ P w'.

Create HintDb succeeds discriminated.

Section succeeds.
Context {W : Type} (P : W -> Prop).

Lemma succeeds_ret {A} (a : A) : succeeds P (ret a).
Proof. intros w Hw. by exists a, w. Qed.
Lemma succeeds_lift {A} (a : A) : succeeds P (lift (Ok a)).
Proof. apply succeeds_ret. Qed.
Lemma succeeds_bind {A B} (c : M W A) (k : A -> M W B) :
  succeeds P c -> (forall a, succeeds P (k a)) -> succeeds P (bind c k).
Proof.
  intros Hc Hk w Hw. destruct (Hc w Hw) as (a & w1 & E & Hw1).
  destruct (Hk a w1 Hw1) as (b & w2 & E2 & Hw2). exists b, w2. by rewrite (bind_Ok _ _ _ _ _ E).
Qed.
Lemma succeeds_on_err {A} f (c : M W A) : succeeds P c -> succeeds P (on_err f c).
Proof. intros Hc w Hw. destruct (Hc w Hw) as (a & w1 & E & Hw1). exists a, w1. unfold on_err. by rewrite E. Qed.
Lemma succeeds_foldM {A B} (f : B -> A -> M W B) l b :
  Forall (fun a => forall b, succeeds P (f b a)) l -> succeeds P (foldM f l b).
Proof.
  intros Hl. revert b. induction Hl as [|a l Ha _ IH]; intros b; [apply succeeds_ret|by apply succeeds_bind].
Qed.
(** A call whose outcome is [Ok] everywhere. *)
Lemma succeeds_True {A} (c : M W A) : (forall w, is_Ok (fst (c w)) = true) -> succeeds (fun _ => True) c.
Proof. intros Hc w _. specialize (Hc w). destruct (c w) as [[a| |] w']; try done. by exists a, w'. Qed.
End succeeds.

#[export] Hint Resolve succeeds_ret succeeds_lift : succeeds.

(** Go through code whose calls, looked up in [succeeds], all succeed. *)
Ltac succeeds_tac :=
  repeat (intros; match goal with
    | |- succeeds _ (bind _ _) => apply succeeds_bind
    | |- succeeds _ (on_err _ _) => apply succeeds_on_err
    | |- succeeds _ (match ?x with _ => _ end) => destruct x
    | |- succeeds _ _ => solve [eauto with succeeds nocore]
    end).

(** ** Lists *)

(** Removing the element at an index: [append(l[:i], l[i+1:]...)]. *)
Definition remove_at {A} (i : nat) (l : list A) : list A := take i l ++ drop (S i) l.

(** The [for i := range l { if p(l[i]) { ...; break } }] search: the index and
    the element of the first match. *)
Fixpoint find_index {A} (p : A -> bool) (l : list A) : option (nat * A) :=
  match l with
  | [] => None
  | x :: l' =>
      if p x then Some (0, x)
      else match find_index p l' with
           | Some (i, y) => Some (S i, y)
           | None => None
           end
  end.

Section find_index.
Context {A : Type}.
Implicit Types (p : A -> bool) (l : list A).

(** The search splits the list at its first match. *)
Lemma find_index_Some p l i x :
  find_index p l = Some (i, x) ->
  exists l1 l2, l = l1 ++ x :: l2 /\ length l1 = i /\ p x = true /\
                Forall (fun y => p y = false) l1.
Proof.
  revert i. induction l as [|y l IH]; intros i H; [done|]. simpl in H.
  destruct (p y) eqn:Hp; simplify_eq.
  - exists [], l. by rewrite Hp.
  - destruct (find_index p l) as [[j z]|]; simplify_eq.
    destruct (IH j eq_refl) as (l1 & l2 & -> & <- & ? & ?).
    exists (y :: l1), l2. by repeat constructor.
Qed.

Lemma find_index_None p l :
  find_index p l = None <-> Forall (fun y => p y = false) l.
Proof.
  induction l as [|y l IH]; simpl; [by split|]. rewrite Forall_cons.
  destruct (p y) eqn:Hp; [naive_solver|].
  destruct (find_index p l) as [[j z]|]; naive_solver.
Qed.

Lemma find_index_app_first p l1 x l2 :
  Forall (fun y => p y = false) l1 -> p x = true ->
  find_index p (l1 ++ x :: l2) = Some (length l1, x).
Proof. induction 1 as [|y l1 Hy _ IH]; intros Hx; simpl; [by rewrite Hx|]. by rewrite Hy, IH. Qed.

Lemma remove_at_app (l1 : list A) x l2 : remove_at (length l1) (l1 ++ x :: l2) = l1 ++ l2.
Proof.
  unfold remove_at. rewrite take_app_length.
  by rewrite (cons_middle x), (assoc_L (++)), drop_app_length'
    by (rewrite length_app; simpl; lia).
Qed.

Lemma Forall_remove_at (P : A -> Prop) i l : Forall P l -> Forall P (remove_at i l).
Proof. intros H. apply Forall_app. split; [by apply Forall_take|by apply Forall_drop]. Qed.
End find_index.

Lemma existsb_false_Forall {A} (p : A -> bool) (l : list A) :
  existsb p l = false <-> Forall (fun y => p y = false) l.
Proof.
  induction l as [|y l IH]; simpl; [by split|].
  rewrite Forall_cons, orb_false_iff. by rewrite IH.
Qed.

Lemma existsb_true_elem {A} (p : A -> bool) (l : list A) :
  existsb p l = true <-> exists x, x ∈ l /\ p x = true.
Proof.
  rewrite existsb_exists. setoid_rewrite list_elem_of_In. done.
Qed.

Lemma elem_filter {A} (p : A -> bool) l x : x ∈ List.filter p l <-> x ∈ l /\ p x = true.
Proof. rewrite !list_elem_of_In. apply filter_In. Qed.
