(* ===== verification/GoStrings.v ===== *)
(** * Go strings

    The functions of Go's [strings], [strconv] and [fmt] packages the program
    uses, on byte strings.  Case folding and white space are those of ASCII:
    Azure and Kubernetes names, tags and identifiers are ASCII text. *)

From stdpp Require Import sorting base tactics list strings gmap.
From Stdlib Require Import Ascii ZArith Lia DecimalString DecimalZ.
From S2P Require Import Prelude.

Open Scope string_scope.

(** ** Case folding *)

Definition lower_char (a : ascii) : ascii :=
  let n := N_of_ascii a in
  if (65 <=? n)%N && (n <=? 90)%N then ascii_of_N (n + 32) else a.

Fixpoint ToLower (s : string) : string :=
  match s with
  | EmptyString => EmptyString
  | String a s' => String (lower_char a) (ToLower s')
  end.

(** [strings.EqualFold] *)
Definition EqualFold (s t : string) : bool := String.eqb (ToLower s) (ToLower t).

(** Equality up to case, the equivalence [EqualFold] decides. *)
Definition fold_eq (s t : string) : Prop := ToLower s = ToLower t.

#[export] Instance fold_eq_equiv : Equivalence fold_eq.
Proof. split; unfold fold_eq; congruence. Qed.

Lemma EqualFold_spec s t : EqualFold s t = true <-> fold_eq s t.
Proof. apply String.eqb_eq. Qed.

Lemma EqualFold_false s t : EqualFold s t = false <-> ~ fold_eq s t.
Proof. apply String.eqb_neq. Qed.

#[export] Instance EqualFold_proper : Proper (fold_eq ==> fold_eq ==> eq) EqualFold.
Proof. intros s s' Hs t t' Ht. unfold EqualFold. by rewrite Hs, Ht. Qed.

Lemma EqualFold_refl s : EqualFold s s = true.
Proof. by apply EqualFold_spec. Qed.

Lemma EqualFold_sym s t : EqualFold s t = EqualFold t s.
Proof. apply eq_true_iff_eq. rewrite !EqualFold_spec. split; by intros ->. Qed.

Lemma lower_char_idemp a : lower_char (lower_char a) = lower_char a.
Proof. destruct a as [[] [] [] [] [] [] [] []]; reflexivity. Qed.

Lemma ToLower_idemp s : ToLower (ToLower s) = ToLower s.
Proof. induction s as [|a s IH]; simpl; [done|]. by rewrite IH, lower_char_idemp. Qed.

Lemma ToLower_app s t : ToLower (s +:+ t) = ToLower s +:+ ToLower t.
Proof. induction s as [|a s IH]; simpl; [done|]. by rewrite IH. Qed.

(** Two strings with a common prefix fold together exactly when their rests
    do. *)
Lemma EqualFold_app_l p s t : EqualFold (p +:+ s) (p +:+ t) = EqualFold s t.
Proof.
  unfold EqualFold. rewrite !ToLower_app. induction (ToLower p) as [|a q IH]; [done|].
  simpl. by rewrite Ascii.eqb_refl, IH.
Qed.

(** ** Prefixes *)

Fixpoint HasPrefix (s p : string) : bool :=
  match p, s with
  | EmptyString, _ => true
  | String a p', String b s' => if Ascii.eqb a b then HasPrefix s' p' else false
  | String _ _, EmptyString => false
  end.

Fixpoint str_drop (n : nat) (s : string) : string :=
  match n, s with
  | S n', String _ s' => str_drop n' s'
  | _, _ => s
  end.

(** [strings.TrimPrefix] *)
Definition TrimPrefix (s p : string) : string :=
  if HasPrefix s p then str_drop (String.length p) s else s.

Lemma HasPrefix_app p s : HasPrefix (p +:+ s) p = true.
Proof. induction p as [|a p IH]; simpl; [by destruct s|]. by rewrite Ascii.eqb_refl. Qed.

Lemma TrimPrefix_app p s : TrimPrefix (p +:+ s) p = s.
Proof.
  unfold TrimPrefix. rewrite HasPrefix_app. by induction p as [|a p IH]; simpl; [destruct s|].
Qed.

(** [strings.Contains] *)
Fixpoint Contains (s p : string) : bool :=
  HasPrefix s p || match s with EmptyString => false | String _ s' => Contains s' p end.

Lemma length_str_app a b : String.length (a +:+ b) = (String.length a + String.length b)%nat.
Proof.
  induction a as [|c a IH]; [done|]. change (String c a +:+ b) with (String c (a +:+ b)). simpl. by rewrite IH.
Qed.

Lemma string_app_nil_r s : s +:+ "" = s.
Proof. induction s as [|c s IH]; [done|]. change (String c s +:+ "") with (String c (s +:+ "")). by rewrite IH. Qed.

Lemma str_app_assoc (a b c : string) : a +:+ b +:+ c = (a +:+ b) +:+ c.
Proof.
  induction a as [|x a IH]; [done|].
  transitivity (String x (a +:+ b +:+ c)); [done|]. by rewrite IH.
Qed.

Lemma Contains_mid pre p post : Contains (pre +:+ p +:+ post) p = true.
Proof.
  induction pre as [|a pre IH].
  - change ("" +:+ p +:+ post) with (p +:+ post).
    assert (HasPrefix (p +:+ post) p = true) as Hp by apply HasPrefix_app.
    destruct (p +:+ post); simpl in *; by rewrite Hp.
  - change (String a pre +:+ p +:+ post) with (String a (pre +:+ p +:+ post)). simpl.
    rewrite IH. apply orb_true_r.
Qed.

(** ** Splitting and joining *)

(** [strings.Split] with a one-byte separator: the pieces between its
    occurrences, at least one. *)
Fixpoint Split (s : string) (sep : ascii) : list string :=
  match s with
  | EmptyString => [EmptyString]
  | String a s' =>
      if Ascii.eqb a sep then EmptyString :: Split s' sep
      else match Split s' sep with
           | [] => [String a EmptyString]
           | p :: ps => String a p :: ps
           end
  end.

(** [strings.Join] *)
Fixpoint Join (l : list string) (sep : string) : string :=
  match l with
  | [] => EmptyString
  | [s] => s
  | s :: l' => s +:+ sep +:+ Join l' sep
  end.

Lemma Join_snoc l s sep :
  Join (l ++ [s])%list sep = match l with [] => s | _ => Join l sep +:+ sep +:+ s end.
Proof.
  induction l as [|x l IH]; [done|]. simpl in *. destruct l as [|y l]; [done|].
  transitivity (x +:+ sep +:+ Join ((y :: l) ++ [s])%list sep); [done|].
  rewrite IH. transitivity ((x +:+ sep +:+ Join (y :: l) sep) +:+ sep +:+ s); [|done].
  by rewrite <- !str_app_assoc.
Qed.

(** The byte does not occur in the string. *)
Fixpoint no_byte (a : ascii) (s : string) : bool :=
  match s with
  | EmptyString => true
  | String b s' => negb (Ascii.eqb a b) && no_byte a s'
  end.

Lemma Split_no_byte sep s : no_byte sep s = true -> Split s sep = [s].
Proof.
  induction s as [|a s IH]; simpl; [done|]. intros [Ha Hs]%andb_true_iff.
  rewrite Ascii.eqb_sym. apply negb_true_iff in Ha. rewrite Ha. by rewrite IH.
Qed.

Lemma Split_nonempty sep s : Split s sep <> [].
Proof. destruct s as [|a s]; simpl; [done|]. destruct (Ascii.eqb a sep), (Split s sep); done. Qed.

(** Splitting a string that is one piece, the separator and a rest. *)
Lemma Split_app sep s t :
  no_byte sep s = true -> Split (s +:+ String sep t) sep = s :: Split t sep.
Proof.
  induction s as [|a s IH]; simpl; [by rewrite Ascii.eqb_refl|].
  intros [Ha Hs]%andb_true_iff. rewrite Ascii.eqb_sym. apply negb_true_iff in Ha. rewrite Ha.
  by rewrite IH.
Qed.

Lemma Split_app_sep sep s t : Split (s +:+ String sep t) sep = (Split s sep ++ Split t sep)%list.
Proof.
  induction s as [|a s IH]; [by simpl; rewrite Ascii.eqb_refl|].
  change (String a s +:+ String sep t) with (String a (s +:+ String sep t)). simpl.
  rewrite IH. destruct (Ascii.eqb a sep); [done|].
  by destruct (Split s sep) eqn:Hs; [destruct (Split_nonempty sep s)|].
Qed.

(** Joining the pieces gives the string back. *)
Lemma Join_Split sep s : Join (Split s sep) (String sep EmptyString) = s.
Proof.
  induction s as [|a s IH]; simpl; [done|].
  destruct (Ascii.eqb_spec a sep) as [->|Ha].
  - pose proof (Split_nonempty sep s). destruct (Split s sep) as [|p ps] eqn:Hs; [done|].
    transitivity (String sep (Join (p :: ps) (String sep EmptyString))); [done|by rewrite IH].
  - destruct (Split s sep) as [|p ps] eqn:Hs; [by destruct (Split_nonempty sep s)|].
    rewrite <- IH. by destruct ps.
Qed.

(** [strings.ReplaceAll] of a one-byte pattern. *)
Fixpoint ReplaceAll (s : string) (old : ascii) (new : string) : string :=
  match s with
  | EmptyString => EmptyString
  | String a s' => (if Ascii.eqb a old then new else String a EmptyString) +:+ ReplaceAll s' old new
  end.

(** ** White space *)

Definition is_space (a : ascii) : bool :=
  let n := N_of_ascii a in ((9 <=? n)%N && (n <=? 13)%N) || (n =? 32)%N.

Fixpoint TrimLeft (s : string) : string :=
  match s with
  | String a s' => if is_space a then TrimLeft s' else s
  | EmptyString => EmptyString
  end.

Fixpoint TrimRight (s : string) : string :=
  match s with
  | EmptyString => EmptyString
  | String a s' =>
      match TrimRight s' with
      | EmptyString => if is_space a then EmptyString else String a EmptyString
      | t => String a t
      end
  end.

(** [strings.TrimSpace] *)
Definition TrimSpace (s : string) : string := TrimRight (TrimLeft s).

Lemma TrimRight_idemp s : TrimRight (TrimRight s) = TrimRight s.
Proof.
  induction s as [|a s IH]; simpl; [done|].
  destruct (TrimRight s) as [|b t] eqn:Ht; simpl.
  - destruct (is_space a) eqn:Ha; simpl; [done|]. by rewrite Ha.
  - simpl in IH. by rewrite IH.
Qed.

Lemma TrimRight_head a s :
  is_space a = false -> exists t, TrimRight (String a s) = String a t.
Proof. intros Ha. simpl. destruct (TrimRight s); [rewrite Ha|]; eauto. Qed.

Lemma TrimLeft_TrimRight s : TrimLeft (TrimRight (TrimLeft s)) = TrimRight (TrimLeft s).
Proof.
  induction s as [|a s IH]; [done|]. simpl. destruct (is_space a) eqn:Ha; [done|].
  destruct (TrimRight_head a s Ha) as [t ->]. simpl. by rewrite Ha.
Qed.

Lemma TrimSpace_idemp s : TrimSpace (TrimSpace s) = TrimSpace s.
Proof. unfold TrimSpace. rewrite TrimLeft_TrimRight. apply TrimRight_idemp. Qed.

(** ** Order *)

(** [sort.Strings], by the bytes. *)
Definition str_le (s t : string) : Prop := String.leb s t = true.
#[export] Instance str_le_dec : RelDecision str_le.
Proof. intros s t. unfold str_le. apply _. Defined.
Definition sortStrings (l : list string) : list string := merge_sort str_le l.

#[export] Instance str_le_total : Total str_le.
Proof. intros s t. apply String.leb_total. Qed.

#[export] Instance str_le_trans : Transitive str_le.
Proof.
  intros s t u. unfold str_le, String.leb. revert t u.
  induction s as [|a s IH]; intros [|b t] [|c u]; simpl; try done.
  unfold Ascii.compare. intros Hab Hbc.
  destruct (N.compare_spec (N_of_ascii a) (N_of_ascii b)) as [Eab|Lab|Gab]; [..|done];
    (destruct (N.compare_spec (N_of_ascii b) (N_of_ascii c)) as [Ebc|Lbc|Gbc]; [..|done]);
    destruct (N.compare_spec (N_of_ascii a) (N_of_ascii c)); try done; try lia.
  by eapply IH.
Qed.

(** ** Decimal integers *)

(** [strconv.Itoa], and [%d] of [fmt]. *)
Definition Itoa (z : Z) : string := NilZero.string_of_int (Z.to_int z).

Definition int64_min : Z := - 2 ^ 63.
Definition int64_max : Z := 2 ^ 63 - 1.
Definition int32_max : Z := 2 ^ 31 - 1.

(** [strconv.Atoi]: an optional sign and at least one decimal digit, in the
    range of a 64-bit [int]. *)
Definition Atoi (s : string) : option Z :=
  let parse (neg : bool) (t : string) : option Z :=
    match NilZero.uint_of_string t with
    | Some u =>
        let z := Z.of_uint u in
        let z := if neg then Z.opp z else z in
        if (int64_min <=? z)%Z && (z <=? int64_max)%Z then Some z else None
    | None => None
    end in
  match s with
  | String "-"%char t => parse true t
  | String "+"%char t => parse false t
  | _ => parse false s
  end.

Definition is_sign (a : ascii) : bool := Ascii.eqb a "-" || Ascii.eqb a "+".

(** A printed number starts with a digit. *)
Lemma string_of_uint_head u :
  match NilZero.string_of_uint u with
  | String a _ => is_sign a = false
  | EmptyString => False
  end.
Proof. by destruct u. Qed.

Lemma Atoi_unsigned u :
  u <> Decimal.Nil -> (Z.of_uint u <= int64_max)%Z ->
  Atoi (NilZero.string_of_uint u) = Some (Z.of_uint u).
Proof.
  intros Hu Hle. pose proof (string_of_uint_head u) as Hh. unfold Atoi.
  assert (0 <= Z.of_uint u)%Z as H0 by (unfold Z.of_uint; destruct (Pos.of_uint u); lia).
  assert ((int64_min <=? Z.of_uint u) && (Z.of_uint u <=? int64_max) = true)%Z as Hr.
  { apply andb_true_iff. split; apply Z.leb_le; [unfold int64_min; lia|done]. }
  assert (NilZero.uint_of_string (NilZero.string_of_uint u) = Some u) as Hp
    by by apply NilZero.usu.
  destruct (NilZero.string_of_uint u) as [|a t]; [done|].
  destruct a as [[] [] [] [] [] [] [] []]; try discriminate Hh; rewrite Hp; by rewrite Hr.
Qed.

Lemma to_uint_nonnil z u : Z.to_int z = Decimal.Pos u \/ Z.to_int z = Decimal.Neg u -> u <> Decimal.Nil.
Proof.
  destruct z as [|p|p]; simpl; intros [H|H]; simplify_eq; [done| |];
    apply DecimalPos.Unsigned.to_uint_nonnil.
Qed.

(** Reading back a printed number. *)
Lemma Atoi_Itoa z :
  (int64_min <= z <= int64_max)%Z -> Atoi (Itoa z) = Some z.
Proof.
  intros Hz. unfold Itoa. pose proof (DecimalZ.of_to z) as Hof.
  destruct (Z.to_int z) as [u|u] eqn:Hi; simpl in Hof.
  - subst z. apply Atoi_unsigned; [eapply to_uint_nonnil; eauto|lia].
  - assert (u <> Decimal.Nil) as Hu by (eapply to_uint_nonnil; eauto).
    unfold Atoi. simpl. rewrite (NilZero.usu _ Hu). rewrite Hof.
    destruct (Z.leb_spec int64_min z), (Z.leb_spec z int64_max); simpl; [done|lia..].
Qed.

Lemma Itoa_inj z1 z2 :
  (int64_min <= z1 <= int64_max)%Z -> (int64_min <= z2 <= int64_max)%Z ->
  Itoa z1 = Itoa z2 -> z1 = z2.
Proof. intros H1 H2 H. apply Atoi_Itoa in H1, H2. congruence. Qed.

(** ** FNV-1a, 64 bits ([hash/fnv.New64a]) and [%x] *)

Definition fnv64_offset : Z := 14695981039346656037.
Definition fnv64_prime : Z := 1099511628211.

Fixpoint fnv64a_from (h : Z) (s : string) : Z :=
  match s with
  | EmptyString => h
  | String a s' =>
      fnv64a_from ((Z.lxor h (Z.of_N (N_of_ascii a)) * fnv64_prime) mod 2 ^ 64) s'
  end.
Definition fnv64a (s : string) : Z := fnv64a_from fnv64_offset s.

(** Lower-case hexadecimal without leading zeros. *)
Definition hex_digit (z : Z) : ascii :=
  ascii_of_N (Z.to_N (if (z <? 10)%Z then 48 + z else 87 + z)).
Fixpoint hex_go (fuel : nat) (z : Z) (acc : string) : string :=
  match fuel with
  | O => acc
  | S f =>
      let acc' := String (hex_digit (z mod 16)) acc in
      if (z / 16 =? 0)%Z then acc' else hex_go f (z / 16)%Z acc'
  end.
(** Sixteen digits are enough for 64 bits. *)
Definition hex64 (z : Z) : string := hex_go 16 z EmptyString.

Example fnv64a_a : hex64 (fnv64a "a") = "af63dc4c8601ec8c".
Proof. reflexivity. Qed.

(** [fmt.Sprintf("%s/%s", a, b)] *)
Definition slashed (a b : string) : string := a +:+ "/" +:+ b.

(** [%q] of a plain text. *)
Definition quoted (s : string) : string := String "034" (s +:+ String "034" "").
