(* ===== verification/Types.v ===== *)
(** * Constants and custom resources

    The constants of [pkg/consts], the pointer helpers of [pkg/utils/to] and
    the custom resources of [api/v1alpha1] with the object metadata the
    controllers read and write.  Pointers are [option], slices are [list],
    maps are [gmap]; a nil slice and an empty one are the same list.  Strings
    are byte strings, [int32] and [int] fields are [Z]. *)

From stdpp Require Import base tactics list strings gmap.
From Stdlib Require Import ZArith Lia.
From S2P Require Import Prelude GoStrings.

Open Scope string_scope.

(** ** [pkg/consts] *)
Module consts.
Definition SGCFinalizerName : string := "static-gateway-configuration-controller.microsoft.com".
Definition LBConfigFinalizerName : string := "gateway-lb-configuration-controller.microsoft.com".
Definition VMConfigFinalizerName : string := "gateway-vm-configuration-controller.microsoft.com".
Definition DefaultGatewayLBName : string := "kubeegressgateway-ilb".
Definition ManagedResourcePrefix : string := "egressgateway-".
Definition WireguardPrivateKeyName : string := "PrivateKey".
Definition WireguardPublicKeyName : string := "PublicKey".
Definition WireguardPortStart : Z := 6000.
Definition WireguardPortEnd : Z := 7000.
Definition GatewayHealthProbeEndpoint : string := "/gw/".
Definition AKSNodepoolTagKey : string := "aks-managed-poolName".
Definition AKSNodeNICTagKey : string := "aks-managed-nic-name".
Definition AKSStaticGatewayNICTagKey : string := "aks-managed-static-gateway-nic".
Definition AKSNodepoolNameLabel : string := "kubernetes.azure.com/agentpool".
Definition AKSNodepoolModeLabel : string := "kubernetes.azure.com/mode".
Definition UpstreamNodepoolModeLabel : string := "kubeegressgateway.azure.com/mode".
Definition AKSNodepoolModeValue : string := "gateway".
Definition AKSNodepoolIPPrefixSizeTagKey : string := "aks-managed-gatewayIPPrefixSize".
Definition OwningSGCNamespaceLabel : string :=
  "egressgateway.kubernetes.azure.com/owning-gateway-config-namespace".
Definition OwningSGCNameLabel : string :=
  "egressgateway.kubernetes.azure.com/owning-gateway-config-name".
Definition DefaultUserAgent : string := "kube-egress-gateway-controller".
Definition GatewayNetnsName : string := "ns-static-egress-gateway".
Definition WireguardLinkName : string := "wg0".
Definition WiregaurdLinkNamePrefix : string := "wg-".
Definition HostVethLinkName : string := "host-gateway".
Definition HostLinkName : string := "host0".
Definition GatewayIP : string := "fe80::1/64".
Definition PreRoutingChain : string := "PREROUTING".
Definition OutputChain : string := "OUTPUT".
Definition MangleTable : string := "mangle".
Definition PodNamespaceEnvKey : string := "MY_POD_NAMESPACE".
Definition NodeNameEnvKey : string := "MY_NODE_NAME".
Definition Eth0Mark : Z := 8738.
Definition ILBIPLabel : string := "eth0:egress".
Definition CNIConfDir : string := "/etc/cni/net.d".
Definition CNIGatewayAnnotationKey : string := "kubernetes.azure.com/static-gateway-configuration".
Definition CNIManagerNotReadyTaintKey : string := "egressgateway.kubernetes.azure.com/cni-not-ready".
Definition KubeEgressCNIName : string := "kube-egress-cni".
Definition KubeEgressIPAMCNIName : string := "kube-egress-cni-ipam".
End consts.

(** ** [pkg/utils/to] *)

(** The zero value of a Go type. *)
Class GoZero (A : Type) := zero : A.
#[export] Instance zero_string : GoZero string := EmptyString.
#[export] Instance zero_Z : GoZero Z := 0%Z.
#[export] Instance zero_bool : GoZero bool := false.

Definition Ptr {A} (v : A) : option A := Some v.
Definition Val {A} `{GoZero A} (v : option A) : A :=
  match v with None => zero | Some a => a end.

(** ** Object metadata *)

(** [types.NamespacedName] *)
Record NamespacedName := nn { nn_namespace : string; nn_name : string }.

Record OwnerReference := {
  or_kind : string;
  or_name : string;
  or_uid : string;
  or_controller : bool;
}.

(** [metav1.ObjectMeta], with the fields the controllers use. *)
Record ObjectMeta := {
  om_name : string;
  om_namespace : string;
  om_uid : string;
  om_deletion : option Z;   (** [DeletionTimestamp]; [IsZero] is [None] *)
  om_finalizers : list string;
  om_owners : list OwnerReference;
  om_labels : gmap string string;
}.

Definition om_key (m : ObjectMeta) : NamespacedName := nn (om_namespace m) (om_name m).
Definition deleting (m : ObjectMeta) : bool :=
  match om_deletion m with None => false | Some _ => true end.

(** The metadata of [&T{ObjectMeta: metav1.ObjectMeta{Name: n, Namespace: ns}}]. *)
Definition new_meta (name namespace : string) : ObjectMeta :=
  {| om_name := name; om_namespace := namespace; om_uid := ""; om_deletion := None;
     om_finalizers := []; om_owners := []; om_labels := ∅ |}.

(** ** [StaticGatewayConfiguration] *)

Record GatewayVmssProfile := {
  VmssResourceGroup : string;
  VmssName : string;
  PublicIpPrefixSize : Z;
}.

(** [RouteType] is a string type; the CRD admits any string, the code tests for
    [azureNetworking]. *)
Definition RouteStaticEgressGateway : string := "staticEgressGateway".
Definition RouteAzureNetworking : string := "azureNetworking".

Record StaticGatewayConfigurationSpec := {
  sgc_GatewayNodepoolName : string;
  sgc_GatewayVmssProfile : GatewayVmssProfile;
  sgc_DefaultRoute : string;
  sgc_ProvisionPublicIps : bool;
  sgc_PublicIpPrefixId : string;
  sgc_ExcludeCidrs : list string;
}.

(** [corev1.ObjectReference] *)
Record ObjectReference := {
  ref_APIVersion : string;
  ref_Kind : string;
  ref_Name : string;
  ref_Namespace : string;
}.

Record GatewayServerProfile := {
  gsp_Ip : string;
  gsp_Port : Z;
  gsp_PublicKey : string;
  gsp_PrivateKeySecretRef : option ObjectReference;
}.

Record StaticGatewayConfigurationStatus := {
  sgc_EgressIpPrefix : string;
  sgc_GatewayServerProfile : GatewayServerProfile;
}.

Record StaticGatewayConfiguration := {
  sgc_meta : ObjectMeta;
  sgc_Spec : StaticGatewayConfigurationSpec;
  sgc_Status : StaticGatewayConfigurationStatus;
}.

(** ** [GatewayLBConfiguration] *)

Record GatewayLBConfigurationSpec := {
  lbc_GatewayNodepoolName : string;
  lbc_GatewayVmssProfile : GatewayVmssProfile;
  lbc_ProvisionPublicIps : bool;
  lbc_PublicIpPrefixId : string;
}.

Record GatewayLBConfigurationStatus := {
  lbc_FrontendIp : string;
  lbc_ServerPort : Z;
  lbc_EgressIpPrefix : string;
}.

Record GatewayLBConfiguration := {
  lbc_meta : ObjectMeta;
  lbc_Spec : GatewayLBConfigurationSpec;
  lbc_Status : option GatewayLBConfigurationStatus;
}.

(** ** [GatewayVMConfiguration] *)

Record GatewayVMConfigurationSpec := {
  vmc_GatewayNodepoolName : string;
  vmc_GatewayVmssProfile : GatewayVmssProfile;
  vmc_ProvisionPublicIps : bool;
  vmc_PublicIpPrefixId : string;
}.

Record GatewayVMProfile := {
  NodeName : string;
  PrimaryIP : string;
  SecondaryIP : string;
}.

Record GatewayVMConfigurationStatus := {
  vmc_EgressIpPrefix : string;
  vmc_GatewayVMProfiles : list GatewayVMProfile;
}.

Record GatewayVMConfiguration := {
  vmc_meta : ObjectMeta;
  vmc_Spec : GatewayVMConfigurationSpec;
  vmc_Status : option GatewayVMConfigurationStatus;
}.

(** ** [PodEndpoint] *)

Record PodEndpointSpec := {
  pe_StaticGatewayConfiguration : string;
  pe_PodIpAddress : string;
  pe_PodPublicKey : string;
}.

Record PodEndpoint := {
  pe_meta : ObjectMeta;
  pe_Spec : PodEndpointSpec;
}.

(** ** [GatewayStatus] *)

Record GatewayConfiguration := {
  gc_StaticGatewayConfiguration : string;
  gc_InterfaceName : string;
}.

Record PeerConfiguration := {
  pc_PodEndpoint : string;
  pc_InterfaceName : string;
  pc_PublicKey : string;
}.

Record GatewayStatusSpec := {
  gs_ReadyGatewayConfigurations : list GatewayConfiguration;
  gs_ReadyPeerConfigurations : list PeerConfiguration;
}.

Record GatewayStatus := {
  gs_meta : ObjectMeta;
  gs_Spec : GatewayStatusSpec;
}.

(** ** Core objects the program reads *)

(** [corev1.Secret] *)
Record Secret := {
  sec_meta : ObjectMeta;
  sec_Data : gmap string string;
}.

(** [corev1.Node] and [corev1.Pod], with the fields the program reads. *)
Record Taint := {
  taint_Key : string;
  taint_Value : string;
  taint_Effect : string;
}.
Record Node := {
  node_meta : ObjectMeta;
  node_taints : list Taint;
}.

(** [corev1.ConfigMap] *)
Record ConfigMap := {
  cm_meta : ObjectMeta;
  cm_Data : gmap string string;
}.

Record Pod := {
  pod_meta : ObjectMeta;
  pod_annotations : gmap string string;
}.

(** ** Decidable equality, for [equality.Semantic.DeepEqual] *)
#[export] Instance NamespacedName_eq_dec : EqDecision NamespacedName.
Proof. solve_decision. Defined.
#[export] Instance NamespacedName_countable : Countable NamespacedName.
Proof.
  apply (inj_countable' (fun k => (nn_namespace k, nn_name k)) (fun p => nn p.1 p.2)).
  by intros [].
Defined.
#[export] Instance OwnerReference_eq_dec : EqDecision OwnerReference.
Proof. solve_decision. Defined.
#[export] Instance ObjectMeta_eq_dec : EqDecision ObjectMeta.
Proof. solve_decision. Defined.
#[export] Instance GatewayVmssProfile_eq_dec : EqDecision GatewayVmssProfile.
Proof. solve_decision. Defined.
#[export] Instance sgc_spec_eq_dec : EqDecision StaticGatewayConfigurationSpec.
Proof. solve_decision. Defined.
#[export] Instance ObjectReference_eq_dec : EqDecision ObjectReference.
Proof. solve_decision. Defined.
#[export] Instance GatewayServerProfile_eq_dec : EqDecision GatewayServerProfile.
Proof. solve_decision. Defined.
#[export] Instance sgc_status_eq_dec : EqDecision StaticGatewayConfigurationStatus.
Proof. solve_decision. Defined.
#[export] Instance sgc_eq_dec : EqDecision StaticGatewayConfiguration.
Proof. solve_decision. Defined.
#[export] Instance lbc_spec_eq_dec : EqDecision GatewayLBConfigurationSpec.
Proof. solve_decision. Defined.
#[export] Instance lbc_status_eq_dec : EqDecision GatewayLBConfigurationStatus.
Proof. solve_decision. Defined.
#[export] Instance lbc_eq_dec : EqDecision GatewayLBConfiguration.
Proof. solve_decision. Defined.
#[export] Instance vmc_spec_eq_dec : EqDecision GatewayVMConfigurationSpec.
Proof. solve_decision. Defined.
#[export] Instance GatewayVMProfile_eq_dec : EqDecision GatewayVMProfile.
Proof. solve_decision. Defined.
#[export] Instance vmc_status_eq_dec : EqDecision GatewayVMConfigurationStatus.
Proof. solve_decision. Defined.
#[export] Instance vmc_eq_dec : EqDecision GatewayVMConfiguration.
Proof. solve_decision. Defined.
#[export] Instance pe_spec_eq_dec : EqDecision PodEndpointSpec.
Proof. solve_decision. Defined.
#[export] Instance pe_eq_dec : EqDecision PodEndpoint.
Proof. solve_decision. Defined.
#[export] Instance GatewayConfiguration_eq_dec : EqDecision GatewayConfiguration.
Proof. solve_decision. Defined.
#[export] Instance PeerConfiguration_eq_dec : EqDecision PeerConfiguration.
Proof. solve_decision. Defined.
