(* ===== verification/Kube.v ===== *)
(** * The Kubernetes interfaces and the metrics

    What the controllers call outside the repository is a parameter: the
    controller-runtime client ([Store], one instance per kind of object), the
    helpers of [controllerutil] ([Finalizers], [OwnerRefs]), the event recorder,
    the Prometheus collectors and the process environment.  Each is a class
    over the type [W] of worlds; the [...Laws] classes state the documented
    behaviour a theorem relies on.  [pkg/metrics] is modelled on top of the
    Prometheus interface. *)

From stdpp Require Import base tactics list strings gmap.
From Stdlib Require Import ZArith Lia.
From S2P Require Import Prelude GoStrings Types.

Open Scope string_scope.

(** ** The API server client

    [kUpdate], [kStatusUpdate] and [kCreate] return the object as the server
    left it, which is what the client writes back through the pointer it is
    given.  [kCreateOrPatch] is [controllerutil.CreateOrPatch] and
    [CreateOrUpdate]: the mutate function changes the object in place and may
    fail, so both return the object's final contents with the error. *)
Class Store (W Obj : Type) := {
  kGet : NamespacedName -> M W Obj;
  kList : M W (list Obj);
  kCreate : Obj -> M W Obj;
  kUpdate : Obj -> M W Obj;
  kStatusUpdate : Obj -> M W Obj;
  kDelete : NamespacedName -> M W unit;
  kCreateOrPatch :
    Obj -> (Obj -> M W (Obj * option gerror)) -> M W (Obj * option gerror);
}.

(** A mutate function that has no effect of its own. *)
Definition mutating {W Obj} (f : Obj -> Obj * option gerror) :
    Obj -> M W (Obj * option gerror) :=
  fun o => ret (f o).

(** ** [controllerutil] on metadata *)
Class Finalizers := {
  ContainsFinalizer : ObjectMeta -> string -> bool;
  AddFinalizer : ObjectMeta -> string -> ObjectMeta;
  RemoveFinalizer : ObjectMeta -> string -> ObjectMeta;
}.

(** Adding makes a finalizer present, removing makes it absent; neither touches
    the other finalizers or the rest of the metadata. *)
Class FinalizersLaws `{Finalizers} := {
  contains_add m f : ContainsFinalizer (AddFinalizer m f) f = true;
  contains_remove m f : ContainsFinalizer (RemoveFinalizer m f) f = false;
  contains_remove_ne m f g :
    f <> g -> ContainsFinalizer (RemoveFinalizer m f) g = ContainsFinalizer m g;
  add_key m f : om_key (AddFinalizer m f) = om_key m;
  remove_key m f : om_key (RemoveFinalizer m f) = om_key m;
}.

(** [SetControllerReference] fails when another controller owns the object. *)
Class OwnerRefs := {
  SetControllerReference : ObjectMeta -> ObjectMeta -> gerror + ObjectMeta;
  SetOwnerReference : ObjectMeta -> ObjectMeta -> gerror + ObjectMeta;
}.

(** The object's metadata and the error after such a call: on an error the
    object is left as it was. *)
Definition after_set (m : ObjectMeta) (r : gerror + ObjectMeta) : ObjectMeta * option gerror :=
  match r with inr m' => (m', None) | inl e => (m, Some e) end.

(** ** Events, collectors, environment *)
Class Recorder (W : Type) := {
  (** [Recorder.Event(object, type, reason, message)] *)
  recordEvent : NamespacedName -> string -> string -> string -> W -> W;
}.
Definition EventTypeWarning : string := "Warning".
Definition EventTypeNormal : string := "Normal".

Class Prometheus (W : Type) := {
  (** [ControllerReconcileFailCount.WithLabelValues(labels...).Inc()] *)
  failCountInc : list string -> W -> W;
  (** [ControllerReconcileLatency.WithLabelValues(labels...).Observe(_)] *)
  latencyObserve : list string -> W -> W;
}.

Class OsEnv := Getenv : string -> string.

(** ** [pkg/metrics] *)
Module metrics.
Section metrics.
Context {W : Type} `{Prometheus W}.

(** The start time is not modelled: it only sets the observed latency. *)
Record MetricsContext := { mc_labels : list string }.

Definition NewMetricsContext
    (namespace operation subscriptionID resourceGroup resource : string) : MetricsContext :=
  {| mc_labels := [namespace; operation; subscriptionID; resourceGroup; resource] |}.

Definition observe (mc : MetricsContext) (w : W) : W :=
  latencyObserve (take 4 (mc_labels mc)) w.

Definition ObserveControllerReconcileMetrics (mc : MetricsContext) (succeeded : bool) (w : W) : W :=
  let w1 := if succeeded then w else failCountInc (mc_labels mc) w in
  observe mc w1.

(** [succeeded := false; defer func() { mc.Observe(succeeded) }()] around a body
    that sets [succeeded] exactly when it returns without an error. *)
Definition observed {A} (mc : MetricsContext) (body : M W A) : M W A :=
  defer (fun r w => ObserveControllerReconcileMetrics mc (is_Ok r) w) body.
End metrics.
End metrics.

(** ** Results *)

(** The error-valued return of a call that has a result object besides. *)
Definition fail_with {W A} (e : option gerror) (a : A) : M W A :=
  match e with None => ret a | Some e => throw e end.

(** ** Reporting *)

(** [Recorder.Event(gwConfig, ...)] after a call, which is then returned. *)
Definition reportEvents {W} `{Recorder W} (gwKey : NamespacedName) (errorReason : string)
    (success : option (string * string)) (c : M W unit) : M W unit :=
  let! r := try c in
  match r with
  | inl err =>
      do! effect (recordEvent gwKey EventTypeWarning errorReason (Error err)); throw err
  | inr _ =>
      match success with
      | Some (reason, msg) => effect (recordEvent gwKey EventTypeNormal reason msg)
      | None => ret tt
      end
  end.

(** ** The list implementation of the [controllerutil] interfaces

    What the documentation of [controllerutil] describes, as an executable
    instance: it shows that the laws can hold. *)
Module ListMeta.
Definition with_finalizers (m : ObjectMeta) (fs : list string) : ObjectMeta :=
  {| om_name := om_name m; om_namespace := om_namespace m; om_uid := om_uid m;
     om_deletion := om_deletion m; om_finalizers := fs; om_owners := om_owners m;
     om_labels := om_labels m |}.

Definition has (fs : list string) (f : string) : bool := existsb (String.eqb f) fs.

#[export] Instance finalizers : Finalizers := {|
  ContainsFinalizer m f := has (om_finalizers m) f;
  AddFinalizer m f :=
    if has (om_finalizers m) f then m else with_finalizers m (om_finalizers m ++ [f]);
  RemoveFinalizer m f :=
    with_finalizers m (List.filter (fun g => negb (String.eqb f g)) (om_finalizers m));
|}.

Lemma has_app fs f : has (fs ++ [f]) f = true.
Proof. unfold has. rewrite existsb_app. simpl. rewrite String.eqb_refl. by destruct existsb. Qed.

Lemma has_filter fs f g :
  has (List.filter (fun x => negb (String.eqb f x)) fs) g = negb (String.eqb f g) && has fs g.
Proof.
  induction fs as [|x fs IH]; simpl; [by destruct (String.eqb f g)|].
  destruct (String.eqb_spec f x) as [->|Hx]; simpl; unfold has in *; simpl; rewrite IH.
  - destruct (String.eqb_spec x g) as [->|]; simpl; [done|].
    by destruct (String.eqb_spec g x); [congruence|].
  - destruct (String.eqb_spec g x) as [->|]; simpl; [|done].
    destruct (String.eqb_spec f x); [done|]. done.
Qed.

#[export] Instance finalizers_laws : FinalizersLaws.
Proof.
  split; simpl.
  - intros m f. destruct (has (om_finalizers m) f) eqn:Hh; simpl; [done|apply has_app].
  - intros m f. rewrite has_filter. by rewrite String.eqb_refl.
  - intros m f g Hne. rewrite has_filter. by destruct (String.eqb_spec f g).
  - intros m f. by destruct (has (om_finalizers m) f).
  - done.
Qed.

(** The owner is recorded as the only controller; an object another controller
    owns is refused. *)
Definition with_owners (m : ObjectMeta) (os : list OwnerReference) : ObjectMeta :=
  {| om_name := om_name m; om_namespace := om_namespace m; om_uid := om_uid m;
     om_deletion := om_deletion m; om_finalizers := om_finalizers m; om_owners := os;
     om_labels := om_labels m |}.

Definition owner_of (o : ObjectMeta) (ctrl : bool) : OwnerReference :=
  {| or_kind := ""; or_name := om_name o; or_uid := om_uid o; or_controller := ctrl |}.

Definition add_owner (o : ObjectMeta) (ctrl : bool) (m : ObjectMeta) : ObjectMeta :=
  with_owners m
    (List.filter (fun r => negb (String.eqb (or_uid r) (om_uid o))) (om_owners m) ++ [owner_of o ctrl]).

#[export] Instance owner_refs : OwnerRefs := {|
  SetControllerReference o m :=
    if existsb (fun r => or_controller r && negb (String.eqb (or_uid r) (om_uid o))) (om_owners m)
    then inl (EText "Object is already owned by another controller")
    else inr (add_owner o true m);
  SetOwnerReference o m := inr (add_owner o false m);
|}.
End ListMeta.
