(* ===== verification/Config.v ===== *)
(** * The cloud configuration ([pkg/config])

    [CloudConfig] and its [DefaultAndValidate], which trims the fields, rejects
    an incomplete configuration and fills the defaults in place. *)

From stdpp Require Import base tactics list strings gmap.
From Stdlib Require Import ZArith Lia.
From S2P Require Import Prelude GoStrings Types.

Open Scope string_scope.

(** [RateLimitConfig]: the one field the code sets. *)
Record RateLimitConfig := { CloudProviderRateLimit : bool }.

Record CloudConfig := {
  (* azclient.ARMClientConfig *)
  Cloud : string;
  TenantID : string;
  UserAgent : string;
  (* azclient.AzureAuthConfig *)
  UseManagedIdentityExtension : bool;
  UserAssignedIdentityID : string;
  AADClientID : string;
  AADClientSecret : string;
  (* own fields *)
  RateLimit : option RateLimitConfig;
  Location : string;
  SubscriptionID : string;
  ResourceGroup : string;
  LoadBalancerName : string;
  LoadBalancerResourceGroup : string;
  VnetName : string;
  VnetResourceGroup : string;
  SubnetName : string;
  CloudProviderBackoff : bool;
}.

Definition trimSpace (cfg : CloudConfig) : CloudConfig := {|
  Cloud := TrimSpace (Cloud cfg);
  TenantID := TrimSpace (TenantID cfg);
  UserAgent := TrimSpace (UserAgent cfg);
  UseManagedIdentityExtension := UseManagedIdentityExtension cfg;
  UserAssignedIdentityID := TrimSpace (UserAssignedIdentityID cfg);
  AADClientID := TrimSpace (AADClientID cfg);
  AADClientSecret := TrimSpace (AADClientSecret cfg);
  RateLimit := RateLimit cfg;
  Location := TrimSpace (Location cfg);
  SubscriptionID := TrimSpace (SubscriptionID cfg);
  ResourceGroup := TrimSpace (ResourceGroup cfg);
  LoadBalancerName := TrimSpace (LoadBalancerName cfg);
  LoadBalancerResourceGroup := TrimSpace (LoadBalancerResourceGroup cfg);
  VnetName := TrimSpace (VnetName cfg);
  VnetResourceGroup := TrimSpace (VnetResourceGroup cfg);
  SubnetName := TrimSpace (SubnetName cfg);
  CloudProviderBackoff := CloudProviderBackoff cfg;
|}.

Definition empty (s : string) : bool := String.eqb s "".

(** The default values. *)
Definition set_defaults (cfg : CloudConfig) : CloudConfig := {|
  Cloud := Cloud cfg;
  TenantID := TenantID cfg;
  UserAgent := if empty (UserAgent cfg) then consts.DefaultUserAgent else UserAgent cfg;
  UseManagedIdentityExtension := UseManagedIdentityExtension cfg;
  UserAssignedIdentityID := UserAssignedIdentityID cfg;
  AADClientID := AADClientID cfg;
  AADClientSecret := AADClientSecret cfg;
  RateLimit :=
    match RateLimit cfg with
    | None => Some {| CloudProviderRateLimit := false |}
    | r => r
    end;
  Location := Location cfg;
  SubscriptionID := SubscriptionID cfg;
  ResourceGroup := ResourceGroup cfg;
  LoadBalancerName := LoadBalancerName cfg;
  LoadBalancerResourceGroup :=
    if empty (LoadBalancerResourceGroup cfg) then ResourceGroup cfg
    else LoadBalancerResourceGroup cfg;
  VnetName := VnetName cfg;
  VnetResourceGroup :=
    if empty (VnetResourceGroup cfg) then ResourceGroup cfg else VnetResourceGroup cfg;
  SubnetName := SubnetName cfg;
  CloudProviderBackoff := CloudProviderBackoff cfg;
|}.

(** The first check that fails, in the order of the code. *)
Definition check (cfg : CloudConfig) : option gerror :=
  if empty (Cloud cfg) then Some (EText "cloud is empty")
  else if empty (Location cfg) then Some (EText "location is empty")
  else if empty (SubscriptionID cfg) then Some (EText "subscription ID is empty")
  else if negb (UseManagedIdentityExtension cfg) && negb (empty (UserAssignedIdentityID cfg)) then
    Some (EText "useManagedIdentityExtension needs to be true when userAssignedIdentityID is provided")
  else if negb (UseManagedIdentityExtension cfg)
          && (empty (AADClientID cfg) || empty (AADClientSecret cfg)) then
    Some (EText "AAD client ID or AAD client secret is empty")
  else if empty (ResourceGroup cfg) then Some (EText "resource group is empty")
  else if empty (VnetName cfg) then Some (EText "virtual network name is empty")
  else if empty (SubnetName cfg) then Some (EText "virtual network subnet name is empty")
  else None.

(** The configuration the method leaves and the error it returns. *)
Definition DefaultAndValidate (cfg : CloudConfig) : CloudConfig * option gerror :=
  let cfg := trimSpace cfg in
  match check cfg with
  | Some e => (cfg, Some e)
  | None => (set_defaults cfg, None)
  end.

(** ** What a validated configuration promises *)

(** The fields the rest of the program reads are present, credentials are
    complete for the identity in use. *)
Record valid_config (cfg : CloudConfig) : Prop := {
  valid_cloud : Cloud cfg <> "";
  valid_location : Location cfg <> "";
  valid_subscription : SubscriptionID cfg <> "";
  valid_identity :
    UseManagedIdentityExtension cfg = true \/
    (UserAssignedIdentityID cfg = "" /\ AADClientID cfg <> "" /\ AADClientSecret cfg <> "");
  valid_rg : ResourceGroup cfg <> "";
  valid_vnet : VnetName cfg <> "";
  valid_subnet : SubnetName cfg <> "";
}.

Lemma empty_false s : empty s = false <-> s <> "".
Proof. apply String.eqb_neq. Qed.
Lemma empty_true s : empty s = true <-> s = "".
Proof. apply String.eqb_eq. Qed.

Lemma check_None cfg : check cfg = None <-> valid_config cfg.
Proof.
  unfold check. split.
  - intros H. repeat go_case; repeat match goal with
      | E : empty _ = false |- _ => apply empty_false in E
      end; constructor; try done.
    destruct (UseManagedIdentityExtension cfg); [by left|]. right.
    repeat match goal with
      | E : _ = false |- _ => progress simpl in E
      | E : orb _ _ = false |- _ => apply orb_false_iff in E as [? ?]
      | E : negb _ = false |- _ => apply negb_false_iff in E
      end.
    by rewrite <- empty_true, <- !empty_false.
  - intros [Hc Hl Hs Hi Hr Hv Hn]. apply empty_false in Hc, Hl, Hs, Hr, Hv, Hn.
    rewrite Hc, Hl, Hs, Hr, Hv, Hn. destruct Hi as [->|(Hu & Ha & Hse)]; [done|].
    apply empty_true in Hu. apply empty_false in Ha, Hse. rewrite Hu, Ha, Hse.
    by destruct (UseManagedIdentityExtension cfg).
Qed.

Lemma trimSpace_idemp cfg : trimSpace (trimSpace cfg) = trimSpace cfg.
Proof. unfold trimSpace. simpl. by rewrite !TrimSpace_idemp. Qed.

Lemma set_defaults_idemp cfg : set_defaults (set_defaults cfg) = set_defaults cfg.
Proof.
  unfold set_defaults. simpl. f_equal.
  - by destruct (empty (UserAgent cfg)) eqn:E; [|rewrite E].
  - by destruct (RateLimit cfg).
  - destruct (empty (LoadBalancerResourceGroup cfg)) eqn:E; [|by rewrite E]. by go_case.
  - destruct (empty (VnetResourceGroup cfg)) eqn:E; [|by rewrite E]. by go_case.
Qed.

Lemma set_defaults_valid cfg : valid_config (set_defaults cfg) <-> valid_config cfg.
Proof. split; intros []; constructor; done. Qed.

Lemma trimSpace_set_defaults cfg :
  trimSpace (set_defaults (trimSpace cfg)) = set_defaults (trimSpace cfg).
Proof.
  unfold trimSpace, set_defaults. simpl. f_equal; try (by rewrite TrimSpace_idemp).
  all: go_case; by rewrite ?TrimSpace_idemp.
Qed.

(** [DefaultAndValidate] accepts a configuration exactly when, with
    surrounding white space removed, every required field is present and the
    credentials are complete for the identity in use; on rejection the
    configuration is left trimmed and without defaults. *)
Theorem DefaultAndValidate_accepts cfg :
  (snd (DefaultAndValidate cfg) = None <-> valid_config (trimSpace cfg)) /\
  (snd (DefaultAndValidate cfg) <> None -> fst (DefaultAndValidate cfg) = trimSpace cfg).
Proof.
  rewrite <- check_None. unfold DefaultAndValidate. split; go_case; naive_solver.
Qed.

(** A configuration [DefaultAndValidate] has accepted is complete: besides the
    required fields, the user agent, the load balancer's and the virtual
    network's resource groups and the rate limit are set; validating it again
    accepts it and changes nothing. *)
Theorem DefaultAndValidate_fixpoint cfg cfg' :
  DefaultAndValidate cfg = (cfg', None) ->
  valid_config cfg' /\ UserAgent cfg' <> "" /\ LoadBalancerResourceGroup cfg' <> "" /\
  VnetResourceGroup cfg' <> "" /\ is_Some (RateLimit cfg') /\
  DefaultAndValidate cfg' = (cfg', None).
Proof.
  unfold DefaultAndValidate. intros H. destruct (check (trimSpace cfg)) eqn:Hc; simplify_eq.
  apply check_None in Hc. pose proof (valid_rg _ Hc) as Hrg.
  assert (valid_config (set_defaults (trimSpace cfg))) as Hv by by apply set_defaults_valid.
  split_and!; [done|..].
  - simpl. by go_case; [|apply empty_false].
  - simpl. by go_case; [|apply empty_false].
  - simpl. by go_case; [|apply empty_false].
  - simpl. by destruct (RateLimit cfg).
  - rewrite trimSpace_set_defaults. apply check_None in Hv. by rewrite Hv, set_defaults_idemp.
Qed.

(** A configuration with a client secret and white space around its location. *)
Definition sample_config : CloudConfig := {|
  Cloud := "AzureTest"; TenantID := ""; UserAgent := "";
  UseManagedIdentityExtension := false; UserAssignedIdentityID := "";
  AADClientID := "id"; AADClientSecret := "secret"; RateLimit := None;
  Location := " westus "; SubscriptionID := "sub"; ResourceGroup := "rg";
  LoadBalancerName := ""; LoadBalancerResourceGroup := ""; VnetName := "vnet";
  VnetResourceGroup := ""; SubnetName := "subnet"; CloudProviderBackoff := false;
|}.

Lemma DefaultAndValidate_fixpoint_witness :
  Location (fst (DefaultAndValidate sample_config)) = "westus" /\
  LoadBalancerResourceGroup (fst (DefaultAndValidate sample_config)) <> "".
Proof.
  split; [reflexivity|].
  apply (DefaultAndValidate_fixpoint sample_config). reflexivity.
Defined.
