(* ===== verification/Azure.v ===== *)
(** * Azure resources and the Azure manager ([pkg/azmanager])

    The resource types of the Azure SDK with the fields the program reads or
    writes, the SDK's clients as a parameter ([AzureClients]), the retry loop of
    [wrapRetry] over apimachinery's backoff (a parameter too, [Backoffs], with
    its documented behaviour as [BackoffLaws]), and every operation of
    [AzureManager]. *)

From stdpp Require Import base tactics list strings gmap.
From Stdlib Require Import ZArith Lia.
From S2P Require Import Prelude GoStrings Types Config.

Open Scope string_scope.

(** ** Resources *)

Record SubResource := { sub_ID : option string }.

(** [network.FrontendIPConfiguration] *)
Record FrontendProps := {
  fe_PrivateIPAddressVersion : option string;
  fe_PrivateIPAllocationMethod : option string;
  fe_PrivateIPAddress : option string;
  fe_Subnet : option SubResource;
}.
Record FrontendIPConfiguration := {
  fe_ID : option string;
  fe_Name : option string;
  fe_Properties : option FrontendProps;
}.

(** [network.BackendAddressPool] *)
Record BackendAddressPool := {
  bp_ID : option string;
  bp_Name : option string;
}.

(** [network.LoadBalancingRule] *)
Record RuleProps := {
  lr_Protocol : option string;
  lr_EnableFloatingIP : option bool;
  lr_FrontendIPConfiguration : option SubResource;
  lr_BackendAddressPool : option SubResource;
  lr_Probe : option SubResource;
  lr_FrontendPort : option Z;
  lr_BackendPort : option Z;
}.
Record LoadBalancingRule := {
  lr_Name : option string;
  lr_Properties : option RuleProps;
}.

(** [network.Probe] *)
Record ProbeProps := {
  pr_RequestPath : option string;
  pr_Protocol : option string;
  pr_Port : option Z;
}.
Record Probe := {
  pr_Name : option string;
  pr_Properties : option ProbeProps;
}.

(** [network.LoadBalancer] *)
Record LBProps := {
  lb_FrontendIPConfigurations : list FrontendIPConfiguration;
  lb_BackendAddressPools : list BackendAddressPool;
  lb_LoadBalancingRules : list LoadBalancingRule;
  lb_Probes : list Probe;
}.
Record LoadBalancer := {
  lb_Name : option string;
  lb_Location : option string;
  lb_SKU : option (string * string);   (** name and tier *)
  lb_Properties : option LBProps;
}.

Definition IPVersionIPv4 : string := "IPv4".
Definition TransportProtocolUDP : string := "Udp".
Definition ProbeProtocolHTTP : string := "Http".
Definition IPAllocationMethodDynamic : string := "Dynamic".
Definition IPAllocationMethodStatic : string := "Static".
Definition SKUNameStandard : string := "Standard".
Definition SKUTierRegional : string := "Regional".

(** [compute.VirtualMachineScaleSetIPConfiguration] and the profile that holds
    it *)
Record VMSSPublicIPConfig := {
  vpip_Name : option string;
  vpip_Properties : option (option SubResource);   (** [Properties.PublicIPPrefix] *)
}.
Record VMSSIPConfigProps := {
  vip_Primary : option bool;
  vip_PrivateIPAddressVersion : option string;
  vip_Subnet : option SubResource;
  vip_PublicIPAddressConfiguration : option VMSSPublicIPConfig;
  vip_LoadBalancerBackendAddressPools : list SubResource;
}.
Record VMSSIPConfig := {
  vip_Name : option string;
  vip_Properties : option VMSSIPConfigProps;
}.
Record VMSSNicProps := {
  vnic_Primary : option bool;
  vnic_IPConfigurations : list VMSSIPConfig;
}.
Record VMSSNic := {
  vnic_Name : option string;
  vnic_Properties : option VMSSNicProps;
}.
Record VMSSProps := {
  vmss_UniqueID : option string;
  (** [VirtualMachineProfile.NetworkProfile.NetworkInterfaceConfigurations] *)
  vmss_VirtualMachineProfile : option (option (list VMSSNic));
}.
Record VirtualMachineScaleSet := {
  vmss_Name : option string;
  vmss_Location : option string;
  vmss_Tags : gmap string (option string);
  vmss_Properties : option VMSSProps;
}.
Record VMSSVMProps := {
  vmi_ProvisioningState : option string;
  vmi_OSProfile : option (option string);   (** [OSProfile.ComputerName] *)
  vmi_NetworkProfileConfiguration : option (list VMSSNic);
}.
Record VirtualMachineScaleSetVM := {
  vmi_ID : option string;
  vmi_InstanceID : option string;
  vmi_Properties : option VMSSVMProps;
}.
Record VirtualMachine := { vm_Tags : gmap string (option string) }.

(** [network.PublicIPAddress], [network.PublicIPPrefix] *)
Record PublicIPProps := {
  pip_PublicIPAddressVersion : option string;
  pip_PublicIPPrefix : option SubResource;
  pip_PublicIPAllocationMethod : option string;
}.
Record PublicIPAddress := {
  pip_ID : option string;
  pip_Name : option string;
  pip_Location : option string;
  pip_SKU : option (string * string);
  pip_Properties : option PublicIPProps;
}.
Record PrefixProps := {
  px_PrefixLength : option Z;
  px_IPPrefix : option string;
  px_PublicIPAddressVersion : option string;
  px_PublicIPAddresses : list (option SubResource);   (** elements may be nil *)
}.
Record PublicIPPrefix := {
  px_ID : option string;
  px_Name : option string;
  px_Location : option string;
  px_SKU : option (string * string);
  px_Properties : option PrefixProps;
}.

(** [network.Interface] *)
Record NicIPConfigProps := {
  nip_Primary : option bool;
  nip_PrivateIPAddress : option string;
  nip_PrivateIPAddressVersion : option string;
  nip_Subnet : option SubResource;
  nip_PublicIPAddress : option PublicIPAddress;
  nip_LoadBalancerBackendAddressPools : list (option SubResource);
}.
Record NicIPConfig := {
  nip_Name : option string;
  nip_Properties : option NicIPConfigProps;
}.
Record NicProps := {
  nic_ProvisioningState : option string;
  (** [None] is the nil slice, which the code distinguishes from an empty one;
      elements may be nil. *)
  nic_IPConfigurations : option (list (option NicIPConfig));
}.
Record Interface := {
  nic_ID : option string;
  nic_Name : option string;
  nic_Tags : gmap string (option string);
  nic_Properties : option NicProps;
}.

(** ** The SDK's clients *)
Class AzureClients (W : Type) := {
  lbGet : string -> string -> M W LoadBalancer;
  lbCreateOrUpdate : string -> string -> LoadBalancer -> M W LoadBalancer;
  lbDelete : string -> string -> M W unit;
  vmssList : string -> M W (list VirtualMachineScaleSet);
  vmssGet : string -> string -> M W VirtualMachineScaleSet;
  vmssCreateOrUpdate : string -> string -> VirtualMachineScaleSet -> M W VirtualMachineScaleSet;
  vmList : string -> M W (list VirtualMachine);
  vmGet : string -> string -> M W VirtualMachine;
  vmssvmList : string -> string -> M W (list VirtualMachineScaleSetVM);
  vmssvmGet : string -> string -> string -> M W VirtualMachineScaleSetVM;
  vmssvmUpdate : string -> string -> string -> VirtualMachineScaleSetVM ->
                 M W VirtualMachineScaleSetVM;
  prefixGet : string -> string -> M W PublicIPPrefix;
  prefixCreateOrUpdate : string -> string -> PublicIPPrefix -> M W PublicIPPrefix;
  prefixDelete : string -> string -> M W unit;
  pipCreateOrUpdate : string -> string -> PublicIPAddress -> M W PublicIPAddress;
  pipDelete : string -> string -> M W unit;
  nicGetVMSS : string -> string -> string -> string -> M W Interface;
  nicList : string -> M W (list (option Interface));
  nicGet : string -> string -> M W Interface;
  nicCreateOrUpdate : string -> string -> Interface -> M W Interface;
  subnetGet : string -> string -> string -> M W SubResource;
}.

(** ** Retry *)

(** [wait.Backoff]: durations in milliseconds, factor and jitter in tenths. *)
Record Backoff := {
  bo_Duration : Z;
  bo_Factor : Z;
  bo_Jitter : Z;
  bo_Steps : nat;
  bo_Cap : Z;
}.

Definition defaultPollBackoff : Backoff :=
  {| bo_Duration := 1000; bo_Factor := 20; bo_Jitter := 1; bo_Steps := 10; bo_Cap := 30000 |}.
Definition defaultPollOverallTimeout : Z := 120000.
Definition minutes (n : Z) : Z := n * 60000.

(** [wait.ExponentialBackoffWithContext] under a context with a deadline (in
    milliseconds).  The world the condition acts on includes the variables the
    closure captures, so the function is parametric in it. *)
Class Backoffs :=
  ExponentialBackoffWithContext : forall W : Type, Z -> Backoff -> M W bool -> M W unit.

(** What the documentation says of a run that may still attempt the condition
    [n] times: it stops when the condition is true or fails, and gives up with
    an error of its own when the attempts are used up or the context ends. *)
Inductive backoff_run {W} (cond : M W bool) : nat -> W -> outcome unit * W -> Prop :=
| backoff_gave_up n e w : backoff_run cond n w (Err e, w)
| backoff_done n w w' :
    cond w = (Ok true, w') -> backoff_run cond (S n) w (Ok tt, w')
| backoff_failed n w e w' :
    cond w = (Err e, w') -> backoff_run cond (S n) w (Err e, w')
| backoff_panicked n w w' :
    cond w = (Panic, w') -> backoff_run cond (S n) w (Panic, w')
| backoff_again n w w' r :
    cond w = (Ok false, w') -> backoff_run cond n w' r -> backoff_run cond (S n) w r.

Class BackoffLaws `{Backoffs} :=
  backoff_documented W timeout b (cond : M W bool) w :
    backoff_run cond (bo_Steps b) w (ExponentialBackoffWithContext W timeout b cond w).

Definition ErrRateLimitReached : string := "rate limit reached".

Definition isRateLimitError (e : gerror) : bool := String.eqb (Error e) ErrRateLimitReached.

Definition isInternalServerError (e : gerror) : bool :=
  match errors_as as_response e with
  | Some (_, code) => String.eqb code "InternalServerError"
  | None => false
  end.

Record retrySettings := {
  rs_OverallTimeout : option Z;
  rs_Backoff : option Backoff;
}.

Section retry.
Context `{Backoffs} {W : Type}.

(** One attempt: a retriable error asks for another one, any other error ends
    the loop. *)
Definition conditionFunc (operation : M W unit) (isRetriableFunc : gerror -> bool) : M W bool :=
  let! r := try operation in
  match r with
  | inl e => if isRetriableFunc e then ret false else throw e
  | inr _ => ret true
  end.

Definition wrapRetry (operation : M W unit) (isRetriableFunc : gerror -> bool)
    (settings : list retrySettings) : M W unit :=
  let overallTimeout :=
    match settings with
    | {| rs_OverallTimeout := Some t |} :: _ => t
    | _ => defaultPollOverallTimeout
    end in
  let backoff :=
    match settings with
    | {| rs_Backoff := Some b |} :: _ => b
    | _ => defaultPollBackoff
    end in
  ExponentialBackoffWithContext W overallTimeout backoff
    (conditionFunc operation isRetriableFunc).
End retry.

Section captured.
Context `{Backoffs} {W A : Type}.

(** [ret, err = call(...); return err] with [ret] a variable of the enclosing
    function: the closure acts on the world and that variable. *)
Definition capture (call : M W A) : M (W * option A) unit := fun s =>
  match call (fst s) with
  | (Ok a, w') => (Ok tt, (w', Some a))
  | (Err e, w') => (Err e, (w', None))
  | (Panic, w') => (Panic, (w', None))
  end.

(** [err := wrapRetry(...); if err != nil { return nil, err }; return ret, nil].
    A nil [ret] without an error, which [retried_spec] excludes, would be
    dereferenced by the caller. *)
Definition retried (isRetriable : gerror -> bool) (settings : list retrySettings)
    (call : M W A) : M W A := fun w =>
  match wrapRetry (capture call) isRetriable settings (w, None) with
  | (Ok _, (w', Some a)) => (Ok a, w')
  | (Ok _, (w', None)) => (Panic, w')
  | (Err e, (w', _)) => (Err e, w')
  | (Panic, (w', _)) => (Panic, w')
  end.
End captured.

Definition overall (t : Z) : list retrySettings :=
  [{| rs_OverallTimeout := Some t; rs_Backoff := None |}].

(** ** [AzureManager] *)
Module azmanager.
Section azmanager.
Context `{Backoffs} {W : Type} `{AzureClients W} (az : CloudConfig).

Definition LoadBalancerName : string :=
  if String.eqb (Config.LoadBalancerName az) "" then consts.DefaultGatewayLBName
  else Config.LoadBalancerName az.

Definition LBSubresourceID (kind name : string) : string :=
  "/subscriptions/" +:+ SubscriptionID az +:+ "/resourceGroups/"
  +:+ LoadBalancerResourceGroup az +:+ "/providers/Microsoft.Network/loadBalancers/"
  +:+ LoadBalancerName +:+ "/" +:+ kind +:+ "/" +:+ name.

Definition GetLBFrontendIPConfigurationID (name : string) : option string :=
  Ptr (LBSubresourceID "frontendIPConfigurations" name).
Definition GetLBBackendAddressPoolID (name : string) : option string :=
  Ptr (LBSubresourceID "backendAddressPools" name).
Definition GetLBProbeID (name : string) : option string :=
  Ptr (LBSubresourceID "probes" name).

(** [if resourceGroup == "" { resourceGroup = az.ResourceGroup }] *)
Definition orDefault (resourceGroup : string) : string :=
  if String.eqb resourceGroup "" then ResourceGroup az else resourceGroup.

(** [if name == "" { return nil, fmt.Errorf(what + " is empty") }] *)
Definition nonempty {A} (what name : string) (k : M W A) : M W A :=
  if String.eqb name "" then throw (EText (what +:+ " is empty")) else k.

Definition GetLB : M W LoadBalancer :=
  retried isRateLimitError [] (lbGet (LoadBalancerResourceGroup az) LoadBalancerName).

Definition CreateOrUpdateLB (lb : LoadBalancer) : M W LoadBalancer :=
  retried isRateLimitError (overall (minutes 5))
    (lbCreateOrUpdate (LoadBalancerResourceGroup az) (Val (lb_Name lb)) lb).

Definition DeleteLB : M W unit :=
  retried isRateLimitError [] (lbDelete (LoadBalancerResourceGroup az) LoadBalancerName).

Definition ListVMSS : M W (list VirtualMachineScaleSet) :=
  retried isRateLimitError [] (vmssList (ResourceGroup az)).

Definition GetVMSS (resourceGroup vmssName : string) : M W VirtualMachineScaleSet :=
  nonempty "vmss name" vmssName
    (retried isRateLimitError (overall (minutes 5)) (vmssGet (orDefault resourceGroup) vmssName)).

Definition ListVMs : M W (list VirtualMachine) :=
  retried isRateLimitError [] (vmList (ResourceGroup az)).

Definition GetVM (resourceGroup vmName : string) : M W VirtualMachine :=
  nonempty "vm name" vmName
    (retried isRateLimitError (overall (minutes 5)) (vmGet (orDefault resourceGroup) vmName)).

Definition CreateOrUpdateVMSS (resourceGroup vmssName : string) (vmss : VirtualMachineScaleSet) :
    M W VirtualMachineScaleSet :=
  nonempty "vmss name" vmssName
    (retried isRateLimitError (overall (minutes 5))
       (vmssCreateOrUpdate (orDefault resourceGroup) vmssName vmss)).

Definition ListVMSSInstances (resourceGroup vmssName : string) :
    M W (list VirtualMachineScaleSetVM) :=
  nonempty "vmss name" vmssName
    (retried isRateLimitError [] (vmssvmList (orDefault resourceGroup) vmssName)).

Definition GetVMSSInstance (resourceGroup vmssName instanceID : string) :
    M W VirtualMachineScaleSetVM :=
  nonempty "vmss name" vmssName
    (nonempty "vmss instanceID" instanceID
       (retried isRateLimitError [] (vmssvmGet (orDefault resourceGroup) vmssName instanceID))).

Definition UpdateVMSSInstance (resourceGroup vmssName instanceID : string)
    (vm : VirtualMachineScaleSetVM) : M W VirtualMachineScaleSetVM :=
  nonempty "vmss name" vmssName
    (nonempty "vmss instanceID" instanceID
       (retried isRateLimitError [] (vmssvmUpdate (orDefault resourceGroup) vmssName instanceID vm))).

Definition GetPublicIPPrefix (resourceGroup prefixName : string) : M W PublicIPPrefix :=
  nonempty "public ip prefix name" prefixName
    (retried isRateLimitError [] (prefixGet (orDefault resourceGroup) prefixName)).

Definition CreateOrUpdatePublicIPPrefix (resourceGroup prefixName : string)
    (ipPrefix : PublicIPPrefix) : M W PublicIPPrefix :=
  nonempty "public ip prefix name" prefixName
    (retried isRateLimitError [] (prefixCreateOrUpdate (orDefault resourceGroup) prefixName ipPrefix)).

Definition DeletePublicIPPrefix (resourceGroup prefixName : string) : M W unit :=
  nonempty "public ip prefix name" prefixName
    (retried (fun e => isRateLimitError e || isInternalServerError e) (overall (minutes 15))
       (prefixDelete (orDefault resourceGroup) prefixName)).

Definition CreateOrUpdatePublicIP (resourceGroup name : string) (pip : PublicIPAddress) :
    M W PublicIPAddress :=
  nonempty "public ip name" name
    (retried isRateLimitError [] (pipCreateOrUpdate (orDefault resourceGroup) name pip)).

Definition DeletePublicIP (resourceGroup name : string) : M W unit :=
  nonempty "public ip name" name
    (retried isRateLimitError [] (pipDelete (orDefault resourceGroup) name)).

Definition GetVMSSInterface (resourceGroup vmssName instanceID interfaceName : string) :
    M W Interface :=
  nonempty "vmss name" vmssName
    (nonempty "instanceID" instanceID
       (nonempty "interface name" interfaceName
          (retried isRateLimitError []
             (nicGetVMSS (orDefault resourceGroup) vmssName instanceID interfaceName)))).

Definition ListNetworkInterfaces (resourceGroup : string) : M W (list (option Interface)) :=
  retried isRateLimitError [] (nicList (orDefault resourceGroup)).

Definition GetNetworkInterface (interfaceName : string) : M W Interface :=
  nonempty "interface name" interfaceName
    (retried isRateLimitError [] (nicGet (ResourceGroup az) interfaceName)).

Definition CreateOrUpdateNetworkInterface (resourceGroup nicName : string)
    (networkInterface : Interface) : M W Interface :=
  nonempty "nic name" nicName
    (retried isRateLimitError [] (nicCreateOrUpdate (orDefault resourceGroup) nicName networkInterface)).

Definition GetSubnet : M W SubResource :=
  retried isRateLimitError [] (subnetGet (VnetResourceGroup az) (VnetName az) (SubnetName az)).
End azmanager.
End azmanager.

(** ** The retry loop *)

(** [retries call rt n w w']: [n] attempts in a row failed with a retriable
    error, and took the world from [w] to [w']. *)
Inductive retries {W A} (call : M W A) (rt : gerror -> bool) : nat -> W -> W -> Prop :=
| retries_O w : retries call rt 0 w w
| retries_S n w e w1 w' :
    call w = (Err e, w1) -> rt e = true -> retries call rt n w1 w' ->
    retries call rt (S n) w w'.

(** How many attempts the settings allow. *)
Definition steps_of (settings : list retrySettings) : nat :=
  match settings with
  | {| rs_Backoff := Some b |} :: _ => bo_Steps b
  | _ => bo_Steps defaultPollBackoff
  end.

Section retry_facts.
Context `{BackoffLaws} {W A : Type}.
Implicit Types (call : M W A) (w : W) (settings : list retrySettings).

(** The possible ends of a run that may attempt [n] times. *)
Definition ended call rt n w (r : outcome A * W) : Prop :=
  exists m w1, retries call rt m w w1 /\
    match r with
    | (Ok a, w') => m < n /\ call w1 = (Ok a, w')
    | (Err e, w') =>
        m <= n /\ ((call w1 = (Err e, w') /\ rt e = false) \/ w' = w1)
    | (Panic, w') => m < n /\ call w1 = (Panic, w')
    end.

Lemma ended_again call rt n w e w1 r :
  call w = (Err e, w1) -> rt e = true -> ended call rt n w1 r -> ended call rt (S n) w r.
Proof.
  intros Hc He (m & w2 & Hr & Hend). exists (S m), w2.
  split; [by eapply retries_S|]. destruct r as [[] ?]; destruct Hend; split; try done; lia.
Qed.

Definition close (r : outcome unit * (W * option A)) : outcome A * W :=
  match r with
  | (Ok _, (w', Some a)) => (Ok a, w')
  | (Ok _, (w', None)) => (Panic, w')
  | (Err e, (w', _)) => (Err e, w')
  | (Panic, (w', _)) => (Panic, w')
  end.

Lemma conditionFunc_capture call rt w o :
  conditionFunc (capture call) rt (w, o) =
  match call w with
  | (Ok a, w') => (Ok true, (w', Some a))
  | (Err e, w') => if rt e then (Ok false, (w', None)) else (Err e, (w', None))
  | (Panic, w') => (Panic, (w', None))
  end.
Proof.
  unfold conditionFunc, bind, try, capture. simpl.
  destruct (call w) as [[a|e|] w1]; simpl; [done| |done]. by destruct (rt e).
Qed.

Lemma backoff_ended call rt n s r :
  backoff_run (conditionFunc (capture call) rt) n s r ->
  ended call rt n (fst s) (close r).
Proof.
  induction 1 as [n e [w o]|n [w o] s' Hc|n [w o] e s' Hc|n [w o] s' Hc|n [w o] s' r Hc _ IH];
    [simpl; exists 0, w; split; [constructor|]; split; [lia|by right]|..];
    rewrite conditionFunc_capture in Hc; simpl;
    destruct (call w) as [[a|e1|] w1] eqn:Hcall; simplify_eq; try (destruct (rt _) eqn:He; simplify_eq).
  - exists 0, w. split; [constructor|]. split; [lia|done].
  - exists 0, w. split; [constructor|]. split; [lia|by left].
  - exists 0, w. split; [constructor|]. split; [lia|done].
  - by eapply ended_again.
Qed.

Lemma retried_ended rt settings call w :
  ended call rt (steps_of settings) w (retried rt settings call w).
Proof.
  pose proof (backoff_documented (W * option A)) as Hdoc.
  unfold retried, wrapRetry.
  set (t := match settings with {| rs_OverallTimeout := Some t |} :: _ => t | _ => _ end).
  set (b := match settings with {| rs_Backoff := Some b |} :: _ => b | _ => _ end).
  replace (steps_of settings) with (bo_Steps b)
    by (unfold b, steps_of; destruct settings as [|[? []] ?]; reflexivity).
  specialize (Hdoc t b (conditionFunc (capture call) rt) (w, None)).
  by apply backoff_ended in Hdoc.
Qed.
End retry_facts.

(** ** What the calls keep *)

(** Retrying a call has no effects besides those of its attempts. *)
Lemma keeps_retried `{BackoffLaws} {W A} (P : W -> Prop) rt settings (call : M W A) :
  keeps P call -> keeps P (retried rt settings call).
Proof.
  intros Hc w Hw. destruct (retried_ended rt settings call w) as (m & w1 & Hr & Hend).
  assert (P w1) as Hw1.
  { clear Hend. induction Hr as [|n w e w1 w2 Hcall _ _ IH]; [done|]. apply IH.
    specialize (Hc w Hw). by rewrite Hcall in Hc. }
  specialize (Hc w1 Hw1).
  destruct (retried rt settings call w) as [[a|e|] w']; simpl.
  - destruct Hend as [_ Hend]. by rewrite Hend in Hc.
  - destruct Hend as [_ [[Hend _]| ->]]; [by rewrite Hend in Hc|done].
  - destruct Hend as [_ Hend]. by rewrite Hend in Hc.
Qed.

Lemma keeps_nonempty {W A} (P : W -> Prop) what name (k : M W A) :
  keeps P k -> keeps P (azmanager.nonempty what name k).
Proof. intros Hk. unfold azmanager.nonempty. destruct (String.eqb name ""); [apply keeps_throw|done]. Qed.
#[export] Hint Resolve keeps_retried keeps_nonempty : keeps.

(** Every call to Azure keeps [P]: [P] is about something else. *)
Class AzureKeeps {W : Type} `{AzureClients W} (P : W -> Prop) : Prop := {
  keep_lbGet rg n : keeps P (lbGet rg n);
  keep_lbCreateOrUpdate rg n lb : keeps P (lbCreateOrUpdate rg n lb);
  keep_lbDelete rg n : keeps P (lbDelete rg n);
  keep_vmssList rg : keeps P (vmssList rg);
  keep_vmssGet rg n : keeps P (vmssGet rg n);
  keep_vmssCreateOrUpdate rg n v : keeps P (vmssCreateOrUpdate rg n v);
  keep_vmList rg : keeps P (vmList rg);
  keep_vmGet rg n : keeps P (vmGet rg n);
  keep_vmssvmList rg n : keeps P (vmssvmList rg n);
  keep_vmssvmGet rg n i : keeps P (vmssvmGet rg n i);
  keep_vmssvmUpdate rg n i v : keeps P (vmssvmUpdate rg n i v);
  keep_prefixGet rg n : keeps P (prefixGet rg n);
  keep_prefixCreateOrUpdate rg n x : keeps P (prefixCreateOrUpdate rg n x);
  keep_prefixDelete rg n : keeps P (prefixDelete rg n);
  keep_pipCreateOrUpdate rg n x : keeps P (pipCreateOrUpdate rg n x);
  keep_pipDelete rg n : keeps P (pipDelete rg n);
  keep_nicGetVMSS rg n i f : keeps P (nicGetVMSS rg n i f);
  keep_nicList rg : keeps P (nicList rg);
  keep_nicGet rg n : keeps P (nicGet rg n);
  keep_nicCreateOrUpdate rg n x : keeps P (nicCreateOrUpdate rg n x);
  keep_subnetGet rg v n : keeps P (subnetGet rg v n);
}.
#[export] Hint Resolve keep_lbGet keep_lbCreateOrUpdate keep_lbDelete keep_vmssList 
  keep_vmssGet keep_vmssCreateOrUpdate keep_vmList keep_vmGet keep_vmssvmList keep_vmssvmGet 
  keep_vmssvmUpdate keep_prefixGet keep_prefixCreateOrUpdate keep_prefixDelete 
  keep_pipCreateOrUpdate keep_pipDelete keep_nicGetVMSS keep_nicList keep_nicGet 
  keep_nicCreateOrUpdate keep_subnetGet : keeps.

Section azmanager_keeps.
Context {W : Type} `{BackoffLaws} `{AzureClients W} (P : W -> Prop) `{!AzureKeeps P} (az : CloudConfig).

Lemma keeps_GetLB : keeps P (azmanager.GetLB az).
Proof. unfold azmanager.GetLB. auto 10 with keeps nocore. Qed.
Lemma keeps_CreateOrUpdateLB lb : keeps P (azmanager.CreateOrUpdateLB az lb).
Proof. unfold azmanager.CreateOrUpdateLB. auto 10 with keeps nocore. Qed.
Lemma keeps_DeleteLB : keeps P (azmanager.DeleteLB az).
Proof. unfold azmanager.DeleteLB. auto 10 with keeps nocore. Qed.
Lemma keeps_ListVMSS : keeps P (azmanager.ListVMSS az).
Proof. unfold azmanager.ListVMSS. auto 10 with keeps nocore. Qed.
Lemma keeps_GetVMSS resourceGroup vmssName : keeps P (azmanager.GetVMSS az resourceGroup vmssName).
Proof. unfold azmanager.GetVMSS. auto 10 with keeps nocore. Qed.
Lemma keeps_ListVMs : keeps P (azmanager.ListVMs az).
Proof. unfold azmanager.ListVMs. auto 10 with keeps nocore. Qed.
Lemma keeps_GetVM resourceGroup vmName : keeps P (azmanager.GetVM az resourceGroup vmName).
Proof. unfold azmanager.GetVM. auto 10 with keeps nocore. Qed.
Lemma keeps_CreateOrUpdateVMSS resourceGroup vmssName vmss : keeps P (azmanager.CreateOrUpdateVMSS az resourceGroup vmssName vmss).
Proof. unfold azmanager.CreateOrUpdateVMSS. auto 10 with keeps nocore. Qed.
Lemma keeps_ListVMSSInstances resourceGroup vmssName : keeps P (azmanager.ListVMSSInstances az resourceGroup vmssName).
Proof. unfold azmanager.ListVMSSInstances. auto 10 with keeps nocore. Qed.
Lemma keeps_GetVMSSInstance resourceGroup vmssName instanceID : keeps P (azmanager.GetVMSSInstance az resourceGroup vmssName instanceID).
Proof. unfold azmanager.GetVMSSInstance. auto 10 with keeps nocore. Qed.
Lemma keeps_UpdateVMSSInstance resourceGroup vmssName instanceID vm : keeps P (azmanager.UpdateVMSSInstance az resourceGroup vmssName instanceID vm).
Proof. unfold azmanager.UpdateVMSSInstance. auto 10 with keeps nocore. Qed.
Lemma keeps_GetPublicIPPrefix resourceGroup prefixName : keeps P (azmanager.GetPublicIPPrefix az resourceGroup prefixName).
Proof. unfold azmanager.GetPublicIPPrefix. auto 10 with keeps nocore. Qed.
Lemma keeps_CreateOrUpdatePublicIPPrefix resourceGroup prefixName ipPrefix : keeps P (azmanager.CreateOrUpdatePublicIPPrefix az resourceGroup prefixName ipPrefix).
Proof. unfold azmanager.CreateOrUpdatePublicIPPrefix. auto 10 with keeps nocore. Qed.
Lemma keeps_DeletePublicIPPrefix resourceGroup prefixName : keeps P (azmanager.DeletePublicIPPrefix az resourceGroup prefixName).
Proof. unfold azmanager.DeletePublicIPPrefix. auto 10 with keeps nocore. Qed.
Lemma keeps_CreateOrUpdatePublicIP resourceGroup name pip : keeps P (azmanager.CreateOrUpdatePublicIP az resourceGroup name pip).
Proof. unfold azmanager.CreateOrUpdatePublicIP. auto 10 with keeps nocore. Qed.
Lemma keeps_DeletePublicIP resourceGroup name : keeps P (azmanager.DeletePublicIP az resourceGroup name).
Proof. unfold azmanager.DeletePublicIP. auto 10 with keeps nocore. Qed.
Lemma keeps_GetVMSSInterface resourceGroup vmssName instanceID interfaceName : keeps P (azmanager.GetVMSSInterface az resourceGroup vmssName instanceID interfaceName).
Proof. unfold azmanager.GetVMSSInterface. auto 10 with keeps nocore. Qed.
Lemma keeps_ListNetworkInterfaces resourceGroup : keeps P (azmanager.ListNetworkInterfaces az resourceGroup).
Proof. unfold azmanager.ListNetworkInterfaces. auto 10 with keeps nocore. Qed.
Lemma keeps_GetNetworkInterface interfaceName : keeps P (azmanager.GetNetworkInterface az interfaceName).
Proof. unfold azmanager.GetNetworkInterface. auto 10 with keeps nocore. Qed.
Lemma keeps_CreateOrUpdateNetworkInterface resourceGroup nicName networkInterface : keeps P (azmanager.CreateOrUpdateNetworkInterface az resourceGroup nicName networkInterface).
Proof. unfold azmanager.CreateOrUpdateNetworkInterface. auto 10 with keeps nocore. Qed.
Lemma keeps_GetSubnet : keeps P (azmanager.GetSubnet az).
Proof. unfold azmanager.GetSubnet. auto 10 with keeps nocore. Qed.
End azmanager_keeps.
#[export] Hint Resolve keeps_GetLB keeps_CreateOrUpdateLB keeps_DeleteLB keeps_ListVMSS 
  keeps_GetVMSS keeps_ListVMs keeps_GetVM keeps_CreateOrUpdateVMSS keeps_ListVMSSInstances 
  keeps_GetVMSSInstance keeps_UpdateVMSSInstance keeps_GetPublicIPPrefix 
  keeps_CreateOrUpdatePublicIPPrefix keeps_DeletePublicIPPrefix keeps_CreateOrUpdatePublicIP 
  keeps_DeletePublicIP keeps_GetVMSSInterface keeps_ListNetworkInterfaces 
  keeps_GetNetworkInterface keeps_CreateOrUpdateNetworkInterface keeps_GetSubnet : keeps.


(** An implementation of the backoff that never runs into the deadline. *)
Module DirectBackoff.
Fixpoint run {W} (n : nat) (cond : M W bool) : M W unit :=
  match n with
  | O => throw (EText "timed out waiting for the condition")
  | S n => let! b := cond in if b then ret tt else run n cond
  end.

#[export] Instance backoffs : Backoffs := fun W _ b cond => run (bo_Steps b) cond.

#[export] Instance backoff_laws : BackoffLaws.
Proof.
  intros W t b cond. unfold ExponentialBackoffWithContext, backoffs.
  induction (bo_Steps b) as [|n IH]; intros w; simpl; [constructor|].
  unfold bind. destruct (cond w) as [[[]|e|] w'] eqn:Hc.
  - by apply backoff_done.
  - by eapply backoff_again.
  - by apply backoff_failed.
  - by apply backoff_panicked.
Qed.
End DirectBackoff.

Import DirectBackoff.

(** Two rate-limited attempts, then a success: the counter is the world. *)
Definition flaky : M nat string := fun n =>
  match n with
  | O => (Ok "done", 10)
  | S n => (Err (EText ErrRateLimitReached), n)
  end.

