(* ===== verification/Sim.v ===== *)
(** * An executable cluster

    A world in which the controllers can be run: the API server's objects and the
    Azure resources of one resource group, with the calls of [Kube] and [Azure]
    implemented on them.  It shows that the interfaces the theorems assume can be
    implemented, and lets the witnesses run whole reconciliations.  It is not a
    model of code of this repository. *)

From stdpp Require Import base tactics list strings gmap.
From Stdlib Require Import ZArith Lia.
From S2P Require Import Prelude GoStrings Types Kube Config Azure.

Open Scope string_scope.
Open Scope list_scope.

Record World := {
  w_sgcs : gmap NamespacedName StaticGatewayConfiguration;
  w_lbcs : gmap NamespacedName GatewayLBConfiguration;
  w_vmcs : gmap NamespacedName GatewayVMConfiguration;
  w_secrets : gmap NamespacedName Secret;
  w_nodes : gmap NamespacedName Node;
  w_lb : option LoadBalancer;
  w_vmss : gmap string VirtualMachineScaleSet;
  w_instances : gmap (string * string) VirtualMachineScaleSetVM;
  w_vms : list VirtualMachine;
  w_nics : gmap string Interface;
  w_prefixes : gmap string PublicIPPrefix;
  w_pips : gmap string PublicIPAddress;
  w_events : list (NamespacedName * string * string);
  w_failures : list (list string);
}.

Definition empty_world : World :=
  {| w_sgcs := ∅; w_lbcs := ∅; w_vmcs := ∅; w_secrets := ∅; w_nodes := ∅; w_lb := None;
     w_vmss := ∅; w_instances := ∅; w_vms := []; w_nics := ∅; w_prefixes := ∅; w_pips := ∅;
     w_events := []; w_failures := [] |}.

(** ** Objects of the API server *)

Definition not_found {A} : M World A := throw (EStatus "NotFound" "not found").

Section store_of.
Context {Obj : Type} (get : World -> gmap NamespacedName Obj)
  (put : gmap NamespacedName Obj -> World -> World) (meta : Obj -> ObjectMeta)
  (with_meta : Obj -> ObjectMeta -> Obj) (with_status_of : Obj -> Obj -> Obj).

Definition save (o : Obj) : M World Obj := fun w =>
  (Ok o, put (<[om_key (meta o) := o]> (get w)) w).

(** An object is found under its own name only. *)
Definition fetch (k : NamespacedName) : M World Obj := fun w =>
  match get w !! k with
  | Some o => if decide (om_key (meta o) = k) then (Ok o, w) else not_found w
  | None => not_found w
  end.

Definition remove (k : NamespacedName) : M World unit := fun w =>
  (Ok tt, put (delete k (get w)) w).

(** An object without finalizers goes as soon as it is deleted, the others once
    the last finalizer is removed. *)
Definition store_of : Store World Obj := {|
  kGet := fetch;
  kList := fun w => (Ok ((map_to_list (get w)).*2), w);
  kCreate := save;
  kUpdate o :=
    let! old := fetch (om_key (meta o)) in
    match om_finalizers (meta o), om_deletion (meta o) with
    | [], Some _ => do! remove (om_key (meta o)); ret o
    | _, _ => save (with_status_of o old)
    end;
  kStatusUpdate o := let! old := fetch (om_key (meta o)) in save (with_status_of old o);
  kDelete k :=
    let! old := fetch k in
    match om_finalizers (meta old) with
    | [] => remove k
    | fs =>
        let m := meta old in
        do! save (with_meta old
                    {| om_name := om_name m; om_namespace := om_namespace m; om_uid := om_uid m;
                       om_deletion := Some 0%Z; om_finalizers := fs; om_owners := om_owners m;
                       om_labels := om_labels m |});
        ret tt
    end;
  kCreateOrPatch o mutate :=
    let! r := try (fetch (om_key (meta o))) in
    let! (o', err) := mutate (match r with inr old => old | inl _ => o end) in
    match err with
    | Some _ => ret (o', err)
    | None => let! o' := save o' in ret (o', None)
    end;
  |}.
End store_of.

Section setters.
Definition put_sgcs m (w : World) : World :=
  {| w_sgcs := m; w_lbcs := w_lbcs w; w_vmcs := w_vmcs w; w_secrets := w_secrets w;
     w_nodes := w_nodes w; w_lb := w_lb w; w_vmss := w_vmss w; w_instances := w_instances w;
     w_vms := w_vms w; w_nics := w_nics w; w_prefixes := w_prefixes w; w_pips := w_pips w;
     w_events := w_events w; w_failures := w_failures w |}.
Definition put_lbcs m (w : World) : World :=
  {| w_sgcs := w_sgcs w; w_lbcs := m; w_vmcs := w_vmcs w; w_secrets := w_secrets w;
     w_nodes := w_nodes w; w_lb := w_lb w; w_vmss := w_vmss w; w_instances := w_instances w;
     w_vms := w_vms w; w_nics := w_nics w; w_prefixes := w_prefixes w; w_pips := w_pips w;
     w_events := w_events w; w_failures := w_failures w |}.
Definition put_vmcs m (w : World) : World :=
  {| w_sgcs := w_sgcs w; w_lbcs := w_lbcs w; w_vmcs := m; w_secrets := w_secrets w;
     w_nodes := w_nodes w; w_lb := w_lb w; w_vmss := w_vmss w; w_instances := w_instances w;
     w_vms := w_vms w; w_nics := w_nics w; w_prefixes := w_prefixes w; w_pips := w_pips w;
     w_events := w_events w; w_failures := w_failures w |}.
Definition put_secrets m (w : World) : World :=
  {| w_sgcs := w_sgcs w; w_lbcs := w_lbcs w; w_vmcs := w_vmcs w; w_secrets := m;
     w_nodes := w_nodes w; w_lb := w_lb w; w_vmss := w_vmss w; w_instances := w_instances w;
     w_vms := w_vms w; w_nics := w_nics w; w_prefixes := w_prefixes w; w_pips := w_pips w;
     w_events := w_events w; w_failures := w_failures w |}.
Definition put_nodes m (w : World) : World :=
  {| w_sgcs := w_sgcs w; w_lbcs := w_lbcs w; w_vmcs := w_vmcs w; w_secrets := w_secrets w;
     w_nodes := m; w_lb := w_lb w; w_vmss := w_vmss w; w_instances := w_instances w;
     w_vms := w_vms w; w_nics := w_nics w; w_prefixes := w_prefixes w; w_pips := w_pips w;
     w_events := w_events w; w_failures := w_failures w |}.
(** The Azure side: load balancer, scale sets, instances, interfaces, prefixes
    and addresses. *)
Definition put_azure lb vmss inst nics prefixes pips (w : World) : World :=
  {| w_sgcs := w_sgcs w; w_lbcs := w_lbcs w; w_vmcs := w_vmcs w; w_secrets := w_secrets w;
     w_nodes := w_nodes w; w_lb := lb; w_vmss := vmss; w_instances := inst;
     w_vms := w_vms w; w_nics := nics; w_prefixes := prefixes; w_pips := pips;
     w_events := w_events w; w_failures := w_failures w |}.
Definition put_logs ev fl (w : World) : World :=
  {| w_sgcs := w_sgcs w; w_lbcs := w_lbcs w; w_vmcs := w_vmcs w; w_secrets := w_secrets w;
     w_nodes := w_nodes w; w_lb := w_lb w; w_vmss := w_vmss w; w_instances := w_instances w;
     w_vms := w_vms w; w_nics := w_nics w; w_prefixes := w_prefixes w; w_pips := w_pips w;
     w_events := ev; w_failures := fl |}.
End setters.

#[export] Instance sgc_store : Store World StaticGatewayConfiguration :=
  store_of w_sgcs put_sgcs sgc_meta
    (fun o m => {| sgc_meta := m; sgc_Spec := sgc_Spec o; sgc_Status := sgc_Status o |})
    (fun o s => {| sgc_meta := sgc_meta o; sgc_Spec := sgc_Spec o; sgc_Status := sgc_Status s |}).
#[export] Instance lbc_store : Store World GatewayLBConfiguration :=
  store_of w_lbcs put_lbcs lbc_meta
    (fun o m => {| lbc_meta := m; lbc_Spec := lbc_Spec o; lbc_Status := lbc_Status o |})
    (fun o s => {| lbc_meta := lbc_meta o; lbc_Spec := lbc_Spec o; lbc_Status := lbc_Status s |}).
#[export] Instance vmc_store : Store World GatewayVMConfiguration :=
  store_of w_vmcs put_vmcs vmc_meta
    (fun o m => {| vmc_meta := m; vmc_Spec := vmc_Spec o; vmc_Status := vmc_Status o |})
    (fun o s => {| vmc_meta := vmc_meta o; vmc_Spec := vmc_Spec o; vmc_Status := vmc_Status s |}).
#[export] Instance secret_store : Store World Secret :=
  store_of w_secrets put_secrets sec_meta
    (fun o m => {| sec_meta := m; sec_Data := sec_Data o |}) (fun o _ => o).
#[export] Instance node_store : Store World Node :=
  store_of w_nodes put_nodes node_meta
    (fun o m => {| node_meta := m; node_taints := node_taints o |}) (fun o _ => o).

#[export] Instance recorder : Recorder World := {|
  recordEvent k ty reason _ w := put_logs (w_events w ++ [(k, ty, reason)]) (w_failures w) w |}.
#[export] Instance prometheus : Prometheus World := {|
  failCountInc labels w := put_logs (w_events w) (w_failures w ++ [labels]) w;
  latencyObserve _ w := w |}.
#[export] Instance os_env : OsEnv := fun _ => "kube-egress-gateway-system".

(** ** Azure *)

(** The configuration of the cluster. *)
Definition sim_az : CloudConfig := fst (DefaultAndValidate sample_config).

Definition azure_404 {A} : M World A := throw (EResponse 404 "NotFound" "not found").

Definition key_of {A} (nm : A -> option string) (x : A) : string := ToLower (Val (nm x)).

(** The elements are named, with distinct names. *)
Definition names_ok {A} (nm : A -> option string) (l : list A) : bool :=
  forallb (fun x => match nm x with Some _ => true | None => false end) l
  && bool_decide (NoDup (key_of nm <$> l)).

Definition lb_ok (lb : LoadBalancer) : bool :=
  match lb_Properties lb with
  | Some p => names_ok lr_Name (lb_LoadBalancingRules p) && names_ok pr_Name (lb_Probes p)
  | None => true
  end.

(** What the service fills in: identifiers, and an address for a frontend that
    has none. *)
Definition fill_frontend (f : FrontendIPConfiguration) : FrontendIPConfiguration :=
  {| fe_ID := Some (azmanager.LBSubresourceID sim_az "frontendIPConfigurations" (Val (fe_Name f)));
     fe_Name := fe_Name f;
     fe_Properties :=
       match fe_Properties f with
       | Some fp => Some
           {| fe_PrivateIPAddressVersion := fe_PrivateIPAddressVersion fp;
              fe_PrivateIPAllocationMethod := fe_PrivateIPAllocationMethod fp;
              fe_PrivateIPAddress :=
                match fe_PrivateIPAddress fp with Some ip => Some ip | None => Some "10.0.0.4" end;
              fe_Subnet := fe_Subnet fp |}
       | None => None
       end |}.
Definition fill_backend (b : BackendAddressPool) : BackendAddressPool :=
  {| bp_ID := Some (azmanager.LBSubresourceID sim_az "backendAddressPools" (Val (bp_Name b)));
     bp_Name := bp_Name b |}.
Definition fill_lb (lb : LoadBalancer) : LoadBalancer :=
  {| lb_Name := lb_Name lb; lb_Location := lb_Location lb; lb_SKU := lb_SKU lb;
     lb_Properties :=
       match lb_Properties lb with
       | Some p => Some
           {| lb_FrontendIPConfigurations := map fill_frontend (lb_FrontendIPConfigurations p);
              lb_BackendAddressPools := map fill_backend (lb_BackendAddressPools p);
              lb_LoadBalancingRules := lb_LoadBalancingRules p;
              lb_Probes := lb_Probes p |}
       | None => None
       end |}.

Definition set_lb lb (w : World) : World :=
  put_azure lb (w_vmss w) (w_instances w) (w_nics w) (w_prefixes w) (w_pips w) w.
Definition set_prefixes px (w : World) : World :=
  put_azure (w_lb w) (w_vmss w) (w_instances w) (w_nics w) px (w_pips w) w.
Definition set_pips pips (w : World) : World :=
  put_azure (w_lb w) (w_vmss w) (w_instances w) (w_nics w) (w_prefixes w) pips w.
Definition set_nics nics (w : World) : World :=
  put_azure (w_lb w) (w_vmss w) (w_instances w) nics (w_prefixes w) (w_pips w) w.
Definition set_vmss vmss (w : World) : World :=
  put_azure (w_lb w) vmss (w_instances w) (w_nics w) (w_prefixes w) (w_pips w) w.
Definition set_instances inst (w : World) : World :=
  put_azure (w_lb w) (w_vmss w) inst (w_nics w) (w_prefixes w) (w_pips w) w.

Definition lookup_or {A} (m : World -> option A) : M World A := fun w =>
  match m w with Some a => (Ok a, w) | None => azure_404 w end.

(** The network interface of a scale set's instance: an address for every
    configuration of the primary interface of the instance's profile. *)
Definition nic_of_instance (vm : VirtualMachineScaleSetVM) : Interface :=
  let confs :=
    match vmi_Properties vm with
    | Some {| vmi_NetworkProfileConfiguration := Some nics |} =>
        match List.find (fun n => match vnic_Properties n with
                                  | Some np => Val (vnic_Primary np) | None => false end) nics with
        | Some {| vnic_Properties := Some np |} => vnic_IPConfigurations np
        | _ => []
        end
    | _ => []
    end in
  {| nic_ID := None; nic_Name := None; nic_Tags := ∅;
     nic_Properties := Some
       {| nic_ProvisioningState := Some "Succeeded";
          nic_IPConfigurations := Some (map (fun c => Some
            {| nip_Name := vip_Name c;
               nip_Properties := match vip_Properties c with
                 | Some cp => Some
                     {| nip_Primary := vip_Primary cp;
                        nip_PrivateIPAddress := Some ("10.1." +:+ Val (vip_Name c));
                        nip_PrivateIPAddressVersion := vip_PrivateIPAddressVersion cp;
                        nip_Subnet := vip_Subnet cp;
                        nip_PublicIPAddress := None;
                        nip_LoadBalancerBackendAddressPools := map Some (vip_LoadBalancerBackendAddressPools cp) |}
                 | None => None
                 end |}) confs) |} |}.

(** An update of an instance replaces its network profile. *)
Definition merge_instance (old new : VirtualMachineScaleSetVM) : VirtualMachineScaleSetVM :=
  {| vmi_ID := vmi_ID old; vmi_InstanceID := vmi_InstanceID old;
     vmi_Properties :=
       match vmi_Properties old, vmi_Properties new with
       | Some o, Some n => Some
           {| vmi_ProvisioningState := Some "Succeeded"; vmi_OSProfile := vmi_OSProfile o;
              vmi_NetworkProfileConfiguration := vmi_NetworkProfileConfiguration n |}
       | o, _ => o
       end |}.
Definition merge_vmss (old new : VirtualMachineScaleSet) : VirtualMachineScaleSet :=
  {| vmss_Name := vmss_Name old; vmss_Location := vmss_Location old; vmss_Tags := vmss_Tags old;
     vmss_Properties :=
       match vmss_Properties old, vmss_Properties new with
       | Some o, Some n => Some
           {| vmss_UniqueID := vmss_UniqueID o;
              vmss_VirtualMachineProfile := vmss_VirtualMachineProfile n |}
       | o, _ => o
       end |}.

#[export] Instance azure : AzureClients World := {|
  lbGet _ _ := fun w =>
    match w_lb w with
    | Some lb => if lb_ok lb then (Ok lb, w) else (Err (EText "corrupted"), w)
    | None => azure_404 w
    end;
  lbCreateOrUpdate _ _ lb := fun w =>
    if lb_ok lb then (Ok (fill_lb lb), set_lb (Some (fill_lb lb)) w)
    else (Err (EText "InvalidResourceName"), w);
  lbDelete _ _ := fun w => (Ok tt, set_lb None w);
  vmssList _ := fun w => (Ok ((map_to_list (w_vmss w)).*2), w);
  vmssGet _ n := lookup_or (fun w => w_vmss w !! n);
  vmssCreateOrUpdate _ n v := fun w =>
    let v := match w_vmss w !! n with Some old => merge_vmss old v | None => v end in
    (Ok v, set_vmss (<[n := v]> (w_vmss w)) w);
  vmList _ := fun w => (Ok (w_vms w), w);
  vmGet _ _ := azure_404;
  vmssvmList _ n := fun w =>
    (Ok (omap (fun kv => if String.eqb kv.1.1 n then Some kv.2 else None)
           (map_to_list (w_instances w))), w);
  vmssvmGet _ n i := lookup_or (fun w => w_instances w !! (n, i));
  vmssvmUpdate _ n i v := fun w =>
    match w_instances w !! (n, i) with
    | Some old =>
        (Ok (merge_instance old v), set_instances (<[(n, i) := merge_instance old v]> (w_instances w)) w)
    | None => azure_404 w
    end;
  prefixGet _ n := lookup_or (fun w => w_prefixes w !! n);
  prefixCreateOrUpdate _ n px := fun w =>
    let px := {| px_ID := Some ("/publicIPPrefixes/" +:+ n); px_Name := px_Name px;
                 px_Location := px_Location px; px_SKU := px_SKU px;
                 px_Properties := px_Properties px |} in
    (Ok px, set_prefixes (<[n := px]> (w_prefixes w)) w);
  prefixDelete _ n := fun w => (Ok tt, set_prefixes (delete n (w_prefixes w)) w);
  pipCreateOrUpdate _ n pip := fun w => (Ok pip, set_pips (<[n := pip]> (w_pips w)) w);
  pipDelete _ n := fun w => (Ok tt, set_pips (delete n (w_pips w)) w);
  nicGetVMSS _ n i _ := fun w =>
    match w_instances w !! (n, i) with
    | Some vm => (Ok (nic_of_instance vm), w)
    | None => azure_404 w
    end;
  nicList _ := fun w => (Ok (map Some ((map_to_list (w_nics w)).*2)), w);
  nicGet _ n := lookup_or (fun w => w_nics w !! n);
  nicCreateOrUpdate _ n nic := fun w => (Ok nic, set_nics (<[n := nic]> (w_nics w)) w);
  subnetGet _ _ _ := ret {| sub_ID := Some "/subnets/gateway" |};
|}.
