(* ===== verification/LBRules.v ===== *)
(** * Load balancer planning
      ([controllers/manager/gatewaylbconfiguration_controller.go])

    The part of the gateway LB controller that computes the load balancer it
    wants: the names and identifiers of a gateway's objects, the comparison of
    rules, the choice of a port and the changes to the load balancer's
    frontends, backends, rules and probes.  These functions have no effects of
    their own; [LBConfig] runs them against Azure. *)

From stdpp Require Import base tactics list strings gmap.
From Stdlib Require Import ZArith Lia.
From S2P Require Import Prelude GoStrings Types Config Azure.

Open Scope string_scope.
Open Scope list_scope.

Record lbPropertyNames := {
  frontendName : string;
  backendName : string;
  lbRuleName : string;
  probeName : string;
}.

(** ** The expected objects *)

Definition getExpectedLBRule (name frontendID backendID probeID : option string) :
    LoadBalancingRule :=
  {| lr_Name := name;
     lr_Properties := Some
       {| lr_Protocol := Ptr TransportProtocolUDP;
          lr_EnableFloatingIP := Ptr true;
          lr_FrontendIPConfiguration := Some {| sub_ID := frontendID |};
          lr_BackendAddressPool := Some {| sub_ID := backendID |};
          lr_Probe := Some {| sub_ID := probeID |};
          lr_FrontendPort := None;
          lr_BackendPort := None |} |}.

(** [int32(x)] of an [int]. *)
Definition to_int32 (z : Z) : Z := ((z + 2 ^ 31) mod 2 ^ 32 - 2 ^ 31)%Z.

Fixpoint owner_uid (refs : list OwnerReference) (name : string) : string :=
  match refs with
  | [] => ""
  | refer :: refs' => if String.eqb (or_name refer) name then or_uid refer else owner_uid refs' name
  end.

Definition getExpectedLBProbe (name : option string) (lbProbePort : Z)
    (lbConfig : GatewayLBConfiguration) : Probe :=
  let gatewayUID := owner_uid (om_owners (lbc_meta lbConfig)) (om_name (lbc_meta lbConfig)) in
  {| pr_Name := name;
     pr_Properties := Some
       {| pr_RequestPath := Ptr (consts.GatewayHealthProbeEndpoint +:+ gatewayUID);
          pr_Protocol := Ptr ProbeProtocolHTTP;
          pr_Port := Ptr (to_int32 lbProbePort) |} |}.

Definition getExpectedFrontendConfig (name subnetID : option string) : FrontendIPConfiguration :=
  {| fe_ID := None;
     fe_Name := name;
     fe_Properties := Some
       {| fe_PrivateIPAddressVersion := Ptr IPVersionIPv4;
          fe_PrivateIPAllocationMethod := Ptr IPAllocationMethodDynamic;
          fe_PrivateIPAddress := None;
          fe_Subnet := Some {| sub_ID := subnetID |} |} |}.

Definition getExpectedBackendPool (name : option string) : BackendAddressPool :=
  {| bp_ID := None; bp_Name := name |}.

(** ** Searching *)

(** [for i := range l { if strings.EqualFold( *l[i].Name, target) { ...; break } }]:
    a nil name before the match panics. *)
Fixpoint find_named {A} (name : A -> option string) (target : string) (l : list A) :
    outcome (option (nat * A)) :=
  match l with
  | [] => Ok None
  | x :: l' =>
      let? n := deref (name x) in
      if EqualFold n target then Ok (Some (0, x))
      else
        let? r := find_named name target l' in
        Ok (match r with Some (i, y) => Some (S i, y) | None => None end)
  end.

Definition findFrontendIP (props : LBProps) (name : string) : outcome string :=
  let? found := find_named fe_Name name (lb_FrontendIPConfigurations props) in
  match found with
  | None => Ok ""
  | Some (_, frontendConfig) =>
      match fe_Properties frontendConfig with
      | Some {| fe_PrivateIPAddressVersion := Some v; fe_PrivateIPAddress := Some ip |} =>
          if String.eqb v IPVersionIPv4 then Ok ip
          else Err (EText ("found frontend(" +:+ name +:+ ") with unexpected configuration"))
      | _ => Err (EText ("found frontend(" +:+ name +:+ ") with unexpected configuration"))
      end
  end.

(** The search for the backend pool: the name and, when it matches, the
    identifier are dereferenced. *)
Fixpoint foundBackend (name backendID : string) (pools : list BackendAddressPool) : outcome bool :=
  match pools with
  | [] => Ok false
  | backendPool :: pools' =>
      let? n := deref (bp_Name backendPool) in
      if EqualFold n name then
        let? id := deref (bp_ID backendPool) in
        if EqualFold id backendID then Ok true else foundBackend name backendID pools'
      else foundBackend name backendID pools'
  end.

(** ** Comparing rules *)

Definition equalSubResource (s t : option SubResource) : bool :=
  match s, t with
  | None, None => true
  | Some s, Some t => EqualFold (Val (sub_ID s)) (Val (sub_ID t))
  | _, _ => false
  end.

Definition sameLBRuleConfig (lbRule1 lbRule2 : LoadBalancingRule) : bool :=
  match lr_Properties lbRule1, lr_Properties lbRule2 with
  | None, None => true
  | Some p1, Some p2 =>
      equalSubResource (lr_FrontendIPConfiguration p1) (lr_FrontendIPConfiguration p2)
      && equalSubResource (lr_BackendAddressPool p1) (lr_BackendAddressPool p2)
      && equalSubResource (lr_Probe p1) (lr_Probe p2)
      && String.eqb (Val (lr_Protocol p1)) (Val (lr_Protocol p2))
      && Bool.eqb (Val (lr_EnableFloatingIP p1)) (Val (lr_EnableFloatingIP p2))
  | _, _ => false
  end.

(** ** Choosing a port *)

(** The rule uses the backend pool with this identifier. *)
Definition rule_on (backendID : string) (rule : LoadBalancingRule) : bool :=
  match lr_Properties rule with
  | Some {| lr_BackendAddressPool := Some s |} => EqualFold (Val (sub_ID s)) backendID
  | _ => false
  end.

(** The port of a rule of the gateway's own backend pool; [None] when it is not a
    port this controller can have given. *)
Definition rule_port (rule : LoadBalancingRule) : option Z :=
  match lr_Properties rule with
  | Some {| lr_FrontendPort := Some f; lr_BackendPort := Some b |} =>
      if (f =? b)%Z && (consts.WireguardPortStart <=? b)%Z && (b <? consts.WireguardPortEnd)%Z
      then Some b else None
  | _ => None
  end.

(** The [ports] slice after the loop over the rules. *)
Fixpoint mark_ports (backendID : string) (rules : list LoadBalancingRule) (ports : list bool) :
    outcome (list bool) :=
  match rules with
  | [] => Ok ports
  | rule :: rules' =>
      if rule_on backendID rule then
        match rule_port rule with
        | None => Err (EText "selectPortForLBRule: found rule with invalid LB port")
        | Some b =>
            mark_ports backendID rules'
              (<[Z.to_nat (b - consts.WireguardPortStart) := true]> ports)
        end
      else mark_ports backendID rules' ports
  end.

Definition selectPortForLBRule (targetRule : LoadBalancingRule) (lbRules : list LoadBalancingRule) :
    outcome Z :=
  let? tp := deref (lr_Properties targetRule) in
  let? tb := deref (lr_BackendAddressPool tp) in
  let? ports :=
    mark_ports (Val (sub_ID tb)) lbRules
      (replicate (Z.to_nat (consts.WireguardPortEnd - consts.WireguardPortStart)) false) in
  match find_index negb ports with
  | Some (i, _) => Ok (Z.of_nat i + consts.WireguardPortStart)%Z
  | None => Err (EText "selectPortForLBRule: No available ports")
  end.

(** ** The changes to a load balancer *)

(** The rule with both its ports set. *)
Definition with_port (port : Z) (rule : LoadBalancingRule) : LoadBalancingRule :=
  {| lr_Name := lr_Name rule;
     lr_Properties :=
       match lr_Properties rule with
       | None => None
       | Some p => Some
           {| lr_Protocol := lr_Protocol p;
              lr_EnableFloatingIP := lr_EnableFloatingIP p;
              lr_FrontendIPConfiguration := lr_FrontendIPConfiguration p;
              lr_BackendAddressPool := lr_BackendAddressPool p;
              lr_Probe := lr_Probe p;
              lr_FrontendPort := Some port;
              lr_BackendPort := Some port |}
       end |}.

(** [needLB]: the rules, whether they changed, and the gateway's port.  The
    first rule with the gateway's name is kept if it is configured as expected
    and replaced otherwise. *)
Definition wantRule (expectedLBRule : LoadBalancingRule) (lbRules : list LoadBalancingRule) :
    outcome (list LoadBalancingRule * bool * Z) :=
  let? ruleName := deref (lr_Name expectedLBRule) in
  let? found := find_named lr_Name ruleName lbRules in
  let '(lbRules, kept) :=
    match found with
    | None => (lbRules, None)
    | Some (i, lbRule) =>
        match lr_Properties lbRule with
        | None => (remove_at i lbRules, None)
        | Some p =>
            if sameLBRuleConfig lbRule expectedLBRule
            then (lbRules, Some (Val (lr_FrontendPort p)))
            else (remove_at i lbRules, None)
        end
    end in
  match kept with
  | Some lbPort => Ok (lbRules, false, lbPort)
  | None =>
      let? port := selectPortForLBRule expectedLBRule lbRules in
      Ok (lbRules ++ [with_port port expectedLBRule], true, port)
  end.

(** Not [needLB]: every rule with the gateway's name is dropped, from the last to
    the first; the other rules on its frontend are counted. *)
Fixpoint dropRules (ruleName frontendID : string) (lbRules : list LoadBalancingRule) :
    outcome (list LoadBalancingRule * bool * nat) :=
  match lbRules with
  | [] => Ok ([], false, 0)
  | lbRule :: lbRules' =>
      let? (rest, updateLB, ruleRefCnt) := dropRules ruleName frontendID lbRules' in
      let? n := deref (lr_Name lbRule) in
      if EqualFold n ruleName then Ok (rest, true, ruleRefCnt)
      else
        let? p := deref (lr_Properties lbRule) in
        let? f := deref (lr_FrontendIPConfiguration p) in
        Ok (lbRule :: rest, updateLB,
            if EqualFold (Val (sub_ID f)) frontendID then S ruleRefCnt else ruleRefCnt)
  end.

(** [needLB]: the probes and whether they changed.  A probe with the gateway's
    name and nil properties is dropped and then dereferenced. *)
Definition wantProbe (expectedProbe : Probe) (probes : list Probe) : outcome (list Probe * bool) :=
  let? name := deref (pr_Name expectedProbe) in
  let? ep := deref (pr_Properties expectedProbe) in
  let? found := find_named pr_Name name probes in
  match found with
  | None => Ok (probes ++ [expectedProbe], true)
  | Some (i, probe) =>
      let? p := deref (pr_Properties probe) in
      let differs :=
        negb (String.eqb (Val (pr_RequestPath p)) (Val (pr_RequestPath ep)))
        || negb (Val (pr_Port p) =? Val (pr_Port ep))%Z in
      let? differs :=
        if differs then Ok true
        else
          let? proto := deref (pr_Protocol p) in
          let? eproto := deref (pr_Protocol ep) in
          Ok (negb (String.eqb proto eproto)) in
      if (differs : bool) then Ok (remove_at i probes ++ [expectedProbe], true)
      else Ok (probes, false)
  end.

(** Not [needLB]: the first probe with the gateway's name is dropped. *)
Definition dropProbe (name : string) (probes : list Probe) : outcome (list Probe * bool) :=
  let? found := find_named pr_Name name probes in
  match found with
  | None => Ok (probes, false)
  | Some (i, _) => Ok (remove_at i probes, true)
  end.

(** The first element with this identifier is dropped. *)
Definition drop_by_id {A} (id : A -> option string) (target : string) (l : list A) : list A * bool :=
  match find_index (fun x => EqualFold (Val (id x)) target) l with
  | None => (l, false)
  | Some (i, _) => (remove_at i l, true)
  end.

(** ** Port selection *)

(** The ports the rules of a backend pool use. *)
Definition ports_on (backendID : string) (rules : list LoadBalancingRule) : list Z :=
  omap (fun r => if rule_on backendID r then rule_port r else None) rules.

Definition port_in_range (p : Z) : Prop :=
  (consts.WireguardPortStart <= p < consts.WireguardPortEnd)%Z.

Lemma ports_on_cons b r rules :
  ports_on b (r :: rules) =
  match (if rule_on b r then rule_port r else None) with
  | Some p => p :: ports_on b rules
  | None => ports_on b rules
  end.
Proof. done. Qed.

Lemma rule_port_range r p : rule_port r = Some p -> port_in_range p.
Proof.
  unfold rule_port, port_in_range. intros H. repeat go_case.
  repeat match goal with H : andb _ _ = true |- _ => apply andb_true_iff in H as [? ?] end. lia.
Qed.

Lemma ports_on_range b rules p : p ∈ ports_on b rules -> port_in_range p.
Proof.
  unfold ports_on. rewrite list_elem_of_omap. intros (r & _ & Hr).
  destruct (rule_on b r); [by eapply rule_port_range|done].
Qed.

Lemma ports_on_app b l1 l2 : ports_on b (l1 ++ l2) = ports_on b l1 ++ ports_on b l2.
Proof. apply omap_app. Qed.

(** A slot is set after the loop exactly when it was set before or a rule of the
    pool uses its port. *)
Lemma mark_ports_slot b rules ports ports' i :
  mark_ports b rules ports = Ok ports' -> i < length ports ->
  length ports' = length ports /\
  (ports' !! i = Some true <->
   ports !! i = Some true \/ (Z.of_nat i + consts.WireguardPortStart)%Z ∈ ports_on b rules).
Proof.
  revert ports. induction rules as [|r rules IH]; intros ports H Hi; simpl in H.
  { simplify_eq. split; [done|]. unfold ports_on. simpl. rewrite elem_of_nil. tauto. }
  unfold ports_on. simpl. fold (ports_on b rules).
  destruct (rule_on b r) eqn:Hon; [|by apply IH].
  destruct (rule_port r) as [p|] eqn:Hp; [|done].
  destruct (IH _ H) as [Hlen Hslot]; [by rewrite length_insert|].
  rewrite length_insert in Hlen. split; [done|]. rewrite Hslot, elem_of_cons.
  apply rule_port_range in Hp. unfold port_in_range in Hp.
  destruct (decide (Z.to_nat (p - consts.WireguardPortStart) = i)) as [<-|Hne].
  - rewrite list_lookup_insert_eq by done. split; [|by left].
    intros _. right. left. rewrite Z2Nat.id; lia.
  - rewrite list_lookup_insert_ne by done. split; [tauto|].
    intros [?|[?|?]]; [tauto| |tauto]. exfalso. apply Hne. lia.
Qed.

Lemma mark_ports_fails b rules ports :
  match mark_ports b rules ports with
  | Ok _ => Forall (fun r => rule_on b r = true -> is_Some (rule_port r)) rules
  | Err _ => Exists (fun r => rule_on b r = true /\ rule_port r = None) rules
  | Panic => False
  end.
Proof.
  revert ports. induction rules as [|r rules IH]; intros ports; simpl; [by constructor|].
  destruct (rule_on b r) eqn:Hon.
  - destruct (rule_port r) eqn:Hp; [|by left].
    specialize (IH (<[Z.to_nat (z - consts.WireguardPortStart):=true]> ports)).
    destruct mark_ports; [constructor; eauto|by right|done].
  - specialize (IH ports). destruct mark_ports; [constructor; [by rewrite Hon|done]|by right|done].
Qed.

(** How the choice of a port can end. *)
Lemma selectPort_cases name fe be pr rules :
  match selectPortForLBRule (getExpectedLBRule name fe (Some be) pr) rules with
  | Ok p =>
      Forall (fun r => rule_on be r = true -> is_Some (rule_port r)) rules /\ port_in_range p /\
      (p ∉ ports_on be rules) /\
      forall q, (consts.WireguardPortStart <= q < p)%Z -> q ∈ ports_on be rules
  | Err _ =>
      Exists (fun r => rule_on be r = true /\ rule_port r = None) rules \/
      forall q, port_in_range q -> q ∈ ports_on be rules
  | Panic => False
  end.
Proof.
  unfold selectPortForLBRule.
  cbn [obind deref lr_Properties getExpectedLBRule lr_BackendAddressPool sub_ID Val].
  set (ports := replicate (Z.to_nat (consts.WireguardPortEnd - consts.WireguardPortStart)) false).
  assert (length ports = 1000) as Hlen by apply length_replicate.
  pose proof (mark_ports_fails be rules ports) as Hf.
  destruct (mark_ports be rules ports) as [ports'| |] eqn:Hm; simpl; [|by left|done].
  assert (forall i, i < 1000 ->
    (ports' !! i = Some true <->
     (Z.of_nat i + consts.WireguardPortStart)%Z ∈ ports_on be rules)) as Hs.
  { intros i Hi. destruct (mark_ports_slot be rules ports ports' i Hm) as [_ ->]; [lia|].
    split; [intros [Hr|?]; [|done]|by right]. by apply lookup_replicate in Hr as [? _]. }
  assert (length ports' = 1000) as Hlen'.
  { destruct (mark_ports_slot be rules ports ports' 0 Hm) as [-> _]; lia. }
  unfold port_in_range, consts.WireguardPortStart, consts.WireguardPortEnd in *.
  destruct (find_index negb ports') as [[i x]|] eqn:Hfi; simpl.
  - apply find_index_Some in Hfi as (l1 & l2 & -> & <- & Hx & Hl1).
    rewrite length_app in Hlen'. simpl in Hlen'. split_and!; [done|lia|lia| |].
    + rewrite <- Hs by lia. rewrite list_lookup_middle by done. by destruct x.
    + intros q Hq. replace q with (Z.of_nat (Z.to_nat (q - 6000)) + 6000)%Z by lia.
      apply Hs; [lia|]. rewrite lookup_app_l by lia.
      destruct (lookup_lt_is_Some_2 l1 (Z.to_nat (q - 6000))) as [y Hy]; [lia|].
      rewrite Hy. rewrite Forall_lookup in Hl1. specialize (Hl1 _ _ Hy). by destruct y.
  - right. intros q Hq. apply find_index_None in Hfi.
    replace q with (Z.of_nat (Z.to_nat (q - 6000)) + 6000)%Z by lia. apply Hs; [lia|].
    destruct (lookup_lt_is_Some_2 ports' (Z.to_nat (q - 6000))) as [y Hy]; [lia|].
    rewrite Hy. rewrite Forall_lookup in Hfi. specialize (Hfi _ _ Hy). by destruct y.
Qed.

(** C32: [selectPortForLBRule] picks a port exactly when every rule of the gateway's
    backend pool has a port the controller can have given, and then it is the
    smallest port of the WireGuard range [6000, 7000) that no rule of the pool
    uses; it never panics on the rule the controller asks a port for. *)
Theorem selectPortForLBRule_spec name fe be pr rules p :
  selectPortForLBRule (getExpectedLBRule name fe (Some be) pr) rules = Ok p <->
  Forall (fun r => rule_on be r = true -> is_Some (rule_port r)) rules /\ port_in_range p /\
  (p ∉ ports_on be rules) /\
  forall q, (consts.WireguardPortStart <= q < p)%Z -> q ∈ ports_on be rules.
Proof.
  pose proof (selectPort_cases name fe be pr rules) as Hc.
  destruct selectPortForLBRule as [p'|e|]; [| |done].
  - split; [by intros [= <-]|]. intros (_ & Hp & Hfree & Hmin). destruct Hc as (_ & Hp' & Hfree' & Hmin').
    f_equal. unfold port_in_range in *.
    destruct (Z.lt_trichotomy p' p) as [Hlt|[?|Hlt]]; [|done|]; exfalso.
    + apply Hfree', Hmin. lia.
    + apply Hfree, Hmin'. lia.
  - split; [done|]. intros (Hwf & Hp & Hfree & _). exfalso. destruct Hc as [Hbad|Hall].
    + apply Exists_exists in Hbad as (r & Hin & Hon & Hnone). rewrite Forall_forall in Hwf.
      destruct (Hwf r Hin Hon). congruence.
    + by apply Hfree, Hall.
Qed.

(** ** Searching by name *)

(** [x] is named, and its name is not [target]. *)
Definition not_named {A} (name : A -> option string) (target : string) (x : A) : Prop :=
  exists n, name x = Some n /\ EqualFold n target = false.

(** [x] carries the name, up to case. *)
Definition named {A} (name : A -> option string) (target : string) (x : A) : Prop :=
  exists n, name x = Some n /\ EqualFold n target = true.

(** The same as a test. *)
Definition has_name {A} (name : A -> option string) (target : string) (x : A) : bool :=
  match name x with Some n => EqualFold n target | None => false end.

Section find_named.
Context {A : Type} (name : A -> option string).
Implicit Types (l : list A) (target : string).

Lemma named_has_name target x : named name target x -> has_name name target x = true.
Proof. unfold has_name. by intros (n & -> & ->). Qed.

Lemma not_named_has_name target x : not_named name target x -> has_name name target x = false.
Proof. unfold has_name. by intros (n & -> & ->). Qed.

Lemma find_named_cases target l :
  match find_named name target l with
  | Ok (Some (i, x)) =>
      exists l1 l2, l = l1 ++ x :: l2 /\ length l1 = i /\ named name target x /\
                    Forall (not_named name target) l1
  | Ok None => Forall (not_named name target) l
  | Err _ => False
  | Panic => Exists (fun x => name x = None) l
  end.
Proof.
  induction l as [|x l IH]; simpl; [constructor|].
  destruct (name x) as [n|] eqn:Hn; simpl; [|by left].
  destruct (EqualFold n target) eqn:Ht.
  { exists [], l. split_and!; try done. by exists n. }
  destruct (find_named name target l) as [[[i y]|]| |]; simpl; [| |done|by right].
  - destruct IH as (l1 & l2 & -> & <- & Hy & Hl1). exists (x :: l1), l2.
    split_and!; try done. constructor; [by exists n|done].
  - constructor; [by exists n|done].
Qed.

Lemma find_named_first target l1 x l2 :
  Forall (not_named name target) l1 -> named name target x ->
  find_named name target (l1 ++ x :: l2) = Ok (Some (length l1, x)).
Proof.
  induction 1 as [|y l1 (n & Hn & Ht) _ IH]; intros Hx; simpl.
  - destruct Hx as (n & -> & Ht). simpl. by rewrite Ht.
  - rewrite Hn. simpl. by rewrite Ht, IH.
Qed.

Lemma find_named_none target l :
  Forall (not_named name target) l -> find_named name target l = Ok None.
Proof.
  induction 1 as [|y l (n & Hn & Ht) _ IH]; simpl; [done|]. rewrite Hn. simpl. by rewrite Ht, IH.
Qed.

(** Dropping the first match leaves exactly the elements with other names,
    when at most one element carries the name. *)
Lemma filter_not_named target l :
  Forall (not_named name target) l ->
  List.filter (fun x => negb (has_name name target x)) l = l.
Proof.
  induction 1 as [|x l Hx _ IH]; simpl; [done|]. rewrite (not_named_has_name _ _ Hx). simpl.
  by rewrite IH.
Qed.
End find_named.

(** ** The gateway's rule *)

Abbreviation others target rules :=
  (List.filter (fun r => negb (has_name lr_Name target r)) rules).

Lemma equalSubResource_refl s : equalSubResource s s = true.
Proof. destruct s; simpl; [apply EqualFold_refl|done]. Qed.

Lemma sameLBRuleConfig_refl r : sameLBRuleConfig r r = true.
Proof.
  unfold sameLBRuleConfig. destruct (lr_Properties r) as [p|]; [|done].
  by rewrite !equalSubResource_refl, String.eqb_refl, eqb_reflx.
Qed.

(** The ports are not part of the comparison. *)
Lemma sameLBRuleConfig_with_port port r e :
  sameLBRuleConfig (with_port port r) e = sameLBRuleConfig r e.
Proof. unfold sameLBRuleConfig, with_port. simpl. by destruct (lr_Properties r), (lr_Properties e). Qed.

(** The rule the gateway ends up with: its name, the expected configuration and
    the port reported to the caller. *)
Definition gateway_rule (expected : LoadBalancingRule) (port : Z) (r : LoadBalancingRule) : Prop :=
  (exists n, lr_Name expected = Some n /\ named lr_Name n r) /\
  sameLBRuleConfig r expected = true /\
  exists p, lr_Properties r = Some p /\ Val (lr_FrontendPort p) = port.

Section wantRule.
Context (name : string) (fe be pr : option string).
Let expected := getExpectedLBRule (Some name) fe be pr.
Implicit Types (rules : list LoadBalancingRule) (port : Z).

Lemma named_expected port : named lr_Name name (with_port port expected).
Proof. exists name. split; [done|apply EqualFold_refl]. Qed.

Lemma gateway_rule_new port : gateway_rule expected port (with_port port expected).
Proof.
  split; [exists name; split; [done|apply named_expected]|].
  rewrite sameLBRuleConfig_with_port, sameLBRuleConfig_refl. split; [done|]. by eexists.
Qed.

Lemma others_app l1 l2 : others name (l1 ++ l2) = others name l1 ++ others name l2.
Proof. apply List.filter_app. Qed.

(** The two ways [wantRule] succeeds: the first rule with the gateway's name is
    kept as it is, or it is dropped (if there is one) and a new rule with a free
    port is appended. *)
Lemma wantRule_cases rules rules' upd port :
  wantRule expected rules = Ok (rules', upd, port) ->
  (upd = false /\ rules' = rules /\
   exists l1 r l2, rules = l1 ++ r :: l2 /\ Forall (not_named lr_Name name) l1 /\
                   gateway_rule expected port r) \/
  (upd = true /\
   exists l1 l2, rules' = l1 ++ l2 ++ [with_port port expected] /\
     Forall (not_named lr_Name name) l1 /\
     selectPortForLBRule expected (l1 ++ l2) = Ok port /\
     ((rules = l1 ++ l2 /\ l2 = []) \/
      exists r, rules = l1 ++ r :: l2 /\ named lr_Name name r)).
Proof.
  unfold wantRule. simpl. intros H. pose proof (find_named_cases lr_Name name rules) as Hf.
  destruct (find_named lr_Name name rules) as [[[i r]|]| |]; simpl in H; [| |done..].
  - destruct Hf as (l1 & l2 & -> & <- & Hr & Hl1).
    rewrite remove_at_app in H.
    assert (forall o, obind (selectPortForLBRule expected (l1 ++ l2))
       (fun port => Ok ((l1 ++ l2) ++ [with_port port expected], true, port)) = Ok o ->
       o = (rules', upd, port) -> upd = true /\
         rules' = l1 ++ l2 ++ [with_port port expected] /\
         selectPortForLBRule expected (l1 ++ l2) = Ok port) as Hnew.
    { intros o Ho ->. go_inv. by rewrite <- (assoc_L (++)). }
    destruct (lr_Properties r) as [p|] eqn:Hp.
    + destruct (sameLBRuleConfig r expected) eqn:Hsame; simplify_eq/=.
      * left. split_and!; [done..|]. exists l1, r, l2. split_and!; [done..|].
        split; [by exists name|]. split; [done|]. by exists p.
      * right. destruct (Hnew _ H eq_refl) as (? & ? & ?). split; [done|].
        exists l1, l2. split_and!; [done..|]. right. by exists r.
    + right. destruct (Hnew _ H eq_refl) as (? & ? & ?). split; [done|].
      exists l1, l2. split_and!; [done..|]. right. by exists r.
  - right. apply obind_Ok_inv in H as (q & Hq & H). simplify_eq. split; [done|].
    exists rules, []. rewrite !app_nil_r. split_and!; [done..|]. by left.
Qed.
End wantRule.

(** ** Dropping a gateway's rules *)

(** The rule uses the frontend with this identifier. *)
Definition rule_frontend (frontendID : string) (rule : LoadBalancingRule) : bool :=
  match lr_Properties rule with
  | Some {| lr_FrontendIPConfiguration := Some f |} => EqualFold (Val (sub_ID f)) frontendID
  | _ => false
  end.

(** A rule the loop cannot inspect without dereferencing nil. *)
Definition malformed_rule (r : LoadBalancingRule) : Prop :=
  lr_Name r = None \/ lr_Properties r = None \/
  exists p, lr_Properties r = Some p /\ lr_FrontendIPConfiguration p = None.

(** On deletion of a gateway every load-balancing rule with its name is
    dropped and every other rule is kept in place; the load balancer is updated
    exactly when a rule was dropped, and the reference count is the number of
    remaining rules on the gateway's frontend. The loop panics only on a rule
    without a name, properties or frontend. *)
Lemma dropRules_cases ruleName frontendID rules :
  match dropRules ruleName frontendID rules with
  | Ok (rules', updateLB, ruleRefCnt) =>
      rules' = others ruleName rules /\
      updateLB = existsb (has_name lr_Name ruleName) rules /\
      ruleRefCnt = length (List.filter (rule_frontend frontendID) rules')
  | Err _ => False
  | Panic => Exists malformed_rule rules
  end.
Proof.
  induction rules as [|r rules IH]; simpl; [done|].
  destruct (dropRules ruleName frontendID rules) as [[[rest u] c]| |]; simpl; [|done|by right].
  destruct IH as (-> & -> & ->).
  destruct (lr_Name r) as [n|] eqn:Hn; simpl; [|left; by left].
  assert (has_name lr_Name ruleName r = EqualFold n ruleName) as ->
    by (unfold has_name; by rewrite Hn).
  destruct (EqualFold n ruleName) eqn:He; simpl; [done|].
  destruct (lr_Properties r) as [p|] eqn:Hp; simpl; [|left; right; by left].
  destruct (lr_FrontendIPConfiguration p) as [f|] eqn:Hf; simpl; [|left; right; right; by exists p].
  split_and!; [done..|].
  assert (rule_frontend frontendID r = EqualFold (Val (sub_ID f)) frontendID) as ->
    by (unfold rule_frontend; rewrite Hp; destruct p; simpl in *; by rewrite Hf).
  by destruct (EqualFold (Val (sub_ID f)) frontendID).
Qed.

(** ** The rules of a load balancer over time *)

(** One reconciliation's effect on the rules: a gateway's rule is ensured, or its
    rules are dropped. *)
Inductive rules_step : list LoadBalancingRule -> list LoadBalancingRule -> Prop :=
| step_want name fe be pr rules rules' upd port :
    wantRule (getExpectedLBRule (Some name) fe (Some be) pr) rules = Ok (rules', upd, port) ->
    rules_step rules rules'
| step_drop name fe rules rules' upd n :
    dropRules name fe rules = Ok (rules', upd, n) -> rules_step rules rules'.

(** A rule this controller created. *)
Definition controller_rule (r : LoadBalancingRule) : Prop :=
  exists name fe be pr port,
    r = with_port port (getExpectedLBRule (Some name) fe (Some be) pr) /\ port_in_range port.

Definition rule_key (r : LoadBalancingRule) : string := ToLower (Val (lr_Name r)).

Record rules_ok (rules : list LoadBalancingRule) : Prop := {
  ok_rules : Forall controller_rule rules;
  ok_names : NoDup (rule_key <$> rules);
  ok_ports : forall be, NoDup (ports_on be rules);
}.

Lemma ports_on_sublist be l1 l2 : sublist l1 l2 -> sublist (ports_on be l1) (ports_on be l2).
Proof.
  unfold ports_on. induction 1; simpl; [done|..]; destruct (if rule_on _ _ then _ else _);
    by try constructor.
Qed.

Lemma sublist_filter {A} (p : A -> bool) l : sublist (List.filter p l) l.
Proof. induction l as [|x l IH]; simpl; [done|]. destruct (p x); by constructor. Qed.

Lemma rules_ok_sublist l1 l2 : sublist l1 l2 -> rules_ok l2 -> rules_ok l1.
Proof.
  intros Hs [Hr Hn Hp]. constructor.
  - rewrite Forall_forall in *. intros x Hx. apply Hr. by eapply elem_of_sublist.
  - eapply sublist_NoDup; [done|]. by apply fmap_sublist.
  - intros be. eapply sublist_NoDup; [done|]. by apply ports_on_sublist.
Qed.

Lemma rule_on_new be be' name fe pr port :
  rule_on be' (with_port port (getExpectedLBRule name fe (Some be) pr)) = EqualFold be be'.
Proof. done. Qed.

Lemma rule_port_new name fe be pr port :
  port_in_range port ->
  rule_port (with_port port (getExpectedLBRule name fe be pr)) = Some port.
Proof.
  unfold port_in_range, rule_port. simpl. intros [? ?]. rewrite Z.eqb_refl. simpl.
  by rewrite (proj2 (Z.leb_le _ _)), (proj2 (Z.ltb_lt _ _)).
Qed.

#[export] Instance rule_on_proper : Proper (fold_eq ==> eq ==> eq) rule_on.
Proof. intros b b' Hb r ? <-. unfold rule_on. repeat go_case; try done. by rewrite Hb. Qed.

#[export] Instance ports_on_proper : Proper (fold_eq ==> eq ==> eq) ports_on.
Proof.
  intros b b' Hb rules ? <-. unfold ports_on. induction rules as [|r rules IH]; simpl; [done|].
  rewrite (rule_on_proper b b' Hb r r eq_refl).
  destruct (if rule_on b' r then _ else _); [f_equal|]; exact IH.
Qed.

Lemma not_named_key target r : not_named lr_Name target r -> rule_key r <> ToLower target.
Proof. intros (n & Hn & Ht). apply EqualFold_false in Ht. unfold rule_key. by rewrite Hn. Qed.

Lemma named_key target r : named lr_Name target r -> rule_key r = ToLower target.
Proof. intros (n & Hn & Ht). apply EqualFold_spec in Ht. unfold rule_key. by rewrite Hn. Qed.

(** Appending a new rule with a free port and a fresh name keeps the invariant. *)
Lemma rules_ok_new name fe be pr rules port :
  rules_ok rules -> ToLower name ∉ rule_key <$> rules ->
  selectPortForLBRule (getExpectedLBRule (Some name) fe (Some be) pr) rules = Ok port ->
  rules_ok (rules ++ [with_port port (getExpectedLBRule (Some name) fe (Some be) pr)]).
Proof.
  intros [Hr Hn Hp] Hfresh Hsel.
  pose proof (selectPort_cases (Some name) fe be pr rules) as Hs. rewrite Hsel in Hs.
  destruct Hs as (_ & Hrange & Hfree & _). constructor.
  - apply Forall_app. split; [done|]. constructor; [|done]. by exists name, fe, be, pr, port.
  - rewrite fmap_app. apply NoDup_app. split_and!; [done| |apply NoDup_singleton].
    intros k Hk ->%list_elem_of_singleton. by apply Hfresh.
  - intros be'. rewrite ports_on_app. unfold ports_on at 2. simpl.
    rewrite rule_on_new, rule_port_new by done.
    destruct (EqualFold be be') eqn:Hb; [|by rewrite app_nil_r].
    apply EqualFold_spec in Hb. apply NoDup_app. split_and!; [done| |apply NoDup_singleton].
    intros q Hq ->%list_elem_of_singleton. apply Hfree. by rewrite Hb.
Qed.

Lemma rules_ok_step rules rules' : rules_step rules rules' -> rules_ok rules -> rules_ok rules'.
Proof.
  intros Hstep Hok. destruct Hstep as [name fe be pr rules rules' upd port H|name fe rules rules' upd n H].
  - apply wantRule_cases in H as [(_ & -> & _)|(_ & l1 & l2 & -> & Hl1 & Hsel & Hr)]; [done|].
    rewrite (assoc_L (++)).
    assert (rules_ok (l1 ++ l2)) as Hok'.
    { destruct Hr as [[-> ->]|(r & -> & _)]; [by rewrite app_nil_r in *|].
      eapply rules_ok_sublist; [|done]. apply sublist_app; [done|]. by constructor. }
    apply rules_ok_new; [done| |done].
    rewrite fmap_app, elem_of_app. intros [Hk|Hk].
    + apply list_elem_of_fmap in Hk as (x & Hx & Hin). rewrite Forall_forall in Hl1.
      by apply (not_named_key name x); [apply Hl1|].
    + destruct Hr as [[-> ->]|(r & -> & Hrn)]; [by apply not_elem_of_nil in Hk|].
      destruct Hok as [_ Hn _]. rewrite fmap_app, fmap_cons in Hn.
      apply NoDup_app in Hn as (_ & _ & Hn). apply NoDup_cons in Hn as [Hn _].
      apply Hn. by rewrite (named_key _ _ Hrn).
  - pose proof (dropRules_cases name fe rules) as Hd. rewrite H in Hd. destruct Hd as (-> & _ & _).
    eapply rules_ok_sublist; [apply sublist_filter|done].
Qed.

Lemma rules_ok_reachable rules : rtc rules_step [] rules -> rules_ok rules.
Proof.
  intros Hr. assert (rules_ok []) as H0 by (by repeat constructor).
  revert H0. induction Hr as [|r1 r2 r3 Hs _ IH]; [done|]. intros H0. by apply IH, (rules_ok_step r1).
Qed.

(** C7: on a load balancer whose rules this controller made, whatever sequence of
    gateways was reconciled and deleted, the gateways that share a backend pool
    listen on pairwise distinct ports of the WireGuard range, and no two rules
    have the same name. *)
Theorem reachable_ports_distinct rules :
  rtc rules_step [] rules ->
  (forall be, NoDup (ports_on be rules)) /\
  NoDup (rule_key <$> rules) /\
  Forall (fun r => exists p, rule_port r = Some p /\ port_in_range p) rules.
Proof.
  intros [Hr Hn Hp]%rules_ok_reachable. split_and!; [done..|].
  eapply Forall_impl; [exact Hr|]. intros r (name & fe & be & pr & port & -> & Hport).
  exists port. by rewrite rule_port_new.
Qed.

(** A rule of a gateway, and the load balancer with the rules of two gateways of
    one pool. *)
Definition sample_rule (name : string) : LoadBalancingRule :=
  getExpectedLBRule (Some name) (Some "fe") (Some "pool") (Some ("probe-" +:+ name)).
Definition two_gateways : list LoadBalancingRule :=
  [with_port 6000 (sample_rule "gw1"); with_port 6001 (sample_rule "gw2")].

Lemma two_gateways_reachable : rtc rules_step [] two_gateways.
Proof.
  eapply (rtc_l _ _ [with_port 6000 (sample_rule "gw1")]).
  { eapply (step_want "gw1" (Some "fe") "pool" (Some "probe-gw1") _ _ true 6000).
    vm_compute. reflexivity. }
  eapply rtc_l; [|apply rtc_refl].
  eapply (step_want "gw2" (Some "fe") "pool" (Some "probe-gw2") _ _ true 6001).
  vm_compute. reflexivity.
Defined.

Lemma reachable_ports_distinct_witness :
  ports_on "POOL" two_gateways = [6000; 6001]%Z /\ NoDup (ports_on "POOL" two_gateways).
Proof.
  split; [vm_compute; reflexivity|].
  apply (reachable_ports_distinct two_gateways two_gateways_reachable).
Defined.

(** *** Progress *)

Lemma ports_on_length be rules : length (ports_on be rules) <= length rules.
Proof.
  induction rules as [|r rules IH]; [done|]. rewrite ports_on_cons.
  destruct (if rule_on be r then _ else _); simpl; lia.
Qed.

(** A thousand distinct values need a list of a thousand. *)
Lemma all_ports_length (l : list Z) :
  (forall q, port_in_range q -> q ∈ l) -> 1000 <= length l.
Proof.
  intros Hall.
  set (all := (fun i => Z.of_nat i + consts.WireguardPortStart)%Z <$> seq 0 1000).
  assert (NoDup all) as Hnd.
  { apply NoDup_fmap_2_strong; [|apply NoDup_seq]. intros ? ? _ _ H. lia. }
  assert (length all = 1000) as Hlen by (unfold all; rewrite length_fmap; apply length_seq).
  rewrite <- Hlen. apply submseteq_length, NoDup_submseteq; [done|].
  intros q (i & -> & Hi%elem_of_seq)%list_elem_of_fmap. apply Hall.
  unfold port_in_range, consts.WireguardPortStart, consts.WireguardPortEnd. lia.
Qed.

Lemma selectPort_progress name fe be pr rules :
  Forall controller_rule rules -> length rules < 1000 ->
  exists port, selectPortForLBRule (getExpectedLBRule name fe (Some be) pr) rules = Ok port.
Proof.
  intros Hr Hlen. pose proof (selectPort_cases name fe be pr rules) as Hs.
  destruct selectPortForLBRule as [port|e|]; [by exists port| |done]. exfalso. destruct Hs as [Hs|Hs].
  - apply Exists_exists in Hs as (r & Hin & _ & Hnone). rewrite Forall_forall in Hr.
    destruct (Hr r Hin) as (n & f & b & p & port & -> & Hport). by rewrite rule_port_new in Hnone.
  - apply all_ports_length in Hs. pose proof (ports_on_length be rules). lia.
Qed.

Lemma controller_rule_name r : controller_rule r -> is_Some (lr_Name r).
Proof. intros (n & f & b & p & port & -> & _). by eexists. Qed.

Lemma not_named_of_key target r :
  is_Some (lr_Name r) -> rule_key r <> ToLower target -> not_named lr_Name target r.
Proof.
  intros [n Hn] Hk. exists n. split; [done|]. apply EqualFold_false.
  unfold rule_key in Hk. by rewrite Hn in Hk.
Qed.

(** When the rules are well formed, the rules behind a match carry other names. *)
Lemma rules_ok_behind name l1 r l2 :
  rules_ok (l1 ++ r :: l2) -> named lr_Name name r -> Forall (not_named lr_Name name) l2.
Proof.
  intros [Hr Hn _] Hrn. rewrite fmap_app, fmap_cons in Hn.
  apply NoDup_app in Hn as (_ & _ & Hn). apply NoDup_cons in Hn as [Hn _].
  apply Forall_app in Hr as [_ Hr]. apply Forall_cons in Hr as [_ Hr].
  apply Forall_forall. intros x Hx. apply not_named_of_key.
  - rewrite Forall_forall in Hr. by apply controller_rule_name, Hr.
  - intros Hk. apply Hn. rewrite (named_key _ _ Hrn), <- Hk. by apply list_elem_of_fmap_2.
Qed.

(** Ensuring the gateway's rule a second time finds it. *)
Lemma wantRule_again name fe be pr l port :
  Forall (not_named lr_Name name) l ->
  let e := getExpectedLBRule (Some name) fe be pr in
  wantRule e (l ++ [with_port port e]) = Ok (l ++ [with_port port e], false, port).
Proof.
  intros Hl e. unfold wantRule. cbn [obind deref lr_Name e getExpectedLBRule].
  rewrite (find_named_first lr_Name name l (with_port port e) [] Hl (named_expected name fe be pr port)).
  cbn [obind]. unfold e at 1. cbn [with_port lr_Properties getExpectedLBRule].
  by rewrite sameLBRuleConfig_with_port, sameLBRuleConfig_refl.
Qed.

Lemma others_named name r l : named lr_Name name r -> others name (r :: l) = others name l.
Proof. intros Hr. simpl. by rewrite (named_has_name _ _ _ Hr). Qed.

(** C9: on such a load balancer with fewer than a thousand rules, ensuring a
    gateway's rule always succeeds: the gateway ends up with a rule of its name,
    in the expected configuration, on the reported port; the rules of the other
    gateways are untouched; and ensuring it again reports the same port and asks
    for no update. *)
Theorem wantRule_settles name fe be pr rules :
  rtc rules_step [] rules -> length rules < 1000 ->
  let e := getExpectedLBRule (Some name) fe (Some be) pr in
  exists rules' upd port,
    wantRule e rules = Ok (rules', upd, port) /\
    (exists r, r ∈ rules' /\ gateway_rule e port r) /\
    others name rules' = others name rules /\
    wantRule e rules' = Ok (rules', false, port).
Proof.
  intros Hreach Hlen e. apply rules_ok_reachable in Hreach as Hok.
  assert (exists o, wantRule e rules = Ok o) as [[[rules' upd] port] Hw].
  { pose proof (find_named_cases lr_Name name rules) as Hf. unfold wantRule.
    cbn [obind deref lr_Name e getExpectedLBRule].
    destruct (find_named lr_Name name rules) as [[[i r]|]| |]; cbn [obind]; [| |done|].
    - destruct Hf as (l1 & l2 & Heq & <- & _). rewrite Heq, remove_at_app.
      destruct (selectPort_progress (Some name) fe be pr (l1 ++ l2)) as [q Hq].
      { destruct Hok as [Hr _ _]. rewrite Heq in Hr. apply Forall_app in Hr as [? Hr].
        apply Forall_cons in Hr as [_ ?]. by apply Forall_app. }
      { rewrite Heq in Hlen. rewrite length_app in *. simpl in Hlen. lia. }
      fold e in Hq. destruct (lr_Properties r); [destruct (sameLBRuleConfig _ _)|];
        rewrite ?Hq; cbn [obind]; eauto.
    - destruct (selectPort_progress (Some name) fe be pr rules) as [q Hq]; [apply Hok|done|].
      fold e in Hq. rewrite Hq. cbn [obind]. eauto.
    - exfalso. apply Exists_exists in Hf as (x & Hx & Hnone). destruct Hok as [Hr _ _].
      rewrite Forall_forall in Hr. destruct (controller_rule_name x (Hr x Hx)) as [? ?]. congruence. }
  exists rules', upd, port. split; [done|].
  destruct (wantRule_cases name fe (Some be) pr rules rules' upd port Hw)
    as [(-> & -> & l1 & r & l2 & Heq & _ & Hg)|(-> & l1 & l2 & -> & Hl1 & _ & Hcase)].
  - split_and!; [|done|done]. exists r. split; [rewrite Heq; set_solver|done].
  - assert (Forall (not_named lr_Name name) (l1 ++ l2)) as Hall.
    { apply Forall_app. split; [done|]. destruct Hcase as [[_ ->]|(r & -> & Hrn)]; [done|].
      by eapply rules_ok_behind. }
    rewrite (assoc_L (++)). split_and!.
    + exists (with_port port e). split; [set_solver|apply gateway_rule_new].
    + fold e. rewrite others_app, (others_named name (with_port port e) []) by apply named_expected.
      simpl. rewrite app_nil_r.
      destruct Hcase as [[-> ->]|(r & -> & Hrn)]; [by rewrite app_nil_r|].
      by rewrite !others_app, others_named.
    + by apply wantRule_again.
Qed.

Lemma wantRule_settles_witness :
  wantRule (sample_rule "gw3") two_gateways =
    Ok (two_gateways ++ [with_port 6002 (sample_rule "gw3")], true, 6002%Z) /\
  exists rules' upd port,
    wantRule (sample_rule "gw3") two_gateways = Ok (rules', upd, port) /\
    (exists r, r ∈ rules' /\ gateway_rule (sample_rule "gw3") port r) /\
    others "gw3" rules' = others "gw3" two_gateways /\
    wantRule (sample_rule "gw3") rules' = Ok (rules', false, port).
Proof.
  split; [vm_compute; reflexivity|].
  apply (wantRule_settles "gw3" (Some "fe") "pool" (Some "probe-gw3") two_gateways
           two_gateways_reachable).
  vm_compute. lia.
Defined.

(** ** The gateway's probe *)

(** The probe's properties are the expected ones, as far as the controller
    compares them. *)
Definition same_probe (p q : ProbeProps) : Prop :=
  Val (pr_RequestPath p) = Val (pr_RequestPath q) /\ Val (pr_Port p) = Val (pr_Port q) /\
  pr_Protocol p = pr_Protocol q.

(** Ensuring the health probe of a gateway. If the first probe with its name
    has the expected path, port and protocol, nothing changes; otherwise that
    probe is replaced by the expected one, appended at the end; the other probes
    are kept. The code panics exactly when a probe before the match has no name,
    or when the match has no properties or (its path and port being right) no
    protocol. *)
Lemma wantProbe_cases name ep probes :
  is_Some (pr_Protocol ep) ->
  let expected := {| pr_Name := Some name; pr_Properties := Some ep |} in
  match wantProbe expected probes with
  | Ok (probes', upd) =>
      (upd = false /\ probes' = probes /\
       exists l1 probe l2 p, probes = l1 ++ probe :: l2 /\ Forall (not_named pr_Name name) l1 /\
         named pr_Name name probe /\ pr_Properties probe = Some p /\ same_probe p ep) \/
      (upd = true /\
       exists l1 l2, probes' = l1 ++ l2 ++ [expected] /\ Forall (not_named pr_Name name) l1 /\
         ((probes = l1 /\ l2 = []) \/
          exists probe p, probes = l1 ++ probe :: l2 /\ named pr_Name name probe /\
            pr_Properties probe = Some p /\ ~ same_probe p ep))
  | Err _ => False
  | Panic =>
      Exists (fun x => pr_Name x = None) probes \/
      exists l1 probe l2, probes = l1 ++ probe :: l2 /\ Forall (not_named pr_Name name) l1 /\
        named pr_Name name probe /\
        (pr_Properties probe = None \/
         exists p, pr_Properties probe = Some p /\ pr_Protocol p = None)
  end.
Proof.
  intros [ev Hev] expected. unfold wantProbe. simpl.
  pose proof (find_named_cases pr_Name name probes) as Hf.
  destruct (find_named pr_Name name probes) as [[[i probe]|]| |]; simpl; [| |done|by left].
  2:{ right. split; [done|]. exists probes, []. split_and!; [done..|by left]. }
  destruct Hf as (l1 & l2 & -> & <- & Hn & Hl1).
  destruct (pr_Properties probe) as [p|] eqn:Hp; simpl;
    [|right; exists l1, probe, l2; split_and!; [done..|by left]].
  rewrite remove_at_app.
  set (keep := Ok (l1 ++ probe :: l2, false)).
  assert (forall P : Prop, ~ P -> (same_probe p ep -> P) ->
    true = true /\ exists k1 k2, (l1 ++ l2) ++ [expected] = k1 ++ k2 ++ [expected] /\
      Forall (not_named pr_Name name) k1 /\
      ((l1 ++ probe :: l2 = k1 /\ k2 = []) \/
       exists probe0 p0, l1 ++ probe :: l2 = k1 ++ probe0 :: k2 /\ named pr_Name name probe0 /\
         pr_Properties probe0 = Some p0 /\ ~ same_probe p0 ep)) as Hrepl.
  { intros P HnP HP. split; [done|]. exists l1, l2. rewrite <- (assoc_L (++)). split_and!; [done..|].
    right. exists probe, p. split_and!; try done. intros Hs. by apply HnP, HP. }
  destruct (String.eqb_spec (Val (pr_RequestPath p)) (Val (pr_RequestPath ep))) as [Hpath|Hpath];
    simpl; [|right; eapply Hrepl; [exact Hpath|by intros (?&_&_)]].
  destruct (Z.eqb_spec (Val (pr_Port p)) (Val (pr_Port ep))) as [Hport|Hport];
    simpl; [|right; eapply Hrepl; [exact Hport|by intros (_&?&_)]].
  destruct (pr_Protocol p) as [v|] eqn:Hv; simpl;
    [|right; exists l1, probe, l2; split_and!; [done..|right; by exists p]].
  rewrite Hev. simpl. destruct (String.eqb_spec v ev) as [->|Hne]; simpl.
  - left. split_and!; [done..|]. exists l1, probe, l2, p. split_and!; [done..|].
    split_and!; congruence.
  - right. eapply Hrepl; [exact Hne|]. intros (_&_&Heq). congruence.
Qed.

(** The first rule with the gateway's name is kept when it is configured as
    expected. *)
Lemma wantRule_kept name fe be pr l1 r l2 port :
  Forall (not_named lr_Name name) l1 ->
  gateway_rule (getExpectedLBRule (Some name) fe be pr) port r ->
  wantRule (getExpectedLBRule (Some name) fe be pr) (l1 ++ r :: l2) = Ok (l1 ++ r :: l2, false, port).
Proof.
  intros Hl1 ((n & Hn & Hr) & Hsame & p & Hp & Hport). simplify_eq/=. unfold wantRule.
  cbn [obind deref lr_Name getExpectedLBRule]. rewrite find_named_first by done.
  cbn [obind]. by rewrite Hp, Hsame.
Qed.

Lemma wantProbe_kept name ep l1 probe l2 p :
  is_Some (pr_Protocol ep) -> Forall (not_named pr_Name name) l1 -> named pr_Name name probe ->
  pr_Properties probe = Some p -> same_probe p ep ->
  wantProbe {| pr_Name := Some name; pr_Properties := Some ep |} (l1 ++ probe :: l2) =
    Ok (l1 ++ probe :: l2, false).
Proof.
  intros [v Hv] Hl1 Hn Hp (Hpath & Hport & Hproto). unfold wantProbe. simpl.
  rewrite find_named_first by done. simpl. rewrite Hp. simpl.
  rewrite Hpath, Hport, String.eqb_refl, Z.eqb_refl. simpl.
  rewrite Hproto, Hv. simpl. by rewrite String.eqb_refl.
Qed.

(** At most one element carries the name: no element behind a match does.  Azure
    keeps the names of a load balancer's rules and probes distinct. *)
Definition one_named {A} (nm : A -> option string) (target : string) (l : list A) : Prop :=
  forall l1 x l2, l = l1 ++ x :: l2 -> named nm target x -> Forall (not_named nm target) l2.

(** After the rule is ensured, the first rule with the gateway's name is the
    gateway's. *)
Lemma wantRule_first name fe be pr rules rules' upd port :
  let e := getExpectedLBRule (Some name) fe be pr in
  one_named lr_Name name rules -> wantRule e rules = Ok (rules', upd, port) ->
  (upd = false -> rules' = rules) /\
  exists l1 r l2, rules' = l1 ++ r :: l2 /\ Forall (not_named lr_Name name) l1 /\ gateway_rule e port r.
Proof.
  intros e Hone Hw.
  destruct (wantRule_cases _ _ _ _ _ _ _ _ Hw)
    as [(-> & -> & l1 & r & l2 & Heq & Hl1 & Hg)|(-> & l1 & l2 & -> & Hl1 & _ & Hcase)].
  - split; [done|]. by exists l1, r, l2.
  - split; [done|]. exists (l1 ++ l2), (with_port port e), [].
    split_and!; [by rewrite <- (assoc_L (++))| |apply gateway_rule_new].
    apply Forall_app. split; [done|]. destruct Hcase as [[_ ->]|(r & Heq & Hr)]; [done|].
    by eapply Hone.
Qed.

Lemma wantProbe_first name ep probes probes' upd :
  is_Some (pr_Protocol ep) -> one_named pr_Name name probes ->
  wantProbe {| pr_Name := Some name; pr_Properties := Some ep |} probes = Ok (probes', upd) ->
  (upd = false -> probes' = probes) /\
  exists l1 probe l2 p, probes' = l1 ++ probe :: l2 /\ Forall (not_named pr_Name name) l1 /\
    named pr_Name name probe /\ pr_Properties probe = Some p /\ same_probe p ep.
Proof.
  intros Hv Hone Hw. pose proof (wantProbe_cases name ep probes Hv) as Hc. simpl in Hc. rewrite Hw in Hc.
  destruct Hc as [(-> & -> & l1 & probe & l2 & p & Heq & ?)|(-> & l1 & l2 & -> & Hl1 & Hcase)].
  - split; [done|]. by exists l1, probe, l2, p.
  - split; [done|]. eexists (l1 ++ l2), _, [], ep.
    split_and!; [by rewrite <- (assoc_L (++))| | |done|done].
    + apply Forall_app. split; [done|].
      destruct Hcase as [[_ ->]|(probe & p & Heq & Hr & _)]; [done|]. by eapply Hone.
    + exists name. split; [done|apply EqualFold_refl].
Qed.

(** A probe with the gateway's name and nil properties, which the code means
    to drop and recreate, makes it panic. *)
Theorem wantProbe_nil_properties name ep l1 l2 :
  Forall (not_named pr_Name name) l1 ->
  wantProbe {| pr_Name := Some name; pr_Properties := Some ep |}
    (l1 ++ {| pr_Name := Some name; pr_Properties := None |} :: l2) = Panic.
Proof.
  intros Hl1. unfold wantProbe. simpl. rewrite find_named_first; [done|done|].
  exists name. split; [done|apply EqualFold_refl].
Qed.

Lemma wantProbe_nil_properties_witness :
  wantProbe {| pr_Name := Some "uid"; pr_Properties := Some
                 {| pr_RequestPath := Some "/gw/uid"; pr_Protocol := Some ProbeProtocolHTTP;
                    pr_Port := Some 8082%Z |} |}
    [{| pr_Name := Some "uid"; pr_Properties := None |}] = Panic.
Proof. apply (wantProbe_nil_properties "uid" _ [] []). constructor. Defined.
