(* ===== verification/LBConfig.v ===== *)
(** * The gateway LB controller
      ([controllers/manager/gatewaylbconfiguration_controller.go])

    The effectful part of the controller, on top of the planning functions of
    [LBRules]: the lookup of the gateway's node pool, the reconciliation of its
    load balancer rule, of its [GatewayVMConfiguration], and the deletion. *)

From stdpp Require Import base tactics list strings gmap.
From Stdlib Require Import ZArith Lia.
From S2P Require Import Prelude GoStrings Types Kube Config Azure Sim LBRules.

Open Scope string_scope.
Open Scope list_scope.

(** ** Node pools *)

(** [uuid.NewMD5(namespace, data).String()] of google/uuid. *)
Class UUIDs := NewMD5 : string -> string -> string.

Definition namespaceAgentPool : string := "2c96e82c-842f-11f0-8ea5-6bee14278ecd".

(** The implementations of the [GatewayPool] interface. *)
Inductive GatewayPool :=
| agentPoolVMSS (vmss : VirtualMachineScaleSet)
| agentPoolVMs (agentPoolName : string).

Definition GetUniqueID `{UUIDs} (ap : GatewayPool) : string :=
  match ap with
  | agentPoolVMSS vmss =>
      match vmss_Properties vmss with
      | Some {| vmss_UniqueID := Some id |} => id
      | _ => ""
      end
  | agentPoolVMs agentPoolName => NewMD5 namespaceAgentPool agentPoolName
  end.

(** The resource carries the node pool's tag. *)
Definition tagged_pool (poolName : string) (tags : gmap string (option string)) : bool :=
  match tags !! consts.AKSNodepoolTagKey with
  | Some v => EqualFold (Val v) poolName
  | None => false
  end.

Definition getLBPropertyName `{UUIDs} (lbConfig : GatewayLBConfiguration) (ap : GatewayPool) :
    outcome lbPropertyNames :=
  if String.eqb (GetUniqueID ap) "" then
    let profile := lbc_GatewayVmssProfile (lbc_Spec lbConfig) in
    Err (EText ("gateway node pool does not have UID. gatewayPoolName="
                +:+ lbc_GatewayNodepoolName (lbc_Spec lbConfig) +:+ ", vmssName="
                +:+ VmssName profile +:+ ", vmssResourceGroup=" +:+ VmssResourceGroup profile))
  else Ok
    {| frontendName := GetUniqueID ap;
       backendName := GetUniqueID ap;
       lbRuleName := om_uid (lbc_meta lbConfig);
       probeName := om_uid (lbc_meta lbConfig) |}.

(** ** Updates of a load balancer's properties *)
Definition set_frontends (p : LBProps) l : LBProps :=
  {| lb_FrontendIPConfigurations := l; lb_BackendAddressPools := lb_BackendAddressPools p;
     lb_LoadBalancingRules := lb_LoadBalancingRules p; lb_Probes := lb_Probes p |}.
Definition set_backends (p : LBProps) l : LBProps :=
  {| lb_FrontendIPConfigurations := lb_FrontendIPConfigurations p; lb_BackendAddressPools := l;
     lb_LoadBalancingRules := lb_LoadBalancingRules p; lb_Probes := lb_Probes p |}.
Definition set_rules (p : LBProps) l : LBProps :=
  {| lb_FrontendIPConfigurations := lb_FrontendIPConfigurations p;
     lb_BackendAddressPools := lb_BackendAddressPools p;
     lb_LoadBalancingRules := l; lb_Probes := lb_Probes p |}.
Definition set_probes (p : LBProps) l : LBProps :=
  {| lb_FrontendIPConfigurations := lb_FrontendIPConfigurations p;
     lb_BackendAddressPools := lb_BackendAddressPools p;
     lb_LoadBalancingRules := lb_LoadBalancingRules p; lb_Probes := l |}.
Definition set_lb_props (lb : LoadBalancer) (p : LBProps) : LoadBalancer :=
  {| lb_Name := lb_Name lb; lb_Location := lb_Location lb; lb_SKU := lb_SKU lb;
     lb_Properties := Some p |}.

(** The identifiers of a gateway's objects on the load balancer. *)
Record lbIDs := { frontendID : string; backendID : string; probeID : string }.

Section planning.
Context (az : CloudConfig) (LBProbePort : Z).

Definition idsOf (names : lbPropertyNames) : lbIDs :=
  {| frontendID := Val (azmanager.GetLBFrontendIPConfigurationID az (frontendName names));
     backendID := Val (azmanager.GetLBBackendAddressPoolID az (backendName names));
     probeID := Val (azmanager.GetLBProbeID az (probeName names)) |}.

(** The backend pool is appended when it is missing and needed. *)
Definition ensureBackend (needLB : bool) (names : lbPropertyNames) (p : LBProps) :
    outcome (LBProps * bool) :=
  let? found := foundBackend (backendName names) (backendID (idsOf names))
                  (lb_BackendAddressPools p) in
  if (found : bool) then Ok (p, false)
  else if needLB then
    Ok (set_backends p (lb_BackendAddressPools p ++
                        [getExpectedBackendPool (Ptr (backendName names))]), true)
  else Ok (p, false).

Definition expectedRuleOf (names : lbPropertyNames) : LoadBalancingRule :=
  let ids := idsOf names in
  getExpectedLBRule (Some (lbRuleName names)) (Some (frontendID ids)) (Some (backendID ids))
    (Some (probeID ids)).

(** The rules, whether they changed, the port and [deleteFrontend]. *)
Definition ensureRule (needLB : bool) (names : lbPropertyNames) (p : LBProps) :
    outcome (LBProps * bool * Z * bool) :=
  if needLB then
    let? (rules, upd, port) := wantRule (expectedRuleOf names) (lb_LoadBalancingRules p) in
    Ok (set_rules p rules, upd, port, false)
  else
    let? (rules, upd, ruleRefCnt) :=
      dropRules (lbRuleName names) (frontendID (idsOf names)) (lb_LoadBalancingRules p) in
    Ok (set_rules p rules, upd, 0%Z, Nat.eqb ruleRefCnt 0).

Definition ensureProbe (needLB : bool) (names : lbPropertyNames)
    (lbConfig : GatewayLBConfiguration) (p : LBProps) : outcome (LBProps * bool) :=
  let? (probes, upd) :=
    if needLB then
      wantProbe (getExpectedLBProbe (Some (probeName names)) LBProbePort lbConfig) (lb_Probes p)
    else dropProbe (probeName names) (lb_Probes p) in
  Ok (set_probes p probes, upd).

(** The frontend and the backend pool are dropped. *)
Definition releasePool (names : lbPropertyNames) (p : LBProps) : LBProps * bool :=
  let ids := idsOf names in
  let '(fes, updF) := drop_by_id fe_ID (frontendID ids) (lb_FrontendIPConfigurations p) in
  let '(bps, updB) := drop_by_id bp_ID (backendID ids) (lb_BackendAddressPools p) in
  (set_backends (set_frontends p fes) bps, updF || updB).

(** What is to be done with the load balancer. *)
Inductive lbAction :=
  | LBKeep
  | LBUpdate (p : LBProps)
  | LBDelete.

(** Everything between the search for the frontend and the calls that write:
    [changed] says whether the load balancer was changed so far. *)
Definition planLB (needLB changed : bool) (names : lbPropertyNames)
    (lbConfig : GatewayLBConfiguration) (p : LBProps) : outcome (lbAction * Z) :=
  let? (p, upd1) := ensureBackend needLB names p in
  let? (p, upd2, lbPort, deleteFrontend) := ensureRule needLB names p in
  let? (p, upd3) := ensureProbe needLB names lbConfig p in
  let updateLB := changed || upd1 || upd2 || upd3 in
  if negb needLB && deleteFrontend then
    let '(p, upd4) := releasePool names p in
    match lb_FrontendIPConfigurations p with
    | [] => Ok (LBDelete, lbPort)
    | _ => Ok (if updateLB || upd4 then LBUpdate p else LBKeep, lbPort)
    end
  else Ok (if updateLB then LBUpdate p else LBKeep, lbPort).
End planning.

(** ** The controller *)
Module lbconfig.
Section lbconfig.
Context {W : Type} `{Backoffs} `{AzureClients W} `{UUIDs}.
Context `{Store W GatewayLBConfiguration} `{Store W GatewayVMConfiguration}
        `{Store W StaticGatewayConfiguration}.
Context `{Finalizers} `{OwnerRefs} `{Recorder W} `{Prometheus W} `{OsEnv}.

(** The fields of [GatewayLBConfigurationReconciler] besides the clients. *)
Context (az : CloudConfig) (LBProbePort : Z).

(** A load balancer that does not exist is nil. *)
Definition getGatewayLB : M W (option LoadBalancer) :=
  let! r := try (azmanager.GetLB az) in
  match r with
  | inr lb => ret (Some lb)
  | inl err =>
      match errors_as as_response err with
      | Some (status, _) => if (status =? http_StatusNotFound)%Z then ret None else throw err
      | None => throw err
      end
  end.

Definition loadPool (lbConfig : GatewayLBConfiguration) : M W GatewayPool :=
  let poolName := lbc_GatewayNodepoolName (lbc_Spec lbConfig) in
  let profile := lbc_GatewayVmssProfile (lbc_Spec lbConfig) in
  if negb (String.eqb poolName "") then
    let! vmssList := azmanager.ListVMSS az in
    match List.find (fun vmss => tagged_pool poolName (vmss_Tags vmss)) vmssList with
    | Some vmss => ret (agentPoolVMSS vmss)
    | None =>
        let! vmsList := azmanager.ListVMs az in
        match List.find (fun vm => tagged_pool poolName (vm_Tags vm)) vmsList with
        | Some _ => ret (agentPoolVMs poolName)
        | None => throw (EText "gateway agent pool not found")
        end
    end
  else
    let! vmss := azmanager.GetVMSS az (VmssResourceGroup profile) (VmssName profile) in
    ret (agentPoolVMSS vmss).

Definition newLB : LoadBalancer :=
  {| lb_Name := Ptr (azmanager.LoadBalancerName az);
     lb_Location := Ptr (Location az);
     lb_SKU := Some (SKUNameStandard, SKUTierRegional);
     lb_Properties := Some
       {| lb_FrontendIPConfigurations := []; lb_BackendAddressPools := [];
          lb_LoadBalancingRules := []; lb_Probes := [] |} |}.

(** The frontend's address, the properties and whether a frontend was added. *)
Definition ensureFrontend (needLB : bool) (names : lbPropertyNames) (p : LBProps) :
    M W (string * LBProps * bool) :=
  let! frontendIP := lift (findFrontendIP p (frontendName names)) in
  if String.eqb frontendIP "" && needLB then
    let! subnet := azmanager.GetSubnet az in
    ret (frontendIP,
         set_frontends p (lb_FrontendIPConfigurations p ++
           [getExpectedFrontendConfig (Ptr (frontendName names)) (sub_ID subnet)]),
         true)
  else ret (frontendIP, p, false).

(** The write of the changed load balancer, and the address Azure gave it. *)
Definition writeLB (needLB : bool) (frontendIP : string) (names : lbPropertyNames)
    (lb : LoadBalancer) : M W string :=
  let! updatedLB := azmanager.CreateOrUpdateLB az lb in
  if needLB && String.eqb frontendIP "" then
    let! p := lift (deref (lb_Properties updatedLB)) in
    let! ip := lift (findFrontendIP p (frontendName names)) in
    if String.eqb ip "" then throw (EText "frontend ip not found even after updating lb")
    else ret ip
  else ret frontendIP.

(** The part of [reconcileLBRule] after the load balancer is read or made. *)
Definition reconcileExistingLB (lbConfig : GatewayLBConfiguration) (needLB isNew : bool)
    (lb : LoadBalancer) : M W (string * Z) :=
  let! agentPool := loadPool lbConfig in
  let! names := lift (getLBPropertyName lbConfig agentPool) in
  match lb_Properties lb with
  | None => throw (EText "lb property is empty")
  | Some p =>
      let! (frontendIP, p, added) := ensureFrontend needLB names p in
      let! (action, lbPort) := lift (planLB az LBProbePort needLB (isNew || added) names lbConfig p) in
      match action with
      | LBDelete => do! azmanager.DeleteLB az; ret ("", 0%Z)
      | LBKeep => ret (frontendIP, lbPort)
      | LBUpdate p =>
          let! ip := writeLB needLB frontendIP names (set_lb_props lb p) in
          ret (ip, lbPort)
      end
  end.

Definition reconcileLBRule (lbConfig : GatewayLBConfiguration) (needLB : bool) :
    M W (string * Z) :=
  let! lb := getGatewayLB in
  match lb with
  | None => if needLB then reconcileExistingLB lbConfig needLB true newLB else ret ("", 0%Z)
  | Some lb => reconcileExistingLB lbConfig needLB false lb
  end.

(** *** The VM configuration *)

Definition with_lbc_status (lbConfig : GatewayLBConfiguration) (s : GatewayLBConfigurationStatus) :
    GatewayLBConfiguration :=
  {| lbc_meta := lbc_meta lbConfig; lbc_Spec := lbc_Spec lbConfig; lbc_Status := Some s |}.
Definition with_lbc_meta (lbConfig : GatewayLBConfiguration) (m : ObjectMeta) :
    GatewayLBConfiguration :=
  {| lbc_meta := m; lbc_Spec := lbc_Spec lbConfig; lbc_Status := lbc_Status lbConfig |}.

(** [if lbConfig.Status == nil { lbConfig.Status = &...Status{} }] *)
Definition status_or_new (s : option GatewayLBConfigurationStatus) : GatewayLBConfigurationStatus :=
  match s with
  | Some s => s
  | None => {| lbc_FrontendIp := ""; lbc_ServerPort := 0; lbc_EgressIpPrefix := "" |}
  end.

(** The function given to [CreateOrPatch]. *)
Definition mutateVMConfig (lbConfig : GatewayLBConfiguration) (vmConfig : GatewayVMConfiguration) :
    GatewayVMConfiguration * option gerror :=
  let spec := lbc_Spec lbConfig in
  let '(m, err) :=
    after_set (vmc_meta vmConfig) (SetControllerReference (lbc_meta lbConfig) (vmc_meta vmConfig)) in
  ({| vmc_meta := m;
      vmc_Spec :=
        {| vmc_GatewayNodepoolName := lbc_GatewayNodepoolName spec;
           vmc_GatewayVmssProfile := lbc_GatewayVmssProfile spec;
           vmc_ProvisionPublicIps := lbc_ProvisionPublicIps spec;
           vmc_PublicIpPrefixId := lbc_PublicIpPrefixId spec |};
      vmc_Status := vmc_Status vmConfig |}, err).

(** The VM configuration the controller starts from. *)
Definition newVMConfig (lbConfig : GatewayLBConfiguration) : GatewayVMConfiguration :=
  {| vmc_meta := new_meta (om_name (lbc_meta lbConfig)) (om_namespace (lbc_meta lbConfig));
     vmc_Spec := {| vmc_GatewayNodepoolName := "";
                    vmc_GatewayVmssProfile :=
                      {| VmssResourceGroup := ""; VmssName := ""; PublicIpPrefixSize := 0 |};
                    vmc_ProvisionPublicIps := false;
                    vmc_PublicIpPrefixId := "" |};
     vmc_Status := None |}.

(** Returns [lbConfig] with the egress prefix collected from the VM
    configuration. *)
Definition reconcileGatewayVMConfig (lbConfig : GatewayLBConfiguration) :
    M W GatewayLBConfiguration :=
  let! (vmConfig, err) :=
    kCreateOrPatch (newVMConfig lbConfig) (mutating (mutateVMConfig lbConfig)) in
  do! fail_with err tt;
  match vmc_Status vmConfig with
  | Some vs =>
      if deleting (vmc_meta vmConfig) then ret lbConfig
      else
        let s := status_or_new (lbc_Status lbConfig) in
        ret (with_lbc_status lbConfig
               {| lbc_FrontendIp := lbc_FrontendIp s; lbc_ServerPort := lbc_ServerPort s;
                  lbc_EgressIpPrefix := vmc_EgressIpPrefix vs |})
  | None => ret lbConfig
  end.

(** *** Reconciliation and deletion *)

Definition metricsOf (operation : string) (lbConfig : GatewayLBConfiguration) :
    metrics.MetricsContext :=
  metrics.NewMetricsContext (Getenv consts.PodNamespaceEnvKey) operation (SubscriptionID az)
    (LoadBalancerResourceGroup az)
    (ToLower (om_namespace (lbc_meta lbConfig) +:+ "/" +:+ om_name (lbc_meta lbConfig))).

(** The finalizer is put on the object before anything is created for it. *)
Definition ensureFinalizer (lbConfig : GatewayLBConfiguration) : M W GatewayLBConfiguration :=
  if ContainsFinalizer (lbc_meta lbConfig) consts.LBConfigFinalizerName then ret lbConfig
  else kUpdate (with_lbc_meta lbConfig
                  (AddFinalizer (lbc_meta lbConfig) consts.LBConfigFinalizerName)).

(** A failed status update is only logged. *)
Definition updateStatus (existing lbConfig : GatewayLBConfiguration) : M W unit :=
  if decide (existing = lbConfig) then ret tt
  else do! try (kStatusUpdate lbConfig); ret tt.

Definition reconcile (lbConfig : GatewayLBConfiguration) : M W unit :=
  metrics.observed (metricsOf "reconcile_gateway_lb_configuration" lbConfig)
    (let! existing := ensureFinalizer lbConfig in
     let! (ip, port) := reconcileLBRule existing true in
     let! lbConfig := reconcileGatewayVMConfig existing in
     let s := status_or_new (lbc_Status lbConfig) in
     updateStatus existing
       (with_lbc_status lbConfig
          {| lbc_FrontendIp := ip; lbc_ServerPort := port;
             lbc_EgressIpPrefix := lbc_EgressIpPrefix s |})).

(** The VM configuration goes first: while its deletion is accepted, the load
    balancer is left alone. *)
Definition ensureDeleted (lbConfig : GatewayLBConfiguration) : M W unit :=
  if negb (ContainsFinalizer (lbc_meta lbConfig) consts.LBConfigFinalizerName) then ret tt
  else
    metrics.observed (metricsOf "delete_gateway_lb_configuration" lbConfig)
      (let! r := try (kDelete (Obj := GatewayVMConfiguration) (om_key (lbc_meta lbConfig))) in
       match r with
       | inr _ => ret tt
       | inl err =>
           if negb (IsNotFound err) then throw err
           else
             do! reconcileLBRule lbConfig false;
             do! kUpdate (with_lbc_meta lbConfig
                   (RemoveFinalizer (lbc_meta lbConfig) consts.LBConfigFinalizerName));
             ret tt
       end).

Definition Reconcile (req : NamespacedName) : M W unit :=
  let! r := try (kGet (Obj := GatewayLBConfiguration) req) in
  match r with
  | inl err => if IsNotFound err then ret tt else throw err
  | inr lbConfig =>
      let! gwConfig := kGet (Obj := StaticGatewayConfiguration) req in
      let gwKey := om_key (sgc_meta gwConfig) in
      if deleting (lbc_meta lbConfig) then
        reportEvents gwKey "EnsureDeleteGatewayLBConfigurationError" None (ensureDeleted lbConfig)
      else
        reportEvents gwKey "ReconcileGatewayLBConfigurationError"
          (Some ("ReconcileGatewayLBConfigurationSuccess", "GatewayLBConfiguration reconciled"))
          (reconcile lbConfig)
  end.
End lbconfig.
End lbconfig.

(** ** A load balancer that serves a gateway *)

Section serving.
Context (az : CloudConfig) (LBProbePort : Z).

(** A backend pool the search can inspect. *)
Definition readable_backend (name : string) (b : BackendAddressPool) : Prop :=
  exists n, bp_Name b = Some n /\ (EqualFold n name = true -> is_Some (bp_ID b)).

(** The load balancer's properties hold everything a gateway needs: the
    frontend of its node pool with the address [ip], the pool's backend, a rule
    of the gateway on [port] and its health probe. *)
Record serves (names : lbPropertyNames) (lbConfig : GatewayLBConfiguration) (ip : string)
      (port : Z) (p : LBProps) : Prop := {
    sv_ip : ip <> "";
    sv_frontend : exists l1 f l2 fp,
      lb_FrontendIPConfigurations p = l1 ++ f :: l2 /\
      Forall (not_named fe_Name (frontendName names)) l1 /\
      named fe_Name (frontendName names) f /\ fe_Properties f = Some fp /\
      fe_PrivateIPAddressVersion fp = Some IPVersionIPv4 /\ fe_PrivateIPAddress fp = Some ip;
    sv_backend : exists l1 b l2 id,
      lb_BackendAddressPools p = l1 ++ b :: l2 /\
      Forall (readable_backend (backendName names)) l1 /\
      named bp_Name (backendName names) b /\ bp_ID b = Some id /\
      EqualFold id (backendID (idsOf az names)) = true;
    sv_rule : exists l1 r l2,
      lb_LoadBalancingRules p = l1 ++ r :: l2 /\
      Forall (not_named lr_Name (lbRuleName names)) l1 /\
      gateway_rule (expectedRuleOf az names) port r;
    sv_probe : exists l1 probe l2 pp ep,
      lb_Probes p = l1 ++ probe :: l2 /\ Forall (not_named pr_Name (probeName names)) l1 /\
      named pr_Name (probeName names) probe /\ pr_Properties probe = Some pp /\
      pr_Properties (getExpectedLBProbe (Some (probeName names)) LBProbePort lbConfig) = Some ep /\
      same_probe pp ep;
  }.

Lemma findFrontendIP_found p name ip :
  ip <> "" ->
  findFrontendIP p name = Ok ip <->
  exists l1 f l2 fp,
    lb_FrontendIPConfigurations p = l1 ++ f :: l2 /\ Forall (not_named fe_Name name) l1 /\
    named fe_Name name f /\ fe_Properties f = Some fp /\
    fe_PrivateIPAddressVersion fp = Some IPVersionIPv4 /\ fe_PrivateIPAddress fp = Some ip.
Proof.
  intros Hip. unfold findFrontendIP. split.
  - pose proof (find_named_cases fe_Name name (lb_FrontendIPConfigurations p)) as Hf.
    destruct find_named as [[[i f]|]| |]; simpl; [|congruence|done..]. intros Hok.
    destruct Hf as (l1 & l2 & Heq & _ & Hn & Hl1).
    destruct (fe_Properties f) as [[v m a s]|] eqn:Hp; [|done].
    destruct v as [v|]; [|done]. destruct a as [a|]; [|done].
    destruct (String.eqb_spec v IPVersionIPv4) as [->|]; simplify_eq.
    eexists l1, f, l2, _. by split_and!.
  - intros (l1 & f & l2 & [v m a s] & -> & Hl1 & Hn & Hp & Hv & Ha). simpl in *. subst.
    rewrite find_named_first by done. simpl. by rewrite Hp.
Qed.

Lemma foundBackend_true name id pools :
  foundBackend name id pools = Ok true <->
  exists l1 b l2 i, pools = l1 ++ b :: l2 /\ Forall (readable_backend name) l1 /\
    named bp_Name name b /\ bp_ID b = Some i /\ EqualFold i id = true.
Proof.
  split.
  - induction pools as [|b pools IH]; simpl; [done|].
    destruct (bp_Name b) as [n|] eqn:Hn; simpl; [|done].
    assert (foundBackend name id pools = Ok true -> readable_backend name b ->
      exists l1 b' l2 i, b :: pools = l1 ++ b' :: l2 /\ Forall (readable_backend name) l1 /\
        named bp_Name name b' /\ bp_ID b' = Some i /\ EqualFold i id = true) as Hnext.
    { intros Hok Hb. destruct (IH Hok) as (l1 & b' & l2 & i & -> & Hl1 & ? & ? & ?).
      exists (b :: l1), b', l2, i. by repeat constructor. }
    destruct (EqualFold n name) eqn:He.
    2:{ intros Hok. apply Hnext; [done|]. exists n. split; [done|congruence]. }
    destruct (bp_ID b) as [i|] eqn:Hi; simpl; [|done].
    destruct (EqualFold i id) eqn:Hid; intros Hok.
    + exists [], b, pools, i. split_and!; try done. by exists n.
    + apply Hnext; [done|]. exists n. by rewrite Hi.
  - intros (l1 & b & l2 & i & -> & Hl1 & (n & Hn & He) & Hi & Hid).
    induction Hl1 as [|x l1 (nx & Hx & Hxid) _ IH]; simpl.
    + rewrite Hn. simpl. rewrite He, Hi. simpl. by rewrite Hid.
    + rewrite Hx. simpl. destruct (EqualFold nx name); [|done].
      destruct Hxid as [ix Hix]; [done|]. rewrite Hix. simpl. by destruct (EqualFold ix id).
Qed.
End serving.

Section planning_facts.
Context (az : CloudConfig) (LBProbePort : Z).
Implicit Types (names : lbPropertyNames) (lbConfig : GatewayLBConfiguration) (p : LBProps).

Lemma set_rules_id p : set_rules p (lb_LoadBalancingRules p) = p.
Proof. by destruct p. Qed.
Lemma set_probes_id p : set_probes p (lb_Probes p) = p.
Proof. by destruct p. Qed.

(** Nothing is to be done to a load balancer that serves the gateway. *)
Lemma planLB_serving names lbConfig ip port p :
  serves az LBProbePort names lbConfig ip port p ->
  planLB az LBProbePort true false names lbConfig p = Ok (LBKeep, port).
Proof.
  intros [_ _ Hb Hr Hp]. unfold planLB, ensureBackend.
  apply foundBackend_true in Hb. rewrite Hb. cbn [obind].
  destruct Hr as (l1 & r & l2 & Hrules & Hl1 & Hg). unfold ensureRule.
  rewrite Hrules. unfold expectedRuleOf in Hg |- *. rewrite (wantRule_kept _ _ _ _ _ _ _ port Hl1 Hg).
  cbn [obind]. rewrite <- Hrules, set_rules_id. unfold ensureProbe.
  destruct Hp as (k1 & probe & k2 & pp & ep & Hprobes & Hk1 & Hn & Hpp & Hep & Hsame).
  rewrite Hprobes. unfold getExpectedLBProbe in Hep |- *. simpl in Hep. simplify_eq.
  rewrite (wantProbe_kept _ _ k1 probe k2 pp) by (try done; by eexists). done.
Qed.

(** What ensuring a gateway leaves: the frontends are untouched, the backend pool
    is found or appended, and the rule and the probe are there. *)
Lemma planLB_want names lbConfig changed p action port :
  one_named lr_Name (lbRuleName names) (lb_LoadBalancingRules p) ->
  one_named pr_Name (probeName names) (lb_Probes p) ->
  planLB az LBProbePort true changed names lbConfig p = Ok (action, port) ->
  exists p' found,
    foundBackend (backendName names) (backendID (idsOf az names)) (lb_BackendAddressPools p) = Ok found /\
    (action = LBUpdate p' \/ (action = LBKeep /\ p' = p /\ changed = false /\ found = true)) /\
    lb_FrontendIPConfigurations p' = lb_FrontendIPConfigurations p /\
    lb_BackendAddressPools p' =
      lb_BackendAddressPools p ++
        (if found then [] else [getExpectedBackendPool (Ptr (backendName names))]) /\
    (exists l1 r l2, lb_LoadBalancingRules p' = l1 ++ r :: l2 /\
       Forall (not_named lr_Name (lbRuleName names)) l1 /\
       gateway_rule (expectedRuleOf az names) port r) /\
    (exists l1 probe l2 pp ep,
       lb_Probes p' = l1 ++ probe :: l2 /\ Forall (not_named pr_Name (probeName names)) l1 /\
       named pr_Name (probeName names) probe /\ pr_Properties probe = Some pp /\
       pr_Properties (getExpectedLBProbe (Some (probeName names)) LBProbePort lbConfig) = Some ep /\
       same_probe pp ep).
Proof.
  intros Honer Honep Hplan. unfold planLB, ensureBackend, ensureRule, ensureProbe in Hplan.
  apply obind_Ok_inv in Hplan as ([p1 u1] & Hb & Hplan).
  apply obind_Ok_inv in Hb as (found & Hfound & Hb).
  apply obind_Ok_inv in Hplan as ([[[p2 u2] port'] del] & Hr & Hplan).
  apply obind_Ok_inv in Hr as ([[rules' u2'] port''] & Hr & Heq2). simplify_eq.
  apply obind_Ok_inv in Hplan as ([p3 u3] & Hp & Hplan).
  apply obind_Ok_inv in Hp as ([probes' u3'] & Hp & Heq3). simplify_eq/=.
  assert (lb_LoadBalancingRules p1 = lb_LoadBalancingRules p /\ lb_Probes p1 = lb_Probes p /\
    lb_FrontendIPConfigurations p1 = lb_FrontendIPConfigurations p) as (Hrr & Hpp & Hff)
    by (destruct found; by simplify_eq/=).
  rewrite Hrr in Hr. rewrite Hpp in Hp.
  destruct (wantRule_first _ _ _ _ _ _ _ _ Honer Hr) as [Hsame2 Hrule].
  unfold getExpectedLBProbe in Hp. apply wantProbe_first in Hp as [Hsame3 Hprobe]; [|by eexists|done].
  exists (set_probes (set_rules p1 rules') probes'), found.
  split_and!; [done| | | |exact Hrule| ]; simpl.
  - destruct (changed || u1 || u2 || u3) eqn:Hu; simplify_eq; [by left|right].
    repeat (apply orb_false_iff in Hu as [Hu ?]). subst. rewrite Hsame2, Hsame3 by done.
    destruct found; simplify_eq. by destruct p1.
  - done.
  - destruct found; simplify_eq/=; [by rewrite app_nil_r|done].
  - destruct Hprobe as (l1 & probe & l2 & pp & -> & Hl1 & Hn & Hpp' & Hs).
    by eexists l1, probe, l2, pp, _.
Qed.
End planning_facts.

(** ** Azure's load balancer

    What the service promises: it keeps the names of a load balancer's rules and
    probes distinct; an update is answered with the load balancer as stored,
    which has the frontends, backend pools, rules and probes that were sent, with
    an address once given kept, and with every backend pool's identifier filled
    in. *)

Definition same_frontend (f f' : FrontendIPConfiguration) : Prop :=
  fe_Name f' = fe_Name f /\
  forall fp ip, fe_Properties f = Some fp -> fe_PrivateIPAddress fp = Some ip ->
    exists fp', fe_Properties f' = Some fp' /\ fe_PrivateIPAddress fp' = Some ip /\
      fe_PrivateIPAddressVersion fp' = fe_PrivateIPAddressVersion fp.

Definition same_backend (az : CloudConfig) (b b' : BackendAddressPool) : Prop :=
  bp_Name b' = bp_Name b /\
  exists id, bp_ID b' = Some id /\
    forall n, bp_Name b = Some n ->
      EqualFold id (azmanager.LBSubresourceID az "backendAddressPools" n) = true.

Record stored (az : CloudConfig) (p p' : LBProps) : Prop := {
  st_frontends : Forall2 same_frontend (lb_FrontendIPConfigurations p) (lb_FrontendIPConfigurations p');
  st_backends : Forall2 (same_backend az) (lb_BackendAddressPools p) (lb_BackendAddressPools p');
  st_rules : lb_LoadBalancingRules p' = lb_LoadBalancingRules p;
  st_probes : lb_Probes p' = lb_Probes p;
}.

Class LBServer {W : Type} `{AzureClients W} (az : CloudConfig) : Prop := {
  lb_distinct rg name w lb w' p n :
    lbGet rg name w = (Ok lb, w') -> lb_Properties lb = Some p ->
    one_named lr_Name n (lb_LoadBalancingRules p) /\ one_named pr_Name n (lb_Probes p);
  lb_stored rg name lb w lb' w' p :
    lbCreateOrUpdate rg name lb w = (Ok lb', w') -> lb_Properties lb = Some p ->
    exists p', lb_Properties lb' = Some p' /\ stored az p p';
}.

(** A retried call that returns a value returns that of one of its attempts. *)
Lemma retried_Ok `{BackoffLaws} {W A} rt settings (call : M W A) w a w' :
  retried rt settings call w = (Ok a, w') -> exists w1, call w1 = (Ok a, w').
Proof.
  intros Hr. destruct (retried_ended rt settings call w) as (m & w1 & _ & Hend).
  rewrite Hr in Hend. exists w1. apply Hend.
Qed.

Section stored_facts.
Context (az : CloudConfig).

Lemma LBSubresourceID_fold kind n m :
  EqualFold n m = true ->
  EqualFold (azmanager.LBSubresourceID az kind n) (azmanager.LBSubresourceID az kind m) = true.
Proof. intros H. unfold azmanager.LBSubresourceID. by rewrite !EqualFold_app_l. Qed.

Lemma stored_not_named l k name :
  Forall2 same_frontend l k -> Forall (not_named fe_Name name) l -> Forall (not_named fe_Name name) k.
Proof.
  induction 1 as [|f f' l k [Hn _] _ IH]; [done|]. rewrite !Forall_cons.
  intros [(n & Hf & He) Hl]. split; [exists n; split; congruence|by apply IH].
Qed.

(** The address of a frontend survives an update. *)
Lemma stored_frontend p p' name ip :
  ip <> "" -> stored az p p' -> findFrontendIP p name = Ok ip -> findFrontendIP p' name = Ok ip.
Proof.
  intros Hip [Hf _ _ _]. rewrite !findFrontendIP_found by done.
  intros (l1 & f & l2 & fp & Heq & Hl1 & Hn & Hp & Hv & Ha). rewrite Heq in Hf.
  apply Forall2_app_inv_l in Hf as (k1 & k2' & Hk1 & Hk2 & ->).
  apply Forall2_cons_inv_l in Hk2 as (f' & k2 & [Hname Hprops] & _ & ->).
  destruct (Hprops fp ip Hp Ha) as (fp' & Hp' & Ha' & Hv').
  exists k1, f', k2, fp'. split_and!; [done|by eapply stored_not_named| |done|congruence|done].
  destruct Hn as (n & ? & ?). exists n. split; congruence.
Qed.

Lemma stored_readable name l k :
  Forall2 (same_backend az) l k -> Forall (fun b => is_Some (bp_Name b)) l ->
  Forall (readable_backend name) k.
Proof.
  induction 1 as [|b b' l k [Hn (id & Hid & _)] _ IH]; [done|]. rewrite !Forall_cons.
  intros [[n Hb] Hl]. split; [|by apply IH]. exists n. rewrite Hn, Hid. eauto.
Qed.

Lemma foundBackend_names name id pools :
  foundBackend name id pools = Ok false -> Forall (fun b => is_Some (bp_Name b)) pools.
Proof.
  induction pools as [|b pools IH]; simpl; [done|].
  destruct (bp_Name b) as [n|] eqn:Hn; simpl; [|done]. intros Hf.
  constructor; [by rewrite Hn|]. apply IH. destruct (EqualFold n name); [|done].
  destruct (bp_ID b); simpl in Hf; [|done]. by destruct (EqualFold _ id).
Qed.

(** After an update the backend pool that was found or appended is there. *)
Lemma stored_backend p p' name found :
  stored az p p' ->
  (exists pools, foundBackend name (azmanager.LBSubresourceID az "backendAddressPools" name) pools = Ok found /\
    lb_BackendAddressPools p = pools ++ (if found then [] else [getExpectedBackendPool (Ptr name)])) ->
  foundBackend name (azmanager.LBSubresourceID az "backendAddressPools" name)
    (lb_BackendAddressPools p') = Ok true.
Proof.
  intros [_ Hb _ _] (pools & Hf & Heq). rewrite Heq in Hb. apply foundBackend_true.
  assert (forall l1 b l2 n, Forall2 (same_backend az) (l1 ++ b :: l2) (lb_BackendAddressPools p') ->
    Forall (fun b => is_Some (bp_Name b)) l1 -> bp_Name b = Some n -> EqualFold n name = true ->
    exists k1 b' k2 i, lb_BackendAddressPools p' = k1 ++ b' :: k2 /\
      Forall (readable_backend name) k1 /\ named bp_Name name b' /\ bp_ID b' = Some i /\
      EqualFold i (azmanager.LBSubresourceID az "backendAddressPools" name) = true) as Hgo.
  { intros l1 b l2 n Hall Hl1 Hn He.
    apply Forall2_app_inv_l in Hall as (k1 & k2' & Hk1 & Hk2 & ->).
    apply Forall2_cons_inv_l in Hk2 as (b' & k2 & [Hname (id & Hid & Hids)] & _ & ->).
    exists k1, b', k2, id. split_and!; [done|by eapply stored_readable| |done|].
    - exists n. split; congruence.
    - specialize (Hids n Hn). apply (LBSubresourceID_fold "backendAddressPools") in He.
      apply EqualFold_spec in Hids, He. apply EqualFold_spec. by rewrite Hids. }
  destruct found.
  - apply foundBackend_true in Hf as (l1 & b & l2 & i & -> & Hl1 & (n & Hn & He) & _).
    rewrite app_nil_r in Hb. eapply (Hgo l1 b l2 n); try done.
    eapply Forall_impl; [exact Hl1|]. intros x (nx & Hx & _). by rewrite Hx.
  - eapply (Hgo pools _ [] name); try done; [by eapply foundBackend_names|apply EqualFold_refl].
Qed.
End stored_facts.

(** ** The controller and Azure *)
Section establishing.
Context {W : Type} `{BackoffLaws} `{AzureClients W} `{UUIDs}.
Context (az : CloudConfig) (LBProbePort : Z) `{!LBServer az}.
Implicit Types (lbConfig : GatewayLBConfiguration) (w : W).

Definition distinct_names (p : LBProps) : Prop :=
  forall n, one_named lr_Name n (lb_LoadBalancingRules p) /\ one_named pr_Name n (lb_Probes p).

Lemma ensureFrontend_cases names p w ip p' added w' :
  lbconfig.ensureFrontend az true names p w = (Ok (ip, p', added), w') ->
  findFrontendIP p (frontendName names) = Ok ip /\
  lb_BackendAddressPools p' = lb_BackendAddressPools p /\
  lb_LoadBalancingRules p' = lb_LoadBalancingRules p /\ lb_Probes p' = lb_Probes p /\
  ((ip = "" /\ added = true) \/ (ip <> "" /\ added = false /\ p' = p)).
Proof.
  unfold lbconfig.ensureFrontend. intros Hr. go_inv. rewrite andb_true_r in Hr.
  destruct (String.eqb_spec a ""); go_inv; naive_solver.
Qed.

(** What [writeLB] returns is the address of the frontend on the load balancer
    as stored. *)
Lemma writeLB_cases names lb p ip0 w ip w' :
  lb_Properties lb = Some p ->
  lbconfig.writeLB az true ip0 names lb w = (Ok ip, w') ->
  (ip0 <> "" -> findFrontendIP p (frontendName names) = Ok ip0) ->
  exists lb' p', azmanager.CreateOrUpdateLB az lb w = (Ok lb', w') /\
    lb_Properties lb' = Some p' /\ stored az p p' /\ ip <> "" /\
    findFrontendIP p' (frontendName names) = Ok ip.
Proof.
  intros Hp Hw Hip0. unfold lbconfig.writeLB in Hw. go_inv. rename a into lb', w0 into w1.
  pose proof Hc as Hcall. unfold azmanager.CreateOrUpdateLB in Hcall.
  apply retried_Ok in Hcall as [w2 Hcall].
  destruct (lb_stored _ _ _ _ _ _ _ Hcall Hp) as (p' & Hp' & Hst).
  destruct (String.eqb_spec ip0 "") as [->|Hne]; go_inv.
  - destruct (String.eqb_spec a0 ""); go_inv. eexists lb', _. split_and!; done.
  - exists lb', p'. split_and!; [done..|]. eapply stored_frontend; [done|done|by apply Hip0].
Qed.

Lemma reconcileExistingLB_establishes lbConfig isNew lb w ip port w' :
  (forall p, lb_Properties lb = Some p -> distinct_names p) ->
  lbconfig.reconcileExistingLB az LBProbePort lbConfig true isNew lb w = (Ok (ip, port), w') ->
  exists pool names lb' p',
    getLBPropertyName lbConfig pool = Ok names /\ lb_Properties lb' = Some p' /\
    serves az LBProbePort names lbConfig ip port p' /\
    ((lb' = lb /\ isNew = false) \/
     exists lb0 w0, azmanager.CreateOrUpdateLB az lb0 w0 = (Ok lb', w')).
Proof.
  intros Hdist Hrun. unfold lbconfig.reconcileExistingLB in Hrun.
  apply bind_Ok_inv in Hrun as (pool & w1 & _ & Hrun).
  apply bind_Ok_inv in Hrun as (names & w2 & [= Hnames _] & Hrun).
  destruct (lb_Properties lb) as [p|] eqn:Hp; [|go_inv].
  apply bind_Ok_inv in Hrun as ([[ip0 p1] added] & w3 & Hc1 & Hrun).
  apply bind_Ok_inv in Hrun as ([action port'] & w4 & [= Hc2 _] & Hrun).
  destruct (Hdist p eq_refl (lbRuleName names)) as [Hr _].
  destruct (Hdist p eq_refl (probeName names)) as [_ Hpr].
  apply ensureFrontend_cases in Hc1 as (Hfe & Hbp & Hrr & Hpp & Hcase).
  rewrite <- Hrr in Hr. rewrite <- Hpp in Hpr.
  apply planLB_want in Hc2 as (p2 & found & Hfound & Hact & Hfe2 & Hbp2 & Hrule & Hprobe); [|done..].
  destruct Hact as [->|(-> & -> & Hch & ->)].
  - apply bind_Ok_inv in Hrun as (ip' & w5 & Hc1 & [= -> -> <-]).
    apply (writeLB_cases names _ p2) in Hc1 as (lb' & p' & Hcall & Hp' & Hst & Hne & Hip); [|done|].
    2:{ intros Hne. destruct Hcase as [[? _]|(_ & _ & ->)]; [done|].
        unfold findFrontendIP in *. by rewrite Hfe2. }
    exists pool, names, lb', p'. split_and!; [done..| |right; by eauto].
    split; [done|by apply findFrontendIP_found|apply foundBackend_true|..].
    + eapply stored_backend; [done|]. by exists (lb_BackendAddressPools p1).
    + by rewrite (st_rules _ _ _ Hst).
    + by rewrite (st_probes _ _ _ Hst).
  - go_inv. apply orb_false_iff in Hch as [-> ->].
    destruct Hcase as [[_ ?]|(Hne & _ & ->)]; [done|].
    exists pool, names, lb, p. split_and!; [done..| |by left].
    split; [done|by apply findFrontendIP_found|by apply foundBackend_true|done..].
Qed.

Lemma getGatewayLB_cases w lb w' :
  lbconfig.getGatewayLB az w = (Ok (Some lb), w') ->
  forall p, lb_Properties lb = Some p -> distinct_names p.
Proof.
  unfold lbconfig.getGatewayLB. intros Hg p Hp n. go_inv. destruct a as [e|lb']; go_inv.
  - destruct (errors_as as_response e) as [[]|]; [|go_inv]. destruct (_ =? _)%Z; go_inv.
  - unfold azmanager.GetLB in Hc. apply retried_Ok in Hc as [w2 Hc]. by eapply lb_distinct.
Qed.
End establishing.

(** What a successful [reconcileLBRule] for a wanted gateway leaves. *)
Lemma reconcileLBRule_cases {W} `{BackoffLaws} `{AzureClients W} `{UUIDs} az
    `{!LBServer az} LBProbePort lbConfig w ip port w' :
  lbconfig.reconcileLBRule az LBProbePort lbConfig true w = (Ok (ip, port), w') ->
  exists pool names lb p,
    getLBPropertyName lbConfig pool = Ok names /\ lb_Properties lb = Some p /\
    serves az LBProbePort names lbConfig ip port p /\
    ((exists w1, lbconfig.getGatewayLB az w = (Ok (Some lb), w1)) \/
     exists lb0 w0, azmanager.CreateOrUpdateLB az lb0 w0 = (Ok lb, w')).
Proof.
  intros Hrun. unfold lbconfig.reconcileLBRule in Hrun. go_inv. destruct a as [lb|].
  - apply (reconcileExistingLB_establishes az LBProbePort) in Hrun 
      as (pool & names & lb' & p' & ? & ? & ? & Hcase);
      [|exact (getGatewayLB_cases az w lb _ Hc)].
    exists pool, names, lb', p'. split_and!; [done..|].
    destruct Hcase as [[-> _]|?]; [left; by eauto|by right].
  - apply (reconcileExistingLB_establishes az LBProbePort) in Hrun as (pool & names & lb' & p' & ? & ? & ? & Hcase).
    + exists pool, names, lb', p'. split_and!; [done..|]. by destruct Hcase as [[_ ?]|?]; [|right].
    + intros p [= <-] n. split; intros [] ? ? [=].
Qed.

(** C1: when [reconcileLBRule] reports an address and a port for a gateway, the load
    balancer serves the gateway there: the node pool's frontend has that address,
    the pool's backend exists, a rule of the gateway in the expected configuration
    listens on that port and the gateway's health probe is in place. The load
    balancer meant is the one the controller read, or the one Azure answered its
    update with. *)
Theorem reconcileLBRule_establishes {W} `{BackoffLaws} `{AzureClients W} `{UUIDs} az
    `{!LBServer az} LBProbePort lbConfig w ip port w' :
  lbconfig.reconcileLBRule az LBProbePort lbConfig true w = (Ok (ip, port), w') ->
  exists pool names lb p,
    getLBPropertyName lbConfig pool = Ok names /\ lb_Properties lb = Some p /\
    serves az LBProbePort names lbConfig ip port p /\
    ((exists w1, lbconfig.getGatewayLB az w = (Ok (Some lb), w1)) \/
     exists lb0 w0, azmanager.CreateOrUpdateLB az lb0 w0 = (Ok lb, w')).
Proof. exact (reconcileLBRule_cases az LBProbePort lbConfig w ip port w'). Qed.

(** C8: on a load balancer that serves a gateway, [reconcileLBRule] reports the
    address and the port and writes nothing: the only calls are the reads of the
    load balancer and of the node pool. With the previous property, a repeated
    reconciliation is
    idempotent. *)
Theorem reconcileLBRule_quiet {W} `{Backoffs} `{AzureClients W} `{UUIDs} az LBProbePort lbConfig
    w lb w1 pool w2 names p ip port :
  lbconfig.getGatewayLB az w = (Ok (Some lb), w1) ->
  lbconfig.loadPool az lbConfig w1 = (Ok pool, w2) ->
  getLBPropertyName lbConfig pool = Ok names -> lb_Properties lb = Some p ->
  serves az LBProbePort names lbConfig ip port p ->
  lbconfig.reconcileLBRule az LBProbePort lbConfig true w = (Ok (ip, port), w2).
Proof.
  intros Hlb Hpool Hnames Hp Hs. unfold lbconfig.reconcileLBRule.
  rewrite (bind_Ok _ _ _ _ _ Hlb). unfold lbconfig.reconcileExistingLB.
  rewrite (bind_Ok _ _ _ _ _ Hpool), Hnames, Hp. unfold bind at 1, lift. cbn [bind].
  pose proof (sv_ip _ _ _ _ _ _ _ Hs) as Hip.
  pose proof (proj2 (findFrontendIP_found _ _ _ Hip) (sv_frontend _ _ _ _ _ _ _ Hs)) as Hf.
  unfold lbconfig.ensureFrontend, bind, lift. rewrite Hf.
  apply String.eqb_neq in Hip. rewrite Hip. cbn [andb ret].
  simpl. by rewrite (planLB_serving _ _ _ _ _ _ _ Hs).
Qed.

(** ** Deleting a gateway *)

(** [l'] is [l] without its first element that satisfies [q], or [l] when none
    does. *)
Definition drops_first {A} (q : A -> bool) (l l' : list A) : Prop :=
  (exists l1 x l2, l = l1 ++ x :: l2 /\ Forall (fun y => q y = false) l1 /\ q x = true /\ l' = l1 ++ l2) \/
  (Forall (fun y => q y = false) l /\ l' = l).

Definition has_id {A} (id : A -> option string) (target : string) (x : A) : bool :=
  EqualFold (Val (id x)) target.

Lemma drop_by_id_drops {A} (id : A -> option string) target l :
  drops_first (has_id id target) l (fst (drop_by_id id target l)) /\
  (snd (drop_by_id id target l) = false -> Forall (fun x => has_id id target x = false) l).
Proof.
  unfold drop_by_id. fold (@has_id A id target).
  destruct (find_index _ l) as [[i x]|] eqn:Hf; simpl.
  - apply find_index_Some in Hf as (l1 & l2 & -> & <- & Hx & Hl1). split; [|done].
    left. exists l1, x, l2. by rewrite remove_at_app.
  - apply find_index_None in Hf. split; [by right|done].
Qed.

(** Every field the deletion reads is there. *)
Record readable_lb (names : lbPropertyNames) (p : LBProps) : Prop := {
  rd_backends : Forall (readable_backend (backendName names)) (lb_BackendAddressPools p);
  rd_rules : Forall (fun r => ~ malformed_rule r) (lb_LoadBalancingRules p);
  rd_probes : Forall (fun x => is_Some (pr_Name x)) (lb_Probes p);
}.

Lemma foundBackend_total name id pools :
  Forall (readable_backend name) pools -> exists b, foundBackend name id pools = Ok b.
Proof.
  induction 1 as [|b pools (n & Hn & Hid) _ [r IH]]; simpl; [by eexists|].
  rewrite Hn. simpl. destruct (EqualFold n name); [|by eexists].
  destruct Hid as [i Hi]; [done|]. rewrite Hi. simpl. destruct (EqualFold i id); by eexists.
Qed.

Lemma foundBackend_not_Err name id pools e : foundBackend name id pools <> Err e.
Proof.
  induction pools as [|b pools IH]; simpl; [done|].
  destruct (bp_Name b) as [n|]; simpl; [|done]. destruct (EqualFold n name); [|done].
  destruct (bp_ID b); simpl; [|done]. by destruct (EqualFold _ id).
Qed.

Lemma dropProbe_drops name probes :
  match dropProbe name probes with
  | Ok (probes', upd) =>
      drops_first (has_name pr_Name name) probes probes' /\
      (upd = false -> Forall (not_named pr_Name name) probes)
  | Err _ => False
  | Panic => Exists (fun x => pr_Name x = None) probes
  end.
Proof.
  unfold dropProbe. pose proof (find_named_cases pr_Name name probes) as Hf.
  destruct find_named as [[[i x]|]| |]; simpl; [| |done|done].
  - destruct Hf as (l1 & l2 & -> & <- & Hx & Hl1). split; [|done]. left.
    exists l1, x, l2. rewrite remove_at_app. split_and!; [done| |by apply named_has_name|done].
    eapply Forall_impl; [exact Hl1|]. intros y. apply not_named_has_name.
  - split; [|done]. right. split; [|done].
    eapply Forall_impl; [exact Hf|]. intros y. apply not_named_has_name.
Qed.

Section deleting.
Context (az : CloudConfig) (LBProbePort : Z).

(** Another gateway's rule uses the node pool's frontend. *)
Definition frontend_used (names : lbPropertyNames) (p : LBProps) : bool :=
  existsb (rule_frontend (frontendID (idsOf az names)))
    (others (lbRuleName names) (lb_LoadBalancingRules p)).

(** The properties after the gateway's objects are dropped. *)
Definition without_gateway (names : lbPropertyNames) (p p' : LBProps) : Prop :=
  lb_LoadBalancingRules p' = others (lbRuleName names) (lb_LoadBalancingRules p) /\
  drops_first (has_name pr_Name (probeName names)) (lb_Probes p) (lb_Probes p') /\
  if frontend_used names p then
    lb_FrontendIPConfigurations p' = lb_FrontendIPConfigurations p /\
    lb_BackendAddressPools p' = lb_BackendAddressPools p
  else
    drops_first (has_id fe_ID (frontendID (idsOf az names)))
      (lb_FrontendIPConfigurations p) (lb_FrontendIPConfigurations p') /\
    drops_first (has_id bp_ID (backendID (idsOf az names)))
      (lb_BackendAddressPools p) (lb_BackendAddressPools p').

Lemma filter_length_existsb {A} (q : A -> bool) l :
  Nat.eqb (length (List.filter q l)) 0 = negb (existsb q l).
Proof. induction l as [|x l IH]; simpl; [done|]. by destruct (q x). Qed.

Lemma others_unchanged name rules :
  existsb (has_name lr_Name name) rules = false -> others name rules = rules.
Proof.
  induction rules as [|r rules IH]; simpl; [done|]. intros [Hr Hrs]%orb_false_iff.
  rewrite Hr. simpl. by rewrite IH.
Qed.
End deleting.

(** C10: the plan for a gateway's deletion. The gateway's rules and its probe go,
    every other gateway's rule stays; the frontend and the backend of the node
    pool are released only when no other rule uses the frontend, and the load
    balancer is deleted only when, besides, no other frontend is left. The
    load balancer is left alone only when nothing of the gateway is on it. The
    code panics only on a load balancer with missing names, properties or
    identifiers. *)
Theorem planLB_delete az LBProbePort names lbConfig p :
  match planLB az LBProbePort false false names lbConfig p with
  | Ok (LBUpdate p', _) => without_gateway az names p p'
  | Ok (LBKeep, _) => without_gateway az names p p
  | Ok (LBDelete, _) =>
      frontend_used az names p = false /\
      exists p', without_gateway az names p p' /\ lb_FrontendIPConfigurations p' = []
  | Err _ => False
  | Panic => ~ readable_lb names p
  end.
Proof.
  unfold planLB, ensureBackend.
  destruct (foundBackend _ _ _) as [found|e|] eqn:Hb; cbn [obind].
  2:{ by apply foundBackend_not_Err in Hb. }
  2:{ intros [Hrd _ _]. destruct (foundBackend_total _ (backendID (idsOf az names)) _ Hrd). congruence. }
  replace (if found then Ok (p, false) else Ok (p, false)) with (Ok (p, false)) by by destruct found.
  cbn [obind]. unfold ensureRule.
  pose proof (dropRules_cases (lbRuleName names) (frontendID (idsOf az names)) (lb_LoadBalancingRules p)) as Hr.
  destruct (dropRules _ _ _) as [[[rules' u2] cnt]|e|]; cbn [obind]; [|done|].
  2:{ intros [_ Hrd _]. apply Exists_exists in Hr as (r & Hin & Hbad). rewrite Forall_forall in Hrd.
      by apply (Hrd r). }
  destruct Hr as (-> & -> & ->). unfold ensureProbe. cbn [lb_Probes set_rules].
  pose proof (dropProbe_drops (probeName names) (lb_Probes p)) as Hp.
  destruct (dropProbe _ _) as [[probes' u3]|e|]; cbn [obind]; [|done|].
  2:{ intros [_ _ Hrd]. apply Exists_exists in Hp as (x & Hin & Hbad). rewrite Forall_forall in Hrd.
      destruct (Hrd x Hin). congruence. }
  destruct Hp as [Hpd Hpu]. rewrite filter_length_existsb. fold (frontend_used az names p). cbn [negb andb].
  set (p1 := set_probes (set_rules p _) probes').
  assert (u3 = false -> probes' = lb_Probes p) as Hprobes.
  { intros Hu. specialize (Hpu Hu). destruct Hpd as [(l1 & x & l2 & Heq & _ & Hx & _)|[_ ?]]; [|done].
    exfalso. rewrite Heq in Hpu. apply Forall_app in Hpu as [_ Hpu]. apply Forall_cons in Hpu as [Hn _].
    apply not_named_has_name in Hn. congruence. }
  destruct (frontend_used az names p) eqn:Hused; cbn [negb].
  - destruct (false || false || _ || u3) eqn:Hu; simpl in Hu.
    + split_and!; [done|done|]. by rewrite Hused.
    + apply orb_false_iff in Hu as [Hu ->].
      split_and!; [by rewrite others_unchanged|by rewrite <- (Hprobes eq_refl) at 2|by rewrite Hused].
  - unfold releasePool. change (lb_FrontendIPConfigurations p1) with (lb_FrontendIPConfigurations p).
    change (lb_BackendAddressPools p1) with (lb_BackendAddressPools p).
    destruct (drop_by_id_drops fe_ID (frontendID (idsOf az names)) (lb_FrontendIPConfigurations p)) as [Hfd Hfn].
    destruct (drop_by_id_drops bp_ID (backendID (idsOf az names)) (lb_BackendAddressPools p)) as [Hbd Hbn].
    destruct (drop_by_id fe_ID _ _) as [fes uF], (drop_by_id bp_ID _ _) as [bps uB]. simpl in *.
    set (p2 := set_backends (set_frontends p1 fes) bps).
    assert (without_gateway az names p p2) as Hw.
    { split_and!; [done|done|]. by rewrite Hused. }
    destruct fes as [|f fes]; [by split; [|exists p2]|].
    destruct (existsb _ _ || u3 || (uF || uB)) eqn:Hu; [done|].
    repeat (apply orb_false_iff in Hu as [Hu ?]). subst.
    apply orb_false_iff in H as [-> ->].
    split_and!; [by rewrite others_unchanged|by rewrite <- (Hprobes eq_refl) at 2|]. rewrite Hused.
    split; right; split; eauto.
Qed.

(** The load balancer's part concerns Azure only. *)
Lemma keeps_reconcileLBRule {W} `{BackoffLaws} `{AzureClients W} `{UUIDs} az LBProbePort (P : W -> Prop) `{!AzureKeeps P}
    lbConfig needLB :
  keeps P (lbconfig.reconcileLBRule az LBProbePort lbConfig needLB).
Proof.
  unfold lbconfig.reconcileLBRule, lbconfig.getGatewayLB, lbconfig.reconcileExistingLB,
    lbconfig.loadPool, lbconfig.ensureFrontend, lbconfig.writeLB. keeps_tac.
Qed.

(** C18: the finalizer of a gateway's LB configuration is dropped last. Let [P] be
    a property of the cluster that neither Azure, nor the deletion of VM
    configurations, nor the metrics can change, such as "the object still has its
    finalizer". If [ensureDeleted] falsifies [P], then the VM configuration was
    already gone (its deletion was answered with NotFound) and the gateway's
    objects were removed from the load balancer without an error. *)
Theorem lb_finalizer_last {W} `{BackoffLaws} `{AzureClients W} `{UUIDs}
    `{Store W GatewayLBConfiguration} `{Store W GatewayVMConfiguration}
    `{Finalizers} `{Prometheus W} `{OsEnv} az LBProbePort (P : W -> Prop) lbConfig w r w' :
  AzureKeeps P -> (forall k, keeps P (kDelete (Obj := GatewayVMConfiguration) k)) ->
  (forall mc b w, P w -> P (metrics.ObserveControllerReconcileMetrics mc b w)) ->
  lbconfig.ensureDeleted az LBProbePort lbConfig w = (r, w') -> P w -> ~ P w' ->
  exists e w1 x w2,
    kDelete (Obj := GatewayVMConfiguration) (om_key (lbc_meta lbConfig)) w = (Err e, w1) /\
    IsNotFound e = true /\
    lbconfig.reconcileLBRule az LBProbePort lbConfig false w1 = (Ok x, w2).
Proof.
  intros Haz Hdel Hmet Hrun HP HnP. unfold lbconfig.ensureDeleted in Hrun.
  destruct (negb _); [go_done|]. unfold metrics.observed in Hrun.
  apply defer_inv in Hrun as (w1 & Hrun & ->).
  assert (~ P w1) as HnP1 by eauto. clear HnP.
  specialize (Hdel (om_key (lbc_meta lbConfig)) w HP). unfold bind at 1, try in Hrun.
  destruct (kDelete (om_key (lbc_meta lbConfig)) w) as [[u|e|] w2] eqn:Hk; simpl in *; [go_done| |go_done].
  destruct (IsNotFound e) eqn:He; simpl in Hrun; [|go_done].
  pose proof (keeps_reconcileLBRule az LBProbePort P lbConfig false) as Hlb.
  specialize (Hlb w2 Hdel). unfold bind at 1 in Hrun.
  destruct (lbconfig.reconcileLBRule az LBProbePort lbConfig false w2) as [[x|e'|] w3] eqn:Hr;
    [|go_done..].
  by exists e, w2, x, w3.
Qed.

(** ** Runs *)

Import DirectBackoff ListMeta.

#[export] Instance sim_uuids : UUIDs := fun _ name => name.

Lemma names_ok_one {A} (nm : A -> option string) l n : names_ok nm l = true -> one_named nm n l.
Proof.
  intros [Hsome Hnd%bool_decide_eq_true]%andb_true_iff l1 x l2 -> (m & Hm & He).
  apply EqualFold_spec in He. rewrite forallb_app in Hsome. apply andb_true_iff in Hsome as [_ Hsome].
  simpl in Hsome. apply andb_true_iff in Hsome as [_ Hsome].
  rewrite fmap_app, fmap_cons in Hnd. apply NoDup_app in Hnd as (_ & _ & Hnd).
  apply NoDup_cons in Hnd as [Hx _]. apply Forall_forall. intros y Hy.
  rewrite forallb_forall in Hsome. specialize (Hsome y (proj1 (list_elem_of_In _ _) Hy)).
  destruct (nm y) as [k|] eqn:Hk; [|done]. exists k. split; [done|].
  apply EqualFold_false. intros Hf. apply Hx. apply list_elem_of_fmap. exists y. split; [|done].
  unfold key_of. rewrite Hm, Hk. simpl. unfold fold_eq in *. congruence.
Qed.

#[export] Instance sim_lb_server : LBServer sim_az.
Proof.
  split.
  - intros rg name w lb w' p n Hg Hp. simpl in Hg. destruct (w_lb w) as [lb'|]; [|done].
    destruct (lb_ok lb') eqn:Hok; simplify_eq. unfold lb_ok in Hok. rewrite Hp in Hok.
    apply andb_true_iff in Hok as [? ?]. split; by apply names_ok_one.
  - intros rg name lb w lb' w' p Hc Hp. simpl in Hc. destruct (lb_ok lb); simplify_eq.
    simpl. rewrite Hp. eexists. split; [done|]. split; simpl; [..|done|done].
    + apply Forall2_fmap_r, Forall_Forall2_diag, Forall_true. intros f. split; [done|].
      intros fp ip Hf Hi. simpl. rewrite Hf. eexists. split; [done|]. simpl. by rewrite Hi.
    + apply Forall2_fmap_r, Forall_Forall2_diag, Forall_true. intros b. split; [done|].
      eexists. split; [done|]. intros n Hn. rewrite Hn. apply EqualFold_refl.
Qed.

Definition sample_vmss : VirtualMachineScaleSet :=
  {| vmss_Name := Some "vmss"; vmss_Location := Some "westus"; vmss_Tags := ∅;
     vmss_Properties := Some {| vmss_UniqueID := Some "vmss-uid"; vmss_VirtualMachineProfile := None |} |}.
Definition sample_lbc (uid : string) (deletion : option Z) : GatewayLBConfiguration :=
  {| lbc_meta := {| om_name := uid; om_namespace := "ns"; om_uid := uid; om_deletion := deletion;
                    om_finalizers := [consts.LBConfigFinalizerName];
                    om_owners := [{| or_kind := "StaticGatewayConfiguration"; or_name := uid;
                                     or_uid := "sgc-" +:+ uid; or_controller := true |}];
                    om_labels := ∅ |};
     lbc_Spec := {| lbc_GatewayNodepoolName := "";
                    lbc_GatewayVmssProfile :=
                      {| VmssResourceGroup := "rg"; VmssName := "vmss"; PublicIpPrefixSize := 31 |};
                    lbc_ProvisionPublicIps := true; lbc_PublicIpPrefixId := "" |};
     lbc_Status := None |}.
Definition sample_world (deletion : option Z) : World :=
  put_lbcs {[ nn "ns" "gw1" := sample_lbc "gw1" deletion; nn "ns" "gw2" := sample_lbc "gw2" None ]}
    (set_vmss {[ "vmss" := sample_vmss ]} empty_world).

(** The world after a gateway's load balancer rule is reconciled. *)
Definition after_gw1 : World :=
  snd (lbconfig.reconcileLBRule sim_az 8082 (sample_lbc "gw1" None) true (sample_world None)).

Lemma reconcileLBRule_establishes_witness :
  exists pool names lb p,
    getLBPropertyName (sample_lbc "gw1" None) pool = Ok names /\ lb_Properties lb = Some p /\
    serves sim_az 8082 names (sample_lbc "gw1" None) "10.0.0.4" 6000 p /\
    ((exists w1, lbconfig.getGatewayLB sim_az (sample_world None) = (Ok (Some lb), w1)) \/
     exists lb0 w0, azmanager.CreateOrUpdateLB sim_az lb0 w0 = (Ok lb, after_gw1)).
Proof.
  apply (reconcileLBRule_establishes sim_az 8082 (sample_lbc "gw1" None) (sample_world None)).
  vm_compute. reflexivity.
Defined.

(** The names of the first gateway's objects, and the load balancer made for it. *)
Definition gw1_names : lbPropertyNames :=
  {| frontendName := "vmss-uid"; backendName := "vmss-uid"; lbRuleName := "gw1"; probeName := "gw1" |}.
Definition gw1_lb : LoadBalancer := default (lbconfig.newLB sim_az) (w_lb after_gw1).
Definition gw1_props : LBProps :=
  default {| lb_FrontendIPConfigurations := []; lb_BackendAddressPools := [];
             lb_LoadBalancingRules := []; lb_Probes := [] |} (lb_Properties gw1_lb).

Lemma gw1_served : serves sim_az 8082 gw1_names (sample_lbc "gw1" None) "10.0.0.4" 6000 gw1_props.
Proof.
  split; [done|..].
  - eexists [], _, [], _. split_and!; try (vm_compute; reflexivity); [constructor|].
    exists "vmss-uid". split; vm_compute; reflexivity.
  - eexists [], _, [], _. split_and!; try (vm_compute; reflexivity); [constructor|].
    exists "vmss-uid". split; vm_compute; reflexivity.
  - eexists [], _, []. split_and!; [vm_compute; reflexivity|constructor|].
    split_and!; [|vm_compute; reflexivity|eexists; split; vm_compute; reflexivity].
    exists "gw1". split; [vm_compute; reflexivity|]. exists "gw1". split; vm_compute; reflexivity.
  - eexists [], _, [], _, _. split_and!; try (vm_compute; reflexivity); [constructor| |].
    + exists "gw1". split; vm_compute; reflexivity.
    + split_and!; vm_compute; reflexivity.
Qed.

Lemma reconcileLBRule_quiet_witness :
  lbconfig.reconcileLBRule sim_az 8082 (sample_lbc "gw1" None) true after_gw1 =
    (Ok ("10.0.0.4", 6000%Z), after_gw1).
Proof.
  apply (reconcileLBRule_quiet sim_az 8082 (sample_lbc "gw1" None) after_gw1 gw1_lb after_gw1
           (agentPoolVMSS sample_vmss) after_gw1 gw1_names gw1_props).
  - vm_compute. reflexivity.
  - vm_compute. reflexivity.
  - vm_compute. reflexivity.
  - vm_compute. reflexivity.
  - exact gw1_served.
Defined.

(** The second gateway of a node pool shares its frontend and gets the next port;
    deleting the first leaves the load balancer to the second, deleting both
    deletes it. *)
Definition delete_both : outcome (string * Z) * World :=
  (let! _ := lbconfig.reconcileLBRule sim_az 8082 (sample_lbc "gw1" None) true in
   let! r := lbconfig.reconcileLBRule sim_az 8082 (sample_lbc "gw2" None) true in
   do! lbconfig.reconcileLBRule sim_az 8082 (sample_lbc "gw1" None) false;
   do! lbconfig.reconcileLBRule sim_az 8082 (sample_lbc "gw2" None) false;
   ret r) (sample_world None).

Example delete_both_run :
  fst delete_both = Ok ("10.0.0.4", 6001%Z) /\ w_lb (snd delete_both) = None.
Proof. split; vm_compute; reflexivity. Qed.

(** The finalizer is still on the API server's copy of the object. *)
Definition gw1_finalized (w : World) : Prop :=
  match w_lbcs w !! nn "ns" "gw1" with
  | Some o => has (om_finalizers (lbc_meta o)) consts.LBConfigFinalizerName = true
  | None => False
  end.

#[export] Instance gw1_finalized_azure : AzureKeeps gw1_finalized.
Proof.
  split; intros; intros w Hw; simpl; unfold lookup_or, azure_404, throw, ret;
    repeat (case_match; simpl); exact Hw.
Qed.

(** With the VM configuration gone, the deletion removes the finalizer. *)
Definition gw1_deleted : World :=
  snd (lbconfig.ensureDeleted sim_az 8082 (sample_lbc "gw1" (Some 0%Z)) (sample_world (Some 0%Z))).

Lemma lb_finalizer_last_witness :
  exists e w1 x w2,
    kDelete (Obj := GatewayVMConfiguration) (nn "ns" "gw1") (sample_world (Some 0%Z)) = (Err e, w1) /\
    IsNotFound e = true /\
    lbconfig.reconcileLBRule sim_az 8082 (sample_lbc "gw1" (Some 0%Z)) false w1 = (Ok x, w2).
Proof.
  apply (lb_finalizer_last sim_az 8082 gw1_finalized (sample_lbc "gw1" (Some 0%Z))
           (sample_world (Some 0%Z)) (Ok tt) gw1_deleted).
  - apply gw1_finalized_azure.
  - intros k w Hw. simpl. unfold bind, fetch, not_found, throw, ret, remove, save.
    repeat (case_match; simplify_eq/=); exact Hw.
  - intros mc [] w Hw; exact Hw.
  - vm_compute. reflexivity.
  - vm_compute. reflexivity.
  - vm_compute. by intros [].
Defined.
