(* ===== verification/VMNet.v ===== *)
(** * Network interfaces of gateway instances
      ([controllers/manager/gatewayvmconfiguration_controller.go])

    The part of the gateway VM controller that computes the network profile it
    wants for a scale set or an instance: the expected IP configuration, its
    comparison with the one found, and the primary configuration's membership in
    the load balancer's backend pool.  The code changes the profile through
    pointers; the functions here return the changed profile. *)

From stdpp Require Import base tactics list strings gmap.
From Stdlib Require Import ZArith Lia.
From S2P Require Import Prelude GoStrings Types Config Azure LBRules LBConfig.

Open Scope string_scope.
Open Scope list_scope.

Definition managedSubresourceName (vmConfig : GatewayVMConfiguration) : string :=
  consts.ManagedResourcePrefix +:+ om_uid (vmc_meta vmConfig).

(** ** Comparing configurations *)

(** [(p != nil) != (q != nil)], then the comparison of the two values. *)
Definition differ_by {A} (d : A -> A -> bool) (p q : option A) : bool :=
  match p, q with
  | None, None => false
  | Some a, Some b => d a b
  | _, _ => true
  end.

Definition differentID (s t : SubResource) : bool :=
  negb (EqualFold (Val (sub_ID s)) (Val (sub_ID t))).

Definition differentPip (pip1 pip2 : VMSSPublicIPConfig) : bool :=
  negb (String.eqb (Val (vpip_Name pip1)) (Val (vpip_Name pip2)))
  || differ_by (differ_by differentID) (vpip_Properties pip1) (vpip_Properties pip2).

Definition differentProps (prop1 prop2 : VMSSIPConfigProps) : bool :=
  negb (Bool.eqb (Val (vip_Primary prop1)) (Val (vip_Primary prop2)))
  || negb (String.eqb (Val (vip_PrivateIPAddressVersion prop1)) (Val (vip_PrivateIPAddressVersion prop2)))
  || differ_by differentID (vip_Subnet prop1) (vip_Subnet prop2)
  || differ_by differentPip (vip_PublicIPAddressConfiguration prop1)
       (vip_PublicIPAddressConfiguration prop2).

Definition different (ipConfig1 ipConfig2 : VMSSIPConfig) : bool :=
  differ_by differentProps (vip_Properties ipConfig1) (vip_Properties ipConfig2).

(** ** The expected configuration *)

Definition is_primary_nic (nic : VMSSNic) : bool :=
  match vnic_Properties nic with Some np => Val (vnic_Primary np) | None => false end.
Definition is_primary_conf (c : VMSSIPConfig) : bool :=
  match vip_Properties c with Some cp => Val (vip_Primary cp) | None => false end.

Definition confs_of (nic : VMSSNic) : list VMSSIPConfig :=
  match vnic_Properties nic with Some np => vnic_IPConfigurations np | None => [] end.

(** The primary IP configurations of the primary interfaces, in order. *)
Definition primary_confs (interfaces : list VMSSNic) : list VMSSIPConfig :=
  nic ← interfaces;
  if is_primary_nic nic then List.filter is_primary_conf (confs_of nic) else [].

(** The subnet of the last one; a primary configuration without a subnet is
    dereferenced. *)
Fixpoint subnetID_of (confs : list VMSSIPConfig) (subnetID : option string) :
    outcome (option string) :=
  match confs with
  | [] => Ok subnetID
  | c :: confs' =>
      let? cp := deref (vip_Properties c) in
      let? s := deref (vip_Subnet cp) in
      subnetID_of confs' (sub_ID s)
  end.

Definition getExpectedIPConfig (ipConfigName ipPrefixID : string) (interfaces : list VMSSNic) :
    outcome VMSSIPConfig :=
  let? subnetID := subnetID_of (primary_confs interfaces) None in
  let pipConfig :=
    if String.eqb ipPrefixID "" then None
    else Some {| vpip_Name := Ptr ipConfigName;
                 vpip_Properties := Some (Some {| sub_ID := Ptr ipPrefixID |}) |} in
  Ok {| vip_Name := Ptr ipConfigName;
        vip_Properties := Some
          {| vip_Primary := Ptr false;
             vip_PrivateIPAddressVersion := Ptr IPVersionIPv4;
             vip_Subnet := Some {| sub_ID := subnetID |};
             vip_PublicIPAddressConfiguration := pipConfig;
             vip_LoadBalancerBackendAddressPools := [] |} |}.

(** ** The interfaces *)

Definition conf_is (ipConfigName : string) (c : VMSSIPConfig) : bool :=
  String.eqb (Val (vip_Name c)) ipConfigName.

(** The loop over the IP configurations of a primary interface: the first one
    with the gateway's name is kept if it is wanted and as expected, and dropped
    otherwise.  Returns the configurations, [needUpdate] and [foundConfig]. *)
Definition sweepConfs (ipConfigName : string) (wantIPConfig : bool) (expected : VMSSIPConfig)
    (confs : list VMSSIPConfig) : list VMSSIPConfig * bool * bool :=
  match find_index (conf_is ipConfigName) confs with
  | None => (confs, false, false)
  | Some (i, c) =>
      if negb wantIPConfig || different c expected then (remove_at i confs, true, false)
      else (confs, false, true)
  end.

Definition with_confs (nic : VMSSNic) (confs : list VMSSIPConfig) : VMSSNic :=
  {| vnic_Name := vnic_Name nic;
     vnic_Properties :=
       match vnic_Properties nic with
       | Some np => Some {| vnic_Primary := vnic_Primary np; vnic_IPConfigurations := confs |}
       | None => None
       end |}.

(** The loop over the interfaces: [needUpdate], [foundConfig] and the index of
    [primaryNic], the last primary interface. *)
Fixpoint sweepNics (ipConfigName : string) (wantIPConfig : bool) (expected : VMSSIPConfig)
    (interfaces : list VMSSNic) : list VMSSNic * bool * bool * option nat :=
  match interfaces with
  | [] => ([], false, false, None)
  | nic :: rest =>
      let '(rest', upd, found, primary) := sweepNics ipConfigName wantIPConfig expected rest in
      let later := match primary with Some i => Some (S i) | None => None end in
      if is_primary_nic nic then
        let '(confs, upd0, found0) := sweepConfs ipConfigName wantIPConfig expected (confs_of nic) in
        (with_confs nic confs :: rest', upd0 || upd, found0 || found,
         match later with Some i => Some i | None => Some 0 end)
      else (nic :: rest', upd, found, later)
  end.

(** *** The backend pool *)

Definition managed (c : VMSSIPConfig) : bool :=
  HasPrefix (Val (vip_Name c)) consts.ManagedResourcePrefix.

Definition pool_is (lbBackendpoolID : string) (s : SubResource) : bool :=
  EqualFold lbBackendpoolID (Val (sub_ID s)).

Definition with_pools (c : VMSSIPConfig) (pools : list SubResource) : VMSSIPConfig :=
  {| vip_Name := vip_Name c;
     vip_Properties :=
       match vip_Properties c with
       | Some cp => Some
           {| vip_Primary := vip_Primary cp;
              vip_PrivateIPAddressVersion := vip_PrivateIPAddressVersion cp;
              vip_Subnet := vip_Subnet cp;
              vip_PublicIPAddressConfiguration := vip_PublicIPAddressConfiguration cp;
              vip_LoadBalancerBackendAddressPools := pools |}
       | None => None
       end |}.

Definition pools_of (c : VMSSIPConfig) : list SubResource :=
  match vip_Properties c with Some cp => vip_LoadBalancerBackendAddressPools cp | None => [] end.

(** The pools of the primary configuration, and whether they changed. *)
Definition reconcilePools (lbBackendpoolID : string) (needBackendPool : bool) (pools : list SubResource) :
    list SubResource * bool :=
  match find_index (pool_is lbBackendpoolID) pools with
  | Some (i, _) => if needBackendPool then (pools, false) else (remove_at i pools, true)
  | None =>
      if needBackendPool then (pools ++ [{| sub_ID := Ptr lbBackendpoolID |}], true)
      else (pools, false)
  end.

(** On the IP configurations of the primary interface. *)
Definition reconcileLbBackendPool (lbBackendpoolID : string) (confs : list VMSSIPConfig) :
    outcome (list VMSSIPConfig * bool) :=
  let needBackendPool := existsb managed confs in
  match find_index is_primary_conf confs with
  | None => Err (EText "vmss(vm) primary ipConfig not found")
  | Some (i, c) =>
      let '(pools, changed) := reconcilePools lbBackendpoolID needBackendPool (pools_of c) in
      Ok (if changed then <[i := with_pools c pools]> confs else confs, changed)
  end.

(** The changed interfaces and [needUpdate]. *)
Definition reconcileVMSSNetworkInterface (ipConfigName ipPrefixID lbBackendpoolID : string)
    (wantIPConfig : bool) (interfaces : list VMSSNic) : outcome (list VMSSNic * bool) :=
  let? expectedConfig := getExpectedIPConfig ipConfigName ipPrefixID interfaces in
  let '(interfaces, needUpdate, foundConfig, primaryNic) :=
    sweepNics ipConfigName wantIPConfig expectedConfig interfaces in
  match primaryNic with
  | None => Err (EText "vmss(vm) primary network interface not found")
  | Some i =>
      let? nic := deref (interfaces !! i) in
      let add := wantIPConfig && negb foundConfig in
      let confs := if add then confs_of nic ++ [expectedConfig] else confs_of nic in
      let? (confs, changed) := reconcileLbBackendPool lbBackendpoolID confs in
      Ok (<[i := with_confs nic confs]> interfaces, needUpdate || add || changed)
  end.

(** ** One primary interface

    A machine in Azure has one primary interface; on such a profile the changes
    happen in the configurations of that interface. *)

Record single_primary (interfaces pre : list VMSSNic) (nic : VMSSNic) (post : list VMSSNic) : Prop := {
  sp_split : interfaces = pre ++ nic :: post;
  sp_primary : is_primary_nic nic = true;
  sp_pre : Forall (fun n => is_primary_nic n = false) pre;
  sp_post : Forall (fun n => is_primary_nic n = false) post;
}.

(** The work on the configurations of the primary interface. *)
Definition reconcileConfs (ipConfigName lbBackendpoolID : string) (wantIPConfig : bool)
    (expected : VMSSIPConfig) (confs : list VMSSIPConfig) : outcome (list VMSSIPConfig * bool) :=
  let '(confs, needUpdate, foundConfig) := sweepConfs ipConfigName wantIPConfig expected confs in
  let add := wantIPConfig && negb foundConfig in
  let? (confs, changed) :=
    reconcileLbBackendPool lbBackendpoolID (if add then confs ++ [expected] else confs) in
  Ok (confs, needUpdate || add || changed).

Section single.
Context (ipConfigName ipPrefixID lbBackendpoolID : string) (wantIPConfig : bool).

Lemma is_primary_with_confs nic confs : is_primary_nic (with_confs nic confs) = is_primary_nic nic.
Proof. unfold is_primary_nic, with_confs. simpl. by destruct (vnic_Properties nic). Qed.

Lemma confs_with_confs nic confs :
  is_primary_nic nic = true -> confs_of (with_confs nic confs) = confs.
Proof. unfold is_primary_nic, confs_of, with_confs. simpl. by destruct (vnic_Properties nic). Qed.

Lemma with_confs_twice nic confs confs' :
  with_confs (with_confs nic confs) confs' = with_confs nic confs'.
Proof. unfold with_confs. simpl. by destruct (vnic_Properties nic). Qed.

Lemma with_confs_same nic : with_confs nic (confs_of nic) = nic.
Proof. unfold with_confs, confs_of. by destruct nic as [n [[]|]]. Qed.

Lemma sweepNics_none expected nics :
  Forall (fun n => is_primary_nic n = false) nics ->
  sweepNics ipConfigName wantIPConfig expected nics = (nics, false, false, None).
Proof. induction 1 as [|n nics Hn _ IH]; simpl; [done|]. by rewrite IH, Hn. Qed.

Lemma sweepNics_single expected nics pre nic post :
  single_primary nics pre nic post ->
  sweepNics ipConfigName wantIPConfig expected nics =
  (pre ++ with_confs nic (sweepConfs ipConfigName wantIPConfig expected (confs_of nic)).1.1 :: post,
   (sweepConfs ipConfigName wantIPConfig expected (confs_of nic)).1.2,
   (sweepConfs ipConfigName wantIPConfig expected (confs_of nic)).2, Some (length pre)).
Proof.
  intros [-> Hnic Hpre Hpost]. induction Hpre as [|n pre Hn _ IH]; simpl.
  - rewrite (sweepNics_none expected post Hpost), Hnic.
    destruct (sweepConfs _ _ _ _) as [[confs u] f]. simpl. by rewrite !orb_false_r.
  - by rewrite IH, Hn.
Qed.

Lemma primary_confs_none nics :
  Forall (fun n => is_primary_nic n = false) nics -> primary_confs nics = [].
Proof. induction 1 as [|n nics Hn _ IH]; [done|]. unfold primary_confs in *. simpl. by rewrite Hn. Qed.

Lemma primary_confs_single nics pre nic post :
  single_primary nics pre nic post -> primary_confs nics = List.filter is_primary_conf (confs_of nic).
Proof.
  intros [-> Hnic Hpre Hpost]. unfold primary_confs. rewrite bind_app. simpl.
  fold (primary_confs pre) (primary_confs post).
  by rewrite !primary_confs_none, Hnic, app_nil_r by done.
Qed.

Lemma single_with_confs nics pre nic post confs :
  single_primary nics pre nic post ->
  single_primary (pre ++ with_confs nic confs :: post) pre (with_confs nic confs) post.
Proof. intros [-> Hnic Hpre Hpost]. by split; rewrite ?is_primary_with_confs. Qed.

(** The changes of a profile with one primary interface. *)
Lemma reconcileVMSSNetworkInterface_single nics pre nic post :
  single_primary nics pre nic post ->
  reconcileVMSSNetworkInterface ipConfigName ipPrefixID lbBackendpoolID wantIPConfig nics =
  (let? expected := getExpectedIPConfig ipConfigName ipPrefixID nics in
   let? (confs, upd) :=
     reconcileConfs ipConfigName lbBackendpoolID wantIPConfig expected (confs_of nic) in
   Ok (pre ++ with_confs nic confs :: post, upd)).
Proof.
  intros Hs. unfold reconcileVMSSNetworkInterface.
  destruct (getExpectedIPConfig ipConfigName ipPrefixID nics) as [e| |]; cbn [obind]; [|done..].
  rewrite (sweepNics_single e _ _ _ _ Hs). unfold reconcileConfs.
  destruct (sweepConfs _ _ _ _) as [[confs u] f]. cbn [fst snd].
  rewrite list_lookup_middle by done. cbn [obind deref].
  rewrite confs_with_confs by apply Hs.
  destruct (reconcileLbBackendPool _ _) as [[confs' ch]| |]; cbn [obind]; [|done..].
  by rewrite insert_app_r_alt, Nat.sub_diag by lia; simpl; rewrite with_confs_twice.
Qed.
End single.

(** ** The configurations of the primary interface *)

Lemma differ_by_refl {A} (d : A -> A -> bool) p : (forall a, d a a = false) -> differ_by d p p = false.
Proof. intros Hd. destruct p; simpl; [apply Hd|done]. Qed.

Lemma differentID_refl s : differentID s s = false.
Proof. unfold differentID. by rewrite EqualFold_refl. Qed.

Lemma different_refl c : different c c = false.
Proof.
  unfold different. apply differ_by_refl. intros p. unfold differentProps.
  rewrite eqb_reflx, String.eqb_refl, (differ_by_refl _ _ differentID_refl). simpl.
  apply differ_by_refl. intros pip. unfold differentPip. rewrite String.eqb_refl. simpl.
  apply differ_by_refl. intros o. apply differ_by_refl, differentID_refl.
Qed.

(** The same configuration, up to its backend pools. *)
Record same_conf (c c' : VMSSIPConfig) : Prop := {
  sc_name : vip_Name c' = vip_Name c;
  sc_primary : is_primary_conf c' = is_primary_conf c;
  sc_different : forall e, different c' e = different c e;
  sc_subnet : vip_Subnet <$> vip_Properties c' = vip_Subnet <$> vip_Properties c;
}.

Lemma same_conf_refl c : same_conf c c.
Proof. done. Qed.
Lemma same_conf_pools c pools : same_conf c (with_pools c pools).
Proof. by destruct c as [n [[]|]]; split. Qed.
#[export] Instance same_conf_reflexive : Reflexive same_conf.
Proof. intros c. apply same_conf_refl. Qed.

Definition unnamed (name : string) (c : VMSSIPConfig) : Prop := conf_is name c = false.

Lemma same_unnamed name l l' :
  Forall2 same_conf l l' -> Forall (unnamed name) l -> Forall (unnamed name) l'.
Proof.
  induction 1 as [|c c' l l' Hc _ IH]; [done|]. rewrite !Forall_cons. intros [Hn Hl].
  split; [|by apply IH]. unfold unnamed, conf_is in *. by rewrite (sc_name _ _ Hc).
Qed.

Lemma same_managed l l' : Forall2 same_conf l l' -> existsb managed l' = existsb managed l.
Proof.
  induction 1 as [|c c' l l' Hc _ IH]; [done|]. simpl. rewrite IH. unfold managed at 1 3.
  by rewrite (sc_name _ _ Hc).
Qed.

Lemma same_nonprimary l l' :
  Forall2 same_conf l l' -> Forall (fun c => is_primary_conf c = false) l ->
  Forall (fun c => is_primary_conf c = false) l'.
Proof.
  induction 1 as [|c c' l l' Hc _ IH]; [done|]. rewrite !Forall_cons. intros [Hn Hl].
  split; [by rewrite (sc_primary _ _ Hc)|by apply IH].
Qed.

(** A gateway has at most one configuration on the interface, and it is not the
    primary one. *)
Record confs_ok (name : string) (confs : list VMSSIPConfig) : Prop := {
  co_one : forall l1 c l2, confs = l1 ++ c :: l2 -> conf_is name c = true -> Forall (unnamed name) l2;
  co_secondary : Forall (fun c => conf_is name c = true -> is_primary_conf c = false) confs;
}.

Lemma sweepConfs_cases name want e confs confs' u f :
  confs_ok name confs -> sweepConfs name want e confs = (confs', u, f) ->
  List.filter is_primary_conf confs' = List.filter is_primary_conf confs /\
  List.filter (fun c => negb (conf_is name c)) confs' = List.filter (fun c => negb (conf_is name c)) confs /\
  ((f = false /\ Forall (unnamed name) confs' /\ (u = false -> confs' = confs)) \/
   (f = true /\ u = false /\ confs' = confs /\ want = true /\
    exists l1 c l2, confs = l1 ++ c :: l2 /\ Forall (unnamed name) l1 /\ conf_is name c = true /\
                    different c e = false)).
Proof.
  intros [Hone Hsec] Hs. unfold sweepConfs in Hs.
  destruct (find_index (conf_is name) confs) as [[i c]|] eqn:Hf.
  - apply find_index_Some in Hf as (l1 & l2 & -> & <- & Hc & Hl1).
    rewrite remove_at_app in Hs.
    apply Forall_app in Hsec as [_ Hsec]. apply Forall_cons in Hsec as [Hsec _].
    destruct (negb want || different c e) eqn:Hd; simplify_eq.
    + split_and!; [by rewrite !List.filter_app; simpl; rewrite Hsec
                  |by rewrite !List.filter_app; simpl; rewrite Hc|]. left. split_and!; [done| |done].
      apply Forall_app. split; [done|by eapply Hone].
    + split_and!; [done..|]. right. apply orb_false_iff in Hd as [Hw Hd].
      split_and!; [done..|by destruct want|]. by exists l1, c, l2.
  - apply find_index_None in Hf. simplify_eq. split_and!; [done..|]. left. by split_and!.
Qed.

(** The primary configuration's pools are reconciled, the rest is left. *)
Lemma reconcileLbBackendPool_cases pool confs confs' ch :
  reconcileLbBackendPool pool confs = Ok (confs', ch) ->
  exists l1 c l2 pools, confs = l1 ++ c :: l2 /\ Forall (fun c => is_primary_conf c = false) l1 /\
    is_primary_conf c = true /\ confs' = l1 ++ with_pools c pools :: l2 /\
    reconcilePools pool (existsb managed confs) (pools_of c) = (pools, ch) /\
    (ch = false -> confs' = confs).
Proof.
  unfold reconcileLbBackendPool. intros Hr.
  destruct (find_index is_primary_conf confs) as [[i c]|] eqn:Hf; [|done].
  apply find_index_Some in Hf as (l1 & l2 & -> & <- & Hc & Hl1).
  destruct (reconcilePools _ _ _) as [pools ch'] eqn:Hp. simplify_eq.
  exists l1, c, l2, pools. split_and!; [done..| |done|by destruct ch].
  destruct ch; [by rewrite insert_app_r_alt, Nat.sub_diag by lia|].
  do 2 f_equal. assert (pools = pools_of c) as ->.
  { unfold reconcilePools in Hp. by repeat case_match; simplify_eq. }
  by destruct c as [n [[]|]].
Qed.

Lemma reconcileLbBackendPool_primary pool l1 c l2 pools :
  Forall (fun c => is_primary_conf c = false) l1 -> is_primary_conf c = true ->
  reconcilePools pool (existsb managed (l1 ++ c :: l2)) (pools_of c) = (pools, false) ->
  reconcileLbBackendPool pool (l1 ++ c :: l2) = Ok (l1 ++ c :: l2, false).
Proof.
  intros Hl1 Hc Hp. unfold reconcileLbBackendPool.
  by rewrite (find_index_app_first is_primary_conf), Hp by done.
Qed.

(** Reconciling the pools a second time changes nothing, provided the pool is
    listed at most once when it has to go. *)
Lemma reconcilePools_again pool need pools pools' ch :
  (need = false -> forall l1 s l2, pools = l1 ++ s :: l2 -> pool_is pool s = true ->
     Forall (fun s => pool_is pool s = false) l2) ->
  reconcilePools pool need pools = (pools', ch) ->
  reconcilePools pool need pools' = (pools', false) /\
  existsb (pool_is pool) pools' = need.
Proof.
  intros Hone Hp. unfold reconcilePools in Hp.
  destruct (find_index (pool_is pool) pools) as [[i s]|] eqn:Hf.
  - pose proof Hf as Hf'. apply find_index_Some in Hf as (l1 & l2 & -> & <- & Hs & Hl1).
    rewrite remove_at_app in Hp. destruct need; simplify_eq.
    + unfold reconcilePools. rewrite Hf'. split; [done|]. apply existsb_true_elem.
      exists s. split; [set_solver|done].
    + assert (Forall (fun s => pool_is pool s = false) (l1 ++ l2)) as Hall
        by (apply Forall_app; split; [done|by eapply Hone]).
      unfold reconcilePools. rewrite (proj2 (find_index_None _ _) Hall). split; [done|].
      by apply existsb_false_Forall.
  - pose proof Hf as Hf'. apply find_index_None in Hf. destruct need; simplify_eq.
    + unfold reconcilePools. rewrite find_index_app_first; [|done|apply EqualFold_refl].
      split; [done|]. rewrite existsb_app. simpl. unfold pool_is at 2. simpl.
      rewrite EqualFold_refl. by rewrite orb_true_r.
    + unfold reconcilePools. rewrite Hf'. split; [done|]. by apply existsb_false_Forall.
Qed.

(** The primary configuration of the interface is in the backend pool. *)
Definition in_pool (pool : string) (confs : list VMSSIPConfig) : bool :=
  match find_index is_primary_conf confs with
  | Some (_, c) => existsb (pool_is pool) (pools_of c)
  | None => false
  end.

Section settles.
Context (name pool : string) (want : bool) (e : VMSSIPConfig).

(** The configurations hold what is wanted: the gateway's configuration as
    expected, or none. *)
Definition as_wanted (confs : list VMSSIPConfig) : Prop :=
  if want then
    exists l1 c l2, confs = l1 ++ c :: l2 /\ Forall (unnamed name) l1 /\ conf_is name c = true /\
                    different c e = false
  else Forall (unnamed name) confs.

Lemma sweepConfs_fixed confs : as_wanted confs -> sweepConfs name want e confs = (confs, false, want).
Proof.
  unfold as_wanted, sweepConfs. destruct want.
  - intros (l1 & c & l2 & -> & Hl1 & Hc & Hd).
    by rewrite (find_index_app_first (conf_is name) l1 c l2 Hl1 Hc), Hd.
  - intros Hall. by rewrite (proj2 (find_index_None _ _) Hall).
Qed.

Lemma as_wanted_same confs confs' : Forall2 same_conf confs confs' -> as_wanted confs -> as_wanted confs'.
Proof.
  unfold as_wanted. destruct want; [|by intros ? ?; eapply same_unnamed].
  intros Hs (l1 & c & l2 & -> & Hl1 & Hc & Hd).
  apply Forall2_app_inv_l in Hs as (k1 & k2' & Hk1 & Hk2 & ->).
  apply Forall2_cons_inv_l in Hk2 as (c' & k2 & Hcc & _ & ->).
  exists k1, c', k2. split_and!; [done|by eapply same_unnamed| |].
  - unfold conf_is in *. by rewrite (sc_name _ _ Hcc).
  - by rewrite (sc_different _ _ Hcc).
Qed.

(** The configurations before the pools are reconciled. *)
Lemma swept_as_wanted confs confs1 u f :
  confs_ok name confs -> conf_is name e = true ->
  sweepConfs name want e confs = (confs1, u, f) ->
  as_wanted (if want && negb f then confs1 ++ [e] else confs1).
Proof.
  intros Hok He Hs. destruct (sweepConfs_cases _ _ _ _ _ _ _ Hok Hs)
    as (_ & _ & [(-> & Hun & _)|(-> & -> & -> & Hw & Hex)]); unfold as_wanted.
  - destruct want; simpl; [|done]. exists confs1, e, []. split_and!; [done..|apply different_refl].
  - by rewrite Hw.
Qed.

(** The backend pool is listed at most once in every primary configuration. *)
Definition pool_once (confs : list VMSSIPConfig) : Prop :=
  forall c l1 s l2, c ∈ confs -> is_primary_conf c = true -> pools_of c = l1 ++ s :: l2 ->
    pool_is pool s = true -> Forall (fun s => pool_is pool s = false) l2.

Lemma reconcileConfs_settles confs confs' upd :
  confs_ok name confs -> conf_is name e = true -> is_primary_conf e = false -> pool_once confs ->
  reconcileConfs name pool want e confs = Ok (confs', upd) ->
  as_wanted confs' /\ in_pool pool confs' = existsb managed confs' /\
  (exists X, Forall2 same_conf X confs' /\
     List.filter is_primary_conf X = List.filter is_primary_conf confs /\
     List.filter (fun c => negb (conf_is name c)) X =
       List.filter (fun c => negb (conf_is name c)) confs) /\
  (upd = false -> confs' = confs) /\
  reconcileConfs name pool want e confs' = Ok (confs', false).
Proof.
  intros Hok He Hep Honce Hr. unfold reconcileConfs in Hr.
  destruct (sweepConfs name want e confs) as [[confs1 u] f] eqn:Hs.
  apply obind_Ok_inv in Hr as ([confs2 ch] & Hb & [= -> <-]).
  pose proof (swept_as_wanted _ _ _ _ Hok He Hs) as Hwant.
  pose proof (sweepConfs_cases _ _ _ _ _ _ _ Hok Hs) as (Hprim & Hoth & Hcase).
  set (X := if want && negb f then confs1 ++ [e] else confs1) in *.
  assert (List.filter is_primary_conf X = List.filter is_primary_conf confs) as HXp.
  { unfold X. destruct (want && negb f); [|done]. rewrite List.filter_app. simpl.
    by rewrite Hep, app_nil_r. }
  assert (List.filter (fun c => negb (conf_is name c)) X =
          List.filter (fun c => negb (conf_is name c)) confs) as HXo.
  { unfold X. destruct (want && negb f); [|done]. rewrite List.filter_app. simpl.
    by rewrite He, app_nil_r. }
  apply reconcileLbBackendPool_cases in Hb as (l1 & c & l2 & pools & HX & Hl1 & Hc & -> & Hp & Hsame).
  assert (Forall2 same_conf X (l1 ++ with_pools c pools :: l2)) as Hrel.
  { rewrite HX. apply Forall2_app; [done|]. constructor; [apply same_conf_pools|done]. }
  assert (c ∈ confs) as Hin.
  { assert (c ∈ List.filter is_primary_conf confs) as Hin.
    { rewrite <- HXp, HX. apply list_elem_of_In, filter_In. split; [|done].
      apply list_elem_of_In. set_solver. }
    by apply list_elem_of_In, filter_In in Hin as [?%list_elem_of_In _]. }
  apply reconcilePools_again in Hp as [Hagain Hin_pool]; [|by intros _ k1 s k2; apply Honce].
  assert (pools_of (with_pools c pools) = pools /\ is_primary_conf (with_pools c pools) = true)
    as [Hpo Hpc] by (destruct c as [n [[]|]]; done).
  assert (existsb managed (l1 ++ with_pools c pools :: l2) = existsb managed X) as Hman
    by (by apply same_managed).
  split_and!.
  - by eapply as_wanted_same.
  - unfold in_pool. by rewrite find_index_app_first, Hpo, Hman.
  - by exists X.
  - intros Hupd. repeat (apply orb_false_iff in Hupd as [Hupd ?]). subst u ch.
    rewrite Hsame by done. unfold X. rewrite H0.
    by destruct Hcase as [(_ & _ & ?)|(_ & _ & ? & _)]; eauto.
  - unfold reconcileConfs. rewrite (sweepConfs_fixed _ (as_wanted_same _ _ Hrel Hwant)).
    rewrite andb_negb_r. erewrite reconcileLbBackendPool_primary; [done|done|done|].
    by rewrite Hpo, Hman.
Qed.
End settles.

Lemma same_filter (q : VMSSIPConfig -> bool) l l' :
  (forall c c', same_conf c c' -> q c' = q c) ->
  Forall2 same_conf l l' -> Forall2 same_conf (List.filter q l) (List.filter q l').
Proof.
  intros Hq. induction 1 as [|c c' l l' Hc _ IH]; simpl; [done|]. rewrite (Hq c c' Hc).
  destruct (q c); [by constructor|done].
Qed.

Lemma subnetID_of_same l l' acc : Forall2 same_conf l l' -> subnetID_of l' acc = subnetID_of l acc.
Proof.
  intros Hs. revert acc. induction Hs as [|c c' l l' [_ _ _ Hsub] _ IH]; intros acc; simpl; [done|].
  destruct (vip_Properties c) as [cp|], (vip_Properties c') as [cp'|]; simplify_eq/=; [|done].
  rewrite Hsub. destruct (vip_Subnet cp); simpl; [apply IH|done].
Qed.

(** The IP configurations of other gateways and of the machine itself. *)
Abbreviation other_confs name confs := (List.filter (fun c => negb (conf_is name c)) confs).

Lemma getExpectedIPConfig_facts name prefix nics expected :
  getExpectedIPConfig name prefix nics = Ok expected ->
  conf_is name expected = true /\ is_primary_conf expected = false.
Proof.
  unfold getExpectedIPConfig. intros H. go_inv. split; [|done].
  unfold conf_is. simpl. apply String.eqb_refl.
Qed.

(** C14: the network profile a gateway wants for a scale set or an instance, on a
    profile with one primary interface that lists the gateway's configuration and
    the backend pool at most once. After the reconciliation the primary interface
    has the gateway's IP configuration as expected (or, on deletion, none); its
    primary configuration is in the load balancer's backend pool exactly when some
    gateway's configuration is left on the interface; the other configurations are
    kept, up to that pool membership; [needUpdate] is false only if nothing
    changed; and reconciling the result again changes nothing. *)
Theorem network_interface_settles name prefix pool want nics pre nic post nics' upd :
  single_primary nics pre nic post -> confs_ok name (confs_of nic) -> pool_once pool (confs_of nic) ->
  reconcileVMSSNetworkInterface name prefix pool want nics = Ok (nics', upd) ->
  exists expected confs',
    getExpectedIPConfig name prefix nics = Ok expected /\
    nics' = pre ++ with_confs nic confs' :: post /\
    as_wanted name want expected confs' /\
    in_pool pool confs' = existsb managed confs' /\
    Forall2 same_conf (other_confs name (confs_of nic)) (other_confs name confs') /\
    (upd = false -> nics' = nics) /\
    reconcileVMSSNetworkInterface name prefix pool want nics' = Ok (nics', false).
Proof.
  intros Hs Hok Honce Hr. rewrite (reconcileVMSSNetworkInterface_single _ _ _ _ _ _ _ _ Hs) in Hr.
  apply obind_Ok_inv in Hr as (e & He & Hr). apply obind_Ok_inv in Hr as ([confs' u] & Hc & [= <- ->]).
  destruct (getExpectedIPConfig_facts _ _ _ _ He) as [Hen Hep].
  destruct (reconcileConfs_settles _ _ _ _ _ _ _ Hok Hen Hep Honce Hc)
    as (Hwant & Hpool & (X & HX & HXp & HXo) & Hupd & Hagain).
  exists e, confs'. split_and!; [done..| | |].
  - rewrite <- HXo. apply same_filter; [|done]. intros c c' Hcc. unfold conf_is. by rewrite (sc_name _ _ Hcc).
  - intros Hu. rewrite (Hupd Hu), with_confs_same. symmetry. apply Hs.
  - pose proof (single_with_confs _ _ _ _ confs' Hs) as Hs'.
    rewrite (reconcileVMSSNetworkInterface_single _ _ _ _ _ _ _ _ Hs').
    assert (getExpectedIPConfig name prefix (pre ++ with_confs nic confs' :: post) = Ok e) as ->.
    { rewrite <- He. unfold getExpectedIPConfig.
      rewrite (primary_confs_single _ _ _ _ Hs), (primary_confs_single _ _ _ _ Hs').
      rewrite confs_with_confs by apply Hs. rewrite <- HXp.
      by rewrite (subnetID_of_same _ _ _ (same_filter _ _ _ sc_primary HX)). }
    cbn [obind]. rewrite confs_with_confs by apply Hs. rewrite Hagain. cbn [obind].
    by rewrite with_confs_twice.
Qed.

(** An instance with one interface and its primary configuration. *)
Definition sample_conf (pools : list SubResource) : VMSSIPConfig :=
  {| vip_Name := Some "ipconfig1";
     vip_Properties := Some
       {| vip_Primary := Some true; vip_PrivateIPAddressVersion := Some IPVersionIPv4;
          vip_Subnet := Some {| sub_ID := Some "/subnets/gateway" |};
          vip_PublicIPAddressConfiguration := None;
          vip_LoadBalancerBackendAddressPools := pools |} |}.
Definition sample_nic (confs : list VMSSIPConfig) : VMSSNic :=
  {| vnic_Name := Some "nic"; vnic_Properties := Some
       {| vnic_Primary := Some true; vnic_IPConfigurations := confs |} |}.

Definition sample_settled : list VMSSNic :=
  match reconcileVMSSNetworkInterface "egressgateway-uid" "/prefixes/p" "/pools/p" true
          [sample_nic [sample_conf []]] with
  | Ok (nics, _) => nics
  | _ => []
  end.

Lemma sample_nic_ok :
  single_primary [sample_nic [sample_conf []]] [] (sample_nic [sample_conf []]) [] /\
  confs_ok "egressgateway-uid" [sample_conf []] /\ pool_once "/pools/p" [sample_conf []].
Proof.
  split_and!.
  - split; [done|done|constructor|constructor].
  - split; [|by repeat constructor]. intros [|? [|]] c l2 [=]; subst; discriminate.
  - intros c l1 s l2 ->%list_elem_of_singleton _ Hl. destruct l1; discriminate.
Qed.

Lemma network_interface_settles_witness :
  exists expected confs',
    sample_settled = [with_confs (sample_nic [sample_conf []]) confs'] /\
    as_wanted "egressgateway-uid" true expected confs' /\
    in_pool "/pools/p" confs' = existsb managed confs'.
Proof.
  destruct sample_nic_ok as (Hs & Hok & Honce).
  destruct (network_interface_settles "egressgateway-uid" "/prefixes/p" "/pools/p" true
              [sample_nic [sample_conf []]] [] (sample_nic [sample_conf []]) [] sample_settled true
              Hs Hok Honce) as (expected & confs' & _ & Hn & Hw & Hp & _).
  - vm_compute. reflexivity.
  - by exists expected, confs'.
Defined.
