(* ===== verification/PublicIP.v ===== *)
(** * Public IP prefixes
      ([controllers/manager/gatewayvmconfiguration_controller.go])

    The prefix a gateway's egress uses: none, one the user provides by its
    identifier, or one the controller manages.  The identifier is taken apart with
    the regular expression [publicIPPrefixRE], modelled as the backtracking
    matcher of its tokens. *)

From stdpp Require Import base tactics list strings gmap.
From Stdlib Require Import Ascii ZArith Lia.
From S2P Require Import Prelude GoStrings Types Config Azure VMNet.

Open Scope string_scope.

(** ** The regular expression *)

(** A byte that [.] accepts. *)
Definition dot (c : ascii) : bool := negb (Ascii.eqb c "010"%char).

Section matcher.
Context (k : string -> option (list string)).

(** [.*]: the longest run first; the text it took and the captures of the rest. *)
Fixpoint anyStar (s : string) : option (string * list string) :=
  let stop := match k s with Some caps => Some ("", caps) | None => None end in
  match s with
  | String c s' =>
      if dot c then
        match anyStar s' with
        | Some (run, caps) => Some (String c run, caps)
        | None => stop
        end
      else stop
  | EmptyString => stop
  end.

(** [(.+)], a capture. *)
Definition anyPlus (s : string) : option (list string) :=
  match s with
  | String c s' =>
      if dot c then
        match anyStar s' with
        | Some (run, caps) => Some (String c run :: caps)
        | None => None
        end
      else None
  | EmptyString => None
  end.
End matcher.

(** Literal text under [(?i)], in which [.] stands for any byte. *)
Fixpoint literal (l : string) (k : string -> option (list string)) (s : string) :
    option (list string) :=
  match l, s with
  | EmptyString, _ => k s
  | String a l', String c s' =>
      if (if Ascii.eqb a "." then dot c else Ascii.eqb (lower_char a) (lower_char c))
      then literal l' k s' else None
  | String _ _, EmptyString => None
  end.

Definition matchHere (s : string) : option (list string) :=
  match anyStar
          (literal "/subscriptions/"
             (anyPlus (literal "/resourceGroups/"
                (anyPlus (literal "/providers/Microsoft.Network/publicIPPrefixes/"
                   (anyPlus (fun _ => Some []))))))) s with
  | Some (_, caps) => Some caps
  | None => None
  end.

(** [publicIPPrefixRE.FindStringSubmatch], without the whole match: the leftmost
    match. *)
Fixpoint findPrefixID (s : string) : option (list string) :=
  match matchHere s with
  | Some caps => Some caps
  | None => match s with String _ s' => findPrefixID s' | EmptyString => None end
  end.

(** ** The controller's calls *)

Definition isErrorNotFound (err : gerror) : bool :=
  match errors_as as_response err with
  | Some (status, _) => (status =? http_StatusNotFound)%Z
  | None => false
  end.

(** [arm.ParseResourceID(id).Name] of the Azure SDK. *)
Class ArmIDs := ParseResourceID : string -> gerror + string.

Module publicip.
Section publicip.
Context {W : Type} `{Backoffs} `{AzureClients W} `{ArmIDs} (az : CloudConfig).

(** The user's prefix, by its identifier. *)
Definition unmanagedPrefix (ipPrefixLength : Z) (prefixID : string) : M W (string * string * bool) :=
  match findPrefixID prefixID with
  | Some [subscriptionID; resourceGroupName; publicIpPrefixName] =>
      if negb (String.eqb subscriptionID (SubscriptionID az)) then
        throw (EText ("public ip prefix subscription(" +:+ subscriptionID
                      +:+ ") is not in the same subscription(" +:+ SubscriptionID az +:+ ")"))
      else
        let! ipPrefix := azmanager.GetPublicIPPrefix az resourceGroupName publicIpPrefixName
          ?: (wrap ("failed to get public ip prefix(" +:+ prefixID +:+ "): ")) in
        match px_Properties ipPrefix with
        | None => throw (EText ("public ip prefix(" +:+ prefixID +:+ ") has empty properties"))
        | Some p =>
            if negb (Val (px_PrefixLength p) =? ipPrefixLength)%Z then
              throw (EText ("provided public ip prefix has invalid length("
                            +:+ Itoa (Val (px_PrefixLength p)) +:+ "), required("
                            +:+ Itoa ipPrefixLength +:+ ")"))
            else ret (Val (px_IPPrefix p), Val (px_ID ipPrefix), false)
        end
  | _ => throw (EText ("failed to parse public ip prefix id: " +:+ prefixID))
  end.

Definition newIPPrefix (publicIpPrefixName : string) (ipPrefixLength : Z) : PublicIPPrefix :=
  {| px_ID := None;
     px_Name := Ptr publicIpPrefixName;
     px_Location := Ptr (Location az);
     px_SKU := Some (SKUNameStandard, SKUTierRegional);
     px_Properties := Some
       {| px_PrefixLength := Ptr ipPrefixLength;
          px_IPPrefix := None;
          px_PublicIPAddressVersion := Ptr IPVersionIPv4;
          px_PublicIPAddresses := [] |} |}.

(** The controller's own prefix, created when it does not exist. *)
Definition managedPrefix (ipPrefixLength : Z) (publicIpPrefixName : string) :
    M W (string * string * bool) :=
  let! r := try (azmanager.GetPublicIPPrefix az "" publicIpPrefixName) in
  match r with
  | inr ipPrefix =>
      match px_Properties ipPrefix with
      | None => throw (EText "managed public ip prefix has empty properties")
      | Some p => ret (Val (px_IPPrefix p), Val (px_ID ipPrefix), true)
      end
  | inl err =>
      if negb (isErrorNotFound err) then
        throw (wrap "failed to get managed public ip prefix: " err)
      else
        let! ipPrefix :=
          azmanager.CreateOrUpdatePublicIPPrefix az "" publicIpPrefixName
            (newIPPrefix publicIpPrefixName ipPrefixLength)
            ?: (wrap "failed to create managed public ip prefix: ") in
        let! p := lift (deref (px_Properties ipPrefix)) in
        ret (Val (px_IPPrefix p), Val (px_ID ipPrefix), true)
  end.

(** The prefix, its identifier and whether the controller manages it. *)
Definition ensurePublicIPPrefix (ipPrefixLength : Z) (vmConfig : GatewayVMConfiguration) :
    M W (string * string * bool) :=
  let spec := vmc_Spec vmConfig in
  if negb (vmc_ProvisionPublicIps spec) then ret ("", "", false)
  else if negb (String.eqb (vmc_PublicIpPrefixId spec) "") then
    unmanagedPrefix ipPrefixLength (vmc_PublicIpPrefixId spec)
  else managedPrefix ipPrefixLength (managedSubresourceName vmConfig).

(** One public IP of the managed prefix is deleted. *)
Definition deletePrefixIP (pip : option SubResource) : M W unit :=
  match pip with
  | Some {| sub_ID := Some pipID |} =>
      match ParseResourceID pipID with
      | inl err => throw (wrap ("failed to parse managed public ip prefix(" +:+ pipID +:+ "): ") err)
      | inr name =>
          let! r := try (azmanager.DeletePublicIP az "" name) in
          match r with
          | inl err =>
              if isErrorNotFound err then ret tt
              else throw (wrap ("failed to delete managed public ip prefix(" +:+ pipID +:+ "): ") err)
          | inr _ => ret tt
          end
      end
  | _ => ret tt
  end.

Definition ensurePublicIPPrefixDeleted (vmConfig : GatewayVMConfiguration) : M W unit :=
  let publicIpPrefixName := managedSubresourceName vmConfig in
  let! r := try (azmanager.GetPublicIPPrefix az "" publicIpPrefixName) in
  match r with
  | inl err =>
      if isErrorNotFound err then ret tt
      else throw (wrap ("failed to get public ip prefix(" +:+ publicIpPrefixName +:+ "): ") err)
  | inr prefix =>
      do! match px_Properties prefix with
          | Some p => foldM (fun _ pip => deletePrefixIP pip) (px_PublicIPAddresses p) tt
          | None => ret tt
          end;
      azmanager.DeletePublicIPPrefix az "" publicIpPrefixName
        ?: (wrap ("failed to delete public ip prefix(" +:+ publicIpPrefixName +:+ "): "))
  end.
End publicip.
End publicip.

(** ** Reading an identifier *)

Definition slash : ascii := "/"%char.

Fixpoint slashes (s : string) : nat :=
  match s with
  | EmptyString => 0
  | String c s' => (if Ascii.eqb c slash then 1 else 0) + slashes s'
  end.

Lemma slashes_app s t : slashes (s +:+ t) = slashes s + slashes t.
Proof. induction s as [|c s IH]; simpl; [done|]. rewrite IH. lia. Qed.

Lemma slashes_slash u : slashes (String slash u) = S (slashes u).
Proof. done. Qed.

Lemma lower_char_slash c : lower_char c = slash -> c = slash.
Proof. destruct c as [[] [] [] [] [] [] [] []]; vm_compute; congruence. Qed.

(** [k] succeeds only on texts with at least [n] slashes. *)
Definition needs (n : nat) (k : string -> option (list string)) : Prop :=
  forall s r, k s = Some r -> n <= slashes s.

Lemma needs_literal l n k : needs n k -> needs (slashes l + n) (literal l k).
Proof.
  intros Hk. induction l as [|a l IH]; intros s r; [simpl; apply Hk|].
  destruct s as [|c s]; simpl; [done|]. destruct (Ascii.eqb_spec a "."%char) as [->|Ha].
  - destruct (dot c); [|done]. intros Hr. specialize (IH s r Hr). simpl.
    destruct (Ascii.eqb c slash); lia.
  - destruct (Ascii.eqb_spec (lower_char a) (lower_char c)) as [Hc|]; [|done].
    intros Hr. specialize (IH s r Hr). destruct (Ascii.eqb_spec a slash) as [->|]; [|lia].
    change (lower_char slash) with slash in Hc. rewrite (lower_char_slash c) by done. simpl. lia.
Qed.

Lemma anyStar_split k s run r : anyStar k s = Some (run, r) -> exists s', s = run +:+ s' /\ k s' = Some r.
Proof.
  revert run. induction s as [|c s IH]; intros run H; simpl in H.
  { destruct (k "") eqn:Hk; simplify_eq. by exists "". }
  destruct (dot c); [destruct (anyStar k s) as [[run' caps]|]|].
  - simplify_eq. destruct (IH run' eq_refl) as (s' & -> & Hk). by exists s'.
  - destruct (k (String c s)) eqn:Hk; simplify_eq. by exists (String c s).
  - destruct (k (String c s)) eqn:Hk; simplify_eq. by exists (String c s).
Qed.

Lemma needs_anyPlus n k : needs n k -> needs n (anyPlus k).
Proof.
  intros Hk [|c s] r; simpl; [done|]. destruct (dot c); [|done].
  destruct (anyStar k s) as [[run caps]|] eqn:Ha; [|done]. intros _.
  apply anyStar_split in Ha as (s' & -> & Hs'). apply Hk in Hs'. rewrite slashes_app. lia.
Qed.

(** A part of an identifier. *)
Record segment (t : string) : Prop := {
  seg_nonempty : t <> "";
  seg_slash : no_byte slash t = true;
  seg_newline : no_byte "010"%char t = true;
}.

Lemma no_byte_cons a c t : no_byte a (String c t) = true -> Ascii.eqb c a = false /\ no_byte a t = true.
Proof.
  simpl. intros [Hc Ht]%andb_true_iff. split; [|done]. rewrite Ascii.eqb_sym. by apply negb_true_iff.
Qed.

Lemma no_slash t : no_byte slash t = true -> slashes t = 0.
Proof.
  induction t as [|c t IH]; [done|]. intros [Hc Ht]%no_byte_cons. simpl. by rewrite Hc, IH.
Qed.

(** When the rest needs all the slashes that are left, the run ends before the
    next slash. *)
Lemma anyStar_exact k n t u r :
  needs n k -> slashes u < n -> no_byte "010"%char t = true ->
  k (String slash u) = Some r -> anyStar k (t +:+ String slash u) = Some (t, r).
Proof.
  intros Hk Hu Ht Hr. induction t as [|c t IH]; simpl.
  - destruct (anyStar k u) as [[run caps]|] eqn:Ha.
    + exfalso. apply anyStar_split in Ha as (s' & -> & Hs'). apply Hk in Hs'.
      rewrite slashes_app in Hu. lia.
    + by rewrite Hr.
  - apply no_byte_cons in Ht as [Hc Ht]. unfold dot. rewrite Hc. simpl. by rewrite IH.
Qed.

Lemma anyPlus_exact k n t u r :
  needs n k -> slashes u < n -> segment t ->
  k (String slash u) = Some r -> anyPlus k (t +:+ String slash u) = Some (t :: r).
Proof.
  intros Hk Hu [Hne _ Hnl] Hr. destruct t as [|c t]; [done|]. apply no_byte_cons in Hnl as [Hc Ht].
  simpl. unfold dot. rewrite Hc. simpl. by rewrite (anyStar_exact k n t u r).
Qed.

Lemma anyPlus_last t : segment t -> anyPlus (fun _ => Some []) t = Some [t].
Proof.
  intros [Hne _ Hnl]. destruct t as [|c t]; [done|]. apply no_byte_cons in Hnl as [Hc Ht].
  simpl. unfold dot. rewrite Hc. simpl.
  assert (anyStar (fun _ => Some []) t = Some (t, [])) as ->; [|done].
  clear Hne c Hc. induction t as [|c t IH]; simpl; [done|].
  apply no_byte_cons in Ht as [Hc Ht]. unfold dot. rewrite Hc. simpl. by rewrite IH.
Qed.

Lemma literal_self l k s : literal l k (l +:+ s) = k s.
Proof.
  induction l as [|a l IH]; simpl; [done|].
  destruct (Ascii.eqb_spec a "."%char) as [->|]; simpl; [done|]. by rewrite Ascii.eqb_refl.
Qed.

(** The identifier of a public IP prefix. *)
Definition prefixID (subscription resourceGroup name : string) : string :=
  "/subscriptions/" +:+ subscription +:+ "/resourceGroups/" +:+ resourceGroup
  +:+ "/providers/Microsoft.Network/publicIPPrefixes/" +:+ name.

(** The three tails of the expression, and the slashes they need. *)
Definition tail3 := literal "/providers/Microsoft.Network/publicIPPrefixes/" (anyPlus (fun _ => Some [])).
Definition tail2 := literal "/resourceGroups/" (anyPlus tail3).
Definition tail1 := literal "/subscriptions/" (anyPlus tail2).

Lemma needs_tail3 : needs 4 tail3.
Proof.
  refine (needs_literal "/providers/Microsoft.Network/publicIPPrefixes/" 0 _ (needs_anyPlus 0 _ _)).
  intros s r _. lia.
Qed.
Lemma needs_tail2 : needs 6 tail2.
Proof. exact (needs_literal "/resourceGroups/" 4 _ (needs_anyPlus 4 _ needs_tail3)). Qed.
Lemma needs_tail1 : needs 8 tail1.
Proof. exact (needs_literal "/subscriptions/" 6 _ (needs_anyPlus 6 _ needs_tail2)). Qed.

(** A literal, a capture and the rest. *)
Lemma literal_segment l k n t u r :
  needs n k -> slashes u < n -> segment t -> k (String slash u) = Some r ->
  literal l (anyPlus k) (l +:+ t +:+ String slash u) = Some (t :: r).
Proof. intros. rewrite literal_self. by apply (anyPlus_exact k n). Qed.

(** The identifier's parts are read back. *)
Lemma findPrefixID_prefixID sub rg name :
  segment sub -> segment rg -> segment name -> findPrefixID (prefixID sub rg name) = Some [sub; rg; name].
Proof.
  intros Hs Hr Hn.
  pose proof (no_slash _ (seg_slash _ Hs)) as Zs. pose proof (no_slash _ (seg_slash _ Hr)) as Zr.
  pose proof (no_slash _ (seg_slash _ Hn)) as Zn.
  set (u3 := "providers/Microsoft.Network/publicIPPrefixes/" +:+ name).
  set (u2 := "resourceGroups/" +:+ rg +:+ String slash u3).
  assert (slashes u3 = 3) as Z3 by (unfold u3; rewrite slashes_app, Zn; done).
  assert (slashes u2 = 5) as Z2 by (unfold u2; rewrite !slashes_app, Zr, slashes_slash, Z3; done).
  assert (tail3 (String slash u3) = Some [name]) as H3.
  { unfold tail3, u3. rewrite <- (anyPlus_last name Hn).
    exact (literal_self "/providers/Microsoft.Network/publicIPPrefixes/" _ name). }
  assert (tail2 (String slash u2) = Some [rg; name]) as H2.
  { apply (literal_segment "/resourceGroups/" tail3 4 rg u3); [apply needs_tail3|lia|done..]. }
  assert (matchHere (prefixID sub rg name) = Some [sub; rg; name]) as Hm.
  { unfold matchHere. fold tail3. fold tail2. fold tail1.
    assert (anyStar tail1 (prefixID sub rg name) = Some ("", [sub; rg; name])) as ->; [|done].
    apply (anyStar_exact tail1 8 "" ("subscriptions/" +:+ sub +:+ String slash u2));
      [apply needs_tail1| |done|].
    - rewrite !slashes_app, Zs, slashes_slash, Z2. simpl. lia.
    - apply (literal_segment "/subscriptions/" tail2 6 sub u2); [apply needs_tail2|lia|done..]. }
  destruct (prefixID sub rg name) as [|c s] eqn:Hp; [done|]. cbn [findPrefixID]. by rewrite Hm.
Qed.

(** A public IP prefix the user provides by its identifier. When the
    identifier is that of a prefix (its parts are non-empty and have no slash or
    line break), [ensurePublicIPPrefix] returns a prefix exactly when the
    identifier is in the controller's subscription and the prefix of that name
    exists in that resource group with the required length; it returns that
    prefix, as not managed, and makes no call but the read. *)
Theorem user_prefix_used {W} `{Backoffs} `{AzureClients W} az len vmConfig sub rg name w ip id m w' :
  segment sub -> segment rg -> segment name ->
  vmc_ProvisionPublicIps (vmc_Spec vmConfig) = true ->
  vmc_PublicIpPrefixId (vmc_Spec vmConfig) = prefixID sub rg name ->
  publicip.ensurePublicIPPrefix az len vmConfig w = (Ok (ip, id, m), w') <->
  sub = SubscriptionID az /\ m = false /\
  exists px p, azmanager.GetPublicIPPrefix az rg name w = (Ok px, w') /\ px_Properties px = Some p /\
    Val (px_PrefixLength p) = len /\ ip = Val (px_IPPrefix p) /\ id = Val (px_ID px).
Proof.
  intros Hs Hr Hn Hprov Hid. unfold publicip.ensurePublicIPPrefix. rewrite Hprov, Hid.
  assert (String.eqb (prefixID sub rg name) "" = false) as -> by done. cbn [negb].
  unfold publicip.unmanagedPrefix. rewrite findPrefixID_prefixID by done.
  destruct (String.eqb_spec sub (SubscriptionID az)) as [->|Hne]; cbn [negb].
  2:{ split; [intros; go_inv|naive_solver]. }
  unfold bind, on_err. destruct (azmanager.GetPublicIPPrefix az rg name w) as [[px|e|] w1]; simpl.
  - destruct (px_Properties px) as [p|] eqn:Hp; [|split; [intros; go_inv|naive_solver]].
    destruct (Z.eqb_spec (Val (px_PrefixLength p)) len) as [<-|Hlen]; cbn [negb].
    + split; [|by intros (_ & -> & px' & p' & ? & ? & _ & -> & ->); simplify_eq].
      intros; go_inv. split_and!; [done..|]. by exists px, p.
    + split; [intros; go_inv|]. intros (_ & _ & px' & p' & ? & ? & ? & _); simplify_eq.
  - split; [done|naive_solver].
  - split; [done|naive_solver].
Qed.
