(* ===== verification/AgentPoolVMs.v ===== *)
(** * Node pools of virtual machines ([controllers/manager/agentpoolvms.go])

    The reconciliation of the network interfaces of a node pool of virtual
    machines: the gateway's IP configuration, its public IP, the membership in
    the load balancer's backend pool, and the profile of the node. *)

From stdpp Require Import base tactics list strings gmap.
From Stdlib Require Import ZArith Lia.
From S2P Require Import Prelude GoStrings Types Kube Config Azure LBRules LBConfig VMNet PublicIP.

Open Scope string_scope.
Open Scope list_scope.

Record gatewayIPConfig := {
  primaryIP : string;
  secondaryIP : string;
  subnetID : string;
}.

(** The configurations of an interface; a nil slice has none. *)
Definition nic_confs (p : NicProps) : list (option NicIPConfig) := default [] (nic_IPConfigurations p).

(** A configuration the loops look at: neither it nor its properties are nil. *)
Definition conf_props (c : option NicIPConfig) : option (NicIPConfig * NicIPConfigProps) :=
  match c with
  | Some c => match nip_Properties c with Some p => Some (c, p) | None => None end
  | None => None
  end.

(** One round of the loop of [getGatewayIPConfig]. *)
Definition note_conf (name : string) (result : gatewayIPConfig) (c : option NicIPConfig) : gatewayIPConfig :=
  match conf_props c with
  | None => result
  | Some (c, p) =>
      if EqualFold (Val (nip_Name c)) name then
        {| primaryIP := primaryIP result; secondaryIP := Val (nip_PrivateIPAddress p);
           subnetID := subnetID result |}
      else if Val (nip_Primary p) then
        {| primaryIP := Val (nip_PrivateIPAddress p); secondaryIP := secondaryIP result;
           subnetID := match nip_Subnet p with Some s => Val (sub_ID s) | None => subnetID result end |}
      else result
  end.

Definition getGatewayIPConfig (p : NicProps) (name : string) : gatewayIPConfig :=
  fold_left (note_conf name) (nic_confs p) {| primaryIP := ""; secondaryIP := ""; subnetID := "" |}.

(** ** Comparing configurations *)

Definition differentPipProps (p q : PublicIPProps) : bool :=
  differ_by differentID (pip_PublicIPPrefix p) (pip_PublicIPPrefix q).

Definition differentPublicIP (pip1 pip2 : PublicIPAddress) : bool :=
  negb (String.eqb (Val (pip_Name pip1)) (Val (pip_Name pip2)))
  || differ_by differentPipProps (pip_Properties pip1) (pip_Properties pip2).

Definition differentNICProps (prop1 prop2 : NicIPConfigProps) : bool :=
  negb (Bool.eqb (Val (nip_Primary prop1)) (Val (nip_Primary prop2)))
  || negb (String.eqb (Val (nip_PrivateIPAddressVersion prop1)) (Val (nip_PrivateIPAddressVersion prop2)))
  || differ_by differentID (nip_Subnet prop1) (nip_Subnet prop2)
  || differ_by differentPublicIP (nip_PublicIPAddress prop1) (nip_PublicIPAddress prop2).

Definition differentNIC (a b : NicIPConfig) : bool :=
  differ_by differentNICProps (nip_Properties a) (nip_Properties b).

(** ** The configurations of an interface *)

(** The loop over the configurations.  Dropping an element moves the rest down,
    and the loop then goes on at the next index: the element behind a dropped one
    is not looked at.  Returns the configurations, [needUpdate] and [found]. *)
Fixpoint sweepNicConfs (ipConfigName : string) (wantIPConfig : bool) (expected : NicIPConfig)
    (confs : list (option NicIPConfig)) : list (option NicIPConfig) * bool * bool :=
  match confs with
  | [] => ([], false, false)
  | ipConfig :: rest =>
      let keep :=
        let '(rest', needUpdate, found) := sweepNicConfs ipConfigName wantIPConfig expected rest in
        (ipConfig :: rest', needUpdate, found) in
      match conf_props ipConfig with
      | None => keep
      | Some (c, _) =>
          if EqualFold (Val (nip_Name c)) ipConfigName then
            if negb wantIPConfig || differentNIC c expected then
              match rest with
              | [] => ([], true, false)
              | skipped :: rest2 =>
                  let '(rest', _, found) := sweepNicConfs ipConfigName wantIPConfig expected rest2 in
                  (skipped :: rest', true, found)
              end
            else (ipConfig :: rest, false, true)
          else keep
      end
  end.

Definition has_pool (lbBackendpoolID : string) (p : NicIPConfigProps) : bool :=
  existsb (fun pool => match pool with
                       | Some s => EqualFold (Val (sub_ID s)) lbBackendpoolID
                       | None => false
                       end) (nip_LoadBalancerBackendAddressPools p).

Definition add_pool (lbBackendpoolID : string) (c : NicIPConfig) (p : NicIPConfigProps) : NicIPConfig :=
  {| nip_Name := nip_Name c;
     nip_Properties := Some
       {| nip_Primary := nip_Primary p;
          nip_PrivateIPAddress := nip_PrivateIPAddress p;
          nip_PrivateIPAddressVersion := nip_PrivateIPAddressVersion p;
          nip_Subnet := nip_Subnet p;
          nip_PublicIPAddress := nip_PublicIPAddress p;
          nip_LoadBalancerBackendAddressPools :=
            nip_LoadBalancerBackendAddressPools p ++ [Some {| sub_ID := Ptr lbBackendpoolID |}] |} |}.

(** The loop over the primary configurations; [missingLB] is carried along. *)
Fixpoint ensurePools (lbBackendpoolID : string) (missingLB : bool) (confs : list (option NicIPConfig)) :
    list (option NicIPConfig) * bool :=
  match confs with
  | [] => ([], missingLB)
  | ipConfig :: rest =>
      match conf_props ipConfig with
      | Some (c, p) =>
          if Val (nip_Primary p) then
            let missingLB := missingLB && negb (has_pool lbBackendpoolID p) in
            let '(rest', m) := ensurePools lbBackendpoolID missingLB rest in
            ((if missingLB then Some (add_pool lbBackendpoolID c p) else ipConfig) :: rest', m)
          else let '(rest', m) := ensurePools lbBackendpoolID missingLB rest in (ipConfig :: rest', m)
      | None => let '(rest', m) := ensurePools lbBackendpoolID missingLB rest in (ipConfig :: rest', m)
      end
  end.

(** Both loops: the configurations, [needUpdate] and [missingLB]. *)
Definition planNicConfs (ipConfigName lbBackendpoolID : string) (wantIPConfig : bool)
    (expected : NicIPConfig) (confs : list (option NicIPConfig)) :
    list (option NicIPConfig) * bool * bool :=
  let '(confs, needUpdate, found) := sweepNicConfs ipConfigName wantIPConfig expected confs in
  let add := wantIPConfig && negb found in
  let confs := if add then confs ++ [Some expected] else confs in
  let '(confs, missingLB) := ensurePools lbBackendpoolID true confs in
  (confs, needUpdate || add, missingLB).

(** ** The profile of a node *)

Fixpoint upsertProfile (vmprofile : GatewayVMProfile) (profiles : list GatewayVMProfile) :
    list GatewayVMProfile :=
  match profiles with
  | [] => [vmprofile]
  | profile :: rest =>
      if String.eqb (NodeName profile) (NodeName vmprofile) then
        {| NodeName := NodeName profile; PrimaryIP := PrimaryIP vmprofile;
           SecondaryIP := SecondaryIP vmprofile |} :: rest
      else profile :: upsertProfile vmprofile rest
  end.

Definition vmc_status_or_new (s : option GatewayVMConfigurationStatus) : GatewayVMConfigurationStatus :=
  match s with Some s => s | None => {| vmc_EgressIpPrefix := ""; vmc_GatewayVMProfiles := [] |} end.

Definition with_vmc_status (v : GatewayVMConfiguration) (s : option GatewayVMConfigurationStatus) :
    GatewayVMConfiguration :=
  {| vmc_meta := vmc_meta v; vmc_Spec := vmc_Spec v; vmc_Status := s |}.

(** The end of [reconcileNIC] and of [reconcileVMSSVM]. *)
Definition noteProfile (vmConfig : GatewayVMConfiguration) (vmprofile : GatewayVMProfile) :
    GatewayVMConfiguration :=
  let s := vmc_status_or_new (vmc_Status vmConfig) in
  with_vmc_status vmConfig (Some
    {| vmc_EgressIpPrefix := vmc_EgressIpPrefix s;
       vmc_GatewayVMProfiles := upsertProfile vmprofile (vmc_GatewayVMProfiles s) |}).

(** ** The pool *)
Module agentpoolvms.
Section agentpoolvms.
Context {W : Type} `{Backoffs} `{AzureClients W} `{ArmIDs} `{UUIDs} (az : CloudConfig).

Definition buildPublicIPName (id val : string) : outcome string :=
  match ParseResourceID id with
  | inl err => Err err
  | inr name => Ok (name +:+ "-" +:+ hex64 (fnv64a val))
  end.

Definition expectedPublicIP (ipPrefixID : string) : PublicIPAddress :=
  {| pip_ID := None; pip_Name := None;
     pip_Location := Ptr (Location az);
     pip_SKU := Some (SKUNameStandard, SKUTierRegional);
     pip_Properties := Some
       {| pip_PublicIPAddressVersion := Ptr IPVersionIPv4;
          pip_PublicIPPrefix := Some {| sub_ID := Ptr ipPrefixID |};
          pip_PublicIPAllocationMethod := Ptr IPAllocationMethodStatic |} |}.

Definition expectedNicConf (ipConfigName subnetID : string) (pip : option PublicIPAddress) : NicIPConfig :=
  {| nip_Name := Ptr ipConfigName;
     nip_Properties := Some
       {| nip_Primary := Ptr false;
          nip_PrivateIPAddress := None;
          nip_PrivateIPAddressVersion := Ptr IPVersionIPv4;
          nip_Subnet := Some {| sub_ID := Ptr subnetID |};
          nip_PublicIPAddress := pip;
          nip_LoadBalancerBackendAddressPools := [] |} |}.

Definition with_nic_confs (nic : Interface) (p : NicProps) (confs : list (option NicIPConfig)) : Interface :=
  {| nic_ID := nic_ID nic; nic_Name := nic_Name nic; nic_Tags := nic_Tags nic;
     nic_Properties := Some
       {| nic_ProvisioningState := nic_ProvisioningState p; nic_IPConfigurations := Some confs |} |}.

(** Returns the VM configuration with the node's profile, and the secondary
    address. *)
Definition reconcileNIC (vmConfig : GatewayVMConfiguration) (nic : Interface)
    (ipPrefixID lbBackendpoolID : string) (wantIPConfig : bool) :
    M W (GatewayVMConfiguration * string) :=
  let ipConfigName := managedSubresourceName vmConfig in
  match nic_Properties nic with
  | None => throw (EText ("nic(" +:+ Val (nic_ID nic) +:+ ") has empty properties"))
  | Some p =>
      let ipCfg := getGatewayIPConfig p ipConfigName in
      let failed := String.eqb (Val (nic_ProvisioningState p)) "Failed" in
      let forceUpdate :=
        failed || (wantIPConfig && (String.eqb (primaryIP ipCfg) "" || String.eqb (secondaryIP ipCfg) "")) in
      if String.eqb (subnetID ipCfg) "" then
        throw (EText ("no subnetID found for NIC(" +:+ Val (nic_ID nic) +:+ ")"))
      else
        let! pip :=
          if negb (String.eqb ipPrefixID "") && wantIPConfig then
            let! pipName := lift (buildPublicIPName ipPrefixID (Val (nic_Name nic))) in
            let! pip := azmanager.CreateOrUpdatePublicIP az "" pipName (expectedPublicIP ipPrefixID) in
            ret (Some pip)
          else ret None in
        let expected := expectedNicConf ipConfigName (subnetID ipCfg) pip in
        let '(confs, needUpdate, missingLB) :=
          planNicConfs ipConfigName lbBackendpoolID wantIPConfig expected (nic_confs p) in
        let! (nic, ipCfg) :=
          if needUpdate || forceUpdate || missingLB then
            let! nic' :=
              azmanager.CreateOrUpdateNetworkInterface az "" (Val (nic_Name nic))
                (with_nic_confs nic p confs)
                ?: (wrap ("failed to update nic(" +:+ Val (nic_ID nic) +:+ "): ")) in
            let! p' := lift (deref (nic_Properties nic')) in
            ret (nic', getGatewayIPConfig p' ipConfigName)
          else ret (nic, ipCfg) in
        if negb wantIPConfig then ret (vmConfig, "")
        else
          ret (noteProfile vmConfig
                 {| NodeName := Val (nic_Name nic); PrimaryIP := primaryIP ipCfg;
                    SecondaryIP := secondaryIP ipCfg |},
               secondaryIP ipCfg)
  end.

(** A gateway interface of the node pool. *)
Definition isGatewayNIC (poolName : string) (nic : Interface) : bool :=
  match nic_Tags nic !! consts.AKSStaticGatewayNICTagKey with
  | None => false
  | Some _ =>
      match nic_Tags nic !! consts.AKSNodepoolTagKey with
      | None => false
      | Some val => EqualFold poolName (Val val)
      end
  end.

Definition Reconcile (agentPoolName : string) (vmConfig : GatewayVMConfiguration) (ipPrefixID : string)
    (wantIPConfig : bool) : M W (GatewayVMConfiguration * list string) :=
  let backendLBPoolID := azmanager.GetLBBackendAddressPoolID az (GetUniqueID (agentPoolVMs agentPoolName)) in
  let! nics := azmanager.ListNetworkInterfaces az "" in
  let gatewayNICs :=
    List.filter (isGatewayNIC (vmc_GatewayNodepoolName (vmc_Spec vmConfig))) (omap id nics) in
  foldM (fun '(vmConfig, secondaryIPs) nic =>
           let! (vmConfig, ip) := reconcileNIC vmConfig nic ipPrefixID (Val backendLBPoolID) wantIPConfig in
           ret (vmConfig, secondaryIPs ++ [ip]))
    gatewayNICs (vmConfig, []).
End agentpoolvms.
End agentpoolvms.

(** ** The plan for an interface settles *)

Definition nic_named (name : string) (c : option NicIPConfig) : bool :=
  match conf_props c with Some (c, _) => EqualFold (Val (nip_Name c)) name | None => false end.
Definition nic_differs (expected : NicIPConfig) (c : option NicIPConfig) : bool :=
  match conf_props c with Some (c, _) => differentNIC c expected | None => true end.
Definition nic_primary (c : option NicIPConfig) : bool :=
  match conf_props c with Some (_, p) => Val (nip_Primary p) | None => false end.
Definition nic_in_pool (pool : string) (c : option NicIPConfig) : bool :=
  match conf_props c with Some (_, p) => has_pool pool p | None => false end.

(** The same configuration, up to its backend pools. *)
Record same_nic_conf (c c' : option NicIPConfig) : Prop := {
  sn_named : forall name, nic_named name c' = nic_named name c;
  sn_differs : forall e, nic_differs e c' = nic_differs e c;
  sn_primary : nic_primary c' = nic_primary c;
}.
#[export] Instance same_nic_conf_refl : Reflexive same_nic_conf.
Proof. by intros c. Qed.

Lemma same_add_pool pool c p :
  nip_Properties c = Some p -> same_nic_conf (Some c) (Some (add_pool pool c p)).
Proof.
  intros Hp. split; intros; unfold nic_named, nic_differs, nic_primary, conf_props; simpl;
    rewrite Hp; try done. unfold differentNIC. simpl. rewrite Hp. done.
Qed.

Section sweep.
Context (name : string) (want : bool) (expected : NicIPConfig).
  Abbreviation none_named l := (Forall (fun c => nic_named name c = false) l).

Lemma sweep_none l : none_named l -> sweepNicConfs name want expected l = (l, false, false).
Proof.
  induction 1 as [|c l Hc _ IH]; simpl; [done|]. unfold nic_named in Hc.
  destruct (conf_props c) as [[c' p]|]; rewrite IH; [by rewrite Hc|done].
Qed.

Lemma sweep_app l1 l2 :
  none_named l1 ->
  sweepNicConfs name want expected (l1 ++ l2) =
  let '(r, u, f) := sweepNicConfs name want expected l2 in (l1 ++ r, u, f).
Proof.
  induction 1 as [|c l Hc _ IH]; simpl; [by destruct (sweepNicConfs _ _ _ l2) as [[] ?]|].
  unfold nic_named in Hc. rewrite IH. destruct (sweepNicConfs _ _ _ l2) as [[r u] f].
  destruct (conf_props c) as [[c' p]|]; [by rewrite Hc|done].
Qed.

(** With no other configuration of the name behind it, a match is kept or
    dropped and the rest is as it was. *)
Lemma sweep_named l1 c l2 :
  none_named l1 -> nic_named name c = true -> none_named l2 ->
  sweepNicConfs name want expected (l1 ++ c :: l2) =
  if negb want || nic_differs expected c then (l1 ++ l2, true, false)
  else (l1 ++ c :: l2, false, true).
Proof.
  intros Hl1 Hc Hl2. rewrite sweep_app by done. simpl. unfold nic_named in Hc. unfold nic_differs.
  destruct (conf_props c) as [[c' p]|]; [|done]. rewrite Hc.
  destruct (negb want || differentNIC c' expected); [|done].
  destruct Hl2 as [|d l2 _ Hl2]; [by rewrite app_nil_r|]. by rewrite sweep_none.
Qed.

(** A kept match is kept whatever is behind it. *)
Lemma sweep_kept l1 c l2 :
  none_named l1 -> nic_named name c = true -> want = true -> nic_differs expected c = false ->
  sweepNicConfs name want expected (l1 ++ c :: l2) = (l1 ++ c :: l2, false, true).
Proof.
  intros Hl1 Hc Hw Hd. rewrite sweep_app by done. simpl. unfold nic_named in Hc. unfold nic_differs in Hd.
  destruct (conf_props c) as [[c' p]|]; [|done]. by rewrite Hc, Hd, Hw.
Qed.
End sweep.

Section pools.
Context (pool : string).

Lemma ensurePools_same m l : Forall2 same_nic_conf l (fst (ensurePools pool m l)).
Proof.
  revert m. induction l as [|c l IH]; intros m; simpl; [done|].
  destruct (conf_props c) as [[c' p]|] eqn:Hp.
  - destruct (Val (nip_Primary p)).
    + specialize (IH (m && negb (has_pool pool p))).
      destruct (ensurePools _ _ l) as [r m']; simpl in *. constructor; [|done].
      destruct (m && negb _); [|done]. destruct c as [c|]; [|done].
      simpl in Hp. destruct (nip_Properties c) eqn:Hn; simplify_eq. by apply same_add_pool.
    + specialize (IH m). destruct (ensurePools _ _ l); simpl in *. by constructor.
  - specialize (IH m). destruct (ensurePools _ _ l); simpl in *. by constructor.
Qed.

Lemma ensurePools_none m l :
  Forall (fun c => nic_primary c = false) l -> ensurePools pool m l = (l, m).
Proof.
  induction 1 as [|c l Hc _ IH]; simpl; [done|]. unfold nic_primary in Hc.
  destruct (conf_props c) as [[c' p]|]; rewrite IH; [by rewrite Hc|done].
Qed.

Lemma ensurePools_app m l1 l2 :
  Forall (fun c => nic_primary c = false) l1 ->
  ensurePools pool m (l1 ++ l2) = let '(r, m') := ensurePools pool m l2 in (l1 ++ r, m').
Proof.
  induction 1 as [|c l Hc _ IH]; simpl; [by destruct (ensurePools _ _ l2)|]. unfold nic_primary in Hc.
  rewrite IH. destruct (ensurePools _ _ l2). destruct (conf_props c) as [[c' p]|]; [by rewrite Hc|done].
Qed.

(** An interface has one primary configuration. *)
Definition one_primary (l l1 : list (option NicIPConfig)) (c : option NicIPConfig)
    (l2 : list (option NicIPConfig)) : Prop :=
  l = l1 ++ c :: l2 /\ nic_primary c = true /\
  Forall (fun c => nic_primary c = false) l1 /\ Forall (fun c => nic_primary c = false) l2.

(** The primary configuration ends up in the pool; doing it again changes
    nothing. *)
Lemma ensurePools_settles l l1 c l2 l' m :
  one_primary l l1 c l2 -> ensurePools pool true l = (l', m) ->
  (exists c', one_primary l' l1 c' l2 /\ nic_in_pool pool c' = true) /\
  (m = false -> l' = l) /\ ensurePools pool true l' = (l', false).
Proof.
  intros (-> & Hc & Hl1 & Hl2) He. rewrite ensurePools_app in He by done. simpl in He.
  destruct (conf_props c) as [[c0 p]|] eqn:Hp; [|by unfold nic_primary in Hc; rewrite Hp in Hc].
  assert (Val (nip_Primary p) = true) as Hprim by (unfold nic_primary in Hc; by rewrite Hp in Hc).
  rewrite Hprim in He. destruct (has_pool pool p) eqn:Hpool; simpl in He;
    rewrite ensurePools_none in He by done; simplify_eq.
  - split_and!; [|done|].
    + exists c. unfold nic_in_pool. by rewrite Hp.
    + rewrite ensurePools_app by done. simpl. rewrite Hp, Hprim, Hpool. simpl.
      by rewrite ensurePools_none.
  - destruct c as [c|]; [|done]. simpl in Hp. destruct (nip_Properties c) eqn:Hn; simplify_eq.
    assert (nic_in_pool pool (Some (add_pool pool c0 p)) = true) as Hadd.
    { unfold nic_in_pool, has_pool. simpl. rewrite existsb_app. simpl. rewrite EqualFold_refl.
      by rewrite orb_true_r. }
    split_and!; [|done|].
    + exists (Some (add_pool pool c0 p)). by split_and!.
    + rewrite ensurePools_app by done. simpl. rewrite Hprim.
      unfold nic_in_pool in Hadd. simpl in Hadd. rewrite Hadd. simpl. by rewrite ensurePools_none.
Qed.
End pools.

Lemma filter_one {A} (q : A -> bool) l c :
  List.filter q l = [c] ->
  exists l1 l2, l = l1 ++ c :: l2 /\ q c = true /\ Forall (fun x => q x = false) l1 /\
    Forall (fun x => q x = false) l2.
Proof.
  induction l as [|x l IH]; simpl; [done|]. destruct (q x) eqn:Hx.
  - intros [= -> Hl]. exists [], l. split_and!; try done. clear -Hl.
    induction l as [|y l IH]; [done|]. simpl in Hl. destruct (q y) eqn:Hy; [done|]. by constructor; eauto.
  - intros Hl. destruct (IH Hl) as (l1 & l2 & -> & Hc & H1 & H2). exists (x :: l1), l2. by repeat constructor.
Qed.

Lemma differentNIC_refl c : differentNIC c c = false.
Proof.
  unfold differentNIC. apply differ_by_refl. intros p. unfold differentNICProps.
  rewrite eqb_reflx, String.eqb_refl, (differ_by_refl _ _ differentID_refl). simpl.
  apply differ_by_refl. intros pip. unfold differentPublicIP. rewrite String.eqb_refl. simpl.
  apply differ_by_refl. intros q. apply differ_by_refl, differentID_refl.
Qed.

Section plan_nic.
Context (name pool : string) (want : bool) (expected : NicIPConfig).
  Abbreviation none_named l := (Forall (fun c => nic_named name c = false) l).

(** The gateway has at most one configuration on the interface, and it is not
    the primary one. *)
Definition nic_ok (confs : list (option NicIPConfig)) : Prop :=
  (forall l1 c l2, confs = l1 ++ c :: l2 -> nic_named name c = true -> none_named l2) /\
  Forall (fun c => nic_named name c = true -> nic_primary c = false) confs.

(** The interface has the gateway's configuration as expected, or none. *)
Definition nic_as_wanted (confs : list (option NicIPConfig)) : Prop :=
  if want then
    exists l1 c l2, confs = l1 ++ c :: l2 /\ none_named l1 /\ nic_named name c = true /\
                    nic_differs expected c = false
  else none_named confs.

Lemma none_named_same l l' : Forall2 same_nic_conf l l' -> none_named l -> none_named l'.
Proof.
  induction 1 as [|c c' l l' Hc _ IH]; [done|]. rewrite !Forall_cons. intros [Hn Hl].
  split; [by rewrite (sn_named _ _ Hc)|by apply IH].
Qed.

Lemma nic_as_wanted_same l l' : Forall2 same_nic_conf l l' -> nic_as_wanted l -> nic_as_wanted l'.
Proof.
  unfold nic_as_wanted. destruct want; [|by intros ? ?; eapply none_named_same].
  intros Hs (l1 & c & l2 & -> & Hl1 & Hc & Hd).
  apply Forall2_app_inv_l in Hs as (k1 & k2' & Hk1 & Hk2 & ->).
  apply Forall2_cons_inv_l in Hk2 as (c' & k2 & Hcc & _ & ->).
  exists k1, c', k2. rewrite (sn_named _ _ Hcc), (sn_differs _ _ Hcc).
  split_and!; [done|by eapply none_named_same|done|done].
Qed.

Lemma sweep_fixed l : nic_as_wanted l -> sweepNicConfs name want expected l = (l, false, want).
Proof.
  unfold nic_as_wanted. destruct want eqn:Hw; [|by apply sweep_none].
  intros (l1 & c & l2 & -> & Hl1 & Hc & Hd). by apply sweep_kept.
Qed.

Lemma sweep_ok confs confs1 u f :
  nic_ok confs -> sweepNicConfs name want expected confs = (confs1, u, f) ->
  List.filter nic_primary confs1 = List.filter nic_primary confs /\
  ((f = false /\ none_named confs1 /\ (u = false -> confs1 = confs)) \/
   (f = true /\ u = false /\ confs1 = confs /\ want = true /\ nic_as_wanted confs)).
Proof.
  intros [Hone Hsec] Hs. destruct (find_index (nic_named name) confs) as [[i c]|] eqn:Hf.
  - apply find_index_Some in Hf as (l1 & l2 & -> & _ & Hc & Hl1).
    pose proof (Hone l1 c l2 eq_refl Hc) as Hl2. rewrite sweep_named in Hs by done.
    apply Forall_app in Hsec as [_ Hsec]. apply Forall_cons in Hsec as [Hsec _].
    destruct (negb want || nic_differs expected c) eqn:Hd; simplify_eq.
    + split; [by rewrite !List.filter_app; simpl; rewrite Hsec|]. left. split_and!; [done| |done].
      by apply Forall_app.
    + split; [done|]. right. apply orb_false_iff in Hd as [Hw%negb_false_iff Hd].
      split_and!; [done..|]. unfold nic_as_wanted. rewrite Hw. by exists l1, c, l2.
  - apply find_index_None in Hf. rewrite sweep_none in Hs by done. simplify_eq.
    split; [done|]. left. by split_and!.
Qed.
End plan_nic.

(** C16: the plan for the interface of a virtual machine in a gateway node pool. On
    an interface with one primary configuration and at most one configuration of
    the gateway, the plan leaves the gateway's configuration as expected (or, on
    deletion, none) and the primary configuration in the load balancer's backend
    pool; it asks for no update only if it changed nothing; and planning the
    result again asks for no update. *)
Theorem planNicConfs_settles name pool want expected confs c confs' needUpdate missingLB :
  nic_ok name confs -> List.filter nic_primary confs = [c] ->
  nic_named name (Some expected) = true -> nic_primary (Some expected) = false ->
  planNicConfs name pool want expected confs = (confs', needUpdate, missingLB) ->
  nic_as_wanted name want expected confs' /\
  (exists c', c' ∈ confs' /\ nic_primary c' = true /\ nic_in_pool pool c' = true) /\
  (needUpdate = false -> missingLB = false -> confs' = confs) /\
  planNicConfs name pool want expected confs' = (confs', false, false).
Proof.
  intros Hok Hprim He Hep Hplan. unfold planNicConfs in Hplan.
  destruct (sweepNicConfs name want expected confs) as [[confs1 u] f] eqn:Hs.
  destruct (sweep_ok _ _ _ _ _ _ _ Hok Hs) as [Hf Hcase].
  set (X := if want && negb f then confs1 ++ [Some expected] else confs1) in *.
  assert (List.filter nic_primary X = [c]) as HX.
  { unfold X. destruct (want && negb f); [|congruence]. rewrite List.filter_app. simpl.
    by rewrite Hep, app_nil_r, Hf. }
  assert (nic_as_wanted name want expected X) as Hwant.
  { unfold X. destruct Hcase as [(-> & Hn & _)|(-> & _ & -> & -> & ?)]; [|done].
    unfold nic_as_wanted. destruct want; simpl; [|done].
    exists confs1, (Some expected), []. split_and!; [done..|]. unfold nic_named in He. unfold nic_differs.
    destruct (conf_props (Some expected)) as [[e p]|] eqn:Hc; [|done]. simpl in Hc.
    destruct (nip_Properties expected); simplify_eq. apply differentNIC_refl. }
  apply filter_one in HX as (l1 & l2 & HX & Hc & Hl1 & Hl2).
  destruct (ensurePools pool true X) as [confs2 m] eqn:Hp. injection Hplan as <- <- <-.
  pose proof (ensurePools_same pool true X) as Hsame. rewrite Hp in Hsame. simpl in Hsame.
  apply (nic_as_wanted_same _ _ _ _ _ Hsame) in Hwant.
  destruct (ensurePools_settles pool X l1 c l2 confs2 m) as ((c' & (-> & Hc' & _) & Hpool) & Hm & Hagain);
    [by split_and!|done|].
  split_and!; [done| | |].
  - exists c'. split_and!; [set_solver|done..].
  - intros [-> Hadd]%orb_false_iff Hm0. rewrite (Hm Hm0). unfold X. rewrite Hadd.
    destruct Hcase as [(_ & _ & ?)|(_ & _ & ? & _)]; eauto.
  - unfold planNicConfs. rewrite (sweep_fixed _ _ _ _ Hwant), andb_negb_r.
    rewrite Hagain. done.
Qed.

(** An interface with its primary configuration, and the gateway's one. *)
Definition sample_nic_conf (name : string) (primary : bool) : NicIPConfig :=
  {| nip_Name := Some name;
     nip_Properties := Some
       {| nip_Primary := Some primary; nip_PrivateIPAddress := Some ("10.1." +:+ name);
          nip_PrivateIPAddressVersion := Some IPVersionIPv4;
          nip_Subnet := Some {| sub_ID := Some "/subnets/gateway" |};
          nip_PublicIPAddress := None; nip_LoadBalancerBackendAddressPools := [] |} |}.
Definition sample_expected : NicIPConfig :=
  agentpoolvms.expectedNicConf "egressgateway-uid" "/subnets/gateway" None.

Lemma planNicConfs_settles_witness :
  exists confs', planNicConfs "egressgateway-uid" "/pools/p" true sample_expected
                   [Some (sample_nic_conf "ipconfig1" true)] = (confs', true, true) /\
    nic_as_wanted "egressgateway-uid" true sample_expected confs' /\
    planNicConfs "egressgateway-uid" "/pools/p" true sample_expected confs' = (confs', false, false).
Proof.
  eexists. split; [vm_compute; reflexivity|].
  edestruct (planNicConfs_settles "egressgateway-uid" "/pools/p" true sample_expected
               [Some (sample_nic_conf "ipconfig1" true)] (Some (sample_nic_conf "ipconfig1" true)))
    as (Hw & _ & _ & Hagain).
  - split; [|by repeat constructor]. intros [|? [|]] c l2 [=]; subst; discriminate.
  - reflexivity.
  - reflexivity.
  - reflexivity.
  - vm_compute. reflexivity.
  - by split.
Defined.

(** On deletion, too, an interface that is not in the backend pool is put there:
    unlike on a scale set, the membership does not end with the last gateway. *)
Theorem deletion_joins_pool name pool expected c :
  nic_named name c = false -> nic_primary c = true -> nic_in_pool pool c = false ->
  exists c', planNicConfs name pool false expected [c] = ([c'], false, true) /\
             nic_in_pool pool c' = true.
Proof.
  intros Hn Hp Hnp. unfold planNicConfs. rewrite sweep_none by by constructor. simpl.
  unfold nic_primary in Hp. unfold nic_in_pool in Hnp.
  destruct (conf_props c) as [[c0 p]|] eqn:Hc; [|done]. rewrite Hp, Hnp. simpl. eexists. split; [done|].
  unfold nic_in_pool, has_pool. simpl. rewrite existsb_app. simpl. rewrite EqualFold_refl. by rewrite orb_true_r.
Qed.

(** ** Profiles *)

Lemma upsertProfile_names p l :
  NodeName <$> upsertProfile p l =
  if decide (NodeName p ∈ NodeName <$> l) then NodeName <$> l else (NodeName <$> l) ++ [NodeName p].
Proof.
  induction l as [|q l IH]; [done|]. rewrite fmap_cons. cbn [upsertProfile].
  destruct (String.eqb_spec (NodeName q) (NodeName p)) as [Heq|Hne]; rewrite fmap_cons; cbn [NodeName].
  - by rewrite decide_True by (rewrite <- Heq; left).
  - rewrite IH. repeat case_decide; set_solver.
Qed.

Lemma upsertProfile_NoDup p l : NoDup (NodeName <$> l) -> NoDup (NodeName <$> upsertProfile p l).
Proof.
  intros Hl. rewrite upsertProfile_names. destruct decide as [|Hn]; [done|].
  apply NoDup_app. split_and!; [done| |apply NoDup_singleton].
  intros x Hx ->%list_elem_of_singleton. done.
Qed.

Lemma upsertProfile_elem p l : p ∈ upsertProfile p l.
Proof.
  induction l as [|q l IH]; simpl; [set_solver|].
  destruct (String.eqb_spec (NodeName q) (NodeName p)) as [Heq|]; [|set_solver].
  rewrite Heq. destruct p. set_solver.
Qed.

Lemma upsertProfile_inv p q l : q ∈ upsertProfile p l -> q = p \/ q ∈ l.
Proof.
  induction l as [|r l IH]; simpl; [set_solver|].
  destruct (String.eqb_spec (NodeName r) (NodeName p)) as [Heq|].
  - intros [->|Hq]%elem_of_cons; [|set_solver]. left. rewrite Heq. by destruct p.
  - intros [->|Hq]%elem_of_cons; set_solver.
Qed.

Lemma upsertProfile_other p q l : NodeName q <> NodeName p -> q ∈ l -> q ∈ upsertProfile p l.
Proof.
  intros Hne. induction l as [|r l IH]; simpl; [set_solver|].
  destruct (String.eqb_spec (NodeName r) (NodeName p)); set_solver.
Qed.
