(* ===== verification/VMConfig.v ===== *)
(** * The gateway VM controller
      ([controllers/manager/gatewayvmconfiguration_controller.go])

    The reconciliation of a node pool's machines for a gateway: the lookup of the
    pool, the scale set and its instances, the public IP prefix, the status, the
    deletion, and the events of nodes that trigger it. *)

From stdpp Require Import base tactics list strings gmap.
From Stdlib Require Import ZArith Lia.
From S2P Require Import Prelude GoStrings Types Kube Config Azure Sim LBRules LBConfig VMNet PublicIP.
From S2P Require Import AgentPoolVMs.

Open Scope string_scope.
Open Scope list_scope.

Definition getVMSSResourceGroup (vmConfig : GatewayVMConfiguration) : string :=
  let rg := VmssResourceGroup (vmc_GatewayVmssProfile (vmc_Spec vmConfig)) in
  if negb (String.eqb rg "") then rg else "".

(** The addresses of an interface's configurations: the gateway's own is the
    secondary one. *)
Definition note_ips (ipConfigName : string) (ips : string * string) (c : option NicIPConfig) :
    string * string :=
  match conf_props c with
  | None => ips
  | Some (c, p) =>
      if EqualFold (Val (nip_Name c)) ipConfigName then (fst ips, Val (nip_PrivateIPAddress p))
      else if Val (nip_Primary p) then (Val (nip_PrivateIPAddress p), snd ips)
      else ips
  end.

(** ** Scale sets *)
Module vmss.
Section vmss.
Context {W : Type} `{Backoffs} `{AzureClients W} `{Store W GatewayVMConfiguration} (az : CloudConfig).

(** The first look at the addresses; whatever goes wrong ends it. *)
Fixpoint peekIPs (vmssRG vmssName instanceID ipConfigName : string) (nics : list VMSSNic)
    (ips : string * string) : M W (string * string) :=
  match nics with
  | [] => ret ips
  | nic :: rest =>
      if is_primary_nic nic then
        let! r := try (azmanager.GetVMSSInterface az vmssRG vmssName instanceID (Val (vnic_Name nic))) in
        match r with
        | inr {| nic_Properties := Some {| nic_IPConfigurations := Some confs |} |} =>
            peekIPs vmssRG vmssName instanceID ipConfigName rest
              (fold_left (note_ips ipConfigName) confs ips)
        | _ => ret ips
        end
      else peekIPs vmssRG vmssName instanceID ipConfigName rest ips
  end.

(** The addresses after an update; failures are reported. *)
Fixpoint readIPs (vmssRG vmssName instanceID ipConfigName : string) (nics : list VMSSNic)
    (ips : string * string) : M W (string * string) :=
  match nics with
  | [] => ret ips
  | nic :: rest =>
      if is_primary_nic nic then
        let place := "vmss(" +:+ vmssName +:+ ") instance(" +:+ instanceID +:+ ") nic("
                     +:+ Val (vnic_Name nic) +:+ ")" in
        let! vmNic := azmanager.GetVMSSInterface az vmssRG vmssName instanceID (Val (vnic_Name nic))
          ?: (wrap ("failed to get " +:+ place +:+ ": ")) in
        match nic_Properties vmNic with
        | Some {| nic_IPConfigurations := Some confs |} =>
            readIPs vmssRG vmssName instanceID ipConfigName rest
              (fold_left (note_ips ipConfigName) confs ips)
        | _ => throw (EText (place +:+ " has empty ip configurations"))
        end
      else readIPs vmssRG vmssName instanceID ipConfigName rest ips
  end.

Definition no_ips (ips : string * string) : bool := String.eqb (fst ips) "" || String.eqb (snd ips) "".

(** Returns the VM configuration with the instance's profile, and the secondary
    address. *)
Definition reconcileVMSSVM (vmConfig : GatewayVMConfiguration) (vmssName : string)
    (vm : VirtualMachineScaleSetVM) (ipPrefixID lbBackendpoolID : string) (wantIPConfig : bool) :
    M W (GatewayVMConfiguration * string) :=
  let ipConfigName := managedSubresourceName vmConfig in
  let vmssRG := getVMSSResourceGroup vmConfig in
  let id := Val (vmi_InstanceID vm) in
  match vmi_Properties vm with
  | Some {| vmi_ProvisioningState := state; vmi_OSProfile := osProfile;
            vmi_NetworkProfileConfiguration := Some interfaces |} =>
      match osProfile with
      | None => throw (EText ("vmss vm(" +:+ id +:+ ") has empty os profile"))
      | Some computerName =>
          let failed := match state with Some s => EqualFold s "Failed" | None => false end in
          let! ips :=
            if negb failed && wantIPConfig then
              peekIPs vmssRG vmssName id ipConfigName interfaces ("", "")
            else ret ("", "") in
          let forceUpdate := failed || (wantIPConfig && no_ips ips) in
          let! (interfaces, needUpdate) :=
            lift (reconcileVMSSNetworkInterface ipConfigName ipPrefixID lbBackendpoolID wantIPConfig interfaces)
              ?: (wrap ("failed to reconcile vm interface(" +:+ id +:+ "): ")) in
          let update := needUpdate || forceUpdate in
          do! (if update then
                 do! azmanager.UpdateVMSSInstance az vmssRG vmssName id
                       {| vmi_ID := None; vmi_InstanceID := None;
                          vmi_Properties := Some
                            {| vmi_ProvisioningState := None; vmi_OSProfile := None;
                               vmi_NetworkProfileConfiguration := Some interfaces |} |}
                       ?: (wrap ("failed to update vmss instance(" +:+ id +:+ "): "));
                 ret tt
               else ret tt);
          if negb wantIPConfig then ret (vmConfig, "")
          else
            let! ips :=
              if update || no_ips ips then
                readIPs vmssRG vmssName id ipConfigName interfaces ("", "")
              else ret ips in
            if no_ips ips then
              throw (EText ("failed to find private IP from vmss(" +:+ vmssName +:+ "), instance("
                            +:+ id +:+ "), ipConfig(" +:+ ipConfigName +:+ ")"))
            else
              ret (noteProfile vmConfig
                     {| NodeName := Val computerName; PrimaryIP := fst ips; SecondaryIP := snd ips |},
                   snd ips)
      end
  | _ => throw (EText ("vmss vm(" +:+ id +:+ ") has empty network profile"))
  end.

(** Some instance is the profile's node; the fields are dereferenced. *)
Fixpoint profileLive (profile : GatewayVMProfile) (instances : list VirtualMachineScaleSetVM) :
    outcome bool :=
  match instances with
  | [] => Ok false
  | instance :: rest =>
      let? p := deref (vmi_Properties instance) in
      let? computerName := deref (vmi_OSProfile p) in
      if String.eqb (NodeName profile) (Val computerName) then Ok true else profileLive profile rest
  end.

(** The profiles of nodes that still exist. *)
Fixpoint liveProfiles (instances : list VirtualMachineScaleSetVM) (profiles : list GatewayVMProfile) :
    outcome (list GatewayVMProfile) :=
  match profiles with
  | [] => Ok []
  | profile :: rest =>
      let? live := profileLive profile instances in
      let? rest' := liveProfiles instances rest in
      Ok (if (live : bool) then profile :: rest' else rest')
  end.

Definition cleanProfiles (instances : list VirtualMachineScaleSetVM) (vmConfig : GatewayVMConfiguration) :
    outcome GatewayVMConfiguration :=
  match vmc_Status vmConfig with
  | None => Ok vmConfig
  | Some s =>
      let? profiles := liveProfiles instances (vmc_GatewayVMProfiles s) in
      Ok (with_vmc_status vmConfig (Some
            {| vmc_EgressIpPrefix := vmc_EgressIpPrefix s; vmc_GatewayVMProfiles := profiles |}))
  end.

(** Returns the VM configuration as the API server left it, and the private
    addresses. *)
Definition reconcileVMSS (vmConfig : GatewayVMConfiguration) (vmss : VirtualMachineScaleSet)
    (ipPrefixID : string) (wantIPConfig : bool) : M W (GatewayVMConfiguration * list string) :=
  let ipConfigName := managedSubresourceName vmConfig in
  let vmssRG := getVMSSResourceGroup vmConfig in
  let name := Val (vmss_Name vmss) in
  match vmss_Properties vmss with
  | Some {| vmss_UniqueID := uid; vmss_VirtualMachineProfile := Some (Some interfaces) |} =>
      let lbBackendpoolID := Val (azmanager.GetLBBackendAddressPoolID az (Val uid)) in
      let! (interfaces, needUpdate) :=
        lift (reconcileVMSSNetworkInterface ipConfigName ipPrefixID lbBackendpoolID wantIPConfig interfaces)
          ?: (wrap ("failed to reconcile vmss interface(" +:+ name +:+ "): ")) in
      do! (if (needUpdate : bool) then
             do! azmanager.CreateOrUpdateVMSS az vmssRG name
                   {| vmss_Name := None; vmss_Location := vmss_Location vmss; vmss_Tags := ∅;
                      vmss_Properties := Some
                        {| vmss_UniqueID := None; vmss_VirtualMachineProfile := Some (Some interfaces) |} |}
                   ?: (wrap ("failed to update vmss(" +:+ name +:+ "): "));
             ret tt
           else ret tt);
      let! instances := azmanager.ListVMSSInstances az vmssRG name
        ?: (wrap ("failed to get vm instances from vmss(" +:+ name +:+ "): ")) in
      let! (vmConfig, privateIPs) :=
        foldM (fun '(vmConfig, privateIPs) instance =>
                 let! (vmConfig, privateIP) :=
                   reconcileVMSSVM vmConfig name instance ipPrefixID lbBackendpoolID wantIPConfig in
                 ret (vmConfig,
                      if wantIPConfig && String.eqb ipPrefixID "" then privateIPs ++ [privateIP]
                      else privateIPs))
          instances (vmConfig, []) in
      let! vmConfig := lift (cleanProfiles instances vmConfig) in
      let! vmConfig := kStatusUpdate vmConfig ?: (wrap "failed to update vm config status: ") in
      ret (vmConfig, privateIPs)
  | _ => throw (EText "vmss has empty network profile")
  end.
End vmss.
End vmss.

(** ** The controller *)
Module vmconfig.
Section vmconfig.
Context {W : Type} `{Backoffs} `{AzureClients W} `{ArmIDs} `{UUIDs}.
Context `{Store W GatewayVMConfiguration} `{Store W StaticGatewayConfiguration} `{Store W Node}.
Context `{Finalizers} `{Recorder W} `{Prometheus W} `{OsEnv} (az : CloudConfig).

(** [GatewayPool.Reconcile] of either implementation. *)
Definition poolReconcile (pool : GatewayPool) (vmConfig : GatewayVMConfiguration) (ipPrefixID : string)
    (wantIPConfig : bool) : M W (GatewayVMConfiguration * list string) :=
  match pool with
  | agentPoolVMSS vmss => vmss.reconcileVMSS az vmConfig vmss ipPrefixID wantIPConfig
  | agentPoolVMs name => agentpoolvms.Reconcile az name vmConfig ipPrefixID wantIPConfig
  end.

(** The prefix length of a node pool, from its tags. *)
Definition poolPrefixLength (tags : gmap string (option string)) : outcome Z :=
  match tags !! consts.AKSNodepoolIPPrefixSizeTagKey with
  | None => Err (EText "nodepool does not have IP prefix size")
  | Some prefixLenStr =>
      let bad := Err (EText ("failed to parse nodepool IP prefix size: " +:+ Val prefixLenStr)) in
      match Atoi (Val prefixLenStr) with
      | Some prefixLen => if (0 <? prefixLen)%Z && (prefixLen <=? int32_max)%Z then Ok prefixLen else bad
      | None => bad
      end
  end.

Definition loadPool (vmConfig : GatewayVMConfiguration) : M W (GatewayPool * Z) :=
  let poolName := vmc_GatewayNodepoolName (vmc_Spec vmConfig) in
  let profile := vmc_GatewayVmssProfile (vmc_Spec vmConfig) in
  if negb (String.eqb poolName "") then
    let! vmsList := azmanager.ListVMs az in
    match List.find (fun vm => tagged_pool poolName (vm_Tags vm)) vmsList with
    | Some vm =>
        let! prefixLen := lift (poolPrefixLength (vm_Tags vm)) in
        ret (agentPoolVMs poolName, prefixLen)
    | None =>
        let! vmssList := azmanager.ListVMSS az in
        match List.find (fun vmss => tagged_pool poolName (vmss_Tags vmss)) vmssList with
        | Some vmss =>
            let! prefixLen := lift (poolPrefixLength (vmss_Tags vmss)) in
            ret (agentPoolVMSS vmss, prefixLen)
        | None => throw (EText "gateway VMSS not found")
        end
    end
  else
    let! vmss := azmanager.GetVMSS az (VmssResourceGroup profile) (VmssName profile) in
    ret (agentPoolVMSS vmss, PublicIpPrefixSize profile).

Definition with_vmc_meta (v : GatewayVMConfiguration) (m : ObjectMeta) : GatewayVMConfiguration :=
  {| vmc_meta := m; vmc_Spec := vmc_Spec v; vmc_Status := vmc_Status v |}.

Definition metricsOf (operation : string) (vmConfig : GatewayVMConfiguration) : metrics.MetricsContext :=
  metrics.NewMetricsContext (Getenv consts.PodNamespaceEnvKey) operation (SubscriptionID az)
    (ResourceGroup az)
    (ToLower (om_namespace (vmc_meta vmConfig) +:+ "/" +:+ om_name (vmc_meta vmConfig))).

Definition ensureFinalizer (vmConfig : GatewayVMConfiguration) : M W GatewayVMConfiguration :=
  if ContainsFinalizer (vmc_meta vmConfig) consts.VMConfigFinalizerName then ret vmConfig
  else kUpdate (with_vmc_meta vmConfig
                  (AddFinalizer (vmc_meta vmConfig) consts.VMConfigFinalizerName)).

(** The egress prefix of the status: the public prefix, or the machines' private
    addresses. *)
Definition withEgress (vmConfig : GatewayVMConfiguration) (ipPrefix : string) (privateIPs : list string) :
    GatewayVMConfiguration :=
  let s := vmc_status_or_new (vmc_Status vmConfig) in
  with_vmc_status vmConfig (Some
    {| vmc_EgressIpPrefix :=
         if vmc_ProvisionPublicIps (vmc_Spec vmConfig) then ipPrefix else Join privateIPs ",";
       vmc_GatewayVMProfiles := vmc_GatewayVMProfiles s |}).

Definition updateStatus (existing vmConfig : GatewayVMConfiguration) : M W unit :=
  if decide (existing = vmConfig) then ret tt
  else do! try (kStatusUpdate vmConfig); ret tt.

Definition reconcile (vmConfig : GatewayVMConfiguration) : M W unit :=
  metrics.observed (metricsOf "reconcile_gateway_vm_configuration" vmConfig)
    (let! existing := ensureFinalizer vmConfig in
     let! (pool, ipPrefixLength) := loadPool existing in
     let! (ipPrefix, ipPrefixID, isManaged) := publicip.ensurePublicIPPrefix az ipPrefixLength existing in
     let! (vmConfig, privateIPs) := poolReconcile pool existing ipPrefixID true in
     do! (if isManaged then ret tt else publicip.ensurePublicIPPrefixDeleted az vmConfig);
     updateStatus existing (withEgress vmConfig ipPrefix privateIPs)).

(** The machines first, then the prefix, then the finalizer. *)
Definition ensureDeleted (vmConfig : GatewayVMConfiguration) : M W unit :=
  if negb (ContainsFinalizer (vmc_meta vmConfig) consts.VMConfigFinalizerName) then ret tt
  else
    metrics.observed (metricsOf "delete_gateway_vm_configuration" vmConfig)
      (let! (pool, _) := loadPool vmConfig in
       let! (vmConfig, _) := poolReconcile pool vmConfig "" false in
       do! publicip.ensurePublicIPPrefixDeleted az vmConfig;
       do! kUpdate (with_vmc_meta vmConfig
                      (RemoveFinalizer (vmc_meta vmConfig) consts.VMConfigFinalizerName));
       ret tt).

(** *** Node events *)

(** The VM configuration is reconciled for an event of this node: it is not being
    deleted, and the node is not known to be of another pool. *)
Definition concerns (node : Node) (vmConfig : GatewayVMConfiguration) : bool :=
  negb (deleting (vmc_meta vmConfig)) &&
  match om_labels (node_meta node) !! consts.AKSNodepoolNameLabel with
  | Some v =>
      let npName := vmc_GatewayNodepoolName (vmc_Spec vmConfig) in
      String.eqb npName "" || EqualFold v npName
  | None => true
  end.

(** [errors.Join(aggregateError, err)] *)
Definition join (aggregateError : option gerror) (err : gerror) : option gerror :=
  match aggregateError with
  | None => Some (EWrapped "" err "")
  | Some a => Some (EJoined a err)
  end.

Definition reconcileNodeEvent (req : NamespacedName) : M W unit :=
  let! r := try (kGet (Obj := Node) req) in
  match r with
  | inl err => if IsNotFound err then ret tt else throw err
  | inr node =>
      let! vmConfigs := kList (Obj := GatewayVMConfiguration) in
      let! aggregateError :=
        foldM (fun aggregateError vmConfig =>
                 if negb (concerns node vmConfig) then ret aggregateError
                 else
                   let! r := try (reconcile vmConfig) in
                   match r with
                   | inl err => ret (join aggregateError err)
                   | inr _ => ret aggregateError
                   end)
          vmConfigs None in
      fail_with aggregateError tt
  end.

Definition Reconcile (req : NamespacedName) : M W unit :=
  if String.eqb (nn_namespace req) "" && negb (String.eqb (nn_name req) "") then reconcileNodeEvent req
  else
    let! r := try (kGet (Obj := GatewayVMConfiguration) req) in
    match r with
    | inl err => if IsNotFound err then ret tt else throw err
    | inr vmConfig =>
        let! gwConfig := kGet (Obj := StaticGatewayConfiguration) req in
        let gwKey := om_key (sgc_meta gwConfig) in
        if deleting (vmc_meta vmConfig) then
          reportEvents gwKey "EnsureDeleteGatewayVMConfigurationError" None (ensureDeleted vmConfig)
        else
          reportEvents gwKey "ReconcileGatewayVMConfigurationError"
            (Some ("ReconcileGatewayVMConfigurationSuccess", "GatewayVMConfiguration reconciled"))
            (reconcile vmConfig)
    end.
End vmconfig.

(** ** The node predicate *)

(** [range m] visits a map in any order; the answer does not depend on it. *)
Definition ifLabelMatch (labels : gmap string string) (m : list (string * string)) : bool :=
  match m with
  | [] => true
  | _ =>
      existsb (fun '(labelKey, labelValue) =>
        String.eqb labelKey "" ||
        match labels !! labelKey with
        | Some v => String.eqb labelValue "" || EqualFold v labelValue
        | None => false
        end) m
  end.

Inductive eventKind := CreateEvent | UpdateEvent | DeleteEvent | GenericEvent.

Definition resourceHasFilterLabel (m : list (string * string)) (e : eventKind)
    (labels : gmap string string) : bool :=
  match e with
  | UpdateEvent | GenericEvent => false
  | CreateEvent | DeleteEvent => ifLabelMatch labels m
  end.
End vmconfig.

(** ** The profiles of a scale set's instances *)

Definition profiles_of (vmConfig : GatewayVMConfiguration) : list GatewayVMProfile :=
  vmc_GatewayVMProfiles (vmc_status_or_new (vmc_Status vmConfig)).

(** The name of the instance's node, when the instance has an OS profile. *)
Definition node_of (vm : VirtualMachineScaleSetVM) : option string :=
  match vmi_Properties vm with
  | Some p => match vmi_OSProfile p with Some cn => Some (Val cn) | None => None end
  | None => None
  end.

(** Both addresses are known. *)
Definition has_ips (p : GatewayVMProfile) : Prop := PrimaryIP p <> "" /\ SecondaryIP p <> "".

Lemma no_ips_false ips : vmss.no_ips ips = false -> fst ips <> "" /\ snd ips <> "".
Proof. unfold vmss.no_ips. intros [H1 H2]%orb_false_iff. by apply String.eqb_neq in H1, H2. Qed.

Section vmss_facts.
Context {W : Type} `{Backoffs} `{AzureClients W} (az : CloudConfig).
Implicit Types (vmConfig : GatewayVMConfiguration) (w : W).

(** An instance that is reconciled for a gateway has its addresses noted. *)
Lemma reconcileVMSSVM_noted vmConfig name vm prefix pool w vmConfig' ip w' :
  vmss.reconcileVMSSVM az vmConfig name vm prefix pool true w = (Ok (vmConfig', ip), w') ->
  exists profile, node_of vm = Some (NodeName profile) /\ has_ips profile /\
    ip = SecondaryIP profile /\ vmConfig' = noteProfile vmConfig profile.
Proof.
  unfold vmss.reconcileVMSSVM, node_of. intros Hr.
  destruct (vmi_Properties vm) as [[state [cn|] [nics|]]|]; [|by go_inv..].
  apply bind_Ok_inv in Hr as (ips & w1 & _ & Hr).
  apply bind_Ok_inv in Hr as ([nics' upd] & w2 & _ & Hr).
  apply bind_Ok_inv in Hr as ([] & w3 & _ & Hr). cbn [negb] in Hr.
  apply bind_Ok_inv in Hr as (ips' & w4 & _ & Hr).
  destruct (vmss.no_ips ips') eqn:Hips; [go_inv|]. injection Hr as <- <- _.
  apply no_ips_false in Hips. eexists. split; [|split; [|split; [|reflexivity]]]; done.
Qed.

Lemma profileLive_known profile instances :
  Forall (fun vm => is_Some (node_of vm)) instances ->
  vmss.profileLive profile instances =
  Ok (existsb (fun vm => match node_of vm with
                         | Some n => String.eqb (NodeName profile) n | None => false end) instances).
Proof.
  induction 1 as [|vm vms [n Hn] _ IH]; simpl; [done|]. rewrite Hn. unfold node_of in Hn.
  destruct (vmi_Properties vm) as [p|]; [|done]. simpl.
  destruct (vmi_OSProfile p) as [cn|]; [|done]. simplify_eq/=.
  destruct (String.eqb (NodeName profile) (Val cn)); [done|exact IH].
Qed.

(** When every instance is known, the profiles kept are those of the instances. *)
Lemma liveProfiles_known instances profiles :
  Forall (fun vm => is_Some (node_of vm)) instances ->
  exists profiles', vmss.liveProfiles instances profiles = Ok profiles' /\
    sublist profiles' profiles /\
    forall q, q ∈ profiles' <-> q ∈ profiles /\ exists vm, vm ∈ instances /\ node_of vm = Some (NodeName q).
Proof.
  intros Hk. induction profiles as [|q profiles (qs & IH & Hsub & Hq)]; simpl.
  { exists []. split_and!; [done..|]. set_solver. }
  rewrite (profileLive_known q _ Hk), IH. simpl.
  set (live := existsb _ instances).
  assert (live = true <-> exists vm, vm ∈ instances /\ node_of vm = Some (NodeName q)) as Hlive.
  { unfold live. rewrite existsb_true_elem. split; intros (vm & Hin & Hn); exists vm; (split; [done|]).
    - destruct (node_of vm); [|done]. apply String.eqb_eq in Hn. congruence.
    - by rewrite Hn, String.eqb_refl. }
  exists (if live then q :: qs else qs). split_and!; [done|by destruct live; constructor|].
  intros r. destruct live.
  - rewrite !elem_of_cons, Hq. split; [|naive_solver]. intros [->|?]; [|naive_solver].
    split; [by left|]. by apply Hlive.
  - rewrite Hq, elem_of_cons. split; [naive_solver|]. intros [[->|?] Hvm]; [|naive_solver].
    apply Hlive in Hvm. done.
Qed.

(** The state of the loop over the instances. *)
Record noted (done : list VirtualMachineScaleSetVM) vmConfig : Prop := {
    nt_known : Forall (fun vm => is_Some (node_of vm)) done;
    nt_unique : NoDup (NodeName <$> profiles_of vmConfig);
    nt_there : forall vm n, vm ∈ done -> node_of vm = Some n -> n ∈ NodeName <$> profiles_of vmConfig;
    nt_ips : forall q vm, q ∈ profiles_of vmConfig -> vm ∈ done -> node_of vm = Some (NodeName q) -> has_ips q;
  }.

Lemma noted_step done vm vmConfig profile :
  noted done vmConfig -> node_of vm = Some (NodeName profile) -> has_ips profile ->
  noted (done ++ [vm]) (noteProfile vmConfig profile).
Proof.
  intros [Hk Hu Ht Hi] Hn Hp.
  assert (profiles_of (noteProfile vmConfig profile) = upsertProfile profile (profiles_of vmConfig)) as Heq
    by done.
  assert (forall n, n ∈ NodeName <$> upsertProfile profile (profiles_of vmConfig) <->
    n ∈ NodeName <$> profiles_of vmConfig \/ n = NodeName profile) as Hnames.
  { intros n. rewrite upsertProfile_names. case_decide; set_solver. }
  split; rewrite ?Heq.
  - apply Forall_app. split; [done|]. by constructor; [rewrite Hn|].
  - by apply upsertProfile_NoDup.
  - intros vm' n [Hin| ->%list_elem_of_singleton]%elem_of_app Hvm; rewrite Hnames; [left; by eapply Ht|].
    right. congruence.
  - intros q vm' Hq Hin Hvm. destruct (decide (NodeName q = NodeName profile)) as [Hsame|Hne].
    + assert (q = profile) as ->; [|done].
      pose proof (upsertProfile_NoDup profile _ Hu) as Hnd.
      apply list_elem_of_lookup in Hq as [i Hq].
      destruct (proj1 (list_elem_of_lookup _ _) (upsertProfile_elem profile (profiles_of vmConfig))) as [j Hj].
      assert (i = j) as ->; [|congruence].
      eapply NoDup_lookup; [exact Hnd|by rewrite list_lookup_fmap, Hq|].
      by rewrite list_lookup_fmap, Hj, Hsame.
    + apply upsertProfile_inv in Hq as [->|Hq]; [done|].
      apply elem_of_app in Hin as [Hin| ->%list_elem_of_singleton]; [by eapply Hi|congruence].
Qed.
End vmss_facts.

(** C15: reconciling a scale set for a gateway leaves exactly one profile per node.
    If the node names of the VM configuration's profiles were distinct before, then
    the status that is written has distinct node names, they are the names of the
    scale set's current instances (no node is missing, no deleted node is left),
    and every profile has both its addresses. *)
Theorem reconcileVMSS_profiles {W} `{Backoffs} `{AzureClients W} `{Store W GatewayVMConfiguration} az
    vmConfig vmss prefix w vmConfig' ips w' :
  NoDup (NodeName <$> profiles_of vmConfig) ->
  vmss.reconcileVMSS az vmConfig vmss prefix true w = (Ok (vmConfig', ips), w') ->
  exists instances w1 w2 written w3,
    azmanager.ListVMSSInstances az (getVMSSResourceGroup vmConfig) (Val (vmss_Name vmss)) w1 =
      (Ok instances, w2) /\
    kStatusUpdate written w3 = (Ok vmConfig', w') /\
    NoDup (NodeName <$> profiles_of written) /\
    (forall n, n ∈ NodeName <$> profiles_of written <->
       exists vm, vm ∈ instances /\ node_of vm = Some n) /\
    Forall has_ips (profiles_of written).
Proof.
  intros Hnd Hr. unfold vmss.reconcileVMSS in Hr.
  destruct (vmss_Properties vmss) as [[uid [[nics|]|]]|]; [|by go_inv..].
  apply bind_Ok_inv in Hr as ([nics' upd] & w0 & _ & Hr).
  apply bind_Ok_inv in Hr as ([] & w1 & _ & Hr).
  apply bind_Ok_inv in Hr as (instances & w2 & Hlist%on_err_Ok_inv & Hr).
  apply bind_Ok_inv in Hr as ([v1 ips1] & w3 & Hfold & Hr).
  apply bind_Ok_inv in Hr as (written & w4 & [= Hclean ->] & Hr).
  apply bind_Ok_inv in Hr as (v3 & w5 & Hup%on_err_Ok_inv & [= -> _ ->]).
  exists instances, w1, w2, written, w4. split; [done|]. split; [done|].
  assert (noted instances v1) as Hnoted.
  { refine (foldM_Ok_ind _ (fun done b => noted done b.1) _ _ _ _ _ _ _ Hfold).
    - split; [constructor|done|set_solver|set_solver].
    - intros done vm [v l] [v' l'] w6 w7 Hn Hstep. simpl in *.
      apply bind_Ok_inv in Hstep as ([v2 ip] & w8 & Hvm & [= -> _ _]).
      apply reconcileVMSSVM_noted in Hvm as (profile & Hnode & Hips & _ & ->).
      by apply noted_step. }
  destruct Hnoted as [Hk Hu Ht Hi]. unfold vmss.cleanProfiles in Hclean.
  destruct (vmc_Status v1) as [s|] eqn:Hs.
  - destruct (liveProfiles_known instances (vmc_GatewayVMProfiles s) Hk) as (qs & Hqs & Hsub & Hq).
    rewrite Hqs in Hclean. simpl in Hclean. injection Hclean as <-.
    unfold profiles_of in Hu, Ht, Hi. rewrite Hs in Hu, Ht, Hi. simpl in Hu, Ht, Hi.
    split_and!.
    + eapply sublist_NoDup; [exact Hu|]. by apply fmap_sublist.
    + intros n. unfold profiles_of. simpl. rewrite list_elem_of_fmap. split.
      * intros (q & -> & [_ Hvm]%Hq). done.
      * intros (vm & Hin & Hn). destruct (proj1 (list_elem_of_fmap _ _ _) (Ht vm n Hin Hn)) as (q & -> & Hqin).
        exists q. split; [done|]. apply Hq. split; [done|]. by exists vm.
    + apply Forall_forall. intros q [Hin (vm & Hvm & Hn)]%Hq. by eapply Hi.
  - injection Hclean as <-. unfold profiles_of in *. rewrite Hs in *. simpl in *.
    assert (instances = []) as ->.
    { destruct instances as [|vm vms]; [done|]. apply Forall_cons in Hk as [[n Hn] _].
      specialize (Ht vm n ltac:(left) Hn). by apply not_elem_of_nil in Ht. }
    split_and!; [constructor| |constructor]. intros n. split; [set_solver|].
    intros (vm & Hin & _). by apply not_elem_of_nil in Hin.
Qed.

Section vm_keeps.
Context {W : Type} `{BackoffLaws} `{AzureClients W} `{ArmIDs} `{UUIDs} `{Store W GatewayVMConfiguration}.
Context (az : CloudConfig) (P : W -> Prop) `{!AzureKeeps P}.
Hypothesis P_status : forall v, keeps P (kStatusUpdate (Obj := GatewayVMConfiguration) v).

Lemma keeps_peekIPs rg n i c nics ips : keeps P (vmss.peekIPs az rg n i c nics ips).
Proof. revert ips. induction nics as [|nic nics IH]; intros ips; simpl; keeps_tac; apply IH. Qed.

Lemma keeps_readIPs rg n i c nics ips : keeps P (vmss.readIPs az rg n i c nics ips).
Proof. revert ips. induction nics as [|nic nics IH]; intros ips; simpl; keeps_tac; apply IH. Qed.
Hint Resolve keeps_peekIPs keeps_readIPs P_status : keeps.

Lemma keeps_poolReconcile pool vmConfig prefix want :
  keeps P (vmconfig.poolReconcile az pool vmConfig prefix want).
Proof.
  unfold vmconfig.poolReconcile, vmss.reconcileVMSS, vmss.reconcileVMSSVM, agentpoolvms.Reconcile,
    agentpoolvms.reconcileNIC. keeps_tac.
Qed.

Lemma keeps_loadPool vmConfig : keeps P (vmconfig.loadPool az vmConfig).
Proof. unfold vmconfig.loadPool. keeps_tac. Qed.

Lemma keeps_ensurePublicIPPrefixDeleted vmConfig :
  keeps P (publicip.ensurePublicIPPrefixDeleted az vmConfig).
Proof. unfold publicip.ensurePublicIPPrefixDeleted, publicip.deletePrefixIP. keeps_tac. Qed.
End vm_keeps.

(** C19: the finalizer of a VM configuration is dropped last. Let [P] be a property
    of the cluster that neither Azure, nor status updates, nor the metrics can
    change. If [ensureDeleted] falsifies [P], then the gateway's IP configurations
    were removed from the node pool's machines without an error, and after that the
    managed public IP prefix was removed without an error. *)
Theorem vm_finalizer_last {W} `{BackoffLaws} `{AzureClients W} `{ArmIDs} `{UUIDs}
    `{Store W GatewayVMConfiguration} `{Finalizers} `{Prometheus W} `{OsEnv} az (P : W -> Prop) vmConfig w r w' :
  AzureKeeps P -> (forall v, keeps P (kStatusUpdate (Obj := GatewayVMConfiguration) v)) ->
  (forall mc b w, P w -> P (metrics.ObserveControllerReconcileMetrics mc b w)) ->
  vmconfig.ensureDeleted az vmConfig w = (r, w') -> P w -> ~ P w' ->
  exists pool w1 v w2 w3,
    vmconfig.poolReconcile az pool vmConfig "" false w1 = (Ok v, w2) /\
    publicip.ensurePublicIPPrefixDeleted az (fst v) w2 = (Ok tt, w3) /\ P w3.
Proof.
  intros Haz Hst Hmet Hrun HP HnP. unfold vmconfig.ensureDeleted in Hrun.
  destruct (negb _); [go_done|]. apply defer_inv in Hrun as (w1 & Hrun & ->).
  assert (~ P w1) as HnP1 by eauto. clear HnP.
  pose proof (keeps_loadPool az P vmConfig w HP) as Hload. unfold bind at 1 in Hrun.
  destruct (vmconfig.loadPool az vmConfig w) as [[[pool len]|e|] w2]; [|go_done..]. simpl in Hload.
  pose proof (keeps_poolReconcile az P Hst pool vmConfig "" false w2 Hload) as Hpool. unfold bind at 1 in Hrun.
  destruct (vmconfig.poolReconcile az pool vmConfig "" false w2) as [[[v ips]|e|] w3] eqn:Hpr; [|go_done..].
  simpl in Hpool.
  pose proof (keeps_ensurePublicIPPrefixDeleted az P v w3 Hpool) as Hdel. unfold bind at 1 in Hrun.
  destruct (publicip.ensurePublicIPPrefixDeleted az v w3) as [[[]|e|] w4] eqn:Hpd; [|go_done..].
  by exists pool, w2, (v, ips), w3, w4.
Qed.

(** ** Runs *)

Import DirectBackoff ListMeta.

#[export] Instance sim_arm_ids : ArmIDs := fun id => inr id.

Definition vm_vmss : VirtualMachineScaleSet :=
  {| vmss_Name := Some "vmss"; vmss_Location := Some "westus"; vmss_Tags := ∅;
     vmss_Properties := Some
       {| vmss_UniqueID := Some "vmss-uid";
          vmss_VirtualMachineProfile := Some (Some [sample_nic [sample_conf []]]) |} |}.
Definition vm_instance (i node : string) : VirtualMachineScaleSetVM :=
  {| vmi_ID := None; vmi_InstanceID := Some i;
     vmi_Properties := Some
       {| vmi_ProvisioningState := Some "Succeeded"; vmi_OSProfile := Some (Some node);
          vmi_NetworkProfileConfiguration := Some [sample_nic [sample_conf []]] |} |}.
Definition gone_profile : GatewayVMProfile :=
  {| NodeName := "node-gone"; PrimaryIP := "10.1.0.1"; SecondaryIP := "10.1.0.2" |}.
Definition sample_vmc (prefix : string) (deletion : option Z) : GatewayVMConfiguration :=
  {| vmc_meta := {| om_name := "gw1"; om_namespace := "ns"; om_uid := "uid"; om_deletion := deletion;
                    om_finalizers := [consts.VMConfigFinalizerName]; om_owners := []; om_labels := ∅ |};
     vmc_Spec := {| vmc_GatewayNodepoolName := "";
                    vmc_GatewayVmssProfile :=
                      {| VmssResourceGroup := "rg"; VmssName := "vmss"; PublicIpPrefixSize := 31 |};
                    vmc_ProvisionPublicIps := true; vmc_PublicIpPrefixId := prefix |};
     vmc_Status := Some {| vmc_EgressIpPrefix := ""; vmc_GatewayVMProfiles := [gone_profile] |} |}.
Definition user_prefix : PublicIPPrefix :=
  {| px_ID := Some "/prefixes/user"; px_Name := Some "user"; px_Location := None; px_SKU := None;
     px_Properties := Some {| px_PrefixLength := Some 31%Z; px_IPPrefix := Some "1.2.3.4/31";
                              px_PublicIPAddressVersion := None; px_PublicIPAddresses := [] |} |}.
Definition vm_world (v : GatewayVMConfiguration) : World :=
  put_vmcs {[ nn "ns" "gw1" := v ]}
    (set_prefixes {[ "user" := user_prefix ]}
       (set_instances {[ ("vmss", "0") := vm_instance "0" "node-0"; ("vmss", "1") := vm_instance "1" "node-1" ]}
          (set_vmss {[ "vmss" := vm_vmss ]} empty_world))).
Definition user_vmc : GatewayVMConfiguration := sample_vmc (prefixID "sub" "rg" "user") None.

Lemma user_prefix_used_witness :
  publicip.ensurePublicIPPrefix sim_az 31 user_vmc (vm_world user_vmc) =
    (Ok ("1.2.3.4/31", "/prefixes/user", false), vm_world user_vmc).
Proof.
  apply (user_prefix_used sim_az 31 user_vmc "sub" "rg" "user" (vm_world user_vmc)).
  - by split.
  - by split.
  - by split.
  - reflexivity.
  - reflexivity.
  - split; [reflexivity|]. split; [reflexivity|]. eexists user_prefix, _.
    split; [vm_compute; reflexivity|]. by split.
Defined.

(** The deleted node's profile goes, the two instances get theirs. *)
Definition vmss_run : outcome (GatewayVMConfiguration * list string) * World :=
  vmss.reconcileVMSS sim_az user_vmc vm_vmss "/prefixes/user" true (vm_world user_vmc).

Example vmss_run_profiles :
  match vmss_run with
  | (Ok (v, _), w) =>
      NodeName <$> profiles_of v = ["node-1"; "node-0"] /\ w_vmcs w !! nn "ns" "gw1" = Some v
  | _ => False
  end.
Proof. vm_compute. split; reflexivity. Qed.

Definition run_value {W A} (d : A) (r : outcome A * W) : A :=
  match r with (Ok a, _) => a | _ => d end.

Lemma reconcileVMSS_profiles_witness :
  exists instances w1 w2 written w3,
    azmanager.ListVMSSInstances sim_az "rg" "vmss" w1 = (Ok instances, w2) /\
    kStatusUpdate written w3 = (Ok (run_value (user_vmc, []) vmss_run).1, snd vmss_run) /\
    NoDup (NodeName <$> profiles_of written) /\
    (forall n, n ∈ NodeName <$> profiles_of written <-> exists vm, vm ∈ instances /\ node_of vm = Some n) /\
    Forall has_ips (profiles_of written).
Proof.
  apply (reconcileVMSS_profiles sim_az user_vmc vm_vmss "/prefixes/user" (vm_world user_vmc)
           (run_value (user_vmc, []) vmss_run).1 (run_value (user_vmc, []) vmss_run).2 (snd vmss_run)).
  - apply NoDup_singleton.
  - vm_compute. reflexivity.
Defined.

(** Azure's calls touch nothing of the API server. *)
Lemma azure_keeps_objects (P : World -> Prop) :
  (forall w lb vmss inst nics px pips, P w -> P (put_azure lb vmss inst nics px pips w)) -> AzureKeeps P.
Proof.
  intros HP. split; intros; intros w Hw; simpl; unfold lookup_or, azure_404, throw, ret;
    repeat (case_match; simpl); try exact Hw; by apply HP.
Qed.

Definition deleted_vmc : GatewayVMConfiguration := sample_vmc "" (Some 0%Z).

Lemma vm_finalizer_last_witness :
  exists pool w1 v w2 w3,
    vmconfig.poolReconcile sim_az pool deleted_vmc "" false w1 = (Ok v, w2) /\
    publicip.ensurePublicIPPrefixDeleted sim_az (fst v) w2 = (Ok tt, w3) /\
    has (om_finalizers (vmc_meta deleted_vmc)) consts.VMConfigFinalizerName = true.
Proof.
  destruct (vm_finalizer_last sim_az
              (fun w => match w_vmcs w !! nn "ns" "gw1" with Some _ => True | None => False end)
              deleted_vmc (vm_world deleted_vmc) (Ok tt)
              (snd (vmconfig.ensureDeleted sim_az deleted_vmc (vm_world deleted_vmc))))
    as (pool & w1 & v & w2 & w3 & H1 & H2 & _).
  - apply azure_keeps_objects. done.
  - intros v w Hw. simpl. unfold bind, fetch, not_found, throw, save.
    destruct (w_vmcs w !! om_key (vmc_meta v)) as [old|] eqn:Hv; simpl; [|exact Hw].
    destruct (decide (om_key (vmc_meta old) = om_key (vmc_meta v))); [|exact Hw]. simpl.
    destruct (decide (om_key (vmc_meta old) = nn "ns" "gw1")) as [Hk|Hk].
    + by rewrite Hk, lookup_insert_eq.
    + by rewrite lookup_insert_ne.
  - intros mc [] w Hw; exact Hw.
  - vm_compute. reflexivity.
  - vm_compute. exact I.
  - vm_compute. intros [].
  - exists pool, w1, v, w2, w3. by split_and!.
Defined.
