(* ===== verification/ManagerSGC.v ===== *)
(** * The gateway configuration controller of the manager
      ([controllers/manager/staticgatewayconfiguration_controller.go])

    Validation of a [StaticGatewayConfiguration], its WireGuard key pair in a
    secret, its [GatewayLBConfiguration], its status, and its deletion. *)

From stdpp Require Import base tactics list strings gmap.
From Stdlib Require Import ZArith Lia.
From S2P Require Import Prelude GoStrings Types Kube Config Azure Sim.

Open Scope string_scope.
Open Scope list_scope.

(** The message of [apierrors.NewInvalid(kind, name, errs)], from the field paths
    and details. *)
Class ApiErrors := InvalidMessage : string -> list (string * string) -> string.

(** [wgtypes.GeneratePrivateKey] and [Key.PublicKey] of wgctrl, on the text form of
    keys. *)
Class WgKeys (W : Type) := {
  GeneratePrivateKey : M W string;
  PublicKeyOf : string -> string;
}.

(** ** Validation *)

Definition vmssProfileIsEmpty (gwConfig : StaticGatewayConfiguration) : bool :=
  let p := sgc_GatewayVmssProfile (sgc_Spec gwConfig) in
  String.eqb (VmssResourceGroup p) "" && String.eqb (VmssName p) "" && (PublicIpPrefixSize p =? 0)%Z.

(** The errors, as field path and detail. *)
Definition validationErrors (gwConfig : StaticGatewayConfiguration) : list (string * string) :=
  let spec := sgc_Spec gwConfig in
  let p := sgc_GatewayVmssProfile spec in
  let noPool := String.eqb (sgc_GatewayNodepoolName spec) "" in
  let noProfile := vmssProfileIsEmpty gwConfig in
  (if noPool && noProfile then
     [("spec.gatewaynodepoolname", "Either GatewayNodepoolName or GatewayVmssProfile must be provided")]
   else [])
  ++ (if negb noPool && negb noProfile then
        [("spec.gatewaynodepoolname",
          "Only one of GatewayNodepoolName and GatewayVmssProfile should be provided")]
      else [])
  ++ (if negb noProfile then
        (if String.eqb (VmssResourceGroup p) "" then
           [("spec.gatewayvmssprofile.vmssresourcegroup", "Gateway vmss resource group is empty")] else [])
        ++ (if String.eqb (VmssName p) "" then
              [("spec.gatewayvmssprofile.vmssname", "Gateway vmss name is empty")] else [])
        ++ (if (PublicIpPrefixSize p <? 0)%Z || (31 <? PublicIpPrefixSize p)%Z then
              [("spec.gatewayvmssprofile.publicipprefixsize",
                "Gateway vmss public ip prefix size should be between 0 and 31 inclusively")] else [])
      else [])
  ++ (if negb (sgc_ProvisionPublicIps spec) && negb (String.eqb (sgc_PublicIpPrefixId spec) "") then
        [("spec.publicipprefixid", "PublicIpPrefixId should be empty when ProvisionPublicIps is false")]
      else []).

Definition validate `{ApiErrors} (gwConfig : StaticGatewayConfiguration) : option gerror :=
  match validationErrors gwConfig with
  | [] => None
  | allErrs => Some (EStatus "Invalid" (InvalidMessage (om_name (sgc_meta gwConfig)) allErrs))
  end.

(** ** Events of secrets *)

Inductive secretEvent := SecretCreated | SecretUpdated | SecretDeleted | SecretGeneric.

(** [secretPredicate]: on an update the old object's namespace is compared. *)
Definition secretPredicate (SecretNamespace : string) (e : secretEvent) (namespace : string) : bool :=
  match e with
  | SecretCreated | SecretGeneric => false
  | SecretUpdated | SecretDeleted => EqualFold namespace SecretNamespace
  end.

Definition enqueueOwningSGCFromLabels (labels : gmap string string) : list NamespacedName :=
  match labels !! consts.OwningSGCNamespaceLabel, labels !! consts.OwningSGCNameLabel with
  | Some ns, Some name => [nn ns name]
  | _, _ => []
  end.

(** ** Updates of the objects *)

Definition with_sgc_status (g : StaticGatewayConfiguration) (s : StaticGatewayConfigurationStatus) :
    StaticGatewayConfiguration :=
  {| sgc_meta := sgc_meta g; sgc_Spec := sgc_Spec g; sgc_Status := s |}.
Definition with_sgc_meta (g : StaticGatewayConfiguration) (m : ObjectMeta) : StaticGatewayConfiguration :=
  {| sgc_meta := m; sgc_Spec := sgc_Spec g; sgc_Status := sgc_Status g |}.
Definition with_labels (m : ObjectMeta) (l : gmap string string) : ObjectMeta :=
  {| om_name := om_name m; om_namespace := om_namespace m; om_uid := om_uid m;
     om_deletion := om_deletion m; om_finalizers := om_finalizers m; om_owners := om_owners m;
     om_labels := l |}.

(** The owner labels of a secret. *)
Definition ownerLabels (gwConfig : StaticGatewayConfiguration) (labels : gmap string string) :
    gmap string string :=
  <[consts.OwningSGCNameLabel := om_name (sgc_meta gwConfig)]>
    (<[consts.OwningSGCNamespaceLabel := om_namespace (sgc_meta gwConfig)]> labels).

Module sgc.
Section sgc.
Context {W : Type} `{ApiErrors} `{WgKeys W} `{Finalizers} `{OwnerRefs} `{Recorder W} `{Prometheus W} `{OsEnv}.
Context `{Store W StaticGatewayConfiguration} `{Store W GatewayLBConfiguration} `{Store W Secret}.
Context (SecretNamespace : string).

(** *** The key pair *)

Definition secretName (gwConfig : StaticGatewayConfiguration) : string :=
  "sgw-" +:+ om_uid (sgc_meta gwConfig).

Definition newSecret (gwConfig : StaticGatewayConfiguration) : Secret :=
  {| sec_meta := new_meta (secretName gwConfig) SecretNamespace; sec_Data := ∅ |}.

(** The function given to [CreateOrUpdate]: a key pair is generated only when there
    is no private key. *)
Definition mutateSecret (gwConfig : StaticGatewayConfiguration) (secret : Secret) :
    M W (Secret * option gerror) :=
  let labelled (data : gmap string string) : Secret :=
    {| sec_meta := with_labels (sec_meta secret) (ownerLabels gwConfig (om_labels (sec_meta secret)));
       sec_Data := data |} in
  match sec_Data secret !! consts.WireguardPrivateKeyName with
  | Some _ => ret (labelled (sec_Data secret), None)
  | None =>
      let! r := try GeneratePrivateKey in
      match r with
      | inl err => ret (labelled (sec_Data secret), Some err)
      | inr wgPrivateKey =>
          ret (labelled (<[consts.WireguardPublicKeyName := PublicKeyOf wgPrivateKey]>
                           (<[consts.WireguardPrivateKeyName := wgPrivateKey]> (sec_Data secret))), None)
      end
  end.

(** Returns the configuration with the key's reference and public key. *)
Definition reconcileWireguardKey (gwConfig : StaticGatewayConfiguration) : M W StaticGatewayConfiguration :=
  let! (secret, err) := kCreateOrPatch (newSecret gwConfig) (mutateSecret gwConfig) in
  do! fail_with err tt;
  if deleting (sec_meta secret) then ret gwConfig
  else
    let s := sgc_Status gwConfig in
    let p := sgc_GatewayServerProfile s in
    ret (with_sgc_status gwConfig
           {| sgc_EgressIpPrefix := sgc_EgressIpPrefix s;
              sgc_GatewayServerProfile :=
                {| gsp_Ip := gsp_Ip p; gsp_Port := gsp_Port p;
                   gsp_PublicKey := default "" (sec_Data secret !! consts.WireguardPublicKeyName);
                   gsp_PrivateKeySecretRef := Some
                     {| ref_APIVersion := "v1"; ref_Kind := "Secret";
                        ref_Name := om_name (sec_meta secret);
                        ref_Namespace := om_namespace (sec_meta secret) |} |} |}).

(** *** The load balancer configuration *)

Definition newLBConfig (gwConfig : StaticGatewayConfiguration) : GatewayLBConfiguration :=
  {| lbc_meta := new_meta (om_name (sgc_meta gwConfig)) (om_namespace (sgc_meta gwConfig));
     lbc_Spec := {| lbc_GatewayNodepoolName := "";
                    lbc_GatewayVmssProfile :=
                      {| VmssResourceGroup := ""; VmssName := ""; PublicIpPrefixSize := 0 |};
                    lbc_ProvisionPublicIps := false; lbc_PublicIpPrefixId := "" |};
     lbc_Status := None |}.

Definition mutateLBConfig (gwConfig : StaticGatewayConfiguration) (lbConfig : GatewayLBConfiguration) :
    GatewayLBConfiguration * option gerror :=
  let spec := sgc_Spec gwConfig in
  let '(m, err) :=
    after_set (lbc_meta lbConfig) (SetControllerReference (sgc_meta gwConfig) (lbc_meta lbConfig)) in
  ({| lbc_meta := m;
      lbc_Spec :=
        {| lbc_GatewayNodepoolName := sgc_GatewayNodepoolName spec;
           lbc_GatewayVmssProfile := sgc_GatewayVmssProfile spec;
           lbc_ProvisionPublicIps := sgc_ProvisionPublicIps spec;
           lbc_PublicIpPrefixId := sgc_PublicIpPrefixId spec |};
      lbc_Status := lbc_Status lbConfig |}, err).

(** Returns the configuration with the status collected from the load balancer
    configuration. *)
Definition reconcileGatewayLBConfig (gwConfig : StaticGatewayConfiguration) :
    M W StaticGatewayConfiguration :=
  let! (lbConfig, err) := kCreateOrPatch (newLBConfig gwConfig) (mutating (mutateLBConfig gwConfig)) in
  do! fail_with err tt;
  match lbc_Status lbConfig with
  | Some ls =>
      if deleting (lbc_meta lbConfig) then ret gwConfig
      else
        let p := sgc_GatewayServerProfile (sgc_Status gwConfig) in
        ret (with_sgc_status gwConfig
               {| sgc_EgressIpPrefix := lbc_EgressIpPrefix ls;
                  sgc_GatewayServerProfile :=
                    {| gsp_Ip := lbc_FrontendIp ls; gsp_Port := lbc_ServerPort ls;
                       gsp_PublicKey := gsp_PublicKey p;
                       gsp_PrivateKeySecretRef := gsp_PrivateKeySecretRef p |} |})
  | None => ret gwConfig
  end.

(** *** Reconciliation *)

Definition metricsOf (operation : string) (gwConfig : StaticGatewayConfiguration) : metrics.MetricsContext :=
  metrics.NewMetricsContext (Getenv consts.PodNamespaceEnvKey) operation "n/a" "n/a"
    (ToLower (om_namespace (sgc_meta gwConfig) +:+ "/" +:+ om_name (sgc_meta gwConfig))).

Definition event (gwConfig : StaticGatewayConfiguration) (ty reason msg : string) : M W unit :=
  effect (recordEvent (om_key (sgc_meta gwConfig)) ty reason msg).

Definition ensureFinalizer (gwConfig : StaticGatewayConfiguration) : M W StaticGatewayConfiguration :=
  if ContainsFinalizer (sgc_meta gwConfig) consts.SGCFinalizerName then ret gwConfig
  else kUpdate (with_sgc_meta gwConfig (AddFinalizer (sgc_meta gwConfig) consts.SGCFinalizerName)).

(** The function given to [CreateOrPatch]: the object as the function leaves it and
    its error. *)
Definition mutateGwConfig (gwConfig : StaticGatewayConfiguration) :
    M W (StaticGatewayConfiguration * option gerror) :=
  let failing (g : StaticGatewayConfiguration) (err : gerror) :=
    do! event g EventTypeWarning "ReconcileError" (Error err); ret (g, Some err) in
  let! r := try (reconcileWireguardKey gwConfig) in
  match r with
  | inl err => failing gwConfig err
  | inr gwConfig =>
      let! r := try (reconcileGatewayLBConfig gwConfig) in
      match r with
      | inl err => failing gwConfig err
      | inr gwConfig => ret (gwConfig, None)
      end
  end.

(** The part of [reconcile] after which [succeeded] is set: it ends with the error
    of [CreateOrPatch], which the function then returns. *)
Definition reconcileBody (gwConfig : StaticGatewayConfiguration) : M W (option gerror) :=
  do! match validate gwConfig with
      | Some err => do! event gwConfig EventTypeWarning "InvalidSpec" (Error err); throw err
      | None => ret tt
      end;
  let! gwConfig := ensureFinalizer gwConfig in
  let! (gwConfig, err) := kCreateOrPatch gwConfig mutateGwConfig in
  let egress := sgc_EgressIpPrefix (sgc_Status gwConfig) in
  let '(prefix, reconcileStatus) :=
    if String.eqb egress "" then ("<pending>", "Reconciling") else (egress, "Reconciled") in
  do! event gwConfig EventTypeNormal reconcileStatus
        ("StaticGatewayConfiguration provisioned with egress prefix " +:+ prefix);
  ret err.

Definition reconcile (gwConfig : StaticGatewayConfiguration) : M W unit :=
  let! err :=
    metrics.observed (metricsOf "reconcile_static_gateway_configuration" gwConfig)
      (reconcileBody gwConfig) in
  fail_with err tt.

(** *** Deletion *)

(** [Delete], and whether the object was already gone. *)
Definition deleteGone {Obj} `{Store W Obj} (key : NamespacedName) : M W bool :=
  let! r := try (kDelete (Obj := Obj) key) in
  match r with
  | inr _ => ret false
  | inl err => if IsNotFound err then ret true else throw err
  end.

Definition ensureDeleted (gwConfig : StaticGatewayConfiguration) : M W unit :=
  if negb (ContainsFinalizer (sgc_meta gwConfig) consts.SGCFinalizerName) then ret tt
  else
    metrics.observed (metricsOf "delete_static_gateway_configuration" gwConfig)
      (let! secretDeleted := deleteGone (Obj := Secret) (nn SecretNamespace (secretName gwConfig)) in
       let! lbConfigDeleted := deleteGone (Obj := GatewayLBConfiguration) (om_key (sgc_meta gwConfig)) in
       if secretDeleted && lbConfigDeleted then
         do! kUpdate (with_sgc_meta gwConfig
                        (RemoveFinalizer (sgc_meta gwConfig) consts.SGCFinalizerName));
         ret tt
       else ret tt).

Definition Reconcile (req : NamespacedName) : M W unit :=
  let! r := try (kGet (Obj := StaticGatewayConfiguration) req) in
  match r with
  | inl err => if IsNotFound err then ret tt else throw err
  | inr gwConfig =>
      if deleting (sgc_meta gwConfig) then ensureDeleted gwConfig else reconcile gwConfig
  end.
End sgc.
End sgc.

(** ** Validation *)

(** What a valid specification is: exactly one way to name the node pool, a
    complete scale set profile if that is the one, and a prefix of the user's only
    with public egress. *)
Record valid_spec (spec : StaticGatewayConfigurationSpec) : Prop := {
  vs_pool :
    (sgc_GatewayNodepoolName spec <> "" /\
     sgc_GatewayVmssProfile spec =
       {| VmssResourceGroup := ""; VmssName := ""; PublicIpPrefixSize := 0 |}) \/
    (sgc_GatewayNodepoolName spec = "" /\
     VmssResourceGroup (sgc_GatewayVmssProfile spec) <> "" /\
     VmssName (sgc_GatewayVmssProfile spec) <> "" /\
     (0 <= PublicIpPrefixSize (sgc_GatewayVmssProfile spec) <= 31)%Z);
  vs_prefix : sgc_PublicIpPrefixId spec <> "" -> sgc_ProvisionPublicIps spec = true;
}.

Lemma vmssProfileIsEmpty_spec g :
  vmssProfileIsEmpty g = true <->
  sgc_GatewayVmssProfile (sgc_Spec g) =
    {| VmssResourceGroup := ""; VmssName := ""; PublicIpPrefixSize := 0 |}.
Proof.
  unfold vmssProfileIsEmpty. destruct (sgc_GatewayVmssProfile (sgc_Spec g)) as [rg n z]. simpl.
  rewrite !andb_true_iff, !String.eqb_eq, Z.eqb_eq. naive_solver.
Qed.

Lemma if_nil {A} (b : bool) (x : A) : (if b then [x] else []) = [] <-> b = false.
Proof. by destruct b. Qed.

(** [validate] accepts a gateway configuration exactly when it names its node
    pool in one of the two ways (by name, or by a scale set profile with resource
    group, name and a prefix size from 0 to 31) and gives a public IP prefix only
    together with public egress. *)
Theorem validate_accepts `{ApiErrors} gwConfig :
  validate gwConfig = None <-> valid_spec (sgc_Spec gwConfig).
Proof.
  assert (validate gwConfig = None <-> validationErrors gwConfig = []) as ->
    by (unfold validate; destruct (validationErrors gwConfig); naive_solver).
  unfold validationErrors. rewrite !app_nil, !if_nil, !andb_false_iff, !negb_false_iff, !String.eqb_neq.
  rewrite <- (not_true_iff_false (vmssProfileIsEmpty gwConfig)), vmssProfileIsEmpty_spec.
  destruct (vmssProfileIsEmpty gwConfig) eqn:He; cbn [negb].
  - apply vmssProfileIsEmpty_spec in He. rewrite He. split.
    + intros ([?|?] & _ & _ & Hp); [|done]. split; [by left|]. rewrite String.eqb_eq in Hp. naive_solver.
    + intros [[[Hn _]|(Hn & Hrg & _)] Hp]; [|by rewrite He in Hrg].
      split_and!; [by left|by right|done|]. rewrite String.eqb_eq.
      destruct (sgc_ProvisionPublicIps (sgc_Spec gwConfig)); [by left|right].
      destruct (decide (sgc_PublicIpPrefixId (sgc_Spec gwConfig) = "")); naive_solver.
  - assert (sgc_GatewayVmssProfile (sgc_Spec gwConfig) <>
      {| VmssResourceGroup := ""; VmssName := ""; PublicIpPrefixSize := 0 |}) as Hne
      by (rewrite <- vmssProfileIsEmpty_spec; congruence).
    rewrite !app_nil, !if_nil, orb_false_iff, !String.eqb_neq, !Z.ltb_ge, !String.eqb_eq. split.
    + intros (_ & [Hn|?] & (Hrg & Hnm & Hsz) & Hp); [|congruence]. split; [right; split_and!; [done..|lia|lia]|].
      naive_solver.
    + intros [[[_ ?]|(Hn & Hrg & Hnm & Hsz)] Hp]; [done|]. split_and!; [by right|by left|done|done|lia|lia|].
      destruct (sgc_ProvisionPublicIps (sgc_Spec gwConfig)); [by left|right].
      destruct (decide (sgc_PublicIpPrefixId (sgc_Spec gwConfig) = "")); naive_solver.
Qed.

(** ** The key pair *)

(** The secret's public key belongs to its private key. *)
Definition key_pair `{WgKeys W} (s : Secret) : Prop :=
  exists k, sec_Data s !! consts.WireguardPrivateKeyName = Some k /\
            sec_Data s !! consts.WireguardPublicKeyName = Some (PublicKeyOf k).

(** The labels lead back to the gateway. *)
Lemma enqueueOwningSGC_owner gwConfig labels :
  enqueueOwningSGCFromLabels (ownerLabels gwConfig labels) = [om_key (sgc_meta gwConfig)].
Proof. unfold enqueueOwningSGCFromLabels, ownerLabels. by rewrite lookup_insert_ne, !lookup_insert_eq. Qed.

(** The WireGuard key pair of a gateway is stable. A secret with a private key
    keeps its data, and no key is generated; a secret without one gets a fresh pair
    whose public key belongs to the private one, or the generation's error is
    returned and the data is as before. In every case the secret's labels lead
    back to the gateway: an event of the secret enqueues exactly this gateway. *)
Theorem wireguard_key_stable {W} `{WgKeys W} gwConfig secret w :
  match sgc.mutateSecret gwConfig secret w with
  | (Ok (secret', err), w') =>
      enqueueOwningSGCFromLabels (om_labels (sec_meta secret')) = [om_key (sgc_meta gwConfig)] /\
      match sec_Data secret !! consts.WireguardPrivateKeyName with
      | Some _ => sec_Data secret' = sec_Data secret /\ err = None /\ w' = w
      | None =>
          match GeneratePrivateKey w with
          | (Err e, _) => sec_Data secret' = sec_Data secret /\ err = Some e
          | _ => key_pair secret' /\ err = None
          end
      end
  | (Err _, _) => False
  | (Panic, _) => exists w', GeneratePrivateKey w = (Panic, w')
  end.
Proof.
  unfold sgc.mutateSecret.
  pose proof (enqueueOwningSGC_owner gwConfig (om_labels (sec_meta secret))) as Henq.
  destruct (sec_Data secret !! consts.WireguardPrivateKeyName) as [k|] eqn:Hk; [by split_and!|].
  unfold bind, try. destruct (GeneratePrivateKey w) as [[k|e|] w'] eqn:Hg; simpl; [| |by eauto].
  - split_and!; [done| |done]. exists k. simpl. split.
    + by rewrite lookup_insert_ne, lookup_insert_eq.
    + by rewrite lookup_insert_eq.
  - by split_and!.
Qed.

(** ** Deletion and failures *)

(** C20: the finalizer of a gateway configuration is dropped last. Let [P] be a
    property of the cluster that the deletion of secrets and of LB configurations
    and the metrics cannot change. If [ensureDeleted] falsifies [P], then the
    deletions of the gateway's secret and of its LB configuration were both
    answered with NotFound. *)
Theorem sgc_finalizer_last {W} `{Finalizers} `{Prometheus W} `{OsEnv}
    `{Store W StaticGatewayConfiguration} `{Store W GatewayLBConfiguration} `{Store W Secret}
    SecretNamespace (P : W -> Prop) gwConfig w r w' :
  (forall k, keeps P (kDelete (Obj := Secret) k)) ->
  (forall k, keeps P (kDelete (Obj := GatewayLBConfiguration) k)) ->
  (forall mc b w, P w -> P (metrics.ObserveControllerReconcileMetrics mc b w)) ->
  sgc.ensureDeleted SecretNamespace gwConfig w = (r, w') -> P w -> ~ P w' ->
  exists e1 w1 e2 w2,
    kDelete (Obj := Secret) (nn SecretNamespace (sgc.secretName gwConfig)) w = (Err e1, w1) /\
    IsNotFound e1 = true /\
    kDelete (Obj := GatewayLBConfiguration) (om_key (sgc_meta gwConfig)) w1 = (Err e2, w2) /\
    IsNotFound e2 = true.
Proof.
  intros Hsec Hlb Hmet Hrun HP HnP. unfold sgc.ensureDeleted in Hrun.
  destruct (negb _); [go_done|]. apply defer_inv in Hrun as (w1 & Hrun & ->).
  assert (~ P w1) as HnP1 by eauto. clear HnP. unfold sgc.deleteGone, bind, try in Hrun.
  specialize (Hsec (nn SecretNamespace (sgc.secretName gwConfig)) w HP).
  destruct (kDelete (Obj := Secret) _ w) as [o1 w2]. simpl in Hsec.
  specialize (Hlb (om_key (sgc_meta gwConfig)) w2 Hsec).
  destruct (kDelete (Obj := GatewayLBConfiguration) _ w2) as [o2 w3] eqn:Hk2. simpl in Hlb.
  destruct o1 as [[]|e1|]; [| |go_done].
  - exfalso. simpl in Hrun. rewrite Hk2 in Hrun.
    destruct o2 as [[]|e2|]; simpl in Hrun; [go_done| |go_done]. destruct (IsNotFound e2); simpl in Hrun; go_done.
  - destruct (IsNotFound e1) eqn:He1; simpl in Hrun; [|go_done]. rewrite Hk2 in Hrun.
    destruct o2 as [[]|e2|]; simpl in Hrun; [go_done| |go_done].
    destruct (IsNotFound e2) eqn:He2; simpl in Hrun; [|go_done]. by exists e1, w2, e2, w3.
Qed.

(** An error of [CreateOrPatch] is returned by [reconcile], but it is recorded
    as a success: the failure count is not incremented, and the event that reports
    the provisioned prefix is emitted. *)
Theorem patch_error_counted_as_success {W} `{ApiErrors} `{WgKeys W} `{Finalizers} `{OwnerRefs}
    `{Recorder W} `{Prometheus W} `{OsEnv} `{Store W StaticGatewayConfiguration}
    `{Store W GatewayLBConfiguration} `{Store W Secret} SecretNamespace gwConfig w g1 w1 g2 e w2 :
  validate gwConfig = None -> sgc.ensureFinalizer gwConfig w = (Ok g1, w1) ->
  kCreateOrPatch g1 (sgc.mutateGwConfig SecretNamespace) w1 = (Ok (g2, Some e), w2) ->
  exists reason msg,
    sgc.reconcile SecretNamespace gwConfig w =
    (Err e,
     metrics.ObserveControllerReconcileMetrics
       (sgc.metricsOf "reconcile_static_gateway_configuration" gwConfig) true
       (recordEvent (om_key (sgc_meta g2)) EventTypeNormal reason msg w2)).
Proof.
  intros Hv Hf Hp. unfold sgc.reconcile, sgc.reconcileBody, metrics.observed, defer.
  unfold bind at 1. rewrite Hv. unfold bind at 1. simpl.
  rewrite (bind_Ok _ _ _ _ _ Hf), (bind_Ok _ _ _ _ _ Hp).
  destruct (String.eqb (sgc_EgressIpPrefix (sgc_Status g2)) ""); simpl; eauto.
Qed.

(** ** Runs *)

Import ListMeta.

#[export] Instance sim_api_errors : ApiErrors := fun name _ => name.
#[export] Instance sim_wg_keys : WgKeys World := {|
  GeneratePrivateKey := ret "private";
  PublicKeyOf k := "public-of-" +:+ k |}.

Definition sample_sgc (deletion : option Z) : StaticGatewayConfiguration :=
  {| sgc_meta := {| om_name := "gw1"; om_namespace := "ns"; om_uid := "sgc-uid"; om_deletion := deletion;
                    om_finalizers := [consts.SGCFinalizerName]; om_owners := []; om_labels := ∅ |};
     sgc_Spec := {| sgc_GatewayNodepoolName := "gwpool";
                    sgc_GatewayVmssProfile :=
                      {| VmssResourceGroup := ""; VmssName := ""; PublicIpPrefixSize := 0 |};
                    sgc_DefaultRoute := RouteStaticEgressGateway; sgc_ProvisionPublicIps := true;
                    sgc_PublicIpPrefixId := ""; sgc_ExcludeCidrs := [] |};
     sgc_Status := {| sgc_EgressIpPrefix := "";
                      sgc_GatewayServerProfile :=
                        {| gsp_Ip := ""; gsp_Port := 0; gsp_PublicKey := ""; gsp_PrivateKeySecretRef := None |} |} |}.
Definition sgc_world (deletion : option Z) : World :=
  put_sgcs {[ nn "ns" "gw1" := sample_sgc deletion ]} empty_world.

(** A reconciliation creates the key pair and the LB configuration. *)
Example sgc_run :
  let w := snd (sgc.Reconcile "keys" (nn "ns" "gw1") (sgc_world None)) in
  (w_secrets w !! nn "keys" "sgw-sgc-uid") ≫= (fun s => sec_Data s !! "PublicKey") =
    Some "public-of-private" /\
  lbc_GatewayNodepoolName <$> (lbc_Spec <$> w_lbcs w !! nn "ns" "gw1") = Some "gwpool" /\
  gsp_PublicKey <$> (sgc_GatewayServerProfile <$> (sgc_Status <$> w_sgcs w !! nn "ns" "gw1")) =
    Some "public-of-private".
Proof. split_and!; vm_compute; reflexivity. Qed.

(** The object is still there. *)
Definition sgc_there (w : World) : Prop :=
  match w_sgcs w !! nn "ns" "gw1" with Some _ => True | None => False end.

Lemma store_delete_keeps {Obj} get put meta with_meta with_status k (P : World -> Prop) :
  (forall m w, P w -> P (put m w)) ->
  keeps P (kDelete (Store := store_of (Obj := Obj) get put meta with_meta with_status) k).
Proof.
  intros HP w Hw. simpl. unfold bind, fetch, not_found, throw, ret, remove, save.
  repeat (case_match; simplify_eq/=); try exact Hw; by apply HP.
Qed.

Lemma sgc_finalizer_last_witness :
  exists e1 w1 e2 w2,
    kDelete (Obj := Secret) (nn "keys" "sgw-sgc-uid") (sgc_world (Some 0%Z)) = (Err e1, w1) /\
    IsNotFound e1 = true /\
    kDelete (Obj := GatewayLBConfiguration) (nn "ns" "gw1") w1 = (Err e2, w2) /\ IsNotFound e2 = true.
Proof.
  apply (sgc_finalizer_last "keys" sgc_there (sample_sgc (Some 0%Z)) (sgc_world (Some 0%Z)) (Ok tt)
           (snd (sgc.ensureDeleted "keys" (sample_sgc (Some 0%Z)) (sgc_world (Some 0%Z))))).
  - intros k. apply store_delete_keeps. done.
  - intros k. apply store_delete_keeps. done.
  - intros mc [] w Hw; exact Hw.
  - vm_compute. reflexivity.
  - vm_compute. exact I.
  - vm_compute. intros [].
Defined.

(** An LB configuration of another controller's cannot be taken over. *)
Definition foreign_lbc : GatewayLBConfiguration :=
  {| lbc_meta := {| om_name := "gw1"; om_namespace := "ns"; om_uid := "lbc"; om_deletion := None;
                    om_finalizers := [];
                    om_owners := [{| or_kind := "Other"; or_name := "x"; or_uid := "x"; or_controller := true |}];
                    om_labels := ∅ |};
     lbc_Spec := lbc_Spec (sgc.newLBConfig (sample_sgc None)); lbc_Status := None |}.
Definition foreign_world : World := put_lbcs {[ nn "ns" "gw1" := foreign_lbc ]} (sgc_world None).

Definition patch_run : outcome (StaticGatewayConfiguration * option gerror) * World :=
  kCreateOrPatch (sample_sgc None) (sgc.mutateGwConfig "keys") foreign_world.
Definition patched : StaticGatewayConfiguration :=
  match fst patch_run with Ok (g, _) => g | _ => sample_sgc None end.
Definition patch_error : gerror := EText "Object is already owned by another controller".

Lemma patch_error_counted_as_success_witness :
  exists reason msg,
    sgc.reconcile "keys" (sample_sgc None) foreign_world =
    (Err patch_error,
     metrics.ObserveControllerReconcileMetrics
       (sgc.metricsOf "reconcile_static_gateway_configuration" (sample_sgc None)) true
       (recordEvent (om_key (sgc_meta patched)) EventTypeNormal reason msg (snd patch_run))).
Proof.
  apply (patch_error_counted_as_success "keys" (sample_sgc None) foreign_world (sample_sgc None)
           foreign_world patched patch_error (snd patch_run)).
  - vm_compute. reflexivity.
  - vm_compute. reflexivity.
  - vm_compute. reflexivity.
Defined.
