(* ===== verification/HealthProbe.v ===== *)
(** * The health probe server ([pkg/healthprobe/gw_health.go])

    The daemon answers the load balancer's health probes per gateway.  The set of
    active gateways is guarded by a lock, so that concurrent calls take effect one
    after the other: the state is that of a sequence of operations.  Of the HTTP server,
    its address and its handler are modelled, not its routing of other paths. *)

From stdpp Require Import base tactics list strings gmap sets.
From Stdlib Require Import Ascii ZArith Lia.
From S2P Require Import Prelude GoStrings Types Azure LBRules.

Open Scope string_scope.
Open Scope list_scope.

(** [LBProbeServer]: the keys of [activeGateways], and the port. *)
Record LBProbeServer := {
  activeGateways : gset string;
  listenPort : Z;
}.

Definition NewLBProbeServer (listenPort : Z) : LBProbeServer :=
  {| activeGateways := ∅; listenPort := listenPort |}.

(** The address [Start] listens at: [net.JoinHostPort] without a host. *)
Definition serverAddr (svr : LBProbeServer) : string := ":" +:+ Itoa (listenPort svr).

Definition AddGateway (svr : LBProbeServer) (gatewayUID : string) : LBProbeServer :=
  {| activeGateways := {[ gatewayUID ]} ∪ activeGateways svr; listenPort := listenPort svr |}.

Definition RemoveGateway (svr : LBProbeServer) (gatewayUID : string) : LBProbeServer :=
  {| activeGateways := activeGateways svr ∖ {[ gatewayUID ]}; listenPort := listenPort svr |}.

(** The order of a Go map is unspecified; [elements] gives one. *)
Definition GetGateways (svr : LBProbeServer) : list string := elements (activeGateways svr).

Definition StatusOK : Z := 200.
Definition StatusBadRequest : Z := 400.
Definition StatusServiceUnavailable : Z := 503.

(** The status of the answer to a request for a path. *)
Definition serveHTTP (svr : LBProbeServer) (reqPath : string) : Z :=
  match Split reqPath "/"%char with
  | [_; _; gatewayUID] =>
      if decide (gatewayUID ∈ activeGateways svr) then StatusOK else StatusServiceUnavailable
  | _ => StatusBadRequest
  end.

(** ** The server over time *)

Inductive probeOp := Add (uid : string) | Remove (uid : string).

Definition apply (svr : LBProbeServer) (op : probeOp) : LBProbeServer :=
  match op with Add uid => AddGateway svr uid | Remove uid => RemoveGateway svr uid end.

(** The specification: a gateway is served when the last operation on it added
    it. *)
Fixpoint served (uid : string) (ops : list probeOp) (before : bool) : bool :=
  match ops with
  | [] => before
  | Add u :: ops' => served uid ops' (String.eqb uid u || before)
  | Remove u :: ops' => served uid ops' (negb (String.eqb uid u) && before)
  end.

Lemma served_spec uid ops svr :
  uid ∈ activeGateways (fold_left apply ops svr) <->
  served uid ops (bool_decide (uid ∈ activeGateways svr)) = true.
Proof.
  revert svr. induction ops as [|op ops IH]; intros svr; simpl; [by rewrite bool_decide_eq_true|].
  rewrite IH. destruct op as [u|u]; simpl; repeat f_equiv; apply eq_iff_eq_true;
    destruct (String.eqb_spec uid u); rewrite ?orb_true_iff, ?andb_true_iff, !bool_decide_eq_true;
    simpl; set_solver.
Qed.

Lemma Split_probe_path uid :
  no_byte "/"%char uid = true ->
  Split (consts.GatewayHealthProbeEndpoint +:+ uid) "/"%char = [""; "gw"; uid].
Proof. intros Hu. simpl. by rewrite Split_no_byte. Qed.

Lemma apply_listenPort ops svr : listenPort (fold_left apply ops svr) = listenPort svr.
Proof. revert svr. induction ops as [|[u|u] ops IH]; intros svr; simpl; [done|by rewrite IH..]. Qed.

(** The health probe of a gateway's load balancer rule is answered with 200 by
    a node exactly when the last operation of the daemon on that gateway added it,
    and with 503 otherwise: the path the manager configures for the probe is the
    one under which the daemon serves the gateway, whose UID is that of the owner
    of the LB configuration. *)
Theorem probe_follows_gateway name port lbConfig svrPort ops :
  let uid := owner_uid (om_owners (lbc_meta lbConfig)) (om_name (lbc_meta lbConfig)) in
  no_byte "/"%char uid = true ->
  match pr_Properties (getExpectedLBProbe name port lbConfig) with
  | Some {| pr_RequestPath := Some path |} =>
      serveHTTP (fold_left apply ops (NewLBProbeServer svrPort)) path =
        if served uid ops false then StatusOK else StatusServiceUnavailable
  | _ => False
  end.
Proof.
  intros uid Hu. unfold getExpectedLBProbe, Ptr. fold uid. cbn [pr_Properties]. unfold serveHTTP.
  rewrite (Split_probe_path uid Hu).
  pose proof (served_spec uid ops (NewLBProbeServer svrPort)) as Hs.
  rewrite bool_decide_eq_false_2 in Hs by (simpl; set_solver).
  case_decide as Hin; destruct (served uid ops false); naive_solver.
Qed.

Definition probed_lbc : GatewayLBConfiguration :=
  {| lbc_meta := {| om_name := "gw1"; om_namespace := "ns"; om_uid := "lbc"; om_deletion := None;
                    om_finalizers := [];
                    om_owners := [{| or_kind := "StaticGatewayConfiguration"; or_name := "gw1";
                                     or_uid := "sgc-uid"; or_controller := true |}];
                    om_labels := ∅ |};
     lbc_Spec := {| lbc_GatewayNodepoolName := "pool";
                    lbc_GatewayVmssProfile :=
                      {| VmssResourceGroup := ""; VmssName := ""; PublicIpPrefixSize := 0 |};
                    lbc_ProvisionPublicIps := true; lbc_PublicIpPrefixId := "" |};
     lbc_Status := None |}.

Lemma probe_follows_gateway_witness :
  serveHTTP (fold_left apply [Add "sgc-uid"; Add "other"] (NewLBProbeServer 8082)) "/gw/sgc-uid" = StatusOK.
Proof.
  exact (probe_follows_gateway None 8082 probed_lbc 8082 [Add "sgc-uid"; Add "other"] eq_refl).
Defined.
