(* ===== verification/NetIP.v ===== *)
(** * IP addresses ([net] and [net/netip])

    What the daemon and the CNI plugin use of Go's address types.  A [net.IP] is
    its 16-byte form, a 128-bit integer: the 4-byte form of an IPv4 address and its
    IPv4-in-IPv6 form are equal for [IP.Equal] and print alike, so both are
    [::ffff:a.b.c.d] here and [IP.Equal] is equality; a nil slice is [None].  Masks
    are the prefix masks [net.CIDRMask] makes, given by their sizes. *)

From stdpp Require Import base tactics list strings gmap.
From Stdlib Require Import Ascii ZArith Lia DecimalString DecimalZ.
From S2P Require Import Prelude GoStrings Types.

Open Scope string_scope.
Open Scope list_scope.

Definition IP : Type := Z.

(** [net.IPMask] and [Mask.Size]. *)
Record IPMask := { mask_ones : Z; mask_bits : Z }.

(** [net.IPNet]; its zero value has a nil address and a nil mask. *)
Record IPNet := { ipn_IP : option IP; ipn_Mask : option IPMask }.
#[export] Instance zero_IPNet : GoZero IPNet := {| ipn_IP := None; ipn_Mask := None |}.

#[export] Instance IPMask_eq_dec : EqDecision IPMask.
Proof. solve_decision. Defined.
#[export] Instance IPNet_eq_dec : EqDecision IPNet.
Proof. solve_decision. Defined.

(** The first result of [Mask.Size()]. *)
Definition Mask_ones (m : option IPMask) : Z :=
  match m with Some m => mask_ones m | None => 0 end.

Definition v4_prefix : Z := 65535.
(** [net.IPv4] *)
Definition IPv4 (a b c d : Z) : IP := (v4_prefix * 2 ^ 32 + (a * 2 ^ 24 + b * 2 ^ 16 + c * 2 ^ 8 + d))%Z.

(** [ip.To4() != nil] *)
Definition is4 (ip : IP) : bool := (ip / 2 ^ 32 =? v4_prefix)%Z.

Definition groups_value (l : list Z) : IP := fold_left (fun acc g => acc * 65536 + g)%Z l 0%Z.

(** The 16-bit group at an index from 0 to 7. *)
Definition group_at (ip : IP) (i : nat) : Z := ((ip / 2 ^ (16 * (7 - Z.of_nat i))) mod 65536)%Z.

(** The 8-bit field at an index from 0 to 3 of an IPv4 address. *)
Definition field_at (ip : IP) (i : nat) : Z := ((ip / 2 ^ (8 * (3 - Z.of_nat i))) mod 256)%Z.

(** ** Parsing *)

Definition digit_of (c : ascii) : option Z :=
  let n := N_of_ascii c in
  if ((48 <=? n) && (n <=? 57))%N then Some (Z.of_N n - 48)%Z else None.

Definition hex_of (c : ascii) : option Z :=
  let n := N_of_ascii c in
  if ((48 <=? n) && (n <=? 57))%N then Some (Z.of_N n - 48)%Z
  else if ((97 <=? n) && (n <=? 102))%N then Some (Z.of_N n - 87)%Z
  else if ((65 <=? n) && (n <=? 70))%N then Some (Z.of_N n - 55)%Z
  else None.

(** [parseIPv4Fields]: the loop over the characters.  [sep] says that the
    character before is a dot, or that there is none. *)
Fixpoint parseIPv4From (s : string) (sep : bool) (val digLen : Z) (fields : list Z) :
    option (list Z) :=
  match s with
  | EmptyString => if (length fields <? 3)%nat then None else Some (fields ++ [val])
  | String c s' =>
      match digit_of c with
      | Some d =>
          if (digLen =? 1)%Z && (val =? 0)%Z then None
          else if (255 <? val * 10 + d)%Z then None
          else parseIPv4From s' false (val * 10 + d)%Z (digLen + 1)%Z fields
      | None =>
          if Ascii.eqb c "." then
            if sep || String.eqb s' "" then None
            else if (length fields =? 3)%nat then None
            else parseIPv4From s' true 0%Z 0%Z (fields ++ [val])
          else None
      end
  end.
Definition parseIPv4Fields (s : string) : option (list Z) := parseIPv4From s true 0%Z 0%Z [].

(** The hexadecimal digits at the start: their number, their value and the rest;
    more than four are an error. *)
Fixpoint hex_run (s : string) (off : nat) (acc : Z) : option (nat * Z * string) :=
  match s with
  | String c s' =>
      match hex_of c with
      | Some d => if (3 <? off)%nat then None else hex_run s' (S off) (acc * 16 + d)%Z
      | None => Some (off, acc, s)
      end
  | EmptyString => Some (off, acc, s)
  end.

(** [parseIPv6]'s loop [for i < 16]: one 16-bit group per round, [fuel] of them
    missing.  The result is the rest of the string, the groups and the position of
    the ellipsis. *)
Fixpoint parseIPv6From (fuel : nat) (s : string) (groups : list Z) (ellipsis : option nat) :
    option (string * list Z * option nat) :=
  match fuel with
  | O => Some (s, groups, ellipsis)
  | S fuel' =>
      match hex_run s 0 0 with
      | None => None
      | Some (off, acc, rest) =>
          if (off =? 0)%nat then None
          else
            let groups' := groups ++ [acc] in
            match rest with
            | EmptyString => Some ("", groups', ellipsis)
            | String c rest' =>
                if Ascii.eqb c "." then
                  if match ellipsis with None => negb (length groups =? 6)%nat | Some _ => false end then None
                  else if (8 <? length groups + 2)%nat then None
                  else match parseIPv4Fields s with
                       | Some [a; b; c; d] =>
                           Some ("", groups ++ [a * 256 + b; c * 256 + d]%Z, ellipsis)
                       | _ => None
                       end
                else if negb (Ascii.eqb c ":") then None
                else match rest' with
                     | EmptyString => None
                     | String c' rest'' =>
                         if Ascii.eqb c' ":" then
                           match ellipsis with
                           | Some _ => None
                           | None =>
                               if String.eqb rest'' "" then Some ("", groups', Some (length groups'))
                               else parseIPv6From fuel' rest'' groups' (Some (length groups'))
                           end
                         else parseIPv6From fuel' rest' groups' ellipsis
                     end
            end
      end
  end.

(** The end of [parseIPv6]: nothing is left over, and the ellipsis stands for at
    least one group. *)
Definition expandIPv6 (s : string) (groups : list Z) (ellipsis : option nat) : option IP :=
  if negb (String.eqb s "") then None
  else if (length groups <? 8)%nat then
    match ellipsis with
    | None => None
    | Some e => Some (groups_value (take e groups ++ replicate (8 - length groups) 0%Z ++ drop e groups))
    end
  else match ellipsis with Some _ => None | None => Some (groups_value groups) end.

Definition parseIPv6 (s : string) : option IP :=
  match s with
  | String ":" (String ":" EmptyString) => Some 0%Z
  | String ":" (String ":" s') =>
      match parseIPv6From 8 s' [] (Some 0) with
      | Some (rest, groups, e) => expandIPv6 rest groups e
      | None => None
      end
  | _ =>
      match parseIPv6From 8 s [] None with
      | Some (rest, groups, e) => expandIPv6 rest groups e
      | None => None
      end
  end.

(** [netip.ParseAddr] for the callers below, which reject zones: the first dot or
    colon decides on the family.  The result is the address and its [BitLen]. *)
Fixpoint family_of (s : string) : option bool :=
  match s with
  | EmptyString => None
  | String c s' =>
      if Ascii.eqb c "." then Some true else if Ascii.eqb c ":" then Some false
      else if Ascii.eqb c "%" then None else family_of s'
  end.

Definition ParseAddr (s : string) : option (IP * Z) :=
  match family_of s with
  | Some true =>
      match parseIPv4Fields s with
      | Some [a; b; c; d] => Some (IPv4 a b c d, 32%Z)
      | _ => None
      end
  | Some false =>
      if negb (no_byte "%" s) then None
      else match parseIPv6 s with Some ip => Some (ip, 128%Z) | None => None end
  | None => None
  end.

(** [net.ParseIP]; nil for text that is not an address. *)
Definition ParseIP (s : string) : option IP :=
  match ParseAddr s with Some (ip, _) => Some ip | None => None end.

(** [strings.Cut] at a byte. *)
Fixpoint Cut (s : string) (sep : ascii) : option (string * string) :=
  match s with
  | EmptyString => None
  | String c s' =>
      if Ascii.eqb c sep then Some ("", s')
      else match Cut s' sep with Some (a, b) => Some (String c a, b) | None => None end
  end.

(** [dtoi]: the value of the decimal digits at the start, their number, and
    whether there are any and the value is below 0xFFFFFF. *)
Fixpoint dtoi_from (s : string) (n : Z) (i : nat) : Z * nat * bool :=
  match s with
  | String c s' =>
      match digit_of c with
      | Some d =>
          let n' := (n * 10 + d)%Z in
          if (16777215 <=? n')%Z then (16777215%Z, i, false) else dtoi_from s' n' (S i)
      | None => (n, i, negb (i =? 0)%nat)
      end
  | EmptyString => (n, i, negb (i =? 0)%nat)
  end.

Definition CIDRMask (ones bits : Z) : IPMask := {| mask_ones := ones; mask_bits := bits |}.

(** [ip.Mask(m)] for a mask of the address's length. *)
Definition IP_Mask (ip : IP) (m : IPMask) : IP :=
  let k := (mask_bits m - mask_ones m)%Z in Z.shiftl (Z.shiftr ip k) k.

(** [net.ParseCIDR] and its [ParseError]. *)
Definition ParseCIDR (s : string) : gerror + IP * IPNet :=
  let err := inl (EText ("invalid CIDR address: " +:+ s)) in
  match Cut s "/" with
  | None => err
  | Some (addr, mask) =>
      match ParseAddr addr with
      | None => err
      | Some (ip, bits) =>
          let '(n, i, ok) := dtoi_from mask 0 0 in
          if negb ok || negb (i =? String.length mask)%nat || (n <? 0)%Z || (bits <? n)%Z then err
          else
            let m := CIDRMask n bits in
            inr (ip, {| ipn_IP := Some (IP_Mask ip m); ipn_Mask := Some m |})
      end
  end.

(** ** Printing *)

(** The first longest run of at least two zero groups, as its start and end. *)
Definition zero_run_from (ip : IP) (i : nat) : nat :=
  length (fst (fold_left (fun acc j =>
    let '(run, open) := acc in
    if open && (group_at ip j =? 0)%Z then (j :: run, true) else (run, false))
    (seq i (8 - i)) ([], true))).

Definition longest_zeros (ip : IP) : nat * nat :=
  fold_left (fun best i =>
    let l := zero_run_from ip i in
    if (2 <=? l)%nat && (snd best - fst best <? l)%nat then (i, i + l) else best)
    (seq 0 8) (255, 255).

(** [netip.Addr.appendTo6]: the group at [i], with a colon before it unless it is
    the first; the run of zeros is an ellipsis. *)
Fixpoint append6 (fuel : nat) (ip : IP) (zs ze i : nat) (acc : string) : string :=
  match fuel with
  | O => acc
  | S fuel' =>
      if (8 <=? i)%nat then acc
      else if (i =? zs)%nat then
        let acc := acc +:+ "::" in
        if (8 <=? ze)%nat then acc
        else append6 fuel' ip zs ze (S ze) (acc +:+ hex64 (group_at ip ze))
      else
        let acc := if (i =? 0)%nat then acc else acc +:+ ":" in
        append6 fuel' ip zs ze (S i) (acc +:+ hex64 (group_at ip i))
  end.

(** [ip.String()] *)
Definition IP_String (ip : option IP) : string :=
  match ip with
  | None => "<nil>"
  | Some ip =>
      if is4 ip then
        Itoa (field_at ip 0) +:+ "." +:+ Itoa (field_at ip 1) +:+ "." +:+
        Itoa (field_at ip 2) +:+ "." +:+ Itoa (field_at ip 3)
      else let '(zs, ze) := longest_zeros ip in append6 8 ip zs ze 0 ""
  end.

(** [n.String()]: the mask of an IPv4 network is its last 32 bits. *)
Definition IPNet_String (n : IPNet) : string :=
  match ipn_IP n, ipn_Mask n with
  | Some ip, Some m =>
      if is4 ip then
        IP_String (Some ip) +:+ "/" +:+ Itoa (if (mask_bits m =? 128)%Z then Z.max 0 (mask_ones m - 96) else mask_ones m)
      else if (mask_bits m =? 32)%Z then "<nil>"
      else IP_String (Some ip) +:+ "/" +:+ Itoa (mask_ones m)
  | _, _ => "<nil>"
  end.

Example parse_v4 : ParseIP "10.0.0.4" = Some (IPv4 10 0 0 4).
Proof. reflexivity. Qed.
Example print_v6 : option_map (fun ip => IP_String (Some ip)) (ParseIP "fe80:0:0::00a1") = Some "fe80::a1".
Proof. vm_compute. reflexivity. Qed.
Example print_v6_ends : (fun s => IP_String (ParseIP s)) <$>
    ["::"; "::1"; "1::"; "1:0:0:2:0:0:0:3"; "::ffff:1.2.3.4"; "1:2:3:4:5:6:7:0"; "0:0:1:0:0:1:0:0"; "1:2:3"; "1::2::3"; "1:2:3:4:5:6:1.2.3.4"; "::1.2.3.4"] =
    ["::"; "::1"; "1::"; "1:0:0:2::3"; "1.2.3.4"; "1:2:3:4:5:6:7:0"; "::1:0:0:1:0:0"; "<nil>"; "<nil>"; "1:2:3:4:5:6:102:304"; "::102:304"].
Proof. vm_compute. reflexivity. Qed.
Example parse_bad : ParseIP <$> ["1.2.3"; "1.2.3.04"; "256.1.1.1"; "1.2.3.4."; "fe80::1/64"; ""; "1.2.3.4%eth0"; "fe80::1%eth0"] =
  [None; None; None; None; None; None; None; None].
Proof. reflexivity. Qed.
Example parse_cidr : ParseCIDR "10.1.2.3/16" =
  inr (IPv4 10 1 2 3, {| ipn_IP := Some (IPv4 10 1 0 0); ipn_Mask := Some (CIDRMask 16 32) |}).
Proof. reflexivity. Qed.

(** ** Reading back a printed IPv4 address *)

Definition octet (z : Z) : Prop := (0 <= z < 256)%Z.

Lemma octet_cases z : octet z -> z ∈ (Z.of_nat <$> seq 0 256).
Proof.
  intros Hz. apply list_elem_of_fmap. exists (Z.to_nat z). unfold octet in Hz.
  split; [lia|]. apply elem_of_seq. lia.
Qed.

(** The digits of a number in the state of the parser. *)
Fixpoint run_digits (t : string) (val digLen : Z) : option Z :=
  match t with
  | EmptyString => Some val
  | String c t' =>
      match digit_of c with
      | Some d =>
          if (digLen =? 1)%Z && (val =? 0)%Z then None
          else if (255 <? val * 10 + d)%Z then None
          else run_digits t' (val * 10 + d)%Z (digLen + 1)%Z
      | None => None
      end
  end.

Lemma parse_digits t rest val digLen fields v :
  run_digits t val digLen = Some v ->
  exists n, parseIPv4From (t +:+ rest) false val digLen fields = parseIPv4From rest false v n fields.
Proof.
  revert val digLen. induction t as [|c t IH]; intros val digLen; cbn; [naive_solver|].
  change (String c t +:+ rest) with (String c (t +:+ rest)). cbn.
  destruct (digit_of c) as [d|]; [|done]. repeat case_match; try done. apply IH.
Qed.

Definition octet_ok (z : Z) : bool :=
  negb (String.eqb (Itoa z) "") &&
  match run_digits (Itoa z) 0 0 with Some v => (v =? z)%Z | None => false end.

Lemma octets_ok : forallb octet_ok (Z.of_nat <$> seq 0 256) = true.
Proof. vm_compute. reflexivity. Qed.

Lemma octet_digits z : octet z -> Itoa z <> "" /\ run_digits (Itoa z) 0 0 = Some z.
Proof.
  intros Hz%octet_cases%list_elem_of_In.
  apply (proj1 (forallb_forall octet_ok _) octets_ok) in Hz.
  apply andb_true_iff in Hz as [Hne Hr]. split; [by apply String.eqb_neq, negb_true_iff|].
  destruct (run_digits (Itoa z) 0 0); [|done]. f_equal. by apply Z.eqb_eq.
Qed.

(** Reading a printed octet. *)
Lemma parse_octet z rest fields :
  octet z -> exists n, parseIPv4From (Itoa z +:+ rest) true 0 0 fields = parseIPv4From rest false z n fields.
Proof.
  intros [Hne Hr]%octet_digits. destruct (Itoa z) as [|c t]; [done|].
  change (String c t +:+ rest) with (String c (t +:+ rest)). cbn in *.
  destruct (digit_of c) as [d|]; [|done]. repeat case_match; try done.
  by apply parse_digits.
Qed.

Lemma parse_octet_dot z s fields :
  octet z -> s <> "" -> (length fields < 3)%nat ->
  parseIPv4From (Itoa z +:+ "." +:+ s) true 0 0 fields = parseIPv4From s true 0 0 (fields ++ [z]).
Proof.
  intros Hz Hs Hl. destruct (parse_octet z ("." +:+ s) fields Hz) as [n ->].
  change ("." +:+ s) with (String "." s). cbn -[String.eqb].
  rewrite (proj2 (String.eqb_neq s "") Hs).
  by rewrite (proj2 (Nat.eqb_neq (length fields) 3)) by lia.
Qed.


Lemma parse_octet_end z fields :
  octet z -> length fields = 3%nat -> parseIPv4From (Itoa z) true 0 0 fields = Some (fields ++ [z]).
Proof.
  intros Hz Hl. destruct (parse_octet z "" fields Hz) as [n Hp].
  rewrite string_app_nil_r in Hp. rewrite Hp. cbn. by rewrite Hl.
Qed.

(** The dotted text of four octets. *)
Definition dotted (a b c d : Z) : string := Itoa a +:+ "." +:+ Itoa b +:+ "." +:+ Itoa c +:+ "." +:+ Itoa d.

Lemma Itoa_octet_nonempty z : octet z -> Itoa z <> "".
Proof. apply octet_digits. Qed.

Lemma app_nonempty s t : s <> "" -> s +:+ t <> "".
Proof. by destruct s. Qed.

Lemma parseIPv4_dotted a b c d :
  octet a -> octet b -> octet c -> octet d -> parseIPv4Fields (dotted a b c d) = Some [a; b; c; d].
Proof.
  intros Ha Hb Hc Hd. unfold parseIPv4Fields, dotted.
  rewrite parse_octet_dot by (try done; try (simpl; lia); by apply app_nonempty, Itoa_octet_nonempty).
  rewrite parse_octet_dot by (try done; try (simpl; lia); by apply app_nonempty, Itoa_octet_nonempty).
  rewrite parse_octet_dot by (try done; try (simpl; lia); by apply Itoa_octet_nonempty).
  by rewrite parse_octet_end.
Qed.

Lemma fields_IPv4 a b c d :
  octet a -> octet b -> octet c -> octet d ->
  is4 (IPv4 a b c d) = true /\
  field_at (IPv4 a b c d) 0 = a /\ field_at (IPv4 a b c d) 1 = b /\
  field_at (IPv4 a b c d) 2 = c /\ field_at (IPv4 a b c d) 3 = d.
Proof.
  unfold octet, is4, field_at, IPv4, v4_prefix. intros Ha Hb Hc Hd.
  rewrite Z.eqb_eq.
  change (2 ^ (8 * (3 - Z.of_nat 0)))%Z with 16777216%Z. change (2 ^ (8 * (3 - Z.of_nat 1)))%Z with 65536%Z.
  change (2 ^ (8 * (3 - Z.of_nat 2)))%Z with 256%Z. change (2 ^ (8 * (3 - Z.of_nat 3)))%Z with 1%Z.
  change (2 ^ 32)%Z with 4294967296%Z. change (2 ^ 24)%Z with 16777216%Z.
  change (2 ^ 16)%Z with 65536%Z. change (2 ^ 8)%Z with 256%Z.
  repeat split; Z.div_mod_to_equations; lia.
Qed.

Lemma IP_String_IPv4 a b c d :
  octet a -> octet b -> octet c -> octet d -> IP_String (Some (IPv4 a b c d)) = dotted a b c d.
Proof.
  intros Ha Hb Hc Hd. destruct (fields_IPv4 a b c d) as (H4 & H0 & H1 & H2 & H3); [done..|].
  unfold IP_String. by rewrite H4, H0, H1, H2, H3.
Qed.

Lemma digit_of_other c a : digit_of c = None -> is_Some (digit_of a) -> Ascii.eqb a c = false.
Proof. intros Hc [d Ha]. apply Ascii.eqb_neq. by intros ->; rewrite Ha in Hc. Qed.

(** Text without a byte is passed over when cutting at that byte. *)
Lemma Cut_app s t sep : no_byte sep s = true -> Cut (s +:+ String sep t) sep = Some (s, t).
Proof.
  induction s as [|c s IH]; intros H; [simpl; by rewrite Ascii.eqb_refl|].
  change (String c s +:+ String sep t) with (String c (s +:+ String sep t)). cbn.
  apply andb_true_iff in H as [Hc Hs]. apply negb_true_iff in Hc. rewrite Ascii.eqb_sym, Hc.
  by rewrite IH.
Qed.

Lemma no_byte_app c s t : no_byte c (s +:+ t) = no_byte c s && no_byte c t.
Proof.
  induction s as [|a s IH]; [done|].
  change (String a s +:+ t) with (String a (s +:+ t)). cbn. by rewrite IH, andb_assoc.
Qed.

Lemma digits_no_byte c t v n r :
  digit_of c = None -> run_digits t v n = Some r -> no_byte c t = true.
Proof.
  intros Hc. revert v n. induction t as [|a t IH]; intros v n; cbn; [done|].
  destruct (digit_of a) eqn:Ha; [|done]. repeat case_match; try done. intros Ht.
  rewrite Ascii.eqb_sym, (digit_of_other c a) by eauto. eauto.
Qed.

Lemma octet_no_byte c z : digit_of c = None -> octet z -> no_byte c (Itoa z) = true.
Proof. intros Hc [_ Hr]%octet_digits. by eapply digits_no_byte. Qed.

Lemma digits_family t v n r rest : run_digits t v n = Some r -> family_of (t +:+ rest) = family_of rest.
Proof.
  revert v n. induction t as [|a t IH]; intros v n; [done|].
  change (String a t +:+ rest) with (String a (t +:+ rest)). cbn.
  destruct (digit_of a) eqn:Ha; [|done]. repeat case_match; try done;
    match goal with
    | H : Ascii.eqb a ?c = true |- _ =>
        apply Ascii.eqb_eq in H; subst a; discriminate Ha
    | _ => eauto
    end.
Qed.

Lemma family_dotted a b c d : octet a -> family_of (dotted a b c d) = Some true.
Proof. intros [_ Hr]%octet_digits. unfold dotted. by rewrite (digits_family _ _ _ _ _ Hr). Qed.

Lemma no_byte_dotted x a b c d :
  digit_of x = None -> x <> "."%char -> octet a -> octet b -> octet c -> octet d ->
  no_byte x (dotted a b c d) = true.
Proof.
  intros Hx Hd ????. unfold dotted. rewrite !no_byte_app, !octet_no_byte by done. simpl.
  by destruct (Ascii.eqb_spec x ".").
Qed.

Lemma ParseAddr_dotted a b c d :
  octet a -> octet b -> octet c -> octet d -> ParseAddr (dotted a b c d) = Some (IPv4 a b c d, 32%Z).
Proof. intros. unfold ParseAddr. by rewrite family_dotted, parseIPv4_dotted. Qed.

(** A printed IPv4 address is read back, also as a network of one address. *)
Lemma ParseIP_dotted a b c d :
  octet a -> octet b -> octet c -> octet d -> ParseIP (dotted a b c d) = Some (IPv4 a b c d).
Proof. intros. unfold ParseIP. by rewrite ParseAddr_dotted. Qed.

Lemma IP_Mask_full ip : IP_Mask ip (CIDRMask 32 32) = ip.
Proof. unfold IP_Mask, CIDRMask. simpl (_ - _)%Z. by rewrite Z.shiftr_0_r. Qed.

Lemma ParseCIDR_dotted32 a b c d :
  octet a -> octet b -> octet c -> octet d ->
  ParseCIDR (dotted a b c d +:+ "/32") =
  inr (IPv4 a b c d, {| ipn_IP := Some (IPv4 a b c d); ipn_Mask := Some (CIDRMask 32 32) |}).
Proof.
  intros. unfold ParseCIDR. change "/32" with (String "/" "32").
  rewrite Cut_app by by apply no_byte_dotted. rewrite ParseAddr_dotted by done. 
  change (dtoi_from "32" 0 0) with (32%Z, 2, true). cbn -[IPv4 IP_Mask CIDRMask].
  by rewrite IP_Mask_full.
Qed.

(** Every IPv4 address is one of four octets. *)
Lemma is4_octets ip :
  is4 ip = true -> exists a b c d, octet a /\ octet b /\ octet c /\ octet d /\ ip = IPv4 a b c d.
Proof.
  unfold is4, IPv4, v4_prefix, octet. intros H%Z.eqb_eq.
  set (r := (ip mod 2 ^ 32)%Z). assert (Hr : (0 <= r < 2 ^ 32)%Z) by (apply Z.mod_pos_bound; lia).
  assert (Hip : ip = (65535 * 2 ^ 32 + r)%Z).
  { unfold r. rewrite (Z.div_mod ip (2 ^ 32)) at 1 by lia. rewrite H. lia. }
  exists (r / 2 ^ 24)%Z, (r / 2 ^ 16 mod 256)%Z, (r / 2 ^ 8 mod 256)%Z, (r mod 256)%Z.
  change (2 ^ 32)%Z with 4294967296%Z in *. change (2 ^ 24)%Z with 16777216%Z.
  change (2 ^ 16)%Z with 65536%Z. change (2 ^ 8)%Z with 256%Z. clearbody r. subst ip. clear H.
  repeat split; Z.div_mod_to_equations; lia.
Qed.

(** The network of one printed address. *)
Lemma ParseCIDR_host ip :
  is4 ip = true ->
  ParseCIDR (IP_String (Some ip) +:+ "/32") =
  inr (ip, {| ipn_IP := Some ip; ipn_Mask := Some (CIDRMask 32 32) |}).
Proof.
  intros (a & b & c & d & Ha & Hb & Hc & Hd & ->)%is4_octets.
  by rewrite IP_String_IPv4, ParseCIDR_dotted32.
Qed.
