(* ===== verification/Floats.v ===== *)
(** * Decimal text of [float64] numbers ([strconv])

    A number in JSON is read into a [float64] and written again in the shortest decimal
    form that reads back as the same number.  Here a number is given by its decimal
    digits and the position of its point, as in [strconv]'s own decimals; [roundFloat]
    is the nearest [float64], with ties to even, and [float64Text] the text that is
    written for a literal.  Writing what was read is stable ([float64Text_stable]). *)

From stdpp Require Import base tactics list strings.
From Stdlib Require Import Ascii ZArith NArith Lia DecimalString.
From S2P Require Import Prelude GoStrings.

Open Scope string_scope.
Open Scope Z_scope.

(** The digits after "0." and the power of ten; no digits for zero. *)
Definition decimal : Type := string * Z.

Definition isDigit (c : ascii) : bool := ((48 <=? N_of_ascii c) && (N_of_ascii c <=? 57))%N.
Definition digitValue (c : ascii) : Z := Z.of_N (N_of_ascii c) - 48.

Fixpoint takeDigits (s : string) : string * string :=
  match s with
  | String c s' => if isDigit c then let '(ds, rest) := takeDigits s' in (String c ds, rest) else ("", s)
  | EmptyString => ("", "")
  end.
Fixpoint digitsValue (acc : Z) (s : string) : Z :=
  match s with
  | String c s' => digitsValue (10 * acc + digitValue c) s'
  | EmptyString => acc
  end.
Fixpoint strLen (s : string) : Z := match s with String _ s' => 1 + strLen s' | EmptyString => 0 end.

Fixpoint stripLeading (s : string) (dp : Z) : decimal :=
  match s with
  | String "0" s' => stripLeading s' (dp - 1)
  | _ => (s, dp)
  end.
Fixpoint stripTrailing (s : string) : string :=
  match s with
  | EmptyString => ""
  | String c s' =>
      match stripTrailing s' with
      | EmptyString => if Ascii.eqb c "0" then "" else String c ""
      | t => String c t
      end
  end.
Definition normalize (ds : string) (dp : Z) : decimal :=
  let '(ds, dp) := stripLeading ds dp in
  match stripTrailing ds with EmptyString => ("", 0) | t => (t, dp) end.

(** The sign and the value of a literal of JSON's grammar. *)
Definition readExponent (s : string) : Z :=
  match s with
  | String c s' =>
      if Ascii.eqb c "e" || Ascii.eqb c "E" then
        match s' with
        | String c' s'' =>
            if Ascii.eqb c' "-" then - digitsValue 0 (fst (takeDigits s''))
            else if Ascii.eqb c' "+" then digitsValue 0 (fst (takeDigits s''))
            else digitsValue 0 (fst (takeDigits s'))
        | EmptyString => 0
        end
      else 0
  | EmptyString => 0
  end.
Definition readUnsigned (s : string) : decimal :=
  let '(int, s1) := takeDigits s in
  let '(frac, s2) :=
    match s1 with
    | String c s' => if Ascii.eqb c "." then takeDigits s' else ("", s1)
    | EmptyString => ("", "")
    end in
  normalize (int +:+ frac) (strLen int + readExponent s2).
Definition readLiteral (s : string) : bool * decimal :=
  match s with
  | String c s' => if Ascii.eqb c "-" then (true, readUnsigned s') else (false, readUnsigned s)
  | EmptyString => (false, ("", 0))
  end.

(** Division to the nearest, with ties to even. *)
Definition divEven (p q : Z) : Z :=
  let r := p / q in
  match Z.compare (2 * (p mod q)) q with
  | Lt => r
  | Gt => r + 1
  | Eq => if Z.even r then r else r + 1
  end.

(** [n * b^e] for an exponent of any sign, as a fraction. *)
Definition scaled (n b e : Z) : Z * Z := if 0 <=? e then (n * b ^ e, 1) else (n, b ^ (- e)).

(** The nearest [float64] as a significand and a power of two; [None] when it is too
    large.  Magnitudes beyond these bounds are decided without the power of ten. *)
Definition roundFloat (d : decimal) : option (Z * Z) :=
  let '(ds, dp) := d in
  if String.eqb ds "" then Some (0, 0)
  else if 310 <? dp then None
  else if dp <? -330 then Some (0, 0)
  else
    let '(p, q) := scaled (digitsValue 0 ds) 10 (dp - strLen ds) in
    let e0 := Z.log2 p - Z.log2 q in
    let '(a, b) := scaled 1 2 e0 in
    let e := if q * a <=? p * b then e0 else e0 - 1 in
    let s := Z.max (e - 52) (-1074) in
    let '(a, b) := scaled 1 2 s in
    let m := divEven (p * b) (q * a) in
    let '(m, s) := if m =? 2 ^ 53 then (2 ^ 52, s + 1) else (m, s) in
    if 971 <? s then None else if m =? 0 then Some (0, 0) else Some (m, s).

(** The position of the decimal point of a fraction. *)
Fixpoint pointBelowOne (fuel : nat) (p q dp : Z) : Z :=
  match fuel with
  | O => dp
  | S fuel' => if 10 * p <? q then pointBelowOne fuel' (10 * p) q (dp - 1) else dp
  end.
Definition pointOf (p q : Z) : Z := if q <=? p then strLen (Itoa (p / q)) else pointBelowOne 330 p q 0.

(** The nearest decimal of [n] digits. *)
Definition nearest (x : Z * Z) (n : nat) : decimal :=
  let '(p, q) := scaled (fst x) 2 (snd x) in
  let k := pointOf p q - Z.of_nat n in
  let '(a, b) := scaled 1 10 k in
  let ds := Itoa (divEven (p * b) (q * a)) in
  normalize ds (strLen ds + k).

Fixpoint allDigits (s : string) : bool :=
  match s with String c s' => isDigit c && allDigits s' | EmptyString => true end.
(** Digits without zeros at either end. *)
Definition normal (d : decimal) : bool :=
  allDigits (fst d) && match fst d with String "0" _ => false | _ => true end &&
  String.eqb (stripTrailing (fst d)) (fst d).

Definition readsAs (x : Z * Z) (d : decimal) : bool :=
  normal d && negb (String.eqb (fst d) "") && bool_decide (roundFloat d = Some x).

(** The shortest decimal that reads as the number: at most seventeen digits. *)
Fixpoint search (x : Z * Z) (n fuel : nat) : option decimal :=
  match fuel with
  | O => None
  | S fuel' => let d := nearest x n in if readsAs x d then Some d else search x (S n) fuel'
  end.
Definition shortest (x : Z * Z) (d : decimal) : decimal := default d (search x 1 17).
Definition canonical (d : decimal) : option decimal :=
  match roundFloat d with
  | None => None
  | Some x => Some (if fst x =? 0 then ("", 0) else shortest x d)
  end.

(** The text: with an exponent below [1e-6] and from [1e21] on. *)
Fixpoint zeros (n : nat) : string := match n with O => "" | S n' => String "0" (zeros n') end.
Definition formatUnsigned (d : decimal) : string :=
  let '(ds, dp) := d in
  match ds with
  | EmptyString => "0"
  | String c ds' =>
      if (dp <? -5) || (21 <? dp) then
        String c ((match ds' with EmptyString => "" | _ => String "." ds' end) +:+
                  "e" +:+ (if dp - 1 <? 0 then "-" else "+") +:+ Itoa (Z.abs (dp - 1)))
      else if dp <=? 0 then "0." +:+ zeros (Z.to_nat (- dp)) +:+ ds
      else if strLen ds <=? dp then ds +:+ zeros (Z.to_nat (dp - strLen ds))
      else String.substring 0 (Z.to_nat dp) ds +:+ "." +:+ str_drop (Z.to_nat dp) ds
  end.
Definition formatFloat (neg : bool) (d : decimal) : string := (if neg then "-" else "") +:+ formatUnsigned d.

Definition float64Text (literal : string) : option string :=
  let '(neg, d) := readLiteral literal in
  match canonical d with
  | None => None
  | Some c => Some (formatFloat neg c)
  end.

Example float64Text_ex :
  float64Text <$> ["1500"; "1.50"; "1e21"; "123456789012345678901"; "1E-7"; "9007199254740993";
                   "1e309"; "-0.0"; "0.000001"; "0.30000000000000004"; "12.5e+1"] =
  [Some "1500"; Some "1.5"; Some "1e+21"; Some "123456789012345680000"; Some "1e-7";
   Some "9007199254740992"; None; Some "-0"; Some "0.000001"; Some "0.30000000000000004"; Some "125"].
Proof. vm_compute. reflexivity. Qed.

(** ** Writing is stable *)

Lemma allDigits_app s t : allDigits (s +:+ t) = allDigits s && allDigits t.
Proof.
  induction s as [|c s IH]; [done|]. change (String c s +:+ t) with (String c (s +:+ t)). simpl.
  by rewrite IH, andb_assoc.
Qed.

Lemma strLen_length s : strLen s = Z.of_nat (String.length s).
Proof. induction s as [|c s IH]; simpl; lia. Qed.

Lemma strLen_app s t : strLen (s +:+ t) = strLen s + strLen t.
Proof. rewrite !strLen_length, length_str_app. lia. Qed.

Lemma allDigits_zeros n : allDigits (zeros n) = true.
Proof. by induction n. Qed.
Lemma strLen_zeros n : strLen (zeros n) = Z.of_nat n.
Proof. induction n as [|n IH]; [done|]. cbn [zeros strLen]. rewrite IH. lia. Qed.

Lemma takeDigits_digits s : allDigits (fst (takeDigits s)) = true.
Proof.
  induction s as [|c s IH]; [done|]. simpl. destruct (isDigit c) eqn:Hc; [|done].
  destruct (takeDigits s). simpl in *. by rewrite Hc, IH.
Qed.

(** The digits stop at the end or at another character. *)
Definition stops (s : string) : Prop := match s with String c _ => isDigit c = false | EmptyString => True end.
Lemma takeDigits_app s t : allDigits s = true -> stops t -> takeDigits (s +:+ t) = (s, t).
Proof.
  intros Hs Ht. induction s as [|c s IH].
  - destruct t as [|c t]; [done|]. simpl in *. by rewrite Ht.
  - simpl in Hs. apply andb_true_iff in Hs as [Hc Hs]. change (String c s +:+ t) with (String c (s +:+ t)).
    simpl. by rewrite Hc, IH.
Qed.
Lemma takeDigits_all s : allDigits s = true -> takeDigits s = (s, "").
Proof. intros Hs. pose proof (takeDigits_app s "" Hs I) as E. by rewrite string_app_nil_r in E. Qed.

Lemma stripLeading_zeros n s dp :
  stripLeading (zeros n +:+ s) dp = stripLeading s (dp - Z.of_nat n).
Proof.
  revert dp. induction n as [|n IH]; intros dp; [cbn; f_equal; lia|].
  change (zeros (S n) +:+ s) with (String "0" (zeros n +:+ s)). cbn [stripLeading]. rewrite IH. f_equal. lia.
Qed.

Lemma stripLeading_spec s dp :
  let '(t, dp') := stripLeading s dp in
  (match t with String "0" _ => False | _ => True end) /\ (allDigits s = true -> allDigits t = true).
Proof.
  revert dp. induction s as [|c s IH]; intros dp; [done|]. simpl.
  destruct c as [[] [] [] [] [] [] [] []]; try done. specialize (IH (dp - 1)). by destruct (stripLeading s (dp - 1)).
Qed.

Lemma stripTrailing_zeros s n : stripTrailing (s +:+ zeros n) = stripTrailing s.
Proof.
  induction s as [|c s IH].
  - induction n as [|n IH]; [done|]. change ("" +:+ zeros n) with (zeros n) in IH.
    change ("" +:+ zeros (S n)) with (String "0" (zeros n)). cbn [stripTrailing]. rewrite IH. done.
  - change (String c s +:+ zeros n) with (String c (s +:+ zeros n)). simpl. by rewrite IH.
Qed.

Lemma stripTrailing_idemp s : stripTrailing (stripTrailing s) = stripTrailing s.
Proof.
  induction s as [|c s IH]; [done|]. simpl. destruct (stripTrailing s) as [|d t] eqn:E.
  - destruct (Ascii.eqb c "0") eqn:Hc; [done|]. simpl. by rewrite Hc.
  - simpl in *. by rewrite IH.
Qed.

Lemma stripTrailing_head c s : Ascii.eqb c "0" = false -> exists t, stripTrailing (String c s) = String c t.
Proof. intros Hc. simpl. destruct (stripTrailing s); [rewrite Hc|]; eauto. Qed.

Lemma stripTrailing_digits s : allDigits s = true -> allDigits (stripTrailing s) = true.
Proof.
  induction s as [|c s IH]; [done|]. cbn [allDigits stripTrailing].
  intros [Hc Hs]%andb_true_iff. specialize (IH Hs). destruct (stripTrailing s); [destruct (Ascii.eqb c "0")|];
    cbn [allDigits] in *; rewrite ?Hc; done.
Qed.

Lemma normal_nil dp : normal ("", dp) = true.
Proof. done. Qed.

Lemma normalize_normal ds dp : allDigits ds = true -> normal (normalize ds dp) = true.
Proof.
  intros Hd. unfold normalize. pose proof (stripLeading_spec ds dp) as Hs.
  destruct (stripLeading ds dp) as [t dp'], Hs as [Hh Ht]. specialize (Ht Hd).
  destruct t as [|c t]; [done|].
  assert (Hc : Ascii.eqb c "0" = false).
  { apply Ascii.eqb_neq. intros ->. done. }
  pose proof (stripTrailing_digits _ Ht) as Hdig. pose proof (stripTrailing_idemp (String c t)) as Hid.
  destruct (stripTrailing_head c t Hc) as [u Hu]. rewrite Hu in *. unfold normal. cbn [fst].
  rewrite Hdig, Hid, String.eqb_refl. by destruct c as [[] [] [] [] [] [] [] []].
Qed.

Lemma readUnsigned_normal s : normal (readUnsigned s) = true.
Proof.
  unfold readUnsigned. pose proof (takeDigits_digits s) as Hi. destruct (takeDigits s) as [int s1]. simpl in Hi.
  destruct s1 as [|c s1]; [apply normalize_normal; by rewrite string_app_nil_r|].
  destruct (Ascii.eqb c ".").
  - pose proof (takeDigits_digits s1) as Hf. destruct (takeDigits s1) as [frac s2]. simpl in Hf.
    apply normalize_normal. by rewrite allDigits_app, Hi, Hf.
  - apply normalize_normal. by rewrite string_app_nil_r.
Qed.

(** Normal digits are left alone by the normalization. *)
Lemma normalize_keeps ds dp : normal (ds, dp) = true -> ds <> "" -> normalize ds dp = (ds, dp).
Proof.
  unfold normal, normalize. cbn [fst]. intros [[_ Hh]%andb_true_iff Ht%String.eqb_eq]%andb_true_iff Hne.
  destruct ds as [|c ds]; [done|].
  assert (stripLeading (String c ds) dp = (String c ds, dp)) as -> by by destruct c as [[] [] [] [] [] [] [] []].
  by rewrite Ht.
Qed.

Lemma normalize_padded n m ds dp :
  normal (ds, dp) = true -> ds <> "" ->
  normalize (zeros n +:+ ds +:+ zeros m) dp = (ds, dp - Z.of_nat n).
Proof.
  unfold normal, normalize. cbn [fst]. intros [[_ Hh]%andb_true_iff Ht%String.eqb_eq]%andb_true_iff Hne.
  rewrite stripLeading_zeros. destruct ds as [|c ds]; [done|].
  set (dp' := dp - Z.of_nat n).
  assert (stripLeading (String c ds +:+ zeros m) dp' = (String c ds +:+ zeros m, dp')) as ->
    by by destruct c as [[] [] [] [] [] [] [] []].
  by rewrite stripTrailing_zeros, Ht.
Qed.

(** Exponents in the range of [roundFloat]. *)
Lemma exponent_reads e :
  0 <= e <= 400 -> allDigits (Itoa e) = true /\ digitsValue 0 (Itoa e) = e.
Proof.
  intros He.
  assert (Hall : forallb (fun n => allDigits (Itoa (Z.of_nat n)) && (digitsValue 0 (Itoa (Z.of_nat n)) =? Z.of_nat n))
                   (seq 0 401) = true) by (vm_compute; reflexivity).
  assert (Hin : In (Z.to_nat e) (seq 0 401)) by (apply in_seq; lia).
  apply (proj1 (forallb_forall _ _) Hall) in Hin. rewrite Z2Nat.id in Hin by lia.
  apply andb_true_iff in Hin as [H1 H2]. split; [done|]. by apply Z.eqb_eq.
Qed.

(** Reading the parts of a literal. *)
Definition point (frac : string) : string := match frac with EmptyString => "" | _ => String "." frac end.

Lemma readUnsigned_parts int frac exp :
  allDigits int = true -> allDigits frac = true ->
  match exp with EmptyString => True | String c _ => c = "e"%char end ->
  readUnsigned (int +:+ point frac +:+ exp) = normalize (int +:+ frac) (strLen int + readExponent exp).
Proof.
  intros Hi Hf He.
  assert (Hs : stops exp) by (destruct exp as [|c exp]; [done|]; by rewrite He).
  unfold readUnsigned. destruct frac as [|c frac].
  - cbn [point]. change ("" +:+ exp) with exp. rewrite takeDigits_app by done.
    by destruct exp as [|c exp]; [|subst c].
  - cbn [point]. set (f := String c frac) in *. change (String "." f +:+ exp) with (String "." (f +:+ exp)).
    rewrite takeDigits_app by done. cbn [Ascii.eqb Bool.eqb]. by rewrite takeDigits_app.
Qed.

Lemma split_at n s :
  (n <= String.length s)%nat ->
  String.substring 0 n s +:+ str_drop n s = s /\ String.length (String.substring 0 n s) = n.
Proof.
  revert s. induction n as [|n IH]; intros [|c s] Hn; simpl in Hn; try done; try lia.
  destruct (IH s ltac:(lia)) as [H1 H2]. split; [|simpl; by rewrite H2].
  change (String c (String.substring 0 n s +:+ str_drop n s) = String c s). by rewrite H1.
Qed.

Lemma readExponent_written e :
  -400 <= e <= 400 -> readExponent ("e" +:+ (if e <? 0 then "-" else "+") +:+ Itoa (Z.abs e)) = e.
Proof.
  intros He. destruct (exponent_reads (Z.abs e) ltac:(lia)) as [Hd Hv].
  destruct (Z.ltb_spec e 0).
  - change ("e" +:+ "-" +:+ Itoa (Z.abs e)) with (String "e" (String "-" (Itoa (Z.abs e)))).
    cbn [readExponent Ascii.eqb Bool.eqb orb]. rewrite takeDigits_all by done. cbn [fst]. lia.
  - change ("e" +:+ "+" +:+ Itoa (Z.abs e)) with (String "e" (String "+" (Itoa (Z.abs e)))).
    cbn [readExponent Ascii.eqb Bool.eqb orb]. rewrite takeDigits_all by done. cbn [fst]. lia.
Qed.

Lemma normal_digits ds dp : normal (ds, dp) = true -> allDigits ds = true.
Proof. unfold normal. cbn [fst]. by intros [[? _]%andb_true_iff _]%andb_true_iff. Qed.

(** What is written for a number reads back as it. *)
Lemma read_format ds dp :
  normal (ds, dp) = true -> ds <> "" -> -330 <= dp <= 330 -> readUnsigned (formatUnsigned (ds, dp)) = (ds, dp).
Proof.
  intros Hn Hne Hdp. pose proof (normal_digits _ _ Hn) as Hd.
  unfold formatUnsigned. destruct ds as [|c ds]; [done|]. set (all := String c ds) in *.
  destruct ((dp <? -5) || (21 <? dp)).
  - change (String c ?x) with (String c "" +:+ x).
    simpl in Hd. apply andb_true_iff in Hd as [Hc Hds].
    change (match ds with EmptyString => "" | _ => String "." ds end) with (point ds).
    rewrite readUnsigned_parts; [|simpl; by rewrite Hc|done|done].
    rewrite readExponent_written by lia. change (String c "" +:+ ds) with all.
    change (strLen (String c "")) with 1. replace (1 + (dp - 1)) with dp by lia. by apply normalize_keeps.
  - destruct (Z.leb_spec dp 0).
    + pose proof (readUnsigned_parts "0" (zeros (Z.to_nat (- dp)) +:+ all) "") as Hr.
      rewrite allDigits_app, allDigits_zeros in Hr. specialize (Hr eq_refl Hd I). rewrite string_app_nil_r in Hr.
      assert (Hp : point (zeros (Z.to_nat (- dp)) +:+ all) = String "." (zeros (Z.to_nat (- dp)) +:+ all))
        by by destruct (Z.to_nat (- dp)).
      rewrite Hp in Hr. change ("0" +:+ String "." ?x) with ("0." +:+ x) in Hr. rewrite Hr.
      change ("0" +:+ (zeros (Z.to_nat (- dp)) +:+ all)) with (zeros (S (Z.to_nat (- dp))) +:+ all).
      pose proof (normalize_padded (S (Z.to_nat (- dp))) 0 all (strLen "0" + readExponent "")) as Hz.
      cbn [zeros] in Hz. rewrite string_app_nil_r in Hz. cbn [zeros]. rewrite Hz by done. f_equal. simpl. lia.
    + destruct (Z.leb_spec (strLen all) dp).
      * pose proof (readUnsigned_parts (all +:+ zeros (Z.to_nat (dp - strLen all))) "" "") as Hr.
        rewrite allDigits_app, allDigits_zeros, Hd in Hr. specialize (Hr eq_refl eq_refl I).
        change (point "" +:+ "") with "" in Hr. rewrite !string_app_nil_r in Hr. rewrite Hr.
        pose proof (normalize_padded 0 (Z.to_nat (dp - strLen all)) all) as Hz.
        cbn [zeros] in Hz. change ("" +:+ ?x) with x in Hz. rewrite Hz by done. f_equal.
        rewrite strLen_app, strLen_zeros. change (readExponent "") with 0. lia.
      * rewrite strLen_length in H0. destruct (split_at (Z.to_nat dp) all ltac:(lia)) as [Hsplit Hlen].
        set (a := String.substring 0 (Z.to_nat dp) all) in *. set (b := str_drop (Z.to_nat dp) all) in *.
        pose proof Hd as Hab. rewrite <-Hsplit, allDigits_app in Hab. apply andb_true_iff in Hab as [Ha Hb].
        assert (Hp : point b = "." +:+ b).
        { clearbody a b. destruct b as [|x b']; [|done]. exfalso.
          rewrite string_app_nil_r in Hsplit. rewrite Hsplit in Hlen. lia. }
        rewrite <-Hp. pose proof (readUnsigned_parts a b "" Ha Hb I) as Hr. rewrite string_app_nil_r in Hr.
        rewrite Hr, Hsplit. change (readExponent "") with 0. rewrite strLen_length, Hlen.
        rewrite Z.add_0_r, Z2Nat.id by lia. by apply normalize_keeps.
Qed.

(** The bounds within which a decimal is rounded to a number that is not zero. *)
Lemma roundFloat_bounds ds dp x :
  roundFloat (ds, dp) = Some x -> fst x <> 0 -> ds <> "" /\ -330 <= dp <= 310.
Proof.
  unfold roundFloat. destruct (String.eqb_spec ds ""); [by intros [= <-]|].
  destruct (Z.ltb_spec 310 dp); [done|]. destruct (Z.ltb_spec dp (-330)); [by intros [= <-]|]. done || lia.
Qed.

Lemma search_reads x n fuel d : search x n fuel = Some d -> readsAs x d = true.
Proof.
  revert n. induction fuel as [|fuel IH]; intros n; [done|]. cbn [search].
  destruct (readsAs x (nearest x n)) eqn:E; [by intros [= <-]|]. apply IH.
Qed.

(** The shortest form of a number is a normal form of the same number. *)
Lemma shortest_reads x d :
  normal d = true -> roundFloat d = Some x -> fst x <> 0 ->
  normal (shortest x d) = true /\ roundFloat (shortest x d) = Some x.
Proof.
  intros Hn Hr Hx. unfold shortest. destruct (search x 1 17) as [c|] eqn:Hs; [|done].
  apply search_reads in Hs. unfold readsAs in Hs.
  apply andb_true_iff in Hs as [[? _]%andb_true_iff ?%bool_decide_eq_true]. done.
Qed.

Lemma canonical_stable d c :
  normal d = true -> canonical d = Some c ->
  canonical c = Some c /\ normal c = true /\ (c = ("", 0) \/ fst c <> "" /\ -330 <= snd c <= 310).
Proof.
  intros Hn. unfold canonical at 1. destruct (roundFloat d) as [x|] eqn:Hr; [|done]. intros [= <-].
  destruct (Z.eqb_spec (fst x) 0) as [|Hx]; [by auto|].
  destruct (shortest_reads x d Hn Hr Hx) as [Hc Hrc]. split; [|split; [done|]].
  - unfold canonical. rewrite Hrc. apply Z.eqb_neq in Hx. rewrite Hx. f_equal.
    unfold shortest. by destruct (search x 1 17).
  - right. destruct (shortest x d) as [ds dp]. apply (roundFloat_bounds _ _ _ Hrc Hx).
Qed.

Lemma readUnsigned_format c :
  normal c = true -> c = ("", 0) \/ fst c <> "" /\ -330 <= snd c <= 310 ->
  readUnsigned (formatUnsigned c) = c.
Proof.
  intros Hn [-> | [Hne Hdp]]; [done|]. destruct c as [ds dp]. apply read_format; simpl in *; [done|done|lia].
Qed.

(** Nothing that is written for a number without its sign begins with a minus. *)
Lemma formatUnsigned_head c :
  normal c = true -> match formatUnsigned c with String x _ => Ascii.eqb x "-" = false | EmptyString => False end.
Proof.
  destruct c as [ds dp]. intros Hd%normal_digits. unfold formatUnsigned. destruct ds as [|x ds]; [done|].
  assert (Hx : Ascii.eqb x "-" = false).
  { apply Ascii.eqb_neq. intros ->. done. }
  destruct ((dp <? -5) || (21 <? dp)); [done|]. destruct (Z.leb_spec dp 0); [done|].
  destruct (strLen (String x ds) <=? dp); [done|].
  destruct (Z.to_nat dp) as [|n] eqn:E; [lia|]. done.
Qed.

Lemma readLiteral_normal literal neg d : readLiteral literal = (neg, d) -> normal d = true.
Proof.
  unfold readLiteral. destruct literal as [|c l]; [by intros [= _ <-]|].
  destruct (Ascii.eqb c "-"); intros [= _ <-]; apply readUnsigned_normal.
Qed.

(** The text of a number that was read is written as it is. *)
Lemma float64Text_stable literal text : float64Text literal = Some text -> float64Text text = Some text.
Proof.
  unfold float64Text at 1. destruct (readLiteral literal) as [neg d] eqn:Hl.
  pose proof (readLiteral_normal _ _ _ Hl) as Hn.
  destruct (canonical d) as [c|] eqn:Hc; [|done]. intros [= <-].
  destruct (canonical_stable d c Hn Hc) as (Hcc & Hnc & Hb).
  pose proof (formatUnsigned_head c Hnc) as Hh. unfold float64Text, formatFloat.
  assert (readLiteral ((if neg then "-" else "") +:+ formatUnsigned c) = (neg, c)) as ->.
  { destruct neg.
    - change ("-" +:+ ?x) with (String "-" x). simpl. by rewrite readUnsigned_format.
    - change ("" +:+ ?x) with x. pose proof (readUnsigned_format c Hnc Hb) as Hf. unfold readLiteral.
      destruct (formatUnsigned c); [done|]. by rewrite Hh, Hf. }
  by rewrite Hcc.
Qed.
