(* ===== verification/JSON.v ===== *)
(** * JSON ([encoding/json])

    The text format of JSON as [encoding/json] reads and writes it.  Reading is a scan
    of the bytes by a state machine with a stack of open arrays and objects, as in the
    package's scanner, so it is total without a bound; writing is [MarshalIndent] with
    its sorted keys and escapes.  A document ([doc]) keeps the order and the repetition
    of keys; a value ([json]) is what the package makes of it for an [interface{}].
    What is written is read back as it was. *)

From stdpp Require Import base tactics list strings gmap sorting.
From Stdlib Require Import Ascii ZArith NArith Lia.
From S2P Require Import Prelude GoStrings Floats.

Open Scope string_scope.
Open Scope list_scope.

(** ** Documents *)

#[local] Set Warnings "-register-all".
Inductive doc :=
| DNull
| DBool (b : bool)
| DNumber (literal : string)
| DString (s : string)
| DArray (l : list doc)
| DObject (members : list (string * doc)).

(** ** Strings *)

Definition between (lo : N) (c : ascii) (hi : N) : bool := ((lo <=? N_of_ascii c) && (N_of_ascii c <=? hi))%N.
Definition isASCII (c : ascii) : bool := (N_of_ascii c <? 128)%N.

(** The well-formed sequences of UTF-8 of two, three and four bytes. *)
Definition trailing (c : ascii) : bool := between 128 c 191.
Definition rune2 (a b : ascii) : bool := between 194 a 223 && trailing b.
Definition rune3 (a b c : ascii) : bool :=
  (between 224 a 224 && between 160 b 191 || between 225 a 236 && trailing b ||
   between 237 a 237 && between 128 b 159 || between 238 a 239 && trailing b) && trailing c.
Definition rune4 (a b c d : ascii) : bool :=
  (between 240 a 240 && between 144 b 191 || between 241 a 243 && trailing b ||
   between 244 a 244 && between 128 b 143) && trailing c && trailing d.

(** The bytes of U+FFFD. *)
Definition replacement : string := String "239" (String "191" (String "189" "")).

Definition hexDigit (n : N) : ascii := ascii_of_N (if (n <? 10)%N then n + 48 else n + 87)%N.

(** The escape of an ASCII byte: HTML's special characters are escaped as well. *)
Definition escapeASCII (c : ascii) : string :=
  let n := N_of_ascii c in
  if Ascii.eqb c "\" || Ascii.eqb c "034" then String "\" (String c "")
  else if (n =? 8)%N then "\b" else if (n =? 12)%N then "\f" else if (n =? 10)%N then "\n"
  else if (n =? 13)%N then "\r" else if (n =? 9)%N then "\t"
  else if (n <? 32)%N || Ascii.eqb c "<" || Ascii.eqb c ">" || Ascii.eqb c "&"
  then "\u00" +:+ String (hexDigit (n / 16)) (String (hexDigit (n mod 16)) "")
  else String c "".

(** U+2028 and U+2029 *)
Definition isLineSeparator (a b c : ascii) : bool :=
  between 226 a 226 && between 128 b 128 && between 168 c 169.

(** The body of a string literal.  A byte that begins no rune is written as the
    replacement character. *)
Fixpoint escape (s : string) : string :=
  match s with
  | EmptyString => ""
  | String a s1 =>
      if isASCII a then escapeASCII a +:+ escape s1
      else
        let bad := "\ufffd" +:+ escape s1 in
        match s1 with
        | EmptyString => bad
        | String b s2 =>
            if rune2 a b then String a (String b (escape s2))
            else match s2 with
                 | EmptyString => bad
                 | String c s3 =>
                     if rune3 a b c then
                       (if isLineSeparator a b c
                        then "\u202" +:+ String (hexDigit (N_of_ascii c - 160)) ""
                        else String a (String b (String c ""))) +:+ escape s3
                     else match s3 with
                          | EmptyString => bad
                          | String d s4 =>
                              if rune4 a b c d then String a (String b (String c (String d (escape s4))))
                              else bad
                          end
                 end
        end
  end.
Definition quoteJSON (s : string) : string := String "034" (escape s +:+ String "034" "").

Definition hexValue (c : ascii) : option N :=
  let n := N_of_ascii c in
  if between 48 c 57 then Some (n - 48)%N
  else if between 97 c 102 then Some (n - 87)%N
  else if between 65 c 70 then Some (n - 55)%N
  else None.
Definition hex4 (a b c d : ascii) : option N :=
  match hexValue a, hexValue b, hexValue c, hexValue d with
  | Some a, Some b, Some c, Some d => Some (((a * 16 + b) * 16 + c) * 16 + d)%N
  | _, _, _, _ => None
  end.

(** [utf8.AppendRune] *)
Definition encodeRune (r : N) : string :=
  (let low n := ascii_of_N (128 + (r / n) mod 64) in
   if r <? 128 then String (ascii_of_N r) ""
   else if r <? 2048 then String (ascii_of_N (192 + r / 64)) (String (low 1) "")
   else if r <? 65536 then String (ascii_of_N (224 + r / 4096)) (String (low 64) (String (low 1) ""))
   else String (ascii_of_N (240 + r / 262144)) (String (low 4096) (String (low 64) (String (low 1) ""))))%N.

(** [utf16.DecodeRune] *)
Definition surrogatePair (r1 r2 : N) : option N :=
  (if (55296 <=? r1) && (r1 <? 56320) && (56320 <=? r2) && (r2 <? 57344)
   then Some ((r1 - 55296) * 1024 + (r2 - 56320) + 65536) else None)%N.
Definition isSurrogate (r : N) : bool := ((55296 <=? r) && (r <? 57344))%N.

(** The escapes of one letter. *)
Definition isEscape (e : ascii) : bool := existsb (Ascii.eqb e) ["b"; "f"; "n"; "r"; "t"; "\"; "/"; "034"]%char.
Definition unescape (e : ascii) : ascii :=
  if Ascii.eqb e "b" then "008" else if Ascii.eqb e "f" then "012" else if Ascii.eqb e "n" then "010"
  else if Ascii.eqb e "r" then "013" else if Ascii.eqb e "t" then "009" else e.

(** The string a scanned literal stands for; a byte that begins no rune and half a
    surrogate pair stand for the replacement character.  The scanner lets no other
    escapes through. *)
Fixpoint unquote (s : string) : string :=
  match s with
  | EmptyString => ""
  | String a s1 =>
      if Ascii.eqb a "\" then
        match s1 with
        | EmptyString => ""
        | String e s2 =>
            if Ascii.eqb e "u" then
              match s2 with
              | String h1 (String h2 (String h3 (String h4 s6))) =>
                  match hex4 h1 h2 h3 h4 with
                  | None => ""
                  | Some r =>
                      if isSurrogate r then
                        match s6 with
                        | String b (String u (String k1 (String k2 (String k3 (String k4 s12))))) =>
                            match (if Ascii.eqb b "\" && Ascii.eqb u "u" then hex4 k1 k2 k3 k4 else None) with
                            | None => replacement +:+ unquote s6
                            | Some r2 =>
                                match surrogatePair r r2 with
                                | Some r => encodeRune r +:+ unquote s12
                                | None => replacement +:+ unquote s6
                                end
                            end
                        | _ => replacement +:+ unquote s6
                        end
                      else encodeRune r +:+ unquote s6
                  end
              | _ => ""
              end
            else if isEscape e then String (unescape e) (unquote s2) else ""
        end
      else if isASCII a then String a (unquote s1)
      else
        let bad := replacement +:+ unquote s1 in
        match s1 with
        | EmptyString => bad
        | String b s2 =>
            if rune2 a b then String a (String b (unquote s2))
            else match s2 with
                 | EmptyString => bad
                 | String c s3 =>
                     if rune3 a b c then String a (String b (String c (unquote s3)))
                     else match s3 with
                          | EmptyString => bad
                          | String d s4 =>
                              if rune4 a b c d then String a (String b (String c (String d (unquote s4))))
                              else bad
                          end
                 end
        end
  end.

Example unquote_ex : unquote "a\u00e9\ud83d\ude00\ud83dx\n" =
  "a" +:+ String "195" (String "169" (String "240" (String "159" (String "152" (String "128"
  (replacement +:+ "x" +:+ String "010" "")))))).
Proof. reflexivity. Qed.

(** ** The scanner *)

(** How the package's errors show a character ([quoteChar]). *)
Definition quoteChar (c : ascii) : string :=
  let n := N_of_ascii c in
  if Ascii.eqb c "'" then "'\''"
  else if Ascii.eqb c "034" then "'" +:+ String "034" "'"
  else
    "'" +:+ (if Ascii.eqb c "\" then "\\"
             else if (n =? 7)%N then "\a" else if (n =? 8)%N then "\b" else if (n =? 12)%N then "\f"
             else if (n =? 10)%N then "\n" else if (n =? 13)%N then "\r" else if (n =? 9)%N then "\t"
             else if (n =? 11)%N then "\v"
             else if (n <? 32)%N || (n =? 127)%N
             then "\x" +:+ String (hexDigit (n / 16)) (String (hexDigit (n mod 16)) "")
             else if between 128 c 160 || (n =? 173)%N
             then "\u00" +:+ String (hexDigit (n / 16)) (String (hexDigit (n mod 16)) "")
             else encodeRune n) +:+ "'".
Definition syntaxError (c : ascii) (context : string) : gerror :=
  EText ("invalid character " +:+ quoteChar c +:+ " " +:+ context).

Definition maxNestingDepth : nat := Z.to_nat 10000.

(** The containers that are open, with what they hold so far; an object waits for a
    key, for the colon after it, for the value, or for the comma after it. *)
Inductive frame :=
| FArray (l : list doc)
| FKey (ms : list (string * doc))
| FColon (ms : list (string * doc)) (key : string)
| FMember (ms : list (string * doc)) (key : string)
| FPairs (ms : list (string * doc)).

Inductive numberState := NNeg | NZero | NInt | NDot | NFrac | NExp | NExpSign | NExpDigits.

(** The states of the scanner.  [orEmpty] says that the container may end here. *)
Inductive mode :=
| BeginValue (orEmpty : bool)
| BeginString (orEmpty : bool)
| EndValue
| EndTop (v : doc)
| InString (raw : string)
| InStringEsc (raw : string)
| InStringEscU (raw : string) (digits : nat)
| InNumber (st : numberState) (raw : string)
| InLiteral (word rest : string) (v : doc).

Definition state : Type := mode * list frame.

Definition isSpace (c : ascii) : bool :=
  Ascii.eqb c " " || Ascii.eqb c "009" || Ascii.eqb c "013" || Ascii.eqb c "010".
Definition snoc (s : string) (c : ascii) : string := s +:+ String c "".

(** The end of a value, which goes into the container that is open. *)
Definition close (v : doc) (stk : list frame) : state :=
  match stk with
  | [] => (EndTop v, [])
  | FArray l :: stk' => (EndValue, FArray (l ++ [v]) :: stk')
  | FKey ms :: stk' => (EndValue, FColon ms (match v with DString s => s | _ => "" end) :: stk')
  | FMember ms k :: stk' => (EndValue, FPairs (ms ++ [(k, v)]) :: stk')
  | _ => (EndValue, stk)
  end.

Definition endValue (c : ascii) (stk : list frame) : gerror + state :=
  match stk with
  | FColon ms k :: stk' =>
      if Ascii.eqb c ":" then inr (BeginValue false, FMember ms k :: stk')
      else inl (syntaxError c "after object key")
  | FPairs ms :: stk' =>
      if Ascii.eqb c "," then inr (BeginString false, FKey ms :: stk')
      else if Ascii.eqb c "}" then inr (close (DObject ms) stk')
      else inl (syntaxError c "after object key:value pair")
  | FArray l :: stk' =>
      if Ascii.eqb c "," then inr (BeginValue false, stk)
      else if Ascii.eqb c "]" then inr (close (DArray l) stk')
      else inl (syntaxError c "after array element")
  | _ => inl (syntaxError c "")
  end.

Definition push (f : frame) (m : mode) (stk : list frame) : gerror + state :=
  if (length (f :: stk) <=? maxNestingDepth)%nat then inr (m, f :: stk)
  else inl (EText "exceeded max depth").

Definition beginValue (c : ascii) (stk : list frame) : gerror + state :=
  if Ascii.eqb c "{" then push (FKey []) (BeginString true) stk
  else if Ascii.eqb c "[" then push (FArray []) (BeginValue true) stk
  else if Ascii.eqb c "034" then inr (InString "", stk)
  else if Ascii.eqb c "-" then inr (InNumber NNeg "-", stk)
  else if Ascii.eqb c "0" then inr (InNumber NZero "0", stk)
  else if isDigit c then inr (InNumber NInt (String c ""), stk)
  else if Ascii.eqb c "t" then inr (InLiteral "true" "rue" (DBool true), stk)
  else if Ascii.eqb c "f" then inr (InLiteral "false" "alse" (DBool false), stk)
  else if Ascii.eqb c "n" then inr (InLiteral "null" "ull" DNull, stk)
  else inl (syntaxError c "looking for beginning of value").

(** A byte in a number: [None] when the number ends before it. *)
Definition numberStep (st : numberState) (c : ascii) : option (gerror + numberState) :=
  let digit_or (st' : numberState) (context : string) :=
    Some (if isDigit c then inr st' else inl (syntaxError c context)) in
  let fraction :=
    if Ascii.eqb c "." then Some (inr NDot)
    else if Ascii.eqb c "e" || Ascii.eqb c "E" then Some (inr NExp) else None in
  match st with
  | NNeg => if Ascii.eqb c "0" then Some (inr NZero) else digit_or NInt "in numeric literal"
  | NZero => fraction
  | NInt => if isDigit c then Some (inr NInt) else fraction
  | NDot => digit_or NFrac "after decimal point in numeric literal"
  | NFrac => if isDigit c then Some (inr NFrac)
             else if Ascii.eqb c "e" || Ascii.eqb c "E" then Some (inr NExp) else None
  | NExp => if Ascii.eqb c "+" || Ascii.eqb c "-" then Some (inr NExpSign)
            else digit_or NExpDigits "in exponent of numeric literal"
  | NExpSign => digit_or NExpDigits "in exponent of numeric literal"
  | NExpDigits => if isDigit c then Some (inr NExpDigits) else None
  end.

(** A byte after a value: the end of the container, or the end of the text. *)
Definition afterValue (c : ascii) (s : state) : gerror + state :=
  match s with
  | (EndTop v, stk) => if isSpace c then inr s else inl (syntaxError c "after top-level value")
  | (_, stk) => if isSpace c then inr s else endValue c stk
  end.

Definition step (c : ascii) (s : state) : gerror + state :=
  let '(m, stk) := s in
  match m with
  | BeginValue orEmpty =>
      if isSpace c then inr s
      else if orEmpty && Ascii.eqb c "]" then endValue c stk
      else beginValue c stk
  | BeginString orEmpty =>
      if isSpace c then inr s
      else if orEmpty && Ascii.eqb c "}" then
        match stk with FKey ms :: stk' => endValue c (FPairs ms :: stk') | _ => endValue c stk end
      else if Ascii.eqb c "034" then inr (InString "", stk)
      else inl (syntaxError c "looking for beginning of object key string")
  | EndValue | EndTop _ => afterValue c s
  | InString raw =>
      if Ascii.eqb c "034" then inr (close (DString (unquote raw)) stk)
      else if Ascii.eqb c "\" then inr (InStringEsc (snoc raw c), stk)
      else if (N_of_ascii c <? 32)%N then inl (syntaxError c "in string literal")
      else inr (InString (snoc raw c), stk)
  | InStringEsc raw =>
      if isEscape c then inr (InString (snoc raw c), stk)
      else if Ascii.eqb c "u" then inr (InStringEscU (snoc raw c) 4, stk)
      else inl (syntaxError c "in string escape code")
  | InStringEscU raw digits =>
      match hexValue c with
      | None => inl (syntaxError c "in \u hexadecimal character escape")
      | Some _ =>
          inr (match digits with S (S n) => InStringEscU (snoc raw c) (S n) | _ => InString (snoc raw c) end, stk)
      end
  | InNumber st raw =>
      match numberStep st c with
      | None => afterValue c (close (DNumber raw) stk)
      | Some (inl e) => inl e
      | Some (inr st') => inr (InNumber st' (snoc raw c), stk)
      end
  | InLiteral word rest v =>
      match rest with
      | String x rest' =>
          if Ascii.eqb c x
          then inr (match rest' with EmptyString => close v stk | _ => (InLiteral word rest' v, stk) end)
          else inl (syntaxError c ("in literal " +:+ word +:+ " (expecting " +:+ quoteChar x +:+ ")"))
      | EmptyString => inl (syntaxError c "")
      end
  end.

Fixpoint run (text : string) (s : state) : gerror + state :=
  match text with
  | EmptyString => inr s
  | String c text' => match step c s with inl e => inl e | inr s' => run text' s' end
  end.

(** At the end of the text a space ends a number. *)
Definition parse (text : string) : gerror + doc :=
  match run text (BeginValue false, []) with
  | inl e => inl e
  | inr s =>
      match step " " s with
      | inl e => inl e
      | inr (EndTop v, _) => inr v
      | inr _ => inl (EText "unexpected end of JSON input")
      end
  end.

(** Text with apostrophes for its quotes. *)
Definition jtext (s : string) : string := ReplaceAll s "'" (String "034" "").
Example parse_ex :
  parse (jtext " {'a': [1, -2.5e+3, true], 'b':{}, 'a':'x\n'}") =
  inr (DObject [("a", DArray [DNumber "1"; DNumber "-2.5e+3"; DBool true]); ("b", DObject []);
                ("a", DString (String "x" (String "010" "")))]) /\
  parse "[1,]" = inl (EText "invalid character ']' looking for beginning of value") /\
  parse "[01]" = inl (EText "invalid character '1' after array element") /\
  parse "nul" = inl (EText "invalid character ' ' in literal null (expecting 'l')") /\
  parse "[12" = inl (EText "unexpected end of JSON input") /\ parse "-12" = inr (DNumber "-12").
Proof. vm_compute. repeat split. Qed.

(** ** Values

    What [json.Unmarshal] makes of a document for an [interface{}]: a number is a
    [float64], given by the text that is written for it; an object is a
    [map[string]interface{}]. *)
Inductive json :=
| JNull
| JBool (b : bool)
| JNumber (text : string)
| JString (s : string)
| JArray (l : list json)
| JObject (m : gmap string json).

(** How [json.UnmarshalTypeError] names a value. *)
Definition docKind (d : doc) : string :=
  match d with
  | DNull => "null" | DBool _ => "bool" | DNumber _ => "number" | DString _ => "string"
  | DArray _ => "array" | DObject _ => "object"
  end.
Definition typeError (value goType : string) : gerror :=
  EText ("json: cannot unmarshal " +:+ value +:+ " into Go value of type " +:+ goType).

(** The first error, or both values. *)
Definition both {A B C} (f : A -> B -> C) (x : gerror + A) (y : gerror + B) : gerror + C :=
  match x, y with
  | inl e, _ | inr _, inl e => inl e
  | inr a, inr b => inr (f a b)
  end.

Definition onValue {A B} (f : A -> B) (x : gerror + A) : gerror + B :=
  match x with inl e => inl e | inr a => inr (f a) end.

(** The map of an object: of members with the same key the last one counts. *)
Definition membersOf {A} (f : doc -> gerror + A) (ms : list (string * doc)) : gerror + gmap string A :=
  fold_left (fun acc p => both (fun m v => <[fst p := v]> m) acc (f (snd p))) ms (inr ∅).

Fixpoint valueOf (d : doc) : gerror + json :=
  match d with
  | DNull => inr JNull
  | DBool b => inr (JBool b)
  | DNumber literal =>
      match float64Text literal with
      | Some t => inr (JNumber t)
      | None => inl (typeError ("number " +:+ literal) "float64")
      end
  | DString s => inr (JString s)
  | DArray l => onValue JArray (foldr (fun d rest => both cons (valueOf d) rest) (inr []) l)
  | DObject ms => onValue JObject (membersOf valueOf ms)
  end.
Definition Unmarshal (text : string) : gerror + json :=
  match parse text with inl e => inl e | inr d => valueOf d end.

(** [json.Unmarshal] into a [map[string]interface{}]: null gives a nil map. *)
Definition UnmarshalMap (text : string) : gerror + gmap string json :=
  match parse text with
  | inl e => inl e
  | inr DNull => inr ∅
  | inr (DObject ms) => membersOf valueOf ms
  | inr d => inl (typeError (docKind d) "map[string]interface {}")
  end.

(** A [[]string] as a value: the nil slice is null. *)
Definition JStrings (l : list string) : json :=
  match l with [] => JNull | _ => JArray (JString <$> l) end.

(** *** Writing *)

Definition key_le {A} (p q : string * A) : Prop := str_le (fst p) (fst q).
#[export] Instance key_le_dec A : RelDecision (@key_le A).
Proof. intros p q. apply str_le_dec. Defined.

(** The document that is written: keys are sorted. *)
Fixpoint docOf (v : json) : doc :=
  match v with
  | JNull => DNull
  | JBool b => DBool b
  | JNumber t => DNumber t
  | JString s => DString s
  | JArray l => DArray (docOf <$> l)
  | JObject m => DObject (merge_sort key_le (map_fold (fun k v acc => (k, docOf v) :: acc) [] m))
  end.

Fixpoint times (n : nat) (s : string) : string := match n with O => "" | S n' => s +:+ times n' s end.

Section print.
Context (prefix indent : string).
Definition newline (depth : nat) : string := String "010" (prefix +:+ times depth indent).

Fixpoint print (depth : nat) (d : doc) : string :=
  match d with
  | DNull => "null"
  | DBool b => if b then "true" else "false"
  | DNumber literal => literal
  | DString s => quoteJSON s
  | DArray [] => "[]"
  | DArray l =>
      "[" +:+ newline (S depth) +:+ Join (print (S depth) <$> l) ("," +:+ newline (S depth)) +:+
      newline depth +:+ "]"
  | DObject [] => "{}"
  | DObject ms =>
      "{" +:+ newline (S depth) +:+
      Join ((fun p => quoteJSON (fst p) +:+ ": " +:+ print (S depth) (snd p)) <$> ms) ("," +:+ newline (S depth)) +:+
      newline depth +:+ "}"
  end.
End print.

(** [json.MarshalIndent(v, prefix, indent)] *)
Definition MarshalIndent (v : json) (prefix indent : string) : gerror + string := inr (print prefix indent 0 (docOf v)).

Example marshal_ex :
  MarshalIndent (JObject (<["b" := JArray [JNumber "1"; JNull]]> {["a" := JObject ∅]})) "" "  " =
  inr (jtext (Join ["{"; "  'a': {},"; "  'b': ["; "    1,"; "    null"; "  ]"; "}"] (String "010" ""))).
Proof. vm_compute. reflexivity. Qed.
