(* ===== verification/JSONReads.v ===== *)
(** * JSON is read back

    A string that is written is read back, if it is UTF-8, and what is read is UTF-8
    ([unquote_escape], [unquote_utf8]); the text of a number is a number; and a document
    that is written, with any indentation, is parsed as itself ([parse_print]). *)

From stdpp Require Import base tactics list strings gmap sorting.
From Stdlib Require Import Ascii ZArith NArith Lia.
From S2P Require Import Prelude GoStrings Floats JSON.

Open Scope string_scope.
Open Scope list_scope.

(** ** Strings are read back *)

(** Well-formed UTF-8. *)
Inductive utf8 : string -> Prop :=
| utf8_nil : utf8 ""
| utf8_1 a s : isASCII a = true -> utf8 s -> utf8 (String a s)
| utf8_2 a b s : rune2 a b = true -> utf8 s -> utf8 (String a (String b s))
| utf8_3 a b c s : rune3 a b c = true -> utf8 s -> utf8 (String a (String b (String c s)))
| utf8_4 a b c d s : rune4 a b c d = true -> utf8 s -> utf8 (String a (String b (String c (String d s)))).

Lemma between_not_ASCII lo a hi : between lo a hi = true -> (128 <= lo)%N -> isASCII a = false.
Proof.
  unfold between, isASCII. intros [H _]%andb_true_iff Hlo. apply N.leb_le in H. apply N.ltb_ge. lia.
Qed.
Lemma between_disjoint lo a hi lo' hi' :
  between lo a hi = true -> (hi < lo' \/ hi' < lo)%N -> between lo' a hi' = false.
Proof.
  unfold between. rewrite !andb_true_iff, !N.leb_le. intros [H1 H2] Hd. apply andb_false_iff.
  rewrite !N.leb_gt. lia.
Qed.

Lemma rune2_first a b : rune2 a b = true -> isASCII a = false.
Proof. unfold rune2. intros [H _]%andb_true_iff. apply (between_not_ASCII _ _ _ H). lia. Qed.

(** The first bytes of runes of three and four bytes. *)
Lemma rune3_lead a b c : rune3 a b c = true -> between 224 a 239 = true.
Proof. unfold rune3, between. intros [H _]%andb_true_iff. rewrite !orb_true_iff, !andb_true_iff, !N.leb_le in *. lia. Qed.
Lemma rune4_lead a b c d : rune4 a b c d = true -> between 240 a 244 = true.
Proof.
  unfold rune4, between. intros [[H _]%andb_true_iff _]%andb_true_iff.
  rewrite !orb_true_iff, !andb_true_iff, !N.leb_le in *. lia.
Qed.
Lemma rune3_first a b c : rune3 a b c = true -> isASCII a = false /\ rune2 a b = false.
Proof.
  intros H%rune3_lead. split; [apply (between_not_ASCII _ _ _ H); lia|]. unfold rune2.
  by rewrite (between_disjoint 224 a 239 194 223 H) by lia.
Qed.
Lemma rune4_first a b c d :
  rune4 a b c d = true -> isASCII a = false /\ rune2 a b = false /\ rune3 a b c = false.
Proof.
  intros H%rune4_lead. split; [apply (between_not_ASCII _ _ _ H); lia|]. unfold rune2, rune3.
  by rewrite !(between_disjoint 240 a 244 _ _ H) by lia.
Qed.

(** A byte outside ASCII is neither a backslash nor a quote nor a control character. *)
Lemma not_ASCII_plain a :
  isASCII a = false -> Ascii.eqb a "\" = false /\ Ascii.eqb a "034" = false /\ (N_of_ascii a <? 32)%N = false.
Proof.
  unfold isASCII. rewrite N.ltb_ge. intros Ha. split_and!.
  - apply Ascii.eqb_neq. intros ->. by compute in Ha.
  - apply Ascii.eqb_neq. intros ->. by compute in Ha.
  - apply N.ltb_ge. lia.
Qed.

Lemma lineSeparator_bytes a b c : isLineSeparator a b c = true -> a = "226"%char /\ b = "128"%char /\ (c = "168"%char \/ c = "169"%char).
Proof.
  unfold isLineSeparator, between. rewrite !andb_true_iff, !N.leb_le. intros [[? ?] ?].
  rewrite <-(ascii_N_embedding a), <-(ascii_N_embedding b), <-(ascii_N_embedding c).
  replace (N_of_ascii a) with 226%N by lia. replace (N_of_ascii b) with 128%N by lia. split_and!; [done|done|].
  destruct (N.eq_dec (N_of_ascii c) 168) as [->|]; [by left|]. replace (N_of_ascii c) with 169%N by lia. by right.
Qed.

Lemma unquote_escapeASCII a s : isASCII a = true -> unquote (escapeASCII a +:+ s) = String a (unquote s).
Proof. destruct a as [[] [] [] [] [] [] [] []]; try discriminate; reflexivity. Qed.

Lemma unquote_escape s : utf8 s -> unquote (escape s) = s.
Proof.
  induction 1 as [|a s Ha _ IH|a b s Hr _ IH|a b c s Hr _ IH|a b c d s Hr _ IH]; [done|..]; cbn [escape].
  - rewrite Ha, unquote_escapeASCII by done. by rewrite IH.
  - pose proof (rune2_first _ _ Hr) as Ha. destruct (not_ASCII_plain a Ha) as (Hb & _ & _).
    rewrite Ha, Hr. cbn [unquote]. by rewrite Hb, Ha, Hr, IH.
  - destruct (rune3_first _ _ _ Hr) as [Ha H2]. destruct (not_ASCII_plain a Ha) as (Hb & _ & _).
    rewrite Ha, H2, Hr. destruct (isLineSeparator a b c) eqn:Hl.
    + apply lineSeparator_bytes in Hl as (-> & -> & [-> | ->]); by rewrite <-IH at 2.
    + change ((String a (String b (String c "")) +:+ escape s)) with (String a (String b (String c (escape s)))).
      cbn [unquote]. by rewrite Hb, Ha, H2, Hr, IH.
  - destruct (rune4_first _ _ _ _ Hr) as (Ha & H2 & H3). destruct (not_ASCII_plain a Ha) as (Hb & _ & _).
    rewrite Ha, H2, H3, Hr. cbn [unquote]. by rewrite Hb, Ha, H2, H3, Hr, IH.
Qed.

Lemma utf8_app s t : utf8 s -> utf8 t -> utf8 (s +:+ t).
Proof. intros Hs Ht. induction Hs; [done|by constructor..]. Qed.

Fixpoint ASCII_only (s : string) : bool :=
  match s with String a s' => isASCII a && ASCII_only s' | EmptyString => true end.
Lemma ASCII_utf8 s : ASCII_only s = true -> utf8 s.
Proof. induction s as [|a s IH]; [constructor|]. simpl. intros [? ?]%andb_true_iff. constructor; auto. Qed.

Lemma between_code lo n hi : (lo <= n <= hi)%N -> (hi < 256)%N -> between lo (ascii_of_N n) hi = true.
Proof. intros H Hh. unfold between. rewrite N_ascii_embedding by lia. apply andb_true_iff. rewrite !N.leb_le. lia. Qed.

#[local] Ltac Zify.zify_post_hook ::= Z.to_euclidean_division_equations.

(** Every code point but the surrogates is encoded as a rune. *)
Lemma encodeRune_utf8 r : (r <= 1114111)%N -> isSurrogate r = false -> utf8 (encodeRune r).
Proof.
  intros Hr Hs. unfold encodeRune. destruct (N.ltb_spec r 128).
  { apply utf8_1; [|constructor]. unfold isASCII. rewrite N_ascii_embedding by lia. by apply N.ltb_lt. }
  assert (Ht : forall n, trailing (ascii_of_N (128 + (r / n) mod 64)) = true).
  { intros n. generalize (r / n)%N. intros m. apply between_code; lia. }
  destruct (N.ltb_spec r 2048).
  { apply utf8_2; [|constructor]. unfold rune2. rewrite Ht, andb_true_r. apply between_code; lia. }
  destruct (N.ltb_spec r 65536).
  - apply utf8_3; [|constructor]. unfold rune3. rewrite !Ht, !andb_true_r.
    assert (Hsurr : (r < 55296 \/ 57344 <= r)%N).
    { unfold isSurrogate in Hs. apply andb_false_iff in Hs. rewrite N.leb_gt, N.ltb_ge in Hs. lia. }
    rewrite !orb_true_iff, !andb_true_iff.
    destruct (N.eq_dec (r / 4096) 0) as [E|E].
    { left; left; left. split; apply between_code; lia. }
    destruct (N.eq_dec (r / 4096) 13) as [E'|E'].
    { left; right. split; apply between_code; lia. }
    destruct (N.ltb_spec (r / 4096) 13).
    + left; left; right. apply between_code; lia.
    + right. apply between_code; lia.
  - apply utf8_4; [|constructor]. unfold rune4. rewrite !Ht, !andb_true_r. rewrite !orb_true_iff, !andb_true_iff.
    destruct (N.eq_dec (r / 262144) 0) as [E|E].
    { left; left. split; apply between_code; lia. }
    destruct (N.eq_dec (r / 262144) 4) as [E'|E'].
    { right. split; apply between_code; lia. }
    left; right. apply between_code; lia.
Qed.

Lemma hex4_bound a b c d r : hex4 a b c d = Some r -> (r < 65536)%N.
Proof.
  assert (Hv : forall x n, hexValue x = Some n -> (n < 16)%N).
  { intros x n. unfold hexValue, between. repeat case_match; intros [= <-];
      repeat match goal with H : _ && _ = true |- _ => apply andb_true_iff in H as [?%N.leb_le ?%N.leb_le] end; lia. }
  unfold hex4. destruct (hexValue a) eqn:Ea, (hexValue b) eqn:Eb, (hexValue c) eqn:Ec, (hexValue d) eqn:Ed; try done.
  intros [= <-]. apply Hv in Ea, Eb, Ec, Ed. lia.
Qed.

Lemma surrogatePair_rune r1 r2 r : surrogatePair r1 r2 = Some r -> (r <= 1114111)%N /\ isSurrogate r = false.
Proof.
  unfold surrogatePair, isSurrogate. case_match eqn:E; [|done]. intros [= <-].
  repeat match goal with H : _ && _ = true |- _ => apply andb_true_iff in H as [? ?] end.
  rewrite ?N.leb_le, ?N.ltb_lt in *. split; [lia|]. apply andb_false_iff. right. apply N.ltb_ge. lia.
Qed.

Lemma replacement_utf8 : utf8 replacement.
Proof. apply utf8_3; [done|constructor]. Qed.

Lemma isEscape_ASCII e : isEscape e = true -> isASCII (unescape e) = true.
Proof. by destruct e as [[] [] [] [] [] [] [] []]. Qed.

(** What is read is well formed, whatever the text was. *)
Lemma unquote_utf8 s : utf8 (unquote s).
Proof.
  remember (String.length s) as n eqn:Hn. revert s Hn.
  induction n as [n IH0] using lt_wf_ind. intros s ->.
  assert (IH : forall t, (String.length t < String.length s)%nat -> utf8 (unquote t)) by (intros t Ht; by eapply IH0).
  clear IH0. destruct s as [|a s]; [constructor|]. cbn [unquote].
  repeat match goal with
  | |- utf8 "" => constructor
  | |- utf8 (replacement +:+ _) => apply utf8_app; [apply replacement_utf8|apply IH; simpl; lia]
  | Hp : surrogatePair _ _ = Some ?r |- utf8 (encodeRune ?r +:+ _) =>
      apply surrogatePair_rune in Hp as [? ?]; apply utf8_app; [by apply encodeRune_utf8|apply IH; simpl; lia]
  | Hx : hex4 _ _ _ _ = Some ?r |- utf8 (encodeRune ?r +:+ _) =>
      apply hex4_bound in Hx; apply utf8_app; [apply encodeRune_utf8; [lia|done]|apply IH; simpl; lia]
  | Hr : rune2 ?a ?b = true |- utf8 (String ?a (String ?b _)) => apply utf8_2; [done|apply IH; simpl; lia]
  | Hr : rune3 ?a ?b ?c = true |- utf8 (String ?a (String ?b (String ?c _))) =>
      apply utf8_3; [done|apply IH; simpl; lia]
  | Hr : rune4 ?a ?b ?c ?d = true |- utf8 (String ?a (String ?b (String ?c (String ?d _)))) =>
      apply utf8_4; [done|apply IH; simpl; lia]
  | He : isEscape ?e = true |- utf8 (String (unescape ?e) _) =>
      apply utf8_1; [by apply isEscape_ASCII|apply IH; simpl; lia]
  | Ha : isASCII ?a = true |- utf8 (String ?a _) => apply utf8_1; [done|apply IH; simpl; lia]
  | _ => case_match
  end.
Qed.

(** ** Documents are read back *)

Lemma run_app a b s : run (a +:+ b) s = match run a s with inl e => inl e | inr s' => run b s' end.
Proof.
  revert s. induction a as [|c a IH]; intros s; [done|].
  change (String c a +:+ b) with (String c (a +:+ b)). cbn [run]. destruct (step c s); [done|]. apply IH.
Qed.
Lemma run_app_Ok a b s s' : run a s = inr s' -> run (a +:+ b) s = run b s'.
Proof. intros E. by rewrite run_app, E. Qed.

Lemma run_cons c t s s' : step c s = inr s' -> run (String c t) s = run t s'.
Proof. intros E. cbn [run]. by rewrite E. Qed.

Fixpoint blank (s : string) : bool := match s with String c s' => isSpace c && blank s' | EmptyString => true end.
Lemma blank_app a b : blank (a +:+ b) = blank a && blank b.
Proof.
  induction a as [|c a IH]; [done|]. change (String c a +:+ b) with (String c (a +:+ b)). simpl.
  by rewrite IH, andb_assoc.
Qed.

(** States that wait for a token skip white space. *)
Definition waits (m : mode) : bool :=
  match m with BeginValue _ | BeginString _ | EndValue | EndTop _ => true | _ => false end.
Lemma run_blank sp m stk : blank sp = true -> waits m = true -> run sp (m, stk) = inr (m, stk).
Proof.
  intros Hb Hm. induction sp as [|c sp IH]; [done|]. simpl in Hb. apply andb_true_iff in Hb as [Hc Hb].
  cbn [run]. assert (step c (m, stk) = inr (m, stk)) as ->; [|by apply IH].
  destruct m; try done; cbn [step]; by rewrite ?Hc; unfold afterValue; rewrite ?Hc.
Qed.
Lemma run_blank_app sp t m stk : blank sp = true -> waits m = true -> run (sp +:+ t) (m, stk) = run t (m, stk).
Proof. intros Hb Hm. by rewrite (run_app_Ok _ _ _ _ (run_blank sp m stk Hb Hm)). Qed.

Lemma snoc_app raw c s : snoc raw c +:+ s = raw +:+ String c s.
Proof. unfold snoc. by rewrite <-str_app_assoc. Qed.

(** *** Strings *)

Lemma snoc_all s raw : fold_left snoc (String.list_ascii_of_string s) raw = raw +:+ s.
Proof. revert raw. induction s as [|c s IH]; intros raw; [by rewrite string_app_nil_r|]. simpl. by rewrite IH, snoc_app. Qed.

Lemma run_escapeASCII a raw stk :
  isASCII a = true -> run (escapeASCII a) (InString raw, stk) = inr (InString (raw +:+ escapeASCII a), stk).
Proof.
  intros Ha. rewrite <-snoc_all. destruct a as [[] [] [] [] [] [] [] []]; try discriminate; reflexivity.
Qed.

Lemma run_plain a raw t stk :
  isASCII a = false -> run (String a t) (InString raw, stk) = run t (InString (snoc raw a), stk).
Proof. intros (H1 & H2 & H3)%not_ASCII_plain. cbn [run step]. by rewrite H2, H1, H3. Qed.

Lemma trailing_not_ASCII a : trailing a = true -> isASCII a = false.
Proof. intros H. apply (between_not_ASCII _ _ _ H). lia. Qed.
Lemma rune2_rest a b : rune2 a b = true -> isASCII b = false.
Proof. unfold rune2. intros [_ H]%andb_true_iff. by apply trailing_not_ASCII. Qed.
Lemma rune3_rest a b c : rune3 a b c = true -> isASCII b = false /\ isASCII c = false.
Proof.
  unfold rune3. intros [H Hc]%andb_true_iff. split; [|by apply trailing_not_ASCII].
  unfold isASCII. apply N.ltb_ge. unfold trailing, between in H.
  rewrite !orb_true_iff, !andb_true_iff, !N.leb_le in H. lia.
Qed.
Lemma rune4_rest a b c d : rune4 a b c d = true -> isASCII b = false /\ isASCII c = false /\ isASCII d = false.
Proof.
  unfold rune4. intros [[H Hc]%andb_true_iff Hd]%andb_true_iff. split_and!; [|by apply trailing_not_ASCII..].
  unfold isASCII. apply N.ltb_ge. unfold trailing, between in H.
  rewrite !orb_true_iff, !andb_true_iff, !N.leb_le in H. lia.
Qed.

Lemma run_escape s raw stk : utf8 s -> run (escape s) (InString raw, stk) = inr (InString (raw +:+ escape s), stk).
Proof.
  intros Hs. revert raw. induction Hs as [|a s Ha _ IH|a b s Hr _ IH|a b c s Hr _ IH|a b c d s Hr _ IH]; intros raw;
    cbn [escape]; [by rewrite string_app_nil_r|..].
  - rewrite Ha, (run_app_Ok _ _ _ _ (run_escapeASCII a raw stk Ha)), IH. by rewrite <-str_app_assoc.
  - pose proof (rune2_first _ _ Hr) as Ha. pose proof (rune2_rest _ _ Hr) as Hb.
    rewrite Ha, Hr, !run_plain, IH by done. by rewrite !snoc_app.
  - destruct (rune3_first _ _ _ Hr) as [Ha H2], (rune3_rest _ _ _ Hr) as [Hb Hc].
    rewrite Ha, H2, Hr. destruct (isLineSeparator a b c) eqn:Hl.
    + set (e := "\u202" +:+ _).
      assert (run e (InString raw, stk) = inr (InString (raw +:+ e), stk)) as He.
      { rewrite <-snoc_all. apply lineSeparator_bytes in Hl as (-> & -> & [-> | ->]); reflexivity. }
      by rewrite (run_app_Ok _ _ _ _ He), IH, <-str_app_assoc.
    + change (String a (String b (String c "")) +:+ escape s) with (String a (String b (String c (escape s)))).
      rewrite !run_plain, IH by done. by rewrite !snoc_app.
  - destruct (rune4_first _ _ _ _ Hr) as (Ha & H2 & H3), (rune4_rest _ _ _ _ Hr) as (Hb & Hc & Hd).
    rewrite Ha, H2, H3, Hr, !run_plain, IH by done. by rewrite !snoc_app.
Qed.

Lemma run_quoteJSON s m stk t :
  utf8 s -> (exists b, m = BeginValue b \/ m = BeginString b) ->
  run (quoteJSON s +:+ t) (m, stk) = run t (close (DString s) stk).
Proof.
  intros Hs [b Hm].
  transitivity (run (escape s +:+ String "034" t) (InString "", stk)).
  - unfold quoteJSON. change (String "034" ?x +:+ t) with (String "034" (x +:+ t)). rewrite <-str_app_assoc.
    destruct Hm as [-> | ->]; cbn [run step]; by destruct b.
  - rewrite (run_app_Ok _ _ _ _ (run_escape s "" stk Hs)). change ("" +:+ ?x) with x.
    cbn [run step Ascii.eqb Bool.eqb]. by rewrite unquote_escape.
Qed.

(** *** Numbers *)

Definition final (st : numberState) : bool :=
  match st with NZero | NInt | NFrac | NExpDigits => true | _ => false end.

(** A literal that is a complete number. *)
Definition isNumber (t : string) : Prop :=
  forall b stk, exists st, final st = true /\ run t (BeginValue b, stk) = inr (InNumber st t, stk).

(** What comes after a value: a comma, a bracket, a brace or white space. *)
Definition ender (c : ascii) : bool := isSpace c || existsb (Ascii.eqb c) [","; "]"; "}"]%char.

Lemma ender_ends st c : final st = true -> ender c = true -> numberStep st c = None.
Proof. destruct st; try done; intros _; destruct c as [[] [] [] [] [] [] [] []]; done. Qed.

Lemma step_close c v stk : step c (close v stk) = afterValue c (close v stk).
Proof. by destruct stk as [|[] stk]. Qed.

(** *** Documents *)

(** An induction principle that reaches into arrays and objects. *)
Lemma doc_ind' (P : doc -> Prop) :
  P DNull -> (forall b, P (DBool b)) -> (forall t, P (DNumber t)) -> (forall s, P (DString s)) ->
  (forall l, Forall P l -> P (DArray l)) -> (forall ms, Forall (fun p => P (snd p)) ms -> P (DObject ms)) ->
  forall d, P d.
Proof.
  intros Hnull Hbool Hnum Hstr Harr Hobj. fix IH 1. intros [|b|t|s|l|ms].
  1-4: clear IH; auto.
  - apply Harr. induction l as [|x l IHl]; constructor; [apply IH|apply IHl].
  - apply Hobj. induction ms as [|[k x] ms IHms]; constructor; [apply IH|apply IHms].
Qed.

Fixpoint height (d : doc) : nat :=
  match d with
  | DArray l => S (foldr (fun d n => Nat.max (height d) n) 0 l)
  | DObject ms => S (foldr (fun p n => Nat.max (height (snd p)) n) 0 ms)
  | _ => 0
  end%nat.

#[local] Set Warnings "-register-all".
Inductive wfDoc : doc -> Prop :=
| wf_null : wfDoc DNull
| wf_bool b : wfDoc (DBool b)
| wf_number t : isNumber t -> wfDoc (DNumber t)
| wf_string s : utf8 s -> wfDoc (DString s)
| wf_array l : Forall wfDoc l -> wfDoc (DArray l)
| wf_object ms : Forall (fun p => utf8 (fst p) /\ wfDoc (snd p)) ms -> wfDoc (DObject ms).

(** A text that is read as a document wherever a value may begin, within a depth. *)
Definition reads (text : string) (d : doc) : Prop :=
  forall b stk c t, (length stk + height d <= maxNestingDepth)%nat -> ender c = true ->
    run (text +:+ String c t) (BeginValue b, stk) = run (String c t) (close d stk).

Lemma reads_simple text d :
  (forall b stk t, run (text +:+ t) (BeginValue b, stk) = run t (close d stk)) -> reads text d.
Proof. intros H b stk c t _ _. apply H. Qed.

Lemma reads_number t : isNumber t -> reads t (DNumber t).
Proof.
  intros Ht b stk c rest _ Hc. destruct (Ht b stk) as (st & Hst & Hrun). rewrite (run_app_Ok _ _ _ _ Hrun).
  cbn [run]. rewrite step_close. cbn [step]. by rewrite (ender_ends st c Hst Hc).
Qed.

Lemma foldr_max_le {A} (f : A -> nat) l x : x ∈ l -> (f x <= foldr (fun a n => Nat.max (f a) n) 0 l)%nat.
Proof. induction 1; simpl; lia. Qed.

Section read_back.
Context (prefix indent : string) (Hprefix : blank prefix = true) (Hindent : blank indent = true).

Lemma newline_blank n : blank (newline prefix indent n) = true.
Proof.
  unfold newline. cbn [blank]. rewrite blank_app, Hprefix. cbn [andb isSpace Ascii.eqb Bool.eqb orb].
  induction n as [|n IH]; [done|]. cbn [times]. by rewrite blank_app, Hindent, IH.
Qed.
Lemma newline_head n t : exists sp, blank sp = true /\ newline prefix indent n +:+ t = String "010" (sp +:+ t).
Proof.
  exists (prefix +:+ times n indent). pose proof (newline_blank n) as Hb. unfold newline in *. by cbn [blank] in Hb.
Qed.

(** The elements of an array after those already read. *)
Lemma reads_elements (pr : doc -> string) l l0 b stk c t depth :
  l <> [] -> Forall (fun d => reads (pr d) d) l ->
  Forall (fun d => length stk + S (height d) <= maxNestingDepth)%nat l -> ender c = true ->
  run (Join (pr <$> l) ("," +:+ newline prefix indent depth) +:+ String c t) (BeginValue b, FArray l0 :: stk) =
  run (String c t) (EndValue, FArray (l0 ++ l) :: stk).
Proof.
  intros Hne Hl Hd Hc. revert l0 b Hne. induction l as [|x l IH]; intros l0 b Hne; [done|].
  apply Forall_cons in Hl as [Hx Hl], Hd as [Hdx Hd]. destruct l as [|y l].
  - cbn [fmap list_fmap Join]. rewrite (Hx b (FArray l0 :: stk) c t) by (done || simpl; lia). done.
  - change (Join (pr <$> x :: y :: l) ?sep) with (pr x +:+ sep +:+ Join (pr <$> y :: l) sep).
    rewrite <-!str_app_assoc. change ("," +:+ ?s) with (String "," s).
    rewrite (Hx b (FArray l0 :: stk) ","%char _) by (done || simpl; lia).
    cbn [run]. rewrite step_close. cbn [close afterValue isSpace endValue Ascii.eqb Bool.eqb orb].
    rewrite run_blank_app by (done || apply newline_blank).
    rewrite (IH Hl Hd (l0 ++ [x]) false) by done. by rewrite <-(assoc_L (++)).
Qed.

(** The members of an object, likewise. *)
Lemma reads_members (pr : doc -> string) ms ms0 b stk c t depth :
  ms <> [] -> Forall (fun p => utf8 (fst p) /\ reads (pr (snd p)) (snd p)) ms ->
  Forall (fun p => length stk + S (height (snd p)) <= maxNestingDepth)%nat ms -> ender c = true ->
  run (Join ((fun p => quoteJSON (fst p) +:+ ": " +:+ pr (snd p)) <$> ms) ("," +:+ newline prefix indent depth) +:+
       String c t) (BeginString b, FKey ms0 :: stk) =
  run (String c t) (EndValue, FPairs (ms0 ++ ms) :: stk).
Proof.
  intros Hne Hl Hd Hc. set (member := fun p : string * doc => _).
  assert (Hmember : forall k x ms0 b c t, utf8 k -> reads (pr x) x -> (length stk + S (height x) <= maxNestingDepth)%nat ->
    ender c = true ->
    run (member (k, x) +:+ String c t) (BeginString b, FKey ms0 :: stk) =
    run (String c t) (EndValue, FPairs (ms0 ++ [(k, x)]) :: stk)).
  { intros k x ms1 b1 c1 t1 Hk Hx Hdx Hc1. unfold member. cbn [fst snd]. rewrite <-!str_app_assoc.
    rewrite run_quoteJSON by eauto. change (": " +:+ ?s) with (String ":" (String " " s)). cbn [run].
    rewrite step_close. cbn [close afterValue isSpace endValue Ascii.eqb Bool.eqb orb].
    change (step " " (BeginValue false, ?s)) with (inr (A := gerror) (BeginValue false, s)). cbv iota beta.
    by rewrite (Hx false (FMember ms1 k :: stk) c1 t1) by (done || simpl; lia). }
  revert ms0 b Hne. induction ms as [|[k x] ms IH]; intros ms0 b Hne; [done|].
  apply Forall_cons in Hl as [[Hk Hx] Hl], Hd as [Hdx Hd]. destruct ms as [|[k' y] ms].
  - cbn [fmap list_fmap Join]. by apply Hmember.
  - change (Join (member <$> ?p :: ?q :: ms) ?sep) with (member p +:+ sep +:+ Join (member <$> q :: ms) sep).
    rewrite <-!str_app_assoc. change ("," +:+ ?s) with (String "," s). rewrite Hmember by done.
    cbn [run step afterValue isSpace endValue Ascii.eqb Bool.eqb orb].
    rewrite run_blank_app by (done || apply newline_blank).
    rewrite (IH Hl Hd (ms0 ++ [(k, x)]) false) by done. by rewrite <-(assoc_L (++)).
Qed.

Lemma push_ok f m stk n : (length stk + S n <= maxNestingDepth)%nat -> push f m stk = inr (m, f :: stk).
Proof. intros H. unfold push. by rewrite (proj2 (Nat.leb_le _ _)) by (simpl; lia). Qed.

Lemma reads_array pr depth l :
  Forall (fun d => reads (pr d) d) l -> l <> [] ->
  reads ("[" +:+ newline prefix indent (S depth) +:+ Join (pr <$> l) ("," +:+ newline prefix indent (S depth)) +:+
         newline prefix indent depth +:+ "]") (DArray l).
Proof.
  intros Hl Hne b stk c t Hd Hc. rewrite <-!str_app_assoc. change ("[" +:+ ?s) with (String "[" s).
  cbn [run step isSpace Ascii.eqb Bool.eqb orb andb beginValue]. rewrite andb_false_r.
  rewrite (push_ok _ _ _ _ Hd). rewrite run_blank_app by (done || apply newline_blank).
  change ("]" +:+ String c t) with (String "]" (String c t)).
  destruct (newline_head depth (String "]" (String c t))) as (sp & Hsp & ->).
  rewrite reads_elements; [|done|done| |done].
  - cbn [run step afterValue isSpace Ascii.eqb Bool.eqb orb]. by rewrite run_blank_app.
  - apply Forall_forall. intros d Hin. simpl in Hd. pose proof (foldr_max_le height l d Hin). lia.
Qed.

Lemma reads_object pr depth ms :
  Forall (fun p => utf8 (fst p) /\ reads (pr (snd p)) (snd p)) ms -> ms <> [] ->
  reads ("{" +:+ newline prefix indent (S depth) +:+
         Join ((fun p => quoteJSON (fst p) +:+ ": " +:+ pr (snd p)) <$> ms) ("," +:+ newline prefix indent (S depth)) +:+
         newline prefix indent depth +:+ "}") (DObject ms).
Proof.
  intros Hl Hne b stk c t Hd Hc. rewrite <-!str_app_assoc. change ("{" +:+ ?s) with (String "{" s).
  cbn [run step isSpace Ascii.eqb Bool.eqb orb andb beginValue]. rewrite andb_false_r.
  rewrite (push_ok _ _ _ _ Hd). rewrite run_blank_app by (done || apply newline_blank).
  change ("}" +:+ String c t) with (String "}" (String c t)).
  destruct (newline_head depth (String "}" (String c t))) as (sp & Hsp & ->).
  rewrite reads_members; [|done|done| |done].
  - cbn [run step afterValue isSpace Ascii.eqb Bool.eqb orb]. by rewrite run_blank_app.
  - apply Forall_forall. intros p Hin. simpl in Hd.
    pose proof (foldr_max_le (fun p => height (snd p)) ms p Hin). simpl in *. lia.
Qed.

Lemma reads_empty_array : reads "[]" (DArray []).
Proof.
  intros b stk c t Hd Hc. change ("[]" +:+ ?s) with (String "[" (String "]" s)).
  cbn [run step isSpace Ascii.eqb Bool.eqb orb andb beginValue]. rewrite andb_false_r.
  by rewrite (push_ok _ _ _ _ Hd).
Qed.
Lemma reads_empty_object : reads "{}" (DObject []).
Proof.
  intros b stk c t Hd Hc. change ("{}" +:+ ?s) with (String "{" (String "}" s)).
  cbn [run step isSpace Ascii.eqb Bool.eqb orb andb beginValue]. rewrite andb_false_r.
  by rewrite (push_ok _ _ _ _ Hd).
Qed.

Lemma print_reads d depth : wfDoc d -> reads (print prefix indent depth d) d.
Proof.
  intros Hwf. revert depth Hwf. induction d as [|[]|t|s|l IH|ms IH] using doc_ind'; intros depth Hwf; inversion Hwf; subst.
  - apply reads_simple. intros b stk t. by destruct b, stk.
  - apply reads_simple. intros b stk t. by destruct b, stk.
  - apply reads_simple. intros b stk t. by destruct b, stk.
  - by apply reads_number.
  - apply reads_simple. intros b stk t. apply run_quoteJSON; eauto.
  - destruct l as [|x l]; [apply reads_empty_array|].
    apply (reads_array (print prefix indent (S depth))); [|done].
    rewrite Forall_forall in *. intros y Hy. by apply IH, H0.
  - destruct ms as [|x ms]; [apply reads_empty_object|].
    apply (reads_object (print prefix indent (S depth))); [|done].
    rewrite Forall_forall in *. intros y Hy. destruct (H0 y Hy). split; [done|]. by apply IH.
Qed.

(** A document that is written is read back. *)
Lemma parse_print d :
  wfDoc d -> (height d <= maxNestingDepth)%nat -> parse (print prefix indent 0 d) = inr d.
Proof.
  intros Hwf Hd. pose proof (print_reads d 0 Hwf false [] " "%char "" Hd eq_refl) as Hrun.
  change (run " " (close d [])) with (inr (A := gerror) (EndTop d, [] : list frame)) in Hrun.
  unfold parse. rewrite run_app in Hrun. destruct (run (print prefix indent 0 d) _) as [|s]; [done|].
  cbn [run] in Hrun. by destruct (step " " s) as [|[]]; simplify_eq.
Qed.
End read_back.

(** *** The text of numbers is a number *)

(** The states that read digits stay. *)
Definition loops (st : numberState) : bool := match st with NInt | NFrac | NExpDigits => true | _ => false end.
Lemma loops_final st : loops st = true -> final st = true.
Proof. by destruct st. Qed.

Lemma run_digits ds st raw stk :
  allDigits ds = true -> loops st = true ->
  run ds (InNumber st raw, stk) = inr (InNumber st (raw +:+ ds), stk).
Proof.
  intros Hd Hst. revert raw. induction ds as [|c ds IH]; intros raw; [by rewrite string_app_nil_r|].
  simpl in Hd. apply andb_true_iff in Hd as [Hc Hd]. cbn [run step].
  assert (numberStep st c = Some (inr st)) as -> by (destruct st; try done; simpl; by rewrite Hc).
  rewrite IH by done. by rewrite snoc_app.
Qed.

(** Digits, at least one, from a state that asks for one. *)
Definition asks (st : numberState) : option numberState :=
  match st with NDot => Some NFrac | NExpSign => Some NExpDigits | _ => None end.
Lemma run_some_digits ds st st' raw stk :
  allDigits ds = true -> ds <> "" -> asks st = Some st' ->
  run ds (InNumber st raw, stk) = inr (InNumber st' (raw +:+ ds), stk).
Proof.
  intros Hd Hne Hst. destruct ds as [|c ds]; [done|]. simpl in Hd. apply andb_true_iff in Hd as [Hc Hd].
  cbn [run step].
  assert (numberStep st c = Some (inr st') /\ loops st' = true) as [-> Hl].
  { destruct st; simpl in Hst; simplify_eq; cbn [numberStep]; rewrite Hc; done. }
  rewrite run_digits by done. by rewrite snoc_app.
Qed.

Definition startOf (c : ascii) : numberState := if Ascii.eqb c "0" then NZero else NInt.

(** A literal without its sign, from its first digit on. *)
Definition unsignedNumber (t : string) : Prop :=
  match t with
  | EmptyString => False
  | String c t' =>
      isDigit c = true /\
      forall raw stk, exists st, final st = true /\ run t' (InNumber (startOf c) raw, stk) = inr (InNumber st (raw +:+ t'), stk)
  end.

Lemma signed_isNumber (neg : bool) t : unsignedNumber t -> isNumber ((if neg then "-" else "") +:+ t).
Proof.
  destruct t as [|c t]; [done|]. intros [Hc Hrun] b stk.
  assert (Hsp : isSpace c = false) by (destruct c as [[] [] [] [] [] [] [] []]; try done).
  destruct neg.
  - change ("-" +:+ ?s) with (String "-" s). destruct (Hrun (snoc "-" c) stk) as (st & Hst & E).
    exists st. split; [done|]. rewrite snoc_app in E. change ("-" +:+ ?s) with (String "-" s) in E. rewrite <-E.
    change (run (String "-" (String c t)) (BeginValue b, stk)) with
      (match step "-" (BeginValue b, stk) with inl e => inl e | inr s => run (String c t) s end).
    assert (step "-" (BeginValue b, stk) = inr (InNumber NNeg "-", stk)) as -> by by destruct b.
    cbn [run step numberStep]. unfold startOf. destruct (Ascii.eqb c "0"); [done|]. by rewrite Hc.
  - change ("" +:+ ?s) with s. destruct (Hrun (String c "") stk) as (st & Hst & E). exists st. split; [done|].
    change (String c "" +:+ t) with (String c t) in E. rewrite <-E. cbn [run].
    assert (step c (BeginValue b, stk) = inr (InNumber (startOf c) (String c ""), stk)) as ->; [|done].
    destruct b, c as [[] [] [] [] [] [] [] []]; done.
Qed.

Lemma unsigned_fraction int frac :
  (int = "0" \/ (allDigits int = true /\ exists c s, int = String c s /\ Ascii.eqb c "0" = false)) ->
  allDigits frac = true -> unsignedNumber (int +:+ point frac).
Proof.
  intros Hi Hf.
  assert (exists c s, int = String c s /\ isDigit c = true /\ (startOf c = NZero /\ s = "" \/ startOf c = NInt /\ allDigits s = true))
    as (c & s & -> & Hc & Hs).
  { destruct Hi as [-> | (Hd & c & s & -> & Hc)]; [by exists "0"%char, ""; auto|].
    simpl in Hd. apply andb_true_iff in Hd as [? ?]. exists c, s. unfold startOf. rewrite Hc. auto. }
  split; [done|]. fold String.append. intros raw stk.
  assert (Hint : exists st, final st = true /\ numberStep st "." = Some (inr NDot) /\
    run s (InNumber (startOf c) raw, stk) = inr (InNumber st (raw +:+ s), stk)).
  { destruct Hs as [[-> ->] | [-> Hd]].
    - exists NZero. by rewrite string_app_nil_r.
    - exists NInt. by rewrite run_digits. }
  destruct Hint as (st & Hst & Hdot & Hrun). rewrite (run_app_Ok _ _ _ _ Hrun). destruct frac as [|d frac].
  - exists st. split; [done|]. cbn [point run]. by rewrite string_app_nil_r.
  - exists NFrac. split; [done|]. change (point (String d frac)) with (String "." (String d frac)).
    rewrite (run_cons _ _ _ (InNumber NDot (snoc (raw +:+ s) "."), stk)) by (cbn [step]; by rewrite Hdot).
    rewrite (run_some_digits (String d frac) NDot NFrac) by done. by rewrite snoc_app, <-str_app_assoc.
Qed.

Lemma run_exponent (sign : bool) e st raw stk :
  allDigits e = true -> e <> "" -> numberStep st "e" = Some (inr NExp) ->
  run ("e" +:+ (if sign then "-" else "+") +:+ e) (InNumber st raw, stk) =
  inr (InNumber NExpDigits (raw +:+ "e" +:+ (if sign then "-" else "+") +:+ e), stk).
Proof.
  intros He Hne Hst. change ("e" +:+ ?s) with (String "e" s).
  rewrite (run_cons _ _ _ (InNumber NExp (snoc raw "e"), stk)) by (cbn [step]; by rewrite Hst).
  assert (Hs : forall c, Ascii.eqb c "+" || Ascii.eqb c "-" = true ->
    run (String c e) (InNumber NExp (snoc raw "e"), stk) = inr (InNumber NExpDigits (raw +:+ String "e" (String c e)), stk)).
  { intros c Hc. rewrite (run_cons _ _ _ (InNumber NExpSign (snoc (snoc raw "e") c), stk))
      by (cbn [step numberStep]; by rewrite Hc).
    rewrite (run_some_digits e NExpSign NExpDigits) by done. by rewrite !snoc_app. }
  destruct sign; by apply Hs.
Qed.

Lemma unsigned_exponent c frac sign e :
  isDigit c = true -> Ascii.eqb c "0" = false -> allDigits frac = true -> allDigits e = true -> e <> "" ->
  unsignedNumber (String c (point frac +:+ "e" +:+ (if sign : bool then "-" else "+") +:+ e)).
Proof.
  intros Hc Hz Hf He Hne. split; [done|]. intros raw stk. exists NExpDigits. split; [done|].
  unfold startOf. rewrite Hz.
  assert (Hfrac : exists st, numberStep st "e" = Some (inr NExp) /\
    run (point frac) (InNumber NInt raw, stk) = inr (InNumber st (raw +:+ point frac), stk)).
  { destruct frac as [|d frac]; [exists NInt; by rewrite string_app_nil_r|]. exists NFrac. split; [done|].
    change (point (String d frac)) with (String "." (String d frac)).
    rewrite (run_cons _ _ _ (InNumber NDot (snoc raw "."), stk)) by done.
    rewrite (run_some_digits _ NDot NFrac) by done. by rewrite snoc_app. }
  destruct Hfrac as (st & Hst & Hrun). rewrite (run_app_Ok _ _ _ _ Hrun), run_exponent by done.
  by rewrite <-str_app_assoc.
Qed.

Lemma Itoa_digits e : (0 <= e <= 400)%Z -> allDigits (Itoa e) = true /\ Itoa e <> "".
Proof.
  intros He. destruct (exponent_reads e He) as [Hd Hv]. split; [done|]. intros E. rewrite E in Hv. simpl in Hv.
  subst e. done.
Qed.

Lemma normal_head c ds dp : normal (String c ds, dp) = true -> isDigit c = true /\ Ascii.eqb c "0" = false.
Proof.
  intros Hn. pose proof (normal_digits _ _ Hn) as Hd. simpl in Hd. apply andb_true_iff in Hd as [Hc _]. split; [done|].
  apply Ascii.eqb_neq. intros ->. unfold normal in Hn. simpl in Hn. by rewrite andb_false_r in Hn.
Qed.

Lemma formatUnsigned_number c :
  normal c = true -> c = ("", 0%Z) \/ fst c <> "" /\ (-330 <= snd c <= 310)%Z -> unsignedNumber (formatUnsigned c).
Proof.
  intros Hn [-> | [Hne Hdp]]; [split; [done|]; intros raw stk; exists NZero; by rewrite string_app_nil_r|].
  destruct c as [ds dp]. cbn [fst snd] in *. pose proof (normal_digits _ _ Hn) as Hd.
  destruct ds as [|c ds]; [done|]. destruct (normal_head _ _ _ Hn) as [Hc Hz].
  unfold formatUnsigned. set (all := String c ds) in *.
  destruct ((dp <? -5) || (21 <? dp))%Z.
  - simpl in Hd. apply andb_true_iff in Hd as [_ Hds].
    destruct (Itoa_digits (Z.abs (dp - 1)) ltac:(lia)) as [He1 He2].
    by apply (unsigned_exponent c ds (dp - 1 <? 0)%Z).
  - destruct (Z.leb_spec dp 0) as [_|Hpos].
    + pose proof (unsigned_fraction "0" (zeros (Z.to_nat (- dp)) +:+ all) (or_introl eq_refl)) as Hu.
      rewrite allDigits_app, allDigits_zeros in Hu. specialize (Hu Hd).
      by destruct (Z.to_nat (- dp)).
    + destruct (strLen all <=? dp)%Z eqn:Hlen.
      * pose proof (unsigned_fraction (all +:+ zeros (Z.to_nat (dp - strLen all))) "") as Hu.
        change (point "") with "" in Hu. rewrite string_app_nil_r in Hu. apply Hu; [|done]. right.
        rewrite allDigits_app, allDigits_zeros, Hd. split; [done|]. by exists c, (ds +:+ zeros (Z.to_nat (dp - strLen all))).
      * apply Z.leb_gt in Hlen. rewrite strLen_length in Hlen.
        destruct (split_at (Z.to_nat dp) all ltac:(lia)) as [Hsplit Hl].
        destruct (Z.to_nat dp) as [|n] eqn:En; [lia|]. set (b := str_drop (S n) all) in *.
        pose proof Hd as Hab. rewrite <-Hsplit, allDigits_app in Hab. apply andb_true_iff in Hab as [Ha Hb].
        assert (Hp : "." +:+ b = point b).
        { clearbody b. destruct b as [|x b']; [|done]. exfalso.
          rewrite string_app_nil_r in Hsplit. rewrite Hsplit in Hl. lia. }
        rewrite Hp. apply unsigned_fraction; [|done]. right. split; [done|].
        by exists c, (String.substring 0 n ds).
Qed.

Lemma float64Text_number literal t : float64Text literal = Some t -> isNumber t.
Proof.
  unfold float64Text. destruct (readLiteral literal) as [neg d] eqn:Hl.
  destruct (canonical d) as [c|] eqn:Hc; [|done]. intros [= <-].
  apply canonical_stable in Hc as (_ & Hn & Hb); [|by eapply readLiteral_normal].
  by apply signed_isNumber, formatUnsigned_number.
Qed.
