(* ===== verification/JSONValues.v ===== *)
(** * JSON values are read back

    A value that [MarshalIndent] writes is what [Unmarshal] reads ([Unmarshal_Marshal]),
    and a value that was read can be written ([UnmarshalMap_wf]). *)

From stdpp Require Import base tactics list strings gmap sorting.
From Stdlib Require Import Ascii ZArith NArith Lia.
From S2P Require Import Prelude GoStrings Floats JSON JSONReads.

Open Scope string_scope.
Open Scope list_scope.

(** ** Induction on values *)

Fixpoint jsize (v : json) : nat :=
  match v with
  | JArray l => S (foldr (fun v n => jsize v + n) 0 l)
  | JObject m => S (map_fold (fun _ v n => jsize v + n) 0 m)
  | _ => 0
  end%nat.

Lemma jsize_member (m : gmap string json) k v :
  m !! k = Some v -> (jsize v <= map_fold (fun _ v n => jsize v + n) 0 m)%nat.
Proof.
  intros Hk. rewrite (map_fold_delete_L _ _ k v m); [lia| |done]. intros. lia.
Qed.
Lemma jsize_element l v : v ∈ l -> (jsize v <= foldr (fun v n => jsize v + n) 0 l)%nat.
Proof. induction 1; simpl; lia. Qed.

Lemma json_ind' (P : json -> Prop) :
  P JNull -> (forall b, P (JBool b)) -> (forall t, P (JNumber t)) -> (forall s, P (JString s)) ->
  (forall l, Forall P l -> P (JArray l)) -> (forall m, (forall k v, m !! k = Some v -> P v) -> P (JObject m)) ->
  forall v, P v.
Proof.
  intros Hnull Hbool Hnum Hstr Harr Hobj v. remember (jsize v) as n eqn:Hn. revert v Hn.
  induction n as [n IH] using lt_wf_ind. intros v ->. destruct v as [|b|t|s|l|m]; auto.
  - apply Harr, Forall_forall. intros x Hx. eapply IH; [|done]. apply jsize_element in Hx. simpl. lia.
  - apply Hobj. intros k x Hx. eapply IH; [|done]. apply jsize_member in Hx. simpl. lia.
Qed.

(** ** Values that can be written *)

#[local] Set Warnings "-register-all".
Inductive wfJson : json -> Prop :=
| wfj_null : wfJson JNull
| wfj_bool b : wfJson (JBool b)
| wfj_number t : isNumber t -> float64Text t = Some t -> wfJson (JNumber t)
| wfj_string s : utf8 s -> wfJson (JString s)
| wfj_array l : Forall wfJson l -> wfJson (JArray l)
| wfj_object m : (forall k v, m !! k = Some v -> utf8 k /\ wfJson v) -> wfJson (JObject m).

(** The members of an object, in the order they are written. *)
Lemma docOf_members m :
  exists kvs, docOf (JObject m) = DObject (prod_map id docOf <$> kvs) /\ kvs ≡ₚ map_to_list m.
Proof.
  cbn [docOf]. set (L := map_fold _ _ m).
  assert (HL : L = prod_map id docOf <$> map_to_list m).
  { unfold L. rewrite map_fold_foldr. generalize (map_to_list m). intros l.
    induction l as [|[k v] l IH]; [done|]. simpl. by rewrite IH. }
  pose proof (merge_sort_Permutation key_le L) as Hp. rewrite HL in Hp at 2.
  apply Permutation_map_inv in Hp as (kvs & Heq & Hp). exists kvs. split; [by rewrite Heq|done].
Qed.

Lemma docOf_wf v : wfJson v -> wfDoc (docOf v).
Proof.
  induction v as [| | | |l IH|m IH] using json_ind'; intros Hwf; inversion Hwf as [| | | |l' Hl|m' Hm]; subst;
    try (by constructor).
  - constructor. apply Forall_fmap. rewrite Forall_forall in *. intros x Hx. simpl. auto.
  - destruct (docOf_members m) as (kvs & -> & Hp). constructor. apply Forall_fmap, Forall_forall.
    intros [k x] Hx. rewrite Hp in Hx. apply elem_of_map_to_list in Hx. simpl.
    destruct (Hm k x Hx). eauto.
Qed.

(** Members with different keys all count. *)
Lemma membersOf_NoDup {A B} (f : doc -> gerror + A) (g : B -> doc) (h : B -> A) kvs :
  NoDup kvs.*1 -> Forall (fun p => f (g (snd p)) = inr (h (snd p))) kvs ->
  membersOf f (prod_map id g <$> kvs) = inr (list_to_map (prod_map id h <$> kvs)).
Proof.
  unfold membersOf. intros Hnd Hf.
  assert (Hgen : forall m0 : gmap string A, fold_left (fun acc p => both (fun m v => <[fst p := v]> m) acc (f (snd p)))
    (prod_map id g <$> kvs) (inr m0) = inr (list_to_map (prod_map id h <$> kvs) ∪ m0)).
  { induction kvs as [|[k b] kvs IH]; intros m0; [simpl; by rewrite (left_id_L ∅ (∪))|].
    apply Forall_cons in Hf as [Hb Hf]. rewrite fmap_cons in Hnd. apply NoDup_cons in Hnd as [Hk Hnd].
    simpl in *. rewrite Hb. cbn [both]. rewrite IH by done. f_equal.
    rewrite <-insert_union_r, insert_union_l; [done|]. apply not_elem_of_list_to_map_1.
    by rewrite <-list_fmap_compose. }
  rewrite Hgen. by rewrite (right_id_L ∅ (∪)).
Qed.

(** The elements of an array. *)
Lemma elements_inr {A B} (f : A -> gerror + B) (g : B -> A) l :
  Forall (fun b => f (g b) = inr b) l -> foldr (fun d rest => both cons (f d) rest) (inr []) (g <$> l) = inr l.
Proof. induction 1 as [|b l Hb _ IH]; [done|]. rewrite fmap_cons. cbn [foldr]. by rewrite Hb, IH. Qed.

Lemma valueOf_docOf v : wfJson v -> valueOf (docOf v) = inr v.
Proof.
  induction v as [| | | |l IH|m IH] using json_ind'; intros Hwf; inversion Hwf as [| |t' Hn Ht| |l' Hl|m' Hm]; subst;
    try done.
  - simpl. by rewrite Ht.
  - cbn [docOf valueOf]. rewrite elements_inr; [done|]. rewrite Forall_forall in *. auto.
  - destruct (docOf_members m) as (kvs & -> & Hp). cbn [valueOf].
    rewrite (membersOf_NoDup _ _ id); [|by rewrite Hp; apply NoDup_fst_map_to_list|].
    + cbn [onValue]. do 2 f_equal. rewrite <-(list_to_map_to_list m).
      assert (prod_map id id <$> kvs = kvs) as ->.
      { rewrite <-(list_fmap_id kvs) at 2. apply list_fmap_ext. by intros _ [] _. }
      apply list_to_map_proper; [by rewrite Hp; apply NoDup_fst_map_to_list|done].
    + apply Forall_forall. intros [k x] Hx. rewrite Hp in Hx. apply elem_of_map_to_list in Hx. simpl.
      destruct (Hm k x Hx). eauto.
Qed.

(** What is written is read back: with blank indentation, and within the depth that is
    read. *)
Lemma Unmarshal_Marshal v prefix indent text :
  wfJson v -> blank prefix = true -> blank indent = true -> (height (docOf v) <= maxNestingDepth)%nat ->
  MarshalIndent v prefix indent = inr text -> Unmarshal text = inr v.
Proof.
  intros Hwf Hp Hi Hh [= <-]. unfold Unmarshal. rewrite parse_print by (try done; by apply docOf_wf).
  by apply valueOf_docOf.
Qed.

Lemma UnmarshalMap_Marshal m prefix indent text :
  wfJson (JObject m) -> blank prefix = true -> blank indent = true ->
  (height (docOf (JObject m)) <= maxNestingDepth)%nat ->
  MarshalIndent (JObject m) prefix indent = inr text -> UnmarshalMap text = inr m.
Proof.
  intros Hwf Hp Hi Hh Ht. pose proof (valueOf_docOf _ Hwf) as Hv. unfold UnmarshalMap.
  assert (text = print prefix indent 0 (docOf (JObject m))) as -> by (unfold MarshalIndent in Ht; congruence).
  rewrite parse_print by (try done; by apply docOf_wf).
  destruct (docOf_members m) as (kvs & E & _). rewrite E in *. cbn [valueOf] in Hv.
  destruct (membersOf valueOf _); cbn [onValue] in Hv; congruence.
Qed.

(** ** Values that were read *)

(** Every string of a document is UTF-8. *)
Inductive utf8Doc : doc -> Prop :=
| u8_null : utf8Doc DNull
| u8_bool b : utf8Doc (DBool b)
| u8_number t : utf8Doc (DNumber t)
| u8_string s : utf8 s -> utf8Doc (DString s)
| u8_array l : Forall utf8Doc l -> utf8Doc (DArray l)
| u8_object ms : Forall (fun p => utf8 (fst p) /\ utf8Doc (snd p)) ms -> utf8Doc (DObject ms).

Definition utf8Members (ms : list (string * doc)) : Prop := Forall (fun p => utf8 (fst p) /\ utf8Doc (snd p)) ms.
Definition utf8Frame (f : frame) : Prop :=
  match f with
  | FArray l => Forall utf8Doc l
  | FKey ms | FPairs ms => utf8Members ms
  | FColon ms k | FMember ms k => utf8Members ms /\ utf8 k
  end.
Definition utf8State (s : state) : Prop :=
  Forall utf8Frame (snd s) /\ match fst s with EndTop v | InLiteral _ _ v => utf8Doc v | _ => True end.

Lemma utf8_close v stk : utf8Doc v -> Forall utf8Frame stk -> utf8State (close v stk).
Proof.
  intros Hv Hs. unfold utf8State. destruct stk as [|[l|ms|ms k|ms k|ms] stk]; cbn [close fst snd]; try done;
    apply Forall_cons in Hs as [Hf Hs]; (split; [|done]); apply Forall_cons; (split; [|done]); simpl in *.
  - by apply Forall_app; split; [|apply Forall_singleton].
  - split; [done|]. destruct Hv; try constructor. done.
  - destruct Hf. by apply Forall_app; split; [|apply Forall_singleton].
Qed.

Lemma utf8_endValue c stk s : Forall utf8Frame stk -> endValue c stk = inr s -> utf8State s.
Proof.
  intros Hs. unfold endValue. destruct stk as [|[l|ms|ms k|ms k|ms] stk]; try done; pose proof Hs as Hs';
    apply Forall_cons in Hs' as [Hf Hs'];
    repeat (case_match; [intros [= <-]|]); try done.
  all: try (apply utf8_close; [by constructor|done]).
  all: split; [|done]; by apply Forall_cons.
Qed.

Lemma utf8_afterValue c s s' : utf8State s -> afterValue c s = inr s' -> utf8State s'.
Proof.
  destruct s as [m stk]. intros Hs. unfold afterValue. destruct m, (isSpace c); try (by intros [= <-]); try done;
    apply utf8_endValue, Hs.
Qed.

Lemma utf8_beginValue c stk s : Forall utf8Frame stk -> beginValue c stk = inr s -> utf8State s.
Proof.
  intros Hs. unfold beginValue, push. repeat case_match; try done; intros [= <-]; split; simpl; try done;
    try (apply Forall_cons; by split; [constructor|]); constructor.
Qed.

Lemma utf8_step c s s' : utf8State s -> step c s = inr s' -> utf8State s'.
Proof.
  destruct s as [m stk]. intros [Hs Hm] E.
  destruct m as [e|e| |v|raw|raw|raw n|st raw|word rest v]; cbn [fst snd] in *; cbn [step] in E.
  - destruct (isSpace c); [by simplify_eq|].
    destruct (e && Ascii.eqb c "]"); [by eapply utf8_endValue|by eapply utf8_beginValue].
  - destruct (isSpace c); [by simplify_eq|]. destruct (e && Ascii.eqb c "}").
    + destruct stk as [|[l|ms|ms k|ms k|ms] stk]; (eapply utf8_endValue; [|apply E]); try done.
      apply Forall_cons in Hs as [Hf Hs]. by apply Forall_cons.
    + destruct (Ascii.eqb c "034"); by simplify_eq.
  - by apply (utf8_afterValue c (EndValue, stk)) in E.
  - by apply (utf8_afterValue c (EndTop v, stk)) in E.
  - repeat (case_match; [simplify_eq|]); simplify_eq; try done.
    apply utf8_close; [|done]. constructor. apply unquote_utf8.
  - repeat (case_match; [simplify_eq|]); by simplify_eq.
  - destruct (hexValue c); [|done]. by destruct n as [|[|]]; simplify_eq.
  - destruct (numberStep st c) as [[e|st']|]; [done|by simplify_eq|].
    eapply utf8_afterValue; [|apply E]. apply utf8_close; [constructor|done].
  - destruct rest as [|x rest]; [done|]. destruct (Ascii.eqb c x); [|done]. simplify_eq.
    destruct rest; [by apply utf8_close|done].
Qed.

Lemma utf8_run text s s' : utf8State s -> run text s = inr s' -> utf8State s'.
Proof.
  revert s. induction text as [|c text IH]; intros s Hs; [by intros [= <-]|]. cbn [run].
  destruct (step c s) as [|s1] eqn:E; [done|]. apply IH. by eapply utf8_step.
Qed.

Lemma parse_utf8 text d : parse text = inr d -> utf8Doc d.
Proof.
  unfold parse. destruct (run text _) as [|s] eqn:E; [done|].
  apply utf8_run in E; [|by split; [constructor|]]. destruct (step " " s) as [|[m stk]] eqn:Es; [done|].
  apply utf8_step in Es; [|done]. destruct m; try done. intros [= <-]. apply Es.
Qed.

Lemma membersOf_lookup {A} (f : doc -> gerror + A) ms m k v :
  membersOf f ms = inr m -> m !! k = Some v -> exists d, (k, d) ∈ ms /\ f d = inr v.
Proof.
  unfold membersOf.
  assert (Hgen : forall (m0 : gmap string A), fold_left (fun acc p => both (fun m v => <[fst p := v]> m) acc (f (snd p))) ms
    (inr m0) = inr m -> m !! k = Some v -> m0 !! k = Some v \/ exists d, (k, d) ∈ ms /\ f d = inr v).
  { induction ms as [|[k' d] ms IH]; intros m0; [intros [= <-]; auto|]. cbn [fold_left fst snd].
    destruct (f d) as [e|x] eqn:Hd; cbn [both].
    - assert (He : forall ms', fold_left (fun acc p => both (fun m v => <[fst p := v]> m) acc (f (snd p))) ms'
        (inl e : gerror + gmap string A) = inl e) by (induction ms' as [|p ms' IH']; [done|apply IH']).
      by rewrite He.
    - intros Hm Hk. destruct (IH _ Hm Hk) as [Hk'|(d' & ? & ?)].
      + destruct (decide (k' = k)) as [->|Hne].
        * rewrite lookup_insert in Hk'. case_decide; simplify_eq. right. exists d. split; [by left|done].
        * rewrite lookup_insert_ne in Hk' by done. by left.
      + right. exists d'. split; [by right|done]. }
  intros Hm Hk. destruct (Hgen ∅ Hm Hk) as [Hk'|]; [by rewrite lookup_empty in Hk'|done].
Qed.

Lemma elements_lookup {A} (f : doc -> gerror + A) l vs v :
  foldr (fun d rest => both cons (f d) rest) (inr []) l = inr vs -> v ∈ vs -> exists d, d ∈ l /\ f d = inr v.
Proof.
  revert vs. induction l as [|d l IH]; intros vs; [intros [= <-] Hv; by apply elem_of_nil in Hv|]. cbn [foldr].
  destruct (f d) as [e|x] eqn:Hd; [done|].
  destruct (foldr _ _ l) as [e|xs] eqn:Hl; [done|]. intros [= <-] [->|Hv]%elem_of_cons.
  - exists d. split; [by left|done].
  - destruct (IH xs eq_refl Hv) as (d' & ? & ?). exists d'. split; [by right|done].
Qed.

(** A value that was read can be written. *)
Lemma valueOf_wf d v : utf8Doc d -> valueOf d = inr v -> wfJson v.
Proof.
  revert v. induction d as [| |t|s|l IH|ms IH] using doc_ind'; intros v Hd; inversion Hd as [| | |s' Hs|l' Hl|ms' Hms];
    subst; cbn [valueOf].
  - intros [= <-]. constructor.
  - intros [= <-]. constructor.
  - destruct (float64Text t) as [t'|] eqn:Ht; [|done]. intros [= <-].
    constructor; [by eapply float64Text_number|by eapply float64Text_stable].
  - intros [= <-]. by constructor.
  - destruct (foldr _ _ l) as [|vs] eqn:Hvs; [done|]. intros [= <-]. constructor. apply Forall_forall.
    intros x Hx. eapply elements_lookup in Hx as (d & Hin & Hx); [|apply Hvs].
    rewrite Forall_forall in IH, Hl. by eapply IH; [|apply Hl|].
  - destruct (membersOf valueOf ms) as [|m] eqn:Hm; [done|]. intros [= <-]. constructor. intros k x Hx.
    eapply membersOf_lookup in Hx as (d & Hin & Hx); [|apply Hm].
    rewrite Forall_forall in IH, Hms. destruct (Hms _ Hin). split; [done|]. by eapply (IH (k, d)).
Qed.

Lemma UnmarshalMap_wf text m : UnmarshalMap text = inr m -> wfJson (JObject m).
Proof.
  unfold UnmarshalMap. destruct (parse text) as [|d] eqn:Hp; [done|]. apply parse_utf8 in Hp.
  destruct d as [| | | | |ms]; try done.
  - intros [= <-]. constructor. intros k v Hk. by rewrite lookup_empty in Hk.
  - intros Hm. apply (valueOf_wf (DObject ms)); [done|]. cbn [valueOf]. by rewrite Hm.
Qed.

Lemma wfJson_insert m k v : wfJson (JObject m) -> utf8 k -> wfJson v -> wfJson (JObject (<[k := v]> m)).
Proof.
  intros Hm Hk Hv. inversion Hm as [| | | | |m' H]; subst. constructor. intros k' v' [[<- <-] | [_ Hl]]%lookup_insert_Some.
  - done.
  - by apply H.
Qed.
Lemma wfJson_empty : wfJson (JObject ∅).
Proof. constructor. intros k v Hk. by rewrite lookup_empty in Hk. Qed.
Lemma wfJson_delete m k : wfJson (JObject m) -> wfJson (JObject (delete k m)).
Proof.
  intros Hm. inversion Hm as [| | | | |m' H]; subst. constructor. intros k' v' [_ Hl]%lookup_delete_Some. by apply H.
Qed.
Lemma wfJson_JStrings l : Forall utf8 l -> wfJson (JStrings l).
Proof.
  intros Hl. destruct l as [|s l]; [constructor|]. constructor. apply Forall_fmap.
  eapply Forall_impl; [apply Hl|]. intros t Ht. by constructor.
Qed.

(** Printed numbers are ASCII. *)
Lemma Itoa_utf8 z : utf8 (Itoa z).
Proof.
  apply ASCII_utf8. unfold Itoa.
  assert (Hu : forall u, ASCII_only (DecimalString.NilZero.string_of_uint u) = true).
  { assert (He : forall u, ASCII_only (DecimalString.NilEmpty.string_of_uint u) = true) by (induction u; done).
    intros u. destruct u; [done|apply (He (Decimal.D0 _))|..]; apply He. }
  by destruct (Z.to_int z); apply Hu || (simpl; apply Hu).
Qed.

#[global] Opaque MarshalIndent UnmarshalMap parse.
