(* ===== verification/JSONDecode.v ===== *)
(** * Decoding JSON into Go values ([encoding/json])

    [json.Unmarshal] into strings, structs, slices and pointers.  A decoder is given what
    the variable holds and returns what it holds then, with the first error: decoding
    goes on after an error of type, null leaves most variables alone, a key finds its
    field by its name or else up to case, and of repeated keys each is decoded in turn. *)

From stdpp Require Import base tactics list strings gmap.
From Stdlib Require Import Ascii ZArith Lia.
From S2P Require Import Prelude GoStrings JSON.

Open Scope string_scope.
Open Scope list_scope.

(** Where the decoder is: the innermost struct and the path of fields to it. *)
Record place := { pl_Struct : string; pl_Path : list string }.
Definition top : place := {| pl_Struct := ""; pl_Path := [] |}.

(** [json.UnmarshalTypeError] *)
Definition typeErrorAt (at_ : place) (value goType : string) : gerror :=
  match pl_Path at_ with
  | [] => typeError value goType
  | path => EText ("json: cannot unmarshal " +:+ value +:+ " into Go struct field " +:+ pl_Struct at_ +:+ "." +:+
                   Join path "." +:+ " of type " +:+ goType)
  end.

Definition decoder (A : Type) : Type := place -> doc -> A -> A * option gerror.

Definition firstError (e e' : option gerror) : option gerror := match e with Some _ => e | None => e' end.

Definition decString : decoder string := fun at_ d s =>
  match d with
  | DNull => (s, None)
  | DString t => (t, None)
  | _ => (s, Some (typeErrorAt at_ (docKind d) "string"))
  end.

(** A slice is filled from its first element on; null makes it nil. *)
Fixpoint decElements {A} (dec : decoder A) (zero : A) (at_ : place) (ds : list doc) (old : list A) :
    list A * option gerror :=
  match ds with
  | [] => ([], None)
  | d :: ds' =>
      let '(a, e) := dec at_ d (match old with a :: _ => a | [] => zero end) in
      let '(rest, e') := decElements dec zero at_ ds' (match old with _ :: old' => old' | [] => [] end) in
      (a :: rest, firstError e e')
  end.
Definition decSlice {A} (goType : string) (dec : decoder A) (zero : A) : decoder (list A) := fun at_ d old =>
  match d with
  | DNull => ([], None)
  | DArray ds => decElements dec zero at_ ds old
  | _ => (old, Some (typeErrorAt at_ (docKind d) goType))
  end.

(** A pointer: null makes it nil, anything else is decoded into what it points to. *)
Definition decPointer {A} (dec : decoder A) (zero : A) : decoder (option A) := fun at_ d old =>
  match d with
  | DNull => (None, None)
  | _ => let '(a, e) := dec at_ d (default zero old) in (Some a, e)
  end.

(** The fields of a struct by their JSON names. *)
Definition fields (A : Type) : Type := list (string * decoder A).
Definition onField {A B} (get : A -> B) (set : A -> B -> A) (dec : decoder B) : decoder A := fun at_ d a =>
  let '(b, e) := dec at_ d (get a) in (set a b, e).

Definition findField {A} (fs : fields A) (key : string) : option (string * decoder A) :=
  match find (fun f => String.eqb (fst f) key) fs with
  | Some f => Some f
  | None => find (fun f => EqualFold (fst f) key) fs
  end.

Definition decMember {A} (name : string) (fs : fields A) (at_ : place) (st : A * option gerror) (m : string * doc) :
    A * option gerror :=
  match findField fs (fst m) with
  | None => st
  | Some (field, dec) =>
      let '(a, e) := dec {| pl_Struct := name; pl_Path := pl_Path at_ ++ [field] |} (snd m) (fst st) in
      (a, firstError (snd st) e)
  end.
Definition decStruct {A} (package name : string) (fs : fields A) : decoder A := fun at_ d a =>
  match d with
  | DNull => (a, None)
  | DObject ms => fold_left (decMember name fs at_) ms (a, None)
  | _ => (a, Some (typeErrorAt at_ (docKind d) (package +:+ "." +:+ name)))
  end.

(** [json.Unmarshal(data, &v)] *)
Definition UnmarshalInto {A} (dec : decoder A) (zero : A) (text : string) : gerror + A :=
  match parse text with
  | inl e => inl e
  | inr d => match dec top d zero with (_, Some e) => inl e | (a, None) => inr a end
  end.

(** ** Lemmas *)

(** Strings are decoded from the array that is written for them. *)
Lemma decElements_strings at_ l old : decElements decString "" at_ (DString <$> l) old = (l, None).
Proof.
  revert old. induction l as [|s l IH]; intros old; [done|]. rewrite fmap_cons. cbn [decElements decString].
  by rewrite IH.
Qed.
Lemma decStrings_written at_ l old :
  decSlice "[]string" decString "" at_ (docOf (JStrings l)) old = (l, None).
Proof.
  destruct l as [|s l]; [done|]. unfold JStrings. cbn [docOf]. cbn [decSlice].
  rewrite <-list_fmap_compose. change (docOf ∘ JString) with DString. apply decElements_strings.
Qed.

(** Members whose keys name no field do nothing. *)
Lemma decMembers_skip {A} name (fs : fields A) at_ ms st :
  Forall (fun m => findField fs (fst m) = None) ms -> fold_left (decMember name fs at_) ms st = st.
Proof.
  revert st. induction ms as [|m ms IH]; intros st Hms; [done|]. apply Forall_cons in Hms as [Hm Hms].
  cbn [fold_left]. unfold decMember at 2. rewrite Hm. by apply IH.
Qed.

Lemma findField_In {A} (fs : fields A) k f : findField fs k = Some f -> f ∈ fs /\ EqualFold (fst f) k = true.
Proof.
  unfold findField. destruct (find _ fs) as [g|] eqn:E.
  - intros [= <-]. apply find_some in E as [Hin Hk]. apply String.eqb_eq in Hk as <-.
    split; [by apply list_elem_of_In|apply EqualFold_refl].
  - intros [Hin Hk]%find_some. split; [by apply list_elem_of_In|done].
Qed.
