(* ===== verification/Files.v ===== *)
(** * Files and paths

    What the CNI code uses of [os] and [path/filepath].  Paths are modelled
    ([filepath.Clean], [Join] and [Ext] on Unix); the file system is a parameter with
    its documented behaviour as laws. *)

From stdpp Require Import base tactics list strings gmap.
From Stdlib Require Import Ascii ZArith Lia.
From S2P Require Import Prelude GoStrings.

Open Scope string_scope.
Open Scope list_scope.

(** ** Paths *)

Module filepath.
Definition sep : ascii := "/".

(** One component of a path, on the components before it, last one first. *)
Definition clean_step (rooted : bool) (st : list string) (c : string) : list string :=
  if String.eqb c "" || String.eqb c "." then st
  else if String.eqb c ".." then
    match st with
    | [] => if rooted then [] else [".."]
    | x :: st' => if String.eqb x ".." then ".." :: st else st'
    end
  else c :: st.

(** The components that are left of a path. *)
Definition components (p : string) : list string :=
  rev (fold_left (clean_step (HasPrefix p "/")) (Split p sep) []).

Definition Clean (p : string) : string :=
  let out := GoStrings.Join (components p) "/" in
  if HasPrefix p "/" then String sep out
  else if String.eqb out "" then "." else out.

(** [filepath.Join(a, b)] *)
Definition Join (a b : string) : string :=
  if negb (String.eqb a "") then Clean (a +:+ "/" +:+ b)
  else if negb (String.eqb b "") then Clean b
  else "".

(** The text from the last dot of the last component on. *)
Fixpoint Ext (p : string) : string :=
  match p with
  | EmptyString => ""
  | String c p' =>
      let e := Ext p' in
      if negb (String.eqb e "") then e
      else if Ascii.eqb c "." && no_byte sep p' then p else ""
  end.

(** [filepath.Dir] *)
Fixpoint dir_part (p : string) : string :=
  match p with
  | EmptyString => ""
  | String c p' => if no_byte sep p then "" else String c (dir_part p')
  end.
Definition Dir (p : string) : string := Clean (dir_part p).

Example clean_ex : Clean <$> ["/etc/cni/net.d"; "a//b/./c/.."; "/.."; "../a"; ""; "a/.."; "/a/../../b"; "./x"] =
  ["/etc/cni/net.d"; "a/b"; "/"; "../a"; "."; "."; "/b"; "x"].
Proof. reflexivity. Qed.
Example join_ex : Join "/etc/cni/net.d" "01-egressgateway.conflist" = "/etc/cni/net.d/01-egressgateway.conflist" /\
  Join "/etc/" "/x" = "/etc/x" /\ Join "" "" = "" /\ Join "a" "" = "a".
Proof. repeat split. Qed.
Example ext_ex : Ext <$> ["10-azure.conflist"; "a.b/c"; "x.tar.gz"; "none"; "a.conf/.x"; "dot."] =
  [".conflist"; ""; ".gz"; ""; ".x"; "."].
Proof. reflexivity. Qed.
Example dir_ex : Dir <$> ["/a/b"; "a"; "/a"; "a/b/"; "x/../y/z"] = ["/a"; "."; "/"; "a/b"; "y"].
Proof. reflexivity. Qed.

(** A name of a file in a directory. *)
Definition plain (name : string) : bool :=
  no_byte sep name && negb (existsb (String.eqb name) [""; "."; ".."]).

(** Joining a directory and a plain name puts the name last. *)
Lemma components_join dir name :
  dir <> "" -> plain name = true ->
  components (dir +:+ "/" +:+ name) = components dir ++ [name].
Proof.
  intros Hd [Hsep Hname]%andb_true_iff.
  unfold components.
  assert (Hr : HasPrefix (dir +:+ "/" +:+ name) "/" = HasPrefix dir "/").
  { destruct dir as [|c dir]; [done|].
    change (String c dir +:+ "/" +:+ name) with (String c (dir +:+ "/" +:+ name)). simpl.
    by destruct (dir +:+ "/" +:+ name), dir. }
  rewrite Hr. clear Hr.
  change ("/" +:+ name) with (String sep name). rewrite Split_app_sep.
  rewrite (Split_no_byte sep name Hsep), fold_left_app. simpl.
  unfold clean_step at 1. simpl in Hname.
  apply negb_true_iff, orb_false_iff in Hname as [-> [-> [-> _]%orb_false_iff]%orb_false_iff]. done.
Qed.

(** What a directory contributes to the paths of its files. *)
Definition join_prefix (dir : string) : string :=
  (if HasPrefix dir "/" then "/" else "") +:+
  match components dir with [] => "" | l => GoStrings.Join l "/" +:+ "/" end.

Lemma plain_nonempty name : plain name = true -> name <> "".
Proof. intros Hp ->. done. Qed.

Lemma Clean_plain_join dir name :
  dir <> "" -> plain name = true -> Clean (dir +:+ "/" +:+ name) = join_prefix dir +:+ name.
Proof.
  intros Hd Hp. unfold Clean, join_prefix. rewrite components_join, Join_snoc by done.
  assert (Hne := plain_nonempty name Hp).
  assert (Hr : HasPrefix (dir +:+ "/" +:+ name) "/" = HasPrefix dir "/").
  { destruct dir as [|c dir]; [done|].
    change (String c dir +:+ "/" +:+ name) with (String c (dir +:+ "/" +:+ name)). simpl.
    by destruct (dir +:+ "/" +:+ name), dir. }
  rewrite Hr.
  set (pre := match components dir with [] => "" | l => GoStrings.Join l "/" +:+ "/" end).
  assert (Hout : match components dir with
                 | [] => name | _ => GoStrings.Join (components dir) "/" +:+ "/" +:+ name end = pre +:+ name).
  { unfold pre. destruct (components dir); [done|]. by rewrite <- str_app_assoc. }
  rewrite Hout, <- str_app_assoc. destruct (HasPrefix dir "/"); [done|].
  destruct (String.eqb_spec (pre +:+ name) "") as [He|]; [|done].
  by destruct pre, name.
Qed.

Lemma Clean_plain name : plain name = true -> Clean name = name.
Proof.
  intros Hp. assert (Hne := plain_nonempty name Hp).
  apply andb_true_iff in Hp as [Hsep Hname].
  unfold Clean, components. rewrite (Split_no_byte sep name Hsep). simpl.
  unfold clean_step. simpl in Hname.
  apply negb_true_iff, orb_false_iff in Hname as [He [Hdot [Hdd _]%orb_false_iff]%orb_false_iff].
  rewrite He, Hdot, Hdd. simpl. rewrite He.
  assert (HasPrefix name "/" = false) as ->; [|done].
  destruct name as [|c name]; [done|]. cbn [HasPrefix].
  apply andb_true_iff in Hsep as [Hc _]. apply negb_true_iff in Hc.
  unfold sep in Hc. rewrite ?Hc, ?(Ascii.eqb_sym c), ?Hc. done.
Qed.

(** The path of a plain name. *)
Lemma Join_plain dir name : plain name = true -> Join dir name = join_prefix dir +:+ name.
Proof.
  intros Hp. unfold Join. destruct (String.eqb_spec dir "") as [->|Hd]; simpl.
  - destruct (String.eqb_spec name "") as [->|]; [done|]. by apply Clean_plain.
  - by apply Clean_plain_join.
Qed.

Lemma plain_app name ext : plain name = true -> no_byte sep ext = true ->
  (2 <= String.length ext)%nat -> plain (name +:+ ext) = true.
Proof.
  intros Hp Hx Hl. apply andb_true_iff in Hp as [Hs Hn]. apply andb_true_iff. split.
  - clear Hn. induction name as [|c name IH]; [done|].
    change (String c name +:+ ext) with (String c (name +:+ ext)). simpl in *.
    apply andb_true_iff in Hs as [-> Hs]. by apply IH.
  - destruct name as [|a [|b name]]; [done|..].
    + destruct ext as [|x [|y ext]]; simpl in *; [lia..|].
      change (String a "" +:+ String x (String y ext)) with (String a (String x (String y ext))).
      simpl. apply negb_true_iff. destruct (Ascii.eqb a "."), (Ascii.eqb x "."); done.
    + destruct ext as [|x [|y ext]]; simpl in *; [lia..|].
      change (String a (String b name) +:+ String x (String y ext)) with
        (String a (String b (name +:+ String x (String y ext)))).
      simpl. apply negb_true_iff.
      destruct (Ascii.eqb a "."), (Ascii.eqb b "."); simpl; try done.
      by destruct name.
Qed.

Lemma str_app_inj_l p s t : p +:+ s = p +:+ t -> s = t.
Proof.
  induction p as [|c p IH]; [done|].
  change (String c p +:+ s) with (String c (p +:+ s)).
  change (String c p +:+ t) with (String c (p +:+ t)). intros [= E]. by apply IH.
Qed.

Lemma Join_plain_inj dir a b :
  plain a = true -> plain b = true -> Join dir a = Join dir b -> a = b.
Proof. intros Ha Hb. rewrite !Join_plain by done. apply str_app_inj_l. Qed.
End filepath.

(** ** The file system *)

(** [os.DirEntry]: the name and whether [Type().IsRegular()]. *)
Record DirEntry := { de_Name : string; de_Regular : bool }.

(** [perm] of [os.WriteFile] is the Unix mode as a number. *)
Class FileSystem (W : Type) := {
  ReadDir : string -> M W (list DirEntry);
  ReadFile : string -> M W string;
  WriteFile : string -> string -> Z -> M W unit;
  Rename : string -> string -> M W unit;
  Stat : string -> M W unit;
  Remove : string -> M W unit;
}.

(** The documented behaviour, on the contents of the files: reading does not write;
    a failed write may leave anything in its own file, a failed rename nothing. *)
Class FilesLaws {W : Type} `{FileSystem W} (fileAt : W -> string -> option string) : Prop := {
  ReadDir_files d w f : fileAt (snd (ReadDir d w)) f = fileAt w f;
  ReadFile_files p w f : fileAt (snd (ReadFile p w)) f = fileAt w f;
  ReadFile_Ok p w s w' : ReadFile p w = (Ok s, w') -> fileAt w p = Some s;
  Stat_files p w f : fileAt (snd (Stat p w)) f = fileAt w f;
  Stat_Ok p w w' : Stat p w = (Ok tt, w') -> is_Some (fileAt w p);
  Stat_missing p w e w' : Stat p w = (Err e, w') -> IsNotExist e = true -> fileAt w p = None;
  WriteFile_Ok p s perm w w' : WriteFile p s perm w = (Ok tt, w') -> fileAt w' p = Some s;
  WriteFile_other p s perm w f : f <> p -> fileAt (snd (WriteFile p s perm w)) f = fileAt w f;
  Rename_Ok p q w w' : p <> q -> Rename p q w = (Ok tt, w') ->
    fileAt w' q = fileAt w p /\ fileAt w' p = None;
  Rename_fails p q w r w' f : Rename p q w = (r, w') -> r <> Ok tt -> fileAt w' f = fileAt w f;
  Rename_other p q w f : f <> p -> f <> q -> fileAt (snd (Rename p q w)) f = fileAt w f;
  Remove_Ok p w w' : Remove p w = (Ok tt, w') -> fileAt w' p = None;
  Remove_fails p w r w' f : Remove p w = (r, w') -> r <> Ok tt -> fileAt w' f = fileAt w f;
  Remove_other p w f : f <> p -> fileAt (snd (Remove p w)) f = fileAt w f;
}.
