(* ===== verification/Network.v ===== *)
(** * The node's network interfaces

    What the daemon and the CNI plugin call to configure a node's network is a
    parameter, one class per wrapper package: [NetLink] ([pkg/netlinkwrapper]),
    [NetNS] ([pkg/netnswrapper] over the CNI library's [ns]), [IPTables]
    (Kubernetes' [utiliptables]) and [WgCtrl] ([pkg/wgctrlwrapper]).  Links,
    addresses, routes and iptables chains belong to the network namespace of the
    calling thread, which every call therefore takes as its first argument:
    [HostNS] outside [ns.Do], the opened namespace inside. *)

From stdpp Require Import base tactics list strings gmap sets.
From Stdlib Require Import Ascii ZArith Lia.
From S2P Require Import Prelude GoStrings Types NetIP Files.

Open Scope string_scope.
Open Scope list_scope.

(** ** Network namespaces *)

(** The namespace of the process, or one opened by its path. *)
Inductive netns := HostNS | PathNS (path : string).
#[export] Instance netns_eq_dec : EqDecision netns.
Proof. solve_decision. Defined.

Class NetNS (W : Type) := {
  (** [ns.GetNS(path)] fails for a path that is not a namespace. *)
  nsGetNS : string -> M W unit;
  nsClose : netns -> M W unit;
  (** Entering the namespace, the first thing [Do] does. *)
  nsEnter : netns -> M W unit;
}.

Definition nsBaseDir : string := "/var/run/netns".

(** [GetNS] and [GetNSByPath] of [pkg/netnswrapper]. *)
Definition GetNSByPath {W} `{NetNS W} (nsPath : string) : M W netns :=
  do! nsGetNS nsPath; ret (PathNS nsPath).
Definition GetNS {W} `{NetNS W} (nsName : string) : M W netns :=
  GetNSByPath (filepath.Join nsBaseDir nsName).

(** [gwns.Do(body)]: the body runs in the namespace; the thread's namespace is
    restored on the way out, whose error is not reported. *)
Definition nsDo {W A} `{NetNS W} (gwns : netns) (body : M W A) : M W A :=
  do! nsEnter gwns; body.

(** [defer func() { _ = gwns.Close() }()] *)
Definition closing {W A} `{NetNS W} (gwns : netns) (body : M W A) : M W A :=
  defer (fun _ w => snd (nsClose gwns w)) body.

(** ** Links, addresses and routes *)

Inductive LinkKind := Wireguard | Veth (PeerName : string) | Device.

(** [netlink.Link]: its kind and the attributes the program reads or sets. *)
Record Link := {
  l_Name : string;
  l_Alias : string;
  l_Index : Z;
  l_HardwareAddr : string;
  l_Kind : LinkKind;
}.

(** A link to create: [netlink.NewLinkAttrs()] with name and alias. *)
Definition newLink (kind : LinkKind) (name alias : string) : Link :=
  {| l_Name := name; l_Alias := alias; l_Index := 0; l_HardwareAddr := ""; l_Kind := kind |}.

(** [netlink.Addr]: the embedded [*net.IPNet] may be nil. *)
Record Addr := {
  addr_IPNet : option IPNet;
  addr_Label : string;
  addr_Scope : Z;
}.
Definition newAddr (n : option IPNet) (label : string) : Addr :=
  {| addr_IPNet := n; addr_Label := label; addr_Scope := 0 |}.

(** [address.IP], through the embedded pointer. *)
Definition addr_IP (a : Addr) : outcome (option IP) :=
  let? n := deref (addr_IPNet a) in Ok (ipn_IP n).

Definition SCOPE_UNIVERSE : Z := 0.
Definition SCOPE_LINK : Z := 253.
Definition FAMILY_ALL : Z := 0.
Definition FAMILY_V4 : Z := 2.
Definition FAMILY_V6 : Z := 10.

(** [netlink.Route] *)
Record Route := {
  rt_LinkIndex : Z;
  rt_Scope : Z;
  rt_Dst : option IPNet;
  rt_Gw : option IP;
  rt_Via : option (option IP * Z);
  rt_Protocol : Z;
  rt_Family : Z;
  rt_Table : Z;
}.
Definition newRoute (index scope : Z) (dst : option IPNet) (gw : option IP) : Route :=
  {| rt_LinkIndex := index; rt_Scope := scope; rt_Dst := dst; rt_Gw := gw; rt_Via := None;
     rt_Protocol := 0; rt_Family := 0; rt_Table := 0 |}.

#[export] Instance LinkKind_eq_dec : EqDecision LinkKind.
Proof. solve_decision. Defined.
#[export] Instance Link_eq_dec : EqDecision Link.
Proof. solve_decision. Defined.
#[export] Instance Addr_eq_dec : EqDecision Addr.
Proof. solve_decision. Defined.
#[export] Instance Route_eq_dec : EqDecision Route.
Proof. solve_decision. Defined.

Class NetLink (W : Type) := {
  LinkByName : netns -> string -> M W Link;
  LinkAdd : netns -> Link -> M W unit;
  LinkList : netns -> M W (list Link);
  LinkDel : netns -> Link -> M W unit;
  LinkSetUp : netns -> Link -> M W unit;
  LinkSetDown : netns -> Link -> M W unit;
  (** Moves the link to the namespace of the file descriptor. *)
  LinkSetNsFd : netns -> Link -> netns -> M W unit;
  LinkSetName : netns -> Link -> string -> M W unit;
  LinkSetAlias : netns -> Link -> string -> M W unit;
  AddrList : netns -> Link -> Z -> M W (list Addr);
  AddrAdd : netns -> Link -> Addr -> M W unit;
  AddrDel : netns -> Link -> Addr -> M W unit;
  AddrReplace : netns -> Link -> Addr -> M W unit;
  RouteReplace : netns -> Route -> M W unit;
  RouteDel : netns -> Route -> M W unit;
  (** A nil link lists the routes of all links. *)
  RouteList : netns -> option Link -> Z -> M W (list Route);
  (** [RuleAdd] of a rule that looks up a table for packets with a mark. *)
  RuleAdd : netns -> Z -> Z -> M W unit;
}.

(** Functions of the [netlink] package without effects. *)
Class NetlinkPure := {
  ParseIPNet : string -> gerror + IPNet;
  Addr_Equal : Addr -> Addr -> outcome bool;
  (** [route.String()], which error messages quote. *)
  Route_String : Route -> string;
}.

(** ** iptables *)

Class IPTables (W : Type) := {
  EnsureChain : netns -> string -> string -> M W bool;
  (** [EnsureRule(position, table, chain, args...)] *)
  EnsureRule : netns -> string -> string -> string -> list string -> M W bool;
  DeleteRule : netns -> string -> string -> list string -> M W unit;
  (** [SaveInto(table, buffer)]: what is written to the buffer. *)
  SaveInto : netns -> string -> M W string;
  (** [Restore(table, data, flush, counters)] and [RestoreAll]. *)
  Restore : netns -> string -> string -> bool -> bool -> M W unit;
  RestoreAll : netns -> string -> bool -> bool -> M W unit;
  GetChainsFromTable : string -> gset string;
  MakeChainLine : string -> string;
}.

Definition TableNAT : string := "nat".
Definition ChainPostrouting : string := "POSTROUTING".
Definition ChainPrerouting : string := "PREROUTING".
Definition Prepend : string := "-I".
Definition Append : string := "-A".
Definition NoFlushTables : bool := false.
Definition NoRestoreCounters : bool := false.

(** ** WireGuard *)

(** [wgtypes.Key] and its base64 text. *)
Class WgTypes := {
  Key : Type;
  ParseKey : string -> gerror + Key;
  Key_String : Key -> string;
}.

Section wgtypes.
Context `{WgTypes}.

(** [wgtypes.Peer], [Device], [PeerConfig] and [Config], with the fields the
    program uses. *)
Record Peer := { peer_PublicKey : Key; peer_AllowedIPs : list IPNet }.
Record WgDevice := {
  dev_PrivateKey : Key;
  dev_ListenPort : Z;
  dev_Peers : list Peer;
}.
Record PeerConfig := {
  pcf_PublicKey : Key;
  pcf_Remove : bool;
  pcf_ReplaceAllowedIPs : bool;
  pcf_AllowedIPs : list IPNet;
  pcf_Endpoint : option (option IP * Z);
}.
Record WgConfig := {
  wg_PrivateKey : option Key;
  wg_ListenPort : option Z;
  wg_Peers : list PeerConfig;
}.
End wgtypes.

(** A client configures the devices of the namespace it was made in. *)
Class WgCtrl (W : Type) `{WgTypes} := {
  WgClient : Type;
  wgNew : netns -> M W WgClient;
  wgDevice : WgClient -> string -> M W WgDevice;
  wgConfigureDevice : WgClient -> string -> WgConfig -> M W unit;
  wgClose : WgClient -> M W unit;
}.

(** [wgClient, err := New(); ...; defer wgClient.Close()] around a body. *)
Definition withWgClient {W A} `{WgCtrl W} (thread : netns) (body : WgClient -> M W A) : M W A :=
  let! wgClient := wgNew thread ?: (wrap "failed to create wgctrl client: ") in
  defer (fun _ w => snd (wgClose wgClient w)) (body wgClient).

(** [lift] of a call that returns a value or an error. *)
Definition of_sum {A} (r : gerror + A) : outcome A :=
  match r with inr a => Ok a | inl e => Err e end.

Lemma of_sum_Ok {A} (r : gerror + A) a : of_sum r = Ok a -> r = inr a.
Proof. destruct r; naive_solver. Qed.
