(* ===== verification/CNIConf.v ===== *)
(** * The CNI configuration of a node ([pkg/cni/conf/confmanager.go])

    The CNI manager adds the egress plugin to the node's network: it takes the
    first configuration file of the directory that is not its own, inserts its
    plugin behind the main one and writes the result to its own file, which sorts
    first.  It watches the directory and repeats this on changes, and removes the
    file when it is uninstalled.

    The function that reads a file and edits its contents is split: [confToList] and
    [confListToList] are [managePluginFromConf] and [managePluginFromConfList] after
    the file has been read. *)

From stdpp Require Import base tactics list strings gmap sorting.
From Stdlib Require Import Ascii ZArith Lia.
From S2P Require Import Prelude GoStrings JSON JSONReads JSONValues Types Kube Azure NetIP Network Files.

Open Scope string_scope.
Open Scope list_scope.

(** ** Interfaces *)

(** [fsnotify]: a watcher of directories. *)
Class Watcher (W : Type) := {
  NewWatcher : M W unit;
  watcherAdd : string -> M W unit;
  watcherClose : M W unit;
}.

(** [retry.OnError] of client-go: up to [Steps] attempts while the error is
    retriable, and then the last error. *)
Class Retries :=
  OnError : forall W : Type, Backoff -> (gerror -> bool) -> M W unit -> M W unit.

Inductive retry_run {W} (retriable : gerror -> bool) (fn : M W unit) : nat -> W -> outcome unit * W -> Prop :=
| retry_done n w w' : fn w = (Ok tt, w') -> retry_run retriable fn (S n) w (Ok tt, w')
| retry_failed n w e w' : fn w = (Err e, w') -> retry_run retriable fn (S n) w (Err e, w')
| retry_panicked n w w' : fn w = (Panic, w') -> retry_run retriable fn (S n) w (Panic, w')
| retry_again n w e w' r :
    fn w = (Err e, w') -> retriable e = true -> retry_run retriable fn n w' r ->
    retry_run retriable fn (S n) w r.

Class RetryLaws `{Retries} :=
  retry_documented W b retriable (fn : M W unit) w :
    (0 < bo_Steps b)%nat -> retry_run retriable fn (bo_Steps b) w (OnError W b retriable fn w).

(** ** The manager *)

Record Manager := {
  cniConfDir : string;
  cniConfFile : string;
  cniConfFileTemp : string;
  cniUninstallConfigMapName : string;
  exceptionCidrs : list string;
  grpcPort : Z;
}.

Definition ErrMainCNINotFound : gerror := EText "no existing cni plugin configuration file found".
(** [errors.Is(err, ErrMainCNINotFound)] *)
Definition isMainCNINotFound (err : gerror) : bool :=
  match errors_as (fun e => if decide (e = ErrMainCNINotFound) then Some tt else None) err with
  | Some _ => true
  | None => false
  end.

(** ** Editing the configuration *)

(** The plugin's entry in the list. *)
Definition egressPlugin (mgr : Manager) : json :=
  JObject (<["type" := JString consts.KubeEgressCNIName]>
          (<["ipam" := JObject {["type" := JString consts.KubeEgressIPAMCNIName]}]>
          (<["excludedCIDRs" := JStrings (exceptionCidrs mgr)]>
           {["socketPath" := JString ("localhost:" +:+ Itoa (grpcPort mgr))]}))).

(** A configuration of one plugin becomes a list of two. *)
Definition confToList (mgr : Manager) (file : string) (rawConf : gmap string json) :
    outcome (gmap string json) :=
  match rawConf !! "name" with
  | None => Err (EText ("failed to find network name in " +:+ file))
  | Some networkName =>
      let rawList := {["name" := networkName]} in
      let rawConf := delete "name" rawConf in
      let? (rawList, rawConf) :=
        match rawConf !! "cniVersion" with
        | None => Ok (rawList, rawConf)
        | Some (JString v) => Ok (<["cniVersion" := JString v]> rawList, delete "cniVersion" rawConf)
        | Some _ => Err (EText "cniVersion () is not in string format")
        end in
      Ok (<["plugins" := JArray [JObject rawConf; egressPlugin mgr]]> rawList)
  end.

(** Is the value of [type] the egress plugin's name? *)
Definition isEgressType (cniType : json) : bool :=
  match cniType with JString s => EqualFold s consts.KubeEgressCNIName | _ => false end.

(** The loop that looks for the plugin: its index, and an error for an entry before
    it that is no object or has no type. *)
Fixpoint findEgress (file : string) (plugins : list json) : outcome (option nat) :=
  match plugins with
  | [] => Ok None
  | JObject p :: rest =>
      match p !! "type" with
      | None => Err (EText ("failed to find type in plugin conf in file " +:+ file))
      | Some cniType =>
          if isEgressType cniType then Ok (Some 0)
          else let? r := findEgress file rest in Ok (S <$> r)
      end
  | _ :: _ => Err (EText ("failed to parse plugin conf in file " +:+ file))
  end.

(** The plugin moves to the second position.  [plugins[1:]] panics on a slice that
    is empty after the removal. *)
Definition placeEgress (mgr : Manager) (file : string) (plugins : list json) : outcome (list json) :=
  let? found := findEgress file plugins in
  let plugins := match found with Some i => remove_at i plugins | None => plugins end in
  match plugins with
  | [] => Panic
  | main :: rest => Ok (main :: egressPlugin mgr :: rest)
  end.

Definition confListToList (mgr : Manager) (file : string) (rawList : gmap string json) :
    outcome (gmap string json) :=
  match rawList !! "plugins" with
  | None => Err (EText ("failed to find plugins in cni config file " +:+ file))
  | Some (JArray []) => Err (EText ("empty plugin list in cni config file " +:+ file))
  | Some (JArray plugins) =>
      let? plugins := placeEgress mgr file plugins in
      Ok (<["plugins" := JArray plugins]> rawList)
  | Some _ => Err (EText ("plugins field is not an array in " +:+ file))
  end.

(** ** The main plugin's file *)

Definition isMainConf (cniConfFile : string) (file : DirEntry) : bool :=
  de_Regular file && negb (EqualFold (de_Name file) cniConfFile) &&
  existsb (String.eqb (filepath.Ext (de_Name file))) [".conflist"; ".conf"; ".json"].

(** The file [findMasterPlugin] takes of a directory's entries. *)
Definition masterOf (cniConfDir cniConfFile : string) (files : list DirEntry) : outcome string :=
  match sortStrings (de_Name <$> List.filter (isMainConf cniConfFile) files) with
  | [] => Err ErrMainCNINotFound
  | first :: _ => Ok (filepath.Join cniConfDir first)
  end.

(** ** The CIDRs of the command line *)

Definition parseCidr (res : list string) (piece : string) : outcome (list string) :=
  let cidr := TrimSpace piece in
  if String.eqb cidr "" then Ok res
  else match ParseCIDR cidr with
       | inl err => Err (wrap ("cidr " +:+ cidr +:+ " is not valid: ") err)
       | inr _ => Ok (res ++ [cidr])
       end.
Fixpoint parseCidrList (res pieces : list string) : outcome (list string) :=
  match pieces with
  | [] => Ok res
  | piece :: pieces' => let? res := parseCidr res piece in parseCidrList res pieces'
  end.
Definition parseCidrs (cidrs : string) : outcome (list string) := parseCidrList [] (Split cidrs ",").

(** ** Operations *)

(** What the watcher sends to [Start]. *)
Inductive watchEvent :=
| FileEvent (name : string)
| WatchError (err : option gerror).

Module confmgr.
Section confmgr.
Context {W : Type} `{FileSystem W} `{Watcher W} `{Retries} `{OsEnv} `{Store W ConfigMap}.

Definition newWatcher (cniConfDir : string) : M W unit :=
  do! NewWatcher ?: (fun err => EText ("failed to create new watcher for " +:+ quoted cniConfDir +:+ ": " +:+ Error err));
  let! r := try (watcherAdd cniConfDir) in
  match r with
  | inr _ => ret tt
  | inl err =>
      do! try watcherClose;
      throw (EText ("failed to add watch on " +:+ quoted cniConfDir +:+ ": " +:+ Error err))
  end.

Definition NewCNIConfManager (cniConfDir cniConfFile exceptionCidrs cniUninstallConfigMapName : string)
    (grpcPort : Z) : M W Manager :=
  let! cidrs := lift (parseCidrs exceptionCidrs) in
  do! newWatcher cniConfDir;
  ret {| cniConfDir := cniConfDir; cniConfFile := cniConfFile; cniConfFileTemp := cniConfFile +:+ ".tmp";
         cniUninstallConfigMapName := cniUninstallConfigMapName; exceptionCidrs := cidrs; grpcPort := grpcPort |}.

Context (mgr : Manager).
Definition confPath : string := filepath.Join (cniConfDir mgr) (cniConfFile mgr).
Definition tempPath : string := filepath.Join (cniConfDir mgr) (cniConfFileTemp mgr).

Definition IsReady : M W bool :=
  let! r := try (Stat confPath) in
  match r with inl _ => ret false | inr _ => ret true end.

Definition findMasterPlugin : M W string :=
  let! files := ReadDir (cniConfDir mgr) ?: (wrap "failed to read cni config directory: ") in
  lift (masterOf (cniConfDir mgr) (cniConfFile mgr) files).

(** Reading and decoding, which both edits start with. *)
Definition readConf (file : string) : M W (gmap string json) :=
  let! bytes := ReadFile file ?: (wrap ("failed to read cni config file " +:+ file +:+ ": ")) in
  lift (of_sum (UnmarshalMap bytes)) ?: (wrap ("failed to unmarshal cni config from file " +:+ file +:+ ": ")).

Definition managePluginFromConf (file : string) : M W (gmap string json) :=
  let! rawConf := readConf file in lift (confToList mgr file rawConf).
Definition managePluginFromConfList (file : string) : M W (gmap string json) :=
  let! rawList := readConf file in lift (confListToList mgr file rawList).

Definition insertCNIPluginConf : M W unit :=
  let! file := findMasterPlugin in
  let! rawList :=
    if String.eqb (filepath.Ext file) ".conflist"
    then managePluginFromConfList file
    else managePluginFromConf file in
  let! newBytes := lift (of_sum (MarshalIndent (JObject rawList) "" "  "))
    ?: (fun err => EWrapped "failed to marshal bytes into json: " err ", bytes: ") in
  do! WriteFile tempPath newBytes 420 ?: (wrap "failed to write to tmp file: ");
  Rename tempPath confPath ?: (wrap "failed to rename file: ").

Definition removeBackoff : Backoff :=
  {| bo_Duration := 5000; bo_Factor := 0; bo_Jitter := 0; bo_Steps := 10; bo_Cap := 0 |}.

Definition removeCNIPluginConf : M W unit :=
  let cmKey := nn (Getenv consts.PodNamespaceEnvKey) (cniUninstallConfigMapName mgr) in
  let! r := try (kGet (Obj := ConfigMap) cmKey) in
  match r with
  | inl err =>
      if IsNotFound err then ret tt
      else throw (wrap ("failed to get cni uninstall configMap (" +:+
                        slashed (nn_namespace cmKey) (nn_name cmKey) +:+ "): ") err)
  | inr cm =>
      if String.eqb (default "" (cm_Data cm !! "uninstall")) "false" then ret tt
      else
        let! r := try (Stat confPath) in
        match r with
        | inl err =>
            if IsNotExist err then ret tt
            else throw (wrap ("failed to stat file " +:+ confPath +:+ ": ") err)
        | inr _ =>
            OnError W removeBackoff (fun _ => true)
              (Remove confPath ?: (wrap ("failed to delete file " +:+ confPath +:+ ": ")))
        end
  end.

(** One turn of the loop. *)
Definition handleEvent (event : watchEvent) : M W unit :=
  match event with
  | FileEvent name =>
      if Contains name (cniConfFile mgr) then ret tt
      else do! try insertCNIPluginConf; ret tt
  | WatchError _ => ret tt
  end.

(** The loop on the events in the order [select] takes them; after the last one the
    context is done. *)
Fixpoint watchLoop (events : list watchEvent) : M W unit :=
  match events with
  | [] => do! try removeCNIPluginConf; ret tt
  | event :: events' => do! handleEvent event; watchLoop events'
  end.

Definition Start (events : list watchEvent) : M W unit :=
  defer (fun _ w => snd (watcherClose w))
    (let! r := try insertCNIPluginConf in
     do! match r with
         | inl err => if isMainCNINotFound err then ret tt else throw err
         | inr _ => ret tt
         end;
     watchLoop events).
End confmgr.
End confmgr.

(** ** The main plugin *)

(** The configuration the manager builds on is, of the regular files of the
    directory with one of the three extensions that are not its own, the one whose
    name comes first by its bytes; the search fails with [ErrMainCNINotFound]
    exactly when there is none. *)
Theorem masterOf_first dir own files :
  match masterOf dir own files with
  | Ok path =>
      exists f, f ∈ files /\ isMainConf own f = true /\ path = filepath.Join dir (de_Name f) /\
      forall f', f' ∈ files -> isMainConf own f' = true -> str_le (de_Name f) (de_Name f')
  | Err e => e = ErrMainCNINotFound /\ forall f, f ∈ files -> isMainConf own f = false
  | Panic => False
  end.
Proof.
  unfold masterOf, sortStrings.
  set (names := de_Name <$> List.filter (isMainConf own) files).
  pose proof (StronglySorted_merge_sort str_le names) as Hsort.
  pose proof (merge_sort_Permutation str_le names) as Hperm.
  assert (Hin : forall f, f ∈ files -> isMainConf own f = true -> de_Name f ∈ merge_sort str_le names).
  { intros f Hf Hm. rewrite Hperm. apply list_elem_of_fmap. exists f. split; [done|].
    rewrite list_elem_of_In, filter_In, <- list_elem_of_In. done. }
  destruct (merge_sort str_le names) as [|n ns].
  - split; [done|]. intros f Hf. destruct (isMainConf own f) eqn:Hm; [|done].
    by apply Hin in Hm; [apply not_elem_of_nil in Hm|].
  - assert (n ∈ names) as Hn by (rewrite <- Hperm; left).
    apply list_elem_of_fmap in Hn as (f & -> & Hf).
    rewrite list_elem_of_In, filter_In, <- list_elem_of_In in Hf. destruct Hf as [Hf Hm].
    exists f. repeat split; try done. intros f' Hf' Hm'.
    apply StronglySorted_inv in Hsort as [_ Hall]. rewrite Forall_forall in Hall.
    specialize (Hin f' Hf' Hm'). apply elem_of_cons in Hin as [->|Hin]; [|by apply Hall].
    unfold str_le. by destruct (str_le_total (de_Name f) (de_Name f)).
Qed.

(** ** The plugin's place in the list *)

(** An entry the code can read, and the egress plugin's entries. *)
Definition has_type (p : json) : bool :=
  match p with JObject m => bool_decide (is_Some (m !! "type")) | _ => false end.
Definition isEgress (p : json) : bool :=
  match p with
  | JObject m => match m !! "type" with Some t => isEgressType t | None => false end
  | _ => false
  end.

Lemma egressPlugin_type mgr : has_type (egressPlugin mgr) = true /\ isEgress (egressPlugin mgr) = true.
Proof.
  unfold egressPlugin, has_type, isEgress. rewrite lookup_insert_eq.
  split; [by apply bool_decide_eq_true_2|]. simpl. apply EqualFold_refl.
Qed.

(** On readable entries the loop finds the first entry of the plugin. *)
Lemma findEgress_typed file plugins :
  Forall (fun p => has_type p = true) plugins ->
  findEgress file plugins = Ok (fst <$> find_index isEgress plugins).
Proof.
  induction 1 as [|p ps Hp _ IH]; [done|]. simpl. destruct p; try done.
  simpl in Hp. apply bool_decide_eq_true in Hp as [t Ht]. simpl. rewrite Ht, IH.
  destruct (isEgressType t); [done|]. simpl. by destruct (find_index isEgress ps) as [[]|].
Qed.

Lemma filter_none {A} (p : A -> bool) l :
  Forall (fun x => p x = false) l -> List.filter (fun x => negb (p x)) l = l.
Proof. induction 1 as [|x l Hx _ IH]; [done|]. simpl. by rewrite Hx, IH. Qed.

(** Removing the only match leaves the entries that do not match. *)
Lemma remove_found {A} (p : A -> bool) l :
  (length (List.filter p l) <= 1)%nat ->
  match find_index p l with Some (i, _) => remove_at i l | None => l end =
  List.filter (fun x => negb (p x)) l.
Proof.
  intros Hl. destruct (find_index p l) as [[i x]|] eqn:Hf.
  - apply find_index_Some in Hf as (l1 & l2 & -> & <- & Hx & H1).
    rewrite remove_at_app, List.filter_app, (filter_none p l1 H1). simpl. rewrite Hx. simpl.
    rewrite List.filter_app, length_app in Hl. simpl in Hl. rewrite Hx in Hl. simpl in Hl.
    f_equal. symmetry. apply filter_none. apply List.Forall_forall. intros y Hy.
    destruct (p y) eqn:Hpy; [|done].
    assert (In y (List.filter p l2)) as Hin by (by apply filter_In).
    destruct (List.filter p l2); [done|simpl in Hl; lia].
  - symmetry. apply filter_none. by apply find_index_None.
Qed.

Lemma placeEgress_typed mgr file plugins :
  Forall (fun p => has_type p = true) plugins ->
  (length (List.filter isEgress plugins) <= 1)%nat ->
  placeEgress mgr file plugins =
  match List.filter (fun p => negb (isEgress p)) plugins with
  | [] => Panic
  | main :: rest => Ok (main :: egressPlugin mgr :: rest)
  end.
Proof.
  intros Ht Hl. unfold placeEgress. rewrite findEgress_typed by done. simpl.
  rewrite <- (remove_found isEgress plugins Hl).
  by destruct (find_index isEgress plugins) as [[]|].
Qed.

(** The list that is written is again one the function accepts. *)
Lemma placed_again mgr file main rest :
  Forall (fun p => has_type p = true) (main :: rest) ->
  Forall (fun p => isEgress p = false) (main :: rest) ->
  placeEgress mgr file (main :: egressPlugin mgr :: rest) = Ok (main :: egressPlugin mgr :: rest).
Proof.
  intros Ht He. destruct (egressPlugin_type mgr) as [Het Hee].
  apply Forall_cons in Ht as [Htm Htr]. apply Forall_cons in He as [Hem Her].
  assert (Hfr : List.filter isEgress rest = []).
  { clear -Her. induction Her as [|x l Hx _ IH]; [done|]. simpl. by rewrite Hx. }
  rewrite placeEgress_typed; set (E := egressPlugin mgr) in *; clearbody E.
  - simpl. rewrite Hem, Hee. simpl. by rewrite filter_none.
  - by repeat constructor.
  - simpl. rewrite Hem, Hee. simpl. by rewrite Hfr.
Qed.

(** C24: a configuration list whose entries are readable and which has the plugin at
    most once comes out with the plugin behind the first of the other entries, the
    others in their order and every other field as it was; doing it again changes
    nothing. *)
Theorem conflist_regenerated mgr file rawList plugins main rest :
  rawList !! "plugins" = Some (JArray plugins) ->
  Forall (fun p => has_type p = true) plugins ->
  (length (List.filter isEgress plugins) <= 1)%nat ->
  List.filter (fun p => negb (isEgress p)) plugins = main :: rest ->
  let rawList' := <["plugins" := JArray (main :: egressPlugin mgr :: rest)]> rawList in
  confListToList mgr file rawList = Ok rawList' /\
  confListToList mgr file rawList' = Ok rawList'.
Proof.
  intros Hp Ht Hl Hf rawList'. unfold confListToList. rewrite Hp.
  assert (Hmain : Forall (fun p => has_type p = true /\ isEgress p = false) (main :: rest)).
  { apply List.Forall_forall. intros p Hin. rewrite <- Hf in Hin. apply filter_In in Hin as [Hin He].
    apply negb_true_iff in He. split; [|done]. rewrite List.Forall_forall in Ht. by apply Ht. }
  apply Forall_and in Hmain as [Ht' He'].
  destruct plugins as [|p ps]; [done|]. rewrite placeEgress_typed, Hf by done.
  split; [done|]. unfold rawList'. rewrite lookup_insert_eq, placed_again by done. simpl.
  by rewrite insert_insert_eq.
Qed.

(** A list of the egress plugin alone makes the code panic. *)
Lemma placeEgress_lone mgr file p :
  has_type p = true -> isEgress p = true -> placeEgress mgr file [p] = Panic.
Proof.
  intros Ht He. rewrite placeEgress_typed; [|by repeat constructor|].
  - simpl. by rewrite He.
  - simpl. by rewrite He.
Qed.

(** A configuration list that holds the egress plugin and nothing else makes
    [managePluginFromConfList] panic: the slice is empty after the removal. *)
Theorem lone_plugin_panics mgr mgr' file rawList :
  confListToList mgr file (<["plugins" := JArray [egressPlugin mgr']]> rawList) = Panic.
Proof.
  unfold confListToList. rewrite lookup_insert_eq.
  destruct (egressPlugin_type mgr'). by rewrite placeEgress_lone.
Qed.

(** ** From one plugin to a list *)

(** A configuration of a single plugin with a name becomes a list of that name
    and version with the plugin, less these two fields, and the egress plugin; read
    again as a list it is left alone.  Without a name, or with a version that is no
    string, the function fails. *)
Theorem conf_converted mgr file rawConf :
  match rawConf !! "name", rawConf !! "cniVersion" with
  | None, _ => exists e, confToList mgr file rawConf = Err e
  | Some name, version =>
      let main := JObject (delete "cniVersion" (delete "name" rawConf)) in
      let rawList := <["plugins" := JArray [main; egressPlugin mgr]]>
        match version with
        | None => {["name" := name]}
        | Some v => <["cniVersion" := v]> {["name" := name]}
        end in
      match version with
      | None | Some (JString _) =>
          confToList mgr file rawConf = Ok rawList /\
          (has_type main = true -> isEgress main = false ->
           confListToList mgr file rawList = Ok rawList)
      | Some _ => exists e, confToList mgr file rawConf = Err e
      end
  end.
Proof.
  unfold confToList. destruct (rawConf !! "name") as [name|] eqn:Hn; [|by eexists].
  rewrite (lookup_delete_ne rawConf "name" "cniVersion") by done.
  assert (Hnext : forall main l, has_type main = true -> isEgress main = false ->
    let r := <["plugins" := JArray [main; egressPlugin mgr]]> l in confListToList mgr file r = Ok r).
  { intros main l Ht He r. unfold confListToList, r. rewrite lookup_insert_eq, placed_again.
    - simpl. by rewrite insert_insert_eq.
    - by repeat constructor.
    - by repeat constructor. }
  destruct (rawConf !! "cniVersion") as [[]|] eqn:Hv; simpl; try (by eexists).
  - split; [done|]. intros Ht He. by apply Hnext.
  - rewrite (delete_id (delete "name" rawConf) "cniVersion") by (by rewrite lookup_delete_ne). split; [done|]. intros Ht He. by apply Hnext.
Qed.

(** ** The exception CIDRs *)

(** The text of a piece, and whether it is a CIDR. *)
Definition isCidr (s : string) : bool :=
  match ParseCIDR s with inr _ => true | inl _ => false end.
Definition cidrTexts (cidrs : string) : list string :=
  List.filter (fun s => negb (String.eqb s "")) (TrimSpace <$> Split cidrs ",").

Lemma parseCidrList_spec pieces res :
  let texts := List.filter (fun s => negb (String.eqb s "")) (TrimSpace <$> pieces) in
  if forallb isCidr texts then parseCidrList res pieces = Ok (res ++ texts)
  else exists e, parseCidrList res pieces = Err e.
Proof.
  revert res. induction pieces as [|p pieces IH]; intros res; simpl; [by rewrite app_nil_r|].
  unfold parseCidr. destruct (String.eqb_spec (TrimSpace p) "") as [|Hne]; simpl; [apply IH|].
  unfold isCidr at 1. destruct (ParseCIDR (TrimSpace p)) as [e|]; simpl; [by eexists|].
  specialize (IH (res ++ [TrimSpace p])). simpl in IH.
  destruct (forallb isCidr _); [|done]. by rewrite IH, <- (assoc_L (++)).
Qed.

(** The exception CIDRs of the command line are the trimmed pieces between the
    commas, blank ones left out, when all of them are CIDRs; otherwise the manager
    is not created. *)
Theorem parseCidrs_exact cidrs :
  if forallb isCidr (cidrTexts cidrs) then parseCidrs cidrs = Ok (cidrTexts cidrs)
  else exists e, parseCidrs cidrs = Err e.
Proof. apply (parseCidrList_spec (Split cidrs ",") []). Qed.

Example parseCidrs_ex :
  parseCidrs "10.0.0.0/8, 1.2.3.4/32 ,,fd00::/64" = Ok ["10.0.0.0/8"; "1.2.3.4/32"; "fd00::/64"] /\
  parseCidrs "" = Ok [] /\ is_Ok (parseCidrs "10.0.0.0/8,10.0.0") = false.
Proof. vm_compute. repeat split. Qed.

(** ** Writing the file *)

Section files.
Context {W : Type} `{FileSystem W} `{Watcher W} `{Retries} `{OsEnv} `{Store W ConfigMap}.
Context (fileAt : W -> string -> option string) `{!FilesLaws fileAt} (mgr : Manager).

(** The files are as they were in a world. *)
Definition files_of (w0 w : W) : Prop := forall f, fileAt w f = fileAt w0 f.

Lemma keeps_findMasterPlugin w0 : keeps (files_of w0) (confmgr.findMasterPlugin mgr).
Proof.
  unfold confmgr.findMasterPlugin. keeps_tac.
  intros w Hw f. by rewrite (ReadDir_files _ w f), Hw.
Qed.

Lemma keeps_readConf w0 file : keeps (files_of w0) (confmgr.readConf file).
Proof.
  unfold confmgr.readConf. keeps_tac.
  intros w Hw f. by rewrite (ReadFile_files file w f), Hw.
Qed.

(** The edit of the configuration, by the file's extension. *)
Definition editConf (file : string) (raw : gmap string json) : outcome (gmap string json) :=
  if String.eqb (filepath.Ext file) ".conflist" then confListToList mgr file raw
  else confToList mgr file raw.

(** The edited configuration can be written as JSON and read back. *)
Lemma egressPlugin_wf : Forall utf8 (exceptionCidrs mgr) -> wfJson (egressPlugin mgr).
Proof.
  intros Hc.
  assert (Hs : forall s, ASCII_only s = true -> wfJson (JString s)) by (intros; constructor; by apply ASCII_utf8).
  apply wfJson_insert; [|by apply ASCII_utf8|by apply Hs].
  apply wfJson_insert; [|by apply ASCII_utf8|].
  2:{ by apply (wfJson_insert ∅); [apply wfJson_empty|apply ASCII_utf8|apply Hs]. }
  apply wfJson_insert; [|by apply ASCII_utf8|by apply wfJson_JStrings].
  apply (wfJson_insert ∅); [apply wfJson_empty|by apply ASCII_utf8|].
  constructor. apply utf8_app; [by apply ASCII_utf8|apply Itoa_utf8].
Qed.

Lemma editConf_wf file raw rawList :
  Forall utf8 (exceptionCidrs mgr) -> wfJson (JObject raw) -> editConf file raw = Ok rawList ->
  wfJson (JObject rawList).
Proof.
  intros Hc%egressPlugin_wf Hraw. unfold editConf. destruct (String.eqb _ _).
  - unfold confListToList. destruct (raw !! "plugins") as [[| | | |plugins|]|] eqn:Hp; try done.
    inversion Hraw as [| | | | |m Hm]; subst. apply Hm in Hp as [_ Hp]. inversion Hp as [| | | |l Hl|]; subst.
    destruct plugins as [|p plugins]; [done|].
    destruct (placeEgress mgr file (p :: plugins)) as [ps| |] eqn:Hpl; try done. intros [= <-].
    apply wfJson_insert; [done|by apply ASCII_utf8|]. constructor.
    unfold placeEgress in Hpl. destruct (findEgress file (p :: plugins)) as [found| |]; try done. simpl in Hpl.
    set (l := match found with Some i => _ | None => _ end) in Hpl.
    assert (Hl' : Forall wfJson l) by (unfold l; destruct found; [by apply Forall_remove_at|done]).
    destruct l as [|main rest]; [done|]. injection Hpl as <-. apply Forall_cons in Hl' as [? ?].
    apply Forall_cons. split; [done|]. by apply Forall_cons.
  - unfold confToList. destruct (raw !! "name") as [name|] eqn:Hn; [|done].
    assert (Hname : wfJson name) by (inversion Hraw as [| | | | |m Hm]; subst; by destruct (Hm _ _ Hn)).
    assert (Hlist : wfJson (JObject {["name" := name]})).
    { apply (wfJson_insert ∅); [apply wfJson_empty|by apply ASCII_utf8|done]. }
    pose proof (wfJson_delete _ "name" Hraw) as Hd.
    assert (Hplugins : forall l m, wfJson (JObject l) -> wfJson (JObject m) ->
      wfJson (JObject (<["plugins" := JArray [JObject m; egressPlugin mgr]]> l))).
    { intros l m Hl Hm. apply wfJson_insert; [done|by apply ASCII_utf8|]. constructor. by apply Forall_cons; split; [|apply Forall_singleton]. }
    destruct (delete "name" raw !! "cniVersion") as [v|] eqn:Hv; [|simpl; intros [= <-]; by apply Hplugins].
    assert (Hver : wfJson v) by (inversion Hd as [| | | | |m Hm]; subst; by destruct (Hm _ _ Hv)).
    destruct v; try done. simpl. intros [= <-]. apply Hplugins; [|by apply wfJson_delete].
    apply wfJson_insert; [done|by apply ASCII_utf8|done].
Qed.

(** The contents [insertCNIPluginConf] means to write, computed without writing. *)
Definition newConf : M W string :=
  let! file := confmgr.findMasterPlugin mgr in
  let! raw := confmgr.readConf file in
  let! rawList := lift (editConf file raw) in
  lift (of_sum (MarshalIndent (JObject rawList) "" "  "))
    ?: (fun err => EWrapped "failed to marshal bytes into json: " err ", bytes: ").

Definition writeConf (newBytes : string) : M W unit :=
  do! WriteFile (confmgr.tempPath mgr) newBytes 420 ?: (wrap "failed to write to tmp file: ");
  Rename (confmgr.tempPath mgr) (confmgr.confPath mgr) ?: (wrap "failed to rename file: ").

Lemma insert_split w : confmgr.insertCNIPluginConf mgr w = bind newConf writeConf w.
Proof.
  unfold confmgr.insertCNIPluginConf, newConf, writeConf, editConf,
    confmgr.managePluginFromConfList, confmgr.managePluginFromConf, bind.
  destruct (confmgr.findMasterPlugin mgr w) as [[file|e|] w1]; try done.
  destruct (String.eqb _ _); destruct (confmgr.readConf file w1) as [[raw|e|] w2]; try done;
    unfold lift; destruct (_ mgr file raw); try done; unfold on_err; by destruct (of_sum _).
Qed.

Lemma keeps_newConf w0 : keeps (files_of w0) newConf.
Proof.
  unfold newConf. apply keeps_bind; [apply keeps_findMasterPlugin|]. intros file.
  apply keeps_bind; [apply keeps_readConf|]. keeps_tac.
Qed.

(** What the new contents come from. *)
Lemma newConf_Ok w bytes w' :
  newConf w = (Ok bytes, w') ->
  exists files file text raw rawList,
    fst (ReadDir (cniConfDir mgr) w) = Ok files /\
    masterOf (cniConfDir mgr) (cniConfFile mgr) files = Ok file /\
    fileAt w file = Some text /\ UnmarshalMap text = inr raw /\
    editConf file raw = Ok rawList /\ MarshalIndent (JObject rawList) "" "  " = inr bytes.
Proof.
  unfold newConf, confmgr.findMasterPlugin, confmgr.readConf. intros Hn.
  repeat (go_inv_step; simplify_eq/=).
  match goal with
  | E1 : ReadDir _ w = (Ok ?files, ?w1), E2 : ReadFile ?file ?w1 = (Ok ?text, _),
    E3 : of_sum (UnmarshalMap ?text) = Ok ?raw, E4 : editConf ?file ?raw = Ok ?rawList,
    E5 : of_sum (MarshalIndent _ _ _) = _ |- _ =>
      exists files, file, text, raw, rawList; rewrite E1; repeat split; try done;
      [rewrite <- (ReadDir_files (cniConfDir mgr) w file), E1; by eapply ReadFile_Ok
      |by apply of_sum_Ok|by apply of_sum_Ok]
  end.
Qed.

Context (Hplain : filepath.plain (cniConfFile mgr) = true)
  (Htemp : cniConfFileTemp mgr = cniConfFile mgr +:+ ".tmp").

Lemma temp_plain : filepath.plain (cniConfFileTemp mgr) = true.
Proof. rewrite Htemp. by apply filepath.plain_app; [..|simpl; lia]. Qed.

Lemma temp_ne_conf : confmgr.tempPath mgr <> confmgr.confPath mgr.
Proof.
  intros E. apply filepath.Join_plain_inj in E; [|apply temp_plain|done].
  rewrite Htemp in E. apply (f_equal String.length) in E.
  rewrite length_str_app in E. simpl in E. lia.
Qed.

(** The two steps of writing: the target changes only by the rename, to the complete
    contents. *)
Lemma writeConf_target bytes w r w' :
  writeConf bytes w = (r, w') ->
  (forall f, f <> confmgr.confPath mgr -> f <> confmgr.tempPath mgr -> fileAt w' f = fileAt w f) /\
  match r with
  | Ok _ => fileAt w' (confmgr.confPath mgr) = Some bytes /\ fileAt w' (confmgr.tempPath mgr) = None
  | _ => fileAt w' (confmgr.confPath mgr) = fileAt w (confmgr.confPath mgr)
  end.
Proof.
  unfold writeConf, bind, on_err. pose proof temp_ne_conf as Hne.
  pose proof (fun f => WriteFile_other (confmgr.tempPath mgr) bytes 420 w f) as Ho.
  destruct (WriteFile _ _ _ w) as [[[]|e|] w1] eqn:Hw; simpl in Ho; try (intros [= <- <-]; by auto).
  apply WriteFile_Ok in Hw.
  pose proof (fun f => Rename_other (confmgr.tempPath mgr) (confmgr.confPath mgr) w1 f) as Hr.
  destruct (Rename _ _ w1) as [[[]|e|] w2] eqn:Hren; simpl in Hr; intros [= <- <-].
  - apply Rename_Ok in Hren as [Hq Hp]; [|done]. split; [|by rewrite Hq, Hw, Hp].
    intros f Hf Hg. by rewrite Hr, Ho.
  - split; [intros f Hf Hg; by rewrite Hr, Ho|].
    rewrite (Rename_fails _ _ _ _ _ (confmgr.confPath mgr) Hren) by done. by apply Ho.
  - split; [intros f Hf Hg; by rewrite Hr, Ho|].
    rewrite (Rename_fails _ _ _ _ _ (confmgr.confPath mgr) Hren) by done. by apply Ho.
Qed.

(** C23: the manager's configuration file is replaced as a whole: however
    [insertCNIPluginConf] ends, the file has its old contents, or, when it ends
    without an error, exactly the text of the edited main configuration, which the
    runtime reads back as that configuration unless it is nested too deeply; it touches
    no file but this one and the temporary one, which is gone on success. *)
Theorem insert_atomic w r w' :
  confmgr.insertCNIPluginConf mgr w = (r, w') ->
  (forall f, f <> confmgr.confPath mgr -> f <> confmgr.tempPath mgr -> fileAt w' f = fileAt w f) /\
  match r with
  | Ok _ =>
      exists files file text raw rawList bytes,
        fst (ReadDir (cniConfDir mgr) w) = Ok files /\
        masterOf (cniConfDir mgr) (cniConfFile mgr) files = Ok file /\
        fileAt w file = Some text /\ UnmarshalMap text = inr raw /\ editConf file raw = Ok rawList /\
        fileAt w' (confmgr.confPath mgr) = Some bytes /\ fileAt w' (confmgr.tempPath mgr) = None /\
        (Forall utf8 (exceptionCidrs mgr) -> (height (docOf (JObject rawList)) <= maxNestingDepth)%nat ->
         UnmarshalMap bytes = inr rawList)
  | _ => fileAt w' (confmgr.confPath mgr) = fileAt w (confmgr.confPath mgr)
  end.
Proof.
  rewrite insert_split. unfold bind.
  pose proof (keeps_newConf w w (fun f => eq_refl)) as Hk.
  destruct (newConf w) as [[bytes|e|] w1] eqn:Hn; simpl in Hk; try (intros [= <- <-]; split; by auto).
  intros Hwr. apply writeConf_target in Hwr as [Hother Ht]. split.
  - intros f Hf Hg. by rewrite Hother, Hk.
  - destruct r; try (by rewrite Ht, Hk).
    apply newConf_Ok in Hn as (files & file & text & raw & rawList & Hdir & Hmain & Hfile & Hraw & Hedit & Htext).
    destruct Ht as [Ht1 Ht2]. exists files, file, text, raw, rawList, bytes. split_and!; try done.
    intros Hc Hh. apply (UnmarshalMap_Marshal rawList "" "  "); [|done..].
    eapply editConf_wf; [done|by eapply UnmarshalMap_wf|done].
Qed.

(** An event that the manager's own writing causes. *)
Definition ownEvent (event : watchEvent) : bool :=
  match event with
  | FileEvent name => String.eqb name (confmgr.confPath mgr) || String.eqb name (confmgr.tempPath mgr)
  | WatchError _ => false
  end.

(** The events that the manager's own writing causes are ignored, so it does not
    trigger itself: the loop runs as if the events for its file and its temporary file
    had not arrived. *)
Theorem own_events_ignored events w :
  confmgr.watchLoop mgr events w = confmgr.watchLoop mgr (List.filter (fun e => negb (ownEvent e)) events) w.
Proof.
  assert (Hc : Contains (confmgr.confPath mgr) (cniConfFile mgr) = true).
  { unfold confmgr.confPath. rewrite filepath.Join_plain by done.
    pose proof (Contains_mid (filepath.join_prefix (cniConfDir mgr)) (cniConfFile mgr) "") as E.
    by rewrite string_app_nil_r in E. }
  assert (Ht : Contains (confmgr.tempPath mgr) (cniConfFile mgr) = true).
  { unfold confmgr.tempPath. rewrite filepath.Join_plain, Htemp by apply temp_plain. apply Contains_mid. }
  revert w. induction events as [|e events IH]; intros w; [done|]. cbn [List.filter].
  destruct (ownEvent e) eqn:He; cbn [negb confmgr.watchLoop].
  - destruct e as [name|]; [|done]. rewrite <-IH. unfold ownEvent in He.
    apply orb_true_iff in He as [->%String.eqb_eq | ->%String.eqb_eq];
      unfold bind, confmgr.handleEvent; by rewrite ?Hc, ?Ht.
  - unfold bind. destruct (confmgr.handleEvent mgr e w) as [[[]|err|] w1]; [apply IH|done|done].
Qed.
End files.

(** ** Removing the file *)

(** [retry.OnError] keeps what every attempt keeps. *)
Lemma keeps_OnError `{RetryLaws} {W} (P : W -> Prop) b retriable (fn : M W unit) :
  (0 < bo_Steps b)%nat -> keeps P fn -> keeps P (OnError W b retriable fn).
Proof.
  intros Hb Hk w Hw. pose proof (retry_documented W b retriable fn w Hb) as Hrun.
  destruct (OnError W b retriable fn w) as [r w']. simpl.
  remember (r, w') as rw eqn:E. revert Hw. clear Hb.
  induction Hrun as [n w0 w1 Hf|n w0 e w1 Hf|n w0 w1 Hf|n w0 e w1 rw Hf _ _ IH]; intros Hw;
    pose proof (Hk w0 Hw) as Hw1; rewrite Hf in Hw1; simpl in Hw1; simplify_eq; auto.
Qed.

(** When it ends without an error, so did its last attempt. *)
Lemma OnError_Ok `{RetryLaws} {W} b retriable (fn : M W unit) w w' :
  (0 < bo_Steps b)%nat -> OnError W b retriable fn w = (Ok tt, w') ->
  exists w1, fn w1 = (Ok tt, w').
Proof.
  intros Hb E. pose proof (retry_documented W b retriable fn w Hb) as Hrun. rewrite E in Hrun.
  remember (Ok tt, w') as rw eqn:Erw. clear E Hb.
  induction Hrun; simplify_eq; eauto.
Qed.

Section removal.
Context {W : Type} `{FileSystem W} `{RetryLaws} `{OsEnv} `{Store W ConfigMap}.
Context (fileAt : W -> string -> option string) `{!FilesLaws fileAt} (mgr : Manager).
Context (Hget : forall k w f, fileAt (snd (kGet (Obj := ConfigMap) k w)) f = fileAt w f).

(** The configuration map that says whether to uninstall, as the API server
    returns it. *)
Definition uninstallMap (w : W) : outcome ConfigMap :=
  fst (kGet (Obj := ConfigMap) (nn (Getenv consts.PodNamespaceEnvKey) (cniUninstallConfigMapName mgr)) w).
(** The file is to be removed: the map exists and its flag is not [false]. *)
Definition toUninstall (w : W) : bool :=
  match uninstallMap w with
  | Ok cm => negb (String.eqb (default "" (cm_Data cm !! "uninstall")) "false")
  | _ => false
  end.

Lemma remove_frame w0 (Q : W -> Prop) :
  (forall w, Q w <-> forall f, f <> confmgr.confPath mgr -> fileAt w f = fileAt w0 f) ->
  keeps Q (confmgr.removeCNIPluginConf mgr).
Proof.
  intros HQ. unfold confmgr.removeCNIPluginConf. keeps_tac.
  - intros w Hw. rewrite HQ in *. intros f Hf. by rewrite Hget, Hw.
  - intros w Hw. rewrite HQ in *. intros f Hf. by rewrite (Stat_files _ w f), Hw.
  - apply keeps_OnError; [simpl; lia|]. keeps_tac.
    intros w Hw. rewrite HQ in *. intros f Hf. by rewrite (Remove_other _ w f Hf), Hw.
Qed.

(** On shutdown the manager's file is removed exactly when the configuration map
    exists and its [uninstall] flag is anything but [false]; otherwise it stays, and
    no other file is touched in any case. *)
Theorem removal_follows_flag w r w' :
  confmgr.removeCNIPluginConf mgr w = (r, w') ->
  (forall f, f <> confmgr.confPath mgr -> fileAt w' f = fileAt w f) /\
  (toUninstall w = false -> fileAt w' (confmgr.confPath mgr) = fileAt w (confmgr.confPath mgr)) /\
  (toUninstall w = true -> r = Ok tt -> fileAt w' (confmgr.confPath mgr) = None).
Proof.
  intros E. split.
  { pose proof (remove_frame w _ (fun w => iff_refl _) w (fun f _ => eq_refl)) as Hk. by rewrite E in Hk. }
  unfold toUninstall, uninstallMap. revert E. unfold confmgr.removeCNIPluginConf, bind, try.
  set (key := nn _ _). pose proof (fun f => Hget key w f) as Hg.
  destruct (kGet key w) as [[cm|e|] w1] eqn:Hm; simpl in *.
  - destruct (String.eqb _ "false"); simpl.
    { intros [= <- <-]. split; [|done]. intros _. apply Hg. }
    pose proof (fun f => Stat_files (confmgr.confPath mgr) w1 f) as Hs.
    destruct (Stat (confmgr.confPath mgr) w1) as [[[]|e|] w2] eqn:Hst; simpl in *.
    + intros E. split; [done|]. intros _ ->. apply OnError_Ok in E as [w3 E]; [|simpl; lia].
      go_inv. by eapply Remove_Ok.
    + destruct (IsNotExist e) eqn:He; intros [= <- <-]; split; try done. intros _ _.
      rewrite Hs. eapply Stat_missing; [apply Hst|done].
    + intros [= <- <-]. done.
  - destruct (IsNotFound e); intros [= <- <-]; (split; [intros _; apply Hg|done]).
  - intros [= <- <-]. split; [intros _; apply Hg|done].
Qed.
End removal.
