(* ===== verification/CNIServer.v ===== *)
(** * The CNI manager's service ([controllers/cnimanager/server.go]) and the node's
      taint ([cmd/kube-egress-gateway-cnimanager/cmd/serve.go])

    The CNI plugin has no access to the API server; it asks the CNI manager of its
    node over gRPC.  [NicService] answers with the gateway's data, and records the
    pod as a [PodEndpoint], from which the gateway's nodes make it a WireGuard peer.
    The manager also lifts the taint that keeps pods off a node whose CNI
    configuration is not in place yet. *)

From stdpp Require Import base tactics list strings gmap.
From Stdlib Require Import Ascii ZArith Lia.
From S2P Require Import Prelude GoStrings Types Kube Azure CNIConf.

Open Scope string_scope.
Open Scope list_scope.

(** ** The protocol ([pkg/cniprotocol/v1]) *)

Record PodInfo := { PodName : string; PodNamespace : string }.
(** The getters of a message whose [PodConfig] may be absent. *)
Definition GetPodName (p : option PodInfo) : string := match p with Some p => PodName p | None => "" end.
Definition GetPodNamespace (p : option PodInfo) : string :=
  match p with Some p => PodNamespace p | None => "" end.
Definition podKey (p : option PodInfo) : NamespacedName := nn (GetPodNamespace p) (GetPodName p).

Inductive DefaultRoute := DEFAULT_ROUTE_UNSPECIFIED | DEFAULT_ROUTE_STATIC_EGRESS_GATEWAY
  | DEFAULT_ROUTE_AZURE_NETWORKING.
#[export] Instance DefaultRoute_eq_dec : EqDecision DefaultRoute.
Proof. solve_decision. Defined.

Record NicAddRequest := {
  add_PodConfig : option PodInfo;
  add_ListenPort : Z;
  add_AllowedIp : string;
  add_PublicKey : string;
  add_GatewayName : string;
}.
Record NicAddResponse := {
  EndpointIp : string;
  ListenPort : Z;
  PublicKey : string;
  ExceptionCidrs : list string;
  DefaultRouteOf : DefaultRoute;
}.

(** The client's side of the service, [NicServiceClient]. *)
Class NicServiceClient (W : Type) := {
  callNicAdd : NicAddRequest -> M W NicAddResponse;
  callNicDel : option PodInfo -> M W unit;
  callPodRetrieve : option PodInfo -> M W (gmap string string);
}.

(** ** The service *)

(** The endpoint the request describes, in the object of the API server. *)
Definition mutateEndpoint `{OwnerRefs} (pod : Pod) (req : NicAddRequest) (pe : PodEndpoint) :
    PodEndpoint * option gerror :=
  match SetControllerReference (pod_meta pod) (pe_meta pe) with
  | inl err => (pe, Some err)
  | inr m =>
      ({| pe_meta := m;
          pe_Spec := {| pe_StaticGatewayConfiguration := add_GatewayName req;
                        pe_PodIpAddress := add_AllowedIp req;
                        pe_PodPublicKey := add_PublicKey req |} |}, None)
  end.

Definition newEndpoint (p : option PodInfo) : PodEndpoint :=
  {| pe_meta := new_meta (GetPodName p) (GetPodNamespace p);
     pe_Spec := {| pe_StaticGatewayConfiguration := ""; pe_PodIpAddress := ""; pe_PodPublicKey := "" |} |}.

(** The answer for a gateway. *)
Definition responseOf (gwConfig : StaticGatewayConfiguration) : NicAddResponse :=
  let profile := sgc_GatewayServerProfile (sgc_Status gwConfig) in
  {| EndpointIp := gsp_Ip profile; ListenPort := gsp_Port profile; PublicKey := gsp_PublicKey profile;
     ExceptionCidrs := sgc_ExcludeCidrs (sgc_Spec gwConfig);
     DefaultRouteOf :=
       if String.eqb (sgc_DefaultRoute (sgc_Spec gwConfig)) RouteAzureNetworking
       then DEFAULT_ROUTE_AZURE_NETWORKING else DEFAULT_ROUTE_STATIC_EGRESS_GATEWAY |}.

Module nicservice.
Section nicservice.
Context {W : Type} `{OwnerRefs}.
Context `{Store W StaticGatewayConfiguration} `{Store W Pod} `{Store W PodEndpoint}.

(** [status.Errorf(codes.Unknown, "... %s/%s: %s", namespace, name, err)] *)
Definition unknown (what namespace name : string) (err : gerror) : gerror :=
  EGrpc "Unknown" (what +:+ " " +:+ slashed namespace name +:+ ": " +:+ Error err).

Definition NicAdd (req : NicAddRequest) : M W NicAddResponse :=
  let ns := GetPodNamespace (add_PodConfig req) in
  let name := GetPodName (add_PodConfig req) in
  let! gwConfig := kGet (Obj := StaticGatewayConfiguration) (nn ns (add_GatewayName req))
    ?: (unknown "failed to retrieve StaticGatewayConfiguration" ns (add_GatewayName req)) in
  if String.eqb (sgc_EgressIpPrefix (sgc_Status gwConfig)) ""
  then throw (EGrpc "FailedPrecondition" "the egress IP prefix is not ready yet.")
  else
    let! pod := kGet (Obj := Pod) (nn ns name) ?: (unknown "failed to retrieve pod" ns name) in
    let! (_, err) := kCreateOrPatch (newEndpoint (add_PodConfig req)) (mutating (mutateEndpoint pod req)) in
    match err with
    | Some err => throw (unknown "failed to update PodEndpoint" ns name err)
    | None => ret (responseOf gwConfig)
    end.

Definition NicDel (p : option PodInfo) : M W unit :=
  let! r := try (kDelete (Obj := PodEndpoint) (podKey p)) in
  match r with
  | inr _ => ret tt
  | inl err =>
      if negb (IsNotFound err)
      then throw (unknown "failed to delete PodEndpoint" (GetPodNamespace p) (GetPodName p) err)
      else ret tt
  end.

Definition PodRetrieve (p : option PodInfo) : M W (gmap string string) :=
  let! pod := kGet (Obj := Pod) (podKey p)
    ?: (unknown "failed to retrieve pod" (GetPodNamespace p) (GetPodName p)) in
  ret (pod_annotations pod).
End nicservice.

(** The manager serves the plugin on its own node: the calls of the client are the
    calls of the service. *)
#[global] Instance served {W} `{OwnerRefs} `{Store W StaticGatewayConfiguration} `{Store W Pod}
    `{Store W PodEndpoint} : NicServiceClient W := {|
  callNicAdd := NicAdd; callNicDel := NicDel; callPodRetrieve := PodRetrieve |}.
#[global] Typeclasses Opaque NicAdd NicDel PodRetrieve.
End nicservice.

(** ** The taint of a node *)

Definition IsConflict (e : gerror) : bool :=
  match errors_as as_status e with Some r => String.eqb r "Conflict" | None => false end.

(** [retry.DefaultRetry] and [retry.RetryOnConflict] of client-go. *)
Definition DefaultRetry : Backoff :=
  {| bo_Duration := 10; bo_Factor := 10; bo_Jitter := 1; bo_Steps := 5; bo_Cap := 0 |}.
Definition RetryOnConflict {W} `{Retries} (b : Backoff) (fn : M W unit) : M W unit := OnError W b IsConflict fn.

Definition notReadyTaint (t : Taint) : bool := String.eqb (taint_Key t) consts.CNIManagerNotReadyTaintKey.
Definition with_taints (node : Node) (ts : list Taint) : Node :=
  {| node_meta := node_meta node; node_taints := ts |}.

Definition removeNodeTaintIfNeeded {W} `{Retries} `{Store W Node} (isReady : M W bool) (node : Node) : M W unit :=
  match find_index notReadyTaint (node_taints node) with
  | None => ret tt
  | Some (i, _) =>
      let! ready := isReady in
      if (ready : bool) then
        let newNode := with_taints node (remove_at i (node_taints node)) in
        do! try (RetryOnConflict DefaultRetry (do! kUpdate newNode; ret tt));
        ret tt
      else ret tt
  end.

(** ** What the service promises *)

(** The pod endpoints of the API server.  [CreateOrUpdate] applies the mutation to the
    stored object, or to the given one when there is none; the server may complete
    the metadata but not the specification; a failed write changes nothing.  Pod
    endpoints have no finalizers, so a deletion takes effect at once. *)
Class EndpointStore {W : Type} `{Store W PodEndpoint}
    (endpointAt : W -> NamespacedName -> option PodEndpoint) : Prop := {
  createOrUpdate_Ok o f w o' w' :
    kCreateOrPatch o (mutating f) w = (Ok (o', None), w') ->
    let changed := f (default o (endpointAt w (om_key (pe_meta o)))) in
    snd changed = None /\ pe_Spec o' = pe_Spec (fst changed) /\
    endpointAt w' (om_key (pe_meta o)) = Some o';
  createOrUpdate_fails o f w r w' k :
    kCreateOrPatch o (mutating f) w = (r, w') ->
    (forall o', r <> Ok (o', None)) -> endpointAt w' k = endpointAt w k;
  createOrUpdate_other o f w k :
    k <> om_key (pe_meta o) -> endpointAt (snd (kCreateOrPatch o (mutating f) w)) k = endpointAt w k;
  delete_Ok k w w' : kDelete (Obj := PodEndpoint) k w = (Ok tt, w') -> endpointAt w' k = None;
  delete_missing k w :
    endpointAt w k = None <->
    exists e, fst (kDelete (Obj := PodEndpoint) k w) = Err e /\ IsNotFound e = true;
  delete_fails k w r w' k' :
    kDelete (Obj := PodEndpoint) k w = (r, w') -> r <> Ok tt -> endpointAt w' k' = endpointAt w k';
  delete_other k w k' : k' <> k -> endpointAt (snd (kDelete (Obj := PodEndpoint) k w)) k' = endpointAt w k';
}.

Section endpoints.
Context {W : Type} `{OwnerRefs}.
Context `{Store W StaticGatewayConfiguration} `{Store W Pod} `{Store W PodEndpoint}.
Context (endpointAt : W -> NamespacedName -> option PodEndpoint) `{!EndpointStore endpointAt}.
Context (Hgw : forall k w k', endpointAt (snd (kGet (Obj := StaticGatewayConfiguration) k w)) k' = endpointAt w k').
Context (Hpod : forall k w k', endpointAt (snd (kGet (Obj := Pod) k w)) k' = endpointAt w k').

(** The specification a request asks for. *)
Definition requestedSpec (req : NicAddRequest) : PodEndpointSpec :=
  {| pe_StaticGatewayConfiguration := add_GatewayName req; pe_PodIpAddress := add_AllowedIp req;
     pe_PodPublicKey := add_PublicKey req |}.

Lemma mutateEndpoint_spec pod req pe :
  snd (mutateEndpoint pod req pe) = None -> pe_Spec (fst (mutateEndpoint pod req pe)) = requestedSpec req.
Proof. unfold mutateEndpoint. by destruct (SetControllerReference _ _). Qed.

(** Other pods' endpoints. *)
Lemma keeps_NicAdd_other req k e :
  k <> podKey (add_PodConfig req) -> keeps (fun w => endpointAt w k = e) (nicservice.NicAdd req).
Proof.
  intros Hk. unfold nicservice.NicAdd. keeps_tac.
  - intros w <-. apply Hgw.
  - intros w <-. apply Hpod.
  - intros w <-. by apply createOrUpdate_other.
Qed.

(** What a successful call has done, and that a failed one has done nothing. *)
Lemma NicAdd_Ok req w resp w' :
  nicservice.NicAdd req w = (Ok resp, w') ->
  let key := podKey (add_PodConfig req) in
  (exists gwConfig,
     fst (kGet (Obj := StaticGatewayConfiguration) (nn (nn_namespace key) (add_GatewayName req)) w) = Ok gwConfig /\
     sgc_EgressIpPrefix (sgc_Status gwConfig) <> "" /\ resp = responseOf gwConfig) /\
  exists pe, endpointAt w' key = Some pe /\ pe_Spec pe = requestedSpec req.
Proof.
  intros Hrun key. unfold nicservice.NicAdd in Hrun.
  apply bind_Ok_inv in Hrun as (gw & w1 & Hget%on_err_Ok_inv & Hrun).
  destruct (String.eqb_spec (sgc_EgressIpPrefix (sgc_Status gw)) "") as [|Hprefix]; [done|].
  apply bind_Ok_inv in Hrun as (pod & w2 & _ & Hrun).
  apply bind_Ok_inv in Hrun as ([pe [err|]] & w3 & Hc & Hrun); [done|]. unfold ret in Hrun. injection Hrun as <- <-.
  apply createOrUpdate_Ok in Hc as (Hnone & Hspec & Hat). split.
  - exists gw. simpl. by rewrite Hget.
  - exists pe. split; [done|]. rewrite Hspec. by apply mutateEndpoint_spec.
Qed.

Lemma NicAdd_fails req w r w' :
  nicservice.NicAdd req w = (r, w') -> (forall resp, r <> Ok resp) ->
  forall k, endpointAt w' k = endpointAt w k.
Proof.
  unfold nicservice.NicAdd, bind, on_err. intros Hrun Hr k. revert Hrun.
  set (gwKey := nn _ (add_GatewayName req)). pose proof (Hgw gwKey w k) as Hg.
  destruct (kGet gwKey w) as [[gw|e|] w1]; simpl in Hg; try (intros [= <- <-]; done).
  destruct (String.eqb _ ""); [by intros [= <- <-]|].
  match goal with |- context [kGet (Obj := Pod) ?pk _] => pose proof (Hpod pk w1 k) as Hp;
    destruct (kGet (Obj := Pod) pk w1) as [[pod|e|] w2] end;
    simpl in Hp; try (intros [= <- <-]; congruence).
  destruct (kCreateOrPatch _ _ w2) as [r3 w3] eqn:Hc.
  pose proof (fun Hne => createOrUpdate_fails _ _ w2 r3 w3 k Hc Hne) as Hf.
  destruct r3 as [[pe [err|]]|e|]; intros [= <- <-]; try (rewrite Hf by done; congruence).
  by destruct (Hr _ eq_refl).
Qed.


Lemma NicDel_cases p w r w' :
  nicservice.NicDel p w = (r, w') ->
  (forall k, k <> podKey p -> endpointAt w' k = endpointAt w k) /\
  match r with Ok _ => endpointAt w' (podKey p) = None | _ => endpointAt w' (podKey p) = endpointAt w (podKey p) end /\
  (endpointAt w (podKey p) = None -> r = Ok tt).
Proof.
  unfold nicservice.NicDel, bind, try.
  pose proof (fun k => delete_other (podKey p) w k) as Ho.
  pose proof (delete_missing (podKey p) w) as Hm.
  destruct (kDelete (podKey p) w) as [r1 w1] eqn:Hd. simpl in Ho, Hm.
  pose proof (fun k => delete_fails (podKey p) w r1 w1 k Hd) as Hf.
  destruct r1 as [[]|e|].
  - intros [= <- <-]. apply delete_Ok in Hd. by auto.
  - destruct (IsNotFound e) eqn:He; simpl; intros [= <- <-]; (split; [done|]).
    + split; [|done]. rewrite Hf by done. apply Hm. by exists e.
    + split; [by apply Hf|]. intros (e' & [= <-] & He')%Hm. congruence.
  - intros [= <- <-]. split; [done|]. split; [by apply Hf|]. by intros (e' & ? & _)%Hm.
Qed.

(** What [NicAdd] records, [NicDel] takes back: after both have succeeded the
    pod has no endpoint and every other is as before; a repeated [NicDel] succeeds
    and changes nothing. *)
Theorem add_then_delete req w resp w1 w2 r w3 :
  nicservice.NicAdd req w = (Ok resp, w1) ->
  nicservice.NicDel (add_PodConfig req) w1 = (Ok tt, w2) ->
  nicservice.NicDel (add_PodConfig req) w2 = (r, w3) ->
  endpointAt w2 (podKey (add_PodConfig req)) = None /\
  (forall k, k <> podKey (add_PodConfig req) -> endpointAt w2 k = endpointAt w k) /\
  r = Ok tt /\ forall k, endpointAt w3 k = endpointAt w2 k.
Proof.
  intros Hadd (Hd & Hgone & _)%NicDel_cases (Hd2 & Hr & Hok)%NicDel_cases.
  split; [done|]. split.
  { intros k Hk. rewrite Hd by done. pose proof (keeps_NicAdd_other req k _ Hk w eq_refl) as Ha.
    by rewrite Hadd in Ha. }
  specialize (Hok Hgone). subst r. split; [done|].
  intros k. destruct (decide (k = podKey (add_PodConfig req))) as [->|Hk]; [by rewrite Hr, Hgone|by apply Hd2].
Qed.
End endpoints.

(** ** The taint *)

Section taint.
Context {W : Type} `{RetryLaws} `{Store W Node} `{Files.FileSystem W}.

(** The nodes of the API server; a failed update changes nothing. *)
Context (nodeAt : W -> option Node).
Context (update_Ok : forall n w n' w', kUpdate (Obj := Node) n w = (Ok n', w') -> nodeAt w' = Some n).
Context (update_fails : forall n w r w', kUpdate (Obj := Node) n w = (r, w') -> (forall n', r <> Ok n') ->
  nodeAt w' = nodeAt w).
Context (Hstat : forall p w, nodeAt (snd (Files.Stat p w)) = nodeAt w).

(** The retried update leaves the node as it was or as it was to be. *)
Lemma update_kept node newNode :
  keeps (fun w => nodeAt w = Some node \/ nodeAt w = Some newNode)
    (RetryOnConflict DefaultRetry (do! kUpdate newNode; ret tt)).
Proof.
  apply keeps_OnError; [simpl; lia|]. intros w0 Hw0. unfold bind.
  destruct (kUpdate newNode w0) as [[n'|e|] w2] eqn:Hu; simpl.
  - right. by eapply update_Ok.
  - by rewrite (update_fails _ _ _ _ Hu).
  - by rewrite (update_fails _ _ _ _ Hu).
Qed.

(** A first attempt that succeeds is the last one. *)
Lemma update_once newNode w n' w' :
  kUpdate newNode w = (Ok n', w') ->
  RetryOnConflict DefaultRetry (do! kUpdate newNode; ret tt) w = (Ok tt, w').
Proof.
  intros Hu. unfold RetryOnConflict. set (fn := bind _ _).
  assert (Hfn : fn w = (Ok tt, w')) by (unfold fn, bind; by rewrite Hu).
  pose proof (retry_documented W DefaultRetry IsConflict fn w ltac:(simpl; lia)) as Hr.
  inversion Hr; simplify_eq; congruence.
Qed.

(** The first taint of the key, with the taints around it. *)
Definition taintAt (node : Node) (l1 : list Taint) (t : Taint) (l2 : list Taint) : Prop :=
  node_taints node = l1 ++ t :: l2 /\ taint_Key t = consts.CNIManagerNotReadyTaintKey /\
  Forall (fun t => taint_Key t <> consts.CNIManagerNotReadyTaintKey) l1.

Lemma taintAt_find node i t :
  find_index notReadyTaint (node_taints node) = Some (i, t) ->
  exists l1 l2, taintAt node l1 t l2 /\ remove_at i (node_taints node) = l1 ++ l2.
Proof.
  intros (l1 & l2 & Ht & <- & Hkey & Hl1)%find_index_Some. exists l1, l2. unfold taintAt.
  rewrite Ht, remove_at_app. split_and!; [done|by apply String.eqb_eq| |done].
  eapply Forall_impl; [apply Hl1|]. intros x Hx. by apply String.eqb_neq.
Qed.

Lemma find_taintAt node l1 t l2 :
  taintAt node l1 t l2 ->
  find_index notReadyTaint (node_taints node) = Some (length l1, t) /\
  remove_at (length l1) (node_taints node) = l1 ++ l2.
Proof.
  intros (-> & Hkey & Hl1). rewrite remove_at_app. split; [|done].
  apply find_index_app_first; [|by apply String.eqb_eq].
  eapply Forall_impl; [apply Hl1|]. intros x Hx. by apply String.eqb_neq.
Qed.

(** C40: the taint is lifted when, and only when, the CNI configuration file is in
    place.  If its [Stat] fails or the node has no such taint, the node is left as it
    is, and what the manager does write is the node without the first such taint,
    everything else in its place.  If the file is there and the API server accepts the
    update, the taint is gone. *)
Theorem taint_lifted_when_ready mgr node w r w' :
  nodeAt w = Some node ->
  removeNodeTaintIfNeeded (confmgr.IsReady mgr) node w = (r, w') ->
  (nodeAt w' = Some node \/
   (exists w1, Files.Stat (confmgr.confPath mgr) w = (Ok tt, w1)) /\
   exists l1 t l2, taintAt node l1 t l2 /\ nodeAt w' = Some (with_taints node (l1 ++ l2))) /\
  (forall l1 t l2 w1 n2 w2,
     taintAt node l1 t l2 -> Files.Stat (confmgr.confPath mgr) w = (Ok tt, w1) ->
     kUpdate (with_taints node (l1 ++ l2)) w1 = (Ok n2, w2) ->
     r = Ok tt /\ nodeAt w' = Some (with_taints node (l1 ++ l2))).
Proof.
  intros Hn Hrun. split.
  - revert Hrun. unfold removeNodeTaintIfNeeded.
    destruct (find_index _ _) as [[i t]|] eqn:Hf; [|intros [= <- <-]; by left].
    apply taintAt_find in Hf as (l1 & l2 & Hat & ->). set (newNode := with_taints node (l1 ++ l2)).
    unfold confmgr.IsReady, bind, try at 1. pose proof (Hstat (confmgr.confPath mgr) w) as Hs.
    destruct (Files.Stat (confmgr.confPath mgr) w) as [[[]|e|] w1] eqn:Hst; simpl in *;
      try (intros [= <- <-]; left; congruence).
    pose proof (update_kept node newNode w1 (or_introl (eq_trans Hs Hn))) as Hk. unfold try.
    destruct (RetryOnConflict _ _ w1) as [[[]|e|] w2]; simpl in Hk; intros [= <- <-];
      (destruct Hk as [Hk|Hk]; [by left|right]; split; [by eexists|]; by exists l1, t, l2).
  - intros l1 t l2 w1 n2 w2 [Hf Hrm]%find_taintAt Hst Hu. revert Hrun.
    unfold removeNodeTaintIfNeeded. rewrite Hf, Hrm.
    rewrite (bind_Ok (confmgr.IsReady mgr) _ w true w1)
      by (unfold confmgr.IsReady, bind, try; by rewrite Hst).
    rewrite (bind_Ok (try _) _ w1 (inr tt) w2) by (unfold try; by rewrite (update_once _ _ _ _ Hu)).
    intros [= <- <-]. split; [done|]. by eapply update_Ok.
Qed.
End taint.
