(* ===== verification/CNITypes.v ===== *)
(** * The CNI library and the plugin's configuration ([pkg/cni/conf/conf.go])

    The types of the CNI specification that the plugins exchange with the container
    runtime, the library functions on them as a parameter ([CNILib]), and the parsing
    of the plugin's configuration. *)

From stdpp Require Import base tactics list strings gmap.
From Stdlib Require Import Ascii ZArith Lia.
From S2P Require Import Prelude GoStrings JSON JSONDecode Types NetIP Network Files.

Open Scope string_scope.
Open Scope list_scope.

(** ** Results ([types/100]) *)

Record CNIRoute := { cr_Dst : IPNet; cr_GW : option IP }.
Record CNIInterface := { if_Mac : string; if_Name : string; if_Sandbox : string }.
Record IPConfig := {
  ipc_Interface : option Z;   (** the index in the list of interfaces *)
  ipc_Address : IPNet;
  ipc_Gateway : option IP;
}.
Record CNIResult := {
  res_CNIVersion : string;
  res_Interfaces : list CNIInterface;
  res_IPs : list IPConfig;
  res_Routes : list CNIRoute;
}.
Definition with_routes (r : CNIResult) (rs : list CNIRoute) : CNIResult :=
  {| res_CNIVersion := res_CNIVersion r; res_Interfaces := res_Interfaces r; res_IPs := res_IPs r;
     res_Routes := rs |}.
Definition add_route (r : CNIResult) (rt : CNIRoute) : CNIResult := with_routes r (res_Routes r ++ [rt]).
Definition emptyResult : CNIResult :=
  {| res_CNIVersion := ""; res_Interfaces := []; res_IPs := []; res_Routes := [] |}.

(** [skel.CmdArgs] *)
Record CmdArgs := {
  ContainerID : string;
  Netns : string;
  IfName : string;
  Args : string;
  StdinData : string;
}.

(** The pod a plugin is called for, from [CNI_ARGS]. *)
Record K8sConfig := {
  K8S_POD_NAME : string;
  K8S_POD_NAMESPACE : string;
  K8S_POD_INFRA_CONTAINER_ID : string;
}.

(** ** The library *)

(** [types.NetConf]: the version, the type of the IPAM plugin and the result of the
    previous plugin in the chain. *)
Record NetConf (PrevResult : Type) := {
  nc_CNIVersion : string;
  nc_IPAMType : string;
  nc_PrevResult : PrevResult;
}.
Arguments nc_CNIVersion {_} _.
Arguments nc_IPAMType {_} _.
Arguments nc_PrevResult {_} _.

Class CNILib := {
  (** [types.Result], a result in some version; nil is one. *)
  Result : Type;
  (** [types.NetConf{}] and the JSON fields of the struct *)
  zeroNetConf : NetConf Result;
  netConfFields : fields (NetConf Result);
  (** [version.ParsePrevResult], on the configuration it completes *)
  ParsePrevResult : NetConf Result -> outcome (NetConf Result);
  (** [types100.NewResultFromResult]: conversion to the current version *)
  NewResultFromResult : Result -> outcome CNIResult;
  ImplementedSpecVersion : string;
  (** [types.LoadArgs] into a [K8sConfig] *)
  LoadArgs : string -> gerror + K8sConfig;
}.

(** What a plugin prints for the runtime ([types.PrintResult]). *)
Class Stdout (W : Type) := PrintResult : CNIResult -> string -> M W unit.

(** ** [pkg/cni/conf/conf.go] *)

Section conf.
Context `{CNILib}.

Record CNIConfig := {
  cc_NetConf : NetConf Result;
  cc_ExcludedCIDRs : list string;
  cc_SocketPath : string;
}.

(** The fields of the struct: its own, and those of the embedded [types.NetConf]. *)
Definition setExcludedCIDRs (c : CNIConfig) (l : list string) : CNIConfig :=
  {| cc_NetConf := cc_NetConf c; cc_ExcludedCIDRs := l; cc_SocketPath := cc_SocketPath c |}.
Definition setSocketPath (c : CNIConfig) (s : string) : CNIConfig :=
  {| cc_NetConf := cc_NetConf c; cc_ExcludedCIDRs := cc_ExcludedCIDRs c; cc_SocketPath := s |}.
Definition setNetConf (c : CNIConfig) (nc : NetConf Result) : CNIConfig :=
  {| cc_NetConf := nc; cc_ExcludedCIDRs := cc_ExcludedCIDRs c; cc_SocketPath := cc_SocketPath c |}.
Definition ownFields : fields CNIConfig :=
  [("excludedCIDRs", onField cc_ExcludedCIDRs setExcludedCIDRs (decSlice "[]string" decString ""));
   ("socketPath", onField cc_SocketPath setSocketPath decString)].
Definition embedded (f : string * decoder (NetConf Result)) : string * decoder CNIConfig :=
  (fst f, onField cc_NetConf setNetConf (snd f)).
Definition configFields : fields CNIConfig := ownFields ++ (embedded <$> netConfFields).

Definition zeroConfig : CNIConfig :=
  {| cc_NetConf := zeroNetConf; cc_ExcludedCIDRs := []; cc_SocketPath := "" |}.

(** [json.Unmarshal(stdin, &conf)] for a pointer [conf]: null makes it nil. *)
Definition decodeConfig : decoder (option CNIConfig) :=
  decPointer (decStruct "conf" "CNIConfig" configFields) zeroConfig.

(** [&conf.NetConf] of a nil pointer panics. *)
Definition ParseCNIConfig (stdin : string) : outcome CNIConfig :=
  match UnmarshalInto decodeConfig (Some zeroConfig) stdin with
  | inl err => Err (EText ("failed to parse network configuration: " +:+ Error err))
  | inr None => Panic
  | inr (Some conf) =>
      match ParsePrevResult (cc_NetConf conf) with
      | Ok nc => Ok (setNetConf conf nc)
      | Err err => Err (EText ("could not parse prevResult: " +:+ Error err))
      | Panic => Panic
      end
  end.

Definition LoadK8sInfo (args : string) : outcome K8sConfig := of_sum (LoadArgs args).
End conf.

(** The laws of the library's struct that the plugin relies on: none of its fields has
    one of the plugin's names, its field [ipam] holds the type of the IPAM plugin, and
    no other field nor the previous result changes that. *)
Class NetConfLaws `{CNILib} : Prop := {
  netconf_names f : f ∈ netConfFields ->
    EqualFold (fst f) "excludedCIDRs" = false /\ EqualFold (fst f) "socketPath" = false;
  netconf_ipam : exists dec, findField netConfFields "ipam" = Some ("ipam", dec) /\
    forall at_ t nc, nc_IPAMType (fst (dec at_ (DObject [("type", DString t)]) nc)) = t;
  netconf_other k f dec : findField netConfFields k = Some (f, dec) -> EqualFold k "ipam" = false ->
    forall at_ d nc, nc_IPAMType (fst (dec at_ d nc)) = nc_IPAMType nc;
  prevResult_ipam nc nc' : ParsePrevResult nc = Ok nc' -> nc_IPAMType nc' = nc_IPAMType nc;
}.

Section decode.
Context `{NetConfLaws}.

(** A key other than the plugin's own names leads to a field of the library's struct. *)
Lemma findField_embedded k :
  EqualFold k "excludedCIDRs" = false -> EqualFold k "socketPath" = false ->
  findField configFields k = embedded <$> findField netConfFields k.
Proof.
  intros H1 H2.
  assert (Hfind : forall p : string -> bool, p "excludedCIDRs" = false -> p "socketPath" = false ->
    find (fun f => p (fst f)) configFields = embedded <$> find (fun f => p (fst f)) netConfFields).
  { intros p Hp1 Hp2. unfold configFields. simpl. rewrite Hp1, Hp2.
    induction netConfFields as [|f l IH]; [done|]. cbn [fmap list_fmap find]. simpl. by destruct (p (fst f)). }
  rewrite EqualFold_sym in H1, H2. unfold findField.
  rewrite (Hfind (fun s => String.eqb s k)), (Hfind (fun s => EqualFold s k)); try done.
  - by destruct (find (fun f => String.eqb (fst f) k) netConfFields).
  - apply String.eqb_neq. intros <-. by rewrite EqualFold_refl in H1.
  - apply String.eqb_neq. intros <-. by rewrite EqualFold_refl in H2.
Qed.

(** Which members of an object leave which parts of the configuration alone. *)
#[local] Abbreviation member := (decMember "CNIConfig" configFields top).

Lemma configField_cases f : f ∈ configFields ->
  f = ("excludedCIDRs", onField cc_ExcludedCIDRs setExcludedCIDRs (decSlice "[]string" decString "")) \/
  f = ("socketPath", onField cc_SocketPath setSocketPath decString) \/
  exists g, g ∈ netConfFields /\ f = embedded g.
Proof.
  unfold configFields, ownFields. intros [Hf|(g & -> & Hg)%list_elem_of_fmap]%elem_of_app; [|by eauto].
  apply elem_of_cons in Hf as [->|Hf]; [by left|]. apply list_elem_of_singleton in Hf as ->. by right; left.
Qed.

Lemma member_excluded k d st :
  EqualFold k "excludedCIDRs" = false -> cc_ExcludedCIDRs (fst (member st (k, d))) = cc_ExcludedCIDRs (fst st).
Proof.
  intros Hk. unfold decMember. cbn [fst snd]. destruct (findField configFields k) as [[f dec]|] eqn:E; [|done].
  apply findField_In in E as [Hin Hf]. cbn [fst] in Hf. apply configField_cases in Hin as [[= -> ->]|[[= -> ->]|([n g] & _ & [= -> ->])]].
  - by rewrite EqualFold_sym, Hk in Hf.
  - unfold onField. by destruct (decString _ _ _).
  - unfold onField. by destruct (g _ _ _).
Qed.

Lemma member_socket k d st :
  EqualFold k "socketPath" = false -> cc_SocketPath (fst (member st (k, d))) = cc_SocketPath (fst st).
Proof.
  intros Hk. unfold decMember. cbn [fst snd]. destruct (findField configFields k) as [[f dec]|] eqn:E; [|done].
  apply findField_In in E as [Hin Hf]. cbn [fst] in Hf. apply configField_cases in Hin as [[= -> ->]|[[= -> ->]|([n g] & _ & [= -> ->])]].
  - unfold onField. by destruct (decSlice _ _ _ _ _ _).
  - by rewrite EqualFold_sym, Hk in Hf.
  - unfold onField. by destruct (g _ _ _).
Qed.

Lemma member_ipam k d st :
  EqualFold k "ipam" = false ->
  nc_IPAMType (cc_NetConf (fst (member st (k, d)))) = nc_IPAMType (cc_NetConf (fst st)).
Proof.
  intros Hk. unfold decMember. cbn [fst snd]. destruct (findField configFields k) as [[f dec]|] eqn:E; [|done].
  destruct (EqualFold k "excludedCIDRs" || EqualFold k "socketPath") eqn:Hown.
  - apply findField_In in E as [Hin Hf]. cbn [fst] in Hf. apply configField_cases in Hin as [[= -> ->]|[[= -> ->]|([n g] & Hg & [= -> ->])]].
    + unfold onField. by destruct (decSlice _ _ _ _ _ _).
    + unfold onField. by destruct (decString _ _ _).
    + apply EqualFold_spec in Hf. destruct (netconf_names _ Hg) as [Hn1 Hn2]. simpl in Hn1, Hn2.
      by rewrite <-Hf, Hn1, Hn2 in Hown.
  - apply orb_false_iff in Hown as [Hn1 Hn2]. rewrite findField_embedded in E by done.
    destruct (findField netConfFields k) as [[n g]|] eqn:En; [|done].
    injection E as <- <-. unfold onField.
    match goal with |- context [g ?x ?y ?z] => rewrite <-(netconf_other _ _ _ En Hk x y z); by destruct (g x y z) end.
Qed.
End decode.
