(* ===== verification/CNIRoutes.v ===== *)
(** * The routes of a pod ([pkg/cni/routes/routes.go])

    With the egress gateway as the pod's default route, everything but the excluded
    CIDRs goes through the WireGuard link; with Azure networking as the default,
    only the CIDRs of the gateway's configuration do.  Answers to traffic that came
    in on eth0 go back through eth0 by a mark and a routing table of its own. *)

From stdpp Require Import base tactics list strings gmap.
From Stdlib Require Import Ascii ZArith Lia.
From S2P Require Import Prelude GoStrings Types NetIP Network Files CNIServer CNITypes.

Open Scope string_scope.
Open Scope list_scope.

(** ** Interfaces *)

(** [pkg/iptableswrapper]: the client of go-iptables. *)
Class PodIPTables (W : Type) := {
  iptNew : netns -> M W unit;
  AppendUnique : netns -> string -> string -> list string -> M W unit;
}.

Definition RTPROT_STATIC : Z := 4.

(** ** Routes *)

(** The IPv4 default route among routes: the last one. *)
Definition isDefaultRoute (route : Route) : bool :=
  (rt_Family route =? FAMILY_V4)%Z &&
  match rt_Dst route with None => true | Some dst => String.eqb (IPNet_String dst) "0.0.0.0/0" end.
Definition defaultRouteOf (routes : list Route) : option Route :=
  fold_left (fun acc route => if isDefaultRoute route then Some route else acc) routes None.

(** The address of the gateway's end of the tunnel. *)
Definition wgGateway : option IP := ParseIP "fe80::1".

(** [eth0RouteTmpl] and [wgRouteTmpl] with a destination. *)
Definition eth0Route (defaultRoute : Route) (eth0 : Link) (dst : option IPNet) : Route :=
  {| rt_LinkIndex := l_Index eth0; rt_Scope := 0; rt_Dst := dst; rt_Gw := rt_Gw defaultRoute; rt_Via := None;
     rt_Protocol := RTPROT_STATIC; rt_Family := 0; rt_Table := 0 |}.
Definition wgRoute (wg : Link) (dst : option IPNet) : Route :=
  {| rt_LinkIndex := l_Index wg; rt_Scope := SCOPE_UNIVERSE; rt_Dst := dst; rt_Gw := None;
     rt_Via := Some (wgGateway, FAMILY_V6); rt_Protocol := 0; rt_Family := FAMILY_V4; rt_Table := 0 |}.
Definition with_table (r : Route) (table : Z) : Route :=
  {| rt_LinkIndex := rt_LinkIndex r; rt_Scope := rt_Scope r; rt_Dst := rt_Dst r; rt_Gw := rt_Gw r;
     rt_Via := rt_Via r; rt_Protocol := rt_Protocol r; rt_Family := rt_Family r; rt_Table := table |}.

Definition gatewayDestination (defaultRoute : Route) : IPNet :=
  {| ipn_IP := rt_Gw defaultRoute; ipn_Mask := Some (CIDRMask 32 32) |}.
Definition defaultCidr : IPNet := {| ipn_IP := Some (IPv4 0 0 0 0); ipn_Mask := Some (CIDRMask 0 32) |}.

Section routes.
Context {W : Type} `{NetLink W} `{NetlinkPure} `{PodIPTables W} `{FileSystem W}.
Context (thread : netns).

Definition addRoutingForIngress (defaultRoute : Route) (sysctlDir : string) : M W unit :=
  let mark := Itoa consts.Eth0Mark in
  do! iptNew thread ?: (wrap "failed to create iptable: ");
  do! AppendUnique thread consts.MangleTable consts.PreRoutingChain ["-i"; "eth0"; "-j"; "MARK"; "--set-mark"; mark]
    ?: (wrap "failed to append iptables set-mark rule: ");
  do! AppendUnique thread consts.MangleTable consts.PreRoutingChain ["-j"; "CONNMARK"; "--save-mark"]
    ?: (wrap "failed to append iptables save-mark rule: ");
  do! AppendUnique thread consts.MangleTable consts.OutputChain
        ["-m"; "connmark"; "--mark"; mark; "-j"; "CONNMARK"; "--restore-mark"]
    ?: (wrap "failed to append iptables restore-mark rule: ");
  do! RuleAdd thread consts.Eth0Mark consts.Eth0Mark ?: (wrap "failed to add routing rule: ");
  do! RouteReplace thread (with_table defaultRoute consts.Eth0Mark)
    ?: (wrap "failed to add default route via eth0: ");
  do! WriteFile (filepath.Join sysctlDir "net/ipv4/conf/all/rp_filter") "2" 420
    ?: (wrap "failed to write net.ipv4.conf.all.rp_filter: ");
  WriteFile (filepath.Join sysctlDir "net/ipv4/conf/eth0/rp_filter") "2" 420
    ?: (wrap "failed to write net.ipv4.conf.eth0.rp_filter: ").

(** The part for the gateway as the default: the routes of eth0 are replaced by the
    route to eth0's gateway and the default through the tunnel. *)
Definition routeToGateway (routes : list Route) (defaultRoute : Route) (eth0 wg : Link) (result : CNIResult) :
    M W CNIResult :=
  do! foldM (fun _ route => RouteDel thread route
               ?: (wrap ("failed to delete route (" +:+ Route_String route +:+ "): "))) routes tt;
  let gwDst := gatewayDestination defaultRoute in
  do! RouteReplace thread (newRoute (l_Index eth0) SCOPE_LINK (Some gwDst) None)
    ?: (wrap "failed to add original gateway route: ");
  let wgDefaultRoute := wgRoute wg (Some defaultCidr) in
  do! RouteReplace thread wgDefaultRoute
    ?: (wrap ("failed to add default wireguard route (" +:+ Route_String wgDefaultRoute +:+ "): "));
  ret (with_routes result [{| cr_Dst := gwDst; cr_GW := None |}; {| cr_Dst := defaultCidr; cr_GW := wgGateway |}]).

(** One exception: through eth0 or through the tunnel, against the default. *)
Definition routeException (defaultToGateway : bool) (defaultRoute : Route) (eth0 wg : Link)
    (result : CNIResult) (exception : string) : M W CNIResult :=
  let! (_, cidr) := lift (of_sum (ParseCIDR exception))
    ?: (wrap ("failed to parse cidr (" +:+ exception +:+ "): ")) in
  let '(gatewayRoute, gwIP) :=
    if defaultToGateway then (eth0Route defaultRoute eth0 (Some cidr), rt_Gw defaultRoute)
    else (wgRoute wg (Some cidr), wgGateway) in
  do! RouteReplace thread gatewayRoute ?: (wrap ("failed to add route (" +:+ Route_String gatewayRoute +:+ "): "));
  ret (add_route result {| cr_Dst := cidr; cr_GW := gwIP |}).

(** [SetPodRoutes]; the result of the plugin is returned with its routes. *)
Definition SetPodRoutes (ifName : string) (nic : NicAddResponse) (excludedCIDRs : list string) (sysctlDir : string)
    (result : CNIResult) : M W CNIResult :=
  let defaultToGateway := bool_decide (DefaultRouteOf nic = DEFAULT_ROUTE_STATIC_EGRESS_GATEWAY) in
  let exceptionCidrs := if defaultToGateway then ExceptionCidrs nic ++ excludedCIDRs else ExceptionCidrs nic in
  let! eth0Link := LinkByName thread "eth0" ?: (wrap "failed to retrieve eth0 interface: ") in
  let! wgLink := LinkByName thread ifName ?: (wrap "failed to retrieve wireguard interface: ") in
  let! routes := RouteList thread (Some eth0Link) FAMILY_ALL ?: (wrap "failed to list all routes on eth0: ") in
  match defaultRouteOf routes with
  | None => throw (EText "failed to find default route")
  | Some defaultRoute =>
      let! result := if defaultToGateway then routeToGateway routes defaultRoute eth0Link wgLink result
                     else ret result in
      let! result := foldM (routeException defaultToGateway defaultRoute eth0Link wgLink) exceptionCidrs result in
      do! addRoutingForIngress defaultRoute sysctlDir;
      ret result
  end.
End routes.

(** ** The forwarding table *)

(** The key of an IPv4 network in a table: its address and the length of its prefix. *)
Definition netKey (n : IPNet) : option (IP * Z) :=
  match ipn_IP n, ipn_Mask n with
  | Some ip, Some m => if is4 ip && (mask_bits m =? 32)%Z then Some (ip, mask_ones m) else None
  | _, _ => None
  end.
Definition routeKey (r : Route) : option (IP * Z) :=
  match rt_Dst r with
  | None => if (rt_Family r =? FAMILY_V4)%Z then Some (IPv4 0 0 0 0, 0%Z) else None
  | Some dst => netKey dst
  end.

(** The network of an address for a prefix length. *)
Definition maskTo (d : IP) (ones : Z) : IP := IP_Mask d (CIDRMask ones 32).

(** Longest-prefix match: the link of the most specific route of an address. *)
Fixpoint lpm_from (m : gmap (IP * Z) Z) (d : IP) (n : nat) : option Z :=
  match m !! (maskTo d (Z.of_nat n), Z.of_nat n) with
  | Some link => Some link
  | None => match n with O => None | S n' => lpm_from m d n' end
  end.
Definition lpm (m : gmap (IP * Z) Z) (d : IP) : option Z := lpm_from m d 32.

(** The networks of a list of CIDRs, and the addresses in them. *)
Definition cidrKey (cidr : string) : option (IP * Z) :=
  match ParseCIDR cidr with inr (_, n) => netKey n | inl _ => None end.
Definition cidrKeys (cidrs : list string) : list (IP * Z) := omap cidrKey cidrs.
Definition inCidrs (cidrs : list string) (d : IP) : bool :=
  existsb (fun k => bool_decide (maskTo d (snd k) = fst k)) (cidrKeys cidrs).

Lemma lpm_from_spec m d n :
  match lpm_from m d n with
  | Some link => exists j, (j <= n)%nat /\ m !! (maskTo d (Z.of_nat j), Z.of_nat j) = Some link /\
      forall j', (j < j' <= n)%nat -> m !! (maskTo d (Z.of_nat j'), Z.of_nat j') = None
  | None => forall j, (j <= n)%nat -> m !! (maskTo d (Z.of_nat j), Z.of_nat j) = None
  end.
Proof.
  induction n as [|n IH]; cbn [lpm_from].
  - destruct (m !! _) eqn:Hm.
    + exists 0%nat. split; [lia|]. split; [done|]. intros j' ?. lia.
    + intros j Hj. by assert (j = 0%nat) as -> by lia.
  - destruct (m !! _) eqn:Hm.
    + exists (S n). split; [lia|]. split; [done|]. intros j' ?. lia.
    + destruct (lpm_from m d n).
      * destruct IH as (j & Hj & Hl & Hmax). exists j. split; [lia|]. split; [done|].
        intros j' Hj'. destruct (decide (j' = S n)) as [->|]; [done|]. apply Hmax. lia.
      * intros j Hj. destruct (decide (j = S n)) as [->|]; [done|]. apply IH. lia.
Qed.

(** The match of an address depends on the entries that cover it only. *)
Lemma lpm_ext m1 m2 d :
  (forall j, (j <= 32)%nat ->
     m1 !! (maskTo d (Z.of_nat j), Z.of_nat j) = m2 !! (maskTo d (Z.of_nat j), Z.of_nat j)) ->
  lpm m1 d = lpm m2 d.
Proof.
  unfold lpm. generalize 32%nat. induction n as [|n IH]; intros Hext; cbn [lpm_from].
  - by rewrite Hext by lia.
  - rewrite Hext by lia. rewrite IH; [done|]. intros j Hj. apply Hext. lia.
Qed.

(** An entry that covers the address, with no longer one, decides. *)
Lemma lpm_at m d j link :
  (j <= 32)%nat -> m !! (maskTo d (Z.of_nat j), Z.of_nat j) = Some link ->
  (forall j' l, (j < j' <= 32)%nat -> m !! (maskTo d (Z.of_nat j'), Z.of_nat j') = Some l -> l = link) ->
  lpm m d = Some link.
Proof.
  intros Hj Hm Hlong. unfold lpm. pose proof (lpm_from_spec m d 32) as Hs.
  destruct (lpm_from m d 32) as [l|]; [|by rewrite Hs in Hm].
  destruct Hs as (i & Hi & Hl & Hmax). destruct (decide (i < j)%nat).
  - rewrite (Hmax j) in Hm by lia. done.
  - destruct (decide (i = j)) as [->|]; [congruence|]. f_equal. apply (Hlong i); [lia|done].
Qed.

Lemma maskTo_32 d : maskTo d 32 = d.
Proof. apply IP_Mask_full. Qed.
Lemma maskTo_0 d : is4 d = true -> maskTo d 0 = IPv4 0 0 0 0.
Proof.
  unfold is4, maskTo, IP_Mask. simpl. intros Hd%Z.eqb_eq.
  rewrite Z.shiftr_div_pow2, Z.shiftl_mul_pow2 by lia. change (32 - 0)%Z with 32%Z. by rewrite Hd.
Qed.

(** The key of a CIDR has a prefix length of an IPv4 mask. *)
Lemma cidrKey_range cidr k : cidrKey cidr = Some k -> (0 <= snd k <= 32)%Z.
Proof.
  unfold cidrKey, ParseCIDR. destruct (Cut cidr "/") as [[addr mask]|]; [|done].
  destruct (ParseAddr addr) as [[ip bits]|]; [|done].
  destruct (dtoi_from mask 0 0) as [[n i] ok].
  destruct (negb ok || _ || (n <? 0)%Z || (bits <? n)%Z) eqn:Hb; [done|].
  unfold netKey. simpl. destruct (is4 _); [|done]. simpl.
  destruct (bits =? 32)%Z eqn:E; [|done]. intros [= <-]. simpl.
  rewrite !orb_false_iff in Hb. lia.
Qed.

Lemma inCidrs_true cidrs d :
  inCidrs cidrs d = true <-> exists j, (j <= 32)%nat /\ (maskTo d (Z.of_nat j), Z.of_nat j) ∈ cidrKeys cidrs.
Proof.
  unfold inCidrs. rewrite existsb_true_elem. split.
  - intros ([ip ones] & Hk & Hm%bool_decide_eq_true). simpl in *.
    assert (0 <= ones <= 32)%Z.
    { apply list_elem_of_omap in Hk as (c & _ & Hc). by apply cidrKey_range in Hc. }
    exists (Z.to_nat ones). rewrite Z2Nat.id by lia. split; [lia|]. by rewrite Hm.
  - intros (j & _ & Hk). eexists. split; [done|]. by apply bool_decide_eq_true.
Qed.
Lemma inCidrs_false cidrs d j :
  inCidrs cidrs d = false -> (j <= 32)%nat -> (maskTo d (Z.of_nat j), Z.of_nat j) ∉ cidrKeys cidrs.
Proof. intros Hf Hj Hin. apply not_true_iff_false in Hf. apply Hf, inCidrs_true. by exists j. Qed.

(** The lookup in a table that has the networks of some CIDRs and one address on one
    link and everything else on another. *)
Lemma policy_lookup m cidrs gw eth0 wg d :
  (forall k, m !! k =
    if decide (k ∈ cidrKeys cidrs) then Some eth0
    else if decide (k = (IPv4 0 0 0 0, 0%Z)) then Some wg
    else if decide (k = (gw, 32%Z)) then Some eth0 else None) ->
  is4 d = true ->
  lpm m d = Some (if bool_decide (d = gw) || inCidrs cidrs d then eth0 else wg).
Proof.
  intros Hat Hd.
  destruct (bool_decide (d = gw) || inCidrs cidrs d) eqn:Hb.
  - assert (exists j, (j <= 32)%nat /\ m !! (maskTo d (Z.of_nat j), Z.of_nat j) = Some (eth0))
      as (j & Hj & Hm).
    { apply orb_true_iff in Hb as [->%bool_decide_eq_true|(j & Hj & Hin)%inCidrs_true].
      - exists 32%nat. split; [lia|]. rewrite Hat. change (Z.of_nat 32) with 32%Z. rewrite maskTo_32.
        case_decide; [done|]. case_decide as E; [by injection E|]. by rewrite decide_True.
      - exists j. split; [lia|]. by rewrite Hat, decide_True. }
    apply (lpm_at _ _ j); [done|done|]. intros j' l Hj'. rewrite Hat.
    intros Hl. repeat case_decide; simplify_eq; try done; lia.
  - apply orb_false_iff in Hb as [Hne%bool_decide_eq_false Hb].
    apply (lpm_at _ _ 0); [lia| |].
    + rewrite Hat, decide_False by (by apply inCidrs_false; [|lia]).
      change (Z.of_nat 0) with 0%Z. by rewrite maskTo_0, decide_True.
    + intros j' l Hj'. rewrite Hat, decide_False by (by apply inCidrs_false; [|lia]).
      case_decide as E0; [injection E0; lia|]. case_decide as E; [|done]. injection E as Hm Hj.
      rewrite Hj, maskTo_32 in Hm. congruence.
Qed.

(** ** What the routes do *)

(** The main table of the pod's namespace for IPv4, as the link of each network.
    Replacing a route sets its network's entry, deleting it removes the entry, and
    listing a link's routes gives all its entries; a route in another table, and
    everything else the function calls, leaves the main table alone. *)
Class MainTable {W : Type} `{NetLink W} `{PodIPTables W} `{FileSystem W} (thread : netns)
    (fib : W -> gmap (IP * Z) Z) : Prop := {
  replace_main r w w' : RouteReplace thread r w = (Ok tt, w') -> rt_Table r = 0%Z ->
    fib w' = match routeKey r with Some k => <[k := rt_LinkIndex r]> (fib w) | None => fib w end;
  replace_table r w : rt_Table r <> 0%Z -> fib (snd (RouteReplace thread r w)) = fib w;
  del_main r w w' : RouteDel thread r w = (Ok tt, w') ->
    fib w' = match routeKey r with Some k => delete k (fib w) | None => fib w end;
  list_main l w rs w' : RouteList thread (Some l) FAMILY_ALL w = (Ok rs, w') ->
    fib w' = fib w /\ forall k, fib w !! k = Some (l_Index l) -> exists r, r ∈ rs /\ routeKey r = Some k;
  iptNew_main w : fib (snd (iptNew thread w)) = fib w;
  AppendUnique_main t c a w : fib (snd (AppendUnique thread t c a w)) = fib w;
  RuleAdd_main m t w : fib (snd (RuleAdd thread m t w)) = fib w;
  WriteFile_main p s perm w : fib (snd (WriteFile p s perm w)) = fib w;
}.

(** A pod before its routes are set: eth0 and the tunnel exist, the routes of eth0
    are listed with a default route, and looking things up changes nothing. *)
Record podReady {W : Type} `{NetLink W} (thread : netns) (ifName : string) (eth0 wg : Link) (routes : list Route) (dr : Route) (w : W) : Prop := {
  pod_eth0 : LinkByName thread "eth0" w = (Ok eth0, w);
  pod_wg : LinkByName thread ifName w = (Ok wg, w);
  pod_routes : exists w1, RouteList thread (Some eth0) FAMILY_ALL w = (Ok routes, w1);
  pod_default : defaultRouteOf routes = Some dr;
}.

(** What the calls that set the routes promise when nothing is wrong with the node:
    a listed route is there, a route that is there can be deleted, which leaves the
    others there, and the rest of the calls succeed. *)
Class WorkingRoutes {W : Type} `{NetLink W} `{PodIPTables W} `{FileSystem W} (thread : netns)
    (present : W -> Route -> Prop) : Prop := {
  list_present l w rs w' r : RouteList thread (Some l) FAMILY_ALL w = (Ok rs, w') -> r ∈ rs -> present w' r;
  del_works r w : present w r ->
    exists w', RouteDel thread r w = (Ok tt, w') /\ forall r', r' <> r -> present w r' -> present w' r';
  replace_works r w : is_Ok (fst (RouteReplace thread r w)) = true;
  iptNew_works w : is_Ok (fst (iptNew thread w)) = true;
  AppendUnique_works t c a w : is_Ok (fst (AppendUnique thread t c a w)) = true;
  RuleAdd_works m t w : is_Ok (fst (RuleAdd thread m t w)) = true;
  WriteFile_works p s perm w : is_Ok (fst (WriteFile p s perm w)) = true;
}.

(** A CIDR that [net.ParseCIDR] accepts. *)
Definition isCIDR (cidr : string) : bool := match ParseCIDR cidr with inr _ => true | inl _ => false end.

Section success.
Context {W : Type} `{NetLink W} `{NetlinkPure} `{PodIPTables W} `{FileSystem W}.
Context (thread : netns) (present : W -> Route -> Prop) `{!WorkingRoutes thread present}.

#[local] Hint Extern 1 (succeeds _ (RouteReplace _ _)) => apply succeeds_True; intros; apply replace_works : succeeds.
#[local] Hint Extern 1 (succeeds _ (iptNew _)) => apply succeeds_True; intros; apply iptNew_works : succeeds.
#[local] Hint Extern 1 (succeeds _ (AppendUnique _ _ _ _)) =>
  apply succeeds_True; intros; apply AppendUnique_works : succeeds.
#[local] Hint Extern 1 (succeeds _ (RuleAdd _ _ _)) => apply succeeds_True; intros; apply RuleAdd_works : succeeds.
#[local] Hint Extern 1 (succeeds _ (WriteFile _ _ _)) => apply succeeds_True; intros; apply WriteFile_works : succeeds.

Lemma ingress_succeeds dr dir : succeeds (fun _ => True) (addRoutingForIngress thread dr dir).
Proof. unfold addRoutingForIngress. succeeds_tac. Qed.

Lemma exceptions_succeed toGw dr eth0 wg cidrs result :
  forallb isCIDR cidrs = true ->
  succeeds (fun _ => True) (foldM (routeException thread toGw dr eth0 wg) cidrs result).
Proof.
  intros Hc. apply succeeds_foldM, Forall_forall. intros c Hin%list_elem_of_In res.
  rewrite forallb_forall in Hc. specialize (Hc c Hin). unfold isCIDR in Hc.
  unfold routeException. destruct (ParseCIDR c) as [|[ip n]]; [done|]. simpl.
  succeeds_tac.
Qed.

(** Routes that are there and differ are deleted one after the other. *)
Lemma deletions_succeed msg routes w :
  NoDup routes -> (forall r, r ∈ routes -> present w r) ->
  exists w', foldM (fun _ r => RouteDel thread r ?: (msg r)) routes tt w = (Ok tt, w').
Proof.
  intros Hnd. revert w. induction Hnd as [|r routes Hr Hnd IH]; intros w Hp; [by exists w|].
  destruct (del_works r w) as (w1 & Hd & Hrest); [apply Hp; left|].
  destruct (IH w1) as [w' Hw'].
  { intros r' Hr'. apply Hrest; [by intros ->|]. apply Hp. by right. }
  exists w'. cbn [foldM]. erewrite bind_Ok; [exact Hw'|]. unfold on_err. by rewrite Hd.
Qed.

Lemma routeToGateway_succeeds routes dr eth0 wg result w :
  NoDup routes -> (forall r, r ∈ routes -> present w r) ->
  exists result' w', routeToGateway thread routes dr eth0 wg result w = (Ok result', w').
Proof.
  intros Hnd Hp. unfold routeToGateway.
  destruct (deletions_succeed (fun r => wrap ("failed to delete route (" +:+ Route_String r +:+ "): "))
              routes w Hnd Hp) as [w1 Hw1].
  erewrite bind_Ok by exact Hw1.
  match goal with |- exists r' w', ?c w1 = _ => assert (Hs : succeeds (fun _ => True) c) end.
  { cbv zeta. succeeds_tac. }
  destruct (Hs w1 I) as (r & w2 & E & _). by exists r, w2.
Qed.

(** On a working node [SetPodRoutes] succeeds as soon as the exceptions are CIDRs. *)
Lemma SetPodRoutes_succeeds ifName nic excluded dir result eth0 wg routes dr w :
  podReady thread ifName eth0 wg routes dr w -> NoDup routes ->
  let toGw := bool_decide (DefaultRouteOf nic = DEFAULT_ROUTE_STATIC_EGRESS_GATEWAY) in
  forallb isCIDR (if toGw then ExceptionCidrs nic ++ excluded else ExceptionCidrs nic) = true ->
  exists result' w', SetPodRoutes thread ifName nic excluded dir result w = (Ok result', w').
Proof.
  intros [He Hw [w1 Hr] Hd] Hnd toGw Hc. unfold SetPodRoutes. fold toGw.
  erewrite bind_Ok by (unfold on_err; by rewrite He).
  erewrite bind_Ok by (unfold on_err; by rewrite Hw).
  erewrite bind_Ok by (unfold on_err; by rewrite Hr).
  rewrite Hd.
  assert (exists r1 w2, (if toGw then routeToGateway thread routes dr eth0 wg result else ret result) w1
                        = (Ok r1, w2)) as (r1 & w2 & E1).
  { destruct toGw; [|by eexists _, _]. apply routeToGateway_succeeds; [done|].
    intros r. by apply list_present with (1 := Hr). }
  erewrite bind_Ok by exact E1.
  destruct (exceptions_succeed toGw dr eth0 wg _ r1 Hc w2 I) as (r2 & w3 & E2 & _).
  erewrite bind_Ok by exact E2.
  destruct (ingress_succeeds dr dir w3 I) as (u & w4 & E3 & _).
  erewrite bind_Ok by exact E3. by eexists _, _.
Qed.

(** An exception that is no CIDR makes it fail. *)
Lemma exceptions_parse toGw dr eth0 wg cidrs result w result' w' :
  foldM (routeException thread toGw dr eth0 wg) cidrs result w = (Ok result', w') -> forallb isCIDR cidrs = true.
Proof.
  apply (foldM_Ok_ind _ (fun done _ => forallb isCIDR done = true)); [done|].
  intros done c b b' v v' Hdone Hstep. rewrite forallb_app, Hdone. simpl. rewrite andb_true_r.
  unfold routeException in Hstep. unfold isCIDR. by destruct (ParseCIDR c).
Qed.
End success.

Section policy.
Context {W : Type} `{NetLink W} `{NetlinkPure} `{PodIPTables W} `{FileSystem W}.
Context (thread : netns) (fib : W -> gmap (IP * Z) Z) `{!MainTable thread fib}.

Lemma keeps_ingress m dr dir : keeps (fun w => fib w = m) (addRoutingForIngress thread dr dir).
Proof.
  unfold addRoutingForIngress. keeps_tac; intros w <-;
    first [apply iptNew_main|apply AppendUnique_main|apply RuleAdd_main|apply WriteFile_main|by apply replace_table].
Qed.

Lemma elem_omap_cons {A B} (f : A -> option B) x l k :
  k ∈ omap f (x :: l) <-> f x = Some k \/ k ∈ omap f l.
Proof.
  rewrite !list_elem_of_omap. setoid_rewrite elem_of_cons. naive_solver.
Qed.

(** Deleting routes removes the entries of their networks. *)
Lemma deleted_routes msg routes w u w' :
  foldM (fun _ r => RouteDel thread r ?: (msg r)) routes tt w = (Ok u, w') ->
  forall k, fib w' !! k = if decide (k ∈ omap routeKey routes) then None else fib w !! k.
Proof.
  revert w. induction routes as [|r routes IH]; intros w Hf k; cbn [foldM] in Hf.
  - by go_inv.
  - apply bind_Ok_inv in Hf as ([] & w1 & Hdel%on_err_Ok_inv%del_main & Hf).
    rewrite (IH _ Hf), Hdel. clear IH Hf Hdel.
    destruct (decide (k ∈ omap routeKey (r :: routes))) as [Hk|Hk]; rewrite elem_omap_cons in Hk;
      destruct (decide (k ∈ omap routeKey routes)); try tauto.
    + destruct Hk as [-> |]; [|tauto]. by rewrite lookup_delete_eq.
    + destruct (routeKey r) as [k'|]; [|done]. rewrite lookup_delete_ne; [done|]. intros ->. tauto.
Qed.

(** The routes in the plugin's result for CIDRs, with their gateway. *)
Definition cidrRoute (gw : option IP) (cidr : string) : option CNIRoute :=
  match ParseCIDR cidr with inr (_, n) => Some {| cr_Dst := n; cr_GW := gw |} | inl _ => None end.

(** The exceptions' entries lead to one link; the others stay. *)
Lemma routed_exceptions toGw dr eth0 wg cidrs result w result' w' :
  foldM (routeException thread toGw dr eth0 wg) cidrs result w = (Ok result', w') ->
  let link := if toGw then l_Index eth0 else l_Index wg in
  let gw := if toGw then rt_Gw dr else wgGateway in
  (forall k, fib w' !! k = if decide (k ∈ cidrKeys cidrs) then Some link else fib w !! k) /\
  res_Routes result' = res_Routes result ++ omap (cidrRoute gw) cidrs.
Proof.
  intros Hf link gw. revert result w Hf.
  induction cidrs as [|c cidrs IH]; intros result w Hf; cbn [foldM] in Hf.
  - go_inv. split; [done|]. by rewrite app_nil_r.
  - apply bind_Ok_inv in Hf as (result1 & w1 & Hstep & Hf). apply IH in Hf as [Hfib Hres]. clear IH.
    unfold routeException in Hstep.
    apply bind_Ok_inv in Hstep as ([ip cidr] & w0 & Hparse%on_err_Ok_inv & Hstep).
    unfold lift in Hparse. injection Hparse as Hparse <-. apply of_sum_Ok in Hparse.
    assert (fib w1 = match netKey cidr with Some k => <[k := link]> (fib w) | None => fib w end /\
            result1 = add_route result {| cr_Dst := cidr; cr_GW := gw |}) as [Hw1 ->].
    { unfold link, gw. destruct toGw; cbv beta iota in Hstep;
        apply bind_Ok_inv in Hstep as ([] & w2 & Hr%on_err_Ok_inv & Hstep);
        unfold ret in Hstep; injection Hstep as <- <-; (split; [|done]);
        by apply replace_main in Hr. }
    assert (Hkey : cidrKey c = netKey cidr) by (unfold cidrKey; by rewrite Hparse).
    split.
    + intros k. rewrite Hfib, Hw1. unfold cidrKeys.
      destruct (decide (k ∈ omap cidrKey (c :: cidrs))) as [Hk|Hk]; rewrite elem_omap_cons, Hkey in Hk;
        destruct (decide (k ∈ omap cidrKey cidrs)); try tauto.
      * destruct Hk as [-> |]; [|tauto]. by rewrite lookup_insert_eq.
      * destruct (netKey cidr) as [k'|]; [|done]. rewrite lookup_insert_ne; [done|]. intros ->. tauto.
    + rewrite Hres. cbn [omap list_omap]. unfold cidrRoute at 2. rewrite Hparse. simpl.
      by rewrite <- (assoc_L (++)).
Qed.

(** The three parts of a run that succeeds. *)
Lemma SetPodRoutes_Ok ifName nic excluded dir result eth0 wg routes dr w result' w' :
  podReady thread ifName eth0 wg routes dr w ->
  SetPodRoutes thread ifName nic excluded dir result w = (Ok result', w') ->
  let toGw := bool_decide (DefaultRouteOf nic = DEFAULT_ROUTE_STATIC_EGRESS_GATEWAY) in
  exists w1 result1 w2 w3,
    fib w1 = fib w /\
    (if toGw then routeToGateway thread routes dr eth0 wg result else ret result) w1 = (Ok result1, w2) /\
    foldM (routeException thread toGw dr eth0 wg)
      (if toGw then ExceptionCidrs nic ++ excluded else ExceptionCidrs nic) result1 w2 = (Ok result', w3) /\
    fib w' = fib w3.
Proof.
  intros [He Hw [w1 Hr] Hd] Hrun toGw. unfold SetPodRoutes in Hrun. fold toGw in Hrun.
  apply bind_Ok_inv in Hrun as (l1 & w1' & E1%on_err_Ok_inv & Hrun). rewrite He in E1. injection E1 as <- <-.
  apply bind_Ok_inv in Hrun as (l2 & w1' & E1%on_err_Ok_inv & Hrun). rewrite Hw in E1. injection E1 as <- <-.
  apply bind_Ok_inv in Hrun as (rs & w1' & E1%on_err_Ok_inv & Hrun). rewrite Hr in E1. injection E1 as <- <-.
  rewrite Hd in Hrun.
  apply bind_Ok_inv in Hrun as (result1 & w2 & Hgw & Hrun).
  apply bind_Ok_inv in Hrun as (result2 & w3 & Hexc & Hrun).
  apply bind_Ok_inv in Hrun as (u & w4 & Hing & Hrun). unfold ret in Hrun. injection Hrun as <- <-.
  exists w1, result1, w2, w3. split; [by apply list_main in Hr as [? _]|]. split; [done|]. split; [done|].
  pose proof (keeps_ingress (fib w3) dr dir w3 eq_refl) as Hk. by rewrite Hing in Hk.
Qed.

(** On a working node it succeeds exactly when the exceptions are CIDRs. *)
Lemma SetPodRoutes_Ok_iff ifName nic excluded dir result eth0 wg routes dr w present :
  podReady thread ifName eth0 wg routes dr w -> WorkingRoutes thread present -> NoDup routes ->
  let toGw := bool_decide (DefaultRouteOf nic = DEFAULT_ROUTE_STATIC_EGRESS_GATEWAY) in
  is_Ok (fst (SetPodRoutes thread ifName nic excluded dir result w)) =
  forallb isCIDR (if toGw then ExceptionCidrs nic ++ excluded else ExceptionCidrs nic).
Proof.
  intros Hready Hwork Hnd toGw. apply eq_iff_eq_true. split.
  - destruct (SetPodRoutes _ _ _ _ _ _ w) as [[result'| |] w'] eqn:Hrun; try done. intros _.
    apply (SetPodRoutes_Ok _ _ _ _ _ _ _ _ _ _ _ _ Hready) in Hrun as (? & ? & ? & ? & _ & _ & Hexc & _).
    by eapply exceptions_parse.
  - intros Hc. by destruct (SetPodRoutes_succeeds thread present ifName nic excluded dir result eth0 wg routes dr w
      Hready Hnd Hc) as (result' & w' & ->).
Qed.

(** The table after the routes of eth0 are replaced. *)
Lemma routed_to_gateway routes dr eth0 wg result w result' w' gw :
  rt_Gw dr = Some gw -> is4 gw = true ->
  (forall k i, fib w !! k = Some i -> k ∈ omap routeKey routes) ->
  routeToGateway thread routes dr eth0 wg result w = (Ok result', w') ->
  fib w' = <[(IPv4 0 0 0 0, 0%Z) := l_Index wg]> {[ (gw, 32%Z) := l_Index eth0 ]} /\
  res_Routes result' = [{| cr_Dst := gatewayDestination dr; cr_GW := None |};
                        {| cr_Dst := defaultCidr; cr_GW := wgGateway |}].
Proof.
  intros Hgw H4 Hall Hrun. unfold routeToGateway in Hrun.
  apply bind_Ok_inv in Hrun as ([] & w1 & Hdel & Hrun).
  pose proof (deleted_routes _ _ _ _ _ Hdel) as Hfib.
  assert (Hempty : fib w1 = ∅).
  { apply map_eq. intros k. rewrite Hfib, lookup_empty. case_decide as Hk; [done|].
    destruct (fib w !! k) as [i|] eqn:E; [|done]. by apply Hall in E. }
  apply bind_Ok_inv in Hrun as ([] & w2 & Hr1%on_err_Ok_inv & Hrun).
  apply bind_Ok_inv in Hrun as ([] & w3 & Hr2%on_err_Ok_inv & Hrun).
  unfold ret in Hrun. injection Hrun as <- <-. split; [|done].
  apply replace_main in Hr1; [|done]. apply replace_main in Hr2; [|done].
  rewrite Hr2, Hr1, Hempty. unfold routeKey, netKey. simpl. rewrite Hgw, H4. done.
Qed.

(** C3: with the gateway as the default, [SetPodRoutes] succeeds on a working node
    exactly when the excluded CIDRs, of the gateway's configuration and of the
    plugin's, are well-formed.  Once it has succeeded, every IPv4 address is routed by
    policy: an address in an excluded CIDR and eth0's own gateway go through eth0, all
    others through the WireGuard tunnel.  The result lists these routes. *)
Theorem gateway_default_policy ifName nic excluded dir result eth0 wg routes dr gw w :
  podReady thread ifName eth0 wg routes dr w ->
  rt_Gw dr = Some gw -> is4 gw = true ->
  (forall k i, fib w !! k = Some i -> i = l_Index eth0) ->
  DefaultRouteOf nic = DEFAULT_ROUTE_STATIC_EGRESS_GATEWAY ->
  let run := SetPodRoutes thread ifName nic excluded dir result w in
  let exceptions := ExceptionCidrs nic ++ excluded in
  (forall present, WorkingRoutes thread present -> NoDup routes -> is_Ok (fst run) = forallb isCIDR exceptions) /\
  forall result' w', run = (Ok result', w') ->
  (forall d, is4 d = true ->
    lpm (fib w') d =
    Some (if bool_decide (d = gw) || inCidrs exceptions d then l_Index eth0 else l_Index wg)) /\
  res_Routes result' =
    {| cr_Dst := gatewayDestination dr; cr_GW := None |} :: {| cr_Dst := defaultCidr; cr_GW := wgGateway |}
    :: omap (cidrRoute (Some gw)) exceptions.
Proof.
  intros Hready Hgw H4 Hon Hdef run exceptions. split.
  { intros present Hwork Hnd. unfold run.
    rewrite (SetPodRoutes_Ok_iff ifName nic excluded dir result eth0 wg routes dr w present Hready Hwork Hnd).
    by rewrite bool_decide_eq_true_2 by done. }
  intros result' w' Hrun.
  apply (SetPodRoutes_Ok _ _ _ _ _ _ _ _ _ _ _ _ Hready) in Hrun as (w1 & result1 & w2 & w3 & Hw1 & Hto & Hexc & Hw').
  rewrite bool_decide_eq_true_2 in Hto, Hexc by done. simpl in Hto, Hexc.
  apply (routed_to_gateway _ _ _ _ _ _ _ _ gw) in Hto as [Hw2 Hres1]; [|done|done|].
  2:{ intros k i Hk. rewrite Hw1 in Hk. pose proof (Hon k i Hk) as ->.
      destruct Hready as [_ _ [w0 Hl] _]. apply list_main in Hl as [_ Hl].
      apply list_elem_of_omap. by apply Hl. }
  apply routed_exceptions in Hexc as [Hfib Hres]. simpl in Hfib, Hres. fold exceptions in Hfib, Hres.
  rewrite Hgw in Hres. split; [|by rewrite Hres, Hres1].
  intros d Hd. rewrite Hw'.
  assert (Hat : forall k, fib w3 !! k =
    if decide (k ∈ cidrKeys exceptions) then Some (l_Index eth0)
    else if decide (k = (IPv4 0 0 0 0, 0%Z)) then Some (l_Index wg)
    else if decide (k = (gw, 32%Z)) then Some (l_Index eth0) else None).
  { intros k. rewrite Hfib, Hw2. case_decide; [done|].
    destruct (decide (k = (IPv4 0 0 0 0, 0%Z))) as [->|]; [by rewrite lookup_insert_eq|].
    rewrite lookup_insert_ne by done.
    destruct (decide (k = (gw, 32%Z))) as [->|]; [by rewrite lookup_singleton_eq|by rewrite lookup_singleton_ne]. }
  by apply policy_lookup.
Qed.

(** C37: with Azure networking as the default, only the CIDRs of the gateway's
    configuration go through the tunnel: an address outside of them is routed as
    before, and one inside goes through the tunnel unless the pod already had a route
    for a smaller network of it.  On a working node it succeeds exactly when these
    CIDRs are well-formed, whatever the plugin's excluded CIDRs are. *)
Theorem azure_default_policy ifName nic excluded dir result eth0 wg routes dr w :
  podReady thread ifName eth0 wg routes dr w ->
  DefaultRouteOf nic <> DEFAULT_ROUTE_STATIC_EGRESS_GATEWAY ->
  let run := SetPodRoutes thread ifName nic excluded dir result w in
  (forall present, WorkingRoutes thread present -> NoDup routes ->
     is_Ok (fst run) = forallb isCIDR (ExceptionCidrs nic)) /\
  forall result' w', run = (Ok result', w') -> forall d,
    (inCidrs (ExceptionCidrs nic) d = false -> lpm (fib w') d = lpm (fib w) d) /\
    (forall k, k ∈ cidrKeys (ExceptionCidrs nic) -> maskTo d (snd k) = fst k ->
       (forall j, (snd k < j <= 32)%Z -> fib w !! (maskTo d j, j) = None) ->
       lpm (fib w') d = Some (l_Index wg)).
Proof.
  intros Hready Hdef run. split.
  { intros present Hwork Hnd. unfold run.
    rewrite (SetPodRoutes_Ok_iff ifName nic excluded dir result eth0 wg routes dr w present Hready Hwork Hnd).
    by rewrite bool_decide_eq_false_2 by done. }
  intros result' w' Hrun d.
  apply (SetPodRoutes_Ok _ _ _ _ _ _ _ _ _ _ _ _ Hready) in Hrun as (w1 & result1 & w2 & w3 & Hw1 & Hto & Hexc & Hw').
  rewrite bool_decide_eq_false_2 in Hto, Hexc by done. unfold ret in Hto. injection Hto as <- <-.
  apply routed_exceptions in Hexc as [Hfib _]. simpl in Hfib. rewrite Hw1 in Hfib. rewrite Hw'. split.
  - intros Hin. apply lpm_ext. intros j Hj. rewrite Hfib, decide_False; [done|]. by apply inCidrs_false.
  - intros [ip ones] Hk Hm Hlong. simpl in *.
    assert (0 <= ones <= 32)%Z.
    { apply list_elem_of_omap in Hk as (c & _ & Hc). by apply cidrKey_range in Hc. }
    apply (lpm_at _ _ (Z.to_nat ones)); [lia| |].
    + rewrite Z2Nat.id, Hm, Hfib by lia. by rewrite decide_True.
    + intros j' l Hj'. rewrite Hfib. intros Hl. case_decide; [by simplify_eq|].
      by rewrite Hlong in Hl by lia.
Qed.
End policy.
