(* ===== verification/CNINic.v ===== *)
(** * The pod's network interface ([pkg/cni/ipam/delegate.go], [pkg/cni/wireguard/nic.go])

    [WithWireGuardNic] makes a WireGuard link in the host's namespace, moves it to
    the pod's, gives it the addresses of the IPAM plugin and runs the rest of the
    configuration.  On an error the address is released and the link it made is
    removed, wherever it is by then. *)

From stdpp Require Import base tactics list strings gmap.
From Stdlib Require Import Ascii ZArith Lia.
From S2P Require Import Prelude GoStrings Types Kube NetIP Network Files CNITypes.

Open Scope string_scope.
Open Scope list_scope.

(** ** The IPAM plugin *)

(** [ipam.ExecAdd], [ExecDel] and [ConfigureIface] of the CNI plugins' library. *)
Class IPAMExec (W : Type) `{CNILib} := {
  ExecAdd : string -> string -> M W Result;
  ExecDel : string -> string -> M W unit;
  ConfigureIface : netns -> string -> CNIResult -> M W unit;
}.

Record IPWrapper := { pluginType : string; netConf : string }.

Section ipam.
Context {W : Type} `{CNILib} `{!IPAMExec W}.

Definition DeleteIP (wrapper : IPWrapper) : M W unit := ExecDel (pluginType wrapper) (netConf wrapper).

(** Releases the address when the configuration fails. *)
Definition releaseIP (wrapper : IPWrapper) (err : gerror) : M W gerror :=
  let! r := try (DeleteIP wrapper) in
  match r with
  | inl recoverErr =>
      ret (EWrapped "error occurred " err (" and failed to delete ip: " +:+ Error recoverErr))
  | inr _ => ret err
  end.

Definition WithIP {A} (wrapper : IPWrapper) (configFunc : option (CNIResult -> M W A)) : M W A :=
  let! r := ExecAdd (pluginType wrapper) (netConf wrapper) in
  recovering (releaseIP wrapper)
    (let! ipamResult := lift (NewResultFromResult r) in
     match configFunc with
     | None => throw (EText "configure function is nil")
     | Some f => f ipamResult
     end).
End ipam.

(** ** The addresses *)

(** [item.Address.IP.To4() != nil] *)
Definition isIPv4 (item : IPConfig) : bool :=
  match ipn_IP (ipc_Address item) with Some ip => is4 ip | None => false end.

(** The loop over the addresses of the IPAM result: its items, the plugin's addresses
    and the address the gateway is to accept. *)
Definition takeAddress (ifaceIndex : Z) (st : list IPConfig * list IPConfig * string) (item : IPConfig) :
    list IPConfig * list IPConfig * string :=
  let '(items, ips, allowedIPNet) := st in
  if isIPv4 item
  then (items ++ [item], ips, IP_String (ipn_IP (ipc_Address item)) +:+ "/32")
  else (items ++ [{| ipc_Interface := Some 0%Z; ipc_Address := ipc_Address item; ipc_Gateway := ipc_Gateway item |}],
        ips ++ [{| ipc_Interface := Some ifaceIndex; ipc_Address := ipc_Address item; ipc_Gateway := None |}],
        allowedIPNet).

(** ** The interface *)

(** [containerID[0:8]] *)
Definition containerPrefix (containerID : string) : outcome string :=
  if (8 <=? String.length containerID)%nat then Ok (String.substring 0 8 containerID) else Panic.

Section nic.
Context {W : Type} `{NetNS W} `{NetLink W} `{CNILib} `{!IPAMExec W} `{OsEnv}.

(** Removes a link if it is there; what fails is added to the error. *)
Definition removeLink (thread : netns) (name : string) (err : option gerror) : M W (option gerror) :=
  let! r := try (LinkByName thread name) in
  match r with
  | inl recoverErr => ret (if isLinkNotFound recoverErr then err else multierr_Append err (Some recoverErr))
  | inr link =>
      let! r := try (LinkDel thread link) in
      match r with
      | inl recoverErr => ret (multierr_Append err (Some recoverErr))
      | inr _ => ret err
      end
  end.

(** The deferred clean-up: the link under its name in the host's namespace, and under
    both names in the pod's. *)
Definition recoverNic (podNetNS : netns) (wgNameInMain ifName : string) (err : gerror) : M W gerror :=
  let! err1 := removeLink HostNS wgNameInMain (Some err) in
  let! r := try (nsDo podNetNS
    (let! e := removeLink podNetNS wgNameInMain None in
     let! e := removeLink podNetNS ifName e in
     fail_with e tt)) in
  ret (default err (multierr_Append err1 (match r with inl e => Some e | inr _ => None end))).

(** [%q] of a name and [%v] of an error. *)
Definition nicError (before name after : string) (err : gerror) : gerror :=
  EText (before +:+ quoted name +:+ after +:+ ": " +:+ Error err).

Definition createNic (podNetNS : netns) (wgNameInMain ifName : string) : M W unit :=
  do! LinkAdd HostNS (newLink Wireguard wgNameInMain "") ?: (wrap "failed to add WireGuard link: ");
  let! wgLink := LinkByName HostNS wgNameInMain in
  do! LinkSetNsFd HostNS wgLink podNetNS ?: (wrap "failed to move wireguard link to pod namespace: ");
  nsDo podNetNS
    (let! wgLink := LinkByName podNetNS wgNameInMain ?: (nicError "failed to find " wgNameInMain "") in
     do! LinkSetDown podNetNS wgLink ?: (nicError "failed to set " (l_Name wgLink) " down");
     do! LinkSetAlias podNetNS wgLink (l_Name wgLink) ?: (nicError "failed to set alias to " (l_Name wgLink) "");
     do! LinkSetName podNetNS wgLink ifName
       ?: (nicError "failed to rename device " (l_Name wgLink) (" to " +:+ quoted ifName));
     LinkSetUp podNetNS wgLink ?: (nicError "failed to set " ifName " up")).

(** The function given to [WithIP]. *)
Definition configureNic (podNetNS : netns) (podNSPath ifName : string) (result : CNIResult)
    (configFunc : option (netns -> string -> CNIResult -> M W CNIResult)) (ipamResult : CNIResult) : M W CNIResult :=
  match res_IPs ipamResult with
  | [] => throw (EText "ipam result is empty")
  | _ =>
      let! (result, allowedIPNet) := nsDo podNetNS
        (let! wgLink := LinkByName podNetNS ifName ?: (nicError "failed to find " ifName "") in
         let iface := {| if_Mac := l_HardwareAddr wgLink; if_Name := l_Name wgLink; if_Sandbox := podNSPath |} in
         let ifaces := res_Interfaces result ++ [iface] in
         let '(items, ips, allowedIPNet) :=
           fold_left (takeAddress (Z.of_nat (length ifaces) - 1)) (res_IPs ipamResult)
             ([], res_IPs result, "") in
         do! if String.eqb (Getenv "IS_UNIT_TEST_ENV") "true" then ret tt
             else ConfigureIface podNetNS ifName
                    {| res_CNIVersion := res_CNIVersion ipamResult; res_Interfaces := [iface]; res_IPs := items;
                       res_Routes := res_Routes ipamResult |};
         ret ({| res_CNIVersion := res_CNIVersion result; res_Interfaces := ifaces; res_IPs := ips;
                 res_Routes := res_Routes result |}, allowedIPNet)) in
      if String.eqb allowedIPNet "" then throw (EText "failed to find pod ipv4 ip")
      else match configFunc with
           | Some f => f podNetNS allowedIPNet result
           | None => ret result
           end
  end.

(** The pod's link of that name, if there is one. *)
Definition existingLink (podNetNS : netns) (ifName : string) : M W (option Link) :=
  nsDo podNetNS
    (let! r := try (LinkByName podNetNS ifName) in
     match r with
     | inr link => ret (Some link)
     | inl err =>
         if isLinkNotFound err then ret None
         else throw (wrap "failed to retrieve new WireGuard link: " err)
     end).

(** The result that the function completes in place is passed on and returned; the
    excluded routes the source takes as an argument are not used by it. *)
Definition WithWireGuardNic (containerID podNSPath ifName : string) (ipWrapper : IPWrapper) (result : CNIResult)
    (configFunc : option (netns -> string -> CNIResult -> M W CNIResult)) : M W CNIResult :=
  let! podNetNS := GetNSByPath podNSPath in
  closing podNetNS
    (let! wgLink := existingLink podNetNS ifName in
     let withIP := WithIP ipWrapper (Some (configureNic podNetNS podNSPath ifName result configFunc)) in
     match wgLink with
     | Some _ => withIP
     | None =>
         let! prefix := lift (containerPrefix containerID) in
         let wgNameInMain := "wg" +:+ prefix in
         recovering (recoverNic podNetNS wgNameInMain ifName)
           (do! createNic podNetNS wgNameInMain ifName; withIP)
     end).
End nic.

(** ** Cleaning up after a failure *)

(** The links of a namespace by name: lookups change nothing, and neither they nor
    deletions add a link. *)
Class LinkLaws {W : Type} `{NetNS W} `{NetLink W} (linkAt : W -> netns -> string -> Prop) : Prop := {
  byName_same n name w n' x : linkAt (snd (LinkByName n name w)) n' x <-> linkAt w n' x;
  byName_Ok n name w l w' : LinkByName n name w = (Ok l, w') -> l_Name l = name /\ linkAt w n name;
  byName_missing n name w e w' :
    LinkByName n name w = (Err e, w') -> isLinkNotFound e = true -> ~ linkAt w n name;
  linkDel_Ok n l w w' : LinkDel n l w = (Ok tt, w') -> ~ linkAt w' n (l_Name l);
  linkDel_less n l w n' x : linkAt (snd (LinkDel n l w)) n' x -> linkAt w n' x;
  nsGetNS_links p w n' x : linkAt (snd (nsGetNS p w)) n' x <-> linkAt w n' x;
  nsEnter_links n w n' x : linkAt (snd (nsEnter n w)) n' x <-> linkAt w n' x;
  nsClose_links n w n' x : linkAt (snd (nsClose n w)) n' x <-> linkAt w n' x;
}.

Lemma EMulti_ne a b : EMulti a b <> a.
Proof. induction a; congruence. Qed.

Lemma Append_ne err e : multierr_Append err (Some e) <> err.
Proof. destruct err as [a|]; simpl; [|done]. intros [= E]. by apply EMulti_ne in E. Qed.

Section failure.
Context {W : Type} `{NetNS W} `{NetLink W} `{CNILib} `{!IPAMExec W} `{OsEnv}.
Context (linkAt : W -> netns -> string -> Prop) `{!LinkLaws linkAt}.

(** A link that is not there. *)
Definition absent (n : netns) (x : string) (w : W) : Prop := ~ linkAt w n x.

Lemma keeps_byName n x n' name : keeps (absent n x) (LinkByName n' name).
Proof. intros w Hw Hl. apply Hw. by apply byName_same in Hl. Qed.
Lemma keeps_linkDel n x n' l : keeps (absent n x) (LinkDel n' l).
Proof. intros w Hw Hl. apply Hw. by apply linkDel_less in Hl. Qed.
Lemma keeps_nsGetNS_absent n x p : keeps (absent n x) (nsGetNS p).
Proof. intros w Hw Hl. apply Hw. by apply nsGetNS_links in Hl. Qed.
Lemma keeps_nsEnter_absent n x n' : keeps (absent n x) (nsEnter n').
Proof. intros w Hw Hl. apply Hw. by apply nsEnter_links in Hl. Qed.
#[local] Hint Resolve keeps_byName keeps_linkDel keeps_nsGetNS_absent keeps_nsEnter_absent : keeps.

Lemma keeps_removeLink n x n' name err : keeps (absent n x) (removeLink n' name err).
Proof. unfold removeLink. keeps_tac. Qed.
#[local] Hint Resolve keeps_removeLink : keeps.

(** The part of the clean-up in the pod's namespace. *)
Lemma keeps_podRemoval n x pod main ifName :
  keeps (absent n x) (nsDo pod (let! e := removeLink pod main None in
                                let! e := removeLink pod ifName e in fail_with e tt)).
Proof. unfold nsDo, fail_with. keeps_tac. Qed.

(** Without a new error the link is gone. *)
Lemma removeLink_gone n name err w w' : removeLink n name err w = (Ok err, w') -> absent n name w'.
Proof.
  unfold removeLink, bind, try. destruct (LinkByName n name w) as [[l|e|] w1] eqn:Hl; [| |done].
  - apply byName_Ok in Hl as [<- _].
    destruct (LinkDel n l w1) as [[[]|e|] w2] eqn:Hd; [| |done].
    + intros [= <-]. by apply linkDel_Ok in Hd.
    + intros E. exfalso. by eapply Append_ne; injection E as E _.
  - destruct (isLinkNotFound e) eqn:He; intros E; [|exfalso; by eapply Append_ne; injection E as E _].
    injection E as <-.
    pose proof (byName_same n name w n name) as Hs. rewrite Hl in Hs. simpl in Hs.
    apply byName_missing in Hl; [|done]. unfold absent. by rewrite Hs.
Qed.

Lemma removeLink_err n name err w r w' :
  removeLink n name err w = (Ok r, w') -> r = err \/ exists e, r = multierr_Append err (Some e).
Proof.
  unfold removeLink, bind, try. destruct (LinkByName n name w) as [[l|e|] w1]; [| |done].
  - destruct (LinkDel n l w1) as [[[]|e|] w2]; [| |done]; intros [= <- <-]; eauto.
  - destruct (isLinkNotFound e); intros [= <- <-]; eauto.
Qed.

Lemma removeLink_no_Err n name err w e w' : removeLink n name err w <> (Err e, w').
Proof.
  unfold removeLink, bind, try. destruct (LinkByName n name w) as [[l|?|] w1]; [|done..].
  by destruct (LinkDel n l w1) as [[[]|?|] w2].
Qed.
Lemma recoverNic_no_Err pod main ifName err w e w' : recoverNic pod main ifName err w <> (Err e, w').
Proof.
  intros [Hr|(? & ? & _ & [Hr|(? & ? & _ & Hr)]%bind_Err_inv)]%bind_Err_inv; [|by apply try_Err_inv in Hr|done].
  by apply removeLink_no_Err in Hr.
Qed.

(** The clean-up leaves no link, or says in the error what failed. *)
Lemma recoverNic_clean pod main ifName err w e w' :
  recoverNic pod main ifName err w = (Ok e, w') ->
  (exists a b, e = EMulti a b) \/
  (absent HostNS main w' /\ absent pod main w' /\ absent pod ifName w').
Proof.
  unfold recoverNic. intros Hrun.
  apply bind_Ok_inv in Hrun as (err1 & w1 & Hhost & Hrun).
  apply bind_Ok_inv in Hrun as (r & w2 & Hpod%try_Ok_inv & Hrun). unfold ret in Hrun. injection Hrun as He <-.
  destruct r as [e2|[]].
  { left. apply removeLink_err in Hhost as [-> |[x ->]]; simpl in He; subst e; eauto. }
  destruct (removeLink_err _ _ _ _ _ _ Hhost) as [-> |[x ->]]; simpl in He; subst e; [|eauto].
  right. apply removeLink_gone in Hhost.
  assert (absent HostNS main w2) as Hh.
  { pose proof (keeps_podRemoval HostNS main pod main ifName w1 Hhost) as Hk. by rewrite Hpod in Hk. }
  split; [done|]. unfold nsDo in Hpod.
  apply bind_Ok_inv in Hpod as (u & w3 & _ & Hpod).
  apply bind_Ok_inv in Hpod as (e1 & w4 & H1' & Hpod).
  apply bind_Ok_inv in Hpod as (e2 & w5 & H2' & Hpod).
  destruct e2 as [e2|]; [done|]. unfold fail_with, ret in Hpod. injection Hpod as <-.
  destruct (removeLink_err _ _ _ _ _ _ H2') as [<- |[x Hx]]; [|by destruct e1].
  split; [|by apply removeLink_gone in H2'].
  apply removeLink_gone in H1'. pose proof (keeps_removeLink pod main pod ifName None w4 H1') as Hk.
  by rewrite H2' in Hk.
Qed.

(** What runs before the clean-up is armed adds no link either. *)
Lemma keeps_existingLink n x pod ifName : keeps (absent n x) (existingLink pod ifName).
Proof. unfold existingLink, nsDo. keeps_tac. Qed.

Lemma closing_inv {A} pod (c : M W A) w r w' :
  closing pod c w = (r, w') ->
  exists w1, c w = (r, w1) /\ forall n x, absent n x w1 -> absent n x w'.
Proof.
  intros (w1 & Hc & ->)%defer_inv. exists w1. split; [done|]. intros n x Hw Hl. apply Hw.
  by apply nsClose_links in Hl.
Qed.

End failure.

(** ** The pod's address *)

Definition lastIPv4 (items : list IPConfig) : option IPConfig :=
  fold_left (fun acc item => if isIPv4 item then Some item else acc) items None.

Lemma takeAddress_allowed idx items a b s :
  snd (fold_left (takeAddress idx) items (a, b, s)) =
  match lastIPv4 items with Some item => IP_String (ipn_IP (ipc_Address item)) +:+ "/32" | None => s end.
Proof.
  unfold lastIPv4. set (st := None). change s with
    (match st with Some item => IP_String (ipn_IP (ipc_Address item)) +:+ "/32" | None => s end) at 1.
  generalize st. clear st. revert a b. induction items as [|i items IH]; intros a b st; [done|]. simpl.
  destruct (isIPv4 i); [apply (IH _ _ (Some i))|apply IH].
Qed.

Lemma lastIPv4_Some items item : lastIPv4 items = Some item -> item ∈ items /\ isIPv4 item = true.
Proof.
  assert (Hgen : forall st,
    fold_left (fun acc item => if isIPv4 item then Some item else acc) items st = Some item ->
    st = Some item \/ (item ∈ items /\ isIPv4 item = true)).
  { induction items as [|i items IH]; intros st Hf; simpl in Hf; [by left|].
    apply IH in Hf as [Hst|[Hin Hi]]; [|right; split; [by right|done]].
    destruct (isIPv4 i) eqn:Hi; [|by left]. injection Hst as ->. right. split; [left|done]. }
  intros [?|?]%Hgen; done.
Qed.

(** The rest of the configuration gets the last IPv4 address of the IPAM result, as a
    network of one address that reads back as that address. *)
Lemma configureNic_allowed {W} `{NetNS W} `{NetLink W} `{CNILib} `{!IPAMExec W} `{OsEnv}
    pod path ifName result f ipamResult (w : W) result' w' :
  configureNic pod path ifName result (Some f) ipamResult w = (Ok result', w') ->
  exists item ip result1 w1,
    item ∈ res_IPs ipamResult /\ ipn_IP (ipc_Address item) = Some ip /\ is4 ip = true /\
    f pod (IP_String (Some ip) +:+ "/32") result1 w1 = (Ok result', w').
Proof.
  unfold configureNic. destruct (res_IPs ipamResult) as [|i items] eqn:Hips; [done|]. rewrite <- Hips.
  intros ([result1 allowed] & w1 & Hdo & Hrun)%bind_Ok_inv.
  destruct (String.eqb_spec allowed "") as [|Hne]; [done|].
  unfold nsDo in Hdo. apply bind_Ok_inv in Hdo as (u & w2 & _ & Hdo).
  apply bind_Ok_inv in Hdo as (l & w3 & _ & Hdo).
  destruct (fold_left _ _ _) as [[its ips] s] eqn:Hfold.
  apply bind_Ok_inv in Hdo as (u' & w4 & _ & Hdo). unfold ret in Hdo. injection Hdo as _ -> _.
  apply (f_equal snd) in Hfold. rewrite takeAddress_allowed in Hfold. simpl in Hfold.
  destruct (lastIPv4 (res_IPs ipamResult)) as [item|] eqn:Hl; [|by subst].
  apply lastIPv4_Some in Hl as [Hin H4]. unfold isIPv4 in H4.
  destruct (ipn_IP (ipc_Address item)) as [ip|] eqn:Hip; [|done].
  exists item, ip, result1, w1. by rewrite Hfold.
Qed.
