(* ===== verification/CNIPlugin.v ===== *)
(** * The CNI plugins ([cmd/kube-egress-cni], [cmd/kube-egress-cni-ipam])

    The container runtime calls the egress plugin for every pod of the node.  For a
    pod that names a gateway it sets up a WireGuard link, makes a key, registers the
    pod with the CNI manager, and configures the link's peer and the pod's routes.
    The IPAM plugin hands out the addresses the pod already has. *)

From stdpp Require Import base tactics list strings gmap.
From Stdlib Require Import Ascii ZArith Lia.
From S2P Require Import Prelude GoStrings JSON Types Kube NetIP Network Files CNIServer CNITypes CNIRoutes CNINic.

Open Scope string_scope.
Open Scope list_scope.

(** ** Interfaces *)

(** The connection to the CNI manager. *)
Class Grpc (W : Type) := {
  grpcNewClient : string -> M W unit;
  grpcClose : M W unit;
}.

(** [wgtypes.GeneratePrivateKey] and [Key.PublicKey]. *)
Class WgKeygen (W : Type) `{WgTypes} := {
  GenerateKey : M W Key;
  Key_PublicKey : Key -> Key;
}.

(** The conversion [int32(x)]. *)
Definition int32_of (x : Z) : Z := (x + 2 ^ 31) mod 2 ^ 32 - 2 ^ 31.

Definition podInfo (k8sInfo : K8sConfig) : option PodInfo :=
  Some {| PodName := K8S_POD_NAME k8sInfo; PodNamespace := K8S_POD_NAMESPACE k8sInfo |}.

(** [net.IPNet{IP: net.IPv4zero, Mask: net.CIDRMask(0, 8*len(net.IPv4zero))}] and the
    same for IPv6; both addresses have sixteen bytes. *)
Definition allIPv4 : IPNet := {| ipn_IP := Some (IPv4 0 0 0 0); ipn_Mask := Some (CIDRMask 0 128) |}.
Definition allIPv6 : IPNet := {| ipn_IP := Some 0%Z; ipn_Mask := Some (CIDRMask 0 128) |}.

Module cni.
Section cni.
Context {W : Type} `{NetNS W} `{NetLink W} `{NetlinkPure} `{PodIPTables W} `{FileSystem W}.
Context `{WgTypes} `{!WgCtrl W} `{!WgKeygen W} `{CNILib} `{!IPAMExec W} `{Stdout W}.
Context `{Grpc W} `{NicServiceClient W} `{OsEnv}.

(** [wgclient, err := wgctrl.New(); ...; defer wgclient.Close()] in the pod's
    namespace. *)
Definition withPodWg {A} (podNs : netns) (body : WgClient -> M W A) : M W A :=
  nsDo podNs
    (let! wgclient := wgNew podNs ?: (wrap "failed to create wg client: ") in
     defer (fun _ w => snd (wgClose wgclient w)) (body wgclient)).

(** The link's configuration: its key, and the gateway as the only peer, for all
    addresses. *)
Definition tunnelConfig (privateKey gwPublicKey : Key) (resp : NicAddResponse) : WgConfig :=
  {| wg_PrivateKey := Some privateKey; wg_ListenPort := None;
     wg_Peers := [{| pcf_PublicKey := gwPublicKey; pcf_Remove := false; pcf_ReplaceAllowedIPs := false;
                     pcf_AllowedIPs := [allIPv4; allIPv6];
                     pcf_Endpoint := Some (ParseIP (EndpointIp resp), ListenPort resp) |}] |}.

(** The request that registers the pod. *)
Definition addRequest (k8sInfo : K8sConfig) (gwName : string) (privateKey : Key) (device : WgDevice)
    (allowedIPNet : string) : NicAddRequest :=
  {| add_PodConfig := podInfo k8sInfo; add_ListenPort := int32_of (dev_ListenPort device);
     add_AllowedIp := allowedIPNet; add_PublicKey := Key_String (Key_PublicKey privateKey);
     add_GatewayName := gwName |}.

(** The function given to [WithWireGuardNic]. *)
Definition setupTunnel (config : CNIConfig) (k8sInfo : K8sConfig) (gwName : string)
    (podNs : netns) (allowedIPNet : string) (result : CNIResult) : M W CNIResult :=
  let! privateKey := GenerateKey ?: (wrap "failed to generate wg private key: ") in
  let! device := withPodWg podNs (fun wgclient =>
    wgDevice wgclient consts.WireguardLinkName
      ?: (wrap ("failed to find wg device (" +:+ consts.WireguardLinkName +:+ "): "))) in
  let! resp := callNicAdd (addRequest k8sInfo gwName privateKey device allowedIPNet)
    ?: (wrap "failed to send nicAdd request: ") in
  let! gwPublicKey := lift (of_sum (ParseKey (PublicKey resp))) ?: (wrap "failed to parse gateway public key: ") in
  withPodWg podNs (fun wgclient =>
    do! wgConfigureDevice wgclient consts.WireguardLinkName (tunnelConfig privateKey gwPublicKey resp)
      ?: (wrap "failed to configure wg device: ");
    if String.eqb (Getenv "IS_UNIT_TEST_ENV") "true" then ret result
    else SetPodRoutes podNs consts.WireguardLinkName resp (cc_ExcludedCIDRs config) "/proc/sys" result
           ?: (wrap "failed to setup pod routes: ")).

Definition cmdAdd (args : CmdArgs) : M W unit :=
  let! config := lift (ParseCNIConfig (StdinData args)) ?: (wrap "failed to parse CNI config: ") in
  let! k8sInfo := lift (LoadK8sInfo (Args args)) ?: (wrap "failed to load k8s metadata: ") in
  let! result := lift (NewResultFromResult (nc_PrevResult (cc_NetConf config)))
    ?: (wrap "failed to convert result to current version: ") in
  do! grpcNewClient (cc_SocketPath config) ?: (wrap "failed to contact cni manager daemon: ");
  defer (fun _ w => snd (grpcClose w))
    (let! annotations := callPodRetrieve (podInfo k8sInfo)
       ?: (wrap ("failed to get pod (" +:+ slashed (K8S_POD_NAME k8sInfo) (K8S_POD_NAMESPACE k8sInfo) +:+
                 ") annotations: ")) in
     match annotations !! consts.CNIGatewayAnnotationKey with
     | None => PrintResult result (nc_CNIVersion (cc_NetConf config))
     | Some gwName =>
         if String.eqb (nc_IPAMType (cc_NetConf config)) "" then throw (EText "ipam should not be empty")
         else
           let! result := WithWireGuardNic (ContainerID args) (Netns args) consts.WireguardLinkName
             {| pluginType := nc_IPAMType (cc_NetConf config); netConf := StdinData args |} result
             (Some (setupTunnel config k8sInfo gwName)) in
           PrintResult result (nc_CNIVersion (cc_NetConf config))
     end).

(** [cmdDel] logs its errors and goes on or stops, but returns nil. *)
Definition cmdDel (args : CmdArgs) : M W unit :=
  let! r := try (lift (ParseCNIConfig (StdinData args))) in
  match r with
  | inl _ => ret tt
  | inr config =>
      let! r := try (lift (LoadK8sInfo (Args args))) in
      match r with
      | inl _ => ret tt
      | inr k8sInfo =>
          let! r := try (GetNSByPath (Netns args)) in
          match r with
          | inl _ => ret tt
          | inr podNs =>
              closing podNs
                (let! r := try (nsDo podNs
                   (let! r := try (LinkByName podNs consts.WireguardLinkName) in
                    match r with
                    | inl _ => ret tt
                    | inr ifHandle => do! try (LinkDel podNs ifHandle); ret tt
                    end)) in
                 match r with
                 | inl _ => ret tt
                 | inr _ =>
                     let! r := try (DeleteIP {| pluginType := nc_IPAMType (cc_NetConf config);
                                                netConf := StdinData args |}) in
                     match r with
                     | inl _ => ret tt
                     | inr _ =>
                         let! r := try (grpcNewClient (cc_SocketPath config)) in
                         match r with
                         | inl _ => ret tt
                         | inr _ =>
                             defer (fun _ w => snd (grpcClose w))
                               (do! try (callNicDel (podInfo k8sInfo)); ret tt)
                         end
                     end
                 end)
          end
      end
  end.

Definition cmdCheck (args : CmdArgs) : M W unit :=
  let! config := lift (ParseCNIConfig (StdinData args)) in
  PrintResult emptyResult (nc_CNIVersion (cc_NetConf config)).
End cni.
End cni.

(** ** The IPAM plugin *)

Module cniipam.
Section cniipam.
Context {W : Type} `{NetNS W} `{NetLink W} `{CNILib} `{Stdout W}.

(** The last address of a scope. *)
Definition lastOfScope (scope : Z) (addrs : list Addr) : outcome (option IPNet) :=
  fold_left (fun acc item =>
    let? found := acc in
    if (addr_Scope item =? scope)%Z then let? n := deref (addr_IPNet item) in Ok (Some n) else Ok found)
    addrs (Ok None).

Definition podAddresses (podNetNS : netns) : M W (option IPNet * option IPNet) :=
  let! eth0Link := LinkByName podNetNS "eth0" in
  let! addrs6 := AddrList podNetNS eth0Link FAMILY_V6 in
  let! v6Address := lift (lastOfScope SCOPE_LINK addrs6) in
  let! addrs4 := AddrList podNetNS eth0Link FAMILY_V4 in
  let! v4Address := lift (lastOfScope SCOPE_UNIVERSE addrs4) in
  ret (v4Address, v6Address).

(** The result for a pod's addresses.  [net.ParseIP] is given [consts.GatewayIP]. *)
Definition ipamResultOf (v4Address v6Address : IPNet) : CNIResult :=
  {| res_CNIVersion := ImplementedSpecVersion; res_Interfaces := [];
     res_IPs := [{| ipc_Interface := None; ipc_Address := v6Address; ipc_Gateway := ParseIP consts.GatewayIP |};
                 {| ipc_Interface := None; ipc_Address := v4Address; ipc_Gateway := None |}];
     res_Routes := [] |}.

Definition cmdAdd (args : CmdArgs) : M W unit :=
  let! config := lift (ParseCNIConfig (StdinData args)) in
  let! _ := lift (LoadK8sInfo (Args args)) in
  if String.eqb (nc_IPAMType (cc_NetConf config)) "" then throw (EText "ipam should not be empty")
  else
    let! podNetNS := GetNSByPath (Netns args) in
    closing podNetNS
      (let! (v4, v6) := nsDo podNetNS (podAddresses podNetNS) in
       match v4, v6 with
       | None, _ => throw (EText "there is no enough ipv4 addr allocated for this pod")
       | _, None => throw (EText "there is no enough ipv6 addr allocated for this pod")
       | Some v4Address, Some v6Address =>
           PrintResult (ipamResultOf v4Address v6Address) (nc_CNIVersion (cc_NetConf config))
       end).

Definition cmdDel (args : CmdArgs) : M W unit :=
  let! config := lift (ParseCNIConfig (StdinData args)) in
  PrintResult emptyResult (nc_CNIVersion (cc_NetConf config)).
Definition cmdCheck (args : CmdArgs) : M W unit :=
  let! config := lift (ParseCNIConfig (StdinData args)) in
  PrintResult emptyResult (nc_CNIVersion (cc_NetConf config)).
End cniipam.
End cniipam.

(** ** Pods without a gateway *)

Section unannotated.
Context {W : Type} `{NetNS W} `{NetLink W} `{NetlinkPure} `{PodIPTables W} `{FileSystem W}.
Context `{WgTypes} `{!WgCtrl W} `{!WgKeygen W} `{CNILib} `{!IPAMExec W} `{Stdout W}.
Context `{Grpc W} `{NicServiceClient W} `{OsEnv}.

(** For a pod without the gateway annotation the plugin only asks the CNI manager
    for the annotations and prints the result of the plugin before it: what these calls
    keep, the whole run keeps, so nothing of the pod's network, its addresses or the API
    server is touched. *)
Theorem unannotated_pod_untouched (P : W -> Prop) args config k8sInfo result ann w w1 w2 :
  ParseCNIConfig (StdinData args) = Ok config ->
  LoadK8sInfo (Args args) = Ok k8sInfo ->
  NewResultFromResult (nc_PrevResult (cc_NetConf config)) = Ok result ->
  grpcNewClient (cc_SocketPath config) w = (Ok tt, w1) ->
  callPodRetrieve (podInfo k8sInfo) w1 = (Ok ann, w2) ->
  ann !! consts.CNIGatewayAnnotationKey = None ->
  keeps P (grpcNewClient (cc_SocketPath config)) -> keeps P (callPodRetrieve (podInfo k8sInfo)) ->
  keeps P (PrintResult result (nc_CNIVersion (cc_NetConf config))) -> keeps P grpcClose ->
  P w -> P (snd (cni.cmdAdd args w)).
Proof.
  intros Hconf Hk8s Hres Hnew Hget Hann Knew Kget Kprint Kclose Hw.
  assert (Hrun : cni.cmdAdd args w =
    defer (fun _ w => snd (grpcClose w)) (PrintResult result (nc_CNIVersion (cc_NetConf config))) w2).
  { unfold cni.cmdAdd, bind, on_err, lift, defer. by rewrite Hconf, Hk8s, Hres, Hnew, Hget, Hann. }
  rewrite Hrun. apply keeps_defer; [done|by intros _|].
  apply Knew in Hw. rewrite Hnew in Hw. simpl in Hw. apply Kget in Hw. by rewrite Hget in Hw.
Qed.
End unannotated.

(** ** What a pod with a gateway gets *)

(** What the calls of the plugin after the registration keep, the configuration of the
    link apart. *)
Class PodKeeps {W : Type} `{NetNS W} `{NetLink W} `{PodIPTables W} `{FileSystem W} `{WgTypes} `{!WgCtrl W}
    `{Stdout W} `{Grpc W} (P : W -> Prop) : Prop := {
  pk_nsEnter n : keeps P (nsEnter n);
  pk_nsClose n : keeps P (nsClose n);
  pk_LinkByName n s : keeps P (LinkByName n s);
  pk_RouteList n l f : keeps P (RouteList n l f);
  pk_RouteDel n r : keeps P (RouteDel n r);
  pk_RouteReplace n r : keeps P (RouteReplace n r);
  pk_RuleAdd n m t : keeps P (RuleAdd n m t);
  pk_iptNew n : keeps P (iptNew n);
  pk_AppendUnique n t c a : keeps P (AppendUnique n t c a);
  pk_WriteFile p s m : keeps P (WriteFile p s m);
  pk_wgNew n : keeps P (wgNew n);
  pk_wgClose c : keeps P (wgClose c);
  pk_PrintResult r v : keeps P (PrintResult r v);
  pk_grpcClose : keeps P grpcClose;
}.
#[export] Hint Resolve pk_nsEnter pk_nsClose pk_LinkByName pk_RouteList pk_RouteDel pk_RouteReplace pk_RuleAdd
  pk_iptNew pk_AppendUnique pk_WriteFile pk_wgNew pk_wgClose pk_PrintResult pk_grpcClose : keeps.

Section after.
Context {W : Type} `{NetNS W} `{NetLink W} `{NetlinkPure} `{PodIPTables W} `{FileSystem W}.
Context `{WgTypes} `{!WgCtrl W} `{Stdout W} `{Grpc W} (P : W -> Prop) `{!PodKeeps P}.

Lemma keeps_SetPodRoutes thread ifName nic excluded dir result :
  keeps P (SetPodRoutes thread ifName nic excluded dir result).
Proof. unfold SetPodRoutes, routeToGateway, routeException, addRoutingForIngress. keeps_tac. Qed.

(** The end of a run: the namespace is closed, the result printed, the connection
    closed. *)
Lemma printed_keeps n r v (w w' : W) u :
  PrintResult r v (snd (nsClose n w)) = (u, w') -> P w -> P (snd (grpcClose w')).
Proof.
  intros Hp Hw. apply pk_grpcClose. pose proof (pk_PrintResult r v _ (pk_nsClose n w Hw)) as Hk.
  by rewrite Hp in Hk.
Qed.
End after.

(** [WithIP] that succeeds has run the configuration on the IPAM plugin's result. *)
Lemma WithIP_Ok {W A} `{CNILib} `{!IPAMExec W} ip (f : CNIResult -> M W A) w a w' :
  WithIP ip (Some f) w = (Ok a, w') ->
  exists r ipamResult w1, ExecAdd (pluginType ip) (netConf ip) w = (Ok r, w1) /\
    NewResultFromResult r = Ok ipamResult /\ f ipamResult w1 = (Ok a, w').
Proof.
  unfold WithIP. intros (r & w1 & Hadd & Hrun%recovering_Ok_inv)%bind_Ok_inv.
  apply bind_Ok_inv in Hrun as (res & w2 & Hl & Hrun). unfold lift in Hl. injection Hl as Hl <-. eauto 10.
Qed.

(** So has [WithWireGuardNic], whether the link was there before or not. *)
Lemma WithWireGuardNic_Ok {W} `{NetNS W} `{NetLink W} `{CNILib} `{!IPAMExec W} `{OsEnv}
    containerID path ifName ip result f (w : W) result' w' :
  WithWireGuardNic containerID path ifName ip result (Some f) w = (Ok result', w') ->
  exists ipamResult w0 w1,
    configureNic (PathNS path) path ifName result (Some f) ipamResult w0 = (Ok result', w1) /\
    w' = snd (nsClose (PathNS path) w1) /\
    exists r v v', ExecAdd (pluginType ip) (netConf ip) v = (Ok r, v') /\ NewResultFromResult r = Ok ipamResult.
Proof.
  unfold WithWireGuardNic, GetNSByPath. intros (pod & v1 & Hget & Hrun)%bind_Ok_inv.
  apply bind_Ok_inv in Hget as ([] & v0 & _ & Hret). unfold ret in Hret. injection Hret as <- <-.
  apply defer_inv in Hrun as (v2 & Hrun & ->).
  apply bind_Ok_inv in Hrun as (wgLink & v3 & _ & Hrun).
  assert (exists v4, WithIP ip (Some (configureNic (PathNS path) path ifName result (Some f))) v4 = (Ok result', v2))
    as [v4 Hip].
  { destruct wgLink; [by eexists|]. apply bind_Ok_inv in Hrun as (p & v4 & _ & Hrun%recovering_Ok_inv).
    apply bind_Ok_inv in Hrun as ([] & v5 & _ & Hrun). by eexists. }
  apply WithIP_Ok in Hip as (r & res & v5 & Hadd & Hres & Hrun'). eauto 20.
Qed.

Section registration.
Context {W : Type} `{NetNS W} `{NetLink W} `{NetlinkPure} `{PodIPTables W} `{FileSystem W}.
Context `{WgTypes} `{!WgCtrl W} `{!WgKeygen W} `{CNILib} `{!IPAMExec W} `{Stdout W} `{Grpc W} `{OsEnv}.
Context `{OwnerRefs} `{Store W StaticGatewayConfiguration} `{Store W Pod} `{Store W PodEndpoint}.

(** The endpoints of the API server, and the configuration last given to the pod's
    WireGuard link. *)
Context (endpointAt : W -> NamespacedName -> option PodEndpoint) `{!EndpointStore endpointAt}.
Context (tunnelAt : W -> netns -> option WgConfig).
Context (configured : forall n w c w1 cfg w2 w3, wgNew n w = (Ok c, w1) ->
  wgConfigureDevice c consts.WireguardLinkName cfg w2 = (Ok tt, w3) -> tunnelAt w3 n = Some cfg).
Context (Hendpoint : forall k e, PodKeeps (fun w => endpointAt w k = e)).
Context (Hconfigure : forall c s cfg k e, keeps (fun w => endpointAt w k = e) (wgConfigureDevice c s cfg)).
Context (Htunnel : forall n t, PodKeeps (fun w => tunnelAt w n = t)).

(** The pod is registered with the public half of the key its link has, for the
    gateway that is the link's peer. *)
Definition connected (k8sInfo : K8sConfig) (gwName : string) (podNs : netns) (allowedIP : string) (w : W) : Prop :=
  exists key gwConfig gwKey pe w0,
    fst (kGet (Obj := StaticGatewayConfiguration) (nn (K8S_POD_NAMESPACE k8sInfo) gwName) w0) = Ok gwConfig /\
    sgc_EgressIpPrefix (sgc_Status gwConfig) <> "" /\
    ParseKey (gsp_PublicKey (sgc_GatewayServerProfile (sgc_Status gwConfig))) = inr gwKey /\
    endpointAt w (podKey (podInfo k8sInfo)) = Some pe /\
    pe_Spec pe = {| pe_StaticGatewayConfiguration := gwName; pe_PodIpAddress := allowedIP;
                    pe_PodPublicKey := Key_String (Key_PublicKey key) |} /\
    tunnelAt w podNs = Some (cni.tunnelConfig key gwKey (responseOf gwConfig)).

Lemma connected_kept k8sInfo gwName podNs ip w w' :
  (forall k e, endpointAt w k = e -> endpointAt w' k = e) ->
  (forall n t, tunnelAt w n = t -> tunnelAt w' n = t) ->
  connected k8sInfo gwName podNs ip w -> connected k8sInfo gwName podNs ip w'.
Proof.
  intros He Ht (key & gw & gwKey & pe & w0 & ? & ? & ? & Hpe & ? & Htn).
  exists key, gw, gwKey, pe, w0. repeat split; auto.
Qed.

Lemma setupTunnel_connects config k8sInfo gwName podNs allowed result w result' w' :
  cni.setupTunnel config k8sInfo gwName podNs allowed result w = (Ok result', w') ->
  connected k8sInfo gwName podNs allowed w'.
Proof.
  unfold cni.setupTunnel. intros (key & w1 & _ & Hrun)%bind_Ok_inv.
  apply bind_Ok_inv in Hrun as (dev & w2 & _ & Hrun).
  apply bind_Ok_inv in Hrun as (resp & w3 & Hadd%on_err_Ok_inv & Hrun).
  apply bind_Ok_inv in Hrun as (gwKey & w4 & Hkey%on_err_Ok_inv & Hrun).
  unfold lift in Hkey. injection Hkey as Hkey <-. apply of_sum_Ok in Hkey.
  change (callNicAdd ?r w2) with (nicservice.NicAdd r w2) in Hadd.
  apply (NicAdd_Ok endpointAt) in Hadd as ((gw & Hgw & Hprefix & ->) & pe & Hpe & Hspec).
  unfold cni.withPodWg, nsDo in Hrun.
  apply bind_Ok_inv in Hrun as (u & w5 & Hen & Hrun).
  apply bind_Ok_inv in Hrun as (c & w6 & Hnew%on_err_Ok_inv & Hrun).
  apply defer_inv in Hrun as (w7 & Hrun & ->).
  apply bind_Ok_inv in Hrun as ([] & w8 & Hcfg%on_err_Ok_inv & Hrun).
  assert (Hafter : forall P, PodKeeps P -> P w8 -> P (snd (wgClose c w7))).
  { intros P HP Hw8. apply pk_wgClose. destruct (String.eqb _ "true"); [unfold ret in Hrun; by injection Hrun as _ <-|].
    apply on_err_Ok_inv in Hrun. pose proof (keeps_SetPodRoutes P podNs consts.WireguardLinkName
      (responseOf gw) (cc_ExcludedCIDRs config) "/proc/sys" result w8 Hw8) as Hk. by rewrite Hrun in Hk. }
  exists key, gw, gwKey, pe, w2. repeat split; try done.
  - apply (Hafter (fun w => endpointAt w _ = _)); [apply _|].
    pose proof (pk_nsEnter (P := fun w => endpointAt w _ = _) podNs w3 Hpe) as Hw5. rewrite Hen in Hw5.
    pose proof (pk_wgNew (P := fun w => endpointAt w _ = _) podNs w5 Hw5) as Hw6. rewrite Hnew in Hw6.
    pose proof (Hconfigure c consts.WireguardLinkName (cni.tunnelConfig key gwKey (responseOf gw)) _ _ w6 Hw6) as Hw8e. by rewrite Hcfg in Hw8e.
  - apply (Hafter (fun w => tunnelAt w podNs = _)); [apply _|]. by eapply configured.
Qed.

(** C4: when the plugin succeeds for a pod with a gateway annotation, the pod is
    connected to that gateway: the API server has the pod's endpoint, with an address
    that reads back as one of the addresses the IPAM plugin gave, and with the public
    key that belongs to the private key of the pod's link; the link's peer is the
    gateway the annotation names, which has its egress prefix. *)
Theorem cmdAdd_connects args config k8sInfo ann gwName w w1 w2 w' :
  ParseCNIConfig (StdinData args) = Ok config ->
  LoadK8sInfo (Args args) = Ok k8sInfo ->
  grpcNewClient (cc_SocketPath config) w = (Ok tt, w1) ->
  callPodRetrieve (podInfo k8sInfo) w1 = (Ok ann, w2) ->
  ann !! consts.CNIGatewayAnnotationKey = Some gwName ->
  cni.cmdAdd args w = (Ok tt, w') ->
  exists ipamResult item ip allowedIP,
    (exists r v v', ExecAdd (nc_IPAMType (cc_NetConf config)) (StdinData args) v = (Ok r, v') /\
                    NewResultFromResult r = Ok ipamResult) /\
    item ∈ res_IPs ipamResult /\ ipn_IP (ipc_Address item) = Some ip /\
    ParseCIDR allowedIP = inr (ip, {| ipn_IP := Some ip; ipn_Mask := Some (CIDRMask 32 32) |}) /\
    connected k8sInfo gwName (PathNS (Netns args)) allowedIP w'.
Proof.
  intros Hconf Hk8s Hnew Hget Hann. unfold cni.cmdAdd. rewrite Hconf, Hk8s.
  intros (c & v & Hc%on_err_Ok_inv & Hrun)%bind_Ok_inv. unfold lift in Hc. injection Hc as <- <-.
  apply bind_Ok_inv in Hrun as (k & v & Hk%on_err_Ok_inv & Hrun). unfold lift in Hk. injection Hk as <- <-.
  apply bind_Ok_inv in Hrun as (result & v & Hl%on_err_Ok_inv & Hrun). unfold lift in Hl. injection Hl as _ <-.
  apply bind_Ok_inv in Hrun as (u & v & Hn%on_err_Ok_inv & Hrun). rewrite Hnew in Hn. injection Hn as _ <-.
  apply defer_inv in Hrun as (w4 & Hrun & ->).
  apply bind_Ok_inv in Hrun as (ann' & v & Hg%on_err_Ok_inv & Hrun). rewrite Hget in Hg. injection Hg as <- <-.
  rewrite Hann in Hrun.
  destruct (String.eqb _ ""); [done|].
  apply bind_Ok_inv in Hrun as (result' & w6 & Hnic & Hprint).
  apply WithWireGuardNic_Ok in Hnic as (ipam & v0 & v1 & Hcfg & -> & Hadd).
  apply configureNic_allowed in Hcfg as (item & ip & result1 & v2 & Hin & Hip & Hv4 & Htun).
  apply setupTunnel_connects in Htun.
  exists ipam, item, ip, (IP_String (Some ip) +:+ "/32"). split; [done|]. split; [done|]. split; [done|].
  split; [by apply ParseCIDR_host|]. revert Htun. apply connected_kept.
  - intros kk e. by apply (printed_keeps (fun w => endpointAt w kk = e) _ _ _ _ _ _ Hprint).
  - intros n t. by apply (printed_keeps (fun w => tunnelAt w n = t) _ _ _ _ _ _ Hprint).
Qed.
End registration.

(** ** Deleting a pod *)

(** Code that handles all its errors. *)
Definition noErr {W A} (c : M W A) : Prop := forall w e w', c w <> (Err e, w').

Section noErr.
Context {W : Type}.
Lemma noErr_ret {A} (a : A) : noErr (W := W) (ret a).
Proof. done. Qed.
Lemma noErr_bind_try {A B} (c : M W A) (k : gerror + A -> M W B) :
  (forall r, noErr (k r)) -> noErr (bind (try c) k).
Proof.
  intros Hk w e w' [Hc|(r & w1 & _ & Hr)]%bind_Err_inv; [by apply try_Err_inv in Hc|by apply Hk in Hr].
Qed.
Lemma noErr_defer {A} cl (c : M W A) : noErr c -> noErr (defer cl c).
Proof. intros Hc w e w' (w1 & Hr & _)%defer_inv. by apply Hc in Hr. Qed.
End noErr.
Ltac noErr_tac :=
  repeat (intros; match goal with
    | |- noErr (ret _) => apply noErr_ret
    | |- noErr (bind (try _) _) => apply noErr_bind_try
    | |- noErr (defer _ _) => apply noErr_defer
    | |- noErr (closing _ _) => apply noErr_defer
    | |- noErr (match ?x with _ => _ end) => destruct x
    end).

Section deletion.
Context {W : Type} `{NetNS W} `{NetLink W} `{NetlinkPure} `{PodIPTables W} `{FileSystem W}.
Context `{WgTypes} `{!WgCtrl W} `{!WgKeygen W} `{CNILib} `{!IPAMExec W} `{Stdout W} `{Grpc W} `{OsEnv}.
Context `{OwnerRefs} `{Store W StaticGatewayConfiguration} `{Store W Pod} `{Store W PodEndpoint}.
Context (endpointAt : W -> NamespacedName -> option PodEndpoint) `{!EndpointStore endpointAt}.
Context (linkAt : W -> netns -> string -> Prop) `{!LinkLaws linkAt}.

(** The other calls leave the pod's links alone, and closing a connection or a
    namespace the endpoints. *)
Record deletionFrames (n : netns) : Prop := {
  df_ExecDel t c : keeps (absent linkAt n consts.WireguardLinkName) (ExecDel t c);
  df_grpcNew s : keeps (absent linkAt n consts.WireguardLinkName) (grpcNewClient s);
  df_delete k : keeps (absent linkAt n consts.WireguardLinkName) (kDelete (Obj := PodEndpoint) k);
  df_grpcClose : keeps (absent linkAt n consts.WireguardLinkName) grpcClose;
  df_grpcClose_e k : keeps (fun w => endpointAt w k = None) grpcClose;
  df_nsClose_e k : keeps (fun w => endpointAt w k = None) (nsClose n);
}.

(** The calls of a deletion in which nothing fails: a link that does not exist and an
    endpoint that is not stored are no failures. *)
Record deletionWorks (n : netns) (path : string) : Prop := {
  dw_getNS w : exists w', nsGetNS path w = (Ok tt, w');
  dw_enter w : exists w', nsEnter n w = (Ok tt, w');
  dw_byName w : match fst (LinkByName n consts.WireguardLinkName w) with
                | Ok _ => True | Err e => isLinkNotFound e = true | Panic => False end;
  dw_linkDel l w : exists w', LinkDel n l w = (Ok tt, w');
  dw_ExecDel t c w : exists w', ExecDel t c w = (Ok tt, w');
  dw_grpcNew s w : exists w', grpcNewClient s w = (Ok tt, w');
  dw_delete k w : match fst (kDelete (Obj := PodEndpoint) k w) with
                  | Ok _ => True | Err e => IsNotFound e = true | Panic => False end;
}.

(** The removal of the link, in a working namespace. *)
Lemma linkRemoved n path w r w' :
  deletionWorks n path ->
  nsDo n (let! r := try (LinkByName n consts.WireguardLinkName) in
          match r with
          | inl _ => ret tt
          | inr ifHandle => do! try (LinkDel n ifHandle); ret tt
          end) w = (r, w') ->
  r = Ok tt /\ absent linkAt n consts.WireguardLinkName w'.
Proof.
  intros Hw. unfold nsDo, bind, try. destruct (dw_enter _ _ Hw w) as [w1 ->].
  pose proof (dw_byName _ _ Hw w1) as Hb.
  destruct (LinkByName n consts.WireguardLinkName w1) as [[l|e|] w2] eqn:Hl; simpl in Hb; [| |done].
  - destruct (dw_linkDel _ _ Hw l w2) as [w3 Hd]. rewrite Hd. intros [= <- <-]. split; [done|].
    apply byName_Ok in Hl as [<- _]. by apply linkDel_Ok in Hd.
  - intros [= <- <-]. split; [done|]. pose proof (byName_same n consts.WireguardLinkName w1 n consts.WireguardLinkName) as Hs.
    rewrite Hl in Hs. apply byName_missing in Hl; [|done]. unfold absent. by rewrite Hs.
Qed.

End deletion.
