(* ===== verification/CNIComposed.v ===== *)
(** * The parts of the CNI side together

    The configuration that the CNI manager writes is the one the plugin reads, and the
    addresses that the IPAM plugin hands out are the ones the egress plugin asks for.
    These theorems connect [CNIConf] with [CNIPlugin] and [CNIRoutes], through the
    JSON value of the plugin's entry and the result of the IPAM plugin. *)

From stdpp Require Import base tactics list strings gmap.
From Stdlib Require Import Ascii ZArith Lia.
From S2P Require Import Prelude GoStrings JSON JSONReads JSONValues JSONDecode Types NetIP Network Files CNIConf CNIServer CNITypes CNIRoutes CNINic CNIPlugin.

Open Scope string_scope.
Open Scope list_scope.

(** The value of a fold at the last step that sets it. *)
Lemma fold_left_last {A B C} (f : A -> B -> A) (get : A -> C) l1 x l2 a c :
  (forall a, get (f a x) = c) -> (forall a y, y ∈ l2 -> get (f a y) = get a) ->
  get (fold_left f (l1 ++ x :: l2) a) = c.
Proof.
  intros Hx Hl. rewrite fold_left_app. cbn [fold_left]. generalize (fold_left f l1 a). clear a. intros a.
  rewrite <-(Hx a). generalize (f a x). clear Hx a x. induction l2 as [|y l2 IH]; intros a; [done|]. cbn [fold_left].
  rewrite IH; [|intros a' y' Hy; apply Hl; by right]. apply Hl. by left.
Qed.

Section read_back.
Context `{NetConfLaws}.

(** The runtime passes the plugin its entry of the list with the fields it adds, such
    as the name and the previous result. *)
Definition passed (mgr : Manager) (extra : gmap string json) : json :=
  match egressPlugin mgr with JObject m => JObject (m ∪ extra) | v => v end.

(** A key that is none of the entry's names in another case. *)
Definition runtimeKey (k : string) : bool :=
  forallb (fun name => negb (EqualFold k name)) ["excludedCIDRs"; "socketPath"; "ipam"].

Section entry.
Context (mgr : Manager) (extra : gmap string json).
Context (Hextra : forall k v, extra !! k = Some v -> runtimeKey k = true).

(** The keys of the entry are the names themselves or others altogether. *)
Lemma passed_members :
  exists ms, docOf (passed mgr extra) = DObject ms /\ NoDup ms.*1 /\
    ("excludedCIDRs", docOf (JStrings (exceptionCidrs mgr))) ∈ ms /\
    ("socketPath", DString ("localhost:" +:+ Itoa (grpcPort mgr))) ∈ ms /\
    ("ipam", DObject [("type", DString consts.KubeEgressIPAMCNIName)]) ∈ ms /\
    forall name, name ∈ ["excludedCIDRs"; "socketPath"; "ipam"] -> forall m, m ∈ ms ->
      fst m <> name -> EqualFold (fst m) name = false.
Proof.
  unfold passed, egressPlugin. set (m := <["type" := _]> _).
  destruct (docOf_members (m ∪ extra)) as (kvs & E & Hp).
  exists (prod_map id docOf <$> kvs). split; [done|].
  assert (Hkeys : (prod_map id docOf <$> kvs).*1 = kvs.*1) by (rewrite <-list_fmap_compose; by apply list_fmap_ext; intros ? []).
  split; [rewrite Hkeys, Hp; apply NoDup_fst_map_to_list|].
  assert (Hin : forall k v, m !! k = Some v -> (k, docOf v) ∈ prod_map id docOf <$> kvs).
  { intros k v Hk. apply list_elem_of_fmap. exists (k, v). split; [done|]. rewrite Hp.
    apply elem_of_map_to_list. by apply lookup_union_Some_l. }
  split_and!; [by apply (Hin "excludedCIDRs")|by apply (Hin "socketPath" (JString _))| |].
  - assert (DObject [("type", DString consts.KubeEgressIPAMCNIName)] =
      docOf (JObject {["type" := JString consts.KubeEgressIPAMCNIName]})) as -> by (vm_compute; reflexivity).
    by apply Hin.
  - intros name Hname [k d] ([k' v] & [= -> ->] & Hkv)%list_elem_of_fmap Hne. simpl in *.
    rewrite Hp in Hkv. apply elem_of_map_to_list, lookup_union_Some_raw in Hkv as [Hk|[_ Hk]].
    + assert (k' ∈ ["type"; "ipam"; "excludedCIDRs"; "socketPath"]) as Hk'.
      { unfold m in Hk. repeat (apply lookup_insert_Some in Hk as [[<- _]|[_ Hk]]; [set_solver|]).
        apply lookup_singleton_Some in Hk as [<- _]. set_solver. }
      repeat (apply elem_of_cons in Hk' as [->|Hk']); [..|by apply elem_of_nil in Hk'];
        repeat (apply elem_of_cons in Hname as [->|Hname]); try done; by apply elem_of_nil in Hname.
    + apply Hextra in Hk. unfold runtimeKey in Hk. rewrite forallb_forall in Hk.
      apply list_elem_of_In in Hname. apply Hk in Hname. by destruct (EqualFold k' name).
Qed.

(** The decoded value of an entry. *)
Lemma decodeConfig_entry c :
  decodeConfig top (docOf (passed mgr extra)) (Some zeroConfig) = (Some c, None) ->
  cc_ExcludedCIDRs c = exceptionCidrs mgr /\ cc_SocketPath c = "localhost:" +:+ Itoa (grpcPort mgr) /\
  nc_IPAMType (cc_NetConf c) = consts.KubeEgressIPAMCNIName.
Proof.
  destruct passed_members as (ms & -> & Hnd & He & Hs & Hi & Hother).
  cbn [decodeConfig decPointer decStruct default]. set (f := decMember _ _ _). intros Hc.
  assert (Hfst : c = fst (fold_left f ms (zeroConfig, None))).
  { change (id zeroConfig) with zeroConfig in Hc. destruct (fold_left f ms (zeroConfig, None)). simpl in *. congruence. }
  assert (Hlast : forall name d, (name, d) ∈ ms -> exists l1 l2, ms = l1 ++ (name, d) :: l2 /\
    forall m, m ∈ l2 -> fst m <> name).
  { intros name d (l1 & l2 & ->)%list_elem_of_split. exists l1, l2. split; [done|]. intros m Hm Hk.
    rewrite fmap_app, fmap_cons in Hnd. apply NoDup_app in Hnd as (_ & _ & Hnd). apply NoDup_cons in Hnd as [Hnd _].
    apply Hnd. simpl. rewrite <-Hk. by apply list_elem_of_fmap_2. }
  split_and!; subst c.
  - apply Hlast in He as (l1 & l2 & -> & Hl2). apply (fold_left_last f (fun st => cc_ExcludedCIDRs (fst st))).
    + intros a. unfold f, decMember. cbn [fst snd].
      change (findField configFields "excludedCIDRs") with
        (Some ("excludedCIDRs", onField cc_ExcludedCIDRs setExcludedCIDRs (decSlice "[]string" decString ""))).
      unfold onField. by rewrite decStrings_written.
    + intros a [k d] Hin. apply member_excluded. apply (Hother "excludedCIDRs" ltac:(set_solver) (k, d)); [set_solver|by apply Hl2].
  - apply Hlast in Hs as (l1 & l2 & -> & Hl2). apply (fold_left_last f (fun st => cc_SocketPath (fst st))).
    + intros a. done.
    + intros a [k d] Hin. apply member_socket. apply (Hother "socketPath" ltac:(set_solver) (k, d)); [set_solver|by apply Hl2].
  - apply Hlast in Hi as (l1 & l2 & -> & Hl2).
    apply (fold_left_last f (fun st => nc_IPAMType (cc_NetConf (fst st)))).
    + intros a. unfold f, decMember. cbn [fst snd]. rewrite findField_embedded by done.
      destruct netconf_ipam as (dec & -> & Hdec). cbn [fmap option_fmap option_map embedded fst snd]. unfold onField.
      match goal with |- context [dec ?x ?y ?z] => 
        transitivity (nc_IPAMType (fst (dec x y z))); [by destruct (dec x y z)|apply Hdec] end.
    + intros a [k d] Hin. apply member_ipam. apply (Hother "ipam" ltac:(set_solver) (k, d)); [set_solver|by apply Hl2].
Qed.
End entry.

(** C35: the plugin reads the configuration the manager has written: whatever text the
    runtime passes on for the manager's entry, with the fields the runtime adds, gives
    the excluded CIDRs of the manager's command line, all of them valid, the address of
    its service, and the IPAM plugin that comes with it. *)
Theorem plugin_reads_manager_conf mgr cidrs extra text config :
  parseCidrs cidrs = Ok (exceptionCidrs mgr) ->
  (forall k v, extra !! k = Some v -> runtimeKey k = true) ->
  parse text = inr (docOf (passed mgr extra)) ->
  ParseCNIConfig text = Ok config ->
  cc_ExcludedCIDRs config = cidrTexts cidrs /\
  Forall (fun c => is_Some (cidrRoute None c)) (cc_ExcludedCIDRs config) /\
  cc_SocketPath config = "localhost:" +:+ Itoa (grpcPort mgr) /\
  nc_IPAMType (cc_NetConf config) = consts.KubeEgressIPAMCNIName.
Proof.
  intros Hcidrs Hextra Htext Hparse. unfold ParseCNIConfig, UnmarshalInto in Hparse. rewrite Htext in Hparse.
  destruct (decodeConfig top (docOf (passed mgr extra)) (Some zeroConfig)) as [[c|] [e|]] eqn:Hd; try done.
  destruct (ParsePrevResult (cc_NetConf c)) as [nc|e|] eqn:Hprev; [|done..]. injection Hparse as <-.
  apply decodeConfig_entry in Hd as (He & Hs & Hi); [|done]. cbn [setNetConf cc_NetConf cc_ExcludedCIDRs cc_SocketPath].
  rewrite (prevResult_ipam _ _ Hprev), He, Hs, Hi.
  pose proof (parseCidrList_spec (Split cidrs ",") []) as Hspec. simpl in Hspec. fold (cidrTexts cidrs) in Hspec.
  unfold parseCidrs in Hcidrs.
  destruct (forallb isCidr (cidrTexts cidrs)) eqn:Hall; [|destruct Hspec; congruence].
  assert (exceptionCidrs mgr = cidrTexts cidrs) as -> by congruence.
  split_and!; [done| |done..]. apply List.Forall_forall. intros c' Hc'.
  apply (proj1 (forallb_forall _ _) Hall) in Hc'. unfold isCidr in Hc'. unfold cidrRoute.
  destruct (ParseCIDR c') as [|[]]; [done|by eexists].
Qed.
End read_back.

(** ** The pod's addresses *)

(** The addresses the IPAM plugin prints, from those of eth0. *)
Lemma lastOfScope_Some scope addrs n :
  cniipam.lastOfScope scope addrs = Ok (Some n) ->
  exists a, a ∈ addrs /\ addr_Scope a = scope /\ addr_IPNet a = Some n.
Proof.
  unfold cniipam.lastOfScope.
  assert (Hgen : forall acc, fold_left (fun acc item =>
      let? found := acc in
      if (addr_Scope item =? scope)%Z then let? n := deref (addr_IPNet item) in Ok (Some n) else Ok found)
    addrs acc = Ok (Some n) ->
    acc = Ok (Some n) \/ exists a, a ∈ addrs /\ addr_Scope a = scope /\ addr_IPNet a = Some n).
  { induction addrs as [|a addrs IH]; intros acc Hf; simpl in Hf; [by left|].
    apply IH in Hf as [Hacc|(b & Hb & ?)]; [|right; exists b; split; [by right|done]].
    apply obind_Ok_inv in Hacc as (found & -> & Hacc).
    destruct (Z.eqb_spec (addr_Scope a) scope); [|by left].
    apply obind_Ok_inv in Hacc as (m & Hm%deref_Ok_inv & Hacc). right. exists a. split; [left|].
    split; [done|]. congruence. }
  intros [?|?]%Hgen; done.
Qed.

(** The result of the IPAM plugin has an IPv4 address the egress plugin can use, when
    eth0's global address is one. *)
Lemma ipam_result_usable `{CNILib} v4 v6 ip4 :
  ipn_IP v4 = Some ip4 -> is4 ip4 = true ->
  lastIPv4 (res_IPs (cniipam.ipamResultOf v4 v6)) =
    Some {| ipc_Interface := None; ipc_Address := v4; ipc_Gateway := None |} /\
  Forall (fun i => ipc_Gateway i = None) (res_IPs (cniipam.ipamResultOf v4 v6)).
Proof.
  intros H4 Hi4. split; [|by repeat constructor].
  unfold lastIPv4, cniipam.ipamResultOf, isIPv4. cbn [res_IPs fold_left ipc_Address].
  by rewrite H4, Hi4.
Qed.

(** When the IPAM plugin succeeds it has printed two addresses that eth0 has, a
    link-local IPv6 one and a global IPv4 one; no gateway is set with them, since
    [net.ParseIP] does not accept the text of [consts.GatewayIP]. *)
Theorem ipam_prints_pod_addresses {W} `{NetNS W} `{NetLink W} `{CNILib} `{Stdout W} args (w w' : W) :
  cniipam.cmdAdd args w = (Ok tt, w') ->
  let n := PathNS (Netns args) in
  exists config eth0 addrs4 addrs6 a4 a6 v4 v6 u1 u2 u3 u4 u5,
    ParseCNIConfig (StdinData args) = Ok config /\
    AddrList n eth0 FAMILY_V4 u1 = (Ok addrs4, u2) /\ a4 ∈ addrs4 /\
    addr_Scope a4 = SCOPE_UNIVERSE /\ addr_IPNet a4 = Some v4 /\
    AddrList n eth0 FAMILY_V6 u3 = (Ok addrs6, u1) /\ a6 ∈ addrs6 /\
    addr_Scope a6 = SCOPE_LINK /\ addr_IPNet a6 = Some v6 /\
    PrintResult
      {| res_CNIVersion := ImplementedSpecVersion; res_Interfaces := [];
         res_IPs := [{| ipc_Interface := None; ipc_Address := v6; ipc_Gateway := None |};
                     {| ipc_Interface := None; ipc_Address := v4; ipc_Gateway := None |}];
         res_Routes := [] |} (nc_CNIVersion (cc_NetConf config)) u4 = (Ok tt, u5) /\
    w' = snd (nsClose n u5).
Proof.
  intros Hrun n. unfold cniipam.cmdAdd, GetNSByPath in Hrun.
  apply bind_Ok_inv in Hrun as (config & w1 & Hconf & Hrun).
  unfold lift in Hconf. injection Hconf as Hconf <-.
  apply bind_Ok_inv in Hrun as (k8s & w1 & _ & Hrun). destruct (String.eqb _ ""); [done|].
  apply bind_Ok_inv in Hrun as (pod & w2 & Hget & Hrun).
  apply bind_Ok_inv in Hget as ([] & w3 & _ & Hret). unfold ret in Hret. injection Hret as <- <-. fold n in Hrun.
  apply defer_inv in Hrun as (w4 & Hrun & ->). apply bind_Ok_inv in Hrun as ([v4 v6] & w5 & Hdo & Hprint).
  destruct v4 as [v4|]; [|done]. destruct v6 as [v6|]; [|done].
  unfold nsDo, cniipam.podAddresses in Hdo. apply bind_Ok_inv in Hdo as (u & w6 & _ & Hdo).
  apply bind_Ok_inv in Hdo as (eth0 & w7 & _ & Hdo). apply bind_Ok_inv in Hdo as (addrs6 & w8 & Ha6 & Hdo).
  apply bind_Ok_inv in Hdo as (o6 & w9 & Hl6 & Hdo). unfold lift in Hl6. injection Hl6 as Hl6 <-.
  apply bind_Ok_inv in Hdo as (addrs4 & w10 & Ha4 & Hdo).
  apply bind_Ok_inv in Hdo as (o4 & w11 & Hl4 & Hdo). unfold lift in Hl4. injection Hl4 as Hl4 <-.
  unfold ret in Hdo. injection Hdo as -> -> <-.
  apply lastOfScope_Some in Hl4 as (a4 & ? & ? & ?), Hl6 as (a6 & ? & ? & ?).
  exists config, eth0, addrs4, addrs6, a4, a6, v4, v6, w8, w10, w7, w10, w4. by split_and!.
Qed.
