(* ===== verification/Tools.v ===== *)
(** * Set-up tools: the gateway's namespace and the copying of binaries
      ([pkg/netnswrapper/netns_linux.go], [cmd/add-netns], [cmd/copy])

    Before the daemon starts on a node, [add-netns] makes sure the gateway's network
    namespace exists, and [copy] puts the CNI plugins' binaries in place. *)

From stdpp Require Import base tactics list strings gmap.
From Stdlib Require Import Ascii ZArith Lia.
From S2P Require Import Prelude GoStrings Types NetIP Network Files.

Open Scope string_scope.
Open Scope list_scope.

(** ** Named namespaces *)

(** The system calls a named namespace is made of.  A namespace is kept by a bind mount
    of the thread's namespace on a file. *)
Class NamespaceCalls (W : Type) := {
  MkdirAll : string -> Z -> M W unit;
  (** [os.OpenFile(path, O_RDWR|O_CREATE|O_EXCL, perm)], closed again *)
  CreateExcl : string -> Z -> M W unit;
  RemoveAll : string -> M W unit;
  RemoveFile : string -> M W unit;
  (** [ns.GetNS] of the thread's namespace, which [Set] restores and [Close] closes *)
  openThreadNS : M W unit;
  restoreThreadNS : M W unit;
  closeThreadNS : M W unit;
  (** [unix.Unshare(CLONE_NEWNET)] *)
  UnshareNet : M W unit;
  (** The bind mount of the thread's namespace on a path, and [unix.Unmount]. *)
  MountThreadNS : string -> M W unit;
  UnmountDetach : string -> M W unit;
  (** [dir.Readdir(0)]: names and whether they are directories *)
  Readdir : string -> M W (list (string * bool));
}.

Definition nsPathOf (nsName : string) : string := filepath.Join nsBaseDir nsName.

Section netns.
Context {W : Type} `{NetNS W} `{NamespaceCalls W}.

(** What the goroutine does on its own thread. *)
Definition mountNewNS (nsPath : string) : M W unit :=
  do! openThreadNS;
  defer (fun _ w => snd (closeThreadNS w))
    (do! UnshareNet;
     defer (fun _ w => snd (restoreThreadNS w))
       (MountThreadNS nsPath
          ?: (fun err => EText ("failed to bind mount ns at " +:+ nsPath +:+ ": " +:+ Error err)))).

(** The mount point is removed when the mount fails.  The error of the last [GetNS]
    is not seen by the deferred clean-up. *)
Definition NewNS (nsName : string) : M W netns :=
  do! MkdirAll nsBaseDir 493;
  let nsPath := nsPathOf nsName in
  do! CreateExcl nsPath 438;
  do! recovering (fun err => do! try (RemoveAll nsPath); ret err)
        (mountNewNS nsPath ?: (fun err => EText ("failed to create namespace: " +:+ Error err)));
  GetNSByPath nsPath.

Definition UnmountNS (nsName : string) : M W unit :=
  let nsPath := nsPathOf nsName in
  do! UnmountDetach nsPath
    ?: (fun err => EText ("failed to unmount NS: at " +:+ nsPath +:+ ": " +:+ Error err));
  RemoveFile nsPath ?: (fun err => EText ("failed to remove ns path " +:+ nsPath +:+ ": " +:+ Error err)).

Definition ListNS : M W (list string) :=
  let! files := Readdir nsBaseDir in
  ret (fst <$> List.filter (fun f => negb (snd f)) files).

(** [cmd/add-netns] *)
Definition ensureNS (namespace : string) : M W unit :=
  let! r := try (GetNS namespace) in
  let! targetNS :=
    match r with
    | inr targetNS => ret targetNS
    | inl err =>
        if isNSPathNotExist err
        then NewNS namespace ?: (wrap ("failed to create network namespace " +:+ quoted namespace +:+ ": "))
        else throw (wrap ("failed to get network namespace " +:+ quoted namespace +:+ ": ") err)
    end in
  closing targetNS (ret tt).
End netns.

(** The namespaces by their path: a mount makes one, and only opening one that is not
    there fails with [NSPathNotExistErr]. *)
Class NamespaceLaws {W : Type} `{NetNS W} `{NamespaceCalls W} (nsAt : W -> string -> Prop) : Prop := {
  getNS_Ok p w w' : nsGetNS p w = (Ok tt, w') -> nsAt w' p;
  getNS_same p w q : nsAt (snd (nsGetNS p w)) q <-> nsAt w q;
  getNS_missing p w e w' : nsGetNS p w = (Err e, w') -> isNSPathNotExist e = true -> ~ nsAt w p;
  nsClose_ns n w q : nsAt (snd (nsClose n w)) q <-> nsAt w q;
}.

Section ensure.
Context {W : Type} `{NetNS W} `{NamespaceCalls W} (nsAt : W -> string -> Prop) `{!NamespaceLaws nsAt}.

(** After [add-netns] the namespace exists; if it did before, nothing is created. *)
Lemma ensureNS_exists namespace w w' :
  ensureNS namespace w = (Ok tt, w') ->
  nsAt w' (nsPathOf namespace).
Proof.
  intros Hrun. unfold ensureNS in Hrun.
  apply bind_Ok_inv in Hrun as (r & w1 & Hget%try_Ok_inv & Hrun).
  apply bind_Ok_inv in Hrun as (ns & w2 & Hr & Hrun). apply defer_inv in Hrun as (w3 & Hrun & ->).
  unfold ret in Hrun. injection Hrun as <-. apply nsClose_ns.
  destruct r as [err|ns'].
  - destruct (isNSPathNotExist err); [|done]. apply on_err_Ok_inv in Hr. unfold NewNS in Hr.
    apply bind_Ok_inv in Hr as (? & v1 & _ & Hr). apply bind_Ok_inv in Hr as (? & v2 & _ & Hr).
    apply bind_Ok_inv in Hr as (? & v3 & _ & Hr). unfold GetNSByPath in Hr.
    apply bind_Ok_inv in Hr as ([] & v4 & Hg & Hr). unfold ret in Hr. injection Hr as _ <-.
    by eapply getNS_Ok.
  - unfold ret in Hr. injection Hr as _ <-. unfold GetNS, GetNSByPath in Hget.
    apply bind_Ok_inv in Hget as ([] & v1 & Hg & Hr). unfold ret in Hr. injection Hr as _ <-.
    by eapply getNS_Ok.
Qed.
End ensure.

(** ** Copying a file *)

(** [filepath.Rel]: the target's components after the common ones, with a step up for
    each that is left of the base. *)
Fixpoint relParts (base targ : list string) : option (list string) :=
  match base, targ with
  | b :: base', t :: targ' =>
      if String.eqb b t then relParts base' targ'
      else if existsb (String.eqb "..") base then None
      else Some (map (fun _ => "..") base ++ targ)
  | [], _ => Some targ
  | _, [] => if existsb (String.eqb "..") base then None else Some (map (fun _ => "..") base)
  end.
Definition Rel (basepath targpath : string) : gerror + string :=
  let base := filepath.Clean basepath in
  let targ := filepath.Clean targpath in
  if String.eqb base targ then inr "."
  else if negb (Bool.eqb (HasPrefix base "/") (HasPrefix targ "/"))
  then inl (EText ("Rel: can't make " +:+ targpath +:+ " relative to " +:+ basepath))
  else match relParts (filepath.components basepath) (filepath.components targpath) with
       | Some parts => inr (Join parts "/")
       | None => inl (EText ("Rel: can't make " +:+ targpath +:+ " relative to " +:+ basepath))
       end.

Example rel_ex : Rel "/a/b" "/a/b/c" = inr "c" /\ Rel "." "x" = inr "x" /\ Rel "/a/b" "/a/c/d" = inr "../c/d".
Proof. repeat split. Qed.

(** Open files: reading one, and writing one that [O_CREATE|O_WRONLY] creates when it
    is missing and does not truncate when it is there. *)
Class FileCopy (W : Type) := {
  OpenRead : string -> M W unit;
  OpenWrite : string -> Z -> M W unit;
  (** [io.Copy] from the file opened for reading to the one opened for writing *)
  ioCopy : string -> string -> M W unit;
  CloseFile : string -> M W unit;
}.

Definition copyFile {W} `{FileCopy W} (sourceFile destDir : string) : M W unit :=
  do! OpenRead sourceFile ?: (wrap "failed to open source file: ");
  defer (fun _ w => snd (CloseFile sourceFile w))
    (let! fileName := lift (of_sum (Rel (filepath.Dir sourceFile) sourceFile))
       ?: (wrap "failed to calculate file name: ") in
     let destFilePath := filepath.Join destDir fileName in
     do! OpenWrite destFilePath 493 ?: (wrap "failed to open destination file: ");
     defer (fun _ w => snd (CloseFile destFilePath w))
       (ioCopy destFilePath sourceFile
          ?: (wrap ("failed to copy " +:+ quoted sourceFile +:+ " to " +:+ quoted destFilePath +:+ ": ")))).

(** Writing from the start over what is there. *)
Definition overwrite (old new : string) : string := new +:+ str_drop (String.length new) old.

(** The file system: opening for writing creates an empty file, copying writes over the
    old contents. *)
Class CopyLaws {W : Type} `{FileCopy W} (fileAt : W -> string -> option string) : Prop := {
  openRead_files p w f : fileAt (snd (OpenRead p w)) f = fileAt w f;
  openWrite_Ok p m w w' : OpenWrite p m w = (Ok tt, w') -> fileAt w' p = Some (default "" (fileAt w p));
  openWrite_other p m w f : f <> p -> fileAt (snd (OpenWrite p m w)) f = fileAt w f;
  ioCopy_Ok p q w w' : ioCopy p q w = (Ok tt, w') ->
    exists old new, fileAt w p = Some old /\ fileAt w q = Some new /\ fileAt w' p = Some (overwrite old new);
  closeFile_files p w f : fileAt (snd (CloseFile p w)) f = fileAt w f;
}.

Lemma str_drop_all n s : (String.length s <= n)%nat -> str_drop n s = "".
Proof. revert s. induction n as [|n IH]; intros [|c s] Hl; simpl in *; try done; [lia|]. apply IH. lia. Qed.
Lemma length_str_drop n s : String.length (str_drop n s) = (String.length s - n)%nat.
Proof. revert s. induction n as [|n IH]; intros [|c s]; simpl; auto with lia. Qed.

(** [copy] writes the source over an existing file without truncating it: the copy
    is exact if and only if the old file was not longer; otherwise the old file's tail
    stays behind the new contents. *)
Theorem copyFile_overwrites {W} `{FileCopy W} (fileAt : W -> string -> option string) `{!CopyLaws fileAt}
    sourceFile destDir name w w' new :
  Rel (filepath.Dir sourceFile) sourceFile = inr name ->
  let dest := filepath.Join destDir name in
  dest <> sourceFile ->
  fileAt w sourceFile = Some new ->
  copyFile sourceFile destDir w = (Ok tt, w') ->
  let old := default "" (fileAt w dest) in
  fileAt w' dest = Some (overwrite old new) /\
  (fileAt w' dest = Some new <-> (String.length old <= String.length new)%nat).
Proof.
  intros Hrel dest Hne Hnew Hrun old.
  assert (Hdest : fileAt w' dest = Some (overwrite old new)).
  { unfold copyFile in Hrun. apply bind_Ok_inv in Hrun as (u & w1 & Ho%on_err_Ok_inv & Hrun).
    pose proof (fun f => openRead_files sourceFile w f) as H1'. rewrite Ho in H1'. simpl in H1'.
    apply defer_inv in Hrun as (w2 & Hrun & ->). rewrite closeFile_files.
    rewrite Hrel in Hrun. apply bind_Ok_inv in Hrun as (nm & w3 & Hn%on_err_Ok_inv & Hrun).
    unfold lift, of_sum in Hn. injection Hn as <- <-. fold dest in Hrun.
    apply bind_Ok_inv in Hrun as ([] & w4 & Hw%on_err_Ok_inv & Hrun).
    pose proof (openWrite_other dest 493 w1 sourceFile (not_eq_sym Hne)) as Hs. rewrite Hw in Hs. simpl in Hs.
    apply openWrite_Ok in Hw. apply defer_inv in Hrun as (w5 & Hrun%on_err_Ok_inv & ->). rewrite closeFile_files.
    apply ioCopy_Ok in Hrun as (o & n & Ho' & Hn' & ->).
    rewrite Hs, H1', Hnew in Hn'. injection Hn' as <-. rewrite Hw, H1' in Ho'. by injection Ho' as <-. }
  split; [done|]. rewrite Hdest. split.
  - intros [= E]. apply (f_equal String.length) in E. unfold overwrite in E.
    rewrite length_str_app, length_str_drop in E. lia.
  - intros Hl. unfold overwrite. by rewrite str_drop_all, string_app_nil_r.
Qed.
