(* ===== verification/CNISim.v ===== *)
(** * A node with a pod

    An executable world for the CNI side: files, the objects of the API server the CNI
    manager uses, and the links, routes and WireGuard configuration of the namespaces.
    It satisfies the laws the theorems of the CNI side rely on; the witnesses run the
    plugin and the manager on it. *)

From stdpp Require Import base tactics list strings gmap sorting.
From Stdlib Require Import Ascii ZArith Lia.
From S2P Require Import Prelude GoStrings JSON JSONReads JSONValues JSONDecode Types Kube Azure NetIP Files Network.
From S2P Require Import CNIConf CNIServer CNITypes CNIRoutes CNINic CNIPlugin CNIComposed Tools.

Open Scope string_scope.
Open Scope list_scope.

(** ** The world *)

#[export] Instance netns_countable : Countable netns.
Proof.
  apply (inj_countable' (fun n => match n with HostNS => None | PathNS p => Some p end)
                        (fun o => match o with None => HostNS | Some p => PathNS p end)).
  by intros [].
Defined.

#[export] Instance pod_wgtypes : WgTypes := {|
  Key := string;
  ParseKey s := if String.eqb s "" then inl (EText "incorrect key size: 0") else inr s;
  Key_String k := k |}.

(** The main tables: the link and the gateway of each network. *)
Record PodNet := {
  pn_links : gmap (netns * string) Link;
  pn_routes : gmap (IP * Z) (Z * option IP);
  pn_tunnels : gmap netns WgConfig;
}.
Record PodApi := {
  pa_endpoints : gmap NamespacedName PodEndpoint;
  pa_gateways : gmap NamespacedName StaticGatewayConfiguration;
  pa_pods : gmap NamespacedName Pod;
  pa_node : option Node;
  pa_config : option ConfigMap;
}.
Record PodWorld := {
  pw_files : gmap string string;
  pw_entries : list DirEntry;
  pw_api : PodApi;
  pw_net : PodNet;
  pw_printed : list CNIResult;
}.

Definition on_files f (w : PodWorld) : PodWorld :=
  {| pw_files := f (pw_files w); pw_entries := pw_entries w; pw_api := pw_api w; pw_net := pw_net w;
     pw_printed := pw_printed w |}.
Definition on_api f (w : PodWorld) : PodWorld :=
  {| pw_files := pw_files w; pw_entries := pw_entries w; pw_api := f (pw_api w); pw_net := pw_net w;
     pw_printed := pw_printed w |}.
Definition on_net f (w : PodWorld) : PodWorld :=
  {| pw_files := pw_files w; pw_entries := pw_entries w; pw_api := pw_api w; pw_net := f (pw_net w);
     pw_printed := pw_printed w |}.
Definition on_links f (s : PodNet) : PodNet :=
  {| pn_links := f (pn_links s); pn_routes := pn_routes s; pn_tunnels := pn_tunnels s |}.
Definition on_routes f (s : PodNet) : PodNet :=
  {| pn_links := pn_links s; pn_routes := f (pn_routes s); pn_tunnels := pn_tunnels s |}.
Definition on_tunnels f (s : PodNet) : PodNet :=
  {| pn_links := pn_links s; pn_routes := pn_routes s; pn_tunnels := f (pn_tunnels s) |}.
Definition on_endpoints f (a : PodApi) : PodApi :=
  {| pa_endpoints := f (pa_endpoints a); pa_gateways := pa_gateways a; pa_pods := pa_pods a; pa_node := pa_node a;
     pa_config := pa_config a |}.
Definition on_node f (a : PodApi) : PodApi :=
  {| pa_endpoints := pa_endpoints a; pa_gateways := pa_gateways a; pa_pods := pa_pods a; pa_node := f (pa_node a);
     pa_config := pa_config a |}.

(** ** Files *)

Definition noFile {A} : M PodWorld A := throw (EPath true "no such file or directory").
Definition fileAt (w : PodWorld) (p : string) : option string := pw_files w !! p.

#[export] Instance pod_files : FileSystem PodWorld := {|
  ReadDir _ := fun w => (Ok (pw_entries w), w);
  ReadFile p := fun w => match fileAt w p with Some s => (Ok s, w) | None => noFile w end;
  WriteFile p s _ := effect (on_files (insert p s));
  Rename p q := fun w => match fileAt w p with
                         | Some s => (Ok tt, on_files (fun m => <[q := s]> (delete p m)) w)
                         | None => noFile w end;
  Stat p := fun w => match fileAt w p with Some _ => (Ok tt, w) | None => noFile w end;
  Remove p := fun w => match fileAt w p with Some _ => (Ok tt, on_files (delete p) w) | None => noFile w end |}.

#[export] Instance pod_files_laws : FilesLaws fileAt.
Proof.
  split; unfold ReadDir, ReadFile, WriteFile, Rename, Stat, Remove, pod_files, effect, noFile, throw;
    cbv beta iota; intros; repeat case_match; simplify_eq/=; unfold fileAt in *; simpl in *;
    rewrite ?lookup_insert_eq, ?lookup_delete_eq; try done; try by eexists.
  - by rewrite lookup_insert_ne.
  - split; [congruence|]. by rewrite lookup_insert_ne, lookup_delete_eq.
  - by rewrite lookup_insert_ne, lookup_delete_ne.
  - by rewrite lookup_delete_ne.
Qed.

(** Copying between files. *)
#[export] Instance pod_copy : FileCopy PodWorld := {|
  OpenRead p := fun w => match fileAt w p with Some _ => (Ok tt, w) | None => noFile w end;
  OpenWrite p _ := effect (on_files (fun m => <[p := default "" (m !! p)]> m));
  ioCopy p q := fun w =>
    match fileAt w p, fileAt w q with
    | Some old, Some new => (Ok tt, on_files (insert p (overwrite old new)) w)
    | _, _ => noFile w end;
  CloseFile _ := ret tt |}.

#[export] Instance pod_copy_laws : CopyLaws fileAt.
Proof.
  split; unfold OpenRead, OpenWrite, ioCopy, CloseFile, pod_copy, effect, noFile, throw, ret;
    cbv beta iota; intros; repeat case_match; simplify_eq/=; unfold fileAt in *; simpl in *; try done.
  - by rewrite lookup_insert_eq.
  - by rewrite lookup_insert_ne.
  - eexists _, _. split; [done|]. split; [done|]. by rewrite lookup_insert_eq.
Qed.

(** ** The configuration *)

(** The manager of the node, and what its files and the runtime's calls hold. *)
Definition mgr1 : Manager :=
  {| cniConfDir := "/etc/cni/net.d"; cniConfFile := "01-egressgateway.conflist";
     cniConfFileTemp := "01-egressgateway.conflist.tmp"; cniUninstallConfigMapName := "cni-uninstall";
     exceptionCidrs := ["10.0.0.0/8"; "168.63.129.16/32"]; grpcPort := 50051 |}.
Definition azurePlugin : json := JObject {["type" := JString "azure-vnet"]}.
Definition mainList : gmap string json :=
  <["name" := JString "azure"]> {["plugins" := JArray [azurePlugin; JObject {["type" := JString "portmap"]}]]}.
Definition mainText : string :=
  jtext "{'name': 'azure', 'plugins': [{'type': 'azure-vnet'}, {'type': 'portmap'}]}".
(** What the runtime passes to the plugin. *)
Definition entryText : string :=
  jtext "{'cniVersion':'1.0.0','excludedCIDRs':['10.0.0.0/8','168.63.129.16/32'],'ipam':{'type':'kube-egress-cni-ipam'},'socketPath':'localhost:50051','type':'kube-egress-cni'}".

(** ** The CNI library *)

Definition prevResult : CNIResult :=
  {| res_CNIVersion := "1.0.0"; res_Interfaces := [{| if_Mac := ""; if_Name := "eth0"; if_Sandbox := "/ns/pod1" |}];
     res_IPs := []; res_Routes := [] |}.

#[export] Instance pod_cnilib : CNILib := {|
  Result := CNIResult;
  zeroNetConf := {| nc_CNIVersion := ""; nc_IPAMType := ""; nc_PrevResult := prevResult |};
  netConfFields :=
    [("cniVersion", onField nc_CNIVersion (fun nc s =>
        {| nc_CNIVersion := s; nc_IPAMType := nc_IPAMType nc; nc_PrevResult := nc_PrevResult nc |}) decString);
     ("ipam", onField nc_IPAMType (fun nc s =>
        {| nc_CNIVersion := nc_CNIVersion nc; nc_IPAMType := s; nc_PrevResult := nc_PrevResult nc |})
        (decStruct "types" "IPAM" [("type", decString)]))];
  ParsePrevResult nc := Ok nc;
  NewResultFromResult r := Ok r;
  ImplementedSpecVersion := "1.0.0";
  LoadArgs s := if String.eqb s "pod1" then
                  inr {| K8S_POD_NAME := "pod1"; K8S_POD_NAMESPACE := "default"; K8S_POD_INFRA_CONTAINER_ID := "" |}
                else if String.eqb s "pod2" then
                  inr {| K8S_POD_NAME := "pod2"; K8S_POD_NAMESPACE := "default"; K8S_POD_INFRA_CONTAINER_ID := "" |}
                else inl (EText "ARGS: invalid pair") |}.

#[export] Instance pod_netconf_laws : NetConfLaws.
Proof.
  split.
  - intros f [->|[->|Hf%elem_of_nil]%elem_of_cons]%elem_of_cons; done.
  - eexists. split; [reflexivity|]. done.
  - intros k f dec [Hin Hf]%findField_In Hk at_ d nc. cbn [fst] in Hf.
    apply elem_of_cons in Hin as [[= -> ->]|[[= -> ->]|Hin%elem_of_nil]%elem_of_cons]; [|by rewrite EqualFold_sym, Hk in Hf|done].
    unfold onField. by destruct (decString _ _ _).
  - intros nc nc' Hp. by injection Hp as <-.
Qed.

#[export] Instance pod_stdout : Stdout PodWorld := fun r _ => effect (fun w =>
  {| pw_files := pw_files w; pw_entries := pw_entries w; pw_api := pw_api w; pw_net := pw_net w;
     pw_printed := pw_printed w ++ [r] |}).
#[export] Instance pod_grpc : Grpc PodWorld := {| grpcNewClient _ := ret tt; grpcClose := ret tt |}.
#[export] Instance pod_env : OsEnv := fun k => if String.eqb k consts.PodNamespaceEnvKey then "kube-system" else "".

(** ** Retries *)

Fixpoint attempts {W} (n : nat) (retriable : gerror -> bool) (fn : M W unit) : M W unit := fun w =>
  match n with
  | O => fn w
  | S n' =>
      match fn w with
      | (Err e, w1) => if retriable e then attempts n' retriable fn w1 else (Err e, w1)
      | r => r
      end
  end.
#[export] Instance pod_retries : Retries := fun W b retriable fn => attempts (pred (bo_Steps b)) retriable fn.
#[export] Instance pod_retry_laws : RetryLaws.
Proof.
  intros W b retriable fn w Hb. unfold OnError, pod_retries. destruct (bo_Steps b) as [|n]; [lia|]. simpl. clear Hb b.
  revert w. induction n as [|n IH]; intros w; simpl; destruct (fn w) as [[[]|e|] w1] eqn:Hf.
  1,4: by apply retry_done. 2,4: by apply retry_panicked.
  - by apply retry_failed.
  - destruct (retriable e) eqn:Hr; [by eapply retry_again|by apply retry_failed].
Qed.

(** ** The API server *)

Definition missing {A} : M PodWorld A := throw (EStatus "NotFound" "not found").
Definition denied {A} : M PodWorld A := throw (EStatus "Forbidden" "forbidden").
Definition read_only {Obj} (get : PodApi -> NamespacedName -> option Obj) : Store PodWorld Obj := {|
  kGet k := fun w => match get (pw_api w) k with Some o => (Ok o, w) | None => missing w end;
  kList := denied; kCreate _ := denied; kUpdate _ := denied; kStatusUpdate _ := denied; kDelete _ := denied;
  kCreateOrPatch _ _ := denied |}.

#[export] Instance pod_gateways : Store PodWorld StaticGatewayConfiguration := read_only (fun a k => pa_gateways a !! k).
#[export] Instance pod_pods : Store PodWorld Pod := read_only (fun a k => pa_pods a !! k).
#[export] Instance pod_configs : Store PodWorld ConfigMap :=
  read_only (fun a k => if decide (k = nn "kube-system" "cni-uninstall") then pa_config a else None).
#[export] Instance pod_nodes : Store PodWorld Node := {|
  kGet _ := fun w => match pa_node (pw_api w) with Some n => (Ok n, w) | None => missing w end;
  kList := denied; kCreate _ := denied;
  kUpdate n := fun w => (Ok n, on_api (on_node (fun _ => Some n)) w);
  kStatusUpdate _ := denied; kDelete _ := denied; kCreateOrPatch _ _ := denied |}.

Definition endpointAt (w : PodWorld) (k : NamespacedName) : option PodEndpoint := pa_endpoints (pw_api w) !! k.
#[export] Instance pod_endpoints : Store PodWorld PodEndpoint := {|
  kGet k := fun w => match endpointAt w k with Some o => (Ok o, w) | None => missing w end;
  kList := denied; kCreate _ := denied; kUpdate _ := denied; kStatusUpdate _ := denied;
  kDelete k := fun w =>
    match endpointAt w k with
    | Some _ => (Ok tt, on_api (on_endpoints (delete k)) w)
    | None => missing w end;
  kCreateOrPatch o f := fun w =>
    let k := om_key (pe_meta o) in
    match f (default o (endpointAt w k)) w with
    | (Ok (o', None), _) => (Ok (o', None), on_api (on_endpoints (insert k o')) w)
    | (Ok (o', Some e), _) => (Ok (o', Some e), w)
    | (Err e, _) => (Ok (o, Some e), w)
    | (Panic, _) => (Panic, w) end |}.

#[export] Instance pod_endpoint_laws : EndpointStore endpointAt.
Proof.
  split; unfold kCreateOrPatch, kDelete, pod_endpoints, mutating, ret, missing, throw; cbv beta iota zeta; intros;
    repeat case_match; simplify_eq/=; unfold endpointAt in *; simpl in *; try done; try naive_solver.
  all: try (by rewrite ?lookup_insert_eq, ?lookup_delete_eq); try (by rewrite ?lookup_insert_ne, ?lookup_delete_ne).
Qed.

#[export] Instance pod_owners : OwnerRefs := ListMeta.owner_refs.

(** ** The network *)

#[export] Instance pod_netns : NetNS PodWorld := {| nsGetNS _ := ret tt; nsClose _ := ret tt; nsEnter _ := ret tt |}.

Definition named (name : string) (l : Link) : Link :=
  {| l_Name := name; l_Alias := l_Alias l; l_Index := l_Index l; l_HardwareAddr := l_HardwareAddr l; l_Kind := l_Kind l |}.
Definition indexed (i : Z) (l : Link) : Link :=
  {| l_Name := l_Name l; l_Alias := l_Alias l; l_Index := i; l_HardwareAddr := l_HardwareAddr l; l_Kind := l_Kind l |}.
Definition linkAt (w : PodWorld) (n : netns) (x : string) : Prop := is_Some (pn_links (pw_net w) !! (n, x)).

(** The entries of the main table, and a route for each. *)
Definition isMain (k : IP * Z) : bool := is4 (fst k).
Definition fib (w : PodWorld) : gmap (IP * Z) Z :=
  fst <$> filter (fun p => isMain (fst p) = true) (pn_routes (pw_net w)).
Definition routeOf (p : (IP * Z) * (Z * option IP)) : Route :=
  let '((ip, ones), (link, gw)) := p in
  {| rt_LinkIndex := link; rt_Scope := 0; rt_Dst := Some {| ipn_IP := Some ip; ipn_Mask := Some (CIDRMask ones 32) |};
     rt_Gw := gw; rt_Via := None; rt_Protocol := 0; rt_Family := FAMILY_V4; rt_Table := 0 |}.

Definition setRoute (r : Route) (m : gmap (IP * Z) (Z * option IP)) : gmap (IP * Z) (Z * option IP) :=
  if decide (rt_Table r = 0%Z) then
    match routeKey r with Some k => <[k := (rt_LinkIndex r, rt_Gw r)]> m | None => m end
  else m.
Definition dropRoute (r : Route) (m : gmap (IP * Z) (Z * option IP)) : gmap (IP * Z) (Z * option IP) :=
  match routeKey r with Some k => delete k m | None => m end.

#[export] Instance pod_netlink : NetLink PodWorld := {|
  LinkByName n x := fun w =>
    match pn_links (pw_net w) !! (n, x) with
    | Some l => (Ok (named x l), w) | None => (Err (ELinkNotFound "Link not found"), w) end;
  LinkAdd n l := fun w =>
    match pn_links (pw_net w) !! (n, l_Name l) with
    | Some _ => (Err (EText "file exists"), w)
    | None => (Ok tt, on_net (on_links (insert (n, l_Name l) (indexed 3 l))) w) end;
  LinkList n := fun w => (Ok (snd <$> map_to_list (pn_links (pw_net w))), w);
  LinkDel n l := effect (on_net (on_links (delete (n, l_Name l))));
  LinkSetUp _ _ := ret tt;
  LinkSetDown _ _ := ret tt;
  LinkSetNsFd n l m := effect (on_net (on_links (fun ls => <[(m, l_Name l) := l]> (delete (n, l_Name l) ls))));
  LinkSetName n l x := effect (on_net (on_links (fun ls => <[(n, x) := named x l]> (delete (n, l_Name l) ls))));
  LinkSetAlias _ _ _ := ret tt;
  AddrList _ _ family := ret
    (if (family =? FAMILY_V4)%Z
     then [{| addr_IPNet := Some {| ipn_IP := Some (IPv4 10 244 0 5); ipn_Mask := Some (CIDRMask 24 32) |};
              addr_Label := "eth0"; addr_Scope := SCOPE_UNIVERSE |}]
     else [{| addr_IPNet := Some {| ipn_IP := ParseIP "fe80::5"; ipn_Mask := Some (CIDRMask 64 128) |};
              addr_Label := ""; addr_Scope := SCOPE_LINK |}]);
  AddrAdd _ _ _ := ret tt; AddrDel _ _ _ := ret tt; AddrReplace _ _ _ := ret tt;
  RouteReplace _ r := effect (on_net (on_routes (setRoute r)));
  RouteDel _ r := effect (on_net (on_routes (dropRoute r)));
  RouteList _ l _ := fun w =>
    (Ok (List.filter (fun r => match l with Some l => (rt_LinkIndex r =? l_Index l)%Z | None => true end)
      (routeOf <$> map_to_list (filter (fun p => isMain (fst p) = true) (pn_routes (pw_net w))))), w);
  RuleAdd _ _ _ := ret tt |}.

#[export] Instance pod_netlink_pure : NetlinkPure := {|
  ParseIPNet s := match ParseCIDR s with inl e => inl e | inr (_, n) => inr n end;
  Addr_Equal a b := Ok (bool_decide (addr_IPNet a = addr_IPNet b));
  Route_String _ := "route" |}.
#[export] Instance pod_iptables : PodIPTables PodWorld := {| iptNew _ := ret tt; AppendUnique _ _ _ _ := ret tt |}.

#[export] Instance pod_wgctrl : WgCtrl PodWorld := {|
  WgClient := netns;
  wgNew n := ret n;
  wgDevice n _ := ret {| dev_PrivateKey := ("" : Key); dev_ListenPort := 51820; dev_Peers := [] |};
  wgConfigureDevice n _ cfg := effect (on_net (on_tunnels (insert n cfg)));
  wgClose _ := ret tt |}.
#[export] Instance pod_keygen : WgKeygen PodWorld := {|
  GenerateKey := ret ("private" : Key); Key_PublicKey k := "public of " +:+ k |}.

(** The IPAM plugin is the one of the repository. *)
#[export] Instance pod_ipam : IPAMExec PodWorld := {|
  ExecAdd _ _ := ret (cniipam.ipamResultOf
    {| ipn_IP := Some (IPv4 10 244 0 5); ipn_Mask := Some (CIDRMask 24 32) |}
    {| ipn_IP := ParseIP "fe80::5"; ipn_Mask := Some (CIDRMask 64 128) |});
  ExecDel _ _ := ret tt;
  ConfigureIface _ _ _ := ret tt |}.

#[export] Instance pod_link_laws : LinkLaws linkAt.
Proof.
  split; unfold LinkByName, LinkDel, nsGetNS, nsEnter, nsClose, pod_netlink, pod_netns, effect, ret; cbv beta iota; intros;
    repeat case_match; simplify_eq/=; unfold linkAt in *; simpl in *; try done.
  - intros [l0 Hl0]. congruence.
  - rewrite lookup_delete_eq. by intros [].
  - by apply lookup_delete_is_Some in H as [_ ?].
Qed.

(** Nothing is wrong with this node. *)
#[export] Instance pod_routes_work ns : WorkingRoutes ns (fun _ _ => True).
Proof. split; try done. intros r w _. by eexists. Qed.

Lemma fib_lookup w k : fib w !! k = if isMain k then fst <$> pn_routes (pw_net w) !! k else None.
Proof.
  unfold fib. rewrite lookup_fmap.
  destruct (filter _ (pn_routes (pw_net w)) !! k) as [v|] eqn:Hf.
  - apply map_lookup_filter_Some in Hf as [Hv Hm]. simpl in Hm. by rewrite Hm, Hv.
  - apply map_lookup_filter_None in Hf. destruct (isMain k) eqn:Hm; [|done].
    destruct Hf as [->|Hf]; [done|]. destruct (pn_routes (pw_net w) !! k) as [v|]; [|done].
    by destruct (Hf v).
Qed.

Lemma netKey_main n k : netKey n = Some k -> isMain k = true.
Proof.
  unfold netKey. destruct (ipn_IP n), (ipn_Mask n); try done.
  destruct (is4 _) eqn:E; [|done]. simpl. destruct (_ =? _)%Z; [|done]. by intros [= <-].
Qed.
Lemma routeKey_main r k : routeKey r = Some k -> isMain k = true.
Proof.
  unfold routeKey. destruct (rt_Dst r); [apply netKey_main|]. destruct (_ =? _)%Z; [|done]. by intros [= <-].
Qed.
Lemma routeKey_routeOf k v : isMain k = true -> routeKey (routeOf (k, v)) = Some k.
Proof.
  destruct k as [ip ones], v as [link gw]. unfold isMain, routeKey, netKey. cbn [fst snd routeOf rt_Dst ipn_IP ipn_Mask].
  intros ->. done.
Qed.

#[export] Instance pod_main_table thread : MainTable thread fib.
Proof.
  split; try done.
  - intros r w w' [= <-] Ht. apply map_eq. intros k. unfold setRoute. rewrite fib_lookup. simpl.
    rewrite decide_True by done. destruct (routeKey r) as [k'|] eqn:Hr; [|by rewrite fib_lookup].
    destruct (decide (k' = k)) as [->|Hne].
    + rewrite !lookup_insert_eq. by rewrite (routeKey_main _ _ Hr).
    + by rewrite !lookup_insert_ne, fib_lookup.
  - intros r w Ht. apply map_eq. intros k. rewrite !fib_lookup. simpl. unfold setRoute. by rewrite decide_False.
  - intros r w w' [= <-]. apply map_eq. intros k. rewrite fib_lookup. simpl. unfold dropRoute.
    destruct (routeKey r) as [k'|] eqn:Hr; [|by rewrite fib_lookup].
    destruct (decide (k' = k)) as [->|Hne].
    + rewrite !lookup_delete_eq. by destruct (isMain k).
    + by rewrite !lookup_delete_ne, fib_lookup.
  - intros l w rs w' [= <- <-]. split; [done|]. intros k Hk. rewrite fib_lookup in Hk.
    destruct (isMain k) eqn:Hm; [|done]. apply fmap_Some in Hk as ([link gw] & Hk & Hl). simpl in Hl.
    exists (routeOf (k, (link, gw))). split; [|by apply routeKey_routeOf].
    apply list_elem_of_In, filter_In. split.
    + apply list_elem_of_In, list_elem_of_fmap. exists (k, (link, gw)). split; [done|].
      apply elem_of_map_to_list, map_lookup_filter_Some. done.
    + destruct k. simpl. subst. apply Z.eqb_refl.
Qed.

(** Frames: what looks at the endpoints or the tunnels only is kept by the rest. *)
#[export] Instance pod_keeps_api (P : PodApi -> Prop) : PodKeeps (fun w => P (pw_api w)).
Proof.
  split; intros; intros w Hw; try done.
  simpl. by case_match.
Qed.
#[export] Instance pod_keeps_tunnels (P : gmap netns WgConfig -> Prop) : PodKeeps (fun w => P (pn_tunnels (pw_net w))).
Proof.
  split; intros; intros w Hw; try done.
  simpl. by case_match.
Qed.

Lemma pod_deletion_frames n : deletionFrames endpointAt linkAt n.
Proof. split; intros; intros w Hw; try done. simpl. by case_match. Qed.
Lemma pod_deletion_works n path : deletionWorks n path.
Proof.
  split; intros; try (by eexists).
  - simpl. by destruct (pn_links (pw_net w) !! _).
  - simpl. by destruct (endpointAt w k).
Qed.

(** ** A node with a gateway's pod and another one *)

Definition podNS : netns := PathNS "/ns/pod1".
Definition gateway1 : StaticGatewayConfiguration :=
  {| sgc_meta := new_meta "gw1" "default";
     sgc_Spec := {| sgc_GatewayNodepoolName := "gwpool";
                    sgc_GatewayVmssProfile := {| VmssResourceGroup := ""; VmssName := ""; PublicIpPrefixSize := 0 |};
                    sgc_DefaultRoute := RouteStaticEgressGateway; sgc_ProvisionPublicIps := true;
                    sgc_PublicIpPrefixId := ""; sgc_ExcludeCidrs := ["192.168.0.0/16"] |};
     sgc_Status := {| sgc_EgressIpPrefix := "1.2.3.4/31";
                      sgc_GatewayServerProfile := {| gsp_Ip := "10.0.0.4"; gsp_Port := 6000; gsp_PublicKey := "public of priv";
                        gsp_PrivateKeySecretRef := Some {| ref_APIVersion := "v1"; ref_Kind := "Secret";
                          ref_Name := "sgw-uid-1"; ref_Namespace := "kube-egress-gateway-system" |} |} |} |}.
Definition pod_named (name : string) (ann : gmap string string) : Pod :=
  {| pod_meta := new_meta name "default"; pod_annotations := ann |}.
Definition notReady : Taint :=
  {| taint_Key := consts.CNIManagerNotReadyTaintKey; taint_Value := "true"; taint_Effect := "NoSchedule" |}.
Definition node1 : Node :=
  {| node_meta := new_meta "node1" "";
     node_taints := [{| taint_Key := "a"; taint_Value := ""; taint_Effect := "NoExecute" |}; notReady] |}.
Definition eth0Gateway : IP := IPv4 169 254 1 1.

Definition world1 : PodWorld :=
  {| pw_files := {["/etc/cni/net.d/10-azure.conflist" := mainText]};
     pw_entries := [{| de_Name := "10-azure.conflist"; de_Regular := true |};
                    {| de_Name := "99-loopback.conf"; de_Regular := true |}];
     pw_api := {| pa_endpoints := ∅;
                  pa_gateways := {[nn "default" "gw1" := gateway1]};
                  pa_pods := <[nn "default" "pod1" := pod_named "pod1" {[consts.CNIGatewayAnnotationKey := "gw1"]}]>
                             {[nn "default" "pod2" := pod_named "pod2" ∅]};
                  pa_node := Some node1;
                  pa_config := Some {| cm_meta := new_meta "cni-uninstall" "kube-system"; cm_Data := ∅ |} |};
     pw_net := {| pn_links := {[(podNS, "eth0") := indexed 2 (newLink Device "eth0" "")]};
                  pn_routes := <[(IPv4 0 0 0 0, 0%Z) := (2%Z, Some eth0Gateway)]>
                               {[(eth0Gateway, 32%Z) := (2%Z, None)]};
                  pn_tunnels := ∅ |};
     pw_printed := [] |}.

Definition args_of (pod : string) : CmdArgs :=
  {| ContainerID := "0123456789ab"; Netns := "/ns/pod1"; IfName := "eth0"; Args := pod; StdinData := entryText |}.
Definition result_of {A} (r : outcome A * PodWorld) (d : A) : A := match fst r with Ok a => a | _ => d end.

(** The pod with the annotation is connected, the other one is left alone. *)
Definition connected1 : PodWorld := snd (cni.cmdAdd (args_of "pod1") world1).
Example cmdAdd_run :
  fst (cni.cmdAdd (args_of "pod1") world1) = Ok tt /\
  pe_Spec <$> endpointAt connected1 (nn "default" "pod1") =
    Some {| pe_StaticGatewayConfiguration := "gw1"; pe_PodIpAddress := "10.244.0.5/32";
            pe_PodPublicKey := "public of private" |} /\
  (fun d => lpm (fib connected1) d) <$> [IPv4 8 8 8 8; IPv4 10 1 2 3; IPv4 192 168 7 7; eth0Gateway] =
    [Some 3%Z; Some 2%Z; Some 2%Z; Some 2%Z].
Proof. vm_compute. repeat split. Qed.
Example cmdAdd_other :
  let w := snd (cni.cmdAdd (args_of "pod2") world1) in
  pw_net w = pw_net world1 /\ pw_api w = pw_api world1 /\ pw_printed w = [prevResult].
Proof. vm_compute. repeat split. Qed.
Example insert_run :
  let w := snd (confmgr.insertCNIPluginConf mgr1 world1) in
  fst (confmgr.insertCNIPluginConf mgr1 world1) = Ok tt /\ is_Some (fileAt w (confmgr.confPath mgr1)).
Proof. vm_compute. split; [done|by eexists]. Qed.
