(* ===== verification/Imds.v ===== *)
(** * Node metadata ([pkg/imds] and the daemon's node variables)

    The instance metadata service is reached over HTTP, and the exchange is a
    parameter; its JSON answers are decoded by the names of the structs' fields. *)

From stdpp Require Import base tactics list strings gmap.
From Stdlib Require Import Ascii ZArith Lia DecimalString.
From S2P Require Import Prelude GoStrings JSON JSONDecode Types.

Open Scope string_scope.
Open Scope list_scope.

(** ** [pkg/imds/types.go] *)
Record OSProfile := { ComputerName : string }.
Record ComputeMetadata := {
  cm_AzEnvironment : string;
  cm_Location : string;
  cm_Name : string;
  cm_OSType : string;
  cm_OSProfile : OSProfile;
  cm_ResourceGroupName : string;
  cm_ResourceID : string;
  cm_SubscriptionID : string;
  cm_Tags : string;
  cm_VMScaleSetName : string;
}.
Record IPAddress := { ipa_PrivateIP : string; ipa_PublicIP : string }.
Record Subnet := { sn_Address : string; sn_Prefix : string }.
Record IPData := { ipd_IPAddress : list IPAddress; ipd_Subnet : list Subnet }.
Record NetworkInterface := { ni_IPv4 : IPData; ni_MacAddress : string }.
Record NetworkMetadata := { nm_Interface : list NetworkInterface }.
Record InstanceMetadata := {
  im_Compute : option ComputeMetadata;
  im_Network : option NetworkMetadata;
}.
Record PublicIPMetadata := { pim_FrontendIPAddress : string; pim_PrivateIPAddress : string }.
Record LBData := { lbd_PublicIPAddresses : list PublicIPMetadata }.
Record LoadBalancerMetadata := { lbm_LoadBalancer : LBData }.

(** The structs' fields by their JSON names. *)
Definition zeroOSProfile : OSProfile := {| ComputerName := "" |}.
Definition decOSProfile : decoder OSProfile :=
  decStruct "imds" "OSProfile" [("computerName", onField ComputerName (fun _ s => {| ComputerName := s |}) decString)].

Definition zeroCompute : ComputeMetadata :=
  {| cm_AzEnvironment := ""; cm_Location := ""; cm_Name := ""; cm_OSType := ""; cm_OSProfile := zeroOSProfile;
     cm_ResourceGroupName := ""; cm_ResourceID := ""; cm_SubscriptionID := ""; cm_Tags := "";
     cm_VMScaleSetName := "" |}.
Definition decCompute : decoder ComputeMetadata :=
  decStruct "imds" "ComputeMetadata"
    [("azEnvironment", onField cm_AzEnvironment (fun c s =>
        Build_ComputeMetadata s (cm_Location c) (cm_Name c) (cm_OSType c) (cm_OSProfile c) (cm_ResourceGroupName c)
          (cm_ResourceID c) (cm_SubscriptionID c) (cm_Tags c) (cm_VMScaleSetName c)) decString);
     ("location", onField cm_Location (fun c s =>
        Build_ComputeMetadata (cm_AzEnvironment c) s (cm_Name c) (cm_OSType c) (cm_OSProfile c) (cm_ResourceGroupName c)
          (cm_ResourceID c) (cm_SubscriptionID c) (cm_Tags c) (cm_VMScaleSetName c)) decString);
     ("name", onField cm_Name (fun c s =>
        Build_ComputeMetadata (cm_AzEnvironment c) (cm_Location c) s (cm_OSType c) (cm_OSProfile c)
          (cm_ResourceGroupName c) (cm_ResourceID c) (cm_SubscriptionID c) (cm_Tags c) (cm_VMScaleSetName c)) decString);
     ("osType", onField cm_OSType (fun c s =>
        Build_ComputeMetadata (cm_AzEnvironment c) (cm_Location c) (cm_Name c) s (cm_OSProfile c)
          (cm_ResourceGroupName c) (cm_ResourceID c) (cm_SubscriptionID c) (cm_Tags c) (cm_VMScaleSetName c)) decString);
     ("osProfile", onField cm_OSProfile (fun c p =>
        Build_ComputeMetadata (cm_AzEnvironment c) (cm_Location c) (cm_Name c) (cm_OSType c) p
          (cm_ResourceGroupName c) (cm_ResourceID c) (cm_SubscriptionID c) (cm_Tags c) (cm_VMScaleSetName c)) decOSProfile);
     ("resourceGroupName", onField cm_ResourceGroupName (fun c s =>
        Build_ComputeMetadata (cm_AzEnvironment c) (cm_Location c) (cm_Name c) (cm_OSType c) (cm_OSProfile c) s
          (cm_ResourceID c) (cm_SubscriptionID c) (cm_Tags c) (cm_VMScaleSetName c)) decString);
     ("resourceId", onField cm_ResourceID (fun c s =>
        Build_ComputeMetadata (cm_AzEnvironment c) (cm_Location c) (cm_Name c) (cm_OSType c) (cm_OSProfile c)
          (cm_ResourceGroupName c) s (cm_SubscriptionID c) (cm_Tags c) (cm_VMScaleSetName c)) decString);
     ("subscriptionId", onField cm_SubscriptionID (fun c s =>
        Build_ComputeMetadata (cm_AzEnvironment c) (cm_Location c) (cm_Name c) (cm_OSType c) (cm_OSProfile c)
          (cm_ResourceGroupName c) (cm_ResourceID c) s (cm_Tags c) (cm_VMScaleSetName c)) decString);
     ("tags", onField cm_Tags (fun c s =>
        Build_ComputeMetadata (cm_AzEnvironment c) (cm_Location c) (cm_Name c) (cm_OSType c) (cm_OSProfile c)
          (cm_ResourceGroupName c) (cm_ResourceID c) (cm_SubscriptionID c) s (cm_VMScaleSetName c)) decString);
     ("vmScaleSetName", onField cm_VMScaleSetName (fun c s =>
        Build_ComputeMetadata (cm_AzEnvironment c) (cm_Location c) (cm_Name c) (cm_OSType c) (cm_OSProfile c)
          (cm_ResourceGroupName c) (cm_ResourceID c) (cm_SubscriptionID c) (cm_Tags c) s) decString)].

Definition decIPAddress : decoder IPAddress :=
  decStruct "imds" "IPAddress"
    [("privateIpAddress", onField ipa_PrivateIP (fun a s => Build_IPAddress s (ipa_PublicIP a)) decString);
     ("publicIpAddress", onField ipa_PublicIP (fun a s => Build_IPAddress (ipa_PrivateIP a) s) decString)].
Definition decSubnet : decoder Subnet :=
  decStruct "imds" "Subnet"
    [("address", onField sn_Address (fun n s => Build_Subnet s (sn_Prefix n)) decString);
     ("prefix", onField sn_Prefix (fun n s => Build_Subnet (sn_Address n) s) decString)].
Definition decIPData : decoder IPData :=
  decStruct "imds" "IPData"
    [("ipAddress", onField ipd_IPAddress (fun d l => Build_IPData l (ipd_Subnet d))
        (decSlice "[]imds.IPAddress" decIPAddress (Build_IPAddress "" "")));
     ("subnet", onField ipd_Subnet (fun d l => Build_IPData (ipd_IPAddress d) l)
        (decSlice "[]imds.Subnet" decSubnet (Build_Subnet "" "")))].
Definition decInterface : decoder NetworkInterface :=
  decStruct "imds" "NetworkInterface"
    [("ipv4", onField ni_IPv4 (fun n d => Build_NetworkInterface d (ni_MacAddress n)) decIPData);
     ("macAddress", onField ni_MacAddress (fun n s => Build_NetworkInterface (ni_IPv4 n) s) decString)].
Definition decNetwork : decoder NetworkMetadata :=
  decStruct "imds" "NetworkMetadata"
    [("interface", onField nm_Interface (fun _ l => Build_NetworkMetadata l)
        (decSlice "[]imds.NetworkInterface" decInterface (Build_NetworkInterface (Build_IPData [] []) "")))].
Definition decInstance : decoder InstanceMetadata :=
  decStruct "imds" "InstanceMetadata"
    [("compute", onField im_Compute (fun m c => Build_InstanceMetadata c (im_Network m)) (decPointer decCompute zeroCompute));
     ("network", onField im_Network (fun m n => Build_InstanceMetadata (im_Compute m) n)
        (decPointer decNetwork (Build_NetworkMetadata [])))].

Definition decPublicIP : decoder PublicIPMetadata :=
  decStruct "imds" "PublicIPMetadata"
    [("frontendIpAddress", onField pim_FrontendIPAddress (fun m s => Build_PublicIPMetadata s (pim_PrivateIPAddress m)) decString);
     ("privateIpAddress", onField pim_PrivateIPAddress (fun m s => Build_PublicIPMetadata (pim_FrontendIPAddress m) s) decString)].
Definition decLBData : decoder LBData :=
  decStruct "imds" "LBData"
    [("publicIpAddresses", onField lbd_PublicIPAddresses (fun _ l => Build_LBData l)
        (decSlice "[]imds.PublicIPMetadata" decPublicIP (Build_PublicIPMetadata "" "")))].
Definition decLoadBalancer : decoder LoadBalancerMetadata :=
  decStruct "imds" "LoadBalancerMetadata"
    [("loadbalancer", onField lbm_LoadBalancer (fun _ d => Build_LoadBalancerMetadata d) decLBData)].

(** ** [pkg/imds/imds.go] *)

(** [client.Do] of a GET request for a URL with headers and query parameters (the
    status code, its text and the body). *)
Class ImdsHTTP (W : Type) :=
  httpGet : string -> list (string * string) -> list (string * string) ->
            M W (Z * string * (gerror + string)).

Definition ImdsInstanceAPIVersion : string := "2021-10-01".
Definition ImdsLoadBalancerAPIVersion : string := "2020-10-01".
Definition ImdsServer : string := "http://169.254.169.254".
Definition ImdsInstanceURI : string := "/metadata/instance".
Definition ImdsLoadBalancerURI : string := "/metadata/loadbalancer".
Definition ImdsUserAgent : string := "golang/kube-egress-gateway".

Definition http_StatusOK : Z := 200.


(** The error of [strconv.Atoi] on text it rejects. *)
Definition atoiError (s : string) : gerror :=
  let digits := match s with
                | String "-" t | String "+" t => t
                | _ => s
                end in
  EText ("strconv.Atoi: parsing " +:+ quoted s +:+ ": " +:+
         match NilZero.uint_of_string digits with
         | Some _ => "value out of range"
         | None => "invalid syntax"
         end).

Section imds.
Context {W : Type} `{ImdsHTTP W}.

Definition getImdsResponse (resourceURI apiVersion : string) : M W string :=
  let! (statusCode, status, body) :=
    httpGet (ImdsServer +:+ resourceURI)
      [("Metadata", "True"); ("User-Agent", ImdsUserAgent)]
      [("format", "json"); ("api-version", apiVersion)] in
  if negb (statusCode =? http_StatusOK)%Z then
    throw (EText ("failure of querying imds with response " +:+ quoted status))
  else match body with inl err => throw err | inr data => ret data end.

Definition GetInstanceMetadata : M W InstanceMetadata :=
  let! data := getImdsResponse ImdsInstanceURI ImdsInstanceAPIVersion
    ?: (wrap "failed to get instance metadata: ") in
  match UnmarshalInto decInstance (Build_InstanceMetadata None None) data with inl err => throw err | inr obj => ret obj end.

Definition GetLoadBalancerMetadata : M W LoadBalancerMetadata :=
  let! data := getImdsResponse ImdsLoadBalancerURI ImdsLoadBalancerAPIVersion
    ?: (wrap "failed to get loadbalancer metadata: ") in
  match UnmarshalInto decLoadBalancer (Build_LoadBalancerMetadata (Build_LBData [])) data with inl err => throw err | inr obj => ret obj end.
End imds.

Example decInstance_ex :
  UnmarshalInto decInstance (Build_InstanceMetadata None None)
    (jtext "{'compute': {'Name': 'vm0', 'tags': 'a:b'}, 'network': {'interface': [{'ipv4': {'subnet': [{'prefix': '24'}]}}]}, 'x': 1}")
  = inr {| im_Compute := Some (Build_ComputeMetadata "" "" "vm0" "" zeroOSProfile "" "" "" "a:b" "");
           im_Network := Some (Build_NetworkMetadata
             [Build_NetworkInterface (Build_IPData [] [Build_Subnet "" "24"]) ""]) |} /\
  UnmarshalInto decInstance (Build_InstanceMetadata None None) (jtext "{'compute': {'name': 1}}") =
    inl (EText "json: cannot unmarshal number into Go struct field ComputeMetadata.compute.name of type string").
Proof. vm_compute. by split. Qed.

(** ** The daemon's variables [nodeMeta], [lbMeta] and [nodeTags] *)
Record NodeState := {
  nodeMeta : InstanceMetadata;
  lbMeta : LoadBalancerMetadata;
  nodeTags : gmap string string;
}.

(** One tag of the list, as a key and a value. *)
Definition addTag (tags : gmap string string) (tag : string) : gmap string string :=
  match Split tag ":" with
  | [k; v] => <[TrimSpace k := TrimSpace v]> tags
  | _ => tags
  end.

Definition parseNodeTags (meta : InstanceMetadata) : outcome (gmap string string) :=
  let? compute := deref (im_Compute meta) in
  Ok (fold_left addTag (Split (cm_Tags compute) ";") ∅).

(** [InitNodeMetadata]; the getters never return nil without an error. *)
Definition InitNodeMetadata {W} `{ImdsHTTP W} : M W NodeState :=
  let! meta := GetInstanceMetadata in
  let! lb := GetLoadBalancerMetadata in
  let! tags := lift (parseNodeTags meta) in
  ret {| nodeMeta := meta; lbMeta := lb; nodeTags := tags |}.

Section node.
Context (node : NodeState).

Definition applyToNode (gwConfig : StaticGatewayConfiguration) : outcome bool :=
  if negb (String.eqb (sgc_GatewayNodepoolName (sgc_Spec gwConfig)) "") then
    match nodeTags node !! consts.AKSNodepoolTagKey with
    | Some name => Ok (EqualFold name (sgc_GatewayNodepoolName (sgc_Spec gwConfig)))
    | None => Ok false
    end
  else
    let vmssProfile := sgc_GatewayVmssProfile (sgc_Spec gwConfig) in
    let? compute := deref (im_Compute (nodeMeta node)) in
    Ok (EqualFold (VmssName vmssProfile) (cm_VMScaleSetName compute) &&
        EqualFold (VmssResourceGroup vmssProfile) (cm_ResourceGroupName compute)).

(** The tag that names the node's interface: the last one of its key. *)
Definition nicNameOf (tags : string) : string :=
  fold_left (fun nicName tag =>
    match Split tag ":" with
    | [name; val] => if String.eqb name consts.AKSNodeNICTagKey then val else nicName
    | _ => nicName
    end) (Split tags ";") "".

(** The addresses of the node's profile in the status of a VM configuration. *)
Definition profileIPs (nodeName nicName : string) (profiles : list GatewayVMProfile) : string * string :=
  match List.find (fun p => String.eqb (NodeName p) nodeName || String.eqb (NodeName p) nicName) profiles with
  | Some p => (PrimaryIP p, SecondaryIP p)
  | None => ("", "")
  end.
End node.

(** A gateway whose setup the manager has completed. *)
Definition isReady (gwConfig : StaticGatewayConfiguration) : bool :=
  let wgProfile := sgc_GatewayServerProfile (sgc_Status gwConfig) in
  negb (String.eqb (sgc_EgressIpPrefix (sgc_Status gwConfig)) "") &&
  negb (String.eqb (gsp_Ip wgProfile) "") && negb (gsp_Port wgProfile =? 0)%Z &&
  negb (String.eqb (gsp_PublicKey wgProfile) "") &&
  match gsp_PrivateKeySecretRef wgProfile with Some _ => true | None => false end.

(** ** The WireGuard link of a gateway *)

Definition getWireguardInterfaceName (gwConfig : StaticGatewayConfiguration) : string :=
  consts.WiregaurdLinkNamePrefix +:+ Itoa (gsp_Port (sgc_GatewayServerProfile (sgc_Status gwConfig))).

Definition getPacketMark (linkName : string) : outcome Z :=
  let port := TrimPrefix linkName consts.WiregaurdLinkNamePrefix in
  match Atoi port with
  | Some mark => Ok mark
  | None =>
      Err (wrap ("failed to parse mark from link name (" +:+ linkName +:+ "): ") (atoiError port))
  end.

Lemma getPacketMark_link gwConfig :
  (int64_min <= gsp_Port (sgc_GatewayServerProfile (sgc_Status gwConfig)) <= int64_max)%Z ->
  getPacketMark (getWireguardInterfaceName gwConfig) =
  Ok (gsp_Port (sgc_GatewayServerProfile (sgc_Status gwConfig))).
Proof.
  intros Hp. unfold getPacketMark, getWireguardInterfaceName. rewrite TrimPrefix_app.
  by rewrite Atoi_Itoa.
Qed.
