(* ===== verification/NodeStatus.v ===== *)
(** * The gateway status of a node

    The daemon's two controllers keep one [GatewayStatus] object per node: the
    gateways that are configured on it and the peers on their links.  Their
    functions [updateGatewayNodeStatus] differ only in how they change the lists;
    the common part is [updateNodeStatus]. *)

From stdpp Require Import base tactics list strings gmap sets fin_maps.
From Stdlib Require Import ZArith Lia.
From S2P Require Import Prelude GoStrings Types Kube.

Open Scope string_scope.
Open Scope list_scope.

(** ** The ready gateways ([staticgatewayconfiguration_controller.go]) *)

Definition on_iface (iface : string) (g : GatewayConfiguration) : bool :=
  String.eqb (gc_InterfaceName g) iface.
Definition peer_on_iface (iface : string) (p : PeerConfiguration) : bool :=
  String.eqb (pc_InterfaceName p) iface.

(** The loop from the last peer down to the first that removes those on a link. *)
Fixpoint dropPeers (n : nat) (iface : string) (peers : list PeerConfiguration) (changed : bool) :
    list PeerConfiguration * bool :=
  match n with
  | O => (peers, changed)
  | S i =>
      match peers !! i with
      | Some p =>
          if peer_on_iface iface p then dropPeers i iface (remove_at i peers) true
          else dropPeers i iface peers changed
      | None => (peers, changed)
      end
  end.

(** The new lists, and whether anything changed. *)
Definition updateReadyGateways (gwConfig : GatewayConfiguration) (add : bool) (spec : GatewayStatusSpec) :
    GatewayStatusSpec * bool :=
  let gws := gs_ReadyGatewayConfigurations spec in
  let peers := gs_ReadyPeerConfigurations spec in
  let iface := gc_InterfaceName gwConfig in
  let '(gws1, changed1, found) :=
    match find_index (on_iface iface) gws with
    | Some (i, _) => if negb add then (remove_at i gws, true, true) else (gws, false, true)
    | None => (gws, false, false)
    end in
  let '(gws2, changed2) :=
    if add && negb found then (gws1 ++ [gwConfig], true) else (gws1, changed1) in
  let '(peers', changed3) :=
    if negb add then dropPeers (length peers) iface peers changed2 else (peers, changed2) in
  ({| gs_ReadyGatewayConfigurations := gws2; gs_ReadyPeerConfigurations := peers' |}, changed3).

(** ** The ready peers ([podendpoint_controller.go]) *)

(** [peerMap]: the peers of the object by public key. *)
Definition peersByKey (peers : list PeerConfiguration) : gmap string PeerConfiguration :=
  fold_left (fun m p => <[pc_PublicKey p := p]> m) peers ∅.

(** The loop over the peers to add or to delete. *)
Definition updatePeer (add : bool) (st : gmap string PeerConfiguration * bool) (p : PeerConfiguration) :
    gmap string PeerConfiguration * bool :=
  let '(peerMap, changed) := st in
  match peerMap !! pc_PublicKey p with
  | Some _ => if negb add then (delete (pc_PublicKey p) peerMap, true) else (peerMap, changed)
  | None => if add then (<[pc_PublicKey p := p]> peerMap, true) else (peerMap, changed)
  end.

(** The order in which Go ranges over a map is unspecified; [map_to_list] gives
    one. *)
Definition updateReadyPeers (peerConfigs : list PeerConfiguration) (add : bool) (spec : GatewayStatusSpec) :
    GatewayStatusSpec * bool :=
  let '(peerMap, changed) :=
    fold_left (updatePeer add) peerConfigs (peersByKey (gs_ReadyPeerConfigurations spec), false) in
  if changed then
    ({| gs_ReadyGatewayConfigurations := gs_ReadyGatewayConfigurations spec;
        gs_ReadyPeerConfigurations := (map_to_list peerMap).*2 |}, true)
  else (spec, false).

(** ** The object *)
Section node_status.
Context {W : Type} `{OsEnv} `{OwnerRefs} `{Store W GatewayStatus} `{Store W Node}.

Definition gwStatusKey : NamespacedName :=
  nn (Getenv consts.PodNamespaceEnvKey) (Getenv consts.NodeNameEnvKey).

(** Get the object and update it, or create it for the node; nothing is created
    during a clean-up. *)
Definition updateNodeStatus (fresh : GatewayStatusSpec)
    (update : GatewayStatusSpec -> GatewayStatusSpec * bool) (add : bool) : M W unit :=
  let! r := try (kGet (Obj := GatewayStatus) gwStatusKey) in
  match r with
  | inl err =>
      if negb (IsNotFound err) then throw err
      else if negb add then ret tt
      else
        let! node := kGet (Obj := Node) (nn "" (Getenv consts.NodeNameEnvKey))
          ?: (wrap "failed to get current node: ") in
        match SetOwnerReference (node_meta node) (new_meta (nn_name gwStatusKey) (nn_namespace gwStatusKey)) with
        | inl err => throw (wrap "failed to set gwStatus owner reference to node: " err)
        | inr meta =>
            do! kCreate {| gs_meta := meta; gs_Spec := fresh |}
              ?: (wrap "failed to create gwStatus object: ");
            ret tt
        end
  | inr gwStatus =>
      let '(spec, changed) := update (gs_Spec gwStatus) in
      if changed then
        do! kUpdate {| gs_meta := gs_meta gwStatus; gs_Spec := spec |}
          ?: (wrap "failed to update gwStatus object: ");
        ret tt
      else ret tt
  end.

(** [updateGatewayNodeStatus] of the controller of gateway configurations. *)
Definition updateGatewayStatus (gwConfig : GatewayConfiguration) (add : bool) : M W unit :=
  updateNodeStatus
    {| gs_ReadyGatewayConfigurations := [gwConfig]; gs_ReadyPeerConfigurations := [] |}
    (updateReadyGateways gwConfig add) add.

(** [updateGatewayNodeStatus] of the controller of pod endpoints. *)
Definition updatePeerStatus (peerConfigs : list PeerConfiguration) (add : bool) : M W unit :=
  updateNodeStatus
    {| gs_ReadyGatewayConfigurations := []; gs_ReadyPeerConfigurations := peerConfigs |}
    (updateReadyPeers peerConfigs add) add.
End node_status.

(** ** What the updates do *)

(** The backward loop removes exactly the peers on the link. *)
Lemma dropPeers_filter n iface peers changed :
  n <= length peers ->
  dropPeers n iface peers changed =
  (List.filter (fun p => negb (peer_on_iface iface p)) (take n peers) ++ drop n peers,
   changed || existsb (peer_on_iface iface) (take n peers)).
Proof.
  revert peers changed. induction n as [|i IH]; intros peers changed Hn; simpl.
  { by rewrite orb_false_r. }
  destruct (lookup_lt_is_Some_2 peers i) as [p Hp]; [lia|]. rewrite Hp.
  rewrite (take_S_r _ _ _ Hp), List.filter_app, existsb_app. simpl.
  assert (i <= length (remove_at i peers)) as Hl.
  { unfold remove_at. rewrite length_app, length_take. lia. }
  assert (take i (remove_at i peers) = take i peers /\ drop i (remove_at i peers) = drop (S i) peers) as [Ht Hd].
  { unfold remove_at. assert (length (take i peers) = i) as Hi by (rewrite length_take; lia).
    split; [rewrite take_app_le by lia; by rewrite take_take, Nat.min_id|].
    rewrite drop_app_ge by lia. by rewrite Hi, Nat.sub_diag. }
  destruct (peer_on_iface iface p); simpl.
  - rewrite IH, Ht, Hd by done. by rewrite app_nil_r, !orb_true_r.
  - rewrite IH by lia. rewrite orb_false_r, <- (assoc_L (++)). simpl.
    by rewrite (drop_S _ _ _ Hp).
Qed.

Lemma dropPeers_all iface peers changed :
  dropPeers (length peers) iface peers changed =
  (List.filter (fun p => negb (peer_on_iface iface p)) peers, changed || existsb (peer_on_iface iface) peers).
Proof. rewrite dropPeers_filter by done. by rewrite firstn_all, drop_all, app_nil_r. Qed.

Lemma filter_unchanged {A} (f : A -> bool) l :
  existsb f l = false -> List.filter (fun x => negb (f x)) l = l.
Proof.
  induction l as [|x l IH]; simpl; [done|]. intros [-> Hl]%orb_false_iff. simpl. by rewrite IH.
Qed.

Lemma existsb_filter_negb {A} (f : A -> bool) l :
  existsb f (List.filter (fun x => negb (f x)) l) = false.
Proof. induction l as [|x l IH]; simpl; [done|]. destruct (f x) eqn:Hx; simpl; [done|]. by rewrite Hx. Qed.

(** The gateways' names in an object's status. *)
Definition ready_ifaces (spec : GatewayStatusSpec) : list string :=
  gc_InterfaceName <$> gs_ReadyGatewayConfigurations spec.

(** The reference definition: adding a gateway appends it unless its link is
    listed, removing one filters its link out of both lists. *)
Definition ready_spec (gwConfig : GatewayConfiguration) (add : bool) (spec : GatewayStatusSpec) :
    GatewayStatusSpec :=
  let iface := gc_InterfaceName gwConfig in
  let gws := gs_ReadyGatewayConfigurations spec in
  let peers := gs_ReadyPeerConfigurations spec in
  if add then
    {| gs_ReadyGatewayConfigurations := if existsb (on_iface iface) gws then gws else gws ++ [gwConfig];
       gs_ReadyPeerConfigurations := peers |}
  else
    {| gs_ReadyGatewayConfigurations := List.filter (fun g => negb (on_iface iface g)) gws;
       gs_ReadyPeerConfigurations := List.filter (fun p => negb (peer_on_iface iface p)) peers |}.

Lemma find_index_existsb {A} (p : A -> bool) l :
  match find_index p l with Some _ => existsb p l = true | None => existsb p l = false end.
Proof.
  destruct (find_index p l) as [[i x]|] eqn:Hf.
  - apply find_index_Some in Hf as (l1 & l2 & -> & _ & Hx & _).
    rewrite existsb_app. simpl. by rewrite Hx, orb_true_r.
  - by apply existsb_false_Forall, find_index_None.
Qed.

Lemma forall_not_on iface gws :
  iface ∉ gc_InterfaceName <$> gws <-> existsb (on_iface iface) gws = false.
Proof.
  rewrite existsb_false_Forall. unfold on_iface. induction gws as [|g gws IH]; simpl.
  - split; [constructor|]. intros _. apply not_elem_of_nil.
  - rewrite not_elem_of_cons, Forall_cons, IH, String.eqb_neq. naive_solver.
Qed.

(** With distinct links, removing the first match removes the link. *)
Lemma remove_first_filter iface gws i g :
  NoDup (gc_InterfaceName <$> gws) -> find_index (on_iface iface) gws = Some (i, g) ->
  remove_at i gws = List.filter (fun g => negb (on_iface iface g)) gws.
Proof.
  intros Hnd (l1 & l2 & -> & <- & Hg & Hl1)%find_index_Some.
  rewrite remove_at_app, List.filter_app. simpl. rewrite Hg. simpl.
  rewrite fmap_app, fmap_cons in Hnd. apply NoDup_app in Hnd as (_ & _ & Hnd).
  apply NoDup_cons in Hnd as [Hni _].
  apply String.eqb_eq in Hg. rewrite Hg in Hni. apply forall_not_on in Hni.
  apply existsb_false_Forall in Hl1. by rewrite !filter_unchanged.
Qed.

Lemma updateReadyGateways_spec gwConfig add spec :
  NoDup (ready_ifaces spec) ->
  fst (updateReadyGateways gwConfig add spec) = ready_spec gwConfig add spec /\
  (snd (updateReadyGateways gwConfig add spec) = false -> ready_spec gwConfig add spec = spec).
Proof.
  intros Hnd. unfold updateReadyGateways, ready_spec. destruct spec as [gws peers]. cbn in *.
  pose proof (find_index_existsb (on_iface (gc_InterfaceName gwConfig)) gws) as Hex.
  destruct find_index as [[i g]|] eqn:Hf; rewrite ?Hex; destruct add; cbn; rewrite ?dropPeers_all; cbn.
  - done.
  - split; [|done]. f_equal. by eapply remove_first_filter.
  - done.
  - rewrite (filter_unchanged (on_iface _)) by done. split; [done|]. intros Hp. by rewrite filter_unchanged.
Qed.

(** An object that is as the update leaves it is not written again. *)
Lemma updateReadyGateways_quiet gwConfig add spec :
  updateReadyGateways gwConfig add (ready_spec gwConfig add spec) = (ready_spec gwConfig add spec, false).
Proof.
  assert (if add then existsb (on_iface (gc_InterfaceName gwConfig))
                        (gs_ReadyGatewayConfigurations (ready_spec gwConfig add spec)) = true
          else existsb (on_iface (gc_InterfaceName gwConfig))
                 (gs_ReadyGatewayConfigurations (ready_spec gwConfig add spec)) = false /\
               existsb (peer_on_iface (gc_InterfaceName gwConfig))
                 (gs_ReadyPeerConfigurations (ready_spec gwConfig add spec)) = false) as Hex.
  { destruct spec as [gws peers], add; cbn; [|split; apply existsb_filter_negb].
    destruct (existsb _ gws) eqn:He; [done|]. rewrite existsb_app. simpl.
    unfold on_iface at 2. by rewrite String.eqb_refl, orb_true_r. }
  destruct (ready_spec gwConfig add spec) as [gws peers]. cbn in Hex. unfold updateReadyGateways. cbn.
  pose proof (find_index_existsb (on_iface (gc_InterfaceName gwConfig)) gws) as Hf.
  destruct find_index as [[i g]|], add; cbn; try (destruct Hex; congruence || done); try congruence.
  destruct Hex as [_ Hp]. by rewrite dropPeers_all, Hp, filter_unchanged.
Qed.

(** What is filtered has no new duplicates. *)
Lemma NoDup_fmap_filter {A B} (key : A -> B) (f : A -> bool) l :
  NoDup (key <$> l) -> NoDup (key <$> List.filter f l).
Proof.
  induction l as [|x l IH]; [done|]. intros [Hx Hnd]%NoDup_cons. cbn. destruct (f x); [|by apply IH].
  rewrite fmap_cons. apply NoDup_cons. split; [|by apply IH]. intros (y & Heq & Hy)%list_elem_of_fmap.
  apply Hx. rewrite Heq. apply list_elem_of_fmap_2. by apply list_elem_of_In, filter_In, proj1, list_elem_of_In in Hy.
Qed.

Lemma ready_spec_NoDup gwConfig add spec :
  NoDup (ready_ifaces spec) -> NoDup (ready_ifaces (ready_spec gwConfig add spec)).
Proof.
  unfold ready_ifaces, ready_spec. destruct spec as [gws peers], add; cbn; intros Hnd; [|by apply NoDup_fmap_filter].
  destruct (existsb _ gws) eqn:He; [done|]. rewrite fmap_app. apply NoDup_app.
  split_and!; [done| |apply NoDup_singleton].
  intros x Hx ->%list_elem_of_singleton. by apply forall_not_on in He.
Qed.

(** C31: the update of a node's ready gateways implements its reference: adding a
    gateway lists it unless its link is listed already, removing one takes its link
    out of the gateways and, with a loop over shrinking indices, its peers out of
    the peers.  The links stay distinct, a write is made whenever something
    changes, and repeating the update asks for no write. *)
Theorem ready_gateways_update gwConfig add spec :
  NoDup (ready_ifaces spec) ->
  exists changed,
    updateReadyGateways gwConfig add spec = (ready_spec gwConfig add spec, changed) /\
    (changed = false -> ready_spec gwConfig add spec = spec) /\
    NoDup (ready_ifaces (ready_spec gwConfig add spec)) /\
    updateReadyGateways gwConfig add (ready_spec gwConfig add spec) =
      (ready_spec gwConfig add spec, false).
Proof.
  intros Hnd. destruct (updateReadyGateways_spec gwConfig add spec Hnd) as [H1 H2].
  exists (snd (updateReadyGateways gwConfig add spec)). rewrite <- H1, <- surjective_pairing, H1.
  split_and!; [done|done|by apply ready_spec_NoDup|].
  apply updateReadyGateways_quiet.
Qed.

(** ** The peers *)

Definition peer_keys (spec : GatewayStatusSpec) : list string :=
  pc_PublicKey <$> gs_ReadyPeerConfigurations spec.

Definition with_key (k : string) (p : PeerConfiguration) : bool := String.eqb (pc_PublicKey p) k.

(** A map of peers in which every peer is under its key. *)
Definition keyed (m : gmap string PeerConfiguration) : Prop :=
  forall k p, m !! k = Some p -> pc_PublicKey p = k.

Lemma find_with_key k l : List.find (with_key k) l = None <-> k ∉ pc_PublicKey <$> l.
Proof.
  induction l as [|p l IH]; simpl; [split; [intros _; apply not_elem_of_nil|done]|].
  unfold with_key at 1. rewrite not_elem_of_cons. destruct (String.eqb_spec (pc_PublicKey p) k); naive_solver.
Qed.

Lemma find_key k l p : List.find (with_key k) l = Some p -> p ∈ l /\ pc_PublicKey p = k.
Proof.
  intros [Hin Hk]%List.find_some. split; [by apply list_elem_of_In|by apply String.eqb_eq].
Qed.

Lemma find_NoDup l p :
  NoDup (pc_PublicKey <$> l) -> List.find (with_key (pc_PublicKey p)) l = Some p <-> p ∈ l.
Proof.
  intros Hnd. split; [by intros [??]%find_key|]. induction l as [|q l IH]; [by intros ?%not_elem_of_nil|].
  apply NoDup_cons in Hnd as [Hq Hnd]. simpl. unfold with_key at 1.
  intros [->|Hp]%elem_of_cons; [by rewrite String.eqb_refl|].
  destruct (String.eqb_spec (pc_PublicKey q) (pc_PublicKey p)) as [Heq|]; [|by apply IH].
  destruct Hq. rewrite Heq. by apply list_elem_of_fmap_2.
Qed.

Lemma peersByKey_from l (m : gmap string PeerConfiguration) k :
  NoDup (pc_PublicKey <$> l) ->
  fold_left (fun m p => <[pc_PublicKey p := p]> m) l m !! k =
  match List.find (with_key k) l with Some p => Some p | None => m !! k end.
Proof.
  revert m. induction l as [|p l IH]; intros m Hnd; [done|].
  apply NoDup_cons in Hnd as [Hp Hnd]. simpl. rewrite IH by done. unfold with_key at 2.
  destruct (String.eqb_spec (pc_PublicKey p) k) as [<-|Hne].
  - rewrite (proj2 (find_with_key _ _) Hp). by rewrite lookup_insert_eq.
  - by rewrite lookup_insert_ne.
Qed.

Lemma peersByKey_lookup l k :
  NoDup (pc_PublicKey <$> l) -> peersByKey l !! k = List.find (with_key k) l.
Proof. intros Hnd. unfold peersByKey. rewrite peersByKey_from by done. by case_match. Qed.

Lemma peersByKey_keyed l : NoDup (pc_PublicKey <$> l) -> keyed (peersByKey l).
Proof. intros Hnd k p. rewrite peersByKey_lookup by done. by intros [_ ?]%find_key. Qed.

(** The loop over the peers: what is in the map afterwards, and when it reports a
    change. *)
Lemma updatePeers_add l (m : gmap string PeerConfiguration) c k :
  (fold_left (updatePeer true) l (m, c)).1 !! k =
    match m !! k with Some p => Some p | None => List.find (with_key k) l end /\
  ((fold_left (updatePeer true) l (m, c)).2 = false <->
   c = false /\ Forall (fun p => is_Some (m !! pc_PublicKey p)) l).
Proof.
  revert m c. induction l as [|p l IH]; intros m c; simpl; [rewrite Forall_nil; split; [by case_match|tauto]|].
  destruct (m !! pc_PublicKey p) as [q|] eqn:Hq; simpl.
  - destruct (IH m c) as [H1 H2]. rewrite H1. split.
    + case_match eqn:Hk; [done|]. unfold with_key at 2.
      destruct (String.eqb_spec (pc_PublicKey p) k); [congruence|done].
    + rewrite H2, Forall_cons, Hq. naive_solver.
  - destruct (IH (<[pc_PublicKey p:=p]> m) true) as [H1 H2]. rewrite H1.
    split; [|rewrite H2, Forall_cons, Hq; split; [naive_solver|]; intros (_ & [? [=]] & _)].
    unfold with_key at 2. destruct (String.eqb_spec (pc_PublicKey p) k) as [<-|Hne].
    + by rewrite lookup_insert_eq, Hq.
    + by rewrite lookup_insert_ne.
Qed.

Lemma updatePeers_del l (m : gmap string PeerConfiguration) c k :
  (fold_left (updatePeer false) l (m, c)).1 !! k =
    match List.find (with_key k) l with Some _ => None | None => m !! k end /\
  ((fold_left (updatePeer false) l (m, c)).2 = false <->
   c = false /\ Forall (fun p => m !! pc_PublicKey p = None) l).
Proof.
  revert m c. induction l as [|p l IH]; intros m c; simpl; [rewrite Forall_nil; tauto|].
  unfold with_key at 1. destruct (m !! pc_PublicKey p) as [q|] eqn:Hq; simpl.
  - destruct (IH (delete (pc_PublicKey p) m) true) as [H1 H2]. rewrite H1.
    split; [|rewrite H2, Forall_cons, Hq; naive_solver].
    destruct (String.eqb_spec (pc_PublicKey p) k) as [<-|Hne].
    + rewrite lookup_delete_eq. by case_match.
    + by rewrite lookup_delete_ne.
  - destruct (IH m c) as [H1 H2]. rewrite H1. split.
    + destruct (String.eqb_spec (pc_PublicKey p) k) as [<-|Hne]; [rewrite Hq; by case_match|done].
    + rewrite H2, Forall_cons. naive_solver.
Qed.

(** The peers of a map, as a list. *)
Lemma elem_of_peers m p : keyed m -> (p ∈ (map_to_list m).*2) <-> (m !! pc_PublicKey p = Some p).
Proof.
  intros Hm. rewrite list_elem_of_fmap. split.
  - intros ([k q] & -> & Hq). apply elem_of_map_to_list in Hq. simpl. by rewrite (Hm k q Hq).
  - intros Hp. exists (pc_PublicKey p, p). by rewrite elem_of_map_to_list.
Qed.

Lemma peers_NoDup m : keyed m -> NoDup (pc_PublicKey <$> (map_to_list m).*2).
Proof.
  intros Hm. replace (pc_PublicKey <$> (map_to_list m).*2) with ((map_to_list m).*1);
    [apply NoDup_fst_map_to_list|].
  rewrite <- list_fmap_compose. apply list_fmap_ext. intros i [k p] Hi. simpl. symmetry.
  apply Hm, elem_of_map_to_list. by eapply list_elem_of_lookup_2.
Qed.

(** Which peers are listed after an update. *)
Definition peer_listed (peerConfigs : list PeerConfiguration) (add : bool) (spec : GatewayStatusSpec)
    (p : PeerConfiguration) : Prop :=
  if add then
    p ∈ gs_ReadyPeerConfigurations spec \/
    ((pc_PublicKey p ∉ peer_keys spec) /\ List.find (with_key (pc_PublicKey p)) peerConfigs = Some p)
  else
    (p ∈ gs_ReadyPeerConfigurations spec) /\ (pc_PublicKey p ∉ pc_PublicKey <$> peerConfigs).

(** The map of an object's peers after the loop. *)
Definition updated_peers (ps : list PeerConfiguration) (add : bool) (spec : GatewayStatusSpec) :
    gmap string PeerConfiguration * bool :=
  fold_left (updatePeer add) ps (peersByKey (gs_ReadyPeerConfigurations spec), false).

Lemma updated_peers_lookup ps add spec k p :
  NoDup (peer_keys spec) ->
  (updated_peers ps add spec).1 !! k = Some p <-> pc_PublicKey p = k /\ peer_listed ps add spec p.
Proof.
  intros Hnd. unfold updated_peers, peer_listed. destruct add.
  - destruct (updatePeers_add ps (peersByKey (gs_ReadyPeerConfigurations spec)) false k) as [-> _].
    rewrite peersByKey_lookup by done. unfold peer_keys.
    destruct (List.find (with_key k) (gs_ReadyPeerConfigurations spec)) as [q|] eqn:Hq.
    + split.
      * intros [= ->]. apply find_key in Hq as [? ?]. naive_solver.
      * intros [<- [Hp|[Hp _]]].
        -- apply find_NoDup in Hp; [congruence|done].
        -- apply find_with_key in Hp. congruence.
    + apply find_with_key in Hq. split.
      * intros Hp. pose proof (find_key _ _ _ Hp) as [_ <-]. naive_solver.
      * intros [<- [Hp|[_ Hp]]]; [|done]. destruct Hq. by apply list_elem_of_fmap_2.
  - destruct (updatePeers_del ps (peersByKey (gs_ReadyPeerConfigurations spec)) false k) as [-> _].
    rewrite peersByKey_lookup by done.
    destruct (List.find (with_key k) ps) as [q|] eqn:Hq.
    + split; [done|]. intros [<- [_ Hp]]. apply find_with_key in Hp. congruence.
    + apply find_with_key in Hq. split.
      * intros Hp. pose proof (find_key _ _ _ Hp) as [? <-]. naive_solver.
      * intros [<- [Hp _]]. by apply find_NoDup.
Qed.

Lemma updated_peers_keyed ps add spec : NoDup (peer_keys spec) -> keyed (updated_peers ps add spec).1.
Proof. intros Hnd k p Hp. by apply updated_peers_lookup in Hp as [? _]. Qed.

(** Nothing is to do exactly when all peers to add are known, all those to delete
    unknown. *)
Lemma updated_peers_unchanged ps add spec :
  NoDup (peer_keys spec) ->
  (updated_peers ps add spec).2 = false <->
  Forall (fun p => if add then pc_PublicKey p ∈ peer_keys spec else pc_PublicKey p ∉ peer_keys spec) ps.
Proof.
  intros Hnd. unfold updated_peers. destruct add.
  - destruct (updatePeers_add ps (peersByKey (gs_ReadyPeerConfigurations spec)) false "") as [_ ->].
    trans (Forall (fun p => is_Some (peersByKey (gs_ReadyPeerConfigurations spec) !! pc_PublicKey p)) ps);
      [tauto|]. apply Forall_iff. intros p.
    rewrite peersByKey_lookup by done. rewrite <- not_eq_None_Some, find_with_key. unfold peer_keys.
    destruct (decide (pc_PublicKey p ∈ pc_PublicKey <$> gs_ReadyPeerConfigurations spec)); tauto.
  - destruct (updatePeers_del ps (peersByKey (gs_ReadyPeerConfigurations spec)) false "") as [_ ->].
    trans (Forall (fun p => peersByKey (gs_ReadyPeerConfigurations spec) !! pc_PublicKey p = None) ps);
      [tauto|]. apply Forall_iff. intros p.
    rewrite peersByKey_lookup by done. by rewrite find_with_key.
Qed.

Lemma updateReadyPeers_result ps add spec :
  NoDup (peer_keys spec) ->
  exists spec' changed,
    updateReadyPeers ps add spec = (spec', changed) /\
    gs_ReadyGatewayConfigurations spec' = gs_ReadyGatewayConfigurations spec /\
    NoDup (peer_keys spec') /\
    (forall p, p ∈ gs_ReadyPeerConfigurations spec' <-> peer_listed ps add spec p) /\
    (changed = false -> spec' = spec).
Proof.
  intros Hnd. pose proof (updated_peers_keyed ps add spec Hnd) as Hk. unfold updateReadyPeers.
  pose proof (updated_peers_unchanged ps add spec Hnd) as Hu.
  fold (updated_peers ps add spec). destruct (updated_peers ps add spec) as [m changed] eqn:Hm.
  destruct changed; eexists _, _; (split; [done|]); (split; [done|]).
  - split_and!; [by apply peers_NoDup| |done]. intros p. simpl. rewrite elem_of_peers by done.
    pose proof (updated_peers_lookup ps add spec (pc_PublicKey p) p Hnd) as Hlk.
    rewrite Hm in Hlk. simpl in Hlk. naive_solver.
  - split_and!; [done| |done]. intros p. pose proof (proj1 Hu eq_refl) as Hf. rewrite Forall_forall in Hf.
    unfold peer_listed. destruct add.
    + split; [naive_solver|]. intros [|[Hn [Hp _]%find_key]]; [done|]. by apply Hf in Hp.
    + split; [|naive_solver]. intros Hp. split; [done|]. intros (q & Hq & Hin)%list_elem_of_fmap.
      apply (Hf q Hin). rewrite <- Hq. by apply list_elem_of_fmap_2.
Qed.

(** An object whose peers are those an update leaves is not written again. *)
Lemma updateReadyPeers_quiet ps add spec spec' :
  NoDup (peer_keys spec') ->
  (forall p, p ∈ gs_ReadyPeerConfigurations spec' <-> peer_listed ps add spec p) ->
  updateReadyPeers ps add spec' = (spec', false).
Proof.
  intros Hnd Hp. unfold updateReadyPeers. fold (updated_peers ps add spec').
  assert ((updated_peers ps add spec').2 = false) as Hu.
  { apply updated_peers_unchanged; [done|]. apply Forall_forall. intros p Hin. destruct add.
    - destruct (decide (pc_PublicKey p ∈ peer_keys spec)) as [(q & Hq & Hqin)%list_elem_of_fmap|Hn].
      + rewrite Hq. apply list_elem_of_fmap_2, Hp. by left.
      + destruct (List.find (with_key (pc_PublicKey p)) ps) as [q|] eqn:Hf.
        * pose proof (find_key _ _ _ Hf) as [_ Hq]. rewrite <- Hq.
          apply list_elem_of_fmap_2, Hp. right. by rewrite Hq.
        * apply find_with_key in Hf. destruct Hf. by apply list_elem_of_fmap_2.
    - intros (q & Hq & [_ Hn]%Hp)%list_elem_of_fmap. apply Hn. rewrite <- Hq. by apply list_elem_of_fmap_2. }
  destruct (updated_peers ps add spec') as [m c]. simpl in Hu. by rewrite Hu.
Qed.

(** The update of a node's ready peers is that of a map from public keys.
    Adding peers keeps those listed and adds the first of each new key; removing
    them takes out exactly the peers with their keys.  The ready gateways are
    untouched, the keys stay distinct, the object is written whenever something
    changes, and repeating the update asks for no write. *)
Theorem ready_peers_update peerConfigs add spec :
  NoDup (peer_keys spec) ->
  exists spec' changed,
    updateReadyPeers peerConfigs add spec = (spec', changed) /\
    gs_ReadyGatewayConfigurations spec' = gs_ReadyGatewayConfigurations spec /\
    NoDup (peer_keys spec') /\
    (forall p, p ∈ gs_ReadyPeerConfigurations spec' <-> peer_listed peerConfigs add spec p) /\
    (changed = false -> spec' = spec) /\
    updateReadyPeers peerConfigs add spec' = (spec', false).
Proof.
  intros Hnd.
  pose proof (updateReadyPeers_result peerConfigs add spec Hnd) as (spec' & changed & He & Hg & Hk' & Hp & Hc).
  exists spec', changed. split_and!; [done..|]. apply updateReadyPeers_quiet with spec; done.
Qed.

(** ** A node with two gateways *)
Definition two_ready : GatewayStatusSpec :=
  {| gs_ReadyGatewayConfigurations :=
       [{| gc_StaticGatewayConfiguration := "ns/gw1"; gc_InterfaceName := "wg-6000" |};
        {| gc_StaticGatewayConfiguration := "ns/gw2"; gc_InterfaceName := "wg-6001" |}];
     gs_ReadyPeerConfigurations :=
       [{| pc_PodEndpoint := "ns/pod1"; pc_InterfaceName := "wg-6000"; pc_PublicKey := "k1" |};
        {| pc_PodEndpoint := "ns/pod2"; pc_InterfaceName := "wg-6001"; pc_PublicKey := "k2" |};
        {| pc_PodEndpoint := "ns/pod3"; pc_InterfaceName := "wg-6000"; pc_PublicKey := "k3" |}] |}.

Definition gone_gateway : GatewayConfiguration :=
  {| gc_StaticGatewayConfiguration := ""; gc_InterfaceName := "wg-6000" |}.

Lemma ready_gateways_update_witness :
  pc_PublicKey <$> gs_ReadyPeerConfigurations (ready_spec gone_gateway false two_ready) = ["k2"] /\
  exists changed, updateReadyGateways gone_gateway false two_ready =
                  (ready_spec gone_gateway false two_ready, changed).
Proof.
  split; [reflexivity|].
  destruct (ready_gateways_update gone_gateway false two_ready) as (c & ? & _); [|by exists c].
  apply (bool_decide_unpack _). vm_compute. exact I.
Defined.

Definition gone_peers : list PeerConfiguration :=
  [{| pc_PodEndpoint := ""; pc_InterfaceName := ""; pc_PublicKey := "k3" |};
   {| pc_PodEndpoint := ""; pc_InterfaceName := ""; pc_PublicKey := "k9" |}].

Lemma ready_peers_update_witness :
  exists spec' changed, updateReadyPeers gone_peers false two_ready = (spec', changed) /\
    updateReadyPeers gone_peers false spec' = (spec', false).
Proof.
  destruct (ready_peers_update gone_peers false two_ready) as (s & c & ? & _ & _ & _ & _ & ?).
  - apply (bool_decide_unpack _). vm_compute. exact I.
  - by exists s, c.
Defined.
