(* ===== verification/DaemonSGC.v ===== *)
(** * The daemon's controller of gateway configurations
      ([controllers/daemon/staticgatewayconfiguration_controller.go])

    On every gateway node the daemon configures the node's network for the
    gateways of its pool: the load balancer's address on [eth0], the gateway
    namespace with one WireGuard link per gateway, the veth pair that joins it to
    the host, and the iptables chains that translate the source addresses.  The
    clean-up removes what belongs to no gateway any more. *)

From stdpp Require Import base tactics list strings gmap sets.
From Stdlib Require Import Ascii ZArith Lia.
From S2P Require Import Prelude GoStrings Types Kube NetIP Network Imds NodeStatus HealthProbe.

Open Scope string_scope.
Open Scope list_scope.

(** The health probe server of the process. *)
Class ProbeServer (W : Type) := {
  probeServer : W -> LBProbeServer;
  setProbeServer : LBProbeServer -> W -> W;
}.

Definition probeAdd {W} `{ProbeServer W} (uid : string) : M W unit :=
  effect (fun w => setProbeServer (AddGateway (probeServer w) uid) w).
Definition probeRemove {W} `{ProbeServer W} (uid : string) : M W unit :=
  effect (fun w => setProbeServer (RemoveGateway (probeServer w) uid) w).

(** ** iptables-restore input *)

(** [writeLine] and [writeRule], as the text they append to the buffer. *)
Definition newline : string := String "010" "".
Definition writeLine (lines : string) (words : list string) : string :=
  lines +:+ (Join words " " +:+ newline).
Definition writeRule (lines position chain : string) (args : list string) : string :=
  writeLine lines ([position; chain] ++ args).

(** The input that sets the rules of a chain, and the one that flushes and deletes
    it. *)
Definition chainLines (table chainLine targetChain : string) (chainRules : list (list string)) : string :=
  let lines := writeLine "" ["*" +:+ table] in
  let lines := writeLine lines [chainLine] in
  let lines := fold_left (fun lines rule => writeRule lines Append targetChain rule) chainRules lines in
  writeLine lines ["COMMIT"].
Definition deleteLines (table chainLine targetChain : string) : string :=
  let lines := writeLine "" ["*" +:+ table] in
  let lines := writeLine lines [chainLine] in
  let lines := writeLine lines ["-X"; targetChain] in
  writeLine lines ["COMMIT"].

(** The arguments of the rule that jumps from one chain to another. *)
Definition jumpRule (comment targetChain : string) : list string :=
  ["-m"; "comment"; "--comment"; comment; "-j"; targetChain].

(** ** Routes *)

(** [equalRoute] *)
Definition equalRoute (r1 r2 : Route) : bool :=
  let size r := Mask_ones (ipn_Mask (Val (rt_Dst r))) in
  (rt_LinkIndex r1 =? rt_LinkIndex r2)%Z && (rt_Scope r1 =? rt_Scope r2)%Z &&
  bool_decide (ipn_IP (Val (rt_Dst r1)) = ipn_IP (Val (rt_Dst r2))) &&
  (size r1 =? size r2)%Z && bool_decide (rt_Gw r1 = rt_Gw r2).

(** The chains and comments of a gateway. *)
Definition snatChain : string := "EGRESS-GATEWAY-SNAT".
Definition noSnatChain (ip : string) : string := "EGRESS-" +:+ ReplaceAll ip "." "-".
Definition noSnatComment (ip : string) : string := "kube-egress-gateway no sNAT packet from ip " +:+ ip.
Definition masqueradeComment : string := "kube-egress-gateway no MASQUERADE".
Definition markChain (mark : Z) : string := "EGRESS-GATEWAY-MARK-" +:+ Itoa mark.
Definition markSnatChain (mark : Z) : string := "EGRESS-GATEWAY-SNAT-" +:+ Itoa mark.
Definition markComment (linkName : string) : string :=
  "kube-egress-gateway mark packets from gateway link " +:+ linkName.
Definition snatComment (linkName : string) : string :=
  "kube-egress-gateway sNAT packets from gateway link " +:+ linkName.

Module daemonsgc.
Section daemonsgc.
Context {W : Type} `{NetNS W} `{NetLink W} `{NetlinkPure} `{IPTables W} `{WgTypes} `{!WgCtrl W}.
Context `{ProbeServer W} `{OsEnv} `{OwnerRefs}.
Context `{Store W StaticGatewayConfiguration} `{Store W GatewayVMConfiguration} `{Store W Secret}.
Context `{Store W GatewayStatus} `{Store W Node}.
(** The node's metadata, read once at start-up. *)
Context (node : NodeState).

(** *** iptables *)

Definition ensureIPTablesChain (thread : netns) (table targetChain sourceChain jumpRuleComment : string)
    (chainRules : list (list string)) : M W unit :=
  do! EnsureChain thread table targetChain
    ?: (wrap ("failed to ensure chain " +:+ targetChain +:+ " in table " +:+ table +:+ ": "));
  do! EnsureRule thread Prepend table sourceChain (jumpRule jumpRuleComment targetChain)
    ?: (wrap ("failed to ensure jump rule from chain " +:+ sourceChain +:+ " to chain " +:+ targetChain
              +:+ " in table " +:+ table +:+ ": "));
  match chainRules with
  | [] => ret tt
  | _ =>
      RestoreAll thread (chainLines table (MakeChainLine targetChain) targetChain chainRules)
        NoFlushTables NoRestoreCounters
        ?: (wrap ("failed to restore rules in chain " +:+ targetChain +:+ " in table " +:+ table +:+ ": "))
  end.

(** One round of the loop over the chains to remove. *)
Definition removeChain (thread : netns) (table : string) (existingChains : gset string)
    (sourceChains jumpRuleComments : list string) (i : nat) (targetChain : string) : M W unit :=
  let! sourceChain := lift (deref (sourceChains !! i)) in
  let! jumpRuleComment := lift (deref (jumpRuleComments !! i)) in
  if decide (targetChain ∈ existingChains) then
    do! DeleteRule thread table sourceChain (jumpRule jumpRuleComment targetChain)
      ?: (wrap ("failed to delete jump rule from chain " +:+ sourceChain +:+ " to chain " +:+ targetChain
                +:+ " in table " +:+ table +:+ ": "));
    Restore thread table (deleteLines table (MakeChainLine targetChain) targetChain)
      NoFlushTables NoRestoreCounters
      ?: (wrap ("failed to restore iptables table " +:+ table +:+ ": "))
  else ret tt.

Definition removeIPTablesChains (thread : netns) (table : string)
    (targetChains sourceChains jumpRuleComments : list string) : M W unit :=
  let! iptablesData := SaveInto thread table
    ?: (wrap ("failed to save iptables data for table " +:+ table +:+ ": ")) in
  let existingChains := GetChainsFromTable iptablesData in
  let! _ := foldM (fun i targetChain =>
      do! removeChain thread table existingChains sourceChains jumpRuleComments i targetChain;
      ret (S i)) targetChains 0 in
  ret tt.

(** *** Routes *)

Definition addOrReplaceRoute (thread : netns) (route : Route) : M W unit :=
  let! routes := RouteList thread None FAMILY_ALL in
  if existsb (fun r => equalRoute r route) routes then ret tt
  else RouteReplace thread route.

(** *** What a gateway needs from the cluster *)

Definition getWireguardPrivateKey (gwConfig : StaticGatewayConfiguration) : M W Key :=
  let! ref := lift (deref (gsp_PrivateKeySecretRef (sgc_GatewayServerProfile (sgc_Status gwConfig)))) in
  let! secret := kGet (Obj := Secret) (nn (ref_Namespace ref) (ref_Name ref))
    ?: (wrap "failed to retrieve wireguard private key secret: ") in
  match sec_Data secret !! consts.WireguardPrivateKeyName with
  | None =>
      throw (EText ("failed to retrieve private key from secret " +:+
                    slashed (ref_Namespace ref) (ref_Name ref)))
  | Some wgPrivateKeyByte => lift (of_sum (ParseKey wgPrivateKeyByte))
  end.

(** The node's primary and secondary address for a gateway. *)
Definition getVMIP (gwConfig : StaticGatewayConfiguration) : M W (string * string) :=
  let! compute := lift (deref (im_Compute (nodeMeta node))) in
  let nodeName := ComputerName (cm_OSProfile compute) in
  let! vmConfig := kGet (Obj := GatewayVMConfiguration) (om_key (sgc_meta gwConfig)) in
  let nicName := nicNameOf (cm_Tags compute) in
  match vmc_Status vmConfig with
  | None =>
      throw (EText ("status is nil for GatewayVMConfiguration " +:+
                    slashed (om_namespace (vmc_meta vmConfig)) (om_name (vmc_meta vmConfig))))
  | Some status =>
      let '(primaryIP, secondaryIP) := profileIPs nodeName nicName (vmc_GatewayVMProfiles status) in
      if String.eqb primaryIP "" || String.eqb secondaryIP "" then
        throw (EText ("failed to find primary or secondary IP for node " +:+ nodeName))
      else ret (primaryIP, secondaryIP)
  end.

(** *** The host's [eth0] *)

Definition nodePrefix : M W Z :=
  let! network := lift (deref (im_Network (nodeMeta node))) in
  match nm_Interface network with
  | {| ni_IPv4 := {| ipd_Subnet := subnet :: _ |} |} :: _ =>
      match Atoi (sn_Prefix subnet) with
      | Some prefix => ret prefix
      | None =>
          throw (wrap "failed to retrieve and parse prefix: " (atoiError (sn_Prefix subnet)))
      end
  | _ => throw (EText "imds does not provide subnet information about the node")
  end.

Definition deleteAddrs (what : string) (eth0 : Link) (addresses : list Addr) (stale : Addr -> outcome bool) :
    M W unit :=
  foldM (fun _ address =>
    let! b := lift (stale address) in
    if b then AddrDel HostNS eth0 address ?: (wrap what) else ret tt) addresses tt.

Definition reconcileIlbIPOnHost (ilbIP : string) : M W unit :=
  let! eth0 := LinkByName HostNS "eth0" ?: (wrap "failed to retrieve link eth0: ") in
  let! prefix := nodePrefix in
  let! addresses := AddrList HostNS eth0 FAMILY_ALL
    ?: (wrap "failed to retrieve IP addresses for eth0: ") in
  if String.eqb ilbIP "" then
    deleteAddrs "failed to delete ILB IP from eth0: " eth0 addresses
      (fun address => Ok (String.eqb (addr_Label address) consts.ILBIPLabel))
  else
    let ilbIpCidr := ilbIP +:+ "/" +:+ Itoa prefix in
    match ParseIPNet ilbIpCidr with
    | inl _ => throw (EText ("failed to parse ILB IP address: " +:+ ilbIpCidr))
    | inr ilbIpNet =>
        let! addressPresent := foldM (fun found address =>
            if (found : bool) then ret true
            else let! ip := lift (addr_IP address) in ret (bool_decide (ip = ipn_IP ilbIpNet)))
          addresses false in
        if addressPresent then ret tt
        else AddrAdd HostNS eth0 (newAddr (Some ilbIpNet) consts.ILBIPLabel)
               ?: (wrap "failed to add ILB IP to eth0: ")
    end.

Definition removeSecondaryIpFromHost (ip : string) : M W unit :=
  let! eth0 := LinkByName HostNS "eth0" ?: (wrap "failed to retrieve link eth0: ") in
  let! addresses := AddrList HostNS eth0 FAMILY_ALL
    ?: (wrap "failed to retrieve IP addresses for eth0: ") in
  deleteAddrs "failed to remove secondary ip from eth0: " eth0 addresses
    (fun address => let? a := addr_IP address in Ok (String.eqb (IP_String a) ip)).

(** *** The WireGuard link *)

(** On an error after its creation, the link is deleted again. *)
Definition createWireguardLink (gwns : netns) (linkName linkAlias : string) : M W unit :=
  let wg := newLink Wireguard linkName linkAlias in
  do! LinkAdd HostNS wg ?: (wrap "failed to create wireguard link: ");
  defer (fun r w => if is_Ok r then w else snd (LinkDel HostNS wg w))
    (let! wgLink := LinkByName HostNS linkName
       ?: (wrap "failed to get wireguard link in host namespace: ") in
     LinkSetNsFd HostNS wgLink gwns
       ?: (wrap "failed to move wireguard link to gateway namespace: ")).

(** Whether one of the addresses is equal to an address; the loop stops at the
    first. *)
Definition hasAddr (addr : Addr) (addrs : list Addr) : M W bool :=
  foldM (fun found a => if (found : bool) then ret true else lift (Addr_Equal a addr)) addrs false.

(** Add an address to a link of the gateway namespace unless it is there. *)
Definition ensureAddr (gwns : netns) (link : Link) (addr : Addr) (what : string) : M W unit :=
  let! addrs := AddrList gwns link FAMILY_ALL
    ?: (wrap "failed to retrieve address list from wireguard link: ") in
  let! found := hasAddr addr addrs in
  if found then ret tt else AddrAdd gwns link addr ?: (wrap what).

Definition configureWireguardLink (gwns : netns) (linkName : string) (port : Z) (privateKey : Key) : M W unit :=
  let! wgLink := LinkByName gwns linkName
    ?: (wrap "failed to get wireguard link in gateway namespace after creation: ") in
  let gwIP := match ParseIPNet consts.GatewayIP with inr n => Some n | inl _ => None end in
  do! ensureAddr gwns wgLink (newAddr gwIP "") "failed to add wireguard link address: ";
  do! LinkSetUp gwns wgLink ?: (wrap "failed to set wireguard link up: ");
  withWgClient gwns (fun wgClient =>
    let! device := wgDevice wgClient linkName
      ?: (wrap "failed to get wireguard link configuration: ") in
    if negb (String.eqb (Key_String (dev_PrivateKey device)) (Key_String privateKey))
       || negb (dev_ListenPort device =? port)%Z
    then
      wgConfigureDevice wgClient linkName
        {| wg_PrivateKey := Some privateKey; wg_ListenPort := Ptr port; wg_Peers := [] |}
        ?: (wrap "failed to add peer to wireguard link: ")
    else ret tt).

Definition reconcileWireguardLink (gwns : netns) (gwConfig : StaticGatewayConfiguration) (privateKey : Key) :
    M W unit :=
  let linkName := getWireguardInterfaceName gwConfig in
  let! wgLink := nsDo gwns
    (let! r := try (LinkByName gwns linkName) in
     match r with
     | inl err =>
         if negb (isLinkNotFound err)
         then throw (wrap "failed to get wireguard link in gateway namespace: " err)
         else ret None
     | inr link => ret (Some link)
     end) in
  do! match wgLink with
      | None =>
          createWireguardLink gwns linkName (om_uid (sgc_meta gwConfig))
            ?: (wrap "failed to create wireguard link: ")
      | Some _ => ret tt
      end;
  nsDo gwns (configureWireguardLink gwns linkName
               (gsp_Port (sgc_GatewayServerProfile (sgc_Status gwConfig))) privateKey).

(** *** The veth pair *)

(** From the host's end of the pair on: the route to the address, and the peer
    into the namespace. *)
Definition joinVethPair (gwns : netns) (snatIP : string) (mainLink : Link) : M W unit :=
  do! LinkSetUp HostNS mainLink ?: (wrap "failed to set veth link in host namespace up: ");
  let! (_, snatIPNet) := lift (of_sum (ParseCIDR (snatIP +:+ "/32")))
    ?: (wrap ("failed to parse SNAT IP " +:+ snatIP +:+ "/32: ")) in
  let route := newRoute (l_Index mainLink) SCOPE_UNIVERSE (Some snatIPNet) None in
  do! addOrReplaceRoute HostNS route
    ?: (wrap ("failed to create route to SNAT IP " +:+ snatIP +:+ " via gateway interface: "));
  defer (fun r w => if is_Ok r then w else snd (RouteDel HostNS route w))
    (let! r := try (LinkByName HostNS consts.HostLinkName) in
     match r with
     | inr hostLink =>
         LinkSetNsFd HostNS hostLink gwns
           ?: (wrap "failed to move veth peer link to gateway namespace: ")
     | inl err =>
         if negb (isLinkNotFound err)
         then throw (wrap "failed to get veth peer link in host namespace: " err)
         else ret tt
     end).

Definition reconcileVethPairInHost (gwns : netns) (snatIP : string) : M W unit :=
  let veth := newLink (Veth consts.HostLinkName) consts.HostVethLinkName "" in
  let! r := try (LinkByName HostNS consts.HostVethLinkName) in
  match r with
  | inl err =>
      if isLinkNotFound err then
        do! LinkAdd HostNS veth ?: (wrap "failed to add veth pair: ");
        defer (fun r w => if is_Ok r then w else snd (LinkDel HostNS veth w))
          (let! mainLink := LinkByName HostNS consts.HostVethLinkName
             ?: (wrap "failed to get veth link in host namespace after creation: ") in
           joinVethPair gwns snatIP mainLink)
      else throw (wrap "failed to get veth link in host namespace: " err)
  | inr mainLink => joinVethPair gwns snatIP mainLink
  end.

Definition reconcileVethPair (gwns : netns) (vmPrimaryIP vmSecondaryIP : string) : M W unit :=
  do! reconcileVethPairInHost gwns vmSecondaryIP
    ?: (wrap "failed to reconcile veth pair in host namespace: ");
  nsDo gwns
    (let! hostLink := LinkByName gwns consts.HostLinkName
       ?: (wrap "failed to get host link in gateway namespace: ") in
     let! (_, snatIPNet) := lift (of_sum (ParseCIDR (vmSecondaryIP +:+ "/32")))
       ?: (wrap ("failed to parse SNAT IP(" +:+ vmSecondaryIP +:+ "/32) for host interface: ")) in
     do! ensureAddr gwns hostLink (newAddr (Some snatIPNet) "")
       "failed to add host link address in gateway namespace: ";
     do! LinkSetUp gwns hostLink ?: (wrap "failed to set host link up: ");
     let! (_, vmSnatCidr) := lift (of_sum (ParseCIDR (vmPrimaryIP +:+ "/32")))
       ?: (wrap ("failed to parse CIDR " +:+ vmPrimaryIP +:+ "/32/32: ")) in
     do! addOrReplaceRoute gwns (newRoute (l_Index hostLink) SCOPE_LINK (Some vmSnatCidr) None)
       ?: (wrap ("failed to create route to VM primary IP " +:+ vmPrimaryIP +:+ " via gateway interface: "));
     addOrReplaceRoute gwns (newRoute (l_Index hostLink) SCOPE_UNIVERSE None (ParseIP vmPrimaryIP))
       ?: (wrap ("failed to create default route via " +:+ vmPrimaryIP +:+ ": "))).

Definition configureGatewayNamespace (gwConfig : StaticGatewayConfiguration) (privateKey : Key)
    (vmPrimaryIP vmSecondaryIP : string) : M W unit :=
  let! gwns := GetNS consts.GatewayNetnsName
    ?: (wrap ("failed to get network namespace " +:+ consts.GatewayNetnsName +:+ ": ")) in
  closing gwns
    (do! reconcileWireguardLink gwns gwConfig privateKey;
     do! reconcileVethPair gwns vmPrimaryIP vmSecondaryIP;
     nsDo gwns
       (let! looplink := LinkByName gwns "lo" ?: (wrap "failed to retrieve link lo: ") in
        do! LinkSetUp gwns looplink ?: (wrap "failed to set lo up: ");
        let linkName := getWireguardInterfaceName gwConfig in
        let! mark := lift (getPacketMark linkName) in
        do! ensureIPTablesChain gwns TableNAT (markChain mark) ChainPrerouting (markComment linkName)
              [["-i"; linkName; "-j"; "CONNMARK"; "--set-mark"; Itoa mark]];
        ensureIPTablesChain gwns TableNAT (markSnatChain mark) ChainPostrouting (snatComment linkName)
          [["-o"; consts.HostLinkName; "-m"; "connmark"; "--mark"; Itoa mark; "-j"; "SNAT";
            "--to-source"; vmSecondaryIP]])).

(** *** Reconciliation of a gateway *)

Definition reconcile (gwConfig : StaticGatewayConfiguration) : M W unit :=
  let! privateKey := getWireguardPrivateKey gwConfig in
  do! reconcileIlbIPOnHost (gsp_Ip (sgc_GatewayServerProfile (sgc_Status gwConfig)));
  let! (vmPrimaryIP, vmSecondaryIP) := getVMIP gwConfig in
  do! removeSecondaryIpFromHost vmSecondaryIP;
  do! ensureIPTablesChain HostNS TableNAT snatChain ChainPostrouting masqueradeComment [];
  do! ensureIPTablesChain HostNS TableNAT (noSnatChain vmSecondaryIP) snatChain
        (noSnatComment vmSecondaryIP) [["-s"; vmSecondaryIP +:+ "/32"; "-j"; "ACCEPT"]];
  do! configureGatewayNamespace gwConfig privateKey vmPrimaryIP vmSecondaryIP;
  do! updateGatewayStatus
        {| gc_StaticGatewayConfiguration :=
             slashed (om_namespace (sgc_meta gwConfig)) (om_name (sgc_meta gwConfig));
           gc_InterfaceName := getWireguardInterfaceName gwConfig |} true;
  probeAdd (om_uid (sgc_meta gwConfig)).

(** *** Clean-up *)

Definition ensureDeleteLink (gwns : netns) (link : Link) : M W unit :=
  let linkName := l_Name link in
  do! nsDo gwns
    (do! LinkDel gwns link ?: (wrap ("failed to delete link " +:+ linkName +:+ ": "));
     let! mark := lift (getPacketMark linkName) in
     removeIPTablesChains gwns TableNAT [markChain mark; markSnatChain mark]
       [ChainPrerouting; ChainPostrouting] [markComment linkName; snatComment linkName]
       ?: (wrap ("failed to cleanup iptables rules for link " +:+ linkName +:+ " and mark "
                 +:+ Itoa mark +:+ ": ")));
  do! updateGatewayStatus
        {| gc_StaticGatewayConfiguration := ""; gc_InterfaceName := linkName |} false;
  probeRemove (l_Alias link).

Definition ensureDeleteIP (gwns : netns) (ip : Addr) : M W unit :=
  let! addr := nsDo gwns
    (let! addr := lift (addr_IP ip) in
     let! hostLink := LinkByName gwns consts.HostLinkName
       ?: (wrap "failed to get host link in gateway namespace: ") in
     do! AddrDel gwns hostLink ip ?: (wrap ("failed to delete IP " +:+ IP_String addr +:+ ": "));
     ret addr) in
  let text := IP_String addr in
  let! routes := RouteList HostNS None FAMILY_ALL
    ?: (wrap "failed to list routes in host namespace: ") in
  do! foldM (fun _ route =>
        match rt_Dst route with
        | Some dst =>
            if bool_decide (ipn_IP dst = addr)
            then RouteDel HostNS route ?: (wrap ("failed to delete route to " +:+ text +:+ ": "))
            else ret tt
        | None => ret tt
        end) routes tt;
  removeIPTablesChains HostNS TableNAT [noSnatChain text] [snatChain] [noSnatComment text]
    ?: (wrap ("failed to clean up no-sNAT rule for vmSecondaryIP " +:+ text +:+ ": ")).

(** The links and addresses of the node's gateways, and whether there is one; a
    gateway whose addresses cannot be determined is left out. *)
Definition activeGateway (st : gset string * gset string * bool) (gwConfig : StaticGatewayConfiguration) :
    M W (gset string * gset string * bool) :=
  let '(existingWgLinks, existingIPs, hasActiveGateway) := st in
  let! applies := lift (applyToNode node gwConfig) in
  if applies && negb (deleting (sgc_meta gwConfig)) then
    let! r := try (getVMIP gwConfig) in
    match r with
    | inl _ => ret st
    | inr (_, vmSecondaryIP) =>
        ret ({[ getWireguardInterfaceName gwConfig ]} ∪ existingWgLinks,
             {[ vmSecondaryIP ]} ∪ existingIPs, true)
    end
  else ret st.

(** The links of the gateway namespace and the addresses of [host0]. *)
Definition gatewayLinksAndIPs (gwns : netns) : M W (list Link * list Addr) :=
  let! links := LinkList gwns ?: (wrap "failed to list links in gateway namespace: ") in
  let! hostLink := LinkByName gwns consts.HostLinkName
    ?: (wrap "failed to get host link in gateway namespace: ") in
  let! ips := AddrList gwns hostLink FAMILY_ALL
    ?: (wrap "failed to list addresses on host0 in gateway namespace: ") in
  ret (links, ips).

(** Errors of a single removal are logged only. *)
Definition removeOrphanIP (gwns : netns) (existingIPs : gset string) (ip : Addr) : M W unit :=
  let! addr := lift (addr_IP ip) in
  if decide (IP_String addr ∈ existingIPs) then ret tt
  else let! _ := try (ensureDeleteIP gwns ip) in ret tt.

Definition removeOrphanLink (gwns : netns) (existingWgLinks : gset string) (link : Link) : M W unit :=
  if HasPrefix (l_Name link) consts.WiregaurdLinkNamePrefix then
    if decide (l_Name link ∈ existingWgLinks) then ret tt
    else let! _ := try (ensureDeleteLink gwns link) in ret tt
  else ret tt.

Definition cleanUp : M W unit :=
  let! gwConfigList := kList (Obj := StaticGatewayConfiguration)
    ?: (wrap "failed to list staticGatewayConfigurations: ") in
  let! (existingWgLinks, existingIPs, hasActiveGateway) :=
    foldM activeGateway gwConfigList (∅, ∅, false) in
  let! gwns := GetNS consts.GatewayNetnsName
    ?: (wrap ("failed to get network namespace " +:+ consts.GatewayNetnsName +:+ ": ")) in
  closing gwns
    (let! (links, ips) := nsDo gwns (gatewayLinksAndIPs gwns) in
     do! foldM (fun _ ip => removeOrphanIP gwns existingIPs ip) ips tt;
     do! foldM (fun _ link => removeOrphanLink gwns existingWgLinks link) links tt;
     if negb hasActiveGateway then
       do! reconcileIlbIPOnHost "" ?: (wrap "failed to cleanup ILB IP on host: ");
       removeIPTablesChains HostNS TableNAT [snatChain] [ChainPostrouting] [masqueradeComment]
         ?: (wrap "failed to delete iptables chain EGRESS-GATEWAY-SNAT: ")
     else ret tt).

(** *** [Reconcile] *)

Definition Reconcile (req : NamespacedName) : M W unit :=
  if String.eqb (nn_namespace req) "" && String.eqb (nn_name req) "" then
    cleanUp ?: (wrap "failed to clean up orphaned network configurations: ")
  else
    let! r := try (kGet (Obj := StaticGatewayConfiguration) req) in
    match r with
    | inl err => if IsNotFound err then ret tt else throw err
    | inr gwConfig =>
        if negb (isReady gwConfig) then ret tt
        else
          let! applies := lift (applyToNode node gwConfig) in
          if negb applies then ret tt
          else if deleting (sgc_meta gwConfig) then
            cleanUp ?: (wrap ("failed to clean up deleted StaticGatewayConfiguration " +:+
                        slashed (om_namespace (sgc_meta gwConfig)) (om_name (sgc_meta gwConfig)) +:+ ": "))
          else reconcile gwConfig
    end.
End daemonsgc.
End daemonsgc.

(** ** Frames

    [NodeKeeps P]: no call of the daemon's clean-up falsifies [P], the deletion of
    links and addresses and the configuration of WireGuard devices aside, about
    which each theorem says what it needs. *)
Section node_keeps.
Context {W : Type} `{NetNS W} `{NetLink W} `{NetlinkPure} `{IPTables W} `{WgTypes} `{!WgCtrl W}.
Context `{ProbeServer W} `{OsEnv} `{OwnerRefs}.
Context `{Store W StaticGatewayConfiguration} `{Store W GatewayVMConfiguration} `{Store W Secret}.
Context `{Store W GatewayStatus} `{Store W Node}.

Class NodeKeeps (P : W -> Prop) := {
  nk_getNS p : keeps P (nsGetNS p);
  nk_close n : keeps P (nsClose n);
  nk_enter n : keeps P (nsEnter n);
  nk_linkByName n s : keeps P (LinkByName n s);
  nk_linkList n : keeps P (LinkList n);
  nk_addrList n l f : keeps P (AddrList n l f);
  nk_routeDel n r : keeps P (RouteDel n r);
  nk_routeList n l f : keeps P (RouteList n l f);
  nk_deleteRule n t c a : keeps P (DeleteRule n t c a);
  nk_saveInto n t : keeps P (SaveInto n t);
  nk_restore n t d f c : keeps P (Restore n t d f c);
  nk_wgNew n : keeps P (wgNew n);
  nk_wgDevice c s : keeps P (wgDevice c s);
  nk_wgClose c : keeps P (wgClose c);
  nk_getSGC k : keeps P (kGet (Obj := StaticGatewayConfiguration) k);
  nk_listSGC : keeps P (kList (Obj := StaticGatewayConfiguration));
  nk_getVMC k : keeps P (kGet (Obj := GatewayVMConfiguration) k);
  nk_getSecret k : keeps P (kGet (Obj := Secret) k);
  nk_getStatus k : keeps P (kGet (Obj := GatewayStatus) k);
  nk_createStatus o : keeps P (kCreate (Obj := GatewayStatus) o);
  nk_updateStatus o : keeps P (kUpdate (Obj := GatewayStatus) o);
  nk_getNode k : keeps P (kGet (Obj := Node) k);
}.

(** The calls that set up a gateway, which the clean-up does not make. *)
Class SetupKeeps (P : W -> Prop) := {
  nk_linkAdd n l : keeps P (LinkAdd n l);
  nk_linkSetUp n l : keeps P (LinkSetUp n l);
  nk_linkSetNsFd l m : keeps P (LinkSetNsFd HostNS l m);
  nk_addrAdd n l a : keeps P (AddrAdd n l a);
  nk_routeReplace n r : keeps P (RouteReplace n r);
  nk_ensureChain n t c : keeps P (EnsureChain n t c);
  nk_ensureRule n p t c a : keeps P (EnsureRule n p t c a);
  nk_restoreAll n d f c : keeps P (RestoreAll n d f c);
}.
End node_keeps.
#[export] Hint Resolve nk_getNS nk_close nk_enter nk_linkByName nk_linkAdd nk_linkList nk_linkSetUp
  nk_linkSetNsFd nk_addrList nk_addrAdd nk_routeReplace nk_routeDel nk_routeList nk_ensureChain
  nk_ensureRule nk_deleteRule nk_saveInto nk_restore nk_restoreAll nk_wgNew nk_wgDevice
  nk_wgClose nk_getSGC nk_listSGC nk_getVMC nk_getSecret nk_getStatus nk_createStatus nk_updateStatus
  nk_getNode : keeps.

Section daemon_keeps.
Context {W : Type} `{NetNS W} `{NetLink W} `{NetlinkPure} `{IPTables W} `{WgTypes} `{!WgCtrl W}.
Context `{ProbeServer W} `{OsEnv} `{OwnerRefs}.
Context `{Store W StaticGatewayConfiguration} `{Store W GatewayVMConfiguration} `{Store W Secret}.
Context `{Store W GatewayStatus} `{Store W Node}.
Context (node : NodeState) (P : W -> Prop) `{!NodeKeeps P}.

Lemma keeps_closing {A} gwns (c : M W A) : keeps P c -> keeps P (closing gwns c).
Proof. intros Hc. apply keeps_defer; [done|]. intros _ w. apply nk_close. Qed.

Lemma keeps_nsDo {A} gwns (c : M W A) : keeps P c -> keeps P (nsDo gwns c).
Proof. intros Hc. unfold nsDo. keeps_tac. Qed.

Lemma keeps_withWgClient {A} thread (c : WgClient -> M W A) :
  (forall cl, keeps P (c cl)) -> keeps P (withWgClient thread c).
Proof.
  intros Hc. unfold withWgClient. apply keeps_bind; [keeps_tac|]. intros cl.
  apply keeps_defer; [done|]. intros _ w. apply nk_wgClose.
Qed.

Lemma keeps_GetNS name : keeps P (GetNS name).
Proof. unfold GetNS, GetNSByPath. keeps_tac. Qed.

Lemma keeps_removeIPTablesChains thread t tcs scs cs :
  keeps P (daemonsgc.removeIPTablesChains thread t tcs scs cs).
Proof. unfold daemonsgc.removeIPTablesChains, daemonsgc.removeChain. keeps_tac. Qed.

Lemma keeps_getWireguardPrivateKey g : keeps P (daemonsgc.getWireguardPrivateKey g).
Proof. unfold daemonsgc.getWireguardPrivateKey. keeps_tac. Qed.

Lemma keeps_getVMIP g : keeps P (daemonsgc.getVMIP node g).
Proof. unfold daemonsgc.getVMIP. keeps_tac. Qed.

Lemma keeps_updateNodeStatus fresh upd add : keeps P (updateNodeStatus fresh upd add).
Proof. unfold updateNodeStatus. keeps_tac. Qed.

Context `{!SetupKeeps P}.

Lemma keeps_ensureIPTablesChain thread t tc sc c rules :
  keeps P (daemonsgc.ensureIPTablesChain thread t tc sc c rules).
Proof. unfold daemonsgc.ensureIPTablesChain. keeps_tac. Qed.

Lemma keeps_addOrReplaceRoute thread r : keeps P (daemonsgc.addOrReplaceRoute thread r).
Proof. unfold daemonsgc.addOrReplaceRoute. keeps_tac. Qed.
End daemon_keeps.
#[export] Hint Resolve keeps_GetNS keeps_ensureIPTablesChain keeps_removeIPTablesChains
  keeps_addOrReplaceRoute keeps_getWireguardPrivateKey keeps_getVMIP keeps_updateNodeStatus : keeps.

(** [keeps_tac] through the combinators of [Network]. *)
Ltac node_tac :=
  repeat (progress (keeps_tac; try (intros; match goal with
    | |- keeps _ (nsDo _ _) => apply keeps_nsDo; [typeclasses eauto|]
    | |- keeps _ (closing _ _) => apply keeps_closing; [typeclasses eauto|]
    | |- keeps _ (withWgClient _ _) => apply keeps_withWgClient; [typeclasses eauto|]
    | Hw : ?P ?w |- ?P (if is_Ok ?r then ?w else snd (?c ?w)) => destruct (is_Ok r); [exact Hw|]
    | Hw : ?P ?w |- ?P (snd (?c ?w)) =>
        let Hk := fresh in assert (keeps P c) as Hk; [|exact (Hk w Hw)]
    end))).

(** ** Serving a gateway *)
Section serving.
Context {W : Type} `{NetNS W} `{NetLink W} `{NetlinkPure} `{IPTables W} `{WgTypes} `{!WgCtrl W}.
Context `{ProbeServer W} `{OsEnv} `{OwnerRefs}.
Context `{Store W StaticGatewayConfiguration} `{Store W GatewayVMConfiguration} `{Store W Secret}.
Context `{Store W GatewayStatus} `{Store W Node}.
Context (node : NodeState) (P : W -> Prop) `{!NodeKeeps P}.
Context (HaddrDel : forall n l a, keeps P (AddrDel n l a)).

Lemma keeps_deleteAddrs what eth0 l stale : keeps P (daemonsgc.deleteAddrs what eth0 l stale).
Proof using All. unfold daemonsgc.deleteAddrs. node_tac. Qed.
#[local] Hint Resolve keeps_deleteAddrs : keeps.

(** Without an address, only addresses are removed. *)
Lemma keeps_cleanIlbIPOnHost : keeps P (daemonsgc.reconcileIlbIPOnHost node "").
Proof using All.
  unfold daemonsgc.reconcileIlbIPOnHost, daemonsgc.nodePrefix. cbn [String.eqb]. node_tac.
Qed.

Context `{!SetupKeeps P}.

Lemma keeps_reconcileIlbIPOnHost ip : keeps P (daemonsgc.reconcileIlbIPOnHost node ip).
Proof using All.
  unfold daemonsgc.reconcileIlbIPOnHost, daemonsgc.nodePrefix. node_tac.
Qed.

Lemma keeps_removeSecondaryIpFromHost ip : keeps P (daemonsgc.removeSecondaryIpFromHost ip).
Proof using All. unfold daemonsgc.removeSecondaryIpFromHost. node_tac. Qed.

Context (HlinkDel : forall n l, keeps P (LinkDel n l)).
Context (HwgConf : forall c s cfg, keeps P (wgConfigureDevice c s cfg)).

Lemma keeps_configureGatewayNamespace g k p s : keeps P (daemonsgc.configureGatewayNamespace g k p s).
Proof using All.
  unfold daemonsgc.configureGatewayNamespace, daemonsgc.reconcileWireguardLink,
    daemonsgc.createWireguardLink, daemonsgc.configureWireguardLink, daemonsgc.reconcileVethPair,
    daemonsgc.reconcileVethPairInHost, daemonsgc.joinVethPair, daemonsgc.ensureAddr, daemonsgc.hasAddr.
  node_tac.
Qed.
End serving.

(** Code that keeps [P] unless it returns without an error, when it establishes
    [Q]. *)
Definition ends_with {W A} (P Q : W -> Prop) (c : M W A) : Prop := forall w, P w ->
  match c w with (Ok _, w') => Q w' | (_, w') => P w' end.

Lemma ends_bind {W A B} (P Q : W -> Prop) (c : M W A) (k : A -> M W B) :
  keeps P c -> (forall a, ends_with P Q (k a)) -> ends_with P Q (bind c k).
Proof.
  intros Hc Hk w Hw. specialize (Hc w Hw). unfold bind.
  destruct (c w) as [[a|e|] w1]; [by apply Hk|done..].
Qed.

Ltac ends_tac :=
  repeat (apply ends_bind; [|intros]);
  try solve [keeps_tac | by apply keeps_reconcileIlbIPOnHost | by apply keeps_removeSecondaryIpFromHost
            | by apply keeps_configureGatewayNamespace | by apply keeps_updateNodeStatus].

(** C21: the daemon answers the load balancer's health probe for a gateway only
    once the gateway is set up.  For a gateway that was not served before,
    [reconcile] returns without an error exactly when the gateway is served
    afterwards: an error at any step, and there are over twenty, leaves the node
    out of the load balancer's rotation. The calls to the cluster, to the network
    and to WireGuard are assumed not to touch the probe server. *)
Theorem served_iff_reconciled {W} `{NetNS W} `{NetLink W} `{NetlinkPure} `{IPTables W} `{WgTypes}
    `{!WgCtrl W} `{ProbeServer W} `{OsEnv} `{OwnerRefs} `{Store W StaticGatewayConfiguration}
    `{Store W GatewayVMConfiguration} `{Store W Secret} `{Store W GatewayStatus} `{Store W Node}
    node gwConfig w r w' :
  let unserved w := om_uid (sgc_meta gwConfig) ∉ activeGateways (probeServer w) in
  NodeKeeps unserved -> SetupKeeps unserved -> (forall n l, keeps unserved (LinkDel n l)) ->
  (forall n l a, keeps unserved (AddrDel n l a)) ->
  (forall c s cfg, keeps unserved (wgConfigureDevice c s cfg)) ->
  (forall s w, probeServer (setProbeServer s w) = s) ->
  daemonsgc.reconcile node gwConfig w = (r, w') -> unserved w ->
  (r = Ok tt <-> ~ unserved w').
Proof.
  intros unserved Hk Hs Hld Had Hwg Hset Hrun Hw.
  assert (ends_with unserved (fun w => ~ unserved w) (daemonsgc.reconcile node gwConfig)) as He.
  { unfold daemonsgc.reconcile. ends_tac. destruct a1 as [p s]. ends_tac.
    intros w0 _. unfold probeAdd, effect, unserved. rewrite Hset. simpl. set_solver. }
  specialize (He w Hw). rewrite Hrun in He. destruct r as [[]|e|]; naive_solver.
Qed.

(** ** Clean-up *)

(** The rest of the code may use what a call returned. *)
Lemma keeps_bind_post {W A B} (P : W -> Prop) (c : M W A) (k : A -> M W B) :
  keeps P c -> (forall w a w', P w -> c w = (Ok a, w') -> keeps P (k a)) -> keeps P (bind c k).
Proof.
  intros Hc Hk w Hw. pose proof (Hc w Hw) as Hw1. specialize (Hk w). unfold bind.
  destruct (c w) as [[a|e|] w1]; [by eapply Hk|done..].
Qed.

Lemma kept {W A} (P : W -> Prop) (c : M W A) w r w' : keeps P c -> c w = (r, w') -> P w -> P w'.
Proof. intros Hc Hr Hw. specialize (Hc w Hw). by rewrite Hr in Hc. Qed.

(** What one element of a loop establishes holds after the loop, if the others
    keep it. *)
Lemma foldM_establishes {W A B} (Q : W -> Prop) (f : B -> A -> M W B) x l b w b' w' :
  (forall b a, keeps Q (f b a)) -> (forall b w, Q (snd (f b x w))) -> x ∈ l ->
  foldM f l b w = (Ok b', w') -> Q w'.
Proof.
  intros Hk Hx. revert b w. induction l as [|a l IH]; intros b w; [by intros ?%not_elem_of_nil|].
  intros [->|Hin]%elem_of_cons; simpl; intros (b1 & w1 & Hf & Hrest)%bind_Ok_inv; [|by eapply IH].
  pose proof (keeps_foldM Q f l b1 Hk w1) as Hq. rewrite Hrest in Hq. apply Hq.
  specialize (Hx b w). by rewrite Hf in Hx.
Qed.

Section cleanup.
Context {W : Type} `{NetNS W} `{NetLink W} `{NetlinkPure} `{IPTables W} `{WgTypes} `{!WgCtrl W}.
Context `{ProbeServer W} `{OsEnv} `{OwnerRefs}.
Context `{Store W StaticGatewayConfiguration} `{Store W GatewayVMConfiguration} `{Store W Secret}.
Context `{Store W GatewayStatus} `{Store W Node}.
Context (node : NodeState).

(** A gateway of this node that is not being deleted. *)
Definition active (g : StaticGatewayConfiguration) : Prop :=
  applyToNode node g = Ok true /\ deleting (sgc_meta g) = false.

Lemma activeGateway_step (P : W -> Prop) g links ips b w links1 ips1 b1 w1 :
  daemonsgc.activeGateway node (links, ips, b) g w = (Ok (links1, ips1, b1), w1) ->
  (forall n, n ∈ links1 -> n ∈ links \/ (active g /\ n = getWireguardInterfaceName g)) /\
  links ⊆ links1 /\ ips ⊆ ips1 /\ (b = true -> b1 = true) /\
  (forall s, active g -> P w -> (forall w, P w -> exists p w', daemonsgc.getVMIP node g w = (Ok (p, s), w')) ->
     getWireguardInterfaceName g ∈ links1 /\ s ∈ ips1 /\ b1 = true).
Proof.
  unfold daemonsgc.activeGateway. intros Hstep. go_inv.
  destruct (a && negb (deleting (sgc_meta g))) eqn:Hact.
  - apply andb_true_iff in Hact as [-> Hdel%negb_true_iff]. go_inv.
    destruct a as [e|[p0 s0]]; go_inv.
    + split_and!; try done; [by left|]. intros s _ Hw Hs. destruct (Hs w0 Hw) as (p & w2 & Hg). congruence.
    + assert (active g) by done. split_and!; [set_solver|set_solver|set_solver|done|]. intros s _ Hw Hs.
      destruct (Hs w0 Hw) as (p & w2 & Hg). assert (s0 = s) as -> by congruence. set_solver.
  - go_inv. split_and!; try done; [by left|]. intros s [Happ Hdel] _ _.
    assert (a = true) as -> by congruence. by rewrite Hdel in Hact.
Qed.

(** What the loop over the gateways collects: the links of active gateways only,
    and those of every gateway whose addresses are known. *)
Lemma activeGateway_collects (P : W -> Prop) l links ips b w links' ips' b' w' :
  foldM (daemonsgc.activeGateway node) l (links, ips, b) w = (Ok (links', ips', b'), w') ->
  (forall n, n ∈ links' -> n ∈ links \/ exists g, g ∈ l /\ active g /\ n = getWireguardInterfaceName g) /\
  links ⊆ links' /\ ips ⊆ ips' /\ (b = true -> b' = true) /\
  (forall g s, g ∈ l -> active g -> P w -> (forall g, keeps P (daemonsgc.getVMIP node g)) ->
     (forall w, P w -> exists p w', daemonsgc.getVMIP node g w = (Ok (p, s), w')) ->
     getWireguardInterfaceName g ∈ links' /\ s ∈ ips' /\ b' = true).
Proof.
  revert links ips b w. induction l as [|g l IH]; intros links ips b w; simpl.
  { intros [= <- <- <- <-]. split_and!; try done; [by left|]. intros ? ? ?%not_elem_of_nil. done. }
  intros ([[links1 ips1] b1] & w1 & Hstep & Hrest)%bind_Ok_inv.
  apply IH in Hrest as (R1 & R2 & R3 & R4 & R5). clear IH.
  pose proof (activeGateway_step P _ _ _ _ _ _ _ _ _ Hstep) as (G1 & G2 & G3 & G4 & G5).
  split_and!.
  - intros n [Hn|(g' & Hin & Hg)]%R1; [|right; exists g'; set_solver].
    apply G1 in Hn as [?|[Ha ->]]; [by left|]. right. exists g. set_solver.
  - set_solver.
  - set_solver.
  - naive_solver.
  - intros g' s [->|Hin]%elem_of_cons Ha Hw Hkg Hs.
    2: { eapply R5; [done..| |done|done]. eapply kept; [|exact Hstep|done].
         unfold daemonsgc.activeGateway. keeps_tac. }
    destruct (G5 s Ha Hw Hs) as (?&?&?).
    split_and!; [set_solver|set_solver|naive_solver].
Qed.
(** *** What is removed *)
Section removal.
Context (P : W -> Prop) `{!NodeKeeps P} (Hset : forall s w, P w -> P (setProbeServer s w)).

Lemma keeps_probeRemove uid : keeps P (probeRemove uid).
Proof using All. apply keeps_effect. auto. Qed.

Lemma keeps_ensureDeleteLink gwns link :
  keeps P (LinkDel gwns link) -> keeps P (daemonsgc.ensureDeleteLink gwns link).
Proof using All.
  intros Hdel. unfold daemonsgc.ensureDeleteLink, updateGatewayStatus.
  node_tac. intros. apply keeps_probeRemove.
Qed.

Lemma keeps_ensureDeleteIP gwns ip :
  (forall l, keeps P (AddrDel gwns l ip)) -> keeps P (daemonsgc.ensureDeleteIP gwns ip).
Proof using All. intros Hdel. unfold daemonsgc.ensureDeleteIP. node_tac. Qed.

Lemma keeps_activeGateway st g : keeps P (daemonsgc.activeGateway node st g).
Proof using All. unfold daemonsgc.activeGateway. destruct st as [[? ?] ?]. node_tac. Qed.

Lemma keeps_gatewayLinksAndIPs gwns : keeps P (daemonsgc.gatewayLinksAndIPs gwns).
Proof using All. unfold daemonsgc.gatewayLinksAndIPs. node_tac. Qed.

(** A removal is attempted only for what no active gateway uses. *)
Lemma keeps_removeOrphanIP gwns ips a :
  (forall l ip, addr_IP a = Ok ip -> IP_String ip ∉ ips -> keeps P (AddrDel gwns l a)) ->
  keeps P (daemonsgc.removeOrphanIP gwns ips a).
Proof using All.
  intros Hdel. unfold daemonsgc.removeOrphanIP. apply keeps_bind_post; [keeps_tac|].
  intros w4 ip w5 _ Hip. go_inv. case_decide as Hne; [keeps_tac|].
  apply keeps_bind; [|keeps_tac]. apply keeps_try, keeps_ensureDeleteIP. eauto.
Qed.

Lemma keeps_removeOrphanLink gwns links link :
  (l_Name link ∉ links -> keeps P (LinkDel gwns link)) ->
  keeps P (daemonsgc.removeOrphanLink gwns links link).
Proof using All.
  intros Hdel. unfold daemonsgc.removeOrphanLink. destruct HasPrefix; [|keeps_tac].
  case_decide as Hne; [keeps_tac|]. apply keeps_bind; [|keeps_tac].
  apply keeps_try, keeps_ensureDeleteLink. auto.
Qed.

Lemma removeOrphanLink_establishes gwns links link w :
  (forall w, exists w1, nsEnter gwns w = (Ok tt, w1)) ->
  (forall w, exists w1, LinkDel gwns link w = (Ok tt, w1) /\ P w1) ->
  HasPrefix (l_Name link) consts.WiregaurdLinkNamePrefix = true -> l_Name link ∉ links ->
  P (snd (daemonsgc.removeOrphanLink gwns links link w)).
Proof using All.
  intros Hns Hdel Hpre Hno. unfold daemonsgc.removeOrphanLink. rewrite Hpre, decide_False by done.
  destruct (Hns w) as [w1 Hw1], (Hdel w1) as (w2 & Hw2 & HP).
  assert (P (snd (daemonsgc.ensureDeleteLink gwns link w))) as Hd.
  { unfold daemonsgc.ensureDeleteLink, nsDo.
    set (k1 := fun mark => daemonsgc.removeIPTablesChains gwns _ _ _ _ ?: _).
    unfold bind at 1 2, on_err at 1. rewrite Hw1. unfold bind at 1. rewrite Hw2.
    assert (keeps P (let! mark := lift (getPacketMark (l_Name link)) in k1 mark)) as Hk1 by (unfold k1; node_tac).
    specialize (Hk1 w2 HP). destruct bind as [[u|e|] w3]; [|done..].
    refine (_ w3 Hk1). unfold updateGatewayStatus. node_tac. intros. apply keeps_probeRemove. }
  unfold bind, try. by destruct daemonsgc.ensureDeleteLink as [[] ?].
Qed.
End removal.
End cleanup.
#[export] Hint Resolve keeps_activeGateway keeps_gatewayLinksAndIPs : keeps.


(** The gateway namespace. *)
Definition gatewayNS : netns := PathNS (nsBaseDir +:+ "/" +:+ consts.GatewayNetnsName).

(** C25: the clean-up removes what no gateway uses.  Let [link] be a WireGuard link
    of the gateway namespace that is not the link of any active gateway, which the
    listing of links shows as long as it is there, and whose deletion does not
    fail.  A clean-up that returns without an error has deleted it, even if the
    removal of other links or addresses failed. *)
Theorem cleanUp_removes_orphan {W} `{NetNS W} `{NetLink W} `{NetlinkPure} `{IPTables W} `{WgTypes}
    `{!WgCtrl W} `{ProbeServer W} `{OsEnv} `{OwnerRefs} `{Store W StaticGatewayConfiguration}
    `{Store W GatewayVMConfiguration} `{Store W Secret} `{Store W GatewayStatus} `{Store W Node}
    node (gone : W -> Prop) link w w' :
  NodeKeeps gone -> (forall srv w, gone w -> gone (setProbeServer srv w)) ->
  (forall n l, keeps gone (LinkDel n l)) -> (forall n l a, keeps gone (AddrDel n l a)) ->
  (forall w, exists w1, nsEnter gatewayNS w = (Ok tt, w1)) ->
  (forall w l w1, LinkList gatewayNS w = (Ok l, w1) -> link ∈ l \/ gone w1) ->
  (forall w, exists w1, LinkDel gatewayNS link w = (Ok tt, w1) /\ gone w1) ->
  HasPrefix (l_Name link) consts.WiregaurdLinkNamePrefix = true ->
  (forall l w1, kList w = (Ok l, w1) ->
     Forall (fun g => active node g -> getWireguardInterfaceName g <> l_Name link) l) ->
  daemonsgc.cleanUp node w = (Ok tt, w') -> gone w'.
Proof.
  intros Hk Hset Hld Had Hns Hlist Hdel Hpre Horph Hrun. unfold daemonsgc.cleanUp in Hrun. go_inv.
  apply Horph in Hc. destruct a0 as [[links ips] b].
  apply (activeGateway_collects node gone) in Hc0 as (Honly & _).
  assert (l_Name link ∉ links) as Hno.
  { intros [?|(g & Hg & Hact & Heq)]%Honly; [set_solver|]. rewrite Forall_forall in Hc. by eapply Hc. }
  go_inv. unfold GetNS, GetNSByPath in Hc0. go_inv. fold gatewayNS in *.
  unfold closing in Hrun. go_inv. apply nk_close. destruct a0 as [links1 ips1].
  assert (link ∈ links1 \/ gone w4) as Hcase.
  { unfold nsDo, daemonsgc.gatewayLinksAndIPs in Hc0. go_inv.
    match goal with HL : LinkList _ _ = _ |- _ => apply Hlist in HL as [?|Hg]; [by left|right] end.
    eapply kept; [|done|]; [keeps_tac|]. eapply kept; [|done|]; [keeps_tac|done]. }
  go_inv. eapply kept; [|done|].
  { destruct b; cbn [negb]; node_tac. by apply keeps_cleanIlbIPOnHost. }
  assert (forall (_ : unit) l, keeps gone (daemonsgc.removeOrphanLink gatewayNS links l)) as Hkl.
  { intros _ l. apply keeps_removeOrphanLink; auto. }
  destruct Hcase as [Hin|Hg].
  - refine (foldM_establishes gone _ link links1 _ _ _ _ Hkl _ Hin Hc3). intros _ w7.
    by apply removeOrphanLink_establishes.
  - eapply kept; [|done|]; [by apply keeps_foldM|]. eapply kept; [|done|done].
    apply keeps_foldM. intros _ ip. apply keeps_removeOrphanIP; auto.
Qed.

(** ** The text given to iptables-restore *)

Lemma string_app_assoc (s t u : string) : (s +:+ t) +:+ u = s +:+ (t +:+ u).
Proof.
  induction s as [|c s IH]; [done|].
  change ((String c s +:+ t) +:+ u) with (String c ((s +:+ t) +:+ u)).
  change (String c s +:+ (t +:+ u)) with (String c (s +:+ (t +:+ u))). by rewrite IH.
Qed.

(** Splitting the joined words gives them back. *)
Lemma Split_Join sep l :
  l <> [] -> Forall (fun s => no_byte sep s = true) l -> Split (Join l (String sep "")) sep = l.
Proof.
  intros Hne. induction 1 as [|s l Hs Hl IH]; [done|]. destruct l as [|t l]; [by apply Split_no_byte|].
  change (Join (s :: t :: l) (String sep "")) with (s +:+ String sep (Join (t :: l) (String sep ""))).
  rewrite Split_app by done. by rewrite IH.
Qed.

(** Lines are appended to lines. *)
Lemma Split_writeLine lines ls words :
  lines = Join (ls ++ [""]) newline -> Forall (fun s => no_byte "010" s = true) ls ->
  no_byte "010" (Join words " ") = true ->
  writeLine lines words = Join ((ls ++ [Join words " "]) ++ [""]) newline /\
  Forall (fun s => no_byte "010" s = true) (ls ++ [Join words " "]).
Proof.
  intros -> Hls Hw. split; [|by apply Forall_app_2; [|constructor]]. unfold writeLine. clear Hls.
  induction ls as [|s ls IH].
  { simpl. unfold newline. by rewrite string_app_nil_r. }
  assert (forall x y l, Join (x :: y :: l) newline = x +:+ (newline +:+ Join (y :: l) newline)) as Hj by done.
  destruct ls as [|t ls]; cbn [app] in *; rewrite !Hj, !string_app_assoc;
    rewrite ?Hj, ?string_app_assoc in IH; (done || by rewrite <- IH).
Qed.

Lemma no_byte_Join c sep l :
  no_byte c sep = true -> Forall (fun s => no_byte c s = true) l -> no_byte c (Join l sep) = true.
Proof.
  intros Hsep. induction 1 as [|s l Hs Hl IH]; [done|]. destruct l as [|t l]; [done|].
  change (Join (s :: t :: l) sep) with (s +:+ sep +:+ Join (t :: l) sep).
  by rewrite !no_byte_app, Hs, Hsep, IH.
Qed.

Definition plain (s : string) : Prop := no_byte "010" s = true /\ no_byte " " s = true.

(** The line of a rule. *)
Definition ruleLine (targetChain : string) (rule : list string) : string :=
  Join (Append :: targetChain :: rule) " ".

Lemma writeRules_Join targetChain rules lines ls :
  lines = Join (ls ++ [""]) newline -> Forall (fun s => no_byte "010" s = true) ls ->
  Forall (fun rule => no_byte "010" (ruleLine targetChain rule) = true) rules ->
  fold_left (fun lines rule => writeRule lines Append targetChain rule) rules lines =
    Join ((ls ++ map (ruleLine targetChain) rules) ++ [""]) newline /\
  Forall (fun s => no_byte "010" s = true) (ls ++ map (ruleLine targetChain) rules).
Proof.
  intros Hl F Hrs. revert lines ls Hl F. induction Hrs as [|rule rules Hr Hrs IH]; intros lines ls Hl F.
  - by rewrite app_nil_r.
  - destruct (Split_writeLine lines ls (Append :: targetChain :: rule) Hl F Hr) as [E1 F1].
    specialize (IH _ _ E1 F1). by rewrite <- !(assoc_L (++)) in *.
Qed.

Lemma plain_ruleLine targetChain rule :
  plain targetChain -> Forall plain rule ->
  no_byte "010" (ruleLine targetChain rule) = true /\
  Split (ruleLine targetChain rule) " " = Append :: targetChain :: rule.
Proof.
  intros Hc Hr. split.
  - apply no_byte_Join; [done|]. constructor; [done|]. constructor; [apply Hc|].
    eapply Forall_impl; [exact Hr|]. by intros s [].
  - apply Split_Join; [done|]. constructor; [done|]. constructor; [apply Hc|].
    eapply Forall_impl; [exact Hr|]. by intros s [].
Qed.

(** What the daemon writes for iptables-restore is read back as meant.  For a chain and
    rules whose words have no blank and no line break, the text consists of the table's
    line, the chain's line, one line per rule and the commit, and each rule's line splits
    into [-A], the chain and the words of the rule. *)
Lemma chainLines_read table chainLine targetChain chainRules :
  no_byte "010" table = true -> no_byte "010" chainLine = true -> plain targetChain ->
  Forall (Forall plain) chainRules ->
  exists ruleLines,
    Split (chainLines table chainLine targetChain chainRules) "010" =
      ("*" +:+ table) :: chainLine :: ruleLines ++ ["COMMIT"; ""] /\
    map (fun line => Split line " ") ruleLines = map (fun rule => Append :: targetChain :: rule) chainRules.
Proof.
  intros Ht Hcl Hc Hrs. exists (map (ruleLine targetChain) chainRules).
  assert (Forall (fun rule => no_byte "010" (ruleLine targetChain rule) = true) chainRules) as Hno.
  { eapply Forall_impl; [exact Hrs|]. intros rule Hr. by apply plain_ruleLine. }
  destruct (Split_writeLine "" [] ["*" +:+ table]) as [E1 F1]; [done..|].
  destruct (Split_writeLine _ _ [chainLine] E1 F1) as [E2 F2]; [done|].
  destruct (writeRules_Join targetChain chainRules _ _ E2 F2 Hno) as [E3 F3].
  destruct (Split_writeLine _ _ ["COMMIT"] E3 F3) as [E4 F4]; [done|].
  split.
  - unfold chainLines. rewrite E4. unfold newline.
    rewrite Split_Join; [|by intros []%app_eq_nil|].
    + by rewrite <- !(assoc_L (++)).
    + by apply Forall_app_2; [|constructor].
  - rewrite map_map. apply List.map_ext_Forall. eapply Forall_impl; [exact Hrs|].
    intros rule Hr. by apply plain_ruleLine.
Qed.
(** So is the text that deletes a chain. *)
Lemma deleteLines_read table chainLine targetChain :
  no_byte "010" table = true -> no_byte "010" chainLine = true -> plain targetChain ->
  Split (deleteLines table chainLine targetChain) "010" =
    ["*" +:+ table; chainLine; Join ["-X"; targetChain] " "; "COMMIT"; ""].
Proof.
  intros Ht Hcl Hc. assert (no_byte "010" (Join ["-X"; targetChain] " ") = true) as Hx.
  { apply no_byte_Join; [done|]. repeat constructor. apply Hc. }
  destruct (Split_writeLine "" [] ["*" +:+ table]) as [E1 F1]; [done..|].
  destruct (Split_writeLine _ _ [chainLine] E1 F1) as [E2 F2]; [done|].
  destruct (Split_writeLine _ _ ["-X"; targetChain] E2 F2 Hx) as [E3 F3].
  destruct (Split_writeLine _ _ ["COMMIT"] E3 F3) as [E4 F4]; [done|].
  unfold deleteLines. rewrite E4. unfold newline.
  rewrite Split_Join; [done|by intros []%app_eq_nil|by apply Forall_app_2; [|constructor]].
Qed.

(** ** Links, marks and addresses *)

(** The packet mark of a gateway's link is the gateway's port, and gateways
    with different ports have different links.  With the load balancer's ports
    distinct, the marks separate the traffic of the gateways of a node. *)
Theorem mark_is_port gwConfig :
  let port g := gsp_Port (sgc_GatewayServerProfile (sgc_Status g)) in
  (- 2 ^ 31 <= port gwConfig < 2 ^ 31)%Z ->
  getPacketMark (getWireguardInterfaceName gwConfig) = Ok (port gwConfig) /\
  HasPrefix (getWireguardInterfaceName gwConfig) consts.WiregaurdLinkNamePrefix = true /\
  forall g, (- 2 ^ 31 <= port g < 2 ^ 31)%Z ->
    getWireguardInterfaceName g = getWireguardInterfaceName gwConfig -> port g = port gwConfig.
Proof.
  intros port Hp. pose proof (getPacketMark_link gwConfig) as Hm. fold (port gwConfig) in Hm.
  rewrite Hm by (unfold int64_min, int64_max; lia). split_and!; [done|apply HasPrefix_app|].
  intros g Hg Heq. pose proof (getPacketMark_link g) as Hmg. fold (port g) in Hmg.
  rewrite Heq, Hm in Hmg by (unfold int64_min, int64_max; lia).
  injection Hmg; [done|unfold int64_min, int64_max; lia].
Qed.

(** A gateway on port 6000. *)
Definition gw_on_6000 : StaticGatewayConfiguration :=
  {| sgc_meta := {| om_name := "gw1"; om_namespace := "ns"; om_uid := "uid-1"; om_deletion := None;
                    om_finalizers := []; om_owners := []; om_labels := ∅ |};
     sgc_Spec := {| sgc_GatewayNodepoolName := "gwpool";
                    sgc_GatewayVmssProfile := {| VmssResourceGroup := ""; VmssName := ""; PublicIpPrefixSize := 0 |};
                    sgc_DefaultRoute := RouteStaticEgressGateway; sgc_ProvisionPublicIps := true;
                    sgc_PublicIpPrefixId := ""; sgc_ExcludeCidrs := [] |};
     sgc_Status := {| sgc_EgressIpPrefix := "1.2.3.4/31";
                      sgc_GatewayServerProfile :=
                        {| gsp_Ip := "10.0.0.4"; gsp_Port := 6000; gsp_PublicKey := "pub";
                           gsp_PrivateKeySecretRef := Some {| ref_APIVersion := "v1"; ref_Kind := "Secret";
                             ref_Name := "sgw-uid-1"; ref_Namespace := "kube-egress-gateway-system" |} |} |} |}.

Lemma mark_is_port_witness :
  getWireguardInterfaceName gw_on_6000 = "wg-6000" /\ getPacketMark "wg-6000" = Ok 6000%Z.
Proof. split; [reflexivity|]. apply (mark_is_port gw_on_6000). simpl. lia. Defined.

(** The address the daemon puts on [host0] for a gateway is not an orphan to
    its own clean-up.  For a secondary address in dotted notation, [joinVethPair]
    and [reconcileVethPair] parse it as a network of one address, that network
    prints as the same text, and [removeOrphanIP] leaves it alone as long as the
    text is among the addresses in use. *)
Theorem gateway_address_kept {W} `{NetNS W} `{NetLink W} `{IPTables W} gwns existingIPs a b c d (w : W) :
  octet a -> octet b -> octet c -> octet d ->
  let vmSecondaryIP := dotted a b c d in
  vmSecondaryIP ∈ existingIPs ->
  exists ip snatIPNet,
    ParseCIDR (vmSecondaryIP +:+ "/32") = inr (ip, snatIPNet) /\
    ParseIP vmSecondaryIP = Some ip /\
    IP_String (ipn_IP snatIPNet) = vmSecondaryIP /\
    daemonsgc.removeOrphanIP gwns existingIPs (newAddr (Some snatIPNet) "") w = (Ok tt, w).
Proof.
  intros Ha Hb Hc Hd vmSecondaryIP Hin. eexists _, _. split; [by apply ParseCIDR_dotted32|].
  assert (IP_String (Some (IPv4 a b c d)) = vmSecondaryIP) as Hs by by apply IP_String_IPv4.
  split; [by apply ParseIP_dotted|]. split; [done|].
  unfold daemonsgc.removeOrphanIP, bind, lift, addr_IP. cbn [newAddr addr_IPNet deref obind ipn_IP].
  by rewrite Hs, decide_True.
Qed.

(** [addOrReplaceRoute] makes sure of a route and writes it only once.  If it
    returns without an error, an equal route is listed, and a second call makes no
    change.  Listing routes is assumed to change nothing, and a route that was
    replaced without an error to be listed. *)
Theorem route_settles {W} `{NetLink W} thread route (w w' : W) :
  (forall w r w1, RouteList thread None FAMILY_ALL w = (r, w1) -> w1 = w) ->
  (forall w w1, RouteReplace thread route w = (Ok tt, w1) ->
     exists rs, RouteList thread None FAMILY_ALL w1 = (Ok rs, w1) /\
                existsb (fun r => equalRoute r route) rs = true) ->
  daemonsgc.addOrReplaceRoute thread route w = (Ok tt, w') ->
  (exists rs, RouteList thread None FAMILY_ALL w' = (Ok rs, w') /\
              existsb (fun r => equalRoute r route) rs = true) /\
  daemonsgc.addOrReplaceRoute thread route w' = (Ok tt, w').
Proof.
  intros Hread Hrep Hrun.
  assert (exists rs, RouteList thread None FAMILY_ALL w' = (Ok rs, w') /\
                     existsb (fun r => equalRoute r route) rs = true) as Hl.
  { unfold daemonsgc.addOrReplaceRoute in Hrun. go_inv. pose proof (Hread _ _ _ Hc) as ->.
    destruct existsb eqn:He; go_inv; eauto. }
  split; [done|]. destruct Hl as (rs & Hl & He). unfold daemonsgc.addOrReplaceRoute, bind.
  by rewrite Hl, He.
Qed.

(** Creating a WireGuard link leaves no link behind in the host namespace,
    however it ends.  Let [clean] say that the host namespace has no link of that
    name: a failed creation does not falsify it, moving the link to the gateway
    namespace and deleting it re-establish it. *)
Theorem createWireguardLink_clean {W} `{NetLink W} (clean : W -> Prop) gwns linkName linkAlias w r w' :
  let wg := newLink Wireguard linkName linkAlias in
  (forall w e w1, LinkAdd HostNS wg w = (e, w1) -> e <> Ok tt -> clean w -> clean w1) ->
  (forall w link w1 w2, LinkByName HostNS linkName w = (Ok link, w1) ->
     LinkSetNsFd HostNS link gwns w1 = (Ok tt, w2) -> clean w2) ->
  (forall w, exists w1, LinkDel HostNS wg w = (Ok tt, w1) /\ clean w1) ->
  daemonsgc.createWireguardLink gwns linkName linkAlias w = (r, w') -> clean w -> clean w'.
Proof.
  intros wg Hadd Hmove Hdel Hrun Hw. unfold daemonsgc.createWireguardLink in Hrun. fold wg in Hrun.
  unfold bind at 1, on_err at 1 in Hrun. destruct (LinkAdd HostNS wg w) as [[[]|e|] w1] eqn:Ha;
    [|simplify_eq; by eapply Hadd..].
  apply defer_inv in Hrun as (w2 & Hbody & ->). destruct (Hdel w2) as (w3 & Hd & Hclean).
  destruct r as [u|e|]; simpl; rewrite ?Hd; [|done..]. go_inv. destruct u. by eapply Hmove.
Qed.
