(* ===== verification/DaemonPod.v ===== *)
(** * The daemon's controller of pod endpoints
      ([controllers/daemon/podendpoint_controller.go])

    A pod endpoint is a pod that uses a gateway: on the gateway's nodes it is a peer
    of the gateway's WireGuard link, with a route to the pod's address.  The
    clean-up removes the peers that are no pod's any more. *)

From stdpp Require Import base tactics list strings gmap sets fin_maps.
From Stdlib Require Import Ascii ZArith Lia.
From S2P Require Import Prelude GoStrings Types Kube NetIP Network Imds NodeStatus HealthProbe DaemonSGC.

Open Scope string_scope.
Open Scope list_scope.

(** The key of a gateway in [gwConfigMap]. *)
Definition gwMapKey (namespace name : string) : string := ToLower (slashed namespace name).

(** [gwConfigMap]: the links of the node's gateways by namespace and name. *)
Definition gwConfigMap (node : NodeState) (gwConfigs : list StaticGatewayConfiguration) :
    outcome (gmap string string) :=
  fold_left (fun acc gwConfig =>
    let? m := acc in
    let? applies := applyToNode node gwConfig in
    if applies && negb (deleting (sgc_meta gwConfig)) then
      Ok (<[gwMapKey (om_namespace (sgc_meta gwConfig)) (om_name (sgc_meta gwConfig)) :=
             getWireguardInterfaceName gwConfig]> m)
    else Ok m) gwConfigs (Ok ∅).

(** [peerMap]: the public keys of the pods by link. *)
Definition addPod (links : gmap string string) (peerMap : gmap string (gset string)) (pe : PodEndpoint) :
    gmap string (gset string) :=
  match links !! gwMapKey (om_namespace (pe_meta pe)) (pe_StaticGatewayConfiguration (pe_Spec pe)) with
  | Some wglinkName =>
      <[wglinkName := {[ pe_PodPublicKey (pe_Spec pe) ]} ∪ default ∅ (peerMap !! wglinkName)]> peerMap
  | None => peerMap
  end.
Definition podPeers (links : gmap string string) (podEndpoints : list PodEndpoint) :
    gmap string (gset string) :=
  fold_left (addPod links) podEndpoints ∅.

Section stale.
Context `{WgTypes}.

(** [_, ok := peerMap[wglinkName][key]] *)
Definition knownPeer (peerMap : gmap string (gset string)) (wglinkName key : string) : bool :=
  bool_decide (key ∈ default ∅ (peerMap !! wglinkName)).

(** The peers to remove from a device, and the addresses whose routes go with
    them. *)
Definition stalePeer (peerMap : gmap string (gset string)) (wglinkName : string)
    (st : list PeerConfig * gset string) (p : Peer) : list PeerConfig * gset string :=
  let '(peers, podIPToDel) := st in
  if knownPeer peerMap wglinkName (Key_String (peer_PublicKey p)) then st
  else
    (peers ++ [{| pcf_PublicKey := peer_PublicKey p; pcf_Remove := true; pcf_ReplaceAllowedIPs := false;
                  pcf_AllowedIPs := []; pcf_Endpoint := None |}],
     fold_left (fun ips ipNet => {[ IP_String (ipn_IP ipNet) ]} ∪ ips) (peer_AllowedIPs p) podIPToDel).
Definition stalePeers (peerMap : gmap string (gset string)) (wglinkName : string) (device : WgDevice) :
    list PeerConfig * gset string :=
  fold_left (stalePeer peerMap wglinkName) (dev_Peers device) ([], ∅).
End stale.

Module daemonpod.
Section daemonpod.
Context {W : Type} `{NetNS W} `{NetLink W} `{NetlinkPure} `{WgTypes} `{!WgCtrl W}.
Context `{OsEnv} `{OwnerRefs}.
Context `{Store W PodEndpoint} `{Store W StaticGatewayConfiguration} `{Store W GatewayStatus} `{Store W Node}.
Context (node : NodeState).

Definition addWireguardPeerRoutes (thread : netns) (gwConfig : StaticGatewayConfiguration)
    (podEndpoint : PodEndpoint) : M W unit :=
  let! wgLink := LinkByName thread (getWireguardInterfaceName gwConfig)
    ?: (wrap "failed to retrieve wireguard device: ") in
  let! (_, dst) := lift (of_sum (ParseCIDR (pe_PodIpAddress (pe_Spec podEndpoint))))
    ?: (wrap ("failed to parse pod ip net " +:+ pe_PodIpAddress (pe_Spec podEndpoint) +:+ ": ")) in
  let route := newRoute (l_Index wgLink) SCOPE_LINK (Some dst) None in
  RouteReplace thread route ?: (wrap ("failed to add route " +:+ Route_String route +:+ ": ")).

(** [route.Dst] is dereferenced: a route without destination panics. *)
Definition deleteWireguardPeerRoutes (thread : netns) (wglinkName : string) (podIPToDel : gset string) :
    M W unit :=
  let! wgLink := LinkByName thread wglinkName ?: (wrap ("failed to get wglink " +:+ wglinkName +:+ ": ")) in
  let! routes := RouteList thread (Some wgLink) FAMILY_ALL
    ?: (wrap ("failed to list routes on wglink " +:+ wglinkName +:+ ": ")) in
  foldM (fun _ route =>
    let! dst := lift (deref (rt_Dst route)) in
    if decide (IP_String (ipn_IP dst) ∈ podIPToDel)
    then RouteDel thread route ?: (wrap ("failed to delete route " +:+ Route_String route +:+ ": "))
    else ret tt) routes tt.

(** The configuration that makes a pod a peer of the link. *)
Definition peerConfigOf (podPublicKey : Key) (podIPNet : IPNet) : WgConfig :=
  {| wg_PrivateKey := None; wg_ListenPort := None;
     wg_Peers := [{| pcf_PublicKey := podPublicKey; pcf_Remove := false; pcf_ReplaceAllowedIPs := true;
                     pcf_AllowedIPs := [podIPNet]; pcf_Endpoint := None |}] |}.

Definition reconcile (gwConfig : StaticGatewayConfiguration) (podEndpoint : PodEndpoint) : M W unit :=
  let! gwns := GetNS consts.GatewayNetnsName
    ?: (wrap ("failed to get gateway network namespace " +:+ consts.GatewayNetnsName +:+ ": ")) in
  closing gwns
    (do! nsDo gwns (withWgClient gwns (fun wgClient =>
       let! podPublicKey := lift (of_sum (ParseKey (pe_PodPublicKey (pe_Spec podEndpoint))))
         ?: (wrap "failed to parse pod wireguard public key: ") in
       let! (_, podIPNet) := lift (of_sum (ParseCIDR (pe_PodIpAddress (pe_Spec podEndpoint))))
         ?: (wrap "failed to parse pod IPv4 address: ") in
       do! wgConfigureDevice wgClient (getWireguardInterfaceName gwConfig) (peerConfigOf podPublicKey podIPNet)
         ?: (wrap "failed to add peer to wireguard device: ");
       addWireguardPeerRoutes gwns gwConfig podEndpoint ?: (wrap "failed to add pod route: ")));
     updatePeerStatus
       [{| pc_PodEndpoint := slashed (om_namespace (pe_meta podEndpoint)) (om_name (pe_meta podEndpoint));
           pc_InterfaceName := getWireguardInterfaceName gwConfig;
           pc_PublicKey := pe_PodPublicKey (pe_Spec podEndpoint) |}] true).

(** The peers removed from a link, for the node's status. *)
Definition cleanUpWgLink (wglinkName : string) (peerMap : gmap string (gset string)) :
    M W (list PeerConfiguration) :=
  let! gwns := GetNS consts.GatewayNetnsName
    ?: (wrap ("failed to get gateway network namespace " +:+ consts.GatewayNetnsName +:+ ": ")) in
  closing gwns (nsDo gwns (withWgClient gwns (fun wgClient =>
    let! device := wgDevice wgClient wglinkName
      ?: (wrap "failed to get wireguard link configuration: ") in
    let '(peers, podIPToDel) := stalePeers peerMap wglinkName device in
    match peers with
    | [] => ret []
    | _ =>
        do! deleteWireguardPeerRoutes gwns wglinkName podIPToDel
          ?: (wrap ("failed to delete pod route on wglink " +:+ wglinkName +:+ ": "));
        do! wgConfigureDevice wgClient wglinkName
              {| wg_PrivateKey := None; wg_ListenPort := None; wg_Peers := peers |}
          ?: (wrap ("failed to remove peers from wireguard device " +:+ wglinkName +:+ ": "));
        ret (map (fun p => {| pc_PodEndpoint := ""; pc_InterfaceName := "";
                              pc_PublicKey := Key_String (pcf_PublicKey p) |}) peers)
    end))).

(** The order in which Go ranges over [gwConfigMap] is unspecified; [map_to_list]
    gives one.  A link that cannot be cleaned up does not block the others. *)
Definition cleanUp : M W unit :=
  let! podEndpointList := kList (Obj := PodEndpoint) ?: (wrap "failed to list PodEndpoints: ") in
  let! gwConfigList := kList (Obj := StaticGatewayConfiguration)
    ?: (wrap "failed to list staticGatewayConfigurations: ") in
  let! links := lift (gwConfigMap node gwConfigList) in
  let peerMap := podPeers links podEndpointList in
  let! peersToDelete := foldM (fun peersToDelete wglinkName =>
      let! r := try (cleanUpWgLink wglinkName peerMap) in
      match r with
      | inl _ => ret peersToDelete
      | inr peers => ret (peersToDelete ++ peers)
      end) ((map_to_list links).*2) [] in
  updatePeerStatus peersToDelete false ?: (wrap "failed to update gateway node status: ").

(** After the clean-up of a ticker event the function goes on with the empty
    request. *)
Definition Reconcile (req : NamespacedName) : M W unit :=
  do! if String.eqb (nn_namespace req) "" && String.eqb (nn_name req) ""
      then cleanUp ?: (wrap "failed to clean up orphaned wireguard peers: ")
      else ret tt;
  let! r := try (kGet (Obj := PodEndpoint) req) in
  match r with
  | inl err => if IsNotFound err then ret tt else throw err
  | inr podEndpoint =>
      let gwConfigKey := nn (om_namespace (pe_meta podEndpoint))
                            (pe_StaticGatewayConfiguration (pe_Spec podEndpoint)) in
      let! gwConfig := kGet (Obj := StaticGatewayConfiguration) gwConfigKey
        ?: (wrap ("failed to fetch StaticGatewayConfiguration(" +:+
                  slashed (nn_namespace gwConfigKey) (nn_name gwConfigKey) +:+ "): ")) in
      let! applies := lift (applyToNode node gwConfig) in
      if negb applies then ret tt else reconcile gwConfig podEndpoint
  end.
End daemonpod.
End daemonpod.

(** ** What the clean-up knows *)

Definition sgc_mapKey (g : StaticGatewayConfiguration) : string :=
  gwMapKey (om_namespace (sgc_meta g)) (om_name (sgc_meta g)).

Definition gwMapStep (node : NodeState) (acc : outcome (gmap string string)) (g : StaticGatewayConfiguration) :
    outcome (gmap string string) :=
  let? m := acc in
  let? applies := applyToNode node g in
  if applies && negb (deleting (sgc_meta g)) then Ok (<[sgc_mapKey g := getWireguardInterfaceName g]> m)
  else Ok m.

Lemma gwMapStep_cases node acc x m :
  gwMapStep node acc x = Ok m ->
  exists m0, acc = Ok m0 /\
    ((active node x /\ m = <[sgc_mapKey x := getWireguardInterfaceName x]> m0) \/
     (~ active node x /\ m = m0)).
Proof.
  unfold gwMapStep, active. intros H. go_inv. eexists. split; [done|].
  destruct (_ && _) eqn:Hb; simplify_eq.
  - left. apply andb_true_iff in Hb as [-> Hd%negb_true_iff]. done.
  - right. split; [|done]. intros [Happ Hd]. assert (a0 = true) as -> by congruence. by rewrite Hd in Hb.
Qed.

(** The link of a gateway stays in the map, once it is there, if no other gateway
    has its key. *)
Lemma gwMapStep_fold node g gs acc m :
  (forall g', g' ∈ gs -> sgc_mapKey g' = sgc_mapKey g -> g' = g) ->
  fold_left (gwMapStep node) gs acc = Ok m ->
  exists m0, acc = Ok m0 /\
  (m0 !! sgc_mapKey g = Some (getWireguardInterfaceName g) \/ (g ∈ gs /\ active node g) ->
   m !! sgc_mapKey g = Some (getWireguardInterfaceName g)).
Proof.
  revert acc. induction gs as [|x gs IH]; intros acc Hu Hf; simpl in Hf.
  { exists m. split; [done|]. intros [?|[?%not_elem_of_nil _]]; done. }
  destruct (IH (gwMapStep node acc x)) as (m1 & Hm1 & Hin); [set_solver|done|]. clear IH.
  apply gwMapStep_cases in Hm1 as (m0 & -> & Hcase). exists m0. split; [done|].
  intros Hpre. apply Hin. destruct Hpre as [Hm0|[[->|Hg]%elem_of_cons Hact]]; [left|left|by right].
  - destruct Hcase as [[_ ->]|[_ ->]]; [|done].
    destruct (decide (sgc_mapKey x = sgc_mapKey g)) as [Heq|Hne].
    + rewrite (Hu x) by (done || set_solver). by rewrite lookup_insert_eq.
    + by rewrite lookup_insert_ne.
  - destruct Hcase as [[_ ->]|[? _]]; [by rewrite lookup_insert_eq|done].
Qed.

Lemma gwConfigMap_lookup node gs m g :
  gwConfigMap node gs = Ok m -> (forall g', g' ∈ gs -> sgc_mapKey g' = sgc_mapKey g -> g' = g) ->
  g ∈ gs -> active node g -> m !! sgc_mapKey g = Some (getWireguardInterfaceName g).
Proof.
  intros Hm Hu Hg Hact. apply (gwMapStep_fold node g gs (Ok ∅)) in Hm as (m0 & _ & Hin); [|done].
  apply Hin. by right.
Qed.

Lemma podPeers_from links pes pm n k :
  (exists pe, pe ∈ pes /\ pe_PodPublicKey (pe_Spec pe) = k /\
     links !! gwMapKey (om_namespace (pe_meta pe)) (pe_StaticGatewayConfiguration (pe_Spec pe)) = Some n) \/
  k ∈ default ∅ (pm !! n) ->
  k ∈ default ∅ (fold_left (addPod links) pes pm !! n).
Proof.
  revert pm. induction pes as [|pe pes IH]; intros pm; simpl.
  { intros [(pe & ?%not_elem_of_nil & _)|?]; done. }
  intros Hcase. apply IH. unfold addPod.
  destruct Hcase as [(pe' & [->|Hin]%elem_of_cons & Hk & Hl)|Hin].
  - right. rewrite Hl, lookup_insert_eq. simpl. set_solver.
  - left. by exists pe'.
  - right. case_match; [|done]. destruct (decide (s = n)) as [->|Hne].
    + rewrite lookup_insert_eq. simpl. set_solver.
    + by rewrite lookup_insert_ne.
Qed.

(** A peer to remove is a peer of the device that no pod has. *)
Lemma stalePeers_from `{WgTypes} pm n l st :
  fst (fold_left (stalePeer pm n) l st) =
  fst st ++ map (fun p => {| pcf_PublicKey := peer_PublicKey p; pcf_Remove := true;
                             pcf_ReplaceAllowedIPs := false; pcf_AllowedIPs := []; pcf_Endpoint := None |})
              (List.filter (fun p => negb (knownPeer pm n (Key_String (peer_PublicKey p)))) l).
Proof.
  revert st. induction l as [|p l IH]; intros [peers ips]; simpl; [by rewrite app_nil_r|].
  rewrite IH. unfold stalePeer. destruct (knownPeer pm n _); simpl; [done|].
  by rewrite <- (assoc_L (++)).
Qed.

Lemma stalePeers_unknown `{WgTypes} pm n device :
  Forall (fun pc => knownPeer pm n (Key_String (pcf_PublicKey pc)) = false) (fst (stalePeers pm n device)).
Proof.
  unfold stalePeers. rewrite stalePeers_from. simpl. apply Forall_fmap, List.Forall_forall.
  intros p Hp. simpl. apply filter_In in Hp as [_ Hp]. by apply negb_true_iff.
Qed.

Section pod_keeps.
Context {W : Type} `{NetNS W} `{NetLink W} `{NetlinkPure} `{IPTables W} `{WgTypes} `{!WgCtrl W}.
Context `{OsEnv} `{OwnerRefs}.
Context `{Store W StaticGatewayConfiguration} `{Store W GatewayVMConfiguration} `{Store W Secret}.
Context `{Store W GatewayStatus} `{Store W Node}.
Context (P : W -> Prop) `{!NodeKeeps P}.

(** Of a link's clean-up only the removal of its stale peers matters. *)
Lemma keeps_cleanUpWgLink wglinkName peerMap :
  (forall c device,
     keeps P (wgConfigureDevice c wglinkName
       {| wg_PrivateKey := None; wg_ListenPort := None; wg_Peers := fst (stalePeers peerMap wglinkName device) |})) ->
  keeps P (daemonpod.cleanUpWgLink wglinkName peerMap).
Proof using All.
  intros Hconf. unfold daemonpod.cleanUpWgLink, daemonpod.deleteWireguardPeerRoutes.
  apply keeps_bind; [keeps_tac|]. intros gwns.
  apply keeps_closing; [done|]. apply keeps_nsDo; [done|]. apply keeps_withWgClient; [done|]. intros c.
  apply keeps_bind; [keeps_tac|]. intros device. specialize (Hconf c device).
  destruct (stalePeers peerMap wglinkName device) as [peers ips]. simpl in Hconf. node_tac.
Qed.
End pod_keeps.

(** C26: the clean-up never removes the peer of a pod in use.  Let [podEndpoint]
    exist and refer to a gateway that exists, is the node's and is not being
    deleted, and whose namespace and name no other gateway shares up to case.  Then
    no configuration of the gateway's WireGuard device that the clean-up makes
    mentions the pod's public key: any property of the world that only such a
    configuration can falsify is kept. *)
Theorem peer_in_use_spared {W} `{NetNS W} `{NetLink W} `{NetlinkPure} `{IPTables W} `{WgTypes}
    `{!WgCtrl W} `{OsEnv} `{OwnerRefs} `{Store W StaticGatewayConfiguration}
    `{Store W GatewayVMConfiguration} `{Store W Secret} `{Store W GatewayStatus} `{Store W Node}
    `{Store W PodEndpoint} node (P : W -> Prop) gwConfig podEndpoint :
  NodeKeeps P -> keeps P (kList (Obj := PodEndpoint)) ->
  (forall c n cfg,
     n <> getWireguardInterfaceName gwConfig \/
     Forall (fun pc => Key_String (pcf_PublicKey pc) <> pe_PodPublicKey (pe_Spec podEndpoint)) (wg_Peers cfg) ->
     keeps P (wgConfigureDevice c n cfg)) ->
  active node gwConfig ->
  om_namespace (pe_meta podEndpoint) = om_namespace (sgc_meta gwConfig) ->
  pe_StaticGatewayConfiguration (pe_Spec podEndpoint) = om_name (sgc_meta gwConfig) ->
  (forall w l w', P w -> kList w = (Ok l, w') -> podEndpoint ∈ l) ->
  (forall w l w', P w -> kList w = (Ok l, w') ->
     gwConfig ∈ l /\ forall g, g ∈ l -> sgc_mapKey g = sgc_mapKey gwConfig -> g = gwConfig) ->
  keeps P (daemonpod.cleanUp node).
Proof.
  intros Hk Hpl Hconf Hact Hns Hname Hpods Hgws. unfold daemonpod.cleanUp.
  apply keeps_bind_post; [keeps_tac|]. intros w pods w1 Hw Hl. go_inv. apply Hpods in Hl; [|done].
  apply keeps_bind_post; [keeps_tac|]. intros w2 gws w3 Hw2 Hg. go_inv. apply Hgws in Hg as [Hg Hu]; [|done].
  apply keeps_bind_post; [keeps_tac|]. intros w4 links w5 _ Hm. go_inv.
  assert (links !! sgc_mapKey gwConfig = Some (getWireguardInterfaceName gwConfig)) as Hlink
    by by eapply gwConfigMap_lookup.
  set (peerMap := podPeers links pods).
  assert (pe_PodPublicKey (pe_Spec podEndpoint) ∈ default ∅ (peerMap !! getWireguardInterfaceName gwConfig)) as Hkey.
  { apply podPeers_from. left. exists podEndpoint. split_and!; [done|done|].
    rewrite Hns, Hname. exact Hlink. }
  unfold updatePeerStatus. node_tac. apply keeps_cleanUpWgLink; [done|]. intros c device.
  apply Hconf. simpl.
  destruct (decide (a = getWireguardInterfaceName gwConfig)) as [->|Hne]; [right|by left].
  eapply Forall_impl; [apply stalePeers_unknown|]. simpl. intros pc Hpc Heq.
  unfold knownPeer in Hpc. apply bool_decide_eq_false in Hpc. by rewrite Heq in Hpc.
Qed.

(** The peers of a device that no pod has. *)
Definition orphans `{WgTypes} (peerMap : gmap string (gset string)) (wglinkName : string) (device : WgDevice) :
    list Peer :=
  List.filter (fun p => negb (knownPeer peerMap wglinkName (Key_String (peer_PublicKey p)))) (dev_Peers device).

(** The clean-up of a link removes exactly the peers that no pod has.  If it
    returns without an error, the peers it reports are those of the device that was
    read whose public key belongs to no pod endpoint of the link, in order; if
    there are any, they were all removed by one configuration of the device that
    changes nothing else. *)
Theorem stale_peers_removed {W} `{NetNS W} `{NetLink W} `{NetlinkPure} `{WgTypes} `{!WgCtrl W}
    wglinkName peerMap (w : W) peers w' :
  daemonpod.cleanUpWgLink wglinkName peerMap w = (Ok peers, w') ->
  exists client device w1 w2,
    wgDevice client wglinkName w1 = (Ok device, w2) /\
    map pc_PublicKey peers =
      map (fun p => Key_String (peer_PublicKey p)) (orphans peerMap wglinkName device) /\
    (peers <> [] -> exists cfg w3 w4,
       wgConfigureDevice client wglinkName cfg w3 = (Ok tt, w4) /\
       wg_PrivateKey cfg = None /\ wg_ListenPort cfg = None /\
       map (fun pc => (pcf_PublicKey pc, pcf_Remove pc)) (wg_Peers cfg) =
         map (fun p => (peer_PublicKey p, true)) (orphans peerMap wglinkName device)).
Proof.
  unfold daemonpod.cleanUpWgLink, closing, nsDo, withWgClient. intros Hrun. go_inv.
  match goal with HD : wgDevice ?c _ ?v = (Ok ?d, ?v') |- _ => exists c, d, v, v'; split; [exact HD|];
    pose proof (stalePeers_from peerMap wglinkName (dev_Peers d) ([], ∅)) as Hst;
    fold (stalePeers peerMap wglinkName d) in Hst; fold (orphans peerMap wglinkName d) in Hst;
    destruct (stalePeers peerMap wglinkName d) as [stale ips] end.
  simpl in Hst. subst stale. destruct (orphans peerMap wglinkName _) as [|p ps]; simpl in *; go_inv.
  { by split. }
  split; [simpl; f_equal; by rewrite !map_map|]. intros _.
  match goal with HC : wgConfigureDevice _ _ ?cfg ?v = (Ok ?u, ?v') |- _ =>
    exists cfg, v, v'; destruct u; split; [exact HC|] end.
  simpl. split_and!; [done..|]. f_equal. by rewrite map_map.
Qed.
