(* ===== verification/NatTables.v ===== *)
(** * What the daemon's iptables chains do to packets

    The daemon has one chain per gateway that marks the connections of the gateway's link
    and one that gives marked connections the gateway's address, in the nat table of the
    gateway namespace, and chains that keep the host from translating that address again
    ([DaemonSGC]).  This file has the tables as data, the walk of a packet through them,
    and what the daemon's calls, in any order, make of the two. *)

From stdpp Require Import base tactics list strings gmap sets.
From Stdlib Require Import Ascii ZArith Lia DecimalString DecimalZ DecimalPos.
From S2P Require Import Prelude GoStrings Types Kube NetIP Network Imds NodeStatus HealthProbe DaemonSGC.

Open Scope string_scope.
Open Scope list_scope.

(** ** Tables *)

(** The chains of a table, with the words of their rules in order. *)
Abbreviation rules := (list (list string)).
Abbreviation chains := (gmap string rules).

(** What the calls of the iptables client do. *)
Definition ensured (c : string) (T : chains) : chains :=
  match T !! c with Some _ => T | None => <[c := []]> T end.
Definition prepended (args : list string) (rs : rules) : rules :=
  if decide (args ∈ rs) then rs else args :: rs.
Fixpoint removed (args : list string) (rs : rules) : rules :=
  match rs with
  | [] => []
  | r :: rest => if decide (r = args) then rest else r :: removed args rest
  end.

(** ** The walk of a packet *)

(** A packet on its way through the namespace: the links, its source, and the mark of
    its connection as the rules write it. *)
Record packet := { pk_in : string; pk_out : string; pk_src : string; pk_mark : string }.
Definition marked (p : packet) (m : string) : packet :=
  {| pk_in := pk_in p; pk_out := pk_out p; pk_src := pk_src p; pk_mark := m |}.
Definition from (p : packet) (ip : string) : packet :=
  {| pk_in := pk_in p; pk_out := pk_out p; pk_src := ip; pk_mark := pk_mark p |}.

(** The options of a rule take one word each; the target's options follow the target. *)
Fixpoint target (p : packet) (words : list string) : option (string * list string) :=
  match words with
  | flag :: arg :: rest =>
      if String.eqb flag "-j" then Some (arg, rest)
      else if String.eqb flag "-m" || String.eqb flag "--comment" then target p rest
      else if String.eqb flag "-i" then if String.eqb arg (pk_in p) then target p rest else None
      else if String.eqb flag "-o" then if String.eqb arg (pk_out p) then target p rest else None
      else if String.eqb flag "-s" then if String.eqb arg (pk_src p +:+ "/32") then target p rest else None
      else if String.eqb flag "--mark" then if String.eqb arg (pk_mark p) then target p rest else None
      else None
  | _ => None
  end.

(** A packet leaves a chain at its end, or is done with the table. *)
Inductive verdict := Through (p : packet) | Done (p : packet).

(** The rules of a chain in order; [depth] bounds the chains that are entered. *)
Fixpoint walk (depth : nat) (T : chains) (p : packet) (rs : rules) {struct depth} : verdict :=
  match depth with
  | O => Through p
  | S depth =>
      (fix go (p : packet) (rs : rules) : verdict :=
         match rs with
         | [] => Through p
         | r :: rest =>
             match target p r with
             | None => go p rest
             | Some (t, opts) =>
                 match opts with
                 | [opt; arg] =>
                     if String.eqb t "CONNMARK" && String.eqb opt "--set-mark" then go (marked p arg) rest
                     else if String.eqb t "SNAT" && String.eqb opt "--to-source" then Done (from p arg)
                     else go p rest
                 | _ =>
                     if String.eqb t "ACCEPT" then Done p
                     else match walk depth T p (default [] (T !! t)) with
                          | Through p' => go p' rest
                          | Done p' => Done p'
                          end
                 end
             end
         end) p rs
  end.
Definition after (v : verdict) : packet := match v with Through p | Done p => p end.

(** The source of a packet from a pod that came in on the link and leaves for the host. *)
Definition natted (T : chains) (link src : string) : string :=
  let p := {| pk_in := link; pk_out := ""; pk_src := src; pk_mark := "0" |} in
  let p1 := after (walk 2 T p (default [] (T !! ChainPrerouting))) in
  let p2 := {| pk_in := ""; pk_out := consts.HostLinkName; pk_src := pk_src p1; pk_mark := pk_mark p1 |} in
  pk_src (after (walk 2 T p2 (default [] (T !! ChainPostrouting)))).

(** ** The gateways' chains *)

Definition linkOf (m : Z) : string := consts.WiregaurdLinkNamePrefix +:+ Itoa m.
Definition markRule (m : Z) : list string := ["-i"; linkOf m; "-j"; "CONNMARK"; "--set-mark"; Itoa m].
Definition snatRule (m : Z) (ip : string) : list string :=
  ["-o"; consts.HostLinkName; "-m"; "connmark"; "--mark"; Itoa m; "-j"; "SNAT"; "--to-source"; ip].
Definition markJump (m : Z) : list string := jumpRule (markComment (linkOf m)) (markChain m).
Definition snatJump (m : Z) : list string := jumpRule (snatComment (linkOf m)) (markSnatChain m).

(** The gateway namespace has the chains of gateways only, each as it is meant to be or
    still empty. *)
Record sane (T : chains) : Prop := {
  sane_pre : exists rs : rules, T !! ChainPrerouting = Some rs /\ Forall (fun r => exists m, r = markJump m) rs;
  sane_post : exists rs : rules, T !! ChainPostrouting = Some rs /\ Forall (fun r => exists m, r = snatJump m) rs;
  sane_mark m rs : T !! markChain m = Some rs -> rs = [] \/ rs = [markRule m];
  sane_snat m rs : T !! markSnatChain m = Some rs -> rs = [] \/ exists ip, rs = [snatRule m ip];
}.
(** The chains of the gateway with this mark are in place. *)
Record inPlace (m : Z) (ip : string) (T : chains) : Prop := {
  ip_pre : exists rs : rules, T !! ChainPrerouting = Some rs /\ markJump m ∈ rs;
  ip_post : exists rs : rules, T !! ChainPostrouting = Some rs /\ snatJump m ∈ rs;
  ip_mark : T !! markChain m = Some [markRule m];
  ip_snat : T !! markSnatChain m = Some [snatRule m ip];
}.

(** *** Names *)

Lemma str_app_inj p s t : p +:+ s = p +:+ t -> s = t.
Proof. induction p as [|a p IH]; [done|]. intros [= H]. by apply IH. Qed.
Lemma Itoa_eq m1 m2 : Itoa m1 = Itoa m2 -> m1 = m2.
Proof.
  unfold Itoa. intros H. apply DecimalZ.to_int_inj.
  assert (forall m, NilZero.int_of_string (NilZero.string_of_int (Z.to_int m)) = Some (Z.to_int m)) as Hr.
  { intros m. apply NilZero.isi; destruct m as [|q|q]; simpl; try done; intros [= E];
      by eapply DecimalPos.Unsigned.to_uint_nonnil. }
  pose proof (Hr m1) as H1. rewrite H, Hr in H1. by injection H1.
Qed.
Lemma linkOf_inj m1 m2 : linkOf m1 = linkOf m2 -> m1 = m2.
Proof. intros H%str_app_inj. by apply Itoa_eq. Qed.
Lemma markChain_inj m1 m2 : markChain m1 = markChain m2 -> m1 = m2.
Proof. intros H%str_app_inj. by apply Itoa_eq. Qed.
Lemma markSnatChain_inj m1 m2 : markSnatChain m1 = markSnatChain m2 -> m1 = m2.
Proof. intros H%str_app_inj. by apply Itoa_eq. Qed.
Lemma markChain_snat m1 m2 : markChain m1 <> markSnatChain m2.
Proof. done. Qed.
Lemma jumpRule_inj c1 t1 c2 t2 : jumpRule c1 t1 = jumpRule c2 t2 -> t1 = t2.
Proof. intros H. exact (f_equal (fun l => nth 5 l "") H). Qed.
Lemma markJump_inj m1 m2 : markJump m1 = markJump m2 -> m1 = m2.
Proof. intros H. by apply markChain_inj, (jumpRule_inj _ _ _ _ H). Qed.
Lemma snatJump_inj m1 m2 : snatJump m1 = snatJump m2 -> m1 = m2.
Proof. intros H. by apply markSnatChain_inj, (jumpRule_inj _ _ _ _ H). Qed.

(** The words of the rules have no blanks. *)
Lemma plain_joined s t : plain s -> plain t -> plain (s +:+ t).
Proof. intros [? ?] [? ?]. split; rewrite no_byte_app; by apply andb_true_iff. Qed.
Lemma plain_Itoa z : plain (Itoa z).
Proof.
  assert (He : forall u, plain (NilEmpty.string_of_uint u)).
  { intros u. split; induction u; done. }
  assert (Hu : forall u, plain (NilZero.string_of_uint u)) by (intros [| | | | | | | | | |]; [done|apply He..]).
  unfold Itoa. destruct (Z.to_int z) as [u|u]; [apply Hu|]. by destruct (Hu u).
Qed.
Lemma plain_markChain m : plain (markChain m).
Proof. by apply plain_joined; [|apply plain_Itoa]. Qed.
Lemma plain_markSnatChain m : plain (markSnatChain m).
Proof. by apply plain_joined; [|apply plain_Itoa]. Qed.
Lemma plain_markRule m : Forall plain (markRule m).
Proof.
  unfold markRule. repeat first [apply Forall_nil_2|apply Forall_cons_2]; try done; [|apply plain_Itoa].
  by apply plain_joined; [|apply plain_Itoa].
Qed.
Lemma plain_snatRule m ip : plain ip -> Forall plain (snatRule m ip).
Proof.
  intros Hip. unfold snatRule. repeat first [apply Forall_nil_2|apply Forall_cons_2]; try done. apply plain_Itoa.
Qed.

(** *** The walk through the gateways' chains *)

Lemma walk_jump d T p comment t rest :
  String.eqb t "ACCEPT" = false ->
  walk (S d) T p (jumpRule comment t :: rest) =
  match walk d T p (default [] (T !! t)) with Through p' => walk (S d) T p' rest | Done p' => Done p' end.
Proof. intros Ht. simpl. by rewrite Ht. Qed.
Lemma walk_one d T p r :
  walk (S d) T p [r] =
  match target p r with
  | None => Through p
  | Some (t, [opt; arg]) =>
      if String.eqb t "CONNMARK" && String.eqb opt "--set-mark" then Through (marked p arg)
      else if String.eqb t "SNAT" && String.eqb opt "--to-source" then Done (from p arg) else Through p
  | Some (t, _) =>
      if String.eqb t "ACCEPT" then Done p
      else match walk d T p (default [] (T !! t)) with Through p' => Through p' | Done p' => Done p' end
  end.
Proof. simpl. by repeat case_match; simplify_eq. Qed.

(** A chain marks the connections of its own link, and translates those of its own mark. *)
Lemma walk_markChain T p m rs :
  rs = [] \/ rs = [markRule m] ->
  walk 1 T p rs =
  Through (if decide (rs = [markRule m] /\ pk_in p = linkOf m) then marked p (Itoa m) else p).
Proof.
  intros [->| ->]; [by rewrite decide_False by naive_solver|]. rewrite walk_one. cbn -[linkOf Itoa].
  destruct (String.eqb_spec (linkOf m) (pk_in p)) as [E|E]; simpl.
  - by rewrite decide_True by done.
  - by rewrite decide_False by naive_solver.
Qed.
Lemma walk_snatChain T p m ip rs :
  rs = [] \/ rs = [snatRule m ip] -> pk_out p = consts.HostLinkName ->
  walk 1 T p rs = if decide (rs = [snatRule m ip] /\ pk_mark p = Itoa m) then Done (from p ip) else Through p.
Proof.
  intros Hrs Ho. destruct Hrs as [->| ->]; [by rewrite decide_False by naive_solver|]. rewrite walk_one.
  cbn -[Itoa]. rewrite Ho. cbn -[Itoa]. destruct (String.eqb_spec (Itoa m) (pk_mark p)) as [E|E]; simpl.
  - by rewrite decide_True by done.
  - by rewrite decide_False by naive_solver.
Qed.

Lemma chain_at (T : chains) c rs : T !! c = Some rs -> default [] (T !! c) = rs.
Proof. by intros ->. Qed.
Lemma walk_pre T p m rs :
  sane T -> T !! markChain m = Some [markRule m] -> pk_in p = linkOf m -> Forall (fun r => exists m', r = markJump m') rs ->
  walk 2 T p rs = Through (if decide (markJump m ∈ rs) then marked p (Itoa m) else p).
Proof.
  intros Hsane Hm Hin Hrs. revert p Hin. induction Hrs as [|r rs [m' ->] Hrs IH]; intros p Hin.
  { rewrite decide_False; [done|apply not_elem_of_nil]. }
  unfold markJump at 1. rewrite walk_jump by done.
  destruct (decide (m' = m)) as [->|Hne].
  - rewrite (chain_at _ _ _ Hm), (walk_markChain T p m) by auto. rewrite decide_True by done. rewrite IH by done.
    rewrite (decide_True (P := markJump m ∈ markJump m :: rs)) by left. by case_decide.
  - rewrite (walk_markChain T p m'); [|destruct (T !! markChain m') eqn:E; [by eapply sane_mark|by left]].
    rewrite decide_False by (rewrite Hin; intros [_ E%linkOf_inj]; by apply Hne). rewrite IH by done. f_equal.
    assert (markJump m ∈ markJump m' :: rs <-> markJump m ∈ rs) as Hiff.
    { rewrite elem_of_cons. split; [|by right]. intros [E%markJump_inj|]; [by destruct Hne|done]. }
    by destruct (decide (markJump m ∈ rs)), (decide (markJump m ∈ markJump m' :: rs)); tauto.
Qed.
Lemma walk_post T p m ip rs :
  sane T -> T !! markSnatChain m = Some [snatRule m ip] -> pk_out p = consts.HostLinkName -> pk_mark p = Itoa m ->
  Forall (fun r => exists m', r = snatJump m') rs -> snatJump m ∈ rs ->
  walk 2 T p rs = Done (from p ip).
Proof.
  intros Hsane Hm Ho Hmark Hrs. induction Hrs as [|r rs [m' ->] Hrs IH]; [by intros ?%not_elem_of_nil|].
  intros Hin. unfold snatJump at 1. rewrite walk_jump by done. destruct (decide (m' = m)) as [->|Hne].
  - rewrite (chain_at _ _ _ Hm), (walk_snatChain T p m ip) by auto. by rewrite decide_True by done.
  - assert (walk 1 T p (default [] (T !! markSnatChain m')) = Through p) as ->.
    { destruct (T !! markSnatChain m') as [rs'|] eqn:E; [|done].
      apply (sane_snat T Hsane) in E. assert (exists ip', rs' = [] \/ rs' = [snatRule m' ip']) as [ip' Hs]
        by (destruct E as [E|[ip' E]]; [exists ""; by left|exists ip'; by right]).
      change (default [] (Some rs')) with rs'. rewrite (walk_snatChain T p m' ip') by done. rewrite decide_False; [done|].
      rewrite Hmark. intros [_ E2%Itoa_eq]. by destruct Hne. }
    apply IH. apply elem_of_cons in Hin as [E%snatJump_inj|]; [by destruct Hne|done].
Qed.

(** The packets of a gateway whose chains are in place get its address. *)
Lemma natted_inPlace T m ip src : sane T -> inPlace m ip T -> natted T (linkOf m) src = ip.
Proof.
  intros Hs [(pre & Hpre & Hj) (post & Hpost & Hk) Hm Hn]. unfold natted.
  destruct (sane_pre T Hs) as (pre' & Hpre' & Fpre). destruct (sane_post T Hs) as (post' & Hpost' & Fpost).
  simplify_eq. rewrite (chain_at _ _ _ Hpre), (chain_at _ _ _ Hpost).
  rewrite (walk_pre T _ m pre) by done. rewrite decide_True by done. cbn [after].
  by rewrite (walk_post T _ m ip) by done.
Qed.

(** ** What the calls keep *)

(** The changes the daemon makes for a gateway with the mark [m]. *)
Definition setsMark (m : Z) (T : chains) : chains := <[markChain m := [markRule m]]> T.
Definition setsSnat (m : Z) (ip : string) (T : chains) : chains := <[markSnatChain m := [snatRule m ip]]> T.

(** A predicate on tables that those changes keep. *)
Record closedFor (m : Z) (P : chains -> Prop) : Prop := {
  cf_new c T : (c = markChain m \/ c = markSnatChain m) -> T !! c = None -> P T -> P (<[c := []]> T);
  cf_pre T rs : T !! ChainPrerouting = Some rs -> P T -> P (<[ChainPrerouting := prepended (markJump m) rs]> T);
  cf_post T rs : T !! ChainPostrouting = Some rs -> P T -> P (<[ChainPostrouting := prepended (snatJump m) rs]> T);
  cf_mark T : P T -> P (setsMark m T);
  cf_snat ip T : P T -> P (setsSnat m ip T);
}.

Lemma elem_of_prepended r args rs : r ∈ prepended args rs <-> r = args \/ r ∈ rs.
Proof. unfold prepended. case_decide; [|by rewrite elem_of_cons]. naive_solver. Qed.
Lemma prepended_all (Q : list string -> Prop) args rs : Q args -> Forall Q rs -> Forall Q (prepended args rs).
Proof. intros Ha Hrs. unfold prepended. case_decide; [done|by constructor]. Qed.

Lemma other_chain (T : chains) c d (x : rules) (Q : rules -> Prop) :
  c <> d -> (exists rs : rules, T !! d = Some rs /\ Q rs) -> exists rs : rules, <[c := x]> T !! d = Some rs /\ Q rs.
Proof. intros Hne (rs & Hd & Hq). exists rs. by rewrite lookup_insert_ne. Qed.

Lemma sane_closed m : closedFor m sane.
Proof.
  split.
  - intros c T Hc Hn [Hpre Hpost Hm Hs]. split.
    + apply other_chain; [by destruct Hc as [->| ->]|done].
    + apply other_chain; [by destruct Hc as [->| ->]|done].
    + intros m' rs. rewrite lookup_insert_Some. naive_solver.
    + intros m' rs. rewrite lookup_insert_Some. naive_solver.
  - intros T rs Hrs [(pre & Hpre & Fpre) Hpost Hm Hs]. simplify_eq. split.
    + eexists. rewrite lookup_insert_eq. split; [done|]. apply prepended_all; [by exists m|done].
    + by apply other_chain.
    + intros m' rs'. rewrite lookup_insert_ne by done. apply Hm.
    + intros m' rs'. rewrite lookup_insert_ne by done. apply Hs.
  - intros T rs Hrs [Hpre (post & Hpost & Fpost) Hm Hs]. simplify_eq. split.
    + by apply other_chain.
    + eexists. rewrite lookup_insert_eq. split; [done|]. apply prepended_all; [by exists m|done].
    + intros m' rs'. rewrite lookup_insert_ne by done. apply Hm.
    + intros m' rs'. rewrite lookup_insert_ne by done. apply Hs.
  - intros T [Hpre Hpost Hm Hs]. unfold setsMark. split; [by apply other_chain..| |].
    + intros m' rs. rewrite lookup_insert_Some. intros [[<-%markChain_inj <-]|[_ ?]]; [by right|by apply Hm].
    + intros m' rs. rewrite lookup_insert_ne by done. apply Hs.
  - intros ip T [Hpre Hpost Hm Hs]. unfold setsSnat. split; [by apply other_chain..| |].
    + intros m' rs. rewrite lookup_insert_ne by done. apply Hm.
    + intros m' rs. rewrite lookup_insert_Some. intros [[<-%markSnatChain_inj <-]|[_ ?]]; [right; by eexists|by apply Hs].
Qed.
Lemma inPlace_closed m m' ip : m <> m' -> closedFor m (inPlace m' ip).
Proof.
  intros Hne. assert (Hc1 : markChain m <> markChain m') by (intros ?%markChain_inj; done).
  assert (Hc2 : markSnatChain m <> markSnatChain m') by (intros ?%markSnatChain_inj; done). split.
  - intros c T Hc Hn [Hpre Hpost Hm Hs]. destruct Hc as [->| ->]; (split; by apply other_chain || by rewrite lookup_insert_ne).
  - intros T rs Hrs [(pre & Hpre & Fpre) Hpost Hm Hs]. simplify_eq. split; [|by apply other_chain|by rewrite lookup_insert_ne..].
    eexists. rewrite lookup_insert_eq. split; [done|]. apply elem_of_prepended. by right.
  - intros T rs Hrs [Hpre (post & Hpost & Fpost) Hm Hs]. simplify_eq. split; [by apply other_chain| |by rewrite lookup_insert_ne..].
    eexists. rewrite lookup_insert_eq. split; [done|]. apply elem_of_prepended. by right.
  - intros T [Hpre Hpost Hm Hs]. unfold setsMark. split; by apply other_chain || by rewrite lookup_insert_ne.
  - intros ip' T [Hpre Hpost Hm Hs]. unfold setsSnat. split; by apply other_chain || by rewrite lookup_insert_ne.
Qed.
Lemma closed_and m P Q : closedFor m P -> closedFor m Q -> closedFor m (fun T => P T /\ Q T).
Proof. intros [? ? ? ? ?] [? ? ? ? ?]. split; naive_solver. Qed.

(** What the daemon does when the link of a gateway goes. *)
Record closedDel (m : Z) (P : chains -> Prop) : Prop := {
  cd_pre comment T : P T -> P (alter (removed (jumpRule comment (markChain m))) ChainPrerouting T);
  cd_post comment T : P T -> P (alter (removed (jumpRule comment (markSnatChain m))) ChainPostrouting T);
  cd_mark T : P T -> P (delete (markChain m) T);
  cd_snat T : P T -> P (delete (markSnatChain m) T);
}.

Lemma elem_of_removed r args rs : r ∈ removed args rs -> r ∈ rs.
Proof.
  induction rs as [|q rs IH]; simpl; [done|]. case_decide; rewrite !elem_of_cons; naive_solver.
Qed.
Lemma elem_of_removed_ne r args rs : r <> args -> r ∈ rs -> r ∈ removed args rs.
Proof.
  intros Hne. induction rs as [|q rs IH]; simpl; [done|]. rewrite elem_of_cons. case_decide; [naive_solver|].
  rewrite elem_of_cons. naive_solver.
Qed.
Lemma removed_all (Q : list string -> Prop) args rs : Forall Q rs -> Forall Q (removed args rs).
Proof. rewrite !Forall_forall. intros Hq r Hr%elem_of_removed. by apply Hq. Qed.
Lemma alter_chain (T : chains) c (f : rules -> rules) (Q Q' : rules -> Prop) :
  (forall rs, Q rs -> Q' (f rs)) -> (exists rs, T !! c = Some rs /\ Q rs) -> exists rs, alter f c T !! c = Some rs /\ Q' rs.
Proof. intros Hf (rs & Hc & Hq). exists (f rs). rewrite lookup_alter_eq, Hc. auto. Qed.
Lemma other_altered (T : chains) c d f (Q : rules -> Prop) :
  c <> d -> (exists rs, T !! d = Some rs /\ Q rs) -> exists rs, alter f c T !! d = Some rs /\ Q rs.
Proof. intros Hne (rs & Hd & Hq). exists rs. by rewrite lookup_alter_ne. Qed.
Lemma other_deleted (T : chains) c d (Q : rules -> Prop) :
  c <> d -> (exists rs, T !! d = Some rs /\ Q rs) -> exists rs, delete c T !! d = Some rs /\ Q rs.
Proof. intros Hne (rs & Hd & Hq). exists rs. by rewrite lookup_delete_ne. Qed.

Lemma sane_closedDel m : closedDel m sane.
Proof.
  split.
  - intros comment T [Hpre Hpost Hm Hs]. split; [|by apply other_altered|intros m' rs; rewrite lookup_alter_ne by done; auto..].
    eapply alter_chain; [|exact Hpre]. intros rs. apply removed_all.
  - intros comment T [Hpre Hpost Hm Hs]. split; [by apply other_altered| |intros m' rs; rewrite lookup_alter_ne by done; auto..].
    eapply alter_chain; [|exact Hpost]. intros rs. apply removed_all.
  - intros T [Hpre Hpost Hm Hs]. split; try (by apply other_deleted); intros m' rs [_ Hl]%lookup_delete_Some; eauto.
  - intros T [Hpre Hpost Hm Hs]. split; try (by apply other_deleted); intros m' rs [_ Hl]%lookup_delete_Some; eauto.
Qed.
Lemma inPlace_closedDel m m' ip : m <> m' -> closedDel m (inPlace m' ip).
Proof.
  intros Hne. assert (Hc1 : markChain m <> markChain m') by (intros ?%markChain_inj; done).
  assert (Hc2 : markSnatChain m <> markSnatChain m') by (intros ?%markSnatChain_inj; done). split.
  - intros comment T [Hpre Hpost Hm Hs]. split; [|by apply other_altered|by rewrite lookup_alter_ne..].
    eapply alter_chain; [|exact Hpre]. intros rs. apply elem_of_removed_ne. intros ?%jumpRule_inj. by apply Hc1.
  - intros comment T [Hpre Hpost Hm Hs]. split; [by apply other_altered| |by rewrite lookup_alter_ne..].
    eapply alter_chain; [|exact Hpost]. intros rs. apply elem_of_removed_ne. intros ?%jumpRule_inj. by apply Hc2.
  - intros T [Hpre Hpost Hm Hs]. split; by apply other_deleted || by rewrite lookup_delete_ne.
  - intros T [Hpre Hpost Hm Hs]. split; by apply other_deleted || by rewrite lookup_delete_ne.
Qed.
Lemma closedDel_and m P Q : closedDel m P -> closedDel m Q -> closedDel m (fun T => P T /\ Q T).
Proof. intros [? ? ? ?] [? ? ? ?]. split; naive_solver. Qed.

(** ** The calls that are not about tables *)
Section untouched.
Context {W : Type} `{NetNS W} `{NetLink W} `{NetlinkPure} `{WgTypes} `{!WgCtrl W} `{ProbeServer W} `{OsEnv} `{OwnerRefs}.
Context `{Store W StaticGatewayConfiguration} `{Store W GatewayVMConfiguration} `{Store W Secret}.
Context `{Store W GatewayStatus} `{Store W Node}.

(** A client of iptables that does nothing, for the frame lemmas of [DaemonSGC]. *)
Definition noTables : IPTables W := {|
  EnsureChain _ _ _ := ret true; EnsureRule _ _ _ _ _ := ret true; DeleteRule _ _ _ _ := ret tt;
  SaveInto _ _ := ret ""; Restore _ _ _ _ _ := ret tt; RestoreAll _ _ _ _ := ret tt;
  GetChainsFromTable _ := ∅; MakeChainLine c := c |}.
#[local] Existing Instance noTables.

(** No call but those to iptables falsifies [P]. *)
Class Untouched (P : W -> Prop) : Prop := {
  un_node :: NodeKeeps P;
  un_setup :: SetupKeeps P;
  un_addrDel n l a : keeps P (AddrDel n l a);
  un_linkDel n l : keeps P (LinkDel n l);
  un_configure c s cfg : keeps P (wgConfigureDevice c s cfg);
  un_probe s w : P w -> P (setProbeServer s w);
}.
Context (P : W -> Prop) `{!Untouched P}.
Let un_node' : NodeKeeps P := un_node.
Let un_setup' : SetupKeeps P := un_setup.
Let un_addrDel' : forall n l a, keeps P (AddrDel n l a) := un_addrDel.
Let un_linkDel' : forall n l, keeps P (LinkDel n l) := un_linkDel.
Let un_configure' : forall c s cfg, keeps P (wgConfigureDevice c s cfg) := un_configure.

Lemma un_getWireguardPrivateKey g : keeps P (daemonsgc.getWireguardPrivateKey g).
Proof using All. apply keeps_getWireguardPrivateKey, _. Qed.
Lemma un_reconcileIlbIPOnHost node ip : keeps P (daemonsgc.reconcileIlbIPOnHost node ip).
Proof using All. apply (keeps_reconcileIlbIPOnHost node P un_addrDel). Qed.
Lemma un_getVMIP node g : keeps P (daemonsgc.getVMIP node g).
Proof using All. apply keeps_getVMIP, _. Qed.
Lemma un_removeSecondaryIpFromHost (node : NodeState) ip : keeps P (daemonsgc.removeSecondaryIpFromHost ip).
Proof using All. apply (keeps_removeSecondaryIpFromHost node P un_addrDel). Qed.
Lemma un_GetNS name : keeps P (GetNS name).
Proof using All. apply keeps_GetNS, _. Qed.
Lemma un_close n : keeps P (nsClose n).
Proof using All. apply nk_close. Qed.
Lemma un_enter n : keeps P (nsEnter n).
Proof using All. apply nk_enter. Qed.
Lemma un_linkByName n s : keeps P (LinkByName n s).
Proof using All. apply nk_linkByName. Qed.
Lemma un_linkSetUp n l : keeps P (LinkSetUp n l).
Proof using All. apply nk_linkSetUp. Qed.
Lemma un_reconcileWireguardLink gwns g k : keeps P (daemonsgc.reconcileWireguardLink gwns g k).
Proof using All.
  unfold daemonsgc.reconcileWireguardLink, daemonsgc.createWireguardLink, daemonsgc.configureWireguardLink,
    daemonsgc.ensureAddr, daemonsgc.hasAddr. node_tac.
Qed.
Lemma un_reconcileVethPair gwns p s : keeps P (daemonsgc.reconcileVethPair gwns p s).
Proof using All.
  unfold daemonsgc.reconcileVethPair, daemonsgc.reconcileVethPairInHost, daemonsgc.joinVethPair,
    daemonsgc.ensureAddr, daemonsgc.hasAddr. node_tac.
Qed.
Lemma un_updateNodeStatus fresh upd add : keeps P (updateNodeStatus fresh upd add).
Proof using All. apply keeps_updateNodeStatus, _. Qed.
Lemma un_probeAdd uid : keeps P (probeAdd uid).
Proof using All. apply keeps_effect. intros w. apply un_probe. Qed.
Lemma un_probeRemove uid : keeps P (probeRemove uid).
Proof using All. apply keeps_effect. intros w. apply un_probe. Qed.
End untouched.

(** ** The nat tables of a node *)
Section server.
Context {W : Type} `{NetNS W} `{NetLink W} `{NetlinkPure} `{WgTypes} `{!WgCtrl W} `{ProbeServer W} `{OsEnv} `{OwnerRefs}.
Context `{Store W StaticGatewayConfiguration} `{Store W GatewayVMConfiguration} `{Store W Secret}.
Context `{Store W GatewayStatus} `{Store W Node} `{IPTables W}.
(** The tables of the namespaces, and what is known about the rest of the world. *)
Context (natOf : W -> netns -> chains) (good : W -> Prop).

(** What a text for iptables-restore says. *)
Definition setsChain (text c : string) (rs : rules) : Prop :=
  plain c /\ exists ruleLines,
    Split text "010" = ("*" +:+ TableNAT) :: MakeChainLine c :: ruleLines ++ ["COMMIT"; ""] /\
    map (fun line => Split line " ") ruleLines = map (fun r => Append :: c :: r) rs.
Definition deletesChain (text c : string) : Prop :=
  plain c /\ Split text "010" = ["*" +:+ TableNAT; MakeChainLine c; Join ["-X"; c] " "; "COMMIT"; ""].

(** A call that changes the table of one namespace in one go, or fails without changing
    it. *)
Definition acts {A} (n : netns) (change : chains -> chains -> Prop) (c : M W A) : Prop := forall w r w',
  c w = (r, w') ->
  (good w -> good w') /\ (forall n', n' <> n -> natOf w' n' = natOf w n') /\
  (change (natOf w n) (natOf w' n) \/ (is_Ok r = false /\ natOf w' n = natOf w n)).

(** What the daemon relies on of iptables: chains are made once, a rule is put in front
    unless it is there, the text for iptables-restore replaces the chain it declares and
    no other, or deletes it, and the saved text names the chains.  No other call is about
    tables. *)
Class NatServer : Prop := {
  nat_untouched n T :: Untouched (fun w => natOf w n = T);
  nat_good :: Untouched good;
  nat_ensureChain n c : acts n (fun T T' => T' = ensured c T) (EnsureChain n TableNAT c);
  nat_ensureRule n c args :
    acts n (fun T T' => exists rs, T !! c = Some rs /\ T' = <[c := prepended args rs]> T) (EnsureRule n Prepend TableNAT c args);
  nat_deleteRule n c args : acts n (fun T T' => T' = alter (removed args) c T) (DeleteRule n TableNAT c args);
  nat_saveInto n : acts n (fun T T' => T' = T) (SaveInto n TableNAT);
  nat_saved n w text w' c : SaveInto n TableNAT w = (Ok text, w') -> plain c -> is_Some (natOf w n !! c) ->
    c ∈ GetChainsFromTable text;
  nat_restoreAll n text c rs : setsChain text c rs ->
    acts n (fun T T' => T' = <[c := rs]> T) (RestoreAll n text NoFlushTables NoRestoreCounters);
  nat_restore n text c : deletesChain text c ->
    acts n (fun T T' => T' = delete c T) (Restore n TableNAT text NoFlushTables NoRestoreCounters);
  nat_chainLine c : plain c -> no_byte "010" (MakeChainLine c) = true;
}.
Context `{!NatServer}.

(** What holds of the table of [n], in a good world. *)
Definition holds (n : netns) (P : chains -> Prop) (w : W) : Prop := good w /\ P (natOf w n).

Lemma untouched_holds {A} n P (c : M W A) : (forall Q : W -> Prop, Untouched Q -> keeps Q c) -> keeps (holds n P) c.
Proof using All.
  intros Hc w [Hg Hp]. split; [by apply (Hc good _)|]. by rewrite (Hc (fun w' => natOf w' n = natOf w n) _ w eq_refl).
Qed.
(** The tables are those before the call. *)
Lemma untouched_frame {A} (c : M W A) n (Q : chains -> Prop) w :
  (forall P : W -> Prop, Untouched P -> keeps P c) -> Q (natOf w n) -> Q (natOf (snd (c w)) n).
Proof using All. intros Hc Hq. by rewrite (Hc (fun w' => natOf w' n = natOf w n) _ w eq_refl). Qed.
Lemma acts_holds {A} n n' P change (c : M W A) :
  acts n change c -> (n' = n -> forall T T', change T T' -> P T -> P T') -> keeps (holds n' P) c.
Proof.
  intros Hc Hp w [Hg Hw]. destruct (c w) as [r w'] eqn:Hrun. destruct (Hc w r w' Hrun) as (Hg' & Ho & Hn). simpl.
  split; [by apply Hg'|]. destruct (decide (n' = n)) as [->|Hne]; [|by rewrite Ho].
  destruct Hn as [Hch|[_ ->]]; [by eapply Hp|done].
Qed.

Lemma chainLines_set c rs : plain c -> Forall (Forall plain) rs -> setsChain (chainLines TableNAT (MakeChainLine c) c rs) c rs.
Proof using All. intros Hc Hrs. split; [done|]. apply chainLines_read; try done. by apply nat_chainLine. Qed.
Lemma deleteLines_delete c : plain c -> deletesChain (deleteLines TableNAT (MakeChainLine c) c) c.
Proof using All. intros Hc. split; [done|]. apply deleteLines_read; try done. by apply nat_chainLine. Qed.

(** *** A chain is set up *)

Lemma ensureIPTablesChain_holds n n' P c src comment rs :
  plain c -> Forall (Forall plain) rs ->
  (n' = n -> (forall T, T !! c = None -> P T -> P (<[c := []]> T)) /\
    (forall T rs0, T !! src = Some rs0 -> P T -> P (<[src := prepended (jumpRule comment c) rs0]> T)) /\
    (forall T, rs <> [] -> P T -> P (<[c := rs]> T))) ->
  keeps (holds n' P) (daemonsgc.ensureIPTablesChain n TableNAT c src comment rs).
Proof using All.
  intros Hc Hrs HP. unfold daemonsgc.ensureIPTablesChain.
  apply keeps_bind; [apply keeps_on_err; eapply acts_holds; [apply nat_ensureChain|]|intros _].
  { intros Hn T T' ->. unfold ensured. destruct (T !! c) eqn:E; [done|]. by apply HP. }
  apply keeps_bind; [apply keeps_on_err; eapply acts_holds; [apply nat_ensureRule|]|intros _].
  { intros Hn T T' (rs0 & E & ->). by apply HP. }
  destruct rs as [|r rs]; [apply keeps_ret|]. apply keeps_on_err.
  eapply acts_holds; [apply nat_restoreAll; by apply chainLines_set|]. intros Hn T T' ->. by apply HP.
Qed.

Lemma acts_Ok {A} n change (c : M W A) w a w' :
  acts n change c -> c w = (Ok a, w') -> change (natOf w n) (natOf w' n).
Proof. intros Hc Hrun. destruct (Hc w _ w' Hrun) as (_ & _ & [?|[? _]]); done. Qed.

(** The table after a chain was set up. *)
Lemma ensureIPTablesChain_Ok n c src comment rs w w' :
  plain c -> Forall (Forall plain) rs -> c <> src ->
  daemonsgc.ensureIPTablesChain n TableNAT c src comment rs w = (Ok tt, w') ->
  (exists rs0, natOf w' n !! src = Some rs0 /\ jumpRule comment c ∈ rs0) /\
  (rs <> [] -> natOf w' n !! c = Some rs) /\
  (forall d, d <> c -> d <> src -> natOf w' n !! d = natOf w n !! d).
Proof using All.
  intros Hc Hrs Hne. unfold daemonsgc.ensureIPTablesChain. intros (b & w1 & Hn%on_err_Ok_inv & Hrun)%bind_Ok_inv.
  apply bind_Ok_inv in Hrun as (b2 & w2 & Hr%on_err_Ok_inv & Hrun).
  apply (acts_Ok _ _ _ _ _ _ (nat_ensureChain _ _)) in Hn.
  apply (acts_Ok _ _ _ _ _ _ (nat_ensureRule _ _ _)) in Hr as (rs0 & Hrs0 & E2).
  assert (Hj : exists rs1, natOf w2 n !! src = Some rs1 /\ jumpRule comment c ∈ rs1).
  { rewrite E2, lookup_insert_eq. eexists. split; [done|]. apply elem_of_prepended. by left. }
  assert (Hd : forall d, d <> c -> d <> src -> natOf w2 n !! d = natOf w n !! d).
  { intros d Hdc Hds. rewrite E2, lookup_insert_ne by done. rewrite Hn. unfold ensured.
    destruct (natOf w n !! c); [done|by rewrite lookup_insert_ne]. }
  destruct rs as [|r rs]; [unfold ret in Hrun; injection Hrun as <-; by split_and!|].
  apply on_err_Ok_inv in Hrun.
  apply (acts_Ok _ _ _ _ _ _ (nat_restoreAll _ _ c _ (chainLines_set c (r :: rs) Hc Hrs))) in Hrun. rewrite Hrun.
  split_and!; [by apply other_chain|by rewrite lookup_insert_eq|]. intros d Hdc Hds. rewrite lookup_insert_ne by done. by apply Hd.
Qed.

(** *** A gateway is set up *)

Context (node : NodeState).

Lemma configureGatewayNamespace_holds n P g key p s :
  let m := gsp_Port (sgc_GatewayServerProfile (sgc_Status g)) in
  (int64_min <= m <= int64_max)%Z -> plain s -> (n <> HostNS -> closedFor m P) ->
  keeps (holds n P) (daemonsgc.configureGatewayNamespace g key p s).
Proof using All.
  intros m Hm Hs HP. unfold daemonsgc.configureGatewayNamespace.
  apply keeps_bind_post; [apply keeps_on_err, untouched_holds; intros; by apply un_GetNS|].
  intros w gwns w1 _ Hns%on_err_Ok_inv. unfold GetNS, GetNSByPath in Hns.
  apply bind_Ok_inv in Hns as ([] & w2 & _ & Hns). unfold ret in Hns. injection Hns as <- _.
  apply keeps_defer; [|intros _; apply (untouched_holds n P (nsClose _)); intros; by apply un_close].
  apply keeps_bind; [apply untouched_holds; intros; by apply un_reconcileWireguardLink|intros _].
  apply keeps_bind; [apply untouched_holds; intros; by apply un_reconcileVethPair|intros _].
  apply keeps_bind; [apply untouched_holds; intros; by apply un_enter|intros _].
  apply keeps_bind; [apply keeps_on_err, untouched_holds; intros; by apply un_linkByName|intros lo].
  apply keeps_bind; [apply keeps_on_err, untouched_holds; intros; by apply un_linkSetUp|intros _].
  cbv zeta. rewrite getPacketMark_link by done. fold m. apply keeps_bind_post; [apply keeps_lift|].
  intros ? ? ? _ [= <- _]. apply keeps_bind; [|intros _].
  - apply ensureIPTablesChain_holds; [apply plain_markChain|constructor; [apply plain_markRule|constructor]|].
    intros ->. destruct HP as [Hnew Hpre _ Hmark _]; [done|]. split_and!; [by auto|exact Hpre|intros T _; apply Hmark].
  - apply ensureIPTablesChain_holds; [apply plain_markSnatChain|constructor; [by apply plain_snatRule|constructor]|].
    intros ->. destruct HP as [Hnew _ Hpost _ Hsnat]; [done|]. split_and!; [by auto|exact Hpost|intros T _; apply Hsnat].
Qed.

(** The table of the gateway namespace after a gateway was set up. *)
Lemma configureGatewayNamespace_Ok g key p s w w' :
  let m := gsp_Port (sgc_GatewayServerProfile (sgc_Status g)) in
  (int64_min <= m <= int64_max)%Z -> plain s ->
  daemonsgc.configureGatewayNamespace g key p s w = (Ok tt, w') -> inPlace m s (natOf w' gatewayNS).
Proof using All.
  intros m Hm Hs. unfold daemonsgc.configureGatewayNamespace. intros (gwns & w1 & Hns%on_err_Ok_inv & Hrun)%bind_Ok_inv.
  unfold GetNS, GetNSByPath in Hns. apply bind_Ok_inv in Hns as ([] & w2 & _ & Hns). unfold ret in Hns. injection Hns as <- _.
  change (PathNS _) with gatewayNS in Hrun. apply defer_inv in Hrun as (w3 & Hrun & ->).
  apply (untouched_frame (nsClose gatewayNS)); [intros; by apply un_close|].
  do 5 apply bind_Ok_inv in Hrun as (? & ? & _ & Hrun). cbv zeta in Hrun. rewrite getPacketMark_link in Hrun by done. fold m in Hrun.
  apply bind_Ok_inv in Hrun as (? & ? & [= <- <-] & Hrun). apply bind_Ok_inv in Hrun as ([] & w4 & Ha & Hb).
  pose proof (plain_markRule m) as Hmr. pose proof (plain_snatRule m s Hs) as Hsr.
  destruct (ensureIPTablesChain_Ok gatewayNS (markSnatChain m) ChainPostrouting (snatComment (linkOf m)) [snatRule m s] w4 w3)
    as (Hpost & Hsnat & Hother); [apply plain_markSnatChain|by apply Forall_singleton|done|exact Hb|].
  apply ensureIPTablesChain_Ok in Ha as (Hpre & Hmark & _); [|apply plain_markChain|by apply Forall_singleton|done].
  split; [by rewrite Hother|exact Hpost|rewrite Hother by done; by apply Hmark|by apply Hsnat].
Qed.

(** The address of a node, as the status of a VM configuration has it. *)
Definition address (s : string) : Prop := plain s /\ plain (noSnatChain s) /\ noSnatChain s <> snatChain.
(** The host does not translate the packets of this address any more. *)
Definition spared (s : string) (T : chains) : Prop :=
  (exists rs, T !! ChainPostrouting = Some rs /\ jumpRule masqueradeComment snatChain ∈ rs) /\
  (exists rs, T !! snatChain = Some rs /\ jumpRule (noSnatComment s) (noSnatChain s) ∈ rs) /\
  T !! noSnatChain s = Some [["-s"; s +:+ "/32"; "-j"; "ACCEPT"]].

Context (Haddress : forall g w p s w', good w -> daemonsgc.getVMIP node g w = (Ok (p, s), w') -> address s).

Lemma reconcile_holds n P g :
  let m := gsp_Port (sgc_GatewayServerProfile (sgc_Status g)) in
  (int64_min <= m <= int64_max)%Z -> n <> HostNS -> closedFor m P -> keeps (holds n P) (daemonsgc.reconcile node g).
Proof using All.
  intros m Hm Hn HP. unfold daemonsgc.reconcile.
  apply keeps_bind; [apply untouched_holds; intros; by apply un_getWireguardPrivateKey|intros key].
  apply keeps_bind; [apply untouched_holds; intros; by apply un_reconcileIlbIPOnHost|intros _].
  apply keeps_bind_post; [apply untouched_holds; intros; by apply un_getVMIP|].
  intros w [p s] w' [Hg _] Hip. apply Haddress in Hip as (Hs & Hc & _); [|done].
  apply keeps_bind; [apply untouched_holds; intros; by apply (un_removeSecondaryIpFromHost _ node)|intros _].
  apply keeps_bind; [by apply ensureIPTablesChain_holds|intros _].
  apply keeps_bind; [apply ensureIPTablesChain_holds; [done| |done]|intros _].
  { apply Forall_singleton. repeat first [apply Forall_nil_2|apply Forall_cons_2]; try done. by apply plain_joined. }
  apply keeps_bind; [by apply configureGatewayNamespace_holds|intros _].
  apply keeps_bind; [apply untouched_holds; intros; by apply un_updateNodeStatus|intros _].
  apply untouched_holds. intros. by apply un_probeAdd.
Qed.

(** The addresses the reconciliation of a gateway reads. *)
Definition addressesOf (g : StaticGatewayConfiguration) : M W (string * string) :=
  do! daemonsgc.getWireguardPrivateKey g;
  do! daemonsgc.reconcileIlbIPOnHost node (gsp_Ip (sgc_GatewayServerProfile (sgc_Status g)));
  daemonsgc.getVMIP node g.

Lemma reconcile_Ok g w w' :
  let m := gsp_Port (sgc_GatewayServerProfile (sgc_Status g)) in
  (int64_min <= m <= int64_max)%Z -> good w -> daemonsgc.reconcile node g w = (Ok tt, w') ->
  exists p s w1, addressesOf g w = (Ok (p, s), w1) /\ address s /\ inPlace m s (natOf w' gatewayNS) /\ spared s (natOf w' HostNS).
Proof using All.
  intros m Hm Hg. unfold daemonsgc.reconcile. intros (key & w1 & Hkey & Hrun)%bind_Ok_inv.
  apply bind_Ok_inv in Hrun as ([] & w2 & Hilb & Hrun). apply bind_Ok_inv in Hrun as ([p s] & w3 & Hip & Hrun).
  assert (Hg2 : good w2).
  { eapply kept; [apply (un_reconcileIlbIPOnHost good)|exact Hilb|].
    eapply kept; [apply (un_getWireguardPrivateKey good)|exact Hkey|exact Hg]. }
  pose proof (Haddress _ _ _ _ _ Hg2 Hip) as Ha. exists p, s, w3. split; [|split; [done|]].
  { unfold addressesOf, bind. by rewrite Hkey, Hilb. }
  destruct Ha as (Hs & Hc & Hne). apply bind_Ok_inv in Hrun as ([] & w4 & Hrm & Hrun).
  apply bind_Ok_inv in Hrun as ([] & w5 & He1 & Hrun). apply bind_Ok_inv in Hrun as ([] & w6 & He2 & Hrun).
  apply bind_Ok_inv in Hrun as ([] & w7 & Hns & Hrun).
  apply bind_Ok_inv in Hrun as ([] & w8 & Hst & Hrun).
  assert (Hrules : Forall (Forall plain) [["-s"; s +:+ "/32"; "-j"; "ACCEPT"]]).
  { apply Forall_singleton. repeat first [apply Forall_nil_2|apply Forall_cons_2]; try done. by apply plain_joined. }
  assert (Hg6 : holds HostNS (fun _ => True) w6).
  { refine (kept _ _ _ _ _ _ He2 _); [by apply ensureIPTablesChain_holds|].
    refine (kept _ _ _ _ _ _ He1 _); [by apply ensureIPTablesChain_holds|]. split; [|done].
    eapply kept; [apply (un_removeSecondaryIpFromHost good node)|exact Hrm|].
    eapply kept; [apply (un_getVMIP good)|exact Hip|exact Hg2]. }
  assert (Htables : forall n, natOf w' n = natOf w7 n).
  { intros n. eapply (kept (fun w => natOf w n = natOf w7 n)); [apply un_probeAdd, _|exact Hrun|].
    refine (kept (fun w => natOf w n = natOf w7 n) _ _ _ _ _ Hst _); [apply un_updateNodeStatus, _|done]. }
  rewrite !Htables. split; [by eapply configureGatewayNamespace_Ok|].
  assert (natOf w7 HostNS = natOf w6 HostNS) as ->.
  { refine (proj2 (kept (holds HostNS (fun T => T = natOf w6 HostNS)) _ _ _ _ _ Hns _)); [by apply configureGatewayNamespace_holds|].
    split; [apply Hg6|done]. }
  apply ensureIPTablesChain_Ok in He1 as (Hpost & _ & _); [|done..].
  apply ensureIPTablesChain_Ok in He2 as (Hjump & Hrule & Hother); [|done..].
  split_and!; [by rewrite Hother|done|by apply Hrule].
Qed.

(** *** A gateway is removed *)

Lemma removeChain_holds n n' P existing scs comments i c :
  plain c ->
  (forall src comment T, scs !! i = Some src -> P T -> P (alter (removed (jumpRule comment c)) src T)) ->
  (forall T, P T -> P (delete c T)) ->
  keeps (holds n' P) (daemonsgc.removeChain n TableNAT existing scs comments i c).
Proof using All.
  intros Hc Hrule Hdel. unfold daemonsgc.removeChain.
  apply keeps_bind_post; [apply keeps_lift|]. intros w src w' _ Hsrc. unfold lift, deref in Hsrc.
  destruct (scs !! i) as [src'|] eqn:Hi; [injection Hsrc as -> _|done].
  apply keeps_bind; [apply keeps_lift|intros comment]. case_decide; [|apply keeps_ret].
  apply keeps_bind; [apply keeps_on_err; eapply acts_holds; [apply nat_deleteRule|]|intros _; apply keeps_on_err].
  - intros _ T T' ->. by apply Hrule.
  - eapply acts_holds; [by apply nat_restore, deleteLines_delete|]. intros _ T T' ->. apply Hdel.
Qed.

Lemma ensureDeleteLink_holds n P link :
  (forall m, getPacketMark (l_Name link) = Ok m -> closedDel m P) ->
  keeps (holds n P) (daemonsgc.ensureDeleteLink gatewayNS link).
Proof using All.
  intros HP. unfold daemonsgc.ensureDeleteLink, nsDo. cbv zeta. apply keeps_bind; [|intros _].
  - apply keeps_bind; [apply untouched_holds; intros; by apply un_enter|intros _].
    apply keeps_bind; [apply keeps_on_err, untouched_holds; intros; by apply un_linkDel|intros _].
    apply keeps_bind_post; [apply keeps_lift|]. intros w0 m w0' _ Hm. unfold lift in Hm. injection Hm as Hm _.
    destruct (HP m Hm) as [Hpre Hpost Hmark Hsnat].
    apply keeps_on_err. unfold daemonsgc.removeIPTablesChains.
    apply keeps_bind; [apply keeps_on_err; eapply acts_holds; [apply nat_saveInto|]; by intros _ T T' ->|intros text].
    apply keeps_bind; [|intros _; apply keeps_ret]. cbn [foldM].
    apply keeps_bind_post; [apply keeps_bind; [|intros _; apply keeps_ret]|].
    + apply removeChain_holds; [apply plain_markChain| |done]. intros src comment T [= <-]. apply Hpre.
    + intros w1 i w2 _ (? & ? & _ & Hi)%bind_Ok_inv. injection Hi as <- _.
      apply keeps_bind; [apply keeps_bind; [|intros _; apply keeps_ret]|intros j; apply keeps_ret].
      apply removeChain_holds; [apply plain_markSnatChain| |done]. intros src comment T [= <-]. apply Hpost.
  - apply keeps_bind; [apply untouched_holds; intros; by apply un_updateNodeStatus|intros _].
    apply untouched_holds. intros. by apply un_probeRemove.
Qed.

(** ** The daemon over time *)

(** What the daemon does about gateways: it reconciles one, or it removes the link of one. *)
Inductive natCall := SetUp (g : StaticGatewayConfiguration) | TearDown (link : Link).
Definition natRun (c : natCall) : M W unit :=
  match c with
  | SetUp g => daemonsgc.reconcile node g
  | TearDown link => daemonsgc.ensureDeleteLink gatewayNS link
  end.
(** The world after a sequence of them, however each of them ended. *)
Definition natRuns (cs : list natCall) (w : W) : W := fold_left (fun w c => snd (natRun c w)) cs w.

Definition portOf (g : StaticGatewayConfiguration) : Z := gsp_Port (sgc_GatewayServerProfile (sgc_Status g)).
(** The port of a gateway is an [int32]. *)
Definition int32Port (c : natCall) : Prop :=
  match c with SetUp g => (- 2 ^ 31 <= portOf g < 2 ^ 31)%Z | TearDown _ => True end.
Definition concerns (m : Z) (c : natCall) : Prop :=
  match c with SetUp g => portOf g = m | TearDown link => getPacketMark (l_Name link) = Ok m end.

Lemma int32_int64 z : (- 2 ^ 31 <= z < 2 ^ 31)%Z -> (int64_min <= z <= int64_max)%Z.
Proof. unfold int64_min, int64_max. lia. Qed.

Lemma natRuns_holds P cs w :
  (forall m, Exists (concerns m) cs -> closedFor m P /\ closedDel m P) -> Forall int32Port cs ->
  holds gatewayNS P w -> holds gatewayNS P (natRuns cs w).
Proof using All.
  intros HP Hcs. revert w. induction Hcs as [|c cs Hc Hcs IH]; intros w Hw; [done|]. simpl.
  apply IH; [intros m Hm; apply HP; by right|]. destruct c as [g|link]; simpl.
  - eapply (reconcile_holds gatewayNS P g); [by apply int32_int64|done|apply (HP (portOf g)); by left|done].
  - eapply (ensureDeleteLink_holds gatewayNS P link); [|done]. intros m Hm. apply (HP m). by left.
Qed.

(** C6: the packets of a gateway's pods leave with the gateway's address. Let a node
    start with chains of gateways only in the nat table of the gateway namespace, and let
    the daemon reconcile and remove gateways in any order, with any outcome, where the
    nodes' addresses are words without blanks. Once it has
    reconciled a gateway without an error, every packet that comes in on the gateway's
    link and leaves for the host gets the node's secondary address for this gateway, which
    the reconciliation read, and the host has the rules by which it does not translate
    that address; and the packets keep getting it through all that is done about the
    other gateways of the node afterwards. *)
Theorem gateway_translates cs g cs' w w' :
  good w -> sane (natOf w gatewayNS) -> Forall int32Port cs -> int32Port (SetUp g) ->
  daemonsgc.reconcile node g (natRuns cs w) = (Ok tt, w') ->
  Forall int32Port cs' -> Forall (fun c => ~ concerns (portOf g) c) cs' ->
  exists p s w1, addressesOf g (natRuns cs w) = (Ok (p, s), w1) /\
    (forall src, natted (natOf (natRuns cs' w') gatewayNS) (getWireguardInterfaceName g) src = s) /\
    spared s (natOf w' HostNS).
Proof using All.
  intros Hg Hs Hcs Hp%int32_int64 Hrun Hcs' Hother.
  assert (holds gatewayNS sane (natRuns cs w)) as [Hg1 Hs1].
  { apply natRuns_holds; [|done|by split]. intros m _. by split; [apply sane_closed|apply sane_closedDel]. }
  destruct (reconcile_Ok g _ _ Hp Hg1 Hrun) as (p & s & w1 & Hread & Ha & Hin & Hhost). exists p, s, w1.
  split; [done|]. split; [|done]. intros src.
  assert (holds gatewayNS (fun T => sane T /\ inPlace (portOf g) s T) (natRuns cs' w')) as [_ [Hs2 Hin2]].
  { apply natRuns_holds; [|done|].
    - intros m Hm. assert (m <> portOf g) as Hne.
      { intros ->. apply Exists_exists in Hm as (c & Hc & Hm). rewrite Forall_forall in Hother. by apply (Hother c). }
      split; [apply closed_and; [apply sane_closed|by apply inPlace_closed]
             |apply closedDel_and; [apply sane_closedDel|by apply inPlace_closedDel]].
    - assert (holds gatewayNS sane w') as [Hg2 Hs2]; [|by split_and!].
      eapply kept; [apply (reconcile_holds gatewayNS sane g); [done..|apply sane_closed]|exact Hrun|by split]. }
  by apply natted_inPlace.
Qed.
End server.
