(* ===== verification/NodeSim.v ===== *)
(** * A gateway node

    An executable world for the daemon: the API objects it uses, the network of
    the host and of the gateway namespace, and the health probe server.  It shows
    that the hypotheses of the daemon's theorems can hold, on concrete runs. *)

From stdpp Require Import base tactics list strings gmap sets.
From Stdlib Require Import Ascii ZArith Lia.
From S2P Require Import Prelude GoStrings Types Kube NetIP Network Imds NodeStatus HealthProbe.
From S2P Require Import DaemonSGC DaemonPod NatTables.

Open Scope string_scope.
Open Scope list_scope.

(** ** The world *)

#[export] Instance sim_wgtypes : WgTypes := {|
  Key := string;
  ParseKey s := if String.eqb s "" then inl (EText "incorrect key size: 0") else inr s;
  Key_String k := k |}.

Record NetState := {
  nt_links : list Link;
  nt_addrs : list (string * Addr);      (** the name of the link and the address *)
  nt_routes : list Route;
  nt_chains : chains;                   (** of the nat table *)
  nt_wg : list (string * WgDevice);
}.

Record NodeWorld := {
  nw_sgcs : list StaticGatewayConfiguration;
  nw_vmcs : list GatewayVMConfiguration;
  nw_secrets : list Secret;
  nw_pods : list PodEndpoint;
  nw_status : option GatewayStatus;
  nw_host : NetState;
  nw_gw : NetState;
  nw_probe : LBProbeServer;
}.

Definition net_of (n : netns) (w : NodeWorld) : NetState :=
  match n with HostNS => nw_host w | PathNS _ => nw_gw w end.
Definition with_net (n : netns) (s : NetState) (w : NodeWorld) : NodeWorld :=
  {| nw_sgcs := nw_sgcs w; nw_vmcs := nw_vmcs w; nw_secrets := nw_secrets w; nw_pods := nw_pods w;
     nw_status := nw_status w;
     nw_host := match n with HostNS => s | PathNS _ => nw_host w end;
     nw_gw := match n with HostNS => nw_gw w | PathNS _ => s end;
     nw_probe := nw_probe w |}.
Definition with_status (s : option GatewayStatus) (w : NodeWorld) : NodeWorld :=
  {| nw_sgcs := nw_sgcs w; nw_vmcs := nw_vmcs w; nw_secrets := nw_secrets w; nw_pods := nw_pods w;
     nw_status := s; nw_host := nw_host w; nw_gw := nw_gw w; nw_probe := nw_probe w |}.
Definition with_probe (s : LBProbeServer) (w : NodeWorld) : NodeWorld :=
  {| nw_sgcs := nw_sgcs w; nw_vmcs := nw_vmcs w; nw_secrets := nw_secrets w; nw_pods := nw_pods w;
     nw_status := nw_status w; nw_host := nw_host w; nw_gw := nw_gw w; nw_probe := s |}.

#[export] Instance node_probe : ProbeServer NodeWorld := {|
  probeServer := nw_probe; setProbeServer := with_probe |}.

(** ** The API server *)

Definition missing {A} : M NodeWorld A := throw (EStatus "NotFound" "not found").
Definition no_write {A} : M NodeWorld A := throw (EStatus "Forbidden" "the daemon may not write").

(** Objects the daemon only reads. *)
Definition read_only {Obj} (get : NodeWorld -> list Obj) (meta : Obj -> ObjectMeta) : Store NodeWorld Obj := {|
  kGet k := fun w =>
    match List.find (fun o => bool_decide (om_key (meta o) = k)) (get w) with
    | Some o => (Ok o, w) | None => missing w end;
  kList := fun w => (Ok (get w), w);
  kCreate _ := no_write; kUpdate _ := no_write; kStatusUpdate _ := no_write;
  kDelete _ := no_write; kCreateOrPatch _ _ := no_write |}.

#[export] Instance node_sgcs : Store NodeWorld StaticGatewayConfiguration := read_only nw_sgcs sgc_meta.
#[export] Instance node_vmcs : Store NodeWorld GatewayVMConfiguration := read_only nw_vmcs vmc_meta.
#[export] Instance node_secrets : Store NodeWorld Secret := read_only nw_secrets sec_meta.
#[export] Instance node_pods : Store NodeWorld PodEndpoint := read_only nw_pods pe_meta.
#[export] Instance node_nodes : Store NodeWorld Node :=
  read_only (fun _ => [{| node_meta := new_meta "node1" ""; node_taints := [] |}]) node_meta.

#[export] Instance node_status_store : Store NodeWorld GatewayStatus := {|
  kGet k := fun w =>
    match nw_status w with
    | Some s => if bool_decide (om_key (gs_meta s) = k) then (Ok s, w) else missing w
    | None => missing w end;
  kList := fun w => (Ok (match nw_status w with Some s => [s] | None => [] end), w);
  kCreate s := fun w => (Ok s, with_status (Some s) w);
  kUpdate s := fun w => (Ok s, with_status (Some s) w);
  kStatusUpdate s := fun w => (Ok s, with_status (Some s) w);
  kDelete _ := fun w => (Ok tt, with_status None w);
  kCreateOrPatch s _ := fun w => (Ok (s, None), w) |}.

#[export] Instance node_env : OsEnv := fun k =>
  if String.eqb k consts.NodeNameEnvKey then "node1" else "kube-egress-gateway-system".

(** ** The network *)

#[export] Instance sim_netns : NetNS NodeWorld := {|
  nsGetNS _ := ret tt; nsClose _ := ret tt; nsEnter _ := ret tt |}.

Definition named (name : string) (l : Link) : bool := String.eqb (l_Name l) name.

Definition set_links ls (s : NetState) : NetState :=
  {| nt_links := ls; nt_addrs := nt_addrs s; nt_routes := nt_routes s; nt_chains := nt_chains s; nt_wg := nt_wg s |}.
Definition set_addrs a (s : NetState) : NetState :=
  {| nt_links := nt_links s; nt_addrs := a; nt_routes := nt_routes s; nt_chains := nt_chains s; nt_wg := nt_wg s |}.
Definition set_routes r (s : NetState) : NetState :=
  {| nt_links := nt_links s; nt_addrs := nt_addrs s; nt_routes := r; nt_chains := nt_chains s; nt_wg := nt_wg s |}.
Definition set_chains c (s : NetState) : NetState :=
  {| nt_links := nt_links s; nt_addrs := nt_addrs s; nt_routes := nt_routes s; nt_chains := c; nt_wg := nt_wg s |}.
Definition set_wg g (s : NetState) : NetState :=
  {| nt_links := nt_links s; nt_addrs := nt_addrs s; nt_routes := nt_routes s; nt_chains := nt_chains s; nt_wg := g |}.

Definition on_net (n : netns) (f : NetState -> NetState) : M NodeWorld unit :=
  effect (fun w => with_net n (f (net_of n w)) w).

(** The index of a new link, and a new WireGuard link's device. *)
Definition indexed (l : Link) (i : nat) : Link :=
  {| l_Name := l_Name l; l_Alias := l_Alias l; l_Index := Z.of_nat i; l_HardwareAddr := l_HardwareAddr l;
     l_Kind := l_Kind l |}.
Definition add_link (l : Link) (s : NetState) : NetState :=
  let l1 := indexed l (S (length (nt_links s))) in
  let more := match l_Kind l with
              | Veth peer => [indexed (newLink (Veth (l_Name l)) peer "") (S (S (length (nt_links s))))]
              | _ => []
              end in
  set_links (nt_links s ++ l1 :: more) s.

#[export] Instance sim_netlink : NetLink NodeWorld := {|
  LinkByName n name := fun w =>
    match List.find (named name) (nt_links (net_of n w)) with
    | Some l => (Ok l, w) | None => (Err (ELinkNotFound "Link not found"), w) end;
  LinkAdd n l := fun w =>
    if existsb (named (l_Name l)) (nt_links (net_of n w)) then (Err (EText "file exists"), w)
    else on_net n (add_link l) w;
  LinkList n := fun w => (Ok (nt_links (net_of n w)), w);
  LinkDel n l := on_net n (fun s => set_links (List.filter (fun k => negb (named (l_Name l) k)) (nt_links s)) s);
  LinkSetUp _ _ := ret tt;
  LinkSetDown _ _ := ret tt;
  LinkSetNsFd n l m := fun w =>
    if existsb (named (l_Name l)) (nt_links (net_of m w)) then (Err (EText "file exists"), w) else
    let w1 := with_net n (set_links (List.filter (fun k => negb (named (l_Name l) k)) (nt_links (net_of n w)))
                            (net_of n w)) w in
    (Ok tt, with_net m (set_wg ((l_Name l, {| dev_PrivateKey := ("" : Key); dev_ListenPort := 0; dev_Peers := [] |})
                                  :: nt_wg (net_of m w1))
                          (set_links (nt_links (net_of m w1) ++ [l]) (net_of m w1))) w1);
  LinkSetName _ _ _ := ret tt;
  LinkSetAlias _ _ _ := ret tt;
  AddrList n l _ := fun w =>
    (Ok (List.filter (fun p => String.eqb (fst p) (l_Name l)) (nt_addrs (net_of n w))).*2, w);
  AddrAdd n l a := on_net n (fun s => set_addrs (nt_addrs s ++ [(l_Name l, a)]) s);
  AddrDel n l a := on_net n (fun s =>
    set_addrs (List.filter (fun p => negb (bool_decide (p = (l_Name l, a)))) (nt_addrs s)) s);
  AddrReplace n l a := on_net n (fun s =>
    set_addrs (List.filter (fun p => negb (bool_decide (p = (l_Name l, a)))) (nt_addrs s) ++ [(l_Name l, a)]) s);
  RouteReplace n r := on_net n (fun s => set_routes (r :: nt_routes s) s);
  RouteDel n r := on_net n (fun s => set_routes (List.filter (fun q => negb (bool_decide (q = r))) (nt_routes s)) s);
  RouteList n l _ := fun w =>
    (Ok (List.filter (fun r => match l with Some l => (rt_LinkIndex r =? l_Index l)%Z | None => true end)
           (nt_routes (net_of n w))), w);
  RuleAdd _ _ _ := ret tt |}.

#[export] Instance sim_netlink_pure : NetlinkPure := {|
  ParseIPNet s := match ParseCIDR s with
                  | inl e => inl e
                  | inr (ip, n) => inr {| ipn_IP := Some ip; ipn_Mask := ipn_Mask n |}
                  end;
  Addr_Equal a b := Ok (bool_decide (addr_IPNet a = addr_IPNet b));
  Route_String _ := "route" |}.

(** A line of the text for iptables-restore: a declared chain is emptied, a rule is
    appended, a chain is deleted. *)
Definition restoreLine (T : chains) (line : string) : chains :=
  match Split line " " with
  | flag :: c :: args =>
      if String.eqb flag "-A" then <[c := default [] (T !! c) ++ [args]]> T
      else if String.eqb flag "-X" then delete c T
      else match flag with String ":"%char name => <[name := []]> T | _ => T end
  | _ => T
  end.
Definition restored (text : string) (T : chains) : chains := fold_left restoreLine (Split text "010") T.

(** A change of the table of one of the node's namespaces. *)
Definition on_nat {A} (n : netns) (a : A) (f : chains -> chains) : M NodeWorld A := fun w =>
  if decide (n = HostNS \/ n = gatewayNS)
  then (Ok a, with_net n (set_chains (f (nt_chains (net_of n w))) (net_of n w)) w)
  else (Err (EText "no such namespace"), w).

(** A saved table lists its chains, one per line. *)
#[export] Instance sim_iptables : IPTables NodeWorld := {|
  EnsureChain n _ c := on_nat n true (ensured c);
  EnsureRule n _ _ c args := fun w =>
    match nt_chains (net_of n w) !! c with
    | Some rs => on_nat n true (<[c := prepended args rs]>) w
    | None => (Err (EText "no chain by that name"), w)
    end;
  DeleteRule n _ c args := on_nat n tt (alter (removed args) c);
  SaveInto n _ := fun w =>
    let names := (map_to_list (nt_chains (net_of n w))).*1 in
    if forallb (no_byte "010") names then (Ok (Join names newline), w) else (Err (EText "bad name"), w);
  Restore n _ text _ _ := on_nat n tt (restored text);
  RestoreAll n text _ _ := on_nat n tt (restored text);
  GetChainsFromTable text := list_to_set (Split text "010");
  MakeChainLine c := ":" +:+ c +:+ " - [0:0]" |}.

Definition drop_peers (cfg : WgConfig) (d : WgDevice) : WgDevice :=
  {| dev_PrivateKey := default (dev_PrivateKey d) (wg_PrivateKey cfg);
     dev_ListenPort := default (dev_ListenPort d) (wg_ListenPort cfg);
     dev_Peers :=
       List.filter (fun p => negb (existsb (fun pc => String.eqb (pcf_PublicKey pc) (peer_PublicKey p))
                                     (wg_Peers cfg))) (dev_Peers d) ++
       flat_map (fun pc => if pcf_Remove pc then []
                           else [{| peer_PublicKey := pcf_PublicKey pc; peer_AllowedIPs := pcf_AllowedIPs pc |}])
         (wg_Peers cfg) |}.

#[export] Instance sim_wgctrl : WgCtrl NodeWorld := {|
  WgClient := netns;
  wgNew n := ret n;
  wgDevice n name := fun w =>
    if negb (existsb (named name) (nt_links (net_of n w))) then (Err (EText "no such device"), w) else
    match List.find (fun p => String.eqb (fst p) name) (nt_wg (net_of n w)) with
    | Some (_, d) => (Ok d, w) | None => (Err (EText "no such device"), w) end;
  wgConfigureDevice n name cfg := on_net n (fun s =>
    set_wg (map (fun p => if String.eqb (fst p) name then (fst p, drop_peers cfg (snd p)) else p) (nt_wg s)) s);
  wgClose _ := ret tt |}.

Import ListMeta.

(** ** A node of the pool [gwpool] with one gateway *)

Definition sim_node : NodeState :=
  {| nodeMeta :=
       {| im_Compute := Some
            {| cm_AzEnvironment := ""; cm_Location := ""; cm_Name := ""; cm_OSType := "";
               cm_OSProfile := {| ComputerName := "node1" |}; cm_ResourceGroupName := "rg"; cm_ResourceID := "";
               cm_SubscriptionID := ""; cm_Tags := "aks-managed-poolName:gwpool"; cm_VMScaleSetName := "" |};
          im_Network := Some {| nm_Interface :=
            [{| ni_IPv4 := {| ipd_IPAddress := []; ipd_Subnet := [{| sn_Address := "10.0.0.0"; sn_Prefix := "16" |}] |};
                ni_MacAddress := "" |}] |} |};
     lbMeta := {| lbm_LoadBalancer := {| lbd_PublicIPAddresses := [] |} |};
     nodeTags := {[ consts.AKSNodepoolTagKey := "gwpool" ]} |}.

Definition sim_vmc : GatewayVMConfiguration :=
  {| vmc_meta := new_meta "gw1" "ns";
     vmc_Spec := {| vmc_GatewayNodepoolName := "gwpool";
                    vmc_GatewayVmssProfile := {| VmssResourceGroup := ""; VmssName := ""; PublicIpPrefixSize := 0 |};
                    vmc_ProvisionPublicIps := true; vmc_PublicIpPrefixId := "" |};
     vmc_Status := Some {| vmc_EgressIpPrefix := "1.2.3.4/31";
                           vmc_GatewayVMProfiles := [{| NodeName := "node1"; PrimaryIP := "10.0.0.10";
                                                        SecondaryIP := "10.0.0.5" |}] |} |}.

Definition fresh_net : NetState :=
  {| nt_links := [indexed (newLink Device "lo" "") 1; indexed (newLink Device "eth0" "") 2];
     nt_addrs := []; nt_routes := []; nt_chains := {[ ChainPrerouting := []; ChainPostrouting := [] ]}; nt_wg := [] |}.

Definition fresh_node : NodeWorld :=
  {| nw_sgcs := [gw_on_6000]; nw_vmcs := [sim_vmc];
     nw_secrets := [{| sec_meta := new_meta "sgw-uid-1" "kube-egress-gateway-system";
                       sec_Data := {[ consts.WireguardPrivateKeyName := "priv" ]} |}];
     nw_pods := []; nw_status := None; nw_host := fresh_net; nw_gw := fresh_net;
     nw_probe := NewLBProbeServer 8082 |}.

(** The node after the gateway's reconciliation. *)
Definition ready_node : NodeWorld := snd (daemonsgc.reconcile sim_node gw_on_6000 fresh_node).

Example reconcile_run :
  fst (daemonsgc.Reconcile sim_node (nn "ns" "gw1") fresh_node) = Ok tt /\
  l_Name <$> nt_links (nw_gw ready_node) = ["lo"; "eth0"; "wg-6000"; "host0"] /\
  fst <$> nt_addrs (nw_gw ready_node) = ["wg-6000"; "host0"] /\
  nt_chains (nw_host ready_node) !! "EGRESS-10-0-0-5" = Some [["-s"; "10.0.0.5/32"; "-j"; "ACCEPT"]] /\
  natted (nt_chains (nw_gw ready_node)) "wg-6000" "10.1.0.7" = "10.0.0.5" /\
  length (nt_routes (nw_gw ready_node)) = 2 /\
  serveHTTP (nw_probe ready_node) "/gw/uid-1" = StatusOK.
Proof. vm_compute. repeat split. Qed.

(** Reconciling again changes nothing. *)
Example reconcile_again :
  let w := snd (daemonsgc.reconcile sim_node gw_on_6000 ready_node) in
  nt_links (nw_gw w) = nt_links (nw_gw ready_node) /\ nt_addrs (nw_gw w) = nt_addrs (nw_gw ready_node) /\
  nt_routes (nw_host w) = nt_routes (nw_host ready_node) /\ bool_decide (nt_chains (nw_gw w) = nt_chains (nw_gw ready_node)) = true /\ nw_status w = nw_status ready_node.
Proof. vm_compute. repeat split. Qed.

(** ** Frames of the simulation *)

(** [keeps] of a call of the simulation, whose effects are written out. *)
Ltac sim_keeps :=
  unfold keeps; intros; cbn -[negb String.eqb bool_decide]; unfold missing, no_write, throw, ret, effect, on_net, on_nat;
  repeat (case_match; simpl); try done.

Definition unserved (w : NodeWorld) : Prop := "uid-1" ∉ activeGateways (probeServer w).

Lemma unserved_kept : NodeKeeps unserved.
Proof. split; sim_keeps. Qed.
Lemma unserved_setup : SetupKeeps unserved.
Proof. split; sim_keeps. Qed.

Lemma served_iff_reconciled_witness :
  unserved fresh_node /\ ~ unserved ready_node.
Proof.
  assert (unserved fresh_node) as Hw.
  { unfold unserved. simpl. set_solver. }
  split; [done|]. unfold ready_node.
  destruct (daemonsgc.reconcile sim_node gw_on_6000 fresh_node) as [r w'] eqn:Hrun.
  apply (proj1 (served_iff_reconciled sim_node gw_on_6000 fresh_node r w' unserved_kept unserved_setup
    ltac:(sim_keeps) ltac:(sim_keeps) ltac:(sim_keeps) (fun s w => eq_refl) Hrun Hw)).
  change r with (fst (r, w')). rewrite <- Hrun. vm_compute. reflexivity.
Defined.

(** ** Clean-up of an orphan *)

(** The node with a link of a gateway that does not exist any more, and its
    address. *)
Definition orphan_link : Link := indexed (newLink Wireguard "wg-6001" "uid-2") 7.
Definition gw_addr (a b c d : Z) : Addr :=
  newAddr (Some {| ipn_IP := Some (IPv4 a b c d); ipn_Mask := Some (CIDRMask 32 32) |}) "".
Definition littered_node : NodeWorld :=
  with_net gatewayNS
    (set_addrs (nt_addrs (nw_gw ready_node) ++ [("host0", gw_addr 10 0 0 6)])
       (set_links (nt_links (nw_gw ready_node) ++ [orphan_link]) (nw_gw ready_node))) ready_node.

Example cleanup_run :
  let w := snd (daemonsgc.cleanUp sim_node littered_node) in
  fst (daemonsgc.cleanUp sim_node littered_node) = Ok tt /\
  nt_links (nw_gw w) = nt_links (nw_gw ready_node) /\ nt_addrs (nw_gw w) = nt_addrs (nw_gw ready_node).
Proof. vm_compute. repeat split. Qed.

(** The gateway's objects, link and address are there. *)
Definition gateway_there (w : NodeWorld) : Prop :=
  nw_sgcs w = [gw_on_6000] /\ nw_vmcs w = [sim_vmc] /\
  ("wg-6000" ∈ l_Name <$> nt_links (nw_gw w)) /\ (("host0", gw_addr 10 0 0 5) ∈ nt_addrs (nw_gw w)).

Lemma elem_names_filter (f : Link -> bool) n l :
  n ∈ l_Name <$> l -> (forall k, l_Name k = n -> f k = true) -> n ∈ l_Name <$> List.filter f l.
Proof.
  intros (k & -> & Hk)%list_elem_of_fmap Hf. apply list_elem_of_fmap_2, elem_filter. auto.
Qed.

Lemma gateway_there_kept : NodeKeeps gateway_there.
Proof.
  unfold gateway_there.
  split; sim_keeps; rewrite ?fmap_app, ?elem_of_app; naive_solver.
Qed.

Lemma gateway_there_linkDel n l :
  l_Name l <> getWireguardInterfaceName gw_on_6000 -> keeps gateway_there (LinkDel n l).
Proof.
  intros Hne w (H1 & H2 & H3 & H4). destruct n; [done|]. split_and!; try done. simpl.
  apply elem_names_filter; [done|]. intros k Hk. unfold named. rewrite Hk.
  apply negb_true_iff, String.eqb_neq. by intros Heq; apply Hne; rewrite <- Heq.
Qed.

Lemma gateway_there_addrDel n l a ip :
  addr_IP a = Ok ip -> IP_String ip <> "10.0.0.5" -> keeps gateway_there (AddrDel n l a).
Proof.
  intros Ha Hne w (H1 & H2 & H3 & H4). destruct n; [done|]. split_and!; try done. simpl.
  apply elem_filter. split; [done|]. apply negb_true_iff, bool_decide_eq_false. intros [= _ <-].
  apply Hne. injection Ha as <-. vm_compute. reflexivity.
Qed.


(** The orphaned link is not there. *)
Definition orphan_gone (w : NodeWorld) : Prop := orphan_link ∉ nt_links (nw_gw w).

Lemma listed_sgcs (w : NodeWorld) l w1 : kList w = (Ok l, w1) -> l = nw_sgcs w.
Proof. by intros [= <- <-]. Qed.

Lemma orphan_gone_kept : NodeKeeps orphan_gone.
Proof. unfold orphan_gone. split; sim_keeps. Qed.

Lemma cleanUp_removes_orphan_witness :
  ~ orphan_gone littered_node /\ orphan_gone (snd (daemonsgc.cleanUp sim_node littered_node)).
Proof.
  split.
  { intros Hg. apply Hg. apply (bool_decide_unpack _). vm_compute. exact I. }
  destruct (daemonsgc.cleanUp sim_node littered_node) as [r w'] eqn:Hrun.
  assert (r = Ok tt) as ->.
  { change r with (fst (r, w')). rewrite <- Hrun. vm_compute. reflexivity. }
  refine (cleanUp_removes_orphan sim_node orphan_gone orphan_link littered_node w' _ _ _ _ _ _ _ _ _ Hrun).
  - apply orphan_gone_kept.
  - done.
  - unfold keeps. intros n l w Hw. destruct n; [done|]. unfold orphan_gone in *. simpl.
    intros Hin%list_elem_of_In%filter_In. by apply Hw, list_elem_of_In, Hin.
  - unfold keeps. intros n l a w Hw. by destruct n.
  - intros w. by exists w.
  - intros w l w1 [= <- <-]. unfold orphan_gone.
    destruct (decide (orphan_link ∈ nt_links (nw_gw w))); [by left|by right].
  - intros w. eexists. split; [reflexivity|]. unfold orphan_gone. simpl.
    by intros [_ Hn]%list_elem_of_In%filter_In.
  - reflexivity.
  - intros l w1 ->%listed_sgcs. change (nw_sgcs littered_node) with [gw_on_6000].
    constructor; [|constructor]. vm_compute. by intros _ [=].
Defined.

(** ** Routes and links of the host *)

Definition gw_route : Route :=
  newRoute 3 SCOPE_LINK (Some {| ipn_IP := Some (IPv4 10 0 0 5); ipn_Mask := Some (CIDRMask 32 32) |}) None.

Lemma route_settles_witness :
  let w' := snd (daemonsgc.addOrReplaceRoute HostNS gw_route fresh_node) in
  length (nt_routes (nw_host w')) = 1 /\
  daemonsgc.addOrReplaceRoute HostNS gw_route w' = (Ok tt, w').
Proof.
  split; [vm_compute; reflexivity|].
  apply (route_settles HostNS gw_route fresh_node).
  - by intros w r w1 [= _ <-].
  - intros w w1 [= <-]. eexists. by split.
  - vm_compute. reflexivity.
Defined.

(** The host namespace has no link [wg-6000]. *)
Definition no_wg_link (w : NodeWorld) : Prop := existsb (named "wg-6000") (nt_links (nw_host w)) = false.

Lemma existsb_named_filter name l : existsb (named name) (List.filter (fun k => negb (named name k)) l) = false.
Proof.
  induction l as [|k l IH]; simpl; [done|]. destruct (named name k) eqn:Hk; simpl; [done|]. by rewrite Hk.
Qed.

Lemma createWireguardLink_clean_witness :
  no_wg_link fresh_node /\ no_wg_link (snd (daemonsgc.createWireguardLink gatewayNS "wg-6000" "uid-1" fresh_node)).
Proof.
  split; [vm_compute; reflexivity|].
  destruct (daemonsgc.createWireguardLink gatewayNS "wg-6000" "uid-1" fresh_node) as [r w'] eqn:Hrun.
  refine (createWireguardLink_clean no_wg_link gatewayNS "wg-6000" "uid-1" fresh_node r w' _ _ _ Hrun _).
  - intros w e w1 Hadd He Hw. simpl in Hadd. unfold no_wg_link in Hw. rewrite Hw in Hadd.
    by injection Hadd as <- <-.
  - intros w link w1 w2 Hl Hm. unfold no_wg_link. cbn [LinkSetNsFd sim_netlink] in Hm.
    destruct (existsb _ _); [done|]. injection Hm as <-. simpl in *.
    destruct (List.find (named "wg-6000") (nt_links (nw_host w))) as [k|] eqn:Hf; simplify_eq.
    apply List.find_some in Hf as [_ Hk]. apply String.eqb_eq in Hk. rewrite Hk. apply existsb_named_filter.
  - intros w. eexists. split; [reflexivity|]. unfold no_wg_link. simpl. apply existsb_named_filter.
  - vm_compute. reflexivity.
Defined.

Lemma gateway_address_kept_witness :
  exists ip snatIPNet,
    ParseCIDR "10.0.0.5/32" = inr (ip, snatIPNet) /\
    daemonsgc.removeOrphanIP gatewayNS {[ "10.0.0.5" ]} (newAddr (Some snatIPNet) "") fresh_node = (Ok tt, fresh_node).
Proof.
  destruct (gateway_address_kept gatewayNS {[ "10.0.0.5" ]} 10 0 0 5 fresh_node) as (ip & n & Hp & _ & _ & Hr);
    [unfold octet; lia..| |by exists ip, n].
  change (dotted 10 0 0 5) with "10.0.0.5". set_solver.
Defined.

(** ** Peers *)

Definition pod_a : PodEndpoint :=
  {| pe_meta := new_meta "pod-a" "ns";
     pe_Spec := {| pe_StaticGatewayConfiguration := "gw1"; pe_PodIpAddress := "10.1.0.7/32"; pe_PodPublicKey := "key-a" |} |}.

(** The node with the peers of a pod and of a deleted pod. *)
Definition peered_node : NodeWorld :=
  let w := snd (daemonpod.reconcile gw_on_6000
                  {| pe_meta := new_meta "pod-b" "ns";
                     pe_Spec := {| pe_StaticGatewayConfiguration := "gw1"; pe_PodIpAddress := "10.1.0.8/32";
                                   pe_PodPublicKey := "key-b" |} |} ready_node) in
  let w := snd (daemonpod.reconcile gw_on_6000 pod_a w) in
  {| nw_sgcs := nw_sgcs w; nw_vmcs := nw_vmcs w; nw_secrets := nw_secrets w; nw_pods := [pod_a];
     nw_status := nw_status w; nw_host := nw_host w; nw_gw := nw_gw w; nw_probe := nw_probe w |}.

Definition wg_keys (w : NodeWorld) : list string :=
  flat_map (fun p => map (fun q => (peer_PublicKey q : string)) (dev_Peers (snd p))) (nt_wg (nw_gw w)).

Example pod_cleanup_run :
  let w := snd (daemonpod.cleanUp sim_node peered_node) in
  wg_keys peered_node = ["key-b"; "key-a"] /\ wg_keys w = ["key-a"] /\
  length (nt_routes (nw_gw peered_node)) = 4 /\ length (nt_routes (nw_gw w)) = 3.
Proof. vm_compute. repeat split. Qed.

Definition has_key_a (d : WgDevice) : bool :=
  existsb (fun q => String.eqb (peer_PublicKey q) "key-a") (dev_Peers d).

(** The pod, its gateway and its peer on the gateway's link are there. *)
Definition peer_there (w : NodeWorld) : Prop :=
  nw_sgcs w = [gw_on_6000] /\ nw_pods w = [pod_a] /\
  existsb (fun p => String.eqb (fst p) "wg-6000" && has_key_a (snd p)) (nt_wg (nw_gw w)) = true.

Lemma peer_there_kept : NodeKeeps peer_there.
Proof. unfold peer_there. split; sim_keeps. Qed.

Lemma drop_peers_key_a cfg d :
  Forall (fun pc => (pcf_PublicKey pc : string) <> "key-a") (wg_Peers cfg) ->
  has_key_a d = true -> has_key_a (drop_peers cfg d) = true.
Proof.
  intros Hcfg (q & Hq & Hk)%existsb_exists. apply existsb_exists. exists q. split; [|done].
  apply in_app_iff. left. apply filter_In. split; [done|]. apply negb_true_iff, existsb_false_Forall.
  eapply Forall_impl; [exact Hcfg|]. simpl. intros pc Hpc. apply String.eqb_neq.
  apply String.eqb_eq in Hk. by rewrite Hk.
Qed.

Lemma peer_there_conf c n cfg :
  n <> getWireguardInterfaceName gw_on_6000 \/
  Forall (fun pc => Key_String (pcf_PublicKey pc) <> pe_PodPublicKey (pe_Spec pod_a)) (wg_Peers cfg) ->
  keeps peer_there (wgConfigureDevice c n cfg).
Proof.
  intros Hok w (H1 & H2 & H3). destruct c; [done|]. split_and!; [done..|]. simpl.
  apply existsb_exists in H3 as ([m d] & Hin & [Hm Hd]%andb_true_iff). simpl in Hm, Hd.
  apply String.eqb_eq in Hm as ->. apply existsb_exists.
  exists (if String.eqb "wg-6000" n then ("wg-6000", drop_peers cfg d) else ("wg-6000", d)). split.
  - apply in_map_iff. exists ("wg-6000", d). by split.
  - destruct (String.eqb_spec "wg-6000" n) as [<-|Hne]; [|done]. simpl. apply drop_peers_key_a; [|done].
    by destruct Hok as [[]|?].
Qed.

Lemma peer_in_use_spared_witness :
  peer_there peered_node /\ peer_there (snd (daemonpod.cleanUp sim_node peered_node)).
Proof.
  assert (peer_there peered_node) as Hw by (vm_compute; repeat split).
  split; [done|]. revert Hw. apply (peer_in_use_spared sim_node peer_there gw_on_6000 pod_a).
  - apply peer_there_kept.
  - by intros w Hw.
  - apply peer_there_conf.
  - split; vm_compute; reflexivity.
  - reflexivity.
  - reflexivity.
  - intros w l w' (_ & H2 & _) [= <- <-]. rewrite H2. left.
  - intros w l w' (H1 & _) [= <- <-]. rewrite H1. split; [left|]. by intros g ->%list_elem_of_singleton.
Defined.

(** The keys of the pods of the gateway's link. *)
Definition sim_peerMap : gmap string (gset string) := {[ "wg-6000" := {[ "key-a" ]} ]}.

Lemma stale_peers_removed_witness :
  exists peers w', daemonpod.cleanUpWgLink "wg-6000" sim_peerMap peered_node = (Ok peers, w') /\
    exists client device w1 w2,
      wgDevice client "wg-6000" w1 = (Ok device, w2) /\
      map pc_PublicKey peers =
        map (fun p => Key_String (peer_PublicKey p)) (orphans sim_peerMap "wg-6000" device).
Proof.
  destruct (daemonpod.cleanUpWgLink "wg-6000" sim_peerMap peered_node) as [r w'] eqn:Hrun.
  assert (exists peers, r = Ok peers) as [peers ->].
  { change r with (fst (r, w')). rewrite <- Hrun. vm_compute. by eexists. }
  exists peers, w'. split; [reflexivity|].
  destruct (stale_peers_removed "wg-6000" sim_peerMap peered_node peers w' Hrun)
    as (c & d & w1 & w2 & Hd & Hp & _).
  exists c, d, w1, w2. exact (conj Hd Hp).
Defined.
