(* ===== verification/NatTablesWitness.v ===== *)
(** * The nat tables of a node with two gateways

    The executable node of [NodeSim] keeps the rules of [NatTables], and the daemon
    reconciles two gateways on it and removes one of them. *)

From stdpp Require Import base tactics list strings gmap sets.
From Stdlib Require Import Ascii ZArith Lia.
From S2P Require Import Prelude GoStrings Types Kube NetIP Network Imds NodeStatus HealthProbe.
From S2P Require Import DaemonSGC DaemonPod NatTables NodeSim.

Open Scope string_scope.
Open Scope list_scope.

Import ListMeta.

(** ** The gateways *)

Definition gw_on_6001 : StaticGatewayConfiguration :=
  {| sgc_meta := {| om_name := "gw2"; om_namespace := "ns"; om_uid := "uid-2"; om_deletion := None;
                    om_finalizers := []; om_owners := []; om_labels := ∅ |};
     sgc_Spec := sgc_Spec gw_on_6000;
     sgc_Status := {| sgc_EgressIpPrefix := "1.2.3.6/31";
                      sgc_GatewayServerProfile :=
                        {| gsp_Ip := "10.0.0.4"; gsp_Port := 6001; gsp_PublicKey := "pub2";
                           gsp_PrivateKeySecretRef := Some {| ref_APIVersion := "v1"; ref_Kind := "Secret";
                             ref_Name := "sgw-uid-2"; ref_Namespace := "kube-egress-gateway-system" |} |} |} |}.
Definition vmc_of (name secondary : string) : GatewayVMConfiguration :=
  {| vmc_meta := new_meta name "ns"; vmc_Spec := vmc_Spec sim_vmc;
     vmc_Status := Some {| vmc_EgressIpPrefix := ""; vmc_GatewayVMProfiles :=
       [{| NodeName := "node1"; PrimaryIP := "10.0.0.10"; SecondaryIP := secondary |}] |} |}.
Definition two_vmcs : list GatewayVMConfiguration := [vmc_of "gw1" "10.0.0.5"; vmc_of "gw2" "10.0.0.6"].
Definition secret_of (name key : string) : Secret :=
  {| sec_meta := new_meta name "kube-egress-gateway-system"; sec_Data := {[ consts.WireguardPrivateKeyName := key ]} |}.
Definition two_gateways : NodeWorld :=
  {| nw_sgcs := [gw_on_6000; gw_on_6001]; nw_vmcs := two_vmcs;
     nw_secrets := [secret_of "sgw-uid-1" "priv1"; secret_of "sgw-uid-2" "priv2"];
     nw_pods := []; nw_status := None; nw_host := fresh_net; nw_gw := fresh_net;
     nw_probe := NewLBProbeServer 8082 |}.

(** ** The server *)

Definition simNat (w : NodeWorld) (n : netns) : chains :=
  if decide (n = HostNS) then nt_chains (nw_host w)
  else if decide (n = gatewayNS) then nt_chains (nw_gw w) else ∅.
Definition simGood (w : NodeWorld) : Prop := nw_vmcs w = two_vmcs.

Ltac nat_keeps :=
  unfold keeps; intros; cbn -[negb String.eqb bool_decide decide]; unfold missing, no_write, throw, ret, effect, on_net;
  repeat (case_match; simpl); try done.

#[local] Instance simGood_untouched : Untouched simGood.
Proof. unfold simGood. split; [split; nat_keeps|split; nat_keeps|nat_keeps..]. Qed.
#[local] Instance simNat_untouched n T : Untouched (fun w => simNat w n = T).
Proof. unfold simNat. split; [split; nat_keeps|split; nat_keeps|nat_keeps..]. Qed.

Lemma on_nat_acts {A} n (a : A) f change :
  (forall T, change T (f T)) -> acts simNat simGood n change (on_nat n a f).
Proof.
  intros Hf w r w'. unfold on_nat. case_decide as Hn; intros [= <- <-]; [|split; [done|]; split; [done|]; by right].
  split; [done|]. split.
  - intros n' Hne. unfold simNat. destruct Hn as [->| ->]; simpl; repeat case_decide; done.
  - left. destruct Hn as [->| ->]; apply Hf.
Qed.

(** The text for iptables-restore. *)
Lemma restore_rules c lines rs (T : chains) base :
  map (fun line => Split line " ") lines = map (fun r => Append :: c :: r) rs -> T !! c = Some base ->
  fold_left restoreLine lines T = <[c := base ++ rs]> T.
Proof.
  revert rs T base. induction lines as [|line lines IH]; intros [|r rs] T base; try done.
  - intros _ Hc. simpl. by rewrite app_nil_r, insert_id.
  - intros [= Hl Hr] Hc. simpl. unfold restoreLine at 2. rewrite Hl. simpl. rewrite Hc. simpl.
    rewrite (IH rs _ (base ++ [r]) Hr) by apply lookup_insert_eq. by rewrite insert_insert_eq, <- (assoc_L (++)).
Qed.
Lemma chainLine_words c : plain c -> Split (":" +:+ c +:+ " - [0:0]") " " = [":" +:+ c; "-"; "[0:0]"].
Proof.
  intros [_ Hc]. change (" - [0:0]") with (String " " "- [0:0]"). rewrite <- string_app_assoc.
  rewrite (Split_app " " (":" +:+ c)); [done|]. by rewrite no_byte_app, Hc.
Qed.
Lemma restore_declares c (T : chains) : plain c -> restoreLine T (":" +:+ c +:+ " - [0:0]") = <[c := []]> T.
Proof. intros Hc. unfold restoreLine. by rewrite chainLine_words. Qed.
Lemma restored_sets text c rs (T : chains) : setsChain text c rs -> restored text T = <[c := rs]> T.
Proof.
  intros (Hc & lines & Ht & Hl). unfold restored. rewrite Ht. simpl fold_left.
  change (restoreLine T ("*" +:+ TableNAT)) with T. cbn [MakeChainLine sim_iptables].
  rewrite restore_declares, fold_left_app by done.
  rewrite (restore_rules c lines rs _ [] Hl) by apply lookup_insert_eq. by rewrite insert_insert_eq.
Qed.
Lemma restored_deletes text c (T : chains) : deletesChain text c -> restored text T = delete c T.
Proof.
  intros [Hc Ht]. unfold restored. rewrite Ht. cbn [fold_left MakeChainLine sim_iptables].
  change (restoreLine T ("*" +:+ TableNAT)) with T. rewrite restore_declares by done.
  assert (Split (Join ["-X"; c] " ") " " = ["-X"; c]) as Hx.
  { apply Split_Join; [done|]. repeat constructor. apply Hc. }
  unfold restoreLine at 3. rewrite Hx. simpl. by rewrite delete_insert_eq.
Qed.

#[local] Instance sim_nat_server : NatServer simNat simGood.
Proof.
  split; try apply _.
  - intros n c. by apply on_nat_acts.
  - intros n c args w r w' Hrun. cbn [EnsureRule sim_iptables] in Hrun.
    destruct (nt_chains (net_of n w) !! c) as [rs|] eqn:Hc; [|injection Hrun as <- <-; split_and!; [done..|by right]].
    assert (Hn : n = HostNS \/ n = gatewayNS -> simNat w n = nt_chains (net_of n w)) by (by intros [->| ->]).
    pose proof (on_nat_acts n true (<[c := prepended args rs]>)
      (fun T T' => T' = <[c := prepended args rs]> T) (fun _ => eq_refl) w r w' Hrun) as (Hg & Ho & Hr).
    split; [done|]. split; [done|]. destruct Hr as [Hr|Hr]; [|by right].
    unfold on_nat in Hrun. case_decide as Hd; [|injection Hrun as <- <-; by right].
    left. exists rs. split; [by rewrite Hn|exact Hr].
  - intros n c args. by apply on_nat_acts.
  - intros n w r w' Hrun. cbn [SaveInto sim_iptables] in Hrun.
    destruct (forallb _ _); injection Hrun as <- <-; split_and!; try done; by left.
  - intros n w text w' c Hrun Hc [rs Hrs]. cbn [SaveInto sim_iptables GetChainsFromTable] in *.
    destruct (forallb _ _) eqn:Hall; [|done]. injection Hrun as <- _.
    assert (Hin : c ∈ (map_to_list (nt_chains (net_of n w))).*1).
    { apply list_elem_of_fmap. exists (c, rs). split; [done|]. apply elem_of_map_to_list.
      unfold simNat in Hrs. by destruct n; repeat case_decide; simplify_eq. }
    apply elem_of_list_to_set. unfold newline. rewrite Split_Join; [done|intros E; rewrite E in Hin; by apply not_elem_of_nil in Hin|].
    apply Forall_forall. intros x Hx. rewrite forallb_forall in Hall. by apply Hall, list_elem_of_In.
  - intros n text c rs Ht. apply on_nat_acts. intros T. by apply restored_sets.
  - intros n text c Ht. apply on_nat_acts. intros T. by apply restored_deletes.
  - intros c [Hc _]. cbn [MakeChainLine sim_iptables]. by rewrite !no_byte_app, Hc.
Qed.

(** The addresses of the node. *)
Lemma sim_address : address "10.0.0.5" /\ address "10.0.0.6".
Proof. by repeat split. Qed.
Lemma sim_addresses g (w : NodeWorld) p s w' :
  simGood w -> daemonsgc.getVMIP sim_node g w = (Ok (p, s), w') -> address s.
Proof.
  intros Hg. unfold daemonsgc.getVMIP. intros (compute & w1 & Hcompute & Hrun)%bind_Ok_inv.
  injection Hcompute as <- <-. cbv zeta in Hrun. apply bind_Ok_inv in Hrun as (vmc & w2 & Hget & Hrun).
  cbn [kGet node_vmcs read_only] in Hget. rewrite Hg in Hget. unfold two_vmcs in Hget. cbn [List.find] in Hget.
  destruct sim_address as [H5 H6].
  destruct (bool_decide _); [injection Hget as <- <-; vm_compute in Hrun; by injection Hrun as <- <- <-|].
  destruct (bool_decide _); [injection Hget as <- <-; vm_compute in Hrun; by injection Hrun as <- <- <-|done].
Qed.

(** ** Two gateways *)

Definition wg_6001 : Link := indexed (newLink Wireguard "wg-6001" "uid-2") 4.
Definition both : NodeWorld := natRuns sim_node [SetUp gw_on_6001] two_gateways.
Definition reconciled : NodeWorld := snd (daemonsgc.reconcile sim_node gw_on_6000 both).

Lemma ran {A B} (x : A * B) a : fst x = a -> x = (a, snd x).
Proof. by destruct x; intros <-. Qed.
Lemma gateway_translates_witness :
  natted (simNat reconciled gatewayNS) "wg-6001" "10.1.0.7" = "10.0.0.6" /\
  exists p s w1, addressesOf sim_node gw_on_6000 both = (Ok (p, s), w1) /\
    (forall src, natted (simNat (natRuns sim_node [SetUp gw_on_6001; TearDown wg_6001] reconciled) gatewayNS) "wg-6000" src = s) /\
    spared s (simNat reconciled HostNS).
Proof.
  split; [vm_compute; reflexivity|].
  refine (gateway_translates simNat simGood sim_node sim_addresses [SetUp gw_on_6001] gw_on_6000
    [SetUp gw_on_6001; TearDown wg_6001] two_gateways reconciled _ _ _ _ _ _ _).
  - reflexivity.
  - split.
    + exists []. by split.
    + exists []. by split.
    + intros m rs Hl. vm_compute in Hl. by destruct m.
    + intros m rs Hl. vm_compute in Hl. by destruct m.
  - constructor; [simpl; unfold portOf; simpl; lia|constructor].
  - unfold int32Port, portOf. simpl. lia.
  - apply (ran (daemonsgc.reconcile sim_node gw_on_6000 both) (Ok tt)). vm_compute. reflexivity.
  - repeat constructor; unfold portOf; simpl; lia.
  - constructor; [by intros [=]|constructor; [|constructor]]. intros Hm. vm_compute in Hm. discriminate Hm.
Defined.
