(* ===== verification/NodeStatusLife.v ===== *)
(** * The gateway status of a node over time

    The [GatewayStatus] object of a node is written by the two functions
    [updateGatewayNodeStatus] of [NodeStatus] only.  This file follows it through any
    sequence of their calls, failed ones included. *)

From stdpp Require Import base tactics list strings gmap.
From S2P Require Import Prelude GoStrings Types Kube Network NodeStatus NodeSim.

Open Scope string_scope.
Open Scope list_scope.

(** ** The object in the API server *)

(** What the daemon relies on: reading changes nothing and finds the object; a write that
    returns the object has been made, and one that fails may have been made or not; the
    owner's reference does not rename an object. *)
Class StatusServer {W : Type} `{OsEnv} `{OwnerRefs} `{Store W GatewayStatus} `{Store W Node}
    (statusOf : W -> option GatewayStatusSpec) : Prop := {
  status_get w r w' : kGet (Obj := GatewayStatus) gwStatusKey w = (r, w') ->
    statusOf w' = statusOf w /\
    match r with
    | Ok o => om_key (gs_meta o) = gwStatusKey /\ statusOf w = Some (gs_Spec o)
    | Err e => IsNotFound e = true -> statusOf w = None
    | Panic => True
    end;
  status_node k w : statusOf (snd (kGet (Obj := Node) k w)) = statusOf w;
  status_create o w r w' : om_key (gs_meta o) = gwStatusKey -> kCreate o w = (r, w') ->
    statusOf w' = Some (gs_Spec o) \/ (is_Ok r = false /\ statusOf w' = statusOf w);
  status_update o w r w' : om_key (gs_meta o) = gwStatusKey -> kUpdate o w = (r, w') ->
    statusOf w' = Some (gs_Spec o) \/ (is_Ok r = false /\ statusOf w' = statusOf w);
  status_owner o m m' : SetOwnerReference o m = inr m' -> om_key m' = om_key m;
}.

Section status_life.
Context {W : Type} `{StatusServer W statusOf}.

(** The calls the two controllers make: a gateway is configured, its link is deleted; a
    peer is configured, peers are removed. *)
Inductive statusCall :=
| GatewayReady (g : GatewayConfiguration)
| GatewayGone (g : GatewayConfiguration)
| PeerReady (p : PeerConfiguration)
| PeersGone (ps : list PeerConfiguration).
Definition call (c : statusCall) : M W unit :=
  match c with
  | GatewayReady g => updateGatewayStatus g true
  | GatewayGone g => updateGatewayStatus g false
  | PeerReady p => updatePeerStatus [p] true
  | PeersGone ps => updatePeerStatus ps false
  end.
(** The world after a sequence of calls, however each of them ended. *)
Definition calls (cs : list statusCall) (w : W) : W := fold_left (fun w c => snd (call c w)) cs w.

(** Each link is listed once, each key is listed once. *)
Definition wellFormed (s : GatewayStatusSpec) : Prop := NoDup (ready_ifaces s) /\ NoDup (peer_keys s).
Definition wellFormedStatus (o : option GatewayStatusSpec) : Prop := from_option wellFormed True o.

(** The gateways and peers a call is about. *)
Definition concernsGateway (c : statusCall) (g' : GatewayConfiguration) : Prop :=
  match c with
  | GatewayReady g | GatewayGone g => gc_InterfaceName g' = gc_InterfaceName g
  | PeerReady _ | PeersGone _ => False
  end.
Definition concernsPeer (c : statusCall) (p' : PeerConfiguration) : Prop :=
  match c with
  | GatewayReady _ => False
  | GatewayGone g => pc_InterfaceName p' = gc_InterfaceName g
  | PeerReady p => pc_PublicKey p' = pc_PublicKey p
  | PeersGone ps => pc_PublicKey p' ∈ pc_PublicKey <$> ps
  end.
Definition gatewaysOf (o : option GatewayStatusSpec) : list GatewayConfiguration := from_option gs_ReadyGatewayConfigurations [] o.
Definition peersOf (o : option GatewayStatusSpec) : list PeerConfiguration := from_option gs_ReadyPeerConfigurations [] o.

(** What the object says after a call that succeeded. *)
Definition reported (c : statusCall) (o : option GatewayStatusSpec) : Prop :=
  match c with
  | GatewayReady g => Exists (concernsGateway c) (gatewaysOf o)
  | GatewayGone g => Forall (fun g' => ~ concernsGateway c g') (gatewaysOf o) /\ Forall (fun p => ~ concernsPeer c p) (peersOf o)
  | PeerReady p => Exists (concernsPeer c) (peersOf o)
  | PeersGone ps => Forall (fun p => ~ concernsPeer c p) (peersOf o)
  end.

(** The rest of the object is as it was. *)
Definition othersKept (c : statusCall) (o o' : option GatewayStatusSpec) : Prop :=
  (forall g, ~ concernsGateway c g -> (g ∈ gatewaysOf o' <-> g ∈ gatewaysOf o)) /\
  (forall p, ~ concernsPeer c p -> (p ∈ peersOf o' <-> p ∈ peersOf o)).

(** ** One call *)

(** The three ways a call ends: nothing is written, the object is made, or it is
    updated. *)
Lemma updateNodeStatus_ends fresh update add w r w' :
  updateNodeStatus fresh update add w = (r, w') ->
  (statusOf w' = statusOf w /\
     (r = Ok tt -> match statusOf w with Some s => (update s).2 = false | None => add = false end)) \/
  (statusOf w = None /\ add = true /\ statusOf w' = Some fresh) \/
  (exists s, statusOf w = Some s /\ statusOf w' = Some (update s).1).
Proof.
  unfold updateNodeStatus, bind at 1, try. destruct (kGet gwStatusKey w) as [[o|e|] w1] eqn:Hget;
    apply status_get in Hget as [Hv Hr]; intros Hrun.
  - destruct Hr as [Hk Hs]. rewrite Hs. destruct (update (gs_Spec o)) as [s c] eqn:Hu.
    destruct c; [|unfold ret in Hrun; injection Hrun as <- <-; left; by split; [congruence|]].
    unfold bind, on_err, ret in Hrun. destruct (kUpdate _ w1) as [r2 w2] eqn:Hup. simpl in Hrun.
    apply status_update in Hup as [Hn|[Hf Hn]]; [right; right; exists (gs_Spec o); rewrite Hu|left|done].
    + by destruct r2; injection Hrun as <- <-.
    + destruct r2; [done|injection Hrun as <- <-; split; congruence..].
  - destruct (IsNotFound e) eqn:He; [|unfold throw in Hrun; injection Hrun as <- <-; by left]. simpl in Hrun.
    specialize (Hr eq_refl). rewrite Hr. destruct add; simpl in Hrun; [|unfold ret in Hrun; injection Hrun as <- <-; left; by split; [congruence|]].
    unfold bind at 1, on_err at 1 in Hrun. pose proof (status_node (nn "" (Getenv consts.NodeNameEnvKey)) w1) as Hn.
    destruct (kGet (nn "" _) w1) as [[node|e2|] w2]; simpl in *; [|injection Hrun as <- <-; left; split; congruence..].
    destruct (SetOwnerReference _ _) as [e2|m] eqn:Ho; [unfold throw in Hrun; injection Hrun as <- <-; left; split; congruence|].
    apply status_owner in Ho. unfold bind, on_err, ret in Hrun. destruct (kCreate _ w2) as [r3 w3] eqn:Hc. simpl in Hrun.
    apply status_create in Hc as [Hc|[Hf Hc]]; [right; left|left|done].
    + by destruct r3; injection Hrun as <- <-.
    + destruct r3; [done|injection Hrun as <- <-; split; congruence..].
  - injection Hrun as <- <-. by left.
Qed.

(** Updates keep the object well-formed, leave the rest of it alone, and say what they
    mean to say. *)
Lemma gateways_frame g add s :
  wellFormed s ->
  let s' := (updateReadyGateways g add s).1 in
  let c := if add then GatewayReady g else GatewayGone g in
  wellFormed s' /\ othersKept c (Some s) (Some s') /\ reported c (Some s').
Proof.
  intros [Hi Hp]. destruct (updateReadyGateways_spec g add s Hi) as [-> _].
  pose proof (ready_spec_NoDup g add s Hi) as Hi'. destruct s as [gws peers]. unfold ready_spec in *. simpl in *.
  destruct add; simpl in *; split_and!; try split; simpl; try done.
  - intros g' Hg. destruct (existsb _ gws); [done|]. rewrite elem_of_app, list_elem_of_singleton. naive_solver.
  - unfold gatewaysOf. simpl. destruct (existsb (on_iface _) gws) eqn:He.
    + apply existsb_exists in He as (g' & Hg' & He). apply Exists_exists. exists g'. split; [by apply list_elem_of_In|by apply String.eqb_eq].
    + apply Exists_app. right. by constructor.
  - by apply NoDup_fmap_filter.
  - intros g' Hg. rewrite !list_elem_of_In, filter_In. unfold on_iface. rewrite negb_true_iff, String.eqb_neq. tauto.
  - intros p Hpn. rewrite !list_elem_of_In, filter_In. unfold peer_on_iface. rewrite negb_true_iff, String.eqb_neq. tauto.
  - apply Forall_forall. intros g' Hg'. apply list_elem_of_In, filter_In in Hg' as [_ Hg']. by apply negb_true_iff, String.eqb_neq in Hg'.
  - apply Forall_forall. intros p Hp'. apply list_elem_of_In, filter_In in Hp' as [_ Hp']. by apply negb_true_iff, String.eqb_neq in Hp'.
Qed.

Lemma peers_frame ps add s :
  wellFormed s ->
  let s' := (updateReadyPeers ps add s).1 in
  wellFormed s' /\ gs_ReadyGatewayConfigurations s' = gs_ReadyGatewayConfigurations s /\
  forall p, p ∈ gs_ReadyPeerConfigurations s' <-> peer_listed ps add s p.
Proof.
  intros [Hi Hp]. destruct (updateReadyPeers_result ps add s Hp) as (s' & ch & Hu & Hg & Hk & Hin & _).
  rewrite Hu. simpl. split_and!; [split; [|done]|done..]. unfold ready_ifaces in *. by rewrite Hg.
Qed.

Lemma peer_ready_said p s :
  wellFormed s ->
  let s' := (updateReadyPeers [p] true s).1 in
  wellFormed s' /\ othersKept (PeerReady p) (Some s) (Some s') /\ reported (PeerReady p) (Some s').
Proof.
  intros Hwf. destruct (peers_frame [p] true s Hwf) as (Hwf' & Hg & Hin). split; [done|].
  assert (Hp : forall q, q ∈ gs_ReadyPeerConfigurations (updateReadyPeers [p] true s).1 <->
    (q ∈ gs_ReadyPeerConfigurations s) \/ ((pc_PublicKey p ∉ peer_keys s) /\ q = p)).
  { intros q. rewrite Hin. unfold peer_listed. simpl. unfold with_key. destruct (String.eqb_spec (pc_PublicKey p) (pc_PublicKey q)) as [->|]; naive_solver. }
  split; [split|]; simpl; unfold gatewaysOf, peersOf; simpl; [by rewrite Hg|naive_solver|].
  apply Exists_exists. destruct (decide (pc_PublicKey p ∈ peer_keys s)) as [(q & Hq & Hqin)%list_elem_of_fmap|Hn].
  - exists q. split; [apply Hp; by left|done].
  - exists p. split; [apply Hp; by right|done].
Qed.

Lemma peers_gone_said ps s :
  wellFormed s ->
  let s' := (updateReadyPeers ps false s).1 in
  wellFormed s' /\ othersKept (PeersGone ps) (Some s) (Some s') /\ reported (PeersGone ps) (Some s').
Proof.
  intros Hwf. destruct (peers_frame ps false s Hwf) as (Hwf' & Hg & Hp). split; [done|]. unfold peer_listed in Hp.
  split; [split|]; simpl; unfold gatewaysOf, peersOf; simpl; [by rewrite Hg|naive_solver|].
  apply Forall_forall. intros q Hq. naive_solver.
Qed.

(** A call that asks for no write finds the object as it would leave it. *)
Definition updateOf (c : statusCall) : GatewayStatusSpec -> GatewayStatusSpec * bool :=
  match c with
  | GatewayReady g => updateReadyGateways g true
  | GatewayGone g => updateReadyGateways g false
  | PeerReady p => updateReadyPeers [p] true
  | PeersGone ps => updateReadyPeers ps false
  end.
Lemma update_said c s :
  wellFormed s ->
  wellFormed (updateOf c s).1 /\ othersKept c (Some s) (Some (updateOf c s).1) /\ reported c (Some (updateOf c s).1) /\
  ((updateOf c s).2 = false -> (updateOf c s).1 = s).
Proof.
  intros Hwf. pose proof Hwf as [Hi Hp]. destruct c as [g|g|p|ps]; simpl.
  - destruct (gateways_frame g true s Hwf) as (? & ? & ?). do 3 (split; [done|]).
    destruct (updateReadyGateways_spec g true s Hi) as [-> ?]. done.
  - destruct (gateways_frame g false s Hwf) as (? & ? & ?). do 3 (split; [done|]).
    destruct (updateReadyGateways_spec g false s Hi) as [-> ?]. done.
  - destruct (peer_ready_said p s Hwf) as (? & ? & ?). do 3 (split; [done|]).
    by destruct (updateReadyPeers_result [p] true s Hp) as (s' & ch & -> & Hr); apply Hr.
  - destruct (peers_gone_said ps s Hwf) as (? & ? & ?). do 3 (split; [done|]).
    by destruct (updateReadyPeers_result ps false s Hp) as (s' & ch & -> & Hr); apply Hr.
Qed.

(** What a call makes of a node without the object. *)
Definition freshOf (c : statusCall) : option GatewayStatusSpec :=
  match c with
  | GatewayReady g => Some {| gs_ReadyGatewayConfigurations := [g]; gs_ReadyPeerConfigurations := [] |}
  | PeerReady p => Some {| gs_ReadyGatewayConfigurations := []; gs_ReadyPeerConfigurations := [p] |}
  | GatewayGone _ | PeersGone _ => None
  end.
Lemma fresh_said c : wellFormedStatus (freshOf c) /\ othersKept c None (freshOf c) /\ reported c (freshOf c).
Proof.
  destruct c as [g|g|p|ps]; unfold othersKept, gatewaysOf, peersOf; simpl;
    (split; [|split; [split|]]); try done; try (by repeat constructor);
    try (intros q Hq; rewrite list_elem_of_singleton; split; [by intros ->|by intros ?%not_elem_of_nil]);
    split; unfold ready_ifaces, peer_keys; simpl; first [apply NoDup_singleton|apply NoDup_nil_2].
Qed.

Lemma call_ends c w r w' :
  call c w = (r, w') -> wellFormedStatus (statusOf w) ->
  wellFormedStatus (statusOf w') /\ othersKept c (statusOf w) (statusOf w') /\ (r = Ok tt -> reported c (statusOf w')).
Proof.
  intros Hrun Hwf.
  assert ((statusOf w' = statusOf w /\
      (r = Ok tt -> match statusOf w with Some s => (updateOf c s).2 = false | None => freshOf c = None end)) \/
    (statusOf w = None /\ statusOf w' = freshOf c) \/ (exists s, statusOf w = Some s /\ statusOf w' = Some (updateOf c s).1)) as Hends.
  { destruct c; simpl in Hrun; apply updateNodeStatus_ends in Hrun as [[? Hr]|[(? & ? & ?)|?]]; simpl; try tauto; try done;
      left; split; try done; intros Hok; specialize (Hr Hok); by destruct (statusOf w). }
  destruct Hends as [[Hs Hr]|[[Hn Hs]|(s & Ho & Hs)]].
  - rewrite Hs. split_and!; [done|by split|]. intros Hok. specialize (Hr Hok). destruct (statusOf w) as [s|].
    + destruct (update_said c s Hwf) as (_ & _ & Hrep & Hsame). by rewrite <- (Hsame Hr).
    + rewrite <- Hr. apply fresh_said.
  - rewrite Hn, Hs. destruct (fresh_said c) as (? & ? & ?). by split_and!.
  - rewrite Ho, Hs in *. destruct (update_said c s Hwf) as (? & ? & ? & _). by split_and!.
Qed.

(** C27: the status object of a node stays well-formed. Through any sequence of the calls
    of the daemon's two controllers, the failed ones included, no link and no public key
    is listed twice; the next call leaves the entries it is not about as they are, and
    when it succeeds the object says so: the gateway that is ready is listed, of one that
    is gone neither its link nor its peers are, the peer that is ready is listed, the
    peers that are gone are not. *)
Theorem node_status_wellformed cs c w r w' :
  wellFormedStatus (statusOf w) -> call c (calls cs w) = (r, w') ->
  wellFormedStatus (statusOf (calls cs w)) /\ wellFormedStatus (statusOf w') /\
  othersKept c (statusOf (calls cs w)) (statusOf w') /\ (r = Ok tt -> reported c (statusOf w')).
Proof.
  intros Hwf Hrun. assert (Hcs : wellFormedStatus (statusOf (calls cs w))).
  { clear Hrun. revert w Hwf. induction cs as [|c1 cs IH]; intros w Hwf; [done|]. simpl. apply IH.
    destruct (call c1 w) as [r1 w1] eqn:Hc. by apply call_ends in Hc as [? _]. }
  split; [done|]. by apply (call_ends c _ r).
Qed.
End status_life.

(** ** A node *)

Import ListMeta.

(** The node's object in the executable world, when it has the node's name. *)
Definition simStatus (w : NodeWorld) : option GatewayStatusSpec :=
  match nw_status w with
  | Some s => if bool_decide (om_key (gs_meta s) = gwStatusKey) then Some (gs_Spec s) else None
  | None => None
  end.
#[local] Instance sim_status_server : StatusServer simStatus.
Proof.
  split.
  - intros w r w'. simpl. unfold simStatus. destruct (nw_status w) as [s|] eqn:Hs.
    + destruct (bool_decide (om_key (gs_meta s) = gwStatusKey)) eqn:Hk; intros [= <- <-]; rewrite Hs, Hk; [|done].
      by apply bool_decide_eq_true in Hk.
    + intros [= <- <-]. by rewrite Hs.
  - intros k w. simpl. by case_match.
  - intros o w r w' Hk [= <- <-]. left. unfold simStatus. simpl. by rewrite bool_decide_true.
  - intros o w r w' Hk [= <- <-]. left. unfold simStatus. simpl. by rewrite bool_decide_true.
  - intros o m m' [= <-]. by destruct m.
Qed.

(** A gateway is set up, a pod is added, the gateway goes. *)
Definition life_calls : list statusCall :=
  [GatewayReady {| gc_StaticGatewayConfiguration := "ns/gw1"; gc_InterfaceName := "wg-6000" |};
   GatewayReady {| gc_StaticGatewayConfiguration := "ns/gw2"; gc_InterfaceName := "wg-6001" |};
   PeerReady {| pc_PodEndpoint := "ns/pod1"; pc_InterfaceName := "wg-6000"; pc_PublicKey := "k1" |}].
Definition life_end : statusCall := GatewayGone {| gc_StaticGatewayConfiguration := ""; gc_InterfaceName := "wg-6000" |}.

Lemma node_status_wellformed_witness :
  simStatus (calls (W := NodeWorld) life_calls fresh_node) =
    Some {| gs_ReadyGatewayConfigurations :=
              [{| gc_StaticGatewayConfiguration := "ns/gw1"; gc_InterfaceName := "wg-6000" |};
               {| gc_StaticGatewayConfiguration := "ns/gw2"; gc_InterfaceName := "wg-6001" |}];
            gs_ReadyPeerConfigurations :=
              [{| pc_PodEndpoint := "ns/pod1"; pc_InterfaceName := "wg-6000"; pc_PublicKey := "k1" |}] |} /\
  reported life_end (simStatus (snd (call life_end (calls (W := NodeWorld) life_calls fresh_node)))).
Proof.
  split; [vm_compute; reflexivity|].
  refine (proj2 (proj2 (proj2 (node_status_wellformed life_calls life_end fresh_node (Ok tt) _ _ _))) eq_refl).
  - exact I.
  - vm_compute. reflexivity.
Defined.
