(* ===== verification/NodeStatusRace.v ===== *)
(** * The node's status object under concurrent writers

    The daemon's two controllers, and the daemons that come and go, write a node's
    [GatewayStatus] without a lock of their own.  They read through a cache, which may
    lag behind, and rely on the API server's optimistic concurrency: an update is accepted
    only for the version that was read, and an object is created only when there is none.
    This file runs the code of [NodeStatus] for any number of such writers as a step
    relation between reading and writing. *)

From stdpp Require Import base tactics list strings gmap.
From Stdlib Require Import Lia.
From S2P Require Import Prelude GoStrings Types Kube Network NodeStatus NodeSim NodeStatusLife.

Open Scope string_scope.
Open Scope list_scope.

(** ** A writer's view *)

Inductive request := CreateStatus (o : GatewayStatus) | UpdateStatus (o : GatewayStatus).
Definition requested (r : request) : GatewayStatusSpec :=
  match r with CreateStatus o | UpdateStatus o => gs_Spec o end.

(** What a writer is answered, and what it has sent. *)
Record Client := {
  cl_get : outcome GatewayStatus;   (** the answer of the cache *)
  cl_node : outcome Node;
  cl_answer : outcome unit;         (** the answer of the server to a write *)
  cl_sent : option request;
}.
Definition send (r : request) (o : GatewayStatus) : M Client GatewayStatus := fun cl =>
  (match cl_answer cl with Ok _ => Ok o | Err e => Err e | Panic => Panic end,
   {| cl_get := cl_get cl; cl_node := cl_node cl; cl_answer := cl_answer cl; cl_sent := Some r |}).
Definition unused {A} : M Client A := throw (EText "not used").
#[export] Instance client_status : Store Client GatewayStatus := {|
  kGet _ := fun cl => (cl_get cl, cl);
  kCreate o := send (CreateStatus o) o;
  kUpdate o := send (UpdateStatus o) o;
  kList := unused; kStatusUpdate _ := unused; kDelete _ := unused; kCreateOrPatch _ _ := unused |}.
#[export] Instance client_nodes : Store Client Node := {|
  kGet _ := fun cl => (cl_node cl, cl);
  kCreate _ := unused; kUpdate _ := unused; kList := unused; kStatusUpdate _ := unused; kDelete _ := unused;
  kCreateOrPatch _ _ := unused |}.

Section race.
Context `{OsEnv} `{OwnerRefs}.

(** A call of one of the controllers with these answers: its result and what it sends. *)
Definition attempt (c : statusCall) (get : outcome GatewayStatus) (node : outcome Node) (answer : outcome unit) :
    outcome unit * option request :=
  let '(r, cl) := call (W := Client) c {| cl_get := get; cl_node := node; cl_answer := answer; cl_sent := None |} in
  (r, cl_sent cl).

(** ** The server and the writers *)

(** The versions of the object so far, [None] where it does not exist; the last one is
    current. *)
Definition versions : Type := list (option GatewayStatusSpec).
Definition current (log : versions) : option GatewayStatusSpec := default None (last log).

(** The answer of a cache that has seen the log up to the version [i], or an error of the
    connection. *)
Definition cached (log : versions) (i : nat) (get : outcome GatewayStatus) : Prop :=
  exists o, log !! i = Some o /\
  match get with
  | Ok g => o = Some (gs_Spec g)
  | Err e => IsNotFound e = true -> o = None
  | Panic => False
  end.

(** Whether the server accepts a request that is based on the version [i]. *)
Definition accepted (log : versions) (i : nat) (r : request) : Prop :=
  match r with
  | CreateStatus _ => current log = None
  | UpdateStatus _ => S i = length log
  end.

Inductive phase :=
| Idle
| Waiting (c : statusCall) (i : nat) (get : outcome GatewayStatus) (node : outcome Node) (r : request)
| Ended (c : statusCall) (r : outcome unit).

Record state := { st_log : versions; st_phase : nat -> phase }.
Definition moved (st : state) (log : versions) (t : nat) (p : phase) : state :=
  {| st_log := log; st_phase := fun t' => if decide (t' = t) then p else st_phase st t' |}.

(** One step of a writer [t], or a deletion of the object.  A write that is accepted may
    still be answered with an error, when the answer is lost. *)
Inductive step : state -> state -> Prop :=
| step_quiet st t c i get node r :
    st_phase st t = Idle -> cached (st_log st) i get -> attempt c get node (Ok tt) = (r, None) ->
    step st (moved st (st_log st) t (Ended c r))
| step_send st t c i get node req :
    st_phase st t = Idle -> cached (st_log st) i get -> snd (attempt c get node (Ok tt)) = Some req ->
    step st (moved st (st_log st) t (Waiting c i get node req))
| step_accept st t c i get node req answer :
    st_phase st t = Waiting c i get node req -> accepted (st_log st) i req ->
    step st (moved st (st_log st ++ [Some (requested req)]) t (Ended c (fst (attempt c get node answer))))
| step_reject st t c i get node req e :
    st_phase st t = Waiting c i get node req ->
    step st (moved st (st_log st) t (Ended c (fst (attempt c get node (Err e)))))
| step_again st t c r : st_phase st t = Ended c r -> step st (moved st (st_log st) t Idle)
| step_delete st : step st {| st_log := st_log st ++ [None]; st_phase := st_phase st |}.

Definition initial (o : option GatewayStatusSpec) : state := {| st_log := [o]; st_phase := fun _ => Idle |}.

(** What a call makes of the object, run alone. *)
Definition applied (c : statusCall) (o : option GatewayStatusSpec) : option GatewayStatusSpec :=
  match o with None => freshOf c | Some s => Some (updateOf c s).1 end.

(** ** A call *)

(** What the common part of the calls answers and sends. *)
Definition written (what : string) (answer : outcome unit) : outcome unit :=
  match answer with Ok _ => Ok tt | Err e => Err (wrap what e) | Panic => Panic end.
Lemma updateNodeStatus_sends fresh update add get node answer :
  let '(r, cl) := updateNodeStatus (W := Client) fresh update add
    {| cl_get := get; cl_node := node; cl_answer := answer; cl_sent := None |} in
  match cl_sent cl with
  | None => r = Ok tt ->
      match get with Ok o => (update (gs_Spec o)).2 = false | Err e => IsNotFound e = true /\ add = false | Panic => False end
  | Some (UpdateStatus o') => r = written "failed to update gwStatus object: " answer /\
      exists o, get = Ok o /\ gs_Spec o' = (update (gs_Spec o)).1
  | Some (CreateStatus o') => r = written "failed to create gwStatus object: " answer /\
      exists e, get = Err e /\ IsNotFound e = true /\ add = true /\ gs_Spec o' = fresh
  end.
Proof.
  unfold updateNodeStatus, bind, try, on_err, throw, ret. simpl. destruct get as [o|e|]; simpl; [| |done].
  - destruct (update (gs_Spec o)) as [s ch] eqn:Hu. destruct ch; simpl; [|done].
    destruct answer; simpl; (split; [done|]); exists o; by rewrite Hu.
  - destruct (IsNotFound e) eqn:He; simpl; [|done]. destruct add; simpl; [|done].
    destruct node as [n|e2|]; simpl; [|done..]. destruct (SetOwnerReference _ _) as [e2|m]; simpl; [done|].
    destruct answer; simpl; split; eauto 6.
Qed.

(** A call sends at most one request.  It is made of the version that was read as if the
    call ran alone, and it succeeds exactly when the server says so; a call that sends
    nothing and succeeds has read a version that is as the call would leave it. *)
Lemma attempt_sends c get node answer r req :
  attempt c get node answer = (r, Some req) ->
  (r = Ok tt -> is_Ok answer = true) /\
  match req, get with
  | UpdateStatus o', Ok o => applied c (Some (gs_Spec o)) = Some (gs_Spec o')
  | CreateStatus o', Err e => IsNotFound e = true /\ applied c None = Some (gs_Spec o')
  | _, _ => False
  end.
Proof.
  unfold attempt, applied. destruct c as [g|g|p|ps]; simpl; unfold updateGatewayStatus, updatePeerStatus;
    (destruct (updateNodeStatus _ _ _ _) as [r' cl] eqn:Hrun; intros [= <- Hs]);
    (match type of Hrun with updateNodeStatus ?f ?u ?a _ = _ => pose proof (updateNodeStatus_sends f u a get node answer) as Hc end);
    rewrite Hrun, Hs in Hc;
    (destruct req as [o'|o']; [destruct Hc as (-> & e & -> & He & Ha & ->)|destruct Hc as (-> & o & -> & ->)]);
    try done; (split; [by destruct answer|done]).
Qed.
Lemma attempt_quiet c get node answer :
  attempt c get node answer = (Ok tt, None) ->
  match get with
  | Ok o => (updateOf c (gs_Spec o)).2 = false
  | Err e => IsNotFound e = true /\ freshOf c = None
  | Panic => False
  end.
Proof.
  unfold attempt. destruct c as [g|g|p|ps]; simpl; unfold updateGatewayStatus, updatePeerStatus;
    (destruct (updateNodeStatus _ _ _ _) as [r' cl] eqn:Hrun; intros [= -> Hs]);
    (match type of Hrun with updateNodeStatus ?f ?u ?a _ = _ => pose proof (updateNodeStatus_sends f u a get node answer) as Hc end);
    rewrite Hrun, Hs in Hc; specialize (Hc eq_refl); destruct get; naive_solver.
Qed.

Lemma applied_said c o :
  wellFormedStatus o -> wellFormedStatus (applied c o) /\ othersKept c o (applied c o) /\ reported c (applied c o).
Proof.
  destruct o as [s|]; intros Hwf; simpl; [|apply fresh_said]. destruct (update_said c s Hwf) as (? & ? & ? & _). by split_and!.
Qed.

(** ** What every interleaving keeps *)

(** A version and the next: the object is deleted, or one call is applied to it. *)
Definition follows (o1 o2 : option GatewayStatusSpec) : Prop :=
  o2 = None \/ exists c, o2 = applied c o1 /\ othersKept c o1 o2 /\ reported c o2.
Definition seen (log : versions) (P : option GatewayStatusSpec -> Prop) : Prop :=
  exists j o, log !! j = Some o /\ P o.

Definition phaseOk (log : versions) (p : phase) : Prop :=
  match p with
  | Idle => True
  | Waiting c i get node req => cached log i get /\ snd (attempt c get node (Ok tt)) = Some req
  | Ended c r => r = Ok tt -> seen log (reported c)
  end.
Record serial (st : state) : Prop := {
  serial_wf : Forall wellFormedStatus (st_log st);
  serial_next i o1 o2 : st_log st !! i = Some o1 -> st_log st !! S i = Some o2 -> follows o1 o2;
  serial_phase t : phaseOk (st_log st) (st_phase st t);
}.

(** The log only grows. *)
Lemma cached_app log i get o : cached log i get -> cached (log ++ [o]) i get.
Proof. intros (o' & Hi & Hg). exists o'. by rewrite (lookup_app_l_Some _ _ _ _ Hi). Qed.
Lemma phaseOk_app log o p : phaseOk log p -> phaseOk (log ++ [o]) p.
Proof.
  destruct p as [|c i get node req|c r]; simpl; [done|intros [? ?]; by split; [apply cached_app|]|].
  intros Hs Hr. destruct (Hs Hr) as (j & o' & Hj & ?). exists j, o'. by rewrite (lookup_app_l_Some _ _ _ _ Hj).
Qed.
Lemma last_current log i o : log !! i = Some o -> S i = length log -> current log = o.
Proof. intros Hi Hl. unfold current. rewrite last_lookup, <- Hl. simpl. by rewrite Hi. Qed.
Lemma current_wf log : Forall wellFormedStatus log -> wellFormedStatus (current log).
Proof.
  intros Hwf. unfold current. destruct (last log) as [o|] eqn:Hl; [|done]. simpl.
  rewrite last_lookup in Hl. by eapply Forall_lookup_1.
Qed.

(** A request that is accepted applies the call to the current version. *)
Lemma accepted_applies log c i get node req :
  cached log i get -> snd (attempt c get node (Ok tt)) = Some req -> accepted log i req ->
  Some (requested req) = applied c (current log).
Proof.
  intros (o & Hi & Hg) Hs Ha. destruct (attempt c get node (Ok tt)) as [r q] eqn:Hat. simpl in Hs. subst q.
  apply attempt_sends in Hat as [_ Hat]. destruct req as [o'|o'], get as [g|e|]; simpl in *; try done.
  - destruct Hat as [_ <-]. by rewrite Ha.
  - rewrite (last_current log i o Hi Ha), Hg. by symmetry.
Qed.

(** A call that does not wait for a write and succeeds has seen what it reports. *)
Lemma unwritten_seen log c i get node answer :
  Forall wellFormedStatus log -> cached log i get -> is_Ok answer = false \/ snd (attempt c get node answer) = None ->
  fst (attempt c get node answer) = Ok tt -> seen log (reported c).
Proof.
  intros Hwf (o & Hi & Hg) Hans. destruct (attempt c get node answer) as [r q] eqn:Hat. simpl in *. intros ->.
  destruct q as [req|]; [apply attempt_sends in Hat as [Hok _]; specialize (Hok eq_refl); destruct Hans; congruence|].
  apply attempt_quiet in Hat. exists i, o. split; [done|]. pose proof (Forall_lookup_1 _ _ _ _ Hwf Hi) as Ho.
  destruct get as [g|e|]; [|destruct Hat as [He Hf]|done].
  - subst o. destruct (update_said c (gs_Spec g) Ho) as (_ & _ & Hr & Hsame). by rewrite <- (Hsame Hat).
  - rewrite (Hg He), <- Hf. apply fresh_said.
Qed.

Lemma moved_phase st log t p :
  (forall t', phaseOk log (st_phase st t')) -> phaseOk log p -> forall t', phaseOk log (st_phase (moved st log t p) t').
Proof. intros Ht Hp t'. simpl. by case_decide. Qed.

(** The server's log after a write or a deletion. *)
Lemma log_grows log o :
  Forall wellFormedStatus log -> (forall i o1 o2, log !! i = Some o1 -> log !! S i = Some o2 -> follows o1 o2) ->
  wellFormedStatus o -> follows (current log) o ->
  Forall wellFormedStatus (log ++ [o]) /\
  (forall i o1 o2, (log ++ [o]) !! i = Some o1 -> (log ++ [o]) !! S i = Some o2 -> follows o1 o2).
Proof.
  intros Hwf Hn Ho Hf. split; [by apply Forall_app_2; [|constructor]|]. intros i o1 o2 H1 H2.
  apply lookup_snoc_Some in H2 as [[Hlt H2]|[Hi <-]].
  - rewrite lookup_app_l in H1 by lia. by eapply Hn.
  - rewrite lookup_app_l in H1 by lia. by rewrite (last_current log i o1) in Hf.
Qed.

Lemma step_serial st st' : serial st -> step st st' -> serial st'.
Proof.
  intros [Hwf Hn Hp] Hst. destruct Hst as [st t c i get node r Hi Hc Hat|st t c i get node req Hi Hc Hat
    |st t c i get node req answer Hw Ha|st t c i get node req e Hw|st t c r He|st].
  - split; [done..|]. apply moved_phase; [done|]. intros ->.
    apply (unwritten_seen _ c i get node (Ok tt)); [done..|by right; rewrite Hat|by rewrite Hat].
  - split; [done..|]. by apply moved_phase.
  - pose proof (Hp t) as Ht. rewrite Hw in Ht. destruct Ht as [Hc Hat].
    pose proof (accepted_applies _ _ _ _ _ _ Hc Hat Ha) as Happ.
    destruct (applied_said c _ (current_wf _ Hwf)) as (Hwf' & Hk & Hr). rewrite <- Happ in *.
    destruct (log_grows (st_log st) (Some (requested req))) as [Hwf2 Hn2]; [done..|by right; exists c|].
    split; [done..|]. apply moved_phase; [intros t'; apply phaseOk_app, Hp|]. intros _.
    exists (length (st_log st)), (Some (requested req)). split; [by apply list_lookup_middle|done].
  - pose proof (Hp t) as Ht. rewrite Hw in Ht. destruct Ht as [Hc Hat]. split; [done..|]. apply moved_phase; [done|]. intros Hok.
    apply (unwritten_seen _ c i get node (Err e)); auto.
  - split; [done..|]. by apply moved_phase.
  - destruct (log_grows (st_log st) None) as [Hwf2 Hn2]; [done..|by left|]. split; [done..|].
    intros t. apply phaseOk_app, Hp.
Qed.

(** C28: concurrent writers of a node's status lose no update. Whatever the writers
    interleave, with caches that lag behind, errors, lost answers and deletions of the
    object, every version the server ever holds lists no link and no key twice; each
    version is its predecessor with one call applied, as if that call had run alone on
    it, and with the entries of the others kept, or the object is gone; and a call that
    returned without an error has its result in one of the versions. *)
Theorem status_writes_serialize o st :
  wellFormedStatus o -> rtc step (initial o) st ->
  Forall wellFormedStatus (st_log st) /\
  (forall i o1 o2, st_log st !! i = Some o1 -> st_log st !! S i = Some o2 -> follows o1 o2) /\
  (forall t c, st_phase st t = Ended c (Ok tt) -> seen (st_log st) (reported c)).
Proof.
  intros Hwf Hst. assert (Hs : serial st).
  { revert Hst. apply rtc_ind_r; [|intros st1 st2 _ Hst IH; by apply (step_serial st1)].
    split; [by constructor|by intros [|i]|done]. }
  destruct Hs as [? ? Hp]. split_and!; [done..|]. intros t c Ht. specialize (Hp t). rewrite Ht in Hp. by apply Hp.
Qed.
End race.

(** ** Two writers of one version *)

Import ListMeta.

(** The controller of gateways and that of pods read the same version; the second write is
    refused, and the second controller tries again. *)
Definition raceGateway : GatewayConfiguration := {| gc_StaticGatewayConfiguration := "ns/gw1"; gc_InterfaceName := "wg-6000" |}.
Definition racePeer : PeerConfiguration := {| pc_PodEndpoint := "ns/pod1"; pc_InterfaceName := "wg-6000"; pc_PublicKey := "k1" |}.
Definition raceVersion (gws : list GatewayConfiguration) (ps : list PeerConfiguration) : GatewayStatus :=
  {| gs_meta := new_meta "node1" "ns";
     gs_Spec := {| gs_ReadyGatewayConfigurations := gws; gs_ReadyPeerConfigurations := ps |} |}.
Definition raceLog : versions :=
  [Some (gs_Spec (raceVersion [] [])); Some (gs_Spec (raceVersion [raceGateway] []));
   Some (gs_Spec (raceVersion [raceGateway] [racePeer]))].
Definition noNode : outcome Node := Err (EText "unreachable").

Lemma status_writes_serialize_witness :
  exists st, rtc step (initial (Some (gs_Spec (raceVersion [] [])))) st /\ st_log st = raceLog /\
    seen (st_log st) (reported (GatewayReady raceGateway)) /\ seen (st_log st) (reported (PeerReady racePeer)).
Proof.
  assert (exists st, rtc step (initial (Some (gs_Spec (raceVersion [] [])))) st /\ st_log st = raceLog /\
    st_phase st 0 = Ended (GatewayReady raceGateway) (Ok tt) /\ st_phase st 1 = Ended (PeerReady racePeer) (Ok tt))
    as (st & Hst & Hlog & H0 & H1).
  { eexists. split.
    - eapply rtc_l; [apply (step_send _ 0 (GatewayReady raceGateway) 0 (Ok (raceVersion [] [])) noNode);
        [reflexivity|by eexists|vm_compute; reflexivity]|].
      eapply rtc_l; [apply (step_send _ 1 (PeerReady racePeer) 0 (Ok (raceVersion [] [])) noNode);
        [reflexivity|by eexists|vm_compute; reflexivity]|].
      eapply rtc_l; [eapply (step_accept _ 0 _ _ _ _ _ (Ok tt)); [reflexivity|reflexivity]|].
      eapply rtc_l; [eapply (step_reject _ 1 _ _ _ _ _ (EText "conflict")); reflexivity|].
      eapply rtc_l; [eapply (step_again _ 1); reflexivity|].
      eapply rtc_l; [apply (step_send _ 1 (PeerReady racePeer) 1 (Ok (raceVersion [raceGateway] [])) noNode);
        [reflexivity|by eexists|vm_compute; reflexivity]|].
      eapply rtc_l; [eapply (step_accept _ 1 _ _ _ _ _ (Ok tt)); [reflexivity|reflexivity]|].
      apply rtc_refl.
    - by vm_compute. }
  destruct (status_writes_serialize (Some (gs_Spec (raceVersion [] []))) st) as (_ & _ & Hended).
  - split; apply NoDup_nil_2.
  - exact Hst.
  - exists st. split_and!; [done|done|by eapply Hended|by eapply Hended].
Defined.
