(* ===== verification/CNIWitness.v ===== *)
(** * Runs of the CNI side

    Each theorem of the CNI side applied to a run on the world of [CNISim]. *)

From stdpp Require Import base tactics list strings gmap.
From Stdlib Require Import Ascii ZArith Lia.
From S2P Require Import Prelude GoStrings JSON JSONReads JSONValues JSONDecode Types Kube Azure NetIP Files Network.
From S2P Require Import CNIConf CNIServer CNITypes CNIRoutes CNINic CNIPlugin CNIComposed Tools CNISim.

Open Scope string_scope.
Open Scope list_scope.

(** A run and its two parts. *)
Lemma run_eq {A} (r : outcome A * PodWorld) d :
  is_Ok (fst r) = true -> r = (Ok (result_of r d), snd r).
Proof. by destruct r as [[] ?]. Qed.

Lemma run_eq_unit (r : outcome unit * PodWorld) : is_Ok (fst r) = true -> r = (Ok tt, snd r).
Proof. by destruct r as [[[]| |] ?]. Qed.

(** ** Routes *)

Definition linked : PodWorld :=
  CNISim.on_net (on_links (insert (podNS, "wg0") (indexed 3 (newLink Wireguard "wg0" "")))) world1.
Definition answer1 : NicAddResponse := responseOf gateway1.
Definition answer2 : NicAddResponse :=
  {| EndpointIp := "10.0.0.4"; ListenPort := 6000; PublicKey := "public of priv"; ExceptionCidrs := ["8.8.0.0/16"];
     DefaultRouteOf := DEFAULT_ROUTE_AZURE_NETWORKING |}.
Definition routes1 : list Route := result_of (RouteList podNS (Some (indexed 2 (newLink Device "eth0" ""))) FAMILY_ALL linked) [].
Definition default1 : Route := default (newRoute 0 0 None None) (defaultRouteOf routes1).

Lemma linked_ready :
  podReady podNS "wg0" (indexed 2 (newLink Device "eth0" "")) (indexed 3 (newLink Wireguard "wg0" "")) routes1 default1 linked.
Proof. split; [reflexivity|reflexivity|by eexists|reflexivity]. Qed.

Lemma linked_on_eth0 k i : fib linked !! k = Some i -> i = 2%Z.
Proof.
  intros Hk. rewrite fib_lookup in Hk. destruct (isMain k); [|done].
  apply fmap_Some in Hk as (v & Hv & ->).
  assert (Hall : map_Forall (fun _ v => fst v = 2%Z) (pn_routes (pw_net linked))).
  { apply map_Forall_insert_2; [reflexivity|]. by apply map_Forall_singleton. }
  exact (Hall k v Hv).
Qed.

Lemma routes1_distinct : NoDup routes1.
Proof. apply (bool_decide_unpack _). vm_compute. exact I. Qed.

Definition run1 := SetPodRoutes podNS "wg0" answer1 ["10.0.0.0/8"] "/proc/sys" prevResult linked.
Lemma gateway_default_policy_witness :
  is_Ok (fst run1) = true /\
  lpm (fib (snd run1)) (IPv4 8 8 8 8) = Some 3%Z /\
  lpm (fib (snd run1)) (IPv4 10 1 2 3) = Some 2%Z /\
  lpm (fib (snd run1)) eth0Gateway = Some 2%Z.
Proof.
  destruct (gateway_default_policy podNS fib "wg0" answer1 ["10.0.0.0/8"] "/proc/sys" prevResult
    _ _ routes1 default1 eth0Gateway linked linked_ready eq_refl eq_refl linked_on_eth0 eq_refl) as [Hok Hpolicy].
  split; [exact (Hok _ (pod_routes_work podNS) routes1_distinct)|].
  destruct (Hpolicy (result_of run1 prevResult) (snd run1) (run_eq run1 prevResult eq_refl)) as [Hlpm _].
  split; [exact (Hlpm (IPv4 8 8 8 8) eq_refl)|]. split; [exact (Hlpm (IPv4 10 1 2 3) eq_refl)|].
  exact (Hlpm eth0Gateway eq_refl).
Defined.

Definition run2 := SetPodRoutes podNS "wg0" answer2 [] "/proc/sys" prevResult linked.
Lemma azure_default_policy_witness :
  is_Ok (fst run2) = true /\ lpm (fib (snd run2)) (IPv4 1 1 1 1) = lpm (fib linked) (IPv4 1 1 1 1).
Proof.
  destruct (azure_default_policy podNS fib "wg0" answer2 [] "/proc/sys" prevResult _ _ routes1 default1 linked
    linked_ready ltac:(done)) as [Hok Hpolicy].
  split; [exact (Hok _ (pod_routes_work podNS) routes1_distinct)|].
  refine (proj1 (Hpolicy (result_of run2 prevResult) (snd run2) _ (IPv4 1 1 1 1)) _).
  - apply run_eq. vm_compute. reflexivity.
  - vm_compute. reflexivity.
Defined.

(** ** The plugin *)

Definition config1 : CNIConfig := match ParseCNIConfig entryText with Ok c => c | _ =>
  {| cc_NetConf := {| nc_CNIVersion := ""; nc_IPAMType := ""; nc_PrevResult := prevResult |};
     cc_ExcludedCIDRs := []; cc_SocketPath := "" |} end.
Definition info (name : string) : K8sConfig :=
  {| K8S_POD_NAME := name; K8S_POD_NAMESPACE := "default"; K8S_POD_INFRA_CONTAINER_ID := "" |}.

Definition tunnelAt (w : PodWorld) (n : netns) : option WgConfig := pn_tunnels (pw_net w) !! n.

Lemma cmdAdd_connects_witness :
  exists ipamResult item ip allowedIP,
    (exists r v v', ExecAdd (W := PodWorld) "kube-egress-cni-ipam" entryText v = (Ok r, v') /\
                    NewResultFromResult r = Ok ipamResult) /\
    item ∈ res_IPs ipamResult /\ ipn_IP (ipc_Address item) = Some ip /\
    ParseCIDR allowedIP = inr (ip, {| ipn_IP := Some ip; ipn_Mask := Some (CIDRMask 32 32) |}) /\
    connected endpointAt tunnelAt (info "pod1") "gw1" podNS allowedIP connected1.
Proof.
  refine (cmdAdd_connects (WgCtrl0 := pod_wgctrl) endpointAt tunnelAt _ _ _ _ (args_of "pod1") config1 (info "pod1")
    {[consts.CNIGatewayAnnotationKey := "gw1"]} "gw1" world1 world1 world1 connected1 _ _ _ _ _ _).
  - intros n w c w1 cfg w2 w3 Hn Hc. injection Hn as <- <-.
    apply (f_equal snd) in Hc. simpl in Hc. subst w3. apply lookup_insert_eq.
  - intros k e. apply (pod_keeps_api (fun a => pa_endpoints a !! k = e)).
  - intros c s cfg k e w Hw. exact Hw.
  - intros n t. apply (pod_keeps_tunnels (fun m => m !! n = t)).
  - reflexivity.
  - reflexivity.
  - reflexivity.
  - reflexivity.
  - reflexivity.
  - unfold connected1. apply run_eq_unit. vm_compute. reflexivity.
Defined.

Lemma unannotated_pod_untouched_witness :
  pw_net (snd (cni.cmdAdd (args_of "pod2") world1)) = pw_net world1.
Proof.
  refine (unannotated_pod_untouched (fun w => pw_net w = pw_net world1) (args_of "pod2") config1 (info "pod2")
    prevResult ∅ world1 world1 world1 _ _ _ _ _ _ _ _ _ _ _); try reflexivity.
  - intros w Hw. exact Hw.
  - intros w Hw. unfold callPodRetrieve, nicservice.served, nicservice.PodRetrieve, bind, on_err, kGet, pod_pods, read_only.
    by destruct (pa_pods (pw_api w) !! _).
  - intros w Hw. exact Hw.
  - intros w Hw. exact Hw.
Defined.

(** A pod whose configuration fails after the link is made. *)
Definition failed := WithWireGuardNic "0123456789ab" "/ns/pod1" "wg0" {| pluginType := "ipam"; netConf := "" |} prevResult
  (Some (fun _ _ _ => throw (EText "no gateway"))) world1.


(** ** The service *)

Definition request1 : NicAddRequest :=
  {| add_PodConfig := podInfo (info "pod1"); add_ListenPort := 51820; add_AllowedIp := "10.244.0.5/32";
     add_PublicKey := "key"; add_GatewayName := "gw1" |}.
Definition added := nicservice.NicAdd request1 world1.


Definition readied : PodWorld := on_files (insert (confmgr.confPath mgr1) "{}") world1.
Definition otherTaint : Taint := {| taint_Key := "a"; taint_Value := ""; taint_Effect := "NoExecute" |}.
Definition lifted := removeNodeTaintIfNeeded (confmgr.IsReady mgr1) node1 readied.
Lemma taint_lifted_when_ready_witness :
  fst lifted = Ok tt /\ pa_node (pw_api (snd lifted)) = Some (with_taints node1 [otherTaint]).
Proof.
  refine (proj2 (taint_lifted_when_ready (fun w => pa_node (pw_api w)) _ _ _ mgr1 node1 readied
    (fst lifted) (snd lifted) _ (surjective_pairing _)) [otherTaint] notReady [] readied _ _ _ _ eq_refl).
  - intros n w n' w' Hu. by injection Hu as _ <-.
  - intros n w r w' Hu Hr. injection Hu as <- <-. by destruct (Hr n).
  - intros p w. simpl. by destruct (fileAt w p).
  - reflexivity.
  - split_and!; [reflexivity|reflexivity|]. by apply Forall_singleton.
  - vm_compute. reflexivity.
Defined.

(** ** The configuration *)

Lemma plugin_reads_manager_conf_witness :
  cc_ExcludedCIDRs config1 = ["10.0.0.0/8"; "168.63.129.16/32"] /\
  Forall (fun c => is_Some (cidrRoute None c)) (cc_ExcludedCIDRs config1) /\
  cc_SocketPath config1 = "localhost:50051" /\
  nc_IPAMType (cc_NetConf config1) = consts.KubeEgressIPAMCNIName.
Proof.
  refine (plugin_reads_manager_conf mgr1 "10.0.0.0/8, 168.63.129.16/32" {["cniVersion" := JString "1.0.0"]}
    entryText config1 _ _ _ _).
  - vm_compute. reflexivity.
  - intros k v [<- _]%lookup_singleton_Some. reflexivity.
  - vm_compute. reflexivity.
  - vm_compute. reflexivity.
Defined.

Definition inserted := confmgr.insertCNIPluginConf mgr1 world1.
Lemma insert_atomic_witness :
  exists files file text raw rawList bytes,
    fst (ReadDir "/etc/cni/net.d" world1) = Ok files /\
    masterOf "/etc/cni/net.d" "01-egressgateway.conflist" files = Ok file /\
    fileAt world1 file = Some text /\ UnmarshalMap text = inr raw /\ editConf mgr1 file raw = Ok rawList /\
    fileAt (snd inserted) (confmgr.confPath mgr1) = Some bytes /\
    fileAt (snd inserted) (confmgr.tempPath mgr1) = None /\
    (Forall utf8 (exceptionCidrs mgr1) -> (height (docOf (JObject rawList)) <= maxNestingDepth)%nat ->
     UnmarshalMap bytes = inr rawList).
Proof.
  refine (proj2 (insert_atomic fileAt mgr1 _ _ world1 (Ok tt) (snd inserted) _)).
  - reflexivity.
  - reflexivity.
  - unfold inserted. apply run_eq_unit. vm_compute. reflexivity.
Defined.

(** The manager's networks are ASCII, and what it writes here is shallow. *)
Example inserted_reads_back :
  Forall utf8 (exceptionCidrs mgr1) /\
  UnmarshalMap (default "" (fileAt (snd inserted) (confmgr.confPath mgr1))) =
    inr (<["plugins" := JArray [azurePlugin; egressPlugin mgr1; JObject {["type" := JString "portmap"]}]]> mainList).
Proof. split; [by repeat (apply Forall_cons; split; [by apply ASCII_utf8|])|vm_compute; reflexivity]. Qed.

Definition portmap : json := JObject {["type" := JString "portmap"]}.
Definition regenerated : gmap string json :=
  <["plugins" := JArray [azurePlugin; egressPlugin mgr1; portmap]]> mainList.
Lemma conflist_regenerated_witness :
  confListToList mgr1 "10-azure.conflist" mainList = Ok regenerated /\
  confListToList mgr1 "10-azure.conflist" regenerated = Ok regenerated.
Proof.
  refine (conflist_regenerated mgr1 "10-azure.conflist" mainList [azurePlugin; portmap] azurePlugin [portmap] _ _ _ _).
  - reflexivity.
  - repeat constructor.
  - vm_compute. lia.
  - reflexivity.
Defined.

Lemma own_events_ignored_witness :
  confmgr.watchLoop mgr1 [FileEvent "/etc/cni/net.d/01-egressgateway.conflist.tmp";
                          FileEvent "/etc/cni/net.d/01-egressgateway.conflist"] world1 =
  confmgr.watchLoop mgr1 [] world1.
Proof. refine (own_events_ignored mgr1 _ _ [_; _] world1); reflexivity. Defined.

Lemma removal_follows_flag_witness :
  fileAt (snd (confmgr.removeCNIPluginConf mgr1 (snd inserted))) (confmgr.confPath mgr1) = None.
Proof.
  refine (proj2 (proj2 (removal_follows_flag fileAt mgr1 _ (snd inserted) (Ok tt)
    (snd (confmgr.removeCNIPluginConf mgr1 (snd inserted))) _)) _ _).
  - intros k w f. simpl. destruct (decide _); [|reflexivity]. by destruct (pa_config (pw_api w)).
  - apply run_eq_unit. vm_compute. reflexivity.
  - vm_compute. reflexivity.
  - reflexivity.
Defined.

(** A shorter file copied over a longer one. *)
Definition copying : PodWorld :=
  on_files (fun m => <["/bin/plugin" := "new"]> (<["/opt/plugin" := "older"]> m)) world1.
Lemma copyFile_overwrites_witness :
  fileAt (snd (copyFile "/bin/plugin" "/opt" copying)) "/opt/plugin" = Some "newer".
Proof.
  refine (proj1 (copyFile_overwrites fileAt "/bin/plugin" "/opt" "plugin" copying _ "new" _ _ _ _)).
  - reflexivity.
  - discriminate.
  - reflexivity.
  - apply run_eq_unit. vm_compute. reflexivity.
Defined.
