(* ===== verification/Tunnel.v ===== *)
(** * Both ends of the tunnel

    The plugin on the pod's node and the daemon on the gateway's node never talk to
    each other: they meet in the pod's endpoint at the API server.  This file puts what
    the plugin leaves there together with what the daemon does with it, and the key pair the
    manager made for the gateway with what each of them does with its half. *)

From stdpp Require Import base tactics list strings gmap.
From Stdlib Require Import Ascii ZArith Lia.
From S2P Require Import Prelude GoStrings Types Kube NetIP Network Imds NodeStatus DaemonPod.
From S2P Require Import HealthProbe DaemonSGC CNIServer CNITypes CNIPlugin ManagerSGC.

Open Scope string_scope.
Open Scope list_scope.

(** The network of a single address. *)
Definition hostNet (ip : IP) : IPNet := {| ipn_IP := Some ip; ipn_Mask := Some (CIDRMask 32 32) |}.

Section tunnel.
(** The pod's node and the gateway's node. *)
Context {P G : Type} `{WgTypes}.
Context `{Store P StaticGatewayConfiguration} `{!WgKeygen P}.
Context (endpointAt : P -> NamespacedName -> option PodEndpoint) (tunnelAt : P -> netns -> option WgConfig).
Context `{NetNS G} `{NetLink G} `{NetlinkPure} `{!WgCtrl G} `{OsEnv} `{OwnerRefs}.
Context `{Store G GatewayStatus} `{Store G Node}.

(** What the daemon's reconciliation of an endpoint has configured. *)
Lemma reconcile_adds_peer gwConfig pe key ip net (g : G) g' :
  ParseKey (pe_PodPublicKey (pe_Spec pe)) = inr key ->
  ParseCIDR (pe_PodIpAddress (pe_Spec pe)) = inr (ip, net) ->
  daemonpod.reconcile gwConfig pe g = (Ok tt, g') ->
  (exists c u u', wgConfigureDevice c (getWireguardInterfaceName gwConfig) (daemonpod.peerConfigOf key net) u = (Ok tt, u')) /\
  exists ns l u u', LinkByName ns (getWireguardInterfaceName gwConfig) u = (Ok l, u') /\
    exists v v', RouteReplace ns (newRoute (l_Index l) SCOPE_LINK (Some net) None) v = (Ok tt, v').
Proof.
  intros Hkey Hip. unfold daemonpod.reconcile. intros (ns & g1 & _ & Hrun)%bind_Ok_inv.
  apply defer_inv in Hrun as (g2 & Hrun & _). apply bind_Ok_inv in Hrun as ([] & g3 & Hdo & _).
  unfold nsDo, withWgClient in Hdo. apply bind_Ok_inv in Hdo as (u & g4 & _ & Hdo).
  apply bind_Ok_inv in Hdo as (c & g5 & _ & Hdo). apply defer_inv in Hdo as (g6 & Hdo & _).
  rewrite Hkey, Hip in Hdo. apply bind_Ok_inv in Hdo as (k & g7 & Hk%on_err_Ok_inv & Hdo).
  unfold lift, of_sum in Hk. injection Hk as <- <-.
  apply bind_Ok_inv in Hdo as ([i n] & g8 & Hn%on_err_Ok_inv & Hdo). unfold lift, of_sum in Hn. injection Hn as <- <- <-.
  apply bind_Ok_inv in Hdo as ([] & g9 & Hcfg%on_err_Ok_inv & Hr%on_err_Ok_inv). split; [eauto|].
  unfold daemonpod.addWireguardPeerRoutes in Hr. apply bind_Ok_inv in Hr as (l & g10 & Hl%on_err_Ok_inv & Hr).
  rewrite Hip in Hr. apply bind_Ok_inv in Hr as ([i' n'] & g11 & Hn%on_err_Ok_inv & Hr).
  unfold lift, of_sum in Hn. injection Hn as <- <- <-. apply on_err_Ok_inv in Hr. eauto 10.
Qed.

End tunnel.

(** ** The gateway's end *)

Section gateway_end.
Context {G : Type} `{WgTypes}.
Context `{NetNS G} `{NetLink G} `{NetlinkPure} `{IPTables G} `{!WgCtrl G} `{ProbeServer G} `{OsEnv} `{OwnerRefs}.
Context `{Store G StaticGatewayConfiguration} `{Store G GatewayVMConfiguration} `{Store G Secret}.
Context `{Store G GatewayStatus} `{Store G Node}.

Lemma reconcileVethPair_keeps (Q : G -> Prop) `{!NodeKeeps Q} `{!SetupKeeps Q} gwns p s :
  (forall l, keeps Q (LinkDel HostNS l)) -> keeps Q (daemonsgc.reconcileVethPair gwns p s).
Proof.
  intros Hdel. unfold daemonsgc.reconcileVethPair, daemonsgc.reconcileVethPairInHost, daemonsgc.joinVethPair,
    daemonsgc.ensureAddr, daemonsgc.hasAddr. node_tac.
Qed.

(** [listening name key port g]: in [g], the WireGuard link of this name in the gateway
    namespace has the key and listens on the port.  A device that is read and one that
    was configured are so; of the calls the daemon makes, only the deletion of links of
    that namespace and the configuration of devices change it. *)
Class TunnelEnd (listening : string -> Key -> Z -> G -> Prop) := {
  te_read p c name device key port u1 u2 u u' : wgNew (PathNS p) u1 = (Ok c, u2) ->
    wgDevice c name u = (Ok device, u') -> Key_String (dev_PrivateKey device) = Key_String key ->
    dev_ListenPort device = port -> listening name key port u';
  te_set p c name device key port u1 u2 u0 u u' : wgNew (PathNS p) u1 = (Ok c, u2) ->
    wgDevice c name u0 = (Ok device, u) ->
    wgConfigureDevice c name {| wg_PrivateKey := Some key; wg_ListenPort := Some port; wg_Peers := [] |} u = (Ok tt, u') ->
    listening name key port u';
  te_node name key port :: NodeKeeps (listening name key port);
  te_setup name key port :: SetupKeeps (listening name key port);
  te_linkDel name key port l : keeps (listening name key port) (LinkDel HostNS l);
  te_probe name key port s u : listening name key port u -> listening name key port (setProbeServer s u);
}.
Context (listening : string -> Key -> Z -> G -> Prop) `{!TunnelEnd listening}.

Lemma after_kept {A} (Q : G -> Prop) (c : M G A) u r u' : keeps Q c -> Q u -> c u = (r, u') -> Q u'.
Proof. intros Hc Hu Hrun. specialize (Hc u Hu). by rewrite Hrun in Hc. Qed.

Lemma configureWireguardLink_listens p linkName port key (g : G) g' :
  daemonsgc.configureWireguardLink (PathNS p) linkName port key g = (Ok tt, g') -> listening linkName key port g'.
Proof.
  unfold daemonsgc.configureWireguardLink, withWgClient. intros (l & g1 & _ & Hrun)%bind_Ok_inv.
  apply bind_Ok_inv in Hrun as ([] & g2 & _ & Hrun). apply bind_Ok_inv in Hrun as ([] & g3 & _ & Hrun).
  apply bind_Ok_inv in Hrun as (c & g4 & Hnew%on_err_Ok_inv & Hrun). apply defer_inv in Hrun as (g5 & Hrun & ->).
  apply nk_wgClose. apply bind_Ok_inv in Hrun as (device & g6 & Hdev%on_err_Ok_inv & Hrun).
  destruct (String.eqb_spec (Key_String (dev_PrivateKey device)) (Key_String key)) as [Hk|Hk];
    [destruct (Z.eqb_spec (dev_ListenPort device) port) as [Hp|Hp]|]; simpl in Hrun.
  - unfold ret in Hrun. injection Hrun as <-. by eapply te_read.
  - apply on_err_Ok_inv in Hrun. by eapply te_set.
  - apply on_err_Ok_inv in Hrun. by eapply te_set.
Qed.

Lemma configureGatewayNamespace_listens gwConfig key p s (g : G) g' :
  daemonsgc.configureGatewayNamespace gwConfig key p s g = (Ok tt, g') ->
  listening (getWireguardInterfaceName gwConfig) key (gsp_Port (sgc_GatewayServerProfile (sgc_Status gwConfig))) g'.
Proof.
  unfold daemonsgc.configureGatewayNamespace. intros (gwns & g1 & Hns%on_err_Ok_inv & Hrun)%bind_Ok_inv.
  unfold GetNS, GetNSByPath in Hns. apply bind_Ok_inv in Hns as ([] & g2 & _ & Hns). unfold ret in Hns. injection Hns as <- <-.
  apply defer_inv in Hrun as (g3 & Hrun & ->).
  set (Q := listening (getWireguardInterfaceName gwConfig) key (gsp_Port (sgc_GatewayServerProfile (sgc_Status gwConfig)))).
  assert (Hk : NodeKeeps Q) by apply te_node. assert (Hs : SetupKeeps Q) by apply te_setup.
  apply nk_close. apply bind_Ok_inv in Hrun as ([] & g4 & Hwg & Hrun).
  assert (HQ : Q g4).
  { unfold daemonsgc.reconcileWireguardLink in Hwg. apply bind_Ok_inv in Hwg as (lk & g5 & _ & Hwg).
    apply bind_Ok_inv in Hwg as ([] & g6 & _ & Hwg). unfold nsDo in Hwg. apply bind_Ok_inv in Hwg as ([] & g7 & _ & Hwg).
    by apply configureWireguardLink_listens in Hwg. }
  eapply (after_kept Q); [|exact HQ|exact Hrun].
  apply keeps_bind; [apply (reconcileVethPair_keeps Q); [done..|]; intros l; apply te_linkDel|]. intros []. node_tac.
Qed.

(** What the daemon's reconciliation of a gateway has set up for the tunnels. *)
Lemma reconcile_listens node gwConfig (g : G) g' :
  let profile := sgc_GatewayServerProfile (sgc_Status gwConfig) in
  daemonsgc.reconcile node gwConfig g = (Ok tt, g') ->
  exists ref s text key g1,
    gsp_PrivateKeySecretRef profile = Some ref /\ kGet (nn (ref_Namespace ref) (ref_Name ref)) g = (Ok s, g1) /\
    sec_Data s !! consts.WireguardPrivateKeyName = Some text /\ ParseKey text = inr key /\
    listening (getWireguardInterfaceName gwConfig) key (gsp_Port profile) g'.
Proof.
  intros profile. unfold daemonsgc.reconcile. intros (key & g1 & Hkey & Hrun)%bind_Ok_inv.
  apply bind_Ok_inv in Hrun as ([] & g2 & _ & Hrun). apply bind_Ok_inv in Hrun as ([p s2] & g3 & _ & Hrun).
  do 3 apply bind_Ok_inv in Hrun as ([] & ? & _ & Hrun). apply bind_Ok_inv in Hrun as ([] & g7 & Hns & Hrun).
  apply configureGatewayNamespace_listens in Hns. apply bind_Ok_inv in Hrun as ([] & g8 & Hst & Hrun).
  eapply after_kept in Hst; [|apply keeps_updateNodeStatus, te_node|exact Hns].
  unfold probeAdd, effect in Hrun. injection Hrun as <-. unfold daemonsgc.getWireguardPrivateKey in Hkey.
  apply bind_Ok_inv in Hkey as (ref & g14 & Href & Hkey). unfold lift, deref in Href. fold profile in Href.
  destruct (gsp_PrivateKeySecretRef profile) as [r|]; [|done]. injection Href as <- <-.
  apply bind_Ok_inv in Hkey as (s & g15 & Hget%on_err_Ok_inv & Hkey).
  destruct (sec_Data s !! consts.WireguardPrivateKeyName) as [text|] eqn:Ht; [|by go_inv].
  unfold lift, of_sum in Hkey. destruct (ParseKey text) as [e|k] eqn:Hk; [done|]. injection Hkey as <- _.
  exists r, s, text, k, g15. split_and!; try done. by apply te_probe.
Qed.
End gateway_end.

Section pod_end.
(** The pod's node, the gateway's node and the manager. *)
Context {P G K : Type} `{WgTypes} `{!WgKeygen P} `{WgKeys K}.
Context (tunnelAt : P -> netns -> option WgConfig).
Context `{NetNS G} `{NetLink G} `{NetlinkPure} `{IPTables G} `{!WgCtrl G} `{ProbeServer G} `{OsEnv} `{OwnerRefs}.
Context `{Store G StaticGatewayConfiguration} `{Store G GatewayVMConfiguration} `{Store G Secret}.
Context `{Store G GatewayStatus} `{Store G Node}.
Context (listening : string -> Key -> Z -> G -> Prop) `{!TunnelEnd listening}.

End pod_end.
