(* ===== verification/TunnelWitness.v ===== *)
(** * A pod and its gateway

    The endpoint that the plugin registers in the world of [CNISim], reconciled by the
    daemon in the world of [NodeSim]. *)

From stdpp Require Import base tactics list strings gmap.
From Stdlib Require Import Ascii ZArith Lia.
From S2P Require Import Prelude GoStrings Types Kube NetIP Network Imds NodeStatus DaemonSGC DaemonPod NodeSim.
From S2P Require Import HealthProbe ManagerSGC CNIServer CNITypes CNIPlugin CNISim CNIWitness Tunnel.

Open Scope string_scope.
Open Scope list_scope.

Definition endpoint1 : PodEndpoint :=
  default (newEndpoint None) (CNISim.endpointAt connected1 (nn "default" "pod1")).

Lemma connected1_connected :
  connected (WgKeygen0 := pod_keygen) CNISim.endpointAt tunnelAt (info "pod1") "gw1" podNS "10.244.0.5/32" connected1.
Proof.
  exists "private", gateway1, "public of priv", endpoint1, world1.
  split_and!; [reflexivity|discriminate|reflexivity|vm_compute; reflexivity..].
Qed.

#[local] Existing Instance node_env | 0.
Definition accepted := daemonpod.reconcile gw_on_6000 endpoint1 ready_node.


(** ** The other direction *)

(** The daemon's world for the pod's gateway. *)
Definition gateway_node : NodeWorld :=
  {| nw_sgcs := [gateway1];
     nw_vmcs := [{| vmc_meta := new_meta "gw1" "default"; vmc_Spec := vmc_Spec sim_vmc; vmc_Status := vmc_Status sim_vmc |}];
     nw_secrets := nw_secrets fresh_node; nw_pods := []; nw_status := None; nw_host := fresh_net; nw_gw := fresh_net;
     nw_probe := NewLBProbeServer 8082 |}.

(** The manager's keys, in the text form. *)
#[local] Instance text_keys : WgKeys unit := {|
  GeneratePrivateKey := ret "priv"; PublicKeyOf k := "public of " +:+ k |}.

Definition listening (name : string) (key : string) (port : Z) (w : NodeWorld) : Prop :=
  existsb (NodeSim.named name) (nt_links (nw_gw w)) = true /\
  exists n d, List.find (fun p => String.eqb (fst p) name) (nt_wg (nw_gw w)) = Some (n, d) /\
    dev_PrivateKey d = key /\ dev_ListenPort d = port.

Lemma find_configured name cfg (l : list (string * WgDevice)) n d :
  List.find (fun p => String.eqb (fst p) name) l = Some (n, d) ->
  List.find (fun p => String.eqb (fst p) name)
    (map (fun p => if String.eqb (fst p) name then (fst p, drop_peers cfg (snd p)) else p) l) = Some (n, drop_peers cfg d).
Proof.
  induction l as [|[m e] l IH]; simpl; [done|]. destruct (String.eqb m name) eqn:Hm; simpl; rewrite Hm; [|done].
  by intros [= -> ->].
Qed.

Lemma wgDevice_found p name w d w' :
  wgDevice (WgCtrl := sim_wgctrl) (PathNS p) name w = (Ok d, w') ->
  w' = w /\ existsb (NodeSim.named name) (nt_links (nw_gw w)) = true /\
  exists n, List.find (fun p => String.eqb (fst p) name) (nt_wg (nw_gw w)) = Some (n, d).
Proof.
  simpl. destruct (existsb (NodeSim.named name) (nt_links (nw_gw w))); simpl; [|done].
  destruct (List.find _ _) as [[n e]|]; [|done]. intros [= -> ->]. eauto.
Qed.

(** Links that are added leave the others there. *)
Lemma existsb_added {A} (p : A -> bool) l l' : existsb p l = true -> existsb p (l ++ l') = true.
Proof. intros Hl. rewrite existsb_app. by rewrite Hl. Qed.

Lemma listening_net name key port n s w :
  (existsb (NodeSim.named name) (nt_links (net_of n w)) = true -> existsb (NodeSim.named name) (nt_links s) = true) ->
  (existsb (NodeSim.named name) (nt_links (net_of n w)) = true ->
   List.find (fun p => String.eqb (fst p) name) (nt_wg s) = List.find (fun p => String.eqb (fst p) name) (nt_wg (net_of n w))) ->
  listening name key port w -> listening name key port (with_net n s w).
Proof.
  intros Hl Hf [H1 (m & d & H2 & H3)]. destruct n as [|path]; [split; [done|by exists m, d]|]. simpl in *.
  split; simpl; [by apply Hl|]. rewrite Hf by done. by exists m, d.
Qed.

Ltac end_keeps :=
  intros; intros ww Hww;
  cbn -[negb String.eqb bool_decide existsb List.find]; unfold missing, no_write, throw, ret, effect, on_net, on_nat;
  repeat (case_match; simpl); try done; try (apply listening_net; [done..|exact Hww]).

#[local] Instance sim_tunnel_end : TunnelEnd (H := sim_wgtypes) (WgCtrl0 := sim_wgctrl) listening.
Proof.
  split.
  - intros p c name device key port u1 u2 u u' [= <- _] (-> & Hl & n & Hf)%wgDevice_found Hk Hp.
    split; [done|]. by exists n, device.
  - intros p c name device key port u1 u2 u0 u u' [= <- _] (-> & Hl & n & Hf)%wgDevice_found Hc.
    simpl in Hc. unfold on_net, effect in Hc. injection Hc as <-. split; [done|]. simpl. erewrite find_configured by done.
    by eexists n, _.
  - intros name key port. split; end_keeps.
  - intros name key port. split; end_keeps.
    + apply listening_net; [by apply existsb_added|done..].
    + apply listening_net; simpl; [by apply existsb_added| |exact Hww]. intros Hl.
      destruct (String.eqb_spec (l_Name l) name) as [<-|Hne]; [|done]. destruct m; simpl in *; [|congruence].
      exfalso. clear - Hl. rewrite existsb_named_filter in Hl. done.
  - intros name key port l w Hw. exact Hw.
  - intros name key port s w Hw. exact Hw.
Qed.

Definition gateway_run : outcome unit * NodeWorld :=
  daemonsgc.reconcile (H1 := sim_netlink_pure) (H3 := sim_wgtypes) (H5 := node_env) sim_node gateway1 gateway_node.

