(* ===== verification/Visualizer.v ===== *)
(** * The backend of the network visualizer ([network-visualizer/backend/main.go])

    A web server that draws the cluster: [buildTopology] makes a graph of namespaces,
    nodes, services and pods, [getIssuesHandler] looks for configuration issues, and a
    collector replaces the list of flows that the other handlers report.  The lists of
    the API server are a parameter; what the handlers send is modelled down to the
    bytes, with the JSON of Kubernetes' own types as a parameter.  The interleaving of
    the collector with the handlers is in [VisualizerFlows]. *)

From stdpp Require Import base tactics list strings gmap sorting.
From Stdlib Require Import Ascii ZArith Lia.
From S2P Require Import Prelude GoStrings JSON.

Open Scope string_scope.
Open Scope list_scope.

(** ** Go's values *)

(** A slice that may be nil. *)
Definition slice (A : Type) : Type := option (list A).
Definition elems {A} (s : slice A) : list A := default [] s.
Definition append {A} (s : slice A) (x : A) : slice A := Some (elems s ++ [x]).

(** [int] and [int64] wrap around. *)
Definition wrapInt64 (z : Z) : Z := ((z + 2 ^ 63) mod 2 ^ 64 - 2 ^ 63)%Z.

(** [m[k]] of a map that may be nil: the zero value for a missing key. *)
Definition at_key (m : option (gmap string string)) (k : string) : string := default "" (default ∅ m !! k).

(** ** Time *)

(** [time.Time]: seconds and nanoseconds since 1970, and the offset of its zone. *)
Record Time := { t_Unix : Z; t_Nsec : Z; t_Offset : Z }.

(** The date of a day counted from 1970-01-01, in the Gregorian calendar: years are
    counted from March, in eras of 400 years. *)
Definition civil (days : Z) : Z * Z * Z :=
  let z := (days + 719468)%Z in
  let era := (z / 146097)%Z in
  let doe := (z - era * 146097)%Z in
  let yoe := ((doe - doe / 1460 + doe / 36524 - doe / 146096) / 365)%Z in
  let doy := (doe - (365 * yoe + yoe / 4 - yoe / 100))%Z in
  let mp := ((5 * doy + 2) / 153)%Z in
  let month := if (mp <? 10)%Z then (mp + 3)%Z else (mp - 9)%Z in
  ((if (month <=? 2)%Z then yoe + era * 400 + 1 else yoe + era * 400)%Z, month,
   (doy - (153 * mp + 2) / 5 + 1)%Z).

(** A number with leading zeros. *)
Definition pad (width : nat) (z : Z) : string :=
  let s := Itoa z in times (width - String.length s) "0" +:+ s.

(** The fraction of RFC 3339 with nanoseconds: no trailing zeros, nothing for zero. *)
Fixpoint trimZeros (fuel : nat) (width : nat) (n : Z) : string :=
  match fuel with
  | O => ""
  | S fuel' => if (n mod 10 =? 0)%Z then trimZeros fuel' (pred width) (n / 10) else "." +:+ pad width n
  end.

(** [t.Format(time.RFC3339)], with a text for the fraction. *)
Definition formatTime (fraction : string) (t : Time) : string :=
  let local := (t_Unix t + t_Offset t)%Z in
  let '(year, month, day) := civil (local / 86400) in
  let sec := (local mod 86400)%Z in
  let zone :=
    if (t_Offset t =? 0)%Z then "Z"
    else let minutes := Z.quot (t_Offset t) 60 in
         (if (minutes <? 0)%Z then "-" else "+") +:+ pad 2 (Z.abs minutes / 60) +:+ ":" +:+ pad 2 (Z.abs minutes mod 60) in
  pad 4 year +:+ "-" +:+ pad 2 month +:+ "-" +:+ pad 2 day +:+ "T" +:+
  pad 2 (sec / 3600) +:+ ":" +:+ pad 2 (sec / 60 mod 60) +:+ ":" +:+ pad 2 (sec mod 60) +:+ fraction +:+ zone.
Definition RFC3339 (t : Time) : string := formatTime "" t.
(** The JSON of a time, for the years of four digits. *)
Definition timeDoc (t : Time) : doc := DString (formatTime (trimZeros 9 9 (t_Nsec t)) t).

Example rfc3339_ex :
  RFC3339 {| t_Unix := 1709210096; t_Nsec := 5; t_Offset := 0 |} = "2024-02-29T12:34:56Z" /\
  RFC3339 {| t_Unix := 951782399; t_Nsec := 0; t_Offset := -19800 |} = "2000-02-28T18:29:59-05:30" /\
  timeDoc {| t_Unix := 0; t_Nsec := 120000000; t_Offset := 0 |} = DString "1970-01-01T00:00:00.12Z".
Proof. vm_compute. done. Qed.

(** ** Kubernetes' objects *)

(** The types of which the backend only passes values on, with their JSON. *)
Class CoreV1 := {
  ResourceList : Type; resourceListDoc : ResourceList -> doc;
  NodeSystemInfo : Type; nodeInfoDoc : NodeSystemInfo -> doc;
  ServicePort : Type; portsDoc : list ServicePort -> doc;
  Container : Type; containersDoc : list Container -> doc;
  MetaTime : Type; metaTimeDoc : MetaTime -> doc;
  ConditionDetails : Type; conditionsDoc : list (string * string * ConditionDetails) -> doc;
}.

Section objects.
Context `{CoreV1}.

Record Namespace := { ns_Name : string; ns_CreationTimestamp : MetaTime }.
Record Node := {
  node_Name : string;
  node_Capacity : ResourceList;
  node_Allocatable : ResourceList;
  node_NodeInfo : NodeSystemInfo;
  (** The type, the status and the rest of each condition. *)
  node_Conditions : list (string * string * ConditionDetails);
}.
Record Service := {
  svc_Name : string;
  svc_Namespace : string;
  svc_Type : string;
  svc_ClusterIP : string;
  svc_Ports : list ServicePort;
  svc_Selector : option (gmap string string);
}.
Record ContainerStatus := { cs_Ready : bool; cs_RestartCount : Z }.
Record Pod := {
  pod_Name : string;
  pod_Namespace : string;
  pod_Labels : option (gmap string string);
  pod_NodeName : string;
  pod_Containers : list Container;
  pod_Phase : string;
  pod_PodIP : string;
  pod_ContainerStatuses : list ContainerStatus;
}.
End objects.

(** ** The graph *)

(** The values of [Data] are given by their JSON. *)
Record TopologyNode := {
  tn_ID : string;
  tn_Label : string;
  tn_Type : string;
  tn_Namespace : string;
  tn_Status : string;
  tn_Data : gmap string doc;
}.
(** A [float64] is given by its JSON number, as in [JNumber]. *)
Record TopologyEdge := {
  te_ID : string;
  te_Source : string;
  te_Target : string;
  te_Type : string;
  te_Data : gmap string doc;
  te_Animated : bool;
  te_Bandwidth : string;
  te_PacketsPerSec : Z;
}.
Record TopologyResponse := {
  tr_Nodes : slice TopologyNode;
  tr_Edges : slice TopologyEdge;
  tr_Timestamp : string;
}.

Definition countRestarts (statuses : list ContainerStatus) : Z :=
  fold_left (fun total cs => wrapInt64 (total + cs_RestartCount cs)) statuses 0%Z.

(** The order in which the map is ranged over does not matter. *)
Definition matchesSelector (labels selector : option (gmap string string)) : bool :=
  if bool_decide (default ∅ selector = ∅) then false
  else forallb (fun kv => String.eqb (at_key labels (fst kv)) (snd kv)) (map_to_list (default ∅ selector)).

(** A [map[string]string] as JSON: sorted keys, null for nil. *)
Definition mapDoc (m : gmap string doc) : doc := DObject (merge_sort key_le (map_to_list m)).
Definition labelsDoc (labels : option (gmap string string)) : doc :=
  match labels with None => DNull | Some m => mapDoc (DString <$> m) end.

Section topology.
Context `{CoreV1}.

Definition systemNamespace (ns : string) : bool := String.eqb ns "kube-system" || String.eqb ns "kube-public".

Definition namespaceNode (ns : Namespace) : TopologyNode :=
  {| tn_ID := "ns-" +:+ ns_Name ns; tn_Label := ns_Name ns; tn_Type := "namespace"; tn_Namespace := "";
     tn_Status := "healthy";
     tn_Data := list_to_map
       [("name", DString (ns_Name ns)); ("creationTimestamp", metaTimeDoc (ns_CreationTimestamp ns))] |}.

Definition nodeStatus (node : Node) : string :=
  fold_left (fun status cond =>
    if String.eqb (fst (fst cond)) "Ready" && negb (String.eqb (snd (fst cond)) "True") then "failed" else status)
    (node_Conditions node) "healthy".
Definition kubeNode (node : Node) : TopologyNode :=
  {| tn_ID := "node-" +:+ node_Name node; tn_Label := node_Name node; tn_Type := "node"; tn_Namespace := "";
     tn_Status := nodeStatus node;
     tn_Data := list_to_map
       [("name", DString (node_Name node)); ("capacity", resourceListDoc (node_Capacity node));
        ("allocatable", resourceListDoc (node_Allocatable node)); ("nodeInfo", nodeInfoDoc (node_NodeInfo node));
        ("conditions", conditionsDoc (node_Conditions node))] |}.

Definition serviceID (svc : Service) : string := "svc-" +:+ svc_Namespace svc +:+ "-" +:+ svc_Name svc.
Definition serviceNode (svc : Service) : TopologyNode :=
  {| tn_ID := serviceID svc; tn_Label := svc_Name svc; tn_Type := "service"; tn_Namespace := svc_Namespace svc;
     tn_Status := "healthy";
     tn_Data := list_to_map
       [("name", DString (svc_Name svc)); ("namespace", DString (svc_Namespace svc)); ("type", DString (svc_Type svc));
        ("clusterIP", DString (svc_ClusterIP svc)); ("ports", portsDoc (svc_Ports svc))] |}.

Definition podID (pod : Pod) : string := "pod-" +:+ pod_Namespace pod +:+ "-" +:+ pod_Name pod.
Definition podStatus (pod : Pod) : string :=
  fold_left (fun status cs => if cs_Ready cs then status else "failed") (pod_ContainerStatuses pod)
    (if String.eqb (pod_Phase pod) "Running" then "healthy" else "degraded").
Definition podNode (pod : Pod) : TopologyNode :=
  {| tn_ID := podID pod; tn_Label := pod_Name pod; tn_Type := "pod"; tn_Namespace := pod_Namespace pod;
     tn_Status := podStatus pod;
     tn_Data := list_to_map
       [("name", DString (pod_Name pod)); ("namespace", DString (pod_Namespace pod)); ("phase", DString (pod_Phase pod));
        ("podIP", DString (pod_PodIP pod)); ("nodeName", DString (pod_NodeName pod)); ("labels", labelsDoc (pod_Labels pod));
        ("containers", containersDoc (pod_Containers pod));
        ("restarts", DNumber (Itoa (countRestarts (pod_ContainerStatuses pod))))] |}.

Definition edge (id source target type : string) : TopologyEdge :=
  {| te_ID := id; te_Source := source; te_Target := target; te_Type := type; te_Data := ∅;
     te_Animated := false; te_Bandwidth := "0"; te_PacketsPerSec := 0 |}.
Definition nodeEdge (pod : Pod) : TopologyEdge :=
  edge ("edge-pod-node-" +:+ pod_Namespace pod +:+ "-" +:+ pod_Name pod) (podID pod) ("node-" +:+ pod_NodeName pod)
    "pod-to-node".
Definition namespaceEdge (pod : Pod) : TopologyEdge :=
  edge ("edge-ns-pod-" +:+ pod_Namespace pod +:+ "-" +:+ pod_Name pod) ("ns-" +:+ pod_Namespace pod) (podID pod)
    "namespace-to-pod".
Definition serviceEdge (svc : Service) (pod : Pod) : TopologyEdge :=
  edge ("edge-svc-pod-" +:+ svc_Namespace svc +:+ "-" +:+ svc_Name svc +:+ "-" +:+ pod_Name pod)
    (serviceID svc) (podID pod) "service-to-pod".

(** The body of the loop over the services, and of the loop over the pods. *)
Definition addServiceEdge (pod : Pod) (edges : slice TopologyEdge) (svc : Service) : slice TopologyEdge :=
  if negb (String.eqb (svc_Namespace svc) (pod_Namespace pod)) then edges
  else if matchesSelector (pod_Labels pod) (svc_Selector svc) then append edges (serviceEdge svc pod) else edges.
Definition addPod (services : list Service) (graph : slice TopologyNode * slice TopologyEdge) (pod : Pod) :
    slice TopologyNode * slice TopologyEdge :=
  let '(topologyNodes, edges) := graph in
  if systemNamespace (pod_Namespace pod) then graph
  else
    let topologyNodes := append topologyNodes (podNode pod) in
    let edges := if negb (String.eqb (pod_NodeName pod) "") then append edges (nodeEdge pod) else edges in
    let edges := append edges (namespaceEdge pod) in
    (topologyNodes, fold_left (addServiceEdge pod) services edges).

Definition buildTopology (pods : list Pod) (services : list Service) (nodes : list Node) (namespaces : list Namespace)
    (now : Time) : TopologyResponse :=
  let topologyNodes := fold_left (fun acc ns => append acc (namespaceNode ns)) namespaces None in
  let topologyNodes := fold_left (fun acc node => append acc (kubeNode node)) nodes topologyNodes in
  let topologyNodes := fold_left (fun acc svc =>
    if systemNamespace (svc_Namespace svc) then acc else append acc (serviceNode svc)) services topologyNodes in
  let '(topologyNodes, edges) := fold_left (addPod services) pods (topologyNodes, None) in
  {| tr_Nodes := topologyNodes; tr_Edges := edges; tr_Timestamp := RFC3339 now |}.
End topology.

(** ** Flows *)

Record Flow := {
  flow_ID : string;
  flow_SourcePod : string;
  flow_SourceNS : string;
  flow_DestPod : string;
  flow_DestNS : string;
  flow_Protocol : string;
  flow_BytesSent : Z;
  flow_BytesReceived : Z;
  flow_PacketsSent : Z;
  flow_PacketsRecv : Z;
  flow_Errors : Z;
  flow_Timestamp : Time;
}.

(** The flow of the pod at an index of the list. *)
Definition flowOf `{CoreV1} (i : Z) (pod : Pod) (now : Time) : Flow :=
  {| flow_ID := "flow-" +:+ pod_Namespace pod +:+ "-" +:+ pod_Name pod;
     flow_SourcePod := pod_Name pod; flow_SourceNS := pod_Namespace pod; flow_DestPod := "external"; flow_DestNS := "";
     flow_Protocol := "TCP"; flow_BytesSent := wrapInt64 (1000 + i * 100); flow_BytesReceived := wrapInt64 (500 + i * 50);
     flow_PacketsSent := wrapInt64 (10 + i); flow_PacketsRecv := wrapInt64 (5 + i); flow_Errors := 0;
     flow_Timestamp := now |}.

(** ** Sending *)

(** The text of a document without white space. *)
Fixpoint compact (d : doc) : string :=
  match d with
  | DNull => "null"
  | DBool b => if b then "true" else "false"
  | DNumber literal => literal
  | DString s => quoteJSON s
  | DArray l => "[" +:+ Join (compact <$> l) "," +:+ "]"
  | DObject ms => "{" +:+ Join ((fun p => quoteJSON (fst p) +:+ ":" +:+ compact (snd p)) <$> ms) "," +:+ "}"
  end.

Definition sliceDoc {A} (f : A -> doc) (s : slice A) : doc :=
  match s with None => DNull | Some l => DArray (f <$> l) end.
(** A field with [omitempty]. *)
Definition unlessEmpty (k v : string) : list (string * doc) :=
  if String.eqb v "" then [] else [(k, DString v)].

Definition nodeDoc (n : TopologyNode) : doc :=
  DObject ([("id", DString (tn_ID n)); ("label", DString (tn_Label n)); ("type", DString (tn_Type n))]
           ++ unlessEmpty "namespace" (tn_Namespace n)
           ++ [("status", DString (tn_Status n)); ("data", mapDoc (tn_Data n))]).
Definition numberDoc (z : Z) : doc := DNumber (Itoa z).
Definition edgeDoc (e : TopologyEdge) : doc :=
  DObject ([("id", DString (te_ID e)); ("source", DString (te_Source e)); ("target", DString (te_Target e));
            ("type", DString (te_Type e)); ("data", mapDoc (te_Data e)); ("animated", DBool (te_Animated e))]
           ++ (if String.eqb (te_Bandwidth e) "0" then [] else [("bandwidth", DNumber (te_Bandwidth e))])
           ++ (if (te_PacketsPerSec e =? 0)%Z then [] else [("packetsPerSec", numberDoc (te_PacketsPerSec e))])).
Definition topologyDoc (t : TopologyResponse) : doc :=
  DObject [("nodes", sliceDoc nodeDoc (tr_Nodes t)); ("edges", sliceDoc edgeDoc (tr_Edges t));
           ("timestamp", DString (tr_Timestamp t))].
Definition flowDoc (f : Flow) : doc :=
  DObject [("id", DString (flow_ID f)); ("sourcePod", DString (flow_SourcePod f));
           ("sourceNamespace", DString (flow_SourceNS f)); ("destPod", DString (flow_DestPod f));
           ("destNamespace", DString (flow_DestNS f)); ("protocol", DString (flow_Protocol f));
           ("bytesSent", numberDoc (flow_BytesSent f)); ("bytesReceived", numberDoc (flow_BytesReceived f));
           ("packetsSent", numberDoc (flow_PacketsSent f)); ("packetsReceived", numberDoc (flow_PacketsRecv f));
           ("errors", numberDoc (flow_Errors f)); ("timestamp", timeDoc (flow_Timestamp f))].

(** [http.ResponseWriter]: the headers, the status once written, and the body. *)
Record Response := { rsp_Header : gmap string string; rsp_Status : option Z; rsp_Body : string }.
Definition noResponse : Response := {| rsp_Header := ∅; rsp_Status := None; rsp_Body := "" |}.
Definition setHeader (k v : string) (r : Response) : Response :=
  {| rsp_Header := <[k := v]> (rsp_Header r); rsp_Status := rsp_Status r; rsp_Body := rsp_Body r |}.
Definition WriteHeader (code : Z) (r : Response) : Response :=
  {| rsp_Header := rsp_Header r; rsp_Status := Some (default code (rsp_Status r)); rsp_Body := rsp_Body r |}.
Definition Write (text : string) (r : Response) : Response :=
  let r := WriteHeader 200 r in
  {| rsp_Header := rsp_Header r; rsp_Status := rsp_Status r; rsp_Body := rsp_Body r +:+ text |}.
Definition newlineText : string := String "010" "".
(** [http.Error] *)
Definition httpError (message : string) (code : Z) (r : Response) : Response :=
  Write (message +:+ newlineText)
    (WriteHeader code (setHeader "X-Content-Type-Options" "nosniff"
                         (setHeader "Content-Type" "text/plain; charset=utf-8" r))).
(** [json.NewEncoder(w).Encode(v)], after the header of its type. *)
Definition sendJSON (d : doc) (r : Response) : Response :=
  Write (compact d +:+ newlineText) (setHeader "Content-Type" "application/json" r).

(** ** The handlers *)

(** [clientset]: a list call returns a list and an error, both possibly nil. *)
Class Cluster `{CoreV1} (W : Type) := {
  Pods_List : M W (option (list Pod) * option gerror);
  Services_List : M W (option (list Service) * option gerror);
  Nodes_List : M W (option (list Node) * option gerror);
  Namespaces_List : M W (option (list Namespace) * option gerror);
  (** The number of network policies. *)
  NetworkPolicies_List : M W (option nat * option gerror);
  Now : M W Time;
}.

Record Anomaly := {
  an_ID : string;
  an_Type : string;
  an_Severity : string;
  an_Description : string;
  an_AffectedPod : string;
  an_Metric : string;
  an_Baseline : string;
  an_Current : string;
  an_Timestamp : Time;
}.
Definition anomalyDoc (a : Anomaly) : doc :=
  DObject [("id", DString (an_ID a)); ("type", DString (an_Type a)); ("severity", DString (an_Severity a));
           ("description", DString (an_Description a)); ("affectedPod", DString (an_AffectedPod a));
           ("metric", DString (an_Metric a)); ("baseline", DNumber (an_Baseline a)); ("current", DNumber (an_Current a));
           ("timestamp", timeDoc (an_Timestamp a))].

Record Issue := {
  issue_ID : string;
  issue_Type : string;
  issue_Severity : string;
  issue_Title : string;
  issue_Description : string;
  issue_Remediation : string;
  issue_AffectedResources : list string;
}.
Definition issueDoc (i : Issue) : doc :=
  DObject [("id", DString (issue_ID i)); ("type", DString (issue_Type i)); ("severity", DString (issue_Severity i));
           ("title", DString (issue_Title i)); ("description", DString (issue_Description i));
           ("remediation", DString (issue_Remediation i));
           ("affectedResources", DArray (DString <$> issue_AffectedResources i))].

Section handlers.
Context `{CoreV1} {W : Type} `{!Cluster W}.

(** A handler, from the request's method and the response so far. *)
Definition Handler : Type := string -> Response -> M W Response.

Definition corsMiddleware (next : Handler) : Handler := fun method r =>
  let r := setHeader "Access-Control-Allow-Origin" "*" r in
  let r := setHeader "Access-Control-Allow-Methods" "GET, POST, OPTIONS" r in
  let r := setHeader "Access-Control-Allow-Headers" "Content-Type" r in
  if String.eqb method "OPTIONS" then ret (WriteHeader 200 r) else next method r.

(** [x, err := list; if err != nil { http.Error(w, err.Error(), 500); return }] *)
Definition listed {A} (c : M W (option A * option gerror)) (r : Response) (k : option A -> M W Response) : M W Response :=
  let! (items, err) := c in
  match err with
  | Some e => ret (httpError (Error e) 500 r)
  | None => k items
  end.

Definition getTopologyHandler : Handler := fun _ r =>
  listed Pods_List r (fun pods =>
  listed Services_List r (fun services =>
  listed Nodes_List r (fun nodes =>
  listed Namespaces_List r (fun namespaces =>
  let! namespaces := lift (deref namespaces) in
  let! nodes := lift (deref nodes) in
  let! services := lift (deref services) in
  let! pods := lift (deref pods) in
  let! now := Now in
  ret (sendJSON (topologyDoc (buildTopology pods services nodes namespaces now)) r))))).

Definition getFlowsHandler (flows : slice Flow) : Handler := fun _ r => ret (sendJSON (sliceDoc flowDoc flows) r).

(** The two sums of the flows. *)
Definition flowTotals (flows : slice Flow) : Z * Z :=
  fold_left (fun acc flow =>
    (wrapInt64 (fst acc + wrapInt64 (flow_BytesSent flow + flow_BytesReceived flow)),
     wrapInt64 (snd acc + wrapInt64 (flow_PacketsSent flow + flow_PacketsRecv flow)))) (elems flows) (0%Z, 0%Z).
Definition getFlowMetricsHandler (flows : slice Flow) : Handler := fun _ r =>
  let '(totalBytes, totalPackets) := flowTotals flows in
  let! now := Now in
  ret (sendJSON (mapDoc (list_to_map
    [("totalFlows", numberDoc (Z.of_nat (length (elems flows)))); ("totalBytes", numberDoc totalBytes);
     ("totalPackets", numberDoc totalPackets); ("timestamp", DString (RFC3339 now))])) r).

Definition getAnomaliesHandler : Handler := fun _ r => ret (sendJSON (sliceDoc anomalyDoc (Some [])) r).

Definition unmatchedIssue : Issue :=
  {| issue_ID := "issue-unmatched-pods"; issue_Type := "configuration"; issue_Severity := "low";
     issue_Title := "Pods without Services"; issue_Description := "Some pods are not exposed by any service";
     issue_Remediation := "Create services for pods that need to be accessible";
     issue_AffectedResources := ["Multiple pods"] |}.
Definition noPoliciesIssue : Issue :=
  {| issue_ID := "issue-no-network-policies"; issue_Type := "security"; issue_Severity := "medium";
     issue_Title := "No Network Policies Defined";
     issue_Description := "Cluster has no network policies, all traffic is allowed";
     issue_Remediation := "Implement network policies to restrict pod-to-pod traffic";
     issue_AffectedResources := ["Cluster-wide"] |}.

Definition exposes (pod : Pod) (svc : Service) : bool :=
  String.eqb (svc_Namespace svc) (pod_Namespace pod) && matchesSelector (pod_Labels pod) (svc_Selector svc).
Definition addUnmatched (services : list Service) (unmatchedPods : Z) (pod : Pod) : Z :=
  if String.eqb (pod_Namespace pod) "kube-system" then unmatchedPods
  else if existsb (exposes pod) services then unmatchedPods else wrapInt64 (unmatchedPods + 1).
Definition countUnmatched (pods : list Pod) (services : list Service) : Z :=
  fold_left (addUnmatched services) pods 0%Z.
Definition issuesOf (unmatchedPods : Z) (policies : nat) : list Issue :=
  (if (0 <? unmatchedPods)%Z then [unmatchedIssue] else []) ++ (if Nat.eqb policies 0 then [noPoliciesIssue] else []).

(** The errors of the list calls are dropped; [services] is looked at only in the
    loop over the pods. *)
Definition getIssuesHandler : Handler := fun _ r =>
  let! (pods, _) := Pods_List in
  let! (services, _) := Services_List in
  let! pods := lift (deref pods) in
  let! unmatchedPods :=
    if forallb (fun pod => String.eqb (pod_Namespace pod) "kube-system") pods then ret 0%Z
    else let! services := lift (deref services) in ret (countUnmatched pods services) in
  let! (policies, _) := NetworkPolicies_List in
  let! policies := lift (deref policies) in
  ret (sendJSON (DArray (issueDoc <$> issuesOf unmatchedPods policies)) r).

(** One tick of [collectFlows]: the flows that replace the current ones, none when
    the list call fails. *)
Fixpoint buildFlows (fuel : nat) (i : nat) (pods : list Pod) (newFlows : list Flow) : M W (list Flow) :=
  match fuel with
  | O => ret newFlows
  | S fuel' =>
      if Nat.ltb i (length pods) && Nat.ltb i 10 then
        match pods !! i with
        | None => lift Panic
        | Some pod =>
            if String.eqb (pod_Namespace pod) "kube-system" then buildFlows fuel' (S i) pods newFlows
            else let! now := Now in
                 buildFlows fuel' (S i) pods (newFlows ++ [flowOf (Z.of_nat i) pod now])
        end
      else ret newFlows
  end.
Definition collectTick (flows : slice Flow) : M W (slice Flow) :=
  let! (pods, err) := Pods_List in
  match err with
  | Some _ => ret flows
  | None => let! pods := lift (deref pods) in
            let! newFlows := buildFlows 11 0 pods [] in
            ret (Some newFlows)
  end.
End handlers.

(** ** Slices that grow *)

(** The slice that appending to nil gives. *)
Definition sliceOf {A} (l : list A) : slice A := match l with [] => None | _ => Some l end.
Definition extend {A} (s : slice A) (l : list A) : slice A := match l with [] => s | _ => Some (elems s ++ l) end.

Lemma append_extend {A} (s : slice A) l x : append (extend s l) x = extend s (l ++ [x]).
Proof.
  unfold append, extend. destruct l as [|y l]; simpl; [done|]. by rewrite <- (assoc_L (++)).
Qed.
Lemma extend_extend {A} (s : slice A) l1 l2 : extend (extend s l1) l2 = extend s (l1 ++ l2).
Proof.
  destruct l2 as [|x l2]; [by rewrite app_nil_r|]. destruct l1 as [|y l1]; [done|].
  simpl. by rewrite <- (assoc_L (++)).
Qed.
Lemma extend_None {A} (l : list A) : extend None l = sliceOf l.
Proof. by destruct l. Qed.
Lemma elems_sliceOf {A} (l : list A) : elems (sliceOf l) = l.
Proof. by destruct l. Qed.

(** A loop that appends what it computes from some elements. *)
Lemma fold_append_if {A B} (skip : A -> bool) (f : A -> B) l s :
  fold_left (fun acc x => if skip x then acc else append acc (f x)) l s
  = extend s (f <$> List.filter (fun x => negb (skip x)) l).
Proof.
  revert s. induction l as [|x l IH]; intros s; simpl; [done|]. rewrite IH. destruct (skip x); simpl; [done|].
  change (append s (f x)) with (extend s [f x]). by rewrite extend_extend.
Qed.
Lemma fold_append {A B} (f : A -> B) l s : fold_left (fun acc x => append acc (f x)) l s = extend s (f <$> l).
Proof.
  revert s. induction l as [|x l IH]; intros s; simpl; [done|]. rewrite IH.
  change (append s (f x)) with (extend s [f x]). by rewrite extend_extend.
Qed.

Lemma fold_left_ext {A B} (f g : B -> A -> B) l b : (forall b a, f b a = g b a) -> fold_left f l b = fold_left g l b.
Proof. intros Hfg. revert b. induction l as [|a l IH]; intros b; simpl; [done|]. by rewrite Hfg, IH. Qed.

(** ** What the graph has *)

Section graph.
Context `{CoreV1}.
Implicit Types (pods : list Pod) (services : list Service) (nodes : list Node) (namespaces : list Namespace).

Definition shown (ns : string) : bool := negb (systemNamespace ns).
Definition shownServices services : list Service := List.filter (fun svc => shown (svc_Namespace svc)) services.
Definition shownPods pods : list Pod := List.filter (fun pod => shown (pod_Namespace pod)) pods.

(** The edges of one pod, and the graph as a comprehension. *)
Definition podEdges services (pod : Pod) : list TopologyEdge :=
  (if String.eqb (pod_NodeName pod) "" then [] else [nodeEdge pod]) ++
  namespaceEdge pod :: ((fun svc => serviceEdge svc pod) <$> List.filter (exposes pod) services).
Definition graphNodes pods services nodes namespaces : list TopologyNode :=
  (namespaceNode <$> namespaces) ++ (kubeNode <$> nodes) ++ (serviceNode <$> shownServices services)
  ++ (podNode <$> shownPods pods).
Definition graphEdges pods services : list TopologyEdge := flat_map (podEdges services) (shownPods pods).

Lemma service_edges pod services s :
  fold_left (addServiceEdge pod) services s
  = extend s ((fun svc => serviceEdge svc pod) <$> List.filter (exposes pod) services).
Proof.
  rewrite (fold_left_ext _ (fun acc svc => if negb (exposes pod svc) then acc else append acc (serviceEdge svc pod))).
  - rewrite fold_append_if. f_equal. f_equal. apply filter_ext. intros svc. by rewrite negb_involutive.
  - intros acc svc. unfold addServiceEdge, exposes. destruct (String.eqb _ _); simpl; [|done].
    by destruct (matchesSelector _ _).
Qed.

Lemma addPod_shown services topologyNodes edges pod :
  addPod services (topologyNodes, edges) pod =
  if shown (pod_Namespace pod) then (extend topologyNodes [podNode pod], extend edges (podEdges services pod))
  else (topologyNodes, edges).
Proof.
  unfold addPod, shown. destruct (systemNamespace _); [done|]. simpl. f_equal.
  rewrite service_edges. unfold podEdges.
  destruct (String.eqb (pod_NodeName pod) ""); cbn [negb].
  - change (append edges (namespaceEdge pod)) with (extend edges [namespaceEdge pod]). by rewrite extend_extend.
  - change (append (append edges (nodeEdge pod)) (namespaceEdge pod))
      with (append (extend edges [nodeEdge pod]) (namespaceEdge pod)).
    by rewrite append_extend, extend_extend.
Qed.

Lemma pods_added services pods topologyNodes edges :
  fold_left (addPod services) pods (topologyNodes, edges) =
  (extend topologyNodes (podNode <$> shownPods pods), extend edges (graphEdges pods services)).
Proof.
  revert topologyNodes edges. induction pods as [|pod pods IH]; intros topologyNodes edges; [done|].
  cbn [fold_left]. rewrite addPod_shown. unfold graphEdges, shownPods in *. cbn [List.filter].
  destruct (shown (pod_Namespace pod)); rewrite IH; [|done]. cbn [flat_map fmap list_fmap].
  rewrite !extend_extend. done.
Qed.

(** The loops build the comprehension; a graph without nodes, or without edges, is the
    nil slice. *)
Lemma buildTopology_graph pods services nodes namespaces now :
  buildTopology pods services nodes namespaces now =
  {| tr_Nodes := sliceOf (graphNodes pods services nodes namespaces);
     tr_Edges := sliceOf (graphEdges pods services); tr_Timestamp := RFC3339 now |}.
Proof.
  unfold buildTopology. rewrite !fold_append, fold_append_if, pods_added. cbv beta iota.
  rewrite !extend_extend, !extend_None. unfold graphNodes. by rewrite ?(assoc_L (++)).
Qed.

Lemma elem_graphEdges pods services e :
  e ∈ graphEdges pods services <->
  exists pod, pod ∈ pods /\ shown (pod_Namespace pod) = true /\
    ((e = nodeEdge pod /\ pod_NodeName pod <> "") \/ e = namespaceEdge pod \/
     exists svc, svc ∈ services /\ exposes pod svc = true /\ e = serviceEdge svc pod).
Proof.
  unfold graphEdges. rewrite list_elem_of_In, in_flat_map. setoid_rewrite <- list_elem_of_In.
  unfold shownPods. setoid_rewrite elem_filter. unfold podEdges. setoid_rewrite elem_of_app.
  setoid_rewrite elem_of_cons. setoid_rewrite list_elem_of_fmap. setoid_rewrite elem_filter.
  split.
  - intros (pod & [Hin Hs] & Hc). exists pod. split; [done|]. split; [done|].
    destruct Hc as [Hc|Hc]; [|naive_solver]. left.
    destruct (String.eqb_spec (pod_NodeName pod) ""); [by apply elem_of_nil in Hc|].
    by apply list_elem_of_singleton in Hc.
  - intros (pod & Hin & Hs & Hc). exists pod. split; [done|]. destruct Hc as [[-> Hn]|Hc]; [left|naive_solver].
    apply String.eqb_neq in Hn. rewrite Hn. by apply list_elem_of_singleton.
Qed.
Lemma elem_graphNodes pods services nodes namespaces n :
  n ∈ graphNodes pods services nodes namespaces <->
  (exists ns, n = namespaceNode ns /\ ns ∈ namespaces) \/ (exists node, n = kubeNode node /\ node ∈ nodes) \/
  (exists svc, n = serviceNode svc /\ svc ∈ services /\ shown (svc_Namespace svc) = true) \/
  (exists pod, n = podNode pod /\ pod ∈ pods /\ shown (pod_Namespace pod) = true).
Proof.
  unfold graphNodes, shownServices, shownPods. rewrite !elem_of_app, !list_elem_of_fmap.
  setoid_rewrite elem_filter. done.
Qed.

(** A cluster whose references are those the API server keeps: a pod is in a
    namespace of the cluster and, once scheduled, on a node of it. *)
Definition consistent pods nodes namespaces : Prop :=
  forall pod, pod ∈ pods ->
    (exists ns, ns ∈ namespaces /\ ns_Name ns = pod_Namespace pod) /\
    (pod_NodeName pod = "" \/ exists node, node ∈ nodes /\ node_Name node = pod_NodeName pod).

(** The graph of a consistent cluster has no dangling edges: source and target of
    every edge are the identifiers of nodes of the graph.  An edge of a service and a
    pod is there exactly for the services that select the pod, in its namespace. *)
Theorem topology_edges pods services nodes namespaces now :
  consistent pods nodes namespaces ->
  let graph := buildTopology pods services nodes namespaces now in
  (forall e, e ∈ elems (tr_Edges graph) ->
     exists s t, s ∈ elems (tr_Nodes graph) /\ t ∈ elems (tr_Nodes graph) /\
                 te_Source e = tn_ID s /\ te_Target e = tn_ID t) /\
  (forall e, e ∈ elems (tr_Edges graph) /\ te_Type e = "service-to-pod" <->
     exists svc pod, svc ∈ services /\ pod ∈ pods /\ shown (pod_Namespace pod) = true /\
       exposes pod svc = true /\ e = serviceEdge svc pod).
Proof.
  intros Hc graph. unfold graph. rewrite buildTopology_graph. simpl. rewrite !elems_sliceOf. split.
  - intros e (pod & Hin & Hs & He)%elem_graphEdges. setoid_rewrite elem_graphNodes.
    destruct (Hc pod Hin) as [(ns & Hns & Hname) Hnode].
    destruct He as [[-> Hn]|[->|(svc & Hsvc & Hx & ->)]].
    + destruct Hnode as [?|(node & Hnd & Hnn)]; [done|].
      exists (podNode pod), (kubeNode node). simpl. rewrite Hnn. naive_solver.
    + exists (namespaceNode ns), (podNode pod). simpl. rewrite Hname. naive_solver.
    + exists (serviceNode svc), (podNode pod). split; [|naive_solver]. right. right. left. exists svc.
      unfold exposes in Hx. apply andb_true_iff in Hx as [->%String.eqb_eq _]. done.
  - intros e. rewrite elem_graphEdges. split.
    + intros [(pod & Hin & Hs & [[-> _]|[->|(svc & Hsvc & Hx & ->)]]) Ht]; [done|done|]. by exists svc, pod.
    + intros (svc & pod & Hsvc & Hin & Hs & Hx & ->). split; [|done]. exists pod. naive_solver.
Qed.
End graph.

(** ** Selectors, statuses and identifiers *)

(** For a selector without empty values [matchesSelector] is Kubernetes' own matching:
    a selector that is not empty and is part of the labels. *)
Theorem matchesSelector_subset labels selector :
  map_Forall (fun _ v => v <> "") (default ∅ selector) ->
  matchesSelector labels selector =
  bool_decide (default ∅ selector <> ∅ /\ default ∅ selector ⊆ default ∅ labels).
Proof.
  intros Hne. unfold matchesSelector. apply eq_iff_eq_true. rewrite bool_decide_eq_true.
  case_bool_decide as He; [naive_solver|]. rewrite forallb_forall. setoid_rewrite <- list_elem_of_In.
  rewrite map_subseteq_spec. split.
  - intros Hall. split; [done|]. intros k v Hk. specialize (Hall (k, v)).
    rewrite elem_of_map_to_list in Hall. specialize (Hall Hk). simpl in Hall. apply String.eqb_eq in Hall.
    unfold at_key in Hall. destruct (default ∅ labels !! k); simpl in *; [by subst|]. by apply Hne in Hk.
  - intros [_ Hsub] [k v] Hk%elem_of_map_to_list. simpl. apply String.eqb_eq. unfold at_key. by rewrite (Hsub k v Hk).
Qed.

(** A label that is missing counts as an empty one: a selector that asks for an empty
    value selects pods without the label. *)
Theorem matchesSelector_missing_label : matchesSelector None (Some {["tier" := ""]}) = true.
Proof. reflexivity. Qed.

Lemma fold_last_write {A} (p : A -> bool) (x : string) l s :
  fold_left (fun status a => if p a then x else status) l s = if existsb p l then x else s.
Proof.
  revert s. induction l as [|a l IH]; intros s; simpl; [done|]. rewrite IH.
  destruct (p a); simpl; [by destruct (existsb p l)|done].
Qed.

Section statuses.
Context `{CoreV1}.

(** A node has failed when a condition says it is not ready; a pod when a container is
    not ready, and is degraded when it is not running. *)
Theorem statuses (node : Node) (pod : Pod) :
  nodeStatus node =
    (if existsb (fun c => String.eqb (fst (fst c)) "Ready" && negb (String.eqb (snd (fst c)) "True"))
          (node_Conditions node) then "failed" else "healthy") /\
  podStatus pod =
    (if existsb (fun cs => negb (cs_Ready cs)) (pod_ContainerStatuses pod) then "failed"
     else if String.eqb (pod_Phase pod) "Running" then "healthy" else "degraded").
Proof.
  unfold nodeStatus, podStatus. split; [apply fold_last_write|].
  rewrite (fold_left_ext _ (fun status cs => if negb (cs_Ready cs) then "failed" else status)).
  - apply fold_last_write.
  - intros s cs. by destruct (cs_Ready cs).
Qed.

Definition podNamed (ns name : string) : Pod :=
  {| pod_Name := name; pod_Namespace := ns; pod_Labels := None; pod_NodeName := ""; pod_Containers := [];
     pod_Phase := "Running"; pod_PodIP := ""; pod_ContainerStatuses := [] |}.

(** Identifiers are not unique: the parts are joined by a character that names may
    have, so that pods of different namespaces share a node of the graph. *)
Theorem pod_ids_collide :
  podID (podNamed "team-a" "web") = podID (podNamed "team" "a-web") /\
  podNamed "team-a" "web" <> podNamed "team" "a-web".
Proof. split; [reflexivity|done]. Qed.
End statuses.

(** ** The flows *)

Lemma wrapInt64_small z : (int64_min <= z <= int64_max)%Z -> wrapInt64 z = z.
Proof. unfold wrapInt64, int64_min, int64_max. intros Hz. rewrite Z.mod_small; lia. Qed.

(** A flow as the collector makes them. *)
Definition smallFlow (f : Flow) : Prop :=
  exists i : Z, (0 <= i < 10)%Z /\ flow_BytesSent f = (1000 + i * 100)%Z /\ flow_BytesReceived f = (500 + i * 50)%Z /\
    flow_PacketsSent f = (10 + i)%Z /\ flow_PacketsRecv f = (5 + i)%Z.
Definition sumOf (f : Flow -> Z) (l : list Flow) : Z := fold_left (fun acc x => acc + f x)%Z l 0%Z.
Definition flowBytes (f : Flow) : Z := (flow_BytesSent f + flow_BytesReceived f)%Z.
Definition flowPackets (f : Flow) : Z := (flow_PacketsSent f + flow_PacketsRecv f)%Z.

Lemma sumOf_bounds (P : Flow -> Prop) f c l :
  Forall P l -> (forall x, P x -> (0 <= f x <= c)%Z) -> (0 <= sumOf f l <= c * Z.of_nat (length l))%Z.
Proof.
  intros Hl Hf. unfold sumOf.
  assert (Hb : forall b, (b <= fold_left (fun acc x => acc + f x) l b <= b + c * Z.of_nat (length l))%Z); [|apply (Hb 0%Z)].
  induction Hl as [|x l Hx _ IH]; intros b; cbn [fold_left length]; [lia|].
  specialize (IH (b + f x)%Z). specialize (Hf x Hx). lia.
Qed.

Lemma totals_small l b p :
  Forall smallFlow l -> (0 <= b)%Z -> (0 <= p)%Z ->
  (b + 2850 * Z.of_nat (length l) <= int64_max)%Z -> (p + 33 * Z.of_nat (length l) <= int64_max)%Z ->
  fold_left (fun acc flow =>
    (wrapInt64 (fst acc + wrapInt64 (flow_BytesSent flow + flow_BytesReceived flow)),
     wrapInt64 (snd acc + wrapInt64 (flow_PacketsSent flow + flow_PacketsRecv flow)))) l (b, p)
  = (fold_left (fun acc f => acc + flowBytes f)%Z l b, fold_left (fun acc f => acc + flowPackets f)%Z l p).
Proof.
  intros Hl. revert b p. induction Hl as [|f l (i & Hi & E1 & E2 & E3 & E4) _ IH]; intros b p Hb Hp Hb' Hp'; [done|].
  cbn [fold_left length fst snd] in *. unfold int64_max in *.
  rewrite !wrapInt64_small by (rewrite ?wrapInt64_small; unfold int64_min, int64_max; lia).
  unfold flowBytes at 2, flowPackets at 2. apply IH; lia.
Qed.

Section collector.
Context `{CoreV1} {W : Type} `{!Cluster W}.

Definition collected (pod : Pod) : bool := negb (String.eqb (pod_Namespace pod) "kube-system").
Definition sources (l : list Flow) : list (string * string) := (fun f => (flow_SourceNS f, flow_SourcePod f)) <$> l.
Definition names (pods : list Pod) : list (string * string) := (fun p => (pod_Namespace p, pod_Name p)) <$> pods.

(** The fuel is enough, and no index is out of range: the loop ends with a flow for
    each pod that is not of the system among the first ten. *)
Lemma buildFlows_runs (P : W -> Prop) fuel i pods acc w :
  succeeds P Now -> P w -> (10 < fuel + i)%nat ->
  exists l w', buildFlows fuel i pods acc w = (Ok (acc ++ l), w') /\ P w' /\
    sources l = names (List.filter collected (drop i (take 10 pods))) /\ Forall smallFlow l.
Proof.
  intros HNow. revert i acc w. induction fuel as [|fuel IH]; intros i acc w Hw Hf.
  { exists [], w. simpl. rewrite app_nil_r, drop_ge by (rewrite length_take; lia). done. }
  cbn [buildFlows]. destruct (Nat.ltb i (length pods) && Nat.ltb i 10) eqn:Hi.
  2:{ exists [], w. rewrite app_nil_r, drop_ge; [done|]. rewrite length_take.
      apply andb_false_iff in Hi as [Hi|Hi]; apply Nat.ltb_ge in Hi; lia. }
  apply andb_true_iff in Hi as [Hi1%Nat.ltb_lt Hi2%Nat.ltb_lt].
  destruct (lookup_lt_is_Some_2 pods i Hi1) as [pod Hpod]. rewrite Hpod.
  assert (Hdrop : drop i (take 10 pods) = pod :: drop (S i) (take 10 pods)).
  { apply drop_S. by rewrite lookup_take_lt. }
  rewrite Hdrop. cbn [List.filter]. unfold collected at 1.
  destruct (String.eqb (pod_Namespace pod) "kube-system"); cbn [negb].
  { apply IH; [done|lia]. }
  destruct (HNow w Hw) as (now & w1 & E & Hw1). rewrite (bind_Ok _ _ _ _ _ E).
  destruct (IH (S i) (acc ++ [flowOf (Z.of_nat i) pod now]) w1 Hw1 ltac:(lia)) as (l & w' & E' & Hw' & Hl & Hsmall).
  exists (flowOf (Z.of_nat i) pod now :: l), w'.
  rewrite E', <- (assoc_L (++)). split; [done|]. split; [done|]. split; [cbn; by f_equal|].
  constructor; [|done]. exists (Z.of_nat i). unfold flowOf; cbn [flow_BytesSent flow_BytesReceived flow_PacketsSent flow_PacketsRecv].
  rewrite !wrapInt64_small by (unfold int64_min, int64_max; lia). split; [lia|done].
Qed.

(** A tick whose list call succeeds ends and replaces the flows by one flow for
    each pod that is not of the system among the first ten, in their order; the sums
    that the metrics report for them are exact, without overflow, and bounded.  After
    a failed list call the flows are as before. *)
Theorem collectTick_flows (P : W -> Prop) (flows : slice Flow) pods err w w1 :
  succeeds P Now -> P w1 -> Pods_List w = (Ok (Some pods, err), w1) ->
  match err with
  | Some _ => collectTick flows w = (Ok flows, w1)
  | None => exists l w', collectTick flows w = (Ok (Some l), w') /\
      sources l = names (List.filter collected (take 10 pods)) /\
      flowTotals (Some l) = (sumOf flowBytes l, sumOf flowPackets l) /\
      (0 <= sumOf flowBytes l <= 28500)%Z /\ (0 <= sumOf flowPackets l <= 330)%Z
  end.
Proof.
  intros HNow Hw1 Hlist. unfold collectTick. destruct err as [e|]; [by rewrite (bind_Ok _ _ _ _ _ Hlist)|].
  rewrite (bind_Ok _ _ _ _ _ Hlist). cbv beta iota. rewrite (bind_Ok _ _ _ pods w1) by done.
  destruct (buildFlows_runs P 11 0 pods [] w1 HNow Hw1 ltac:(lia)) as (l & w' & E & _ & Hs & Hsmall).
  rewrite (bind_Ok _ _ _ _ _ E). exists l, w'. split; [done|]. split; [done|].
  assert (Hlen : (length l <= 10)%nat).
  { assert (Hsl : length (sources l) = length l) by apply length_fmap. rewrite <- Hsl, Hs. unfold names.
    rewrite length_fmap. etransitivity; [apply filter_length_le|]. rewrite drop_0, length_take. lia. }
  split; [apply totals_small; unfold int64_max; [done|simpl; lia..]|].
  assert (0 <= sumOf flowBytes l <= 2850 * Z.of_nat (length l))%Z.
  { apply sumOf_bounds with (1 := Hsmall). intros x (i & Hi & E1 & E2 & _). unfold flowBytes. lia. }
  assert (0 <= sumOf flowPackets l <= 33 * Z.of_nat (length l))%Z.
  { apply sumOf_bounds with (1 := Hsmall). intros x (i & Hi & _ & _ & E3 & E4). unfold flowPackets. lia. }
  lia.
Qed.

(** ** The issues and the answers *)

(** The first error of some calls. *)
Definition first_some (l : list (option gerror)) : option gerror :=
  foldr (fun e rest => match e with Some _ => e | None => rest end) None l.

Lemma countUnmatched_pos pods services :
  (Z.of_nat (length pods) <= int64_max)%Z ->
  (0 <? countUnmatched pods services)%Z =
  existsb (fun pod => collected pod && negb (existsb (exposes pod) services)) pods.
Proof.
  intros Hlen. unfold countUnmatched.
  assert (Hgen : forall pods n, (0 <= n)%Z -> (n + Z.of_nat (length pods) <= int64_max)%Z ->
    (0 <? fold_left (addUnmatched services) pods n)%Z
    = (0 <? n)%Z || existsb (fun pod => collected pod && negb (existsb (exposes pod) services)) pods).
  { clear. induction pods as [|pod pods IH]; intros n Hn Hl; cbn [fold_left existsb length] in *; [by rewrite orb_false_r|].
    unfold collected at 1, addUnmatched at 2. destruct (String.eqb _ _); cbn [negb andb orb]; [apply IH; lia|].
    destruct (existsb (exposes pod) services); cbn [negb andb orb]; [apply IH; lia|].
    rewrite wrapInt64_small by (unfold int64_min; lia). rewrite IH by lia. rewrite orb_true_r.
    by replace (0 <? n + 1)%Z with true by lia. }
  by rewrite Hgen by lia.
Qed.

Lemma countUnmatched_system pods services :
  forallb (fun pod => String.eqb (pod_Namespace pod) "kube-system") pods = true -> countUnmatched pods services = 0%Z.
Proof.
  unfold countUnmatched. induction pods as [|pod pods IH]; cbn [forallb fold_left]; [done|].
  intros [Hpod Hpods]%andb_true_iff. unfold addUnmatched at 2. rewrite Hpod. by apply IH.
Qed.

(** The issues are reported exactly: pods outside the system that no service of their
    namespace selects, and a cluster without network policies. *)
Theorem issues_reported r pods services policies e1 e2 e3 w w1 w2 w3 method :
  Pods_List w = (Ok (Some pods, e1), w1) -> Services_List w1 = (Ok (Some services, e2), w2) ->
  NetworkPolicies_List w2 = (Ok (Some policies, e3), w3) -> (Z.of_nat (length pods) <= int64_max)%Z ->
  exists issues,
    getIssuesHandler method r w = (Ok (sendJSON (DArray (issueDoc <$> issues)) r), w3) /\
    (unmatchedIssue ∈ issues <->
     exists pod, pod ∈ pods /\ pod_Namespace pod <> "kube-system" /\ existsb (exposes pod) services = false) /\
    (noPoliciesIssue ∈ issues <-> policies = 0%nat).
Proof.
  intros Hp Hs Hn Hlen. exists (issuesOf (countUnmatched pods services) policies). split; [|split].
  - unfold getIssuesHandler. rewrite (bind_Ok _ _ _ _ _ Hp). cbv beta iota. rewrite (bind_Ok _ _ _ _ _ Hs).
    cbv beta iota. rewrite (bind_Ok _ _ _ pods w2) by done.
    rewrite (bind_Ok _ _ w2 (countUnmatched pods services) w2).
    2:{ destruct (forallb _ pods) eqn:Hall; [|done]. by rewrite countUnmatched_system. }
    rewrite (bind_Ok _ _ _ _ _ Hn). done.
  - unfold issuesOf. rewrite countUnmatched_pos by done. rewrite elem_of_app.
    transitivity (existsb (fun pod => collected pod && negb (existsb (exposes pod) services)) pods = true).
    + destruct (existsb _ pods); [split; [done|]; intros _; left; by apply list_elem_of_singleton|].
      split; [|done]. intros [Hx%elem_of_nil|Hx]; [done|]. case_match; [|by apply elem_of_nil in Hx].
      by apply list_elem_of_singleton in Hx.
    + rewrite existsb_true_elem. unfold collected. setoid_rewrite andb_true_iff. setoid_rewrite negb_true_iff.
      setoid_rewrite String.eqb_neq. done.
  - unfold issuesOf. rewrite elem_of_app. destruct (Nat.eqb_spec policies 0) as [->|Hne].
    + split; [done|]. intros _. right. by apply list_elem_of_singleton.
    + split; [|done]. intros [Hx|Hx%elem_of_nil]; [|done]. case_match; [|by apply elem_of_nil in Hx].
      by apply list_elem_of_singleton in Hx.
Qed.

(** Before the first tick, and in a cluster without pods to show, null is sent in place
    of an empty list. *)
Theorem nil_sends_null method (w : W) services nodes namespaces now :
  getFlowsHandler None method noResponse w =
    (Ok {| rsp_Header := {["Content-Type" := "application/json"]}; rsp_Status := Some 200%Z;
           rsp_Body := "null" +:+ newlineText |}, w) /\
  sliceDoc edgeDoc (tr_Edges (buildTopology [] services nodes namespaces now)) = DNull.
Proof. split; [reflexivity|]. by rewrite buildTopology_graph. Qed.

(** A list call that fails ends the request with its text and status 500, whatever the
    calls after it would do. *)
Theorem topology_list_error method r pods services nodes namespaces e1 e2 e3 e4 w w1 w2 w3 w4 :
  Pods_List w = (Ok (pods, e1), w1) -> Services_List w1 = (Ok (services, e2), w2) ->
  Nodes_List w2 = (Ok (nodes, e3), w3) -> Namespaces_List w3 = (Ok (namespaces, e4), w4) ->
  match first_some [e1; e2; e3; e4] with
  | Some e => exists w', getTopologyHandler method r w = (Ok (httpError (Error e) 500 r), w')
  | None => True
  end.
Proof.
  intros H1 H2 H3 H4. unfold getTopologyHandler, listed. rewrite (bind_Ok _ _ _ _ _ H1). cbv beta iota.
  destruct e1 as [e|]; [by eexists|]. rewrite (bind_Ok _ _ _ _ _ H2). cbv beta iota.
  destruct e2 as [e|]; [by eexists|]. rewrite (bind_Ok _ _ _ _ _ H3). cbv beta iota.
  destruct e3 as [e|]; [by eexists|]. rewrite (bind_Ok _ _ _ _ _ H4). cbv beta iota.
  destruct e4 as [e|]; [by eexists|done].
Qed.
End collector.
