(* ===== verification/VisualizerFlows.v ===== *)
(** * The flows shared by the visualizer's goroutines ([network-visualizer/backend/main.go])

    The collector replaces the global [flows] under the write lock; the handlers read
    it under the read lock, and the web socket's handler goes on reading the slice
    after it has released the lock.  The goroutines interleave as steps on a store of
    arrays, in which [append] writes in place while there is room and moves to a new
    array otherwise.  No step races with another, and whatever is sent is a list the
    collector has published. *)

From stdpp Require Import base tactics list strings gmap sets.
From Stdlib Require Import ZArith Lia.
From S2P Require Import Prelude GoStrings Visualizer.

Open Scope list_scope.

(** ** Memory *)

(** A slice that is not nil: its array and its length; the capacity is the array's. *)
Record header := { h_array : nat; h_len : nat }.

(** The elements of a slice. *)
Definition contents (m : gmap nat (list Flow)) (h : header) : list Flow := take (h_len h) (default [] (m !! h_array h)).
Definition contentsOf (m : gmap nat (list Flow)) (s : option header) : slice Flow := contents m <$> s.

(** ** The goroutines *)

(** The collector at work on a list: what is still to be appended to [newFlows]; then
    [flows = newFlows] between [Lock] and [Unlock]. *)
Inductive collector :=
| CWait
| CBuild (l todo : list Flow) (newFlows : header)
| CAssign (l : list Flow) (newFlows : header)
| CUnlock.

(** A handler: [getFlowsHandler] and [getFlowMetricsHandler] read the elements while
    they hold the lock, [flowsWebSocketHandler] after [data := flows] and the release. *)
Inductive handler := HTTP | WebSocket.
Inductive reader :=
| RLocked (k : handler)
| RData (data : option header)
| RReading (k : handler) (data : option header) (got : list Flow).

Record state := {
  st_arrays : gmap nat (list Flow);
  st_flows : option header;
  (** [flowsLock]: whether it is held for writing, and who holds it for reading. *)
  st_writer : bool;
  st_readers : gset nat;
  st_collector : collector;
  st_threads : gmap nat reader;
  (** What the collector has published, starting with nil, and what was sent. *)
  st_published : list (slice Flow);
  st_sent : list (slice Flow);
}.
Definition initial : state :=
  {| st_arrays := ∅; st_flows := None; st_writer := false; st_readers := ∅; st_collector := CWait; st_threads := ∅;
     st_published := [None]; st_sent := [] |}.

Definition lenOf (s : option header) : nat := match s with Some h => h_len h | None => 0 end.
(** What the reader of all elements of a slice sends. *)
Definition sentOf (s : option header) (got : list Flow) : slice Flow := match s with Some _ => Some got | None => None end.

Definition collectorStep (st : state) (m : gmap nat (list Flow)) (c : collector) : state :=
  {| st_arrays := m; st_flows := st_flows st; st_writer := st_writer st; st_readers := st_readers st;
     st_collector := c; st_threads := st_threads st; st_published := st_published st; st_sent := st_sent st |}.
Definition withLock (st : state) (writer : bool) (c : collector) : state :=
  {| st_arrays := st_arrays st; st_flows := st_flows st; st_writer := writer; st_readers := st_readers st;
     st_collector := c; st_threads := st_threads st; st_published := st_published st; st_sent := st_sent st |}.
Definition readerStep (st : state) (readers : gset nat) (threads : gmap nat reader) : state :=
  {| st_arrays := st_arrays st; st_flows := st_flows st; st_writer := st_writer st; st_readers := readers;
     st_collector := st_collector st; st_threads := threads; st_published := st_published st; st_sent := st_sent st |}.
Definition assigned (st : state) (l : list Flow) (newFlows : header) : state :=
  {| st_arrays := st_arrays st; st_flows := Some newFlows; st_writer := st_writer st; st_readers := st_readers st;
     st_collector := CUnlock; st_threads := st_threads st; st_published := st_published st ++ [Some l];
     st_sent := st_sent st |}.
Definition sending (st : state) (readers : gset nat) (t : nat) (x : slice Flow) : state :=
  {| st_arrays := st_arrays st; st_flows := st_flows st; st_writer := st_writer st; st_readers := readers;
     st_collector := st_collector st; st_threads := delete t (st_threads st); st_published := st_published st;
     st_sent := st_sent st ++ [x] |}.

Definition keepsLock (k : handler) : bool := match k with HTTP => true | WebSocket => false end.

Section steps.
(** The lists a tick can make. *)
Context (produced : list Flow -> Prop).

Inductive step (st : state) : state -> Prop :=
(** [newFlows := []Flow{}] *)
| step_tick l a :
    st_collector st = CWait -> produced l -> st_arrays st !! a = None ->
    step st (collectorStep st (<[a := []]> (st_arrays st)) (CBuild l l {| h_array := a; h_len := 0 |}))
(** [newFlows = append(newFlows, flow)] with room in the array, and without. *)
| step_append l f todo a len cells :
    st_collector st = CBuild l (f :: todo) {| h_array := a; h_len := len |} ->
    st_arrays st !! a = Some cells -> len < length cells ->
    step st (collectorStep st (<[a := <[len := f]> cells]> (st_arrays st)) (CBuild l todo {| h_array := a; h_len := S len |}))
| step_grow l f todo a len cells a' room :
    st_collector st = CBuild l (f :: todo) {| h_array := a; h_len := len |} ->
    st_arrays st !! a = Some cells -> len = length cells -> st_arrays st !! a' = None ->
    step st (collectorStep st (<[a' := cells ++ f :: room]> (st_arrays st)) (CBuild l todo {| h_array := a'; h_len := S len |}))
(** [flowsLock.Lock()], [flows = newFlows], [flowsLock.Unlock()] *)
| step_lock l newFlows :
    st_collector st = CBuild l [] newFlows -> st_writer st = false -> st_readers st = ∅ ->
    step st (withLock st true (CAssign l newFlows))
| step_assign l newFlows :
    st_collector st = CAssign l newFlows -> step st (assigned st l newFlows)
| step_unlock :
    st_collector st = CUnlock -> step st (withLock st false CWait)
(** [flowsLock.RLock()] *)
| step_rlock t k :
    st_threads st !! t = None -> st_writer st = false ->
    step st (readerStep st ({[t]} ∪ st_readers st) (<[t := RLocked k]> (st_threads st)))
(** Reading [flows]. *)
| step_range t :
    st_threads st !! t = Some (RLocked HTTP) ->
    step st (readerStep st (st_readers st) (<[t := RReading HTTP (st_flows st) []]> (st_threads st)))
| step_data t :
    st_threads st !! t = Some (RLocked WebSocket) ->
    step st (readerStep st (st_readers st) (<[t := RData (st_flows st)]> (st_threads st)))
(** [flowsLock.RUnlock()] of the web socket's handler. *)
| step_runlock t data :
    st_threads st !! t = Some (RData data) ->
    step st (readerStep st (st_readers st ∖ {[t]}) (<[t := RReading WebSocket data []]> (st_threads st)))
(** Reading one element. *)
| step_elem t k h got cells f :
    st_threads st !! t = Some (RReading k (Some h) got) -> length got < h_len h ->
    st_arrays st !! h_array h = Some cells -> cells !! length got = Some f ->
    step st (readerStep st (st_readers st) (<[t := RReading k (Some h) (got ++ [f])]> (st_threads st)))
(** All elements are read: the text is sent, and the lock released if it is held. *)
| step_send t k data got :
    st_threads st !! t = Some (RReading k data got) -> length got = lenOf data ->
    step st (sending st (if keepsLock k then st_readers st ∖ {[t]} else st_readers st) t (sentOf data got)).

Inductive reachable : state -> Prop :=
| reachable_initial : reachable initial
| reachable_step st st' : reachable st -> step st st' -> reachable st'.

(** ** The invariant *)

Definition holds (r : reader) : bool :=
  match r with RLocked _ | RData _ => true | RReading k _ _ => keepsLock k end.
Definition dataOf (r : reader) : option header :=
  match r with RLocked _ => None | RData data | RReading _ data _ => data end.
Definition writing (c : collector) : bool := match c with CAssign _ _ | CUnlock => true | _ => false end.

(** A slice that is not written any more: the collector does not append to its array,
    its elements are there, and they were published. *)
Definition building (c : collector) (a : nat) : Prop :=
  match c with CBuild _ _ h => h_array h = a | CAssign _ h => h_array h = a | _ => False end.
Definition shared (st : state) (s : option header) : Prop :=
  contentsOf (st_arrays st) s ∈ st_published st /\
  match s with
  | None => True
  | Some h => ~ building (st_collector st) (h_array h) /\
              exists cells, st_arrays st !! h_array h = Some cells /\ h_len h <= length cells
  end.
(** The collector's own slice holds what was appended so far. *)
Definition ownSlice (m : gmap nat (list Flow)) (l todo : list Flow) (h : header) : Prop :=
  produced l /\ contents m h ++ todo = l /\ exists cells, m !! h_array h = Some cells /\ h_len h <= length cells.
Definition collectorOk (m : gmap nat (list Flow)) (c : collector) : Prop :=
  match c with
  | CBuild l todo h => ownSlice m l todo h
  | CAssign l h => ownSlice m l [] h
  | _ => True
  end.
Definition readerOk (st : state) (t : nat) (r : reader) : Prop :=
  (t ∈ st_readers st <-> holds r = true) /\
  match r with
  | RLocked _ => True
  | RData data => shared st data
  | RReading _ data got => shared st data /\ got = take (length got) (elems (contentsOf (st_arrays st) data))
  end.

Record invariant (st : state) : Prop := {
  inv_writer : st_writer st = writing (st_collector st);
  inv_exclusive : st_writer st = true -> st_readers st = ∅;
  inv_holders : forall t, t ∈ st_readers st -> is_Some (st_threads st !! t);
  inv_flows : shared st (st_flows st);
  inv_collector : collectorOk (st_arrays st) (st_collector st);
  inv_threads : map_Forall (readerOk st) (st_threads st);
  inv_published : forall l, Some l ∈ st_published st -> produced l;
  inv_sent : forall x, x ∈ st_sent st -> x ∈ st_published st;
}.

(** ** Its preservation *)

(** A change that leaves the arrays the collector does not build alone. *)
Record frame (st st' : state) : Prop := {
  frame_published : forall x, x ∈ st_published st -> x ∈ st_published st';
  frame_arrays : forall a, is_Some (st_arrays st !! a) -> ~ building (st_collector st) a ->
    st_arrays st' !! a = st_arrays st !! a;
  frame_building : forall a, building (st_collector st') a ->
    building (st_collector st) a \/ st_arrays st !! a = None;
}.

Lemma frame_contents st st' s : frame st st' -> shared st s -> contentsOf (st_arrays st') s = contentsOf (st_arrays st) s.
Proof.
  intros Hf [_ Hs]. destruct s as [h|]; [|done]. destruct Hs as [Hb (cells & Hc & _)]. unfold contentsOf, contents. simpl.
  by rewrite (frame_arrays _ _ Hf) by eauto.
Qed.
Lemma frame_shared st st' s : frame st st' -> shared st s -> shared st' s.
Proof.
  intros Hf Hs. split.
  - rewrite (frame_contents _ _ _ Hf Hs). apply (frame_published _ _ Hf), Hs.
  - destruct s as [h|]; [|done]. destruct Hs as [_ [Hb (cells & Hc & Hl)]]. split.
    + intros [Hx|Hx]%(frame_building _ _ Hf); [done|congruence].
    + exists cells. by rewrite (frame_arrays _ _ Hf) by eauto.
Qed.
Lemma frame_reader st st' t r :
  frame st st' -> (t ∈ st_readers st' <-> t ∈ st_readers st) -> readerOk st t r -> readerOk st' t r.
Proof.
  intros Hf Ht [Hh Hr]. split; [by rewrite Ht|]. destruct r as [k|data|k data got]; [done|by eapply frame_shared|].
  destruct Hr as [Hs Hg]. split; [by eapply frame_shared|]. by rewrite (frame_contents _ _ _ Hf Hs).
Qed.

(** A step of the collector that takes no lock. *)
Lemma collector_step_inv st m c :
  invariant st -> frame st (collectorStep st m c) -> collectorOk m c -> writing c = writing (st_collector st) ->
  invariant (collectorStep st m c).
Proof.
  intros [Hw Hx Hh Hfl _ Ht Hp Hs] Hf Hc Hcw. split; simpl; try done.
  - by rewrite Hcw.
  - by apply (frame_shared st).
  - intros t r Hr. apply (frame_reader st); [done|done|]. by apply Ht.
Qed.

Lemma frame_same st st' :
  st_arrays st' = st_arrays st -> (forall x, x ∈ st_published st -> x ∈ st_published st') ->
  (forall a, building (st_collector st') a -> building (st_collector st) a) -> frame st st'.
Proof. intros Ha Hp Hb. split; [done|intros; by rewrite Ha|by left; apply Hb]. Qed.

(** A step of a reader. *)
Lemma reader_step_inv st readers t r :
  invariant st ->
  (forall t', t' <> t -> t' ∈ readers <-> t' ∈ st_readers st) ->
  (st_writer st = true -> t ∉ readers) ->
  readerOk (readerStep st readers (<[t := r]> (st_threads st))) t r ->
  invariant (readerStep st readers (<[t := r]> (st_threads st))).
Proof.
  intros [Hw Hx Hh Hfl Hc Ht Hp Hs] Hother Hno Hr.
  assert (Hframe : frame st (readerStep st readers (<[t := r]> (st_threads st)))) by (by apply frame_same).
  split; simpl; try done.
  - intros Hwr. apply set_eq. intros t'. split; [|by intros ?%elem_of_empty]. intros Hin.
    destruct (decide (t' = t)) as [->|Hne]; [by apply Hno in Hin|].
    rewrite Hother, (Hx Hwr) in Hin by done. done.
  - intros t' Hin. destruct (decide (t' = t)) as [->|Hne]; [by rewrite lookup_insert_eq|].
    rewrite lookup_insert_ne by done. apply Hh. by apply Hother.
  - intros t' r'. destruct (decide (t' = t)) as [->|Hne].
    + rewrite lookup_insert_eq. by intros [= <-].
    + rewrite lookup_insert_ne by done. intros Hr'. apply (frame_reader st); [done|by apply Hother|by apply Ht].
Qed.

(** What is sent was published. *)
Lemma send_inv st readers t data got :
  invariant st -> (forall t', t' <> t -> t' ∈ readers <-> t' ∈ st_readers st) -> t ∉ readers ->
  sentOf data got ∈ st_published st -> invariant (sending st readers t (sentOf data got)).
Proof.
  intros [Hw Hx Hh Hfl Hc Ht Hp Hs] Hother Hno Hin.
  assert (Hframe : frame st (sending st readers t (sentOf data got))) by (by apply frame_same).
  split; simpl; try done.
  - intros Hwr. apply set_eq. intros t'. split; [|by intros ?%elem_of_empty]. intros Hr.
    destruct (decide (t' = t)) as [->|Hne]; [done|]. by rewrite Hother, (Hx Hwr) in Hr.
  - intros t' Hr. destruct (decide (t' = t)) as [->|Hne]; [done|]. rewrite lookup_delete_ne by done.
    apply Hh. by apply Hother.
  - intros t' r' [Hne Hr']%lookup_delete_Some. apply (frame_reader st); [done|by apply Hother|by apply Ht].
  - intros x [Hx'| ->%list_elem_of_singleton]%elem_of_app; [by apply Hs|done].
Qed.

Lemma contents_snoc m a len cells f :
  m !! a = Some cells -> len < length cells ->
  contents (<[a := <[len := f]> cells]> m) {| h_array := a; h_len := S len |}
  = contents m {| h_array := a; h_len := len |} ++ [f].
Proof.
  intros Hm Hlen. unfold contents. cbn [h_array h_len]. rewrite lookup_insert_eq, Hm. cbn [default option_rect from_option id].
  rewrite (take_S_r _ _ f) by (by apply list_lookup_insert_eq). by rewrite take_insert_ge.
Qed.

(** Every step of the collector keeps the invariant. *)
Lemma tick_inv st l a :
  invariant st -> st_collector st = CWait -> produced l -> st_arrays st !! a = None ->
  invariant (collectorStep st (<[a := []]> (st_arrays st)) (CBuild l l {| h_array := a; h_len := 0 |})).
Proof.
  intros Hi Hc Hl Ha. apply collector_step_inv; [done| | |by rewrite Hc].
  - split; simpl; [done| |by intros ? <-; right].
    intros a' [cells Ha'] _. rewrite lookup_insert_ne; [done|]. intros ->. congruence.
  - split; [done|]. split; [done|]. exists []. simpl. by rewrite lookup_insert_eq.
Qed.
Lemma append_inv st l f todo a len cells :
  invariant st -> st_collector st = CBuild l (f :: todo) {| h_array := a; h_len := len |} ->
  st_arrays st !! a = Some cells -> len < length cells ->
  invariant (collectorStep st (<[a := <[len := f]> cells]> (st_arrays st)) (CBuild l todo {| h_array := a; h_len := S len |})).
Proof.
  intros Hi Hc Ha Hlen. apply collector_step_inv; [done| | |by rewrite Hc].
  - split; simpl; [done| |intros a' <-; left; by rewrite Hc].
    rewrite Hc. simpl. intros a' _ Hne. by rewrite lookup_insert_ne.
  - pose proof (inv_collector _ Hi) as Ho. rewrite Hc in Ho. destruct Ho as (Hl & Hcont & _). split; [done|]. split.
    + rewrite contents_snoc by done. by rewrite <- (assoc_L (++)).
    + simpl. rewrite lookup_insert_eq. eexists. split; [done|]. rewrite length_insert. lia.
Qed.
Lemma grow_inv st l f todo a len cells a' room :
  invariant st -> st_collector st = CBuild l (f :: todo) {| h_array := a; h_len := len |} ->
  st_arrays st !! a = Some cells -> len = length cells -> st_arrays st !! a' = None ->
  invariant (collectorStep st (<[a' := cells ++ f :: room]> (st_arrays st)) (CBuild l todo {| h_array := a'; h_len := S len |})).
Proof.
  intros Hi Hc Ha -> Ha'. apply collector_step_inv; [done| | |by rewrite Hc].
  - split; simpl; [done| |by intros ? <-; right].
    intros b [cells' Hb] _. rewrite lookup_insert_ne; [done|]. intros ->. congruence.
  - pose proof (inv_collector _ Hi) as Ho. rewrite Hc in Ho. destruct Ho as (Hl & Hcont & _). split; [done|].
    unfold contents in *. simpl in *. rewrite lookup_insert_eq. rewrite Ha in Hcont. simpl in *.
    rewrite firstn_all in Hcont. split.
    + rewrite (cons_middle f), (assoc_L (++)), take_app_length' by (rewrite length_app; simpl; lia).
      by rewrite <- (assoc_L (++)).
    + eexists. split; [done|]. rewrite length_app. simpl. lia.
Qed.
Lemma lock_inv st l newFlows :
  invariant st -> st_collector st = CBuild l [] newFlows -> st_readers st = ∅ ->
  invariant (withLock st true (CAssign l newFlows)).
Proof.
  intros [Hw Hx Hh Hfl Hc Ht Hp Hs] Hb Hr. rewrite Hb in Hc.
  assert (Hframe : frame st (withLock st true (CAssign l newFlows))).
  { apply frame_same; [done|done|]. intros a Ha. by rewrite Hb. }
  split; simpl; try done; [by apply (frame_shared st)|].
  intros t r Hr'. apply (frame_reader st); [done|done|by apply Ht].
Qed.
Lemma assign_inv st l newFlows :
  invariant st -> st_collector st = CAssign l newFlows -> invariant (assigned st l newFlows).
Proof.
  intros [Hw Hx Hh Hfl Hc Ht Hp Hs] Hb. rewrite Hb in Hc, Hw.
  assert (Hframe : frame st (assigned st l newFlows)).
  { apply frame_same; [done| |done]. simpl. intros x ?. apply elem_of_app. by left. }
  destruct Hc as (Hl & Hcont & cells & Hcells & Hlen). rewrite app_nil_r in Hcont.
  split; simpl; try done.
  - split; [|split; [by intros []|by exists cells]]. unfold contentsOf. simpl. rewrite Hcont.
    apply elem_of_app. right. by apply list_elem_of_singleton.
  - intros t r Hr'. apply (frame_reader st); [done|done|by apply Ht].
  - intros l' [Hin|[= ->]%list_elem_of_singleton]%elem_of_app; [by apply Hp|done].
  - intros x Hin. apply elem_of_app. left. by apply Hs.
Qed.
Lemma unlock_inv st : invariant st -> st_collector st = CUnlock -> invariant (withLock st false CWait).
Proof.
  intros [Hw Hx Hh Hfl Hc Ht Hp Hs] Hb.
  assert (Hframe : frame st (withLock st false CWait)) by (by apply frame_same).
  split; simpl; try done; [by apply (frame_shared st)|].
  intros t r Hr'. apply (frame_reader st); [done|done|by apply Ht].
Qed.

(** A slice that is read out completely is what was published. *)
Lemma read_out st data got :
  shared st data -> got = take (length got) (elems (contentsOf (st_arrays st) data)) -> length got = lenOf data ->
  sentOf data got ∈ st_published st.
Proof.
  intros [Hin Hs] Hg Hlen. destruct data as [h|]; simpl in *; [|done].
  destruct Hs as [_ (cells & Hc & Hl)]. unfold contents in Hg, Hin. rewrite Hc in Hg, Hin. simpl in Hg, Hin.
  rewrite Hlen, take_take, Nat.min_id in Hg. by rewrite Hg.
Qed.

(** One more element. *)
Lemma read_elem st h got cells f :
  got = take (length got) (elems (contentsOf (st_arrays st) (Some h))) -> length got < h_len h ->
  st_arrays st !! h_array h = Some cells -> cells !! length got = Some f ->
  got ++ [f] = take (length (got ++ [f])) (elems (contentsOf (st_arrays st) (Some h))).
Proof.
  intros Hg Hlt Hc Hf. unfold contentsOf, contents in *. simpl in *. rewrite Hc in *. simpl in *.
  rewrite length_app. simpl. rewrite Nat.add_1_r, (take_S_r _ _ f).
  - by rewrite <- Hg.
  - by rewrite lookup_take_lt.
Qed.

Lemma step_inv st st' : invariant st -> step st st' -> invariant st'.
Proof.
  intros Hi Hstep. pose proof (inv_threads _ Hi) as Hthreads. destruct Hstep as
    [l a|l f todo a len cells|l f todo a len cells a' room|l newFlows|l newFlows| |
     t k Hnone Hfree|t Ht|t Ht|t data Ht|t k h got cells f Ht Hlt Hc Hf|t k data got Ht Hlen].
  - by apply tick_inv.
  - by apply append_inv.
  - by eapply grow_inv.
  - by apply lock_inv.
  - by apply assign_inv.
  - by apply unlock_inv.
  - apply reader_step_inv; [done|set_solver|by rewrite Hfree|]. split; [|done]. simpl. set_solver.
  - destruct (Hthreads t _ Ht) as [Hh _]. apply reader_step_inv; [done|done| |].
    + intros Hw. rewrite (inv_exclusive _ Hi Hw). set_solver.
    + split; [done|]. split; [apply (inv_flows _ Hi)|done].
  - destruct (Hthreads t _ Ht) as [Hh _]. apply reader_step_inv; [done|done| |].
    + intros Hw. rewrite (inv_exclusive _ Hi Hw). set_solver.
    + split; [done|]. apply (inv_flows _ Hi).
  - destruct (Hthreads t _ Ht) as [Hh Hs]. apply reader_step_inv; [done|set_solver|set_solver|].
    split; [simpl; set_solver|]. split; [apply Hs|done].
  - destruct (Hthreads t _ Ht) as [Hh [Hs Hg]]. apply reader_step_inv; [done|done| |].
    + intros Hw. rewrite (inv_exclusive _ Hi Hw). set_solver.
    + split; [done|]. split; [apply Hs|]. by eapply (read_elem st).
  - destruct (Hthreads t _ Ht) as [Hh [Hs Hg]]. apply send_inv; [done| | |by apply read_out].
    + destruct (keepsLock k); set_solver.
    + destruct (keepsLock k) eqn:Hk; [set_solver|]. rewrite Hh. simpl. by rewrite Hk.
Qed.

Lemma initial_inv : invariant initial.
Proof.
  split; simpl; try done.
  - split; [|done]. by apply list_elem_of_singleton.
  - intros l Hl%list_elem_of_singleton. done.
  - by intros x Hx%elem_of_nil.
Qed.

Lemma reachable_inv st : reachable st -> invariant st.
Proof. induction 1; [apply initial_inv|by eapply step_inv]. Qed.

(** ** No races *)

(** The memory the goroutines share: the variable [flows] and the cells of arrays. *)
Inductive location := LFlows | LCell (a i : nat).

(** What the collector writes next, and what a handler reads next. *)
Definition nextWrite (c : collector) : option location :=
  match c with
  | CBuild _ (_ :: _) h => Some (LCell (h_array h) (h_len h))
  | CAssign _ _ => Some LFlows
  | _ => None
  end.
Definition nextRead (r : reader) : option location :=
  match r with
  | RLocked _ => Some LFlows
  | RReading _ (Some h) got => if Nat.ltb (length got) (h_len h) then Some (LCell (h_array h) (length got)) else None
  | _ => None
  end.
Definition race (st : state) : Prop :=
  exists t r x, st_threads st !! t = Some r /\ nextWrite (st_collector st) = Some x /\ nextRead r = Some x.

Lemma invariant_no_race st : invariant st -> ~ race st.
Proof.
  intros Hi (t & r & x & Ht & Hw & Hr). destruct (inv_threads _ Hi t r Ht) as [Hh Hok].
  pose proof (inv_writer _ Hi) as Hwr. pose proof (inv_exclusive _ Hi) as Hx.
  destruct (st_collector st) as [|l [|f todo] h|l h|] eqn:Hc; simplify_eq/=.
  - destruct r as [k|data|k [h'|] got]; simplify_eq/=. case_match; simplify_eq/=.
    destruct Hok as [[_ [Hb _]] _]. apply Hb. rewrite Hc. done.
  - destruct r as [k|data|k [h'|] got]; simplify_eq/=; [|by case_match].
    rewrite (Hx Hwr) in Hh. destruct Hh as [_ Hh]. by specialize (Hh eq_refl).
Qed.

(** C34: however the collector and the handlers interleave, no handler reads what the
    collector is about to write, neither the variable nor an array; and every list a
    handler sends is one the collector published as a whole, made by one tick, or the
    nil slice from before the first, although the web socket's handler reads it
    without the lock. *)
Theorem flows_snapshot st :
  reachable st ->
  ~ race st /\
  forall x, x ∈ st_sent st -> x ∈ st_published st /\ match x with Some l => produced l | None => True end.
Proof.
  intros Hi%reachable_inv. split; [by apply invariant_no_race|]. intros x Hx%(inv_sent _ Hi). split; [done|].
  destruct x as [l|]; [|done]. by apply (inv_published _ Hi).
Qed.
End steps.
