(* ===== verification/VisualizerWitness.v ===== *)
(** * Runs of the visualizer

    The theorems about the visualizer applied to a small cluster and to a run of its
    goroutines. *)

From stdpp Require Import base tactics list strings gmap sets.
From Stdlib Require Import Ascii ZArith Lia.
From S2P Require Import Prelude GoStrings JSON Visualizer VisualizerFlows.

Open Scope string_scope.
Open Scope list_scope.

(** ** A cluster *)

#[export] Instance corev1 : CoreV1 := {|
  ResourceList := unit; resourceListDoc _ := DObject [];
  NodeSystemInfo := unit; nodeInfoDoc _ := DObject [];
  ServicePort := unit; portsDoc _ := DNull;
  Container := unit; containersDoc _ := DNull;
  MetaTime := unit; metaTimeDoc _ := DNull;
  ConditionDetails := unit; conditionsDoc _ := DArray [] |}.

Definition labels (v : string) : option (gmap string string) := Some {["app" := v]}.
Definition podOn (ns name node : string) (ls : option (gmap string string)) : Pod :=
  {| pod_Name := name; pod_Namespace := ns; pod_Labels := ls; pod_NodeName := node; pod_Containers := [];
     pod_Phase := "Running"; pod_PodIP := "10.244.0.7"; pod_ContainerStatuses := [{| cs_Ready := true; cs_RestartCount := 0 |}] |}.
Definition web : Pod := podOn "default" "web" "node1" (labels "web").
Definition dns : Pod := podOn "kube-system" "coredns" "node1" None.
Definition batch : Pod := podOn "default" "batch" "" (labels "batch").
Definition webSvc : Service :=
  {| svc_Name := "web"; svc_Namespace := "default"; svc_Type := "ClusterIP"; svc_ClusterIP := "10.0.0.9"; svc_Ports := [];
     svc_Selector := labels "web" |}.
Definition node1 : Node :=
  {| node_Name := "node1"; node_Capacity := tt; node_Allocatable := tt; node_NodeInfo := tt;
     node_Conditions := [("Ready", "True", tt)] |}.
Definition spaces : list Namespace :=
  [{| ns_Name := "default"; ns_CreationTimestamp := tt |}; {| ns_Name := "kube-system"; ns_CreationTimestamp := tt |}].
Definition pods1 : list Pod := [web; dns; batch].

(** The world is the clock; before zero the list of the pods times out. *)
Definition clock (t : Z) : Time := {| t_Unix := t; t_Nsec := 0; t_Offset := 0 |}.
#[export] Instance cluster1 : Cluster Z := {|
  Pods_List := fun t => (Ok (Some pods1, if (t <? 0)%Z then Some (EText "timeout") else None), t);
  Services_List := ret (Some [webSvc], None);
  Nodes_List := ret (Some [node1], None);
  Namespaces_List := ret (Some spaces, None);
  NetworkPolicies_List := ret (Some 0%nat, None);
  Now := fun t => (Ok (clock t), (t + 1)%Z) |}.

Lemma topology_edges_witness :
  exists s t, s ∈ elems (tr_Nodes (buildTopology pods1 [webSvc] [node1] spaces (clock 0))) /\
    t ∈ elems (tr_Nodes (buildTopology pods1 [webSvc] [node1] spaces (clock 0))) /\
    te_Source (serviceEdge webSvc web) = tn_ID s /\ te_Target (serviceEdge webSvc web) = tn_ID t.
Proof.
  assert (Hc : consistent pods1 [node1] spaces).
  { intros pod Hpod. unfold pods1 in Hpod. rewrite !elem_of_cons in Hpod.
    destruct Hpod as [->|[->|[->|[]%elem_of_nil]]]; (split; [|first [by left|right; exists node1; by split; [left|]]]).
    - eexists. split; [left|reflexivity].
    - eexists. split; [right; left|reflexivity].
    - eexists. split; [left|reflexivity]. }
  destruct (topology_edges pods1 [webSvc] [node1] spaces (clock 0) Hc) as [Hends Hsvc].
  apply Hends. apply Hsvc. exists webSvc, web. split; [left|]. split; [left|]. done.
Defined.

Lemma collectTick_flows_witness :
  (exists l w', collectTick None 5%Z = (Ok (Some l), w') /\ sources l = [("default", "web"); ("default", "batch")]) /\
  collectTick (Some []) (-1)%Z = (Ok (Some []), (-1)%Z).
Proof.
  assert (HNow : succeeds (fun _ : Z => True) Now) by (intros w _; by eexists _, _).
  split.
  - destruct (collectTick_flows (fun _ => True) None pods1 None 5%Z 5%Z HNow I eq_refl) as (l & w' & Hrun & Hs & _).
    exists l, w'. split; [exact Hrun|]. rewrite Hs. reflexivity.
  - exact (collectTick_flows (fun _ => True) (Some []) pods1 (Some (EText "timeout")) (-1)%Z (-1)%Z HNow I eq_refl).
Defined.

(** The issues of this cluster: [batch] is not exposed, and there are no policies. *)
Example issues1 : exists issues,
  getIssuesHandler "GET" noResponse 0%Z = (Ok (sendJSON (DArray (issueDoc <$> issues)) noResponse), 0%Z) /\
  unmatchedIssue ∈ issues /\ noPoliciesIssue ∈ issues.
Proof.
  destruct (issues_reported (Cluster0 := cluster1) noResponse pods1 [webSvc] 0 None None None 0%Z 0%Z 0%Z 0%Z "GET"
              eq_refl eq_refl eq_refl ltac:(done)) as (issues & Hrun & Hun & Hno).
  exists issues. split; [exact Hrun|]. split; [apply Hun|exact (proj2 Hno eq_refl)].
  exists batch. split; [right; right; left|]. split; [discriminate|vm_compute; reflexivity].
Qed.

(** ** A run of the goroutines *)

(** What a tick on this cluster makes. *)
Definition made (l : list Flow) : Prop := exists flows w w', collectTick flows w = (Ok (Some l), w').
Definition f1 : Flow := flowOf 0 web (clock 5).
Definition f2 : Flow := flowOf 2 batch (clock 6).
Definition g1 : Flow := flowOf 0 web (clock 10).
Definition g2 : Flow := flowOf 2 batch (clock 11).
Definition at_ (a len : nat) : header := {| h_array := a; h_len := len |}.

(** A first tick is published; the web socket's handler takes the slice and releases
    the lock; a second tick is published while it reads, and it sends the first. *)
Definition s1 := collectorStep initial (<[0 := []]> (st_arrays initial)) (CBuild [f1; f2] [f1; f2] (at_ 0 0)).
Definition s2 := collectorStep s1 (<[1 := [] ++ f1 :: [g1]]> (st_arrays s1)) (CBuild [f1; f2] [f2] (at_ 1 1)).
Definition s3 := collectorStep s2 (<[1 := <[1 := f2]> [f1; g1]]> (st_arrays s2)) (CBuild [f1; f2] [] (at_ 1 2)).
Definition s4 := withLock s3 true (CAssign [f1; f2] (at_ 1 2)).
Definition s5 := assigned s4 [f1; f2] (at_ 1 2).
Definition s6 := withLock s5 false CWait.
Definition s7 := readerStep s6 ({[7]} ∪ st_readers s6) (<[7 := RLocked WebSocket]> (st_threads s6)).
Definition s8 := readerStep s7 (st_readers s7) (<[7 := RData (st_flows s7)]> (st_threads s7)).
Definition s9 := readerStep s8 (st_readers s8 ∖ {[7]}) (<[7 := RReading WebSocket (Some (at_ 1 2)) []]> (st_threads s8)).
Definition s10 := readerStep s9 (st_readers s9) (<[7 := RReading WebSocket (Some (at_ 1 2)) ([] ++ [f1])]> (st_threads s9)).
Definition s11 := collectorStep s10 (<[2 := []]> (st_arrays s10)) (CBuild [g1; g2] [g1; g2] (at_ 2 0)).
Definition s12 := collectorStep s11 (<[3 := [] ++ g1 :: []]> (st_arrays s11)) (CBuild [g1; g2] [g2] (at_ 3 1)).
Definition s13 := collectorStep s12 (<[4 := [g1] ++ g2 :: []]> (st_arrays s12)) (CBuild [g1; g2] [] (at_ 4 2)).
Definition s14 := withLock s13 true (CAssign [g1; g2] (at_ 4 2)).
Definition s15 := assigned s14 [g1; g2] (at_ 4 2).
Definition s16 := readerStep s15 (st_readers s15) (<[7 := RReading WebSocket (Some (at_ 1 2)) ([f1] ++ [f2])]> (st_threads s15)).
Definition s17 := sending s16 (st_readers s16) 7 (Some [f1; f2]).

Lemma made_first : made [f1; f2].
Proof. exists None, 5%Z, 7%Z. vm_compute. reflexivity. Qed.
Lemma made_second : made [g1; g2].
Proof. exists None, 10%Z, 12%Z. vm_compute. reflexivity. Qed.

Lemma run_reachable : reachable made s17.
Proof.
  pose proof (reachable_initial made) as R.
  apply (reachable_step made _ s1) in R; [|by apply (step_tick made initial [f1; f2] 0); [|apply made_first|]].
  apply (reachable_step made _ s2) in R; [|by apply (step_grow made s1 [f1; f2] f1 [f2] 0 0 [] 1 [g1])].
  apply (reachable_step made _ s3) in R; [|by apply (step_append made s2 [f1; f2] f2 [] 1 1 [f1; g1]); [| |simpl; lia]].
  apply (reachable_step made _ s4) in R; [|by apply (step_lock made s3)].
  apply (reachable_step made _ s5) in R; [|by apply (step_assign made s4)].
  apply (reachable_step made _ s6) in R; [|by apply (step_unlock made s5)].
  apply (reachable_step made _ s7) in R; [|by apply (step_rlock made s6 7 WebSocket)].
  apply (reachable_step made _ s8) in R; [|by apply (step_data made s7 7)].
  apply (reachable_step made _ s9) in R; [|by apply (step_runlock made s8 7)].
  apply (reachable_step made _ s10) in R; [|by apply (step_elem made s9 7 WebSocket (at_ 1 2) [] [f1; f2] f1); [|simpl; lia|..]].
  apply (reachable_step made _ s11) in R; [|by apply (step_tick made s10 [g1; g2] 2); [|apply made_second|]].
  apply (reachable_step made _ s12) in R; [|by apply (step_grow made s11 [g1; g2] g1 [g2] 2 0 [] 3 [])].
  apply (reachable_step made _ s13) in R; [|by apply (step_grow made s12 [g1; g2] g2 [] 3 1 [g1] 4 [])].
  apply (reachable_step made _ s14) in R; [|by apply (step_lock made s13)].
  apply (reachable_step made _ s15) in R; [|by apply (step_assign made s14)].
  apply (reachable_step made _ s16) in R; [|by apply (step_elem made s15 7 WebSocket (at_ 1 2) [f1] [f1; f2] f2); [|simpl; lia|..]].
  by apply (reachable_step made _ s17) in R; [|by apply (step_send made s16 7 WebSocket (Some (at_ 1 2)) [f1; f2])].
Qed.

Lemma flows_snapshot_witness : ~ race s17 /\ Some [f1; f2] ∈ st_published s17 /\ made [f1; f2].
Proof.
  destruct (flows_snapshot made s17 run_reachable) as [Hrace Hsent]. split; [exact Hrace|].
  apply (Hsent (Some [f1; f2])). apply list_elem_of_singleton. reflexivity.
Defined.
