(* ===== verification/Provisioning.v ===== *)
(** * The controllers of the manager together
      ([controllers/manager])

    A gateway is provisioned by three controllers that meet in the API server: the
    specification goes down, from the StaticGatewayConfiguration to the
    GatewayLBConfiguration to the GatewayVMConfiguration, and the status comes back up.
    This file states what each reconciliation leaves in the API server, composes them,
    and shows that the two controllers that look up the node pool mean the same one. *)

From stdpp Require Import base tactics list strings gmap.
From Stdlib Require Import ZArith Lia.
From S2P Require Import Prelude GoStrings Types Kube Config Azure LBRules LBConfig VMNet PublicIP AgentPoolVMs VMConfig.
From S2P Require Import ManagerSGC.

Open Scope string_scope.
Open Scope list_scope.

(** ** The API server *)

(** The objects of the gateways. *)
Record Cluster := {
  c_sgcs : gmap NamespacedName StaticGatewayConfiguration;
  c_lbcs : gmap NamespacedName GatewayLBConfiguration;
  c_vmcs : gmap NamespacedName GatewayVMConfiguration;
  c_secrets : gmap NamespacedName Secret;
}.
Definition on_sgcs f (c : Cluster) : Cluster :=
  {| c_sgcs := f (c_sgcs c); c_lbcs := c_lbcs c; c_vmcs := c_vmcs c; c_secrets := c_secrets c |}.
Definition on_lbcs f (c : Cluster) : Cluster :=
  {| c_sgcs := c_sgcs c; c_lbcs := f (c_lbcs c); c_vmcs := c_vmcs c; c_secrets := c_secrets c |}.
Definition on_vmcs f (c : Cluster) : Cluster :=
  {| c_sgcs := c_sgcs c; c_lbcs := c_lbcs c; c_vmcs := f (c_vmcs c); c_secrets := c_secrets c |}.
Definition on_secrets f (c : Cluster) : Cluster :=
  {| c_sgcs := c_sgcs c; c_lbcs := c_lbcs c; c_vmcs := c_vmcs c; c_secrets := f (c_secrets c) |}.

(** A kind of object: metadata, specification and status. *)
Class ObjKind (Obj Spec Status : Type) := {
  k_meta : Obj -> ObjectMeta;
  k_spec : Obj -> Spec;
  k_status : Obj -> Status;
}.
#[export] Instance sgc_kind : ObjKind StaticGatewayConfiguration _ _ :=
  {| k_meta := sgc_meta; k_spec := sgc_Spec; k_status := sgc_Status |}.
#[export] Instance lbc_kind : ObjKind GatewayLBConfiguration _ _ :=
  {| k_meta := lbc_meta; k_spec := lbc_Spec; k_status := lbc_Status |}.
#[export] Instance vmc_kind : ObjKind GatewayVMConfiguration _ _ :=
  {| k_meta := vmc_meta; k_spec := vmc_Spec; k_status := vmc_Status |}.
#[export] Instance secret_kind : ObjKind Secret _ unit :=
  {| k_meta := sec_meta; k_spec := sec_Data; k_status := fun _ => tt |}.

Section kinds.
Context `{ObjKind Obj Spec Status}.
Definition keyOf (o : Obj) : NamespacedName := om_key (k_meta o).
Definition live (o : Obj) : Prop := deleting (k_meta o) = false.

(** The server keeps the name, the deletion mark and the identifier of an object; the
    identifier of a new object is the server's. *)
Definition sameObject (isNew : bool) (o o' : Obj) : Prop :=
  keyOf o' = keyOf o /\ deleting (k_meta o') = deleting (k_meta o) /\
  (isNew = false -> om_uid (k_meta o') = om_uid (k_meta o)).
End kinds.

(** A kind's part of the cluster. *)
Class Part {Obj} (objs : Cluster -> gmap NamespacedName Obj)
    (on : (gmap NamespacedName Obj -> gmap NamespacedName Obj) -> Cluster -> Cluster) : Prop := {
  part_on f c : objs (on f c) = f (objs c);
  part_insert k o o' c : on (insert k o') (on (insert k o) c) = on (insert k o') c;
  part_same k o c : objs c !! k = Some o -> on (insert k o) c = c;
}.
#[export] Instance sgcs_part : Part c_sgcs on_sgcs.
Proof.
  split; [done|intros k o o' []|intros k o [] Hk]; unfold on_sgcs; simpl in *; [by rewrite insert_insert_eq|by rewrite insert_id].
Qed.
#[export] Instance lbcs_part : Part c_lbcs on_lbcs.
Proof.
  split; [done|intros k o o' []|intros k o [] Hk]; unfold on_lbcs; simpl in *; [by rewrite insert_insert_eq|by rewrite insert_id].
Qed.
#[export] Instance vmcs_part : Part c_vmcs on_vmcs.
Proof.
  split; [done|intros k o o' []|intros k o [] Hk]; unfold on_vmcs; simpl in *; [by rewrite insert_insert_eq|by rewrite insert_id].
Qed.
#[export] Instance secrets_part : Part c_secrets on_secrets.
Proof.
  split; [done|intros k o o' []|intros k o [] Hk]; unfold on_secrets; simpl in *; [by rewrite insert_insert_eq|by rewrite insert_id].
Qed.

(** What the API server promises about the calls that succeed: [kGet] returns the
    object, [kUpdate] writes the specification and [kStatusUpdate] the status of an
    object that is there, [kCreateOrPatch] writes both as the function it is given
    leaves them, starting from the object that is there or from a new one.  Each writes
    this one object only. *)
Class StoreView {W : Type} (view : W -> Cluster) `{ObjKind Obj Spec Status} `{Store W Obj}
    (objs : Cluster -> gmap NamespacedName Obj)
    (on : (gmap NamespacedName Obj -> gmap NamespacedName Obj) -> Cluster -> Cluster) : Prop := {
  keyed k w o : objs (view w) !! k = Some o -> keyOf o = k;
  get_view k w o w' : kGet k w = (Ok o, w') -> objs (view w) !! k = Some o /\ view w' = view w;
  get_fails k w e w' : kGet k w = (Err e, w') ->
    view w' = view w /\ (IsNotFound e = true -> objs (view w) !! k = None);
  update_view o w o' w' : kUpdate o w = (Ok o', w') -> live o ->
    exists old, objs (view w) !! keyOf o = Some old /\ sameObject false o o' /\ k_spec o' = k_spec o /\
      k_status o' = k_status old /\ view w' = on (insert (keyOf o) o') (view w);
  status_view o w o' w' : kStatusUpdate o w = (Ok o', w') ->
    exists old, objs (view w) !! keyOf o = Some old /\ sameObject false old o' /\ k_spec o' = k_spec old /\
      k_status o' = k_status o /\ view w' = on (insert (keyOf o) o') (view w);
  patch_view o f w o' w' : kCreateOrPatch o f w = (Ok (o', None), w') ->
    exists w1 m w2, view w1 = view w /\ f (default o (objs (view w) !! keyOf o)) w1 = (Ok (m, None), w2) /\
      (keyOf m = keyOf o -> sameObject (bool_decide (objs (view w) !! keyOf o = None)) m o' /\ k_spec o' = k_spec m /\ k_status o' = k_status m /\
                            view w' = on (insert (keyOf o) o') (view w2));
}.

(** Status updates of objects that are there are accepted. *)
Class StatusAccepted {W : Type} (view : W -> Cluster) `{ObjKind Obj Spec Status} `{Store W Obj}
    (objs : Cluster -> gmap NamespacedName Obj) : Prop :=
  status_accepted o w : is_Some (objs (view w) !! keyOf o) -> is_Ok (fst (kStatusUpdate o w)) = true.

(** [o'] is what the API server has for [o], with the same specification and status. *)
Definition kept {W} (view : W -> Cluster) `{ObjKind Obj Spec Status}
    (on : (gmap NamespacedName Obj -> gmap NamespacedName Obj) -> Cluster -> Cluster) (o o' : Obj) (w w' : W) : Prop :=
  sameObject false o o' /\ k_spec o' = k_spec o /\ k_status o' = k_status o /\ view w' = on (insert (keyOf o) o') (view w).

(** The finalizer is there already or is added. *)
Lemma finalizer_ensured {W} (view : W -> Cluster) `{ObjKind Obj Spec Status} `{Store W Obj} objs on
    `{!Part objs on} `{!StoreView view objs on} (b : bool) (o o1 : Obj) w e w1 :
  objs (view w) !! keyOf o = Some o -> live o -> sameObject false o o1 -> k_spec o1 = k_spec o ->
  (if b then ret o else kUpdate o1) w = (Ok e, w1) -> kept view on o e w w1.
Proof.
  intros Hin Hlive (Hk & Hd & Hu) Hs Hrun. destruct b.
  - unfold ret in Hrun. injection Hrun as <- <-. split; [done|]. split; [done|]. split; [done|]. by rewrite part_same.
  - apply update_view in Hrun as (old & Hold & (Hk' & Hd' & Hu') & Hs' & Ht & Hv); [|by unfold live; rewrite Hd].
    rewrite Hk in *. assert (old = o) as -> by congruence.
    split; [|split; [congruence|done]]. split_and!; [congruence..|]. intros _. rewrite Hu', Hu; done.
Qed.

(** ** Node pools *)

Section pools.
Context {W : Type} `{Backoffs} `{AzureClients W} `{UUIDs} (az : CloudConfig).

(** The specification of the VM configuration made for an LB configuration, and of the
    LB configuration made for a gateway. *)
Definition vmSpecOf (spec : GatewayLBConfigurationSpec) : GatewayVMConfigurationSpec :=
  {| vmc_GatewayNodepoolName := lbc_GatewayNodepoolName spec; vmc_GatewayVmssProfile := lbc_GatewayVmssProfile spec;
     vmc_ProvisionPublicIps := lbc_ProvisionPublicIps spec; vmc_PublicIpPrefixId := lbc_PublicIpPrefixId spec |}.
Definition lbSpecOf (spec : StaticGatewayConfigurationSpec) : GatewayLBConfigurationSpec :=
  {| lbc_GatewayNodepoolName := sgc_GatewayNodepoolName spec; lbc_GatewayVmssProfile := sgc_GatewayVmssProfile spec;
     lbc_ProvisionPublicIps := sgc_ProvisionPublicIps spec; lbc_PublicIpPrefixId := sgc_PublicIpPrefixId spec |}.

(** Azure's answers to the lookups in the states where it has this inventory: lookups do
    not change it. *)
Record poolAnswers (inventory : W -> Prop) (vmss : list VirtualMachineScaleSet) (vms : list VirtualMachine)
    (named : string -> string -> option VirtualMachineScaleSet) : Prop := {
  ans_vmss w l w' : inventory w -> azmanager.ListVMSS az w = (Ok l, w') -> l = vmss /\ inventory w';
  ans_vms w l w' : inventory w -> azmanager.ListVMs az w = (Ok l, w') -> l = vms /\ inventory w';
  ans_named rg n w v w' : inventory w -> azmanager.GetVMSS az rg n w = (Ok v, w') -> named rg n = Some v;
}.

Definition isVMSSPool (name : string) (vmss : list VirtualMachineScaleSet) : bool :=
  existsb (fun v => tagged_pool name (vmss_Tags v)) vmss.
Definition isVMPool (name : string) (vms : list VirtualMachine) : bool :=
  existsb (fun v => tagged_pool name (vm_Tags v)) vms.

Lemma find_existsb {A} (p : A -> bool) l :
  match List.find p l with Some x => existsb p l = true | None => existsb p l = false end.
Proof. induction l as [|a l IH]; simpl; [done|]. destruct (p a); simpl; [done|]. by destruct (List.find p l). Qed.

(** C13: the LB controller, which makes the backend pool and the rule, and the VM
    controller, which puts the machines into a backend pool, mean the same node pool,
    and so the same backend pool, unless the name is the tag both of a scale set and of
    virtual machines; then the LB controller takes the scale set and the VM controller
    the virtual machines. *)
Theorem controllers_agree_on_pool inventory vmss vms named lbConfig vmConfig (w w' v v' : W) p1 p2 len :
  poolAnswers inventory vmss vms named -> inventory w -> inventory v ->
  vmc_Spec vmConfig = vmSpecOf (lbc_Spec lbConfig) ->
  lbconfig.loadPool az lbConfig w = (Ok p1, w') -> vmconfig.loadPool az vmConfig v = (Ok (p2, len), v') ->
  let name := lbc_GatewayNodepoolName (lbc_Spec lbConfig) in
  if negb (String.eqb name "") && isVMSSPool name vmss && isVMPool name vms
  then (exists s, p1 = agentPoolVMSS s) /\ p2 = agentPoolVMs name
  else p1 = p2 /\
       azmanager.GetLBBackendAddressPoolID az (GetUniqueID p1) = azmanager.GetLBBackendAddressPoolID az (GetUniqueID p2).
Proof.
  intros [Ha1 Ha2 Ha3] Hw Hv Hspec Hlb Hvm name. unfold lbconfig.loadPool in Hlb. unfold vmconfig.loadPool in Hvm.
  rewrite Hspec in Hvm. cbn [vmSpecOf vmc_GatewayNodepoolName vmc_GatewayVmssProfile] in Hvm. fold name in Hlb, Hvm.
  destruct (String.eqb name "") eqn:Hn; cbn [negb andb] in *.
  - apply bind_Ok_inv in Hlb as (s1 & w1 & E1 & Hlb). apply bind_Ok_inv in Hvm as (s2 & v1 & E2 & Hvm).
    apply Ha3 in E1, E2; [|done..]. rewrite E1 in E2. injection E2 as <-. unfold ret in Hlb, Hvm.
    by injection Hlb as <- _; injection Hvm as <- _ _.
  - apply bind_Ok_inv in Hlb as (l1 & w1 & E1 & Hlb). apply Ha1 in E1 as [-> Hw1]; [|done].
    apply bind_Ok_inv in Hvm as (l2 & v1 & E2 & Hvm). apply Ha2 in E2 as [-> Hv1]; [|done].
    unfold isVMSSPool, isVMPool.
    pose proof (find_existsb (fun s => tagged_pool name (vmss_Tags s)) vmss) as Hs.
    pose proof (find_existsb (fun s => tagged_pool name (vm_Tags s)) vms) as Hm.
    destruct (List.find (fun s => tagged_pool name (vmss_Tags s)) vmss) as [s|] eqn:Fs; rewrite Hs; cbn [andb].
    + unfold ret in Hlb. injection Hlb as <- _.
      destruct (List.find (fun s => tagged_pool name (vm_Tags s)) vms) as [m|] eqn:Fv; rewrite Hm.
      * apply bind_Ok_inv in Hvm as (len' & v2 & _ & Hvm). unfold ret in Hvm. injection Hvm as <- _ _. eauto.
      * apply bind_Ok_inv in Hvm as (l3 & v2 & E3 & Hvm). apply Ha1 in E3 as [-> _]; [|done]. rewrite Fs in Hvm.
        apply bind_Ok_inv in Hvm as (len' & v3 & _ & Hvm). unfold ret in Hvm. by injection Hvm as <- _ _.
    + apply bind_Ok_inv in Hlb as (l3 & w2 & E3 & Hlb). apply Ha2 in E3 as [-> _]; [|done].
      destruct (List.find (fun s => tagged_pool name (vm_Tags s)) vms) as [m|] eqn:Fv; [|done].
      unfold ret in Hlb. injection Hlb as <- _.
      apply bind_Ok_inv in Hvm as (len' & v2 & _ & Hvm). unfold ret in Hvm. by injection Hvm as <- _ _.
Qed.
End pools.

(** ** One reconciliation at a time *)

Section stages.
Context {W : Type} `{BackoffLaws} `{AzureClients W} `{ArmIDs} `{UUIDs} `{ApiErrors} `{WgKeys W}.
Context `{FinalizersLaws} `{OwnerRefs} `{Recorder W} `{Prometheus W} `{OsEnv}.
Context `{Store W StaticGatewayConfiguration} `{Store W GatewayLBConfiguration} `{Store W GatewayVMConfiguration}.
Context `{Store W Secret} `{Store W Node}.
Context (view : W -> Cluster).
Context `{!StoreView view c_sgcs on_sgcs} `{!StoreView view c_lbcs on_lbcs} `{!StoreView view c_vmcs on_vmcs}.
Context `{!StoreView view c_secrets on_secrets}.
Context `{!StatusAccepted view c_lbcs} `{!StatusAccepted view c_vmcs}.

(** Azure, events, metrics and the generation of keys do not touch the API server;
    neither finalizers nor owners change an object's name or deletion mark. *)
Context `{Hazure : forall c, AzureKeeps (fun w => view w = c)}.
Context (Hevent : forall k ty reason msg w, view (recordEvent k ty reason msg w) = view w).
Context (Hmetric : forall mc b w, view (metrics.ObserveControllerReconcileMetrics mc b w) = view w).
Context (Hkeygen : forall w, view (snd (GeneratePrivateKey w)) = view w).
Context (Hfinalizer : forall m f, deleting (AddFinalizer m f) = deleting m /\ om_uid (AddFinalizer m f) = om_uid m).
Context (Howner : forall o m m', SetControllerReference o m = inr m' -> 
  om_key m' = om_key m /\ deleting m' = deleting m /\ om_uid m' = om_uid m).

Context (az : CloudConfig) (LBProbePort : Z) (SecretNamespace : string).

Lemma view_kept {A} (c : M W A) w r w' :
  c w = (r, w') -> (forall v, keeps (fun w => view w = v) c) -> view w' = view w.
Proof. intros Hc Hk. specialize (Hk (view w) w eq_refl). by rewrite Hc in Hk. Qed.

(** Reporting passes the outcome on. *)
Lemma reportEvents_Ok key reason success (c : M W unit) w w' :
  reportEvents key reason success c w = (Ok tt, w') ->
  exists w1, c w = (Ok tt, w1) /\ view w' = view w1.
Proof.
  unfold reportEvents. intros ([e|[]] & w1 & Hc%try_Ok_inv & Hrun)%bind_Ok_inv; simpl in *.
  - by go_inv.
  - exists w1. split; [done|]. destruct success as [[reason' msg]|].
    + unfold effect in Hrun. injection Hrun as <-. apply Hevent.
    + unfold ret in Hrun. by injection Hrun as <-.
Qed.

Lemma observed_Ok {A} mc (c : M W A) w a w' :
  metrics.observed mc c w = (Ok a, w') -> exists w1, c w = (Ok a, w1) /\ view w' = view w1.
Proof. intros (w1 & Hc & ->)%defer_inv. exists w1. split; [done|apply Hmetric]. Qed.

(** *** The VM configuration *)

Definition egressOf (v : GatewayVMConfiguration) : string := vmc_EgressIpPrefix (vmc_status_or_new (vmc_Status v)).

(** Nothing but the profiles of the status is changed. *)
Record sameSpec (v v' : GatewayVMConfiguration) : Prop := {
  same_meta : vmc_meta v' = vmc_meta v;
  same_spec : vmc_Spec v' = vmc_Spec v;
  same_egress : egressOf v' = egressOf v;
  same_status : is_Some (vmc_Status v) -> is_Some (vmc_Status v');
}.
#[local] Instance sameSpec_preorder : PreOrder sameSpec.
Proof. split; [by intros v|]. intros u v x [] []. split; [congruence..|auto]. Qed.

Lemma reconcileVMSSVM_same v name vm prefix pool want w v' ip w' :
  vmss.reconcileVMSSVM az v name vm prefix pool want w = (Ok (v', ip), w') -> sameSpec v v'.
Proof.
  unfold vmss.reconcileVMSSVM. intros Hr.
  destruct (vmi_Properties vm) as [[state [cn|] [nics|]]|]; [|by go_inv..].
  apply bind_Ok_inv in Hr as (ips & w1 & _ & Hr). apply bind_Ok_inv in Hr as ([nics' upd] & w2 & _ & Hr).
  apply bind_Ok_inv in Hr as ([] & w3 & _ & Hr). destruct (negb want); [by go_inv|].
  apply bind_Ok_inv in Hr as (ips' & w4 & _ & Hr). destruct (vmss.no_ips ips'); [by go_inv|].
  unfold ret in Hr. by injection Hr as <- _ _.
Qed.
Lemma reconcileNIC_same v nic prefix pool want w v' ip w' :
  agentpoolvms.reconcileNIC az v nic prefix pool want w = (Ok (v', ip), w') -> sameSpec v v'.
Proof.
  unfold agentpoolvms.reconcileNIC. intros Hr. destruct (nic_Properties nic) as [p|]; [|by go_inv].
  destruct (String.eqb _ ""); [by go_inv|]. apply bind_Ok_inv in Hr as (pip & w1 & _ & Hr).
  destruct (planNicConfs _ _ _ _ _) as [[confs upd] missing]. apply bind_Ok_inv in Hr as ([nic' ipCfg] & w2 & _ & Hr).
  destruct (negb want); unfold ret in Hr; by injection Hr as <- _ _.
Qed.

Lemma loop_same {A} (f : GatewayVMConfiguration * list string -> A -> M W (GatewayVMConfiguration * list string)) l v ips w v' ips' w' :
  (forall v ips a u v' ips' u', f (v, ips) a u = (Ok (v', ips'), u') -> sameSpec v v') ->
  foldM f l (v, ips) w = (Ok (v', ips'), w') -> sameSpec v v'.
Proof.
  intros Hf. apply (foldM_Ok_ind f (fun _ b => sameSpec v (fst b)) l (v, ips) w (v', ips') w'); [done|].
  intros done a [v1 l1] [v2 l2] u u' Hv Hstep%Hf. simpl in *. by transitivity v1.
Qed.

(** A pool's reconciliation changes the API server at most by one status update. *)
Lemma poolReconcile_view pool v prefix want w v' ips w' :
  vmconfig.poolReconcile az pool v prefix want w = (Ok (v', ips), w') ->
  (sameSpec v v' /\ view w' = view w) \/
  exists v1 w1, sameSpec v v1 /\ view w1 = view w /\ kStatusUpdate v1 w1 = (Ok v', w').
Proof.
  intros Hr. destruct pool as [s|name]; simpl in Hr.
  - right. unfold vmss.reconcileVMSS in Hr.
    destruct (vmss_Properties s) as [[uid [[nics|]|]]|]; [|by go_inv..].
    apply bind_Ok_inv in Hr as ([nics' upd] & w1 & Hn & Hr). apply bind_Ok_inv in Hr as ([] & w2 & Hu & Hr).
    apply bind_Ok_inv in Hr as (insts & w3 & Hi & Hr). apply bind_Ok_inv in Hr as ([v1 ips1] & w4 & Hf & Hr).
    apply bind_Ok_inv in Hr as (v2 & w5 & Hc & Hr). apply bind_Ok_inv in Hr as (v3 & w6 & Hs%on_err_Ok_inv & Hr).
    unfold ret in Hr. injection Hr as <- _ <-. unfold lift in Hc. injection Hc as Hc <-.
    assert (Hsame : sameSpec v v1).
    { eapply loop_same; [|exact Hf]. intros a l inst u a' l' u' ([a1 ip] & u1 & Hvm & Hret)%bind_Ok_inv.
      unfold ret in Hret. injection Hret as <- _ _. by apply reconcileVMSSVM_same in Hvm. }
    exists v2, w4. split.
    { transitivity v1; [done|]. unfold vmss.cleanProfiles in Hc. destruct (vmc_Status v1) eqn:Hst; [|by injection Hc as <-].
      apply obind_Ok_inv in Hc as (ps & _ & Hc). injection Hc as <-. split; try done.
      unfold egressOf. by rewrite Hst. }
    split; [|done].
    apply view_kept in Hf; [|intros c; unfold vmss.reconcileVMSSVM; keeps_tac; eauto using keeps_peekIPs, keeps_readIPs].
    apply view_kept in Hi; [|intros c; keeps_tac]. apply view_kept in Hu; [|intros c; keeps_tac].
    apply view_kept in Hn; [|intros c; keeps_tac]. congruence.
  - left. unfold agentpoolvms.Reconcile in Hr. apply bind_Ok_inv in Hr as (nics & w1 & Hn & Hf). split.
    + eapply loop_same; [|exact Hf]. intros a l nic u a' l' u' ([a1 ip] & u1 & Hvm & Hret)%bind_Ok_inv.
      unfold ret in Hret. injection Hret as <- _ _. by apply reconcileNIC_same in Hvm.
    + apply view_kept in Hf; [|intros c; unfold agentpoolvms.reconcileNIC; keeps_tac].
      apply view_kept in Hn; [|intros c; keeps_tac]. congruence.
Qed.

(** What a reconciliation of a VM configuration has done: it looked up the pool, made
    sure of the prefix and of the machines, and published the egress addresses. *)
Definition publishes (spec : GatewayVMConfigurationSpec) (egress : string) : Prop :=
  exists e pool len prefix prefixID managed v ips u0 u1 u2 u3,
    vmc_Spec e = spec /\ vmconfig.loadPool az e u0 = (Ok (pool, len), u1) /\
    publicip.ensurePublicIPPrefix az len e u1 = (Ok (prefix, prefixID, managed), u2) /\
    vmconfig.poolReconcile az pool e prefixID true u2 = (Ok (v, ips), u3) /\
    egress = if vmc_ProvisionPublicIps spec then prefix else Join ips ",".

(** An object that is there is found. *)
Lemma found {Obj} `{ObjKind Obj Spec Status} `{Store W Obj} objs on `{!StoreView view objs on} k (o : Obj)
    (f : Obj -> M W unit) w w' :
  objs (view w) !! k = Some o ->
  (let! r := try (kGet k) in
   match r with inl err => if IsNotFound err then ret tt else throw err | inr o => f o end) w = (Ok tt, w') ->
  keyOf o = k /\ exists w1, view w1 = view w /\ f o w1 = (Ok tt, w').
Proof.
  intros Ho ([e|o1] & w1 & Hget%try_Ok_inv & Hrun)%bind_Ok_inv; simpl in *.
  - destruct (IsNotFound e) eqn:He; [|by go_inv]. apply get_fails in Hget as [_ Hno]. rewrite Hno in Ho; done.
  - apply get_view in Hget as (Ho1 & Hv). assert (o1 = o) as -> by congruence. split; [by eapply keyed|eauto].
Qed.

(** A status update whose error is only logged. *)
Lemma status_logged {Obj} `{ObjKind Obj Spec Status} `{Store W Obj} objs on `{!Part objs on} `{!StoreView view objs on}
    `{!StatusAccepted view objs} (o old : Obj) w u w' :
  objs (view w) !! keyOf o = Some old -> (do! try (kStatusUpdate o); ret tt) w = (Ok u, w') ->
  exists o', sameObject false old o' /\ k_spec o' = k_spec old /\ k_status o' = k_status o /\
    view w' = on (insert (keyOf o) o') (view w).
Proof.
  intros Hold (r & w1 & Hr%try_Ok_inv & Hret)%bind_Ok_inv. unfold ret in Hret. injection Hret as _ <-.
  pose proof (status_accepted o w (ex_intro _ old Hold)) as Hok.
  destruct r as [e|o']; [by rewrite Hr in Hok|]. apply status_view in Hr as (old' & Hold' & Hrest).
  exists o'. assert (old' = old) as <- by congruence. done.
Qed.

(** Adding a finalizer keeps the object. *)
Lemma finalizer_same {Obj} `{ObjKind Obj Spec Status} (o o' : Obj) f :
  k_meta o' = AddFinalizer (k_meta o) f -> sameObject false o o'.
Proof. unfold sameObject, keyOf. intros ->. split_and!; [apply add_key|apply Hfinalizer|intros _; apply Hfinalizer]. Qed.

(** A status update that is made only when something changed, with its error logged: the
    object has the wanted status afterwards, or is as it was. *)
Lemma status_settled {Obj} `{ObjKind Obj Spec Status} `{Store W Obj} `{EqDecision Obj} objs on `{!Part objs on}
    `{!StoreView view objs on} `{!StatusAccepted view objs} (existing o old : Obj) w u w' :
  objs (view w) !! keyOf o = Some old ->
  (if decide (existing = o) then ret tt else do! try (kStatusUpdate o); ret tt) w = (Ok u, w') ->
  exists o', sameObject false old o' /\ k_spec o' = k_spec old /\
    (k_status o' = k_status o \/ existing = o /\ o' = old) /\ view w' = on (insert (keyOf o) o') (view w).
Proof.
  intros Hold Hrun. destruct (decide (existing = o)) as [Heq|_].
  - unfold ret in Hrun. injection Hrun as _ <-. exists old. split_and!; [done..|by right|]. by rewrite part_same.
  - apply (status_logged objs on o old) in Hrun as (o' & ? & ? & ? & ?); [|done]. exists o'. split_and!; [done..|by left|done].
Qed.

(** An object made or patched for an owner. *)
Lemma owned_patch {Obj} `{ObjKind Obj Spec Status} `{Store W Obj} objs on `{!Part objs on} `{!StoreView view objs on}
    (fresh : Obj) (f : Obj -> Obj * option gerror) (spec : Spec) w o' w' :
  live fresh ->
  (forall o o1, f o = (o1, None) -> sameObject false o o1 /\ k_spec o1 = spec /\ k_status o1 = k_status o) ->
  kCreateOrPatch fresh (mutating f) w = (Ok (o', None), w') ->
  let old := default fresh (objs (view w) !! keyOf fresh) in
  sameObject (bool_decide (objs (view w) !! keyOf fresh = None)) old o' /\ k_spec o' = spec /\
  k_status o' = k_status old /\ view w' = on (insert (keyOf fresh) o') (view w).
Proof.
  intros Hlive Hf (w1 & m & w2 & Hw1 & Hm & Hrest)%patch_view old. unfold mutating, ret in Hm. injection Hm as Hm <-.
  apply Hf in Hm as ((Hk & Hd & Hu) & Hs & Ht). rewrite Hw1 in Hrest.
  assert (Hko : keyOf old = keyOf fresh).
  { unfold old. destruct (objs (view w) !! keyOf fresh) eqn:Ho; [by eapply keyed|done]. }
  fold old in Hk, Hd, Hu, Ht.
  destruct Hrest as ((Hk' & Hd' & Hu') & Hs' & Ht' & Hv); [congruence|]. split_and!; [|congruence..|done].
  split_and!; [congruence..|]. intros Hb. rewrite Hu' by done. by apply Hu.
Qed.

Lemma vm_stage k v w w' :
  (nn_namespace k <> "" \/ nn_name k = "") -> c_vmcs (view w) !! k = Some v -> live v ->
  vmconfig.Reconcile az k w = (Ok tt, w') ->
  exists v', view w' = on_vmcs (insert k v') (view w) /\ live v' /\ vmc_Spec v' = vmc_Spec v /\
    is_Some (vmc_Status v') /\ publishes (vmc_Spec v) (egressOf v').
Proof.
  intros Hk Hv Hlive. unfold vmconfig.Reconcile.
  assert (String.eqb (nn_namespace k) "" && negb (String.eqb (nn_name k) "") = false) as ->.
  { destruct Hk as [Hk|Hk]; [by apply String.eqb_neq in Hk; rewrite Hk|].
    apply String.eqb_eq in Hk. rewrite Hk. apply andb_false_r. }
  intros (Hkey & w1 & Hw1 & Hrun)%(found c_vmcs on_vmcs k v); [|done].
  apply bind_Ok_inv in Hrun as (g & w2 & (_ & Hw2)%get_view & Hrun). unfold live in Hlive. simpl in Hlive.
  rewrite Hlive in Hrun. apply reportEvents_Ok in Hrun as (w3 & Hrun & Hw').
  apply observed_Ok in Hrun as (w4 & Hrun & Hw3). rewrite Hw', Hw3. clear w' w3 Hw' Hw3.
  apply bind_Ok_inv in Hrun as (e & w5 & He & Hrun).
  apply (finalizer_ensured view c_vmcs on_vmcs) in He as ((Hek & Hed & _) & Hes & Het & Hw5);
    [|by rewrite Hkey, Hw2, Hw1|done|by eapply finalizer_same|done].
  rewrite Hkey, Hw2, Hw1 in Hw5. rewrite Hkey in Hek. cbn [k_spec k_status vmc_kind] in Hes, Het.
  apply bind_Ok_inv in Hrun as ([pool len] & w6 & Hload & Hrun).
  apply bind_Ok_inv in Hrun as ([[prefix prefixID] managed] & w7 & Hpx & Hrun).
  apply bind_Ok_inv in Hrun as ([v2 ips] & w8 & Hpool & Hrun).
  apply bind_Ok_inv in Hrun as ([] & w9 & Hdel & Hrun).
  assert (Hpub : publishes (vmc_Spec v) (if vmc_ProvisionPublicIps (vmc_Spec v) then prefix else Join ips ",")).
  { exists e, pool, len, prefix, prefixID, managed, v2, ips, w5, w6, w7, w8. done. }
  apply view_kept in Hload; [|intros c; apply keeps_loadPool, _].
  apply view_kept in Hpx; [|intros c; unfold publicip.ensurePublicIPPrefix, publicip.unmanagedPrefix, publicip.managedPrefix; keeps_tac].
  apply view_kept in Hdel; [|intros c; destruct managed; [keeps_tac|apply keeps_ensurePublicIPPrefixDeleted, _]].
  assert (exists s2, keyOf v2 = k /\ vmc_Spec v2 = vmc_Spec v /\ keyOf s2 = k /\ live s2 /\ vmc_Spec s2 = vmc_Spec v /\
            (is_Some (vmc_Status e) -> egressOf s2 = egressOf e /\ is_Some (vmc_Status s2)) /\
            view w9 = on_vmcs (insert k s2) (view w)) as (s2 & Hk2 & Hs2 & Hks & Hls & Hss & Hes2 & Hw9).
  { rewrite Hdel. apply poolReconcile_view in Hpool as [[[Hm Hs Heg Hst] Hw8]|(v1 & u1 & [Hm Hs Heg Hst] & Hu1 & Hup)].
    - exists e. unfold keyOf, live in *. simpl in *. split_and!; [congruence..|done|congruence].
    - apply status_view in Hup as (old & Hold & (Hko & Hdo & _) & Hso & Hto & Hv8).
      assert (Hk1 : keyOf v1 = k) by (unfold keyOf in *; simpl in *; congruence).
      rewrite Hk1, Hu1, Hpx, Hload, Hw5 in Hold, Hv8. rewrite part_on, lookup_insert_eq in Hold. injection Hold as <-.
      rewrite part_insert in Hv8. exists v2. unfold keyOf, live, egressOf in *. simpl in *.
      rewrite Hto. split_and!; [congruence..|auto|congruence]. }
  unfold vmconfig.updateStatus in Hrun.
  assert (Hnew : egressOf (vmconfig.withEgress v2 prefix ips) =
                 if vmc_ProvisionPublicIps (vmc_Spec v) then prefix else Join ips ",")
    by (unfold egressOf, vmconfig.withEgress; simpl; by rewrite Hs2).
  apply (status_settled c_vmcs on_vmcs _ _ s2) in Hrun as (o' & (Hko & Hdo & _) & Hso & Hto & Hvw).
  2:{ change (keyOf (vmconfig.withEgress v2 prefix ips)) with (keyOf v2). rewrite Hk2, Hw9, part_on. apply lookup_insert_eq. }
  change (keyOf (vmconfig.withEgress v2 prefix ips)) with (keyOf v2) in Hvw. rewrite Hk2, Hw9, part_insert in Hvw.
  rewrite <- Hnew in Hpub. assert (is_Some (vmc_Status o') /\ egressOf o' = egressOf (vmconfig.withEgress v2 prefix ips)) as [Hst Heg].
  { destruct Hto as [Hto|[Heq ->]]; [unfold egressOf; simpl in Hto; by rewrite Hto|].
    destruct Hes2 as [Hes2 Hsome]; [by rewrite Heq|]. by rewrite Hes2, Heq. }
  exists o'. unfold live in *. simpl in *. rewrite Heg. split_and!; [done|congruence|congruence|done|done].
Qed.

(** *** The LB configuration *)

Definition lbEgressOf (l : GatewayLBConfiguration) : string := lbc_EgressIpPrefix (lbconfig.status_or_new (lbc_Status l)).

(** What the owner's mutate function does to a VM configuration. *)
Lemma mutateVMConfig_same l o o1 :
  lbconfig.mutateVMConfig l o = (o1, None) ->
  sameObject false o o1 /\ vmc_Spec o1 = vmSpecOf (lbc_Spec l) /\ vmc_Status o1 = vmc_Status o.
Proof.
  unfold lbconfig.mutateVMConfig. destruct (SetControllerReference _ _) as [e|m] eqn:Hm; simpl; [done|].
  intros [= <-]. apply Howner in Hm as (Hk & Hd & Hu). by split_and!.
Qed.

(** The VM configuration is made or brought up to date, and its egress addresses are
    collected. *)
Lemma reconcileGatewayVMConfig_view e w l2 w' :
  (forall v, c_vmcs (view w) !! keyOf e = Some v -> live v) ->
  lbconfig.reconcileGatewayVMConfig e w = (Ok l2, w') ->
  exists v', view w' = on_vmcs (insert (keyOf e) v') (view w) /\ live v' /\
    vmc_Spec v' = vmSpecOf (lbc_Spec e) /\ vmc_Status v' = c_vmcs (view w) !! keyOf e ≫= vmc_Status /\
    lbc_meta l2 = lbc_meta e /\ lbEgressOf l2 = from_option vmc_EgressIpPrefix (lbEgressOf e) (vmc_Status v').
Proof.
  intros Hvlive Hvm. unfold lbconfig.reconcileGatewayVMConfig in Hvm.
  apply bind_Ok_inv in Hvm as ([v' err] & w1 & Hpatch & Hvm). apply bind_Ok_inv in Hvm as ([] & w2 & Hfail & Hvm).
  destruct err as [err|]; [by go_inv|]. unfold fail_with, ret in Hfail. injection Hfail as <-.
  apply (owned_patch c_vmcs on_vmcs _ _ (vmSpecOf (lbc_Spec e))) in Hpatch as ((Hvk & Hvd & _) & Hvs & Hvt & Hw1);
    [|done|intros o o1; apply mutateVMConfig_same].
  change (keyOf (lbconfig.newVMConfig e)) with (keyOf e) in *. simpl in Hvs, Hvt.
  assert (Hv'live : deleting (vmc_meta v') = false).
  { simpl in Hvd. rewrite Hvd. destruct (c_vmcs (view w) !! keyOf e) as [v|] eqn:Hv; [by apply Hvlive|done]. }
  rewrite Hv'live in Hvm. exists v'. split_and!; [|done|done|rewrite Hvt; by destruct (c_vmcs (view w) !! keyOf e)|..];
    unfold ret in Hvm; destruct (vmc_Status v'); by injection Hvm as <- <-.
Qed.

Lemma lb_stage k l w w' :
  c_lbcs (view w) !! k = Some l -> live l -> (forall v, c_vmcs (view w) !! k = Some v -> live v) ->
  lbconfig.Reconcile az LBProbePort k w = (Ok tt, w') ->
  exists e ip port u u' v' l',
    view w' = on_vmcs (insert k v') (on_lbcs (insert k l') (view w)) /\
    lbc_Spec e = lbc_Spec l /\ om_uid (lbc_meta e) = om_uid (lbc_meta l) /\
    lbconfig.reconcileLBRule az LBProbePort e true u = (Ok (ip, port), u') /\
    live v' /\ vmc_Spec v' = vmSpecOf (lbc_Spec l) /\ vmc_Status v' = c_vmcs (view w) !! k ≫= vmc_Status /\
    sameObject false l l' /\ lbc_Spec l' = lbc_Spec l /\
    lbc_Status l' = Some
      {| lbc_FrontendIp := ip; lbc_ServerPort := port;
         lbc_EgressIpPrefix := from_option vmc_EgressIpPrefix (lbEgressOf l) (vmc_Status v') |}.
Proof.
  intros Hl Hlive Hvlive. unfold lbconfig.Reconcile.
  intros (Hkey & w1 & Hw1 & Hrun)%(found c_lbcs on_lbcs k l); [|done].
  apply bind_Ok_inv in Hrun as (g & w2 & (_ & Hw2)%get_view & Hrun). unfold live in Hlive. simpl in Hlive.
  rewrite Hlive in Hrun. apply reportEvents_Ok in Hrun as (w3 & Hrun & Hw').
  apply observed_Ok in Hrun as (w4 & Hrun & Hw3). rewrite Hw', Hw3. clear w' w3 Hw' Hw3.
  apply bind_Ok_inv in Hrun as (e & w5 & He & Hrun).
  apply (finalizer_ensured view c_lbcs on_lbcs) in He as ((Hek & Hed & Heu) & Hes & Het & Hw5);
    [|by rewrite Hkey, Hw2, Hw1|done|by eapply finalizer_same|done].
  rewrite Hkey, Hw2, Hw1 in Hw5. rewrite Hkey in Hek. simpl in Hed, Heu, Hes, Het.
  apply bind_Ok_inv in Hrun as ([ip port] & w6 & Hrule & Hrun). apply bind_Ok_inv in Hrun as (l2 & w7 & Hvm & Hrun).
  pose proof Hrule as Hw6. apply view_kept in Hw6; [|intros c; apply keeps_reconcileLBRule, _].
  apply reconcileGatewayVMConfig_view in Hvm as (v' & Hw7 & Hv'l & Hv's & Hv't & Hl2m & Hl2e);
    rewrite Hek, Hw6, Hw5 in *; [|done].
  assert (Hk2 : om_key (lbc_meta l2) = k) by (unfold keyOf in Hek; simpl in Hek; congruence).
  apply (status_settled c_lbcs on_lbcs _ _ e) in Hrun as (o' & (Hko & Hdo & Huo) & Hso & Hto & Hvw);
    unfold keyOf in *; simpl in *; rewrite Hk2 in *; [|rewrite Hw7; simpl; apply lookup_insert_eq].
  assert (Hsame : sameObject false l o').
  { unfold sameObject, keyOf. simpl. split_and!; [congruence..|]. intros _. rewrite Huo by done. by apply Heu. }
  assert (Hview : view w4 = on_vmcs (insert k v') (on_lbcs (insert k o') (view w))).
  { rewrite Hvw, Hw7. unfold on_lbcs, on_vmcs. simpl. by rewrite insert_insert_eq. }
  exists e, ip, port, w5, w6, v', o'. split_and!; try done; try congruence; [exact (Heu eq_refl)|].
  assert (lbEgressOf e = lbEgressOf l) as <- by (unfold lbEgressOf; by rewrite Het).
  rewrite <- Hl2e. destruct Hto as [Hto|[Heq ->]]; [done|]. by apply (f_equal lbc_Status) in Heq.
Qed.

(** *** The gateway configuration *)

Definition secretKey (uid : string) : NamespacedName := nn SecretNamespace ("sgw-" +:+ uid).

(** The status collected from the secret and from the LB configuration's status. *)
Definition withKey (st : StaticGatewayConfigurationStatus) (s : Secret) : StaticGatewayConfigurationStatus :=
  {| sgc_EgressIpPrefix := sgc_EgressIpPrefix st;
     sgc_GatewayServerProfile :=
       {| gsp_Ip := gsp_Ip (sgc_GatewayServerProfile st); gsp_Port := gsp_Port (sgc_GatewayServerProfile st);
          gsp_PublicKey := default "" (sec_Data s !! consts.WireguardPublicKeyName);
          gsp_PrivateKeySecretRef := Some
            {| ref_APIVersion := "v1"; ref_Kind := "Secret";
               ref_Name := om_name (sec_meta s); ref_Namespace := om_namespace (sec_meta s) |} |} |}.
Definition withServer (st : StaticGatewayConfigurationStatus) (ls : option GatewayLBConfigurationStatus) :
    StaticGatewayConfigurationStatus :=
  match ls with
  | Some ls =>
      {| sgc_EgressIpPrefix := lbc_EgressIpPrefix ls;
         sgc_GatewayServerProfile :=
           {| gsp_Ip := lbc_FrontendIp ls; gsp_Port := lbc_ServerPort ls;
              gsp_PublicKey := gsp_PublicKey (sgc_GatewayServerProfile st);
              gsp_PrivateKeySecretRef := gsp_PrivateKeySecretRef (sgc_GatewayServerProfile st) |} |}
  | None => st
  end.

(** A secret the controller made is live and holds a key pair. *)
Definition goodSecret (s : Secret) : Prop := live s /\ key_pair s.

Lemma mutateSecret_view g s w m w2 :
  sec_Data s = ∅ \/ key_pair s -> sgc.mutateSecret g s w = (Ok (m, None), w2) ->
  view w2 = view w /\ key_pair m /\ sameObject false s m.
Proof.
  intros Hs. unfold sgc.mutateSecret. destruct (sec_Data s !! consts.WireguardPrivateKeyName) eqn:Hp.
  - unfold ret. intros [= <- <-]. destruct Hs as [Hs|Hs]; [by rewrite Hs, lookup_empty in Hp|]. by split_and!.
  - intros (r & w1 & Hr%try_Ok_inv & Hrun)%bind_Ok_inv. destruct r as [e|priv]; unfold ret in Hrun; [by injection Hrun|].
    injection Hrun as <- <-. pose proof (Hkeygen w) as Hv. simpl in Hr. rewrite Hr in Hv. split; [done|]. split; [|done].
    exists priv. simpl. by rewrite lookup_insert_ne, !lookup_insert_eq.
Qed.

(** The key pair is made once and then kept; the status refers to it. *)
Lemma reconcileWireguardKey_view g w g' w' :
  (forall s, c_secrets (view w) !! secretKey (om_uid (sgc_meta g)) = Some s -> goodSecret s) ->
  sgc.reconcileWireguardKey SecretNamespace g w = (Ok g', w') ->
  exists s', view w' = on_secrets (insert (secretKey (om_uid (sgc_meta g))) s') (view w) /\ goodSecret s' /\
    keyOf s' = secretKey (om_uid (sgc_meta g)) /\ g' = with_sgc_status g (withKey (sgc_Status g) s').
Proof.
  intros Hgood. unfold sgc.reconcileWireguardKey. intros ([s' err] & w1 & Hpatch & Hrun)%bind_Ok_inv.
  apply bind_Ok_inv in Hrun as ([] & w2 & Hfail & Hrun). destruct err as [err|]; [by go_inv|].
  unfold fail_with, ret in Hfail. injection Hfail as <-.
  apply patch_view in Hpatch as (u & m & u2 & Hu & Hm & Hrest).
  change (keyOf (sgc.newSecret SecretNamespace g)) with (secretKey (om_uid (sgc_meta g))) in *.
  set (sk := secretKey (om_uid (sgc_meta g))) in *.
  assert (Hold : let s := default (sgc.newSecret SecretNamespace g) (c_secrets (view w) !! sk) in
                 keyOf s = sk /\ live s /\ (sec_Data s = ∅ \/ key_pair s)).
  { destruct (c_secrets (view w) !! sk) as [s|] eqn:Hs; simpl; [|by split_and!; [..|left]].
    destruct (Hgood s eq_refl) as [Hl Hp]. split_and!; [by eapply keyed|done|by right]. }
  destruct Hold as (Hok & Hol & Hod). apply mutateSecret_view in Hm as (Hu2 & Hpair & (Hmk & Hmd & _)); [|done].
  destruct Hrest as ((Hk & Hd & _) & Hs & _ & Hv); [congruence|]. rewrite Hu2, Hu in Hv.
  unfold live in Hol. simpl in Hd, Hmd, Hs, Hol. rewrite Hd, Hmd, Hol in Hrun. unfold ret in Hrun. injection Hrun as <- <-.
  exists s'. split_and!; [done| |congruence|done]. split; [unfold live; simpl; congruence|].
  destruct Hpair as (key & Hp & Hq). exists key. by rewrite Hs.
Qed.

Lemma mutateLBConfig_same g o o1 :
  sgc.mutateLBConfig g o = (o1, None) ->
  sameObject false o o1 /\ lbc_Spec o1 = lbSpecOf (sgc_Spec g) /\ lbc_Status o1 = lbc_Status o.
Proof.
  unfold sgc.mutateLBConfig. destruct (SetControllerReference _ _) as [e|m] eqn:Hm; simpl; [done|].
  intros [= <-]. apply Howner in Hm as (Hk & Hd & Hu). by split_and!.
Qed.

(** The LB configuration is made or brought up to date, and its status is collected. *)
Lemma reconcileGatewayLBConfig_view g w g' w' :
  (forall l, c_lbcs (view w) !! keyOf g = Some l -> live l) ->
  sgc.reconcileGatewayLBConfig g w = (Ok g', w') ->
  exists l', view w' = on_lbcs (insert (keyOf g) l') (view w) /\ live l' /\
    lbc_Spec l' = lbSpecOf (sgc_Spec g) /\ lbc_Status l' = c_lbcs (view w) !! keyOf g ≫= lbc_Status /\
    (forall l, c_lbcs (view w) !! keyOf g = Some l -> om_uid (lbc_meta l') = om_uid (lbc_meta l)) /\
    g' = with_sgc_status g (withServer (sgc_Status g) (lbc_Status l')).
Proof.
  intros Hllive Hrun. unfold sgc.reconcileGatewayLBConfig in Hrun.
  apply bind_Ok_inv in Hrun as ([l' err] & w1 & Hpatch & Hrun). apply bind_Ok_inv in Hrun as ([] & w2 & Hfail & Hrun).
  destruct err as [err|]; [by go_inv|]. unfold fail_with, ret in Hfail. injection Hfail as <-.
  apply (owned_patch c_lbcs on_lbcs _ _ (lbSpecOf (sgc_Spec g))) in Hpatch as ((Hlk & Hld & Hlu) & Hls & Hlt & Hw1);
    [|done|intros o o1; apply mutateLBConfig_same].
  change (keyOf (sgc.newLBConfig g)) with (keyOf g) in *. simpl in Hls, Hlt.
  assert (Hl'live : deleting (lbc_meta l') = false).
  { simpl in Hld. rewrite Hld. destruct (c_lbcs (view w) !! keyOf g) as [l|] eqn:Hl; [by apply Hllive|done]. }
  rewrite Hl'live in Hrun. exists l'.
  split_and!; [|done|done|rewrite Hlt; by destruct (c_lbcs (view w) !! keyOf g)|intros l Hl; rewrite Hl in Hlu; by apply Hlu|];
    unfold ret in Hrun; destruct (lbc_Status l'); injection Hrun as <- <-; [done..|by destruct g].
Qed.

(** The whole of the function given to [CreateOrPatch]. *)
Lemma mutateGwConfig_view g w m w2 :
  (forall l, c_lbcs (view w) !! keyOf g = Some l -> live l) ->
  (forall s, c_secrets (view w) !! secretKey (om_uid (sgc_meta g)) = Some s -> goodSecret s) ->
  sgc.mutateGwConfig SecretNamespace g w = (Ok (m, None), w2) ->
  exists l' s',
    view w2 = on_lbcs (insert (keyOf g) l') (on_secrets (insert (secretKey (om_uid (sgc_meta g))) s') (view w)) /\
    goodSecret s' /\ keyOf s' = secretKey (om_uid (sgc_meta g)) /\
    live l' /\ lbc_Spec l' = lbSpecOf (sgc_Spec g) /\ lbc_Status l' = c_lbcs (view w) !! keyOf g ≫= lbc_Status /\
    (forall l, c_lbcs (view w) !! keyOf g = Some l -> om_uid (lbc_meta l') = om_uid (lbc_meta l)) /\
    m = with_sgc_status g (withServer (withKey (sgc_Status g) s') (lbc_Status l')).
Proof.
  intros Hll Hgood. unfold sgc.mutateGwConfig. intros (r & w1 & Hr%try_Ok_inv & Hrun)%bind_Ok_inv.
  destruct r as [e|g1]; simpl in Hr; [by go_inv|].
  apply reconcileWireguardKey_view in Hr as (s' & Hv1 & Hs' & Hks & Hg1); [|done].
  apply bind_Ok_inv in Hrun as (r & w3 & Hr%try_Ok_inv & Hrun). destruct r as [e|g2]; simpl in Hr; [by go_inv|].
  assert (keyOf g1 = keyOf g) as Hkg by (by rewrite Hg1).
  apply reconcileGatewayLBConfig_view in Hr as (l' & Hv2 & Hl' & Hls & Hlt & Hlu & Hg2); rewrite Hkg, Hv1 in *; [|done].
  unfold ret in Hrun. injection Hrun as <- <-. exists l', s'. rewrite Hv2, Hg2, Hg1 in *. by split_and!.
Qed.

Lemma sgc_stage k g w w' :
  c_sgcs (view w) !! k = Some g -> live g -> (forall l, c_lbcs (view w) !! k = Some l -> live l) ->
  (forall s, c_secrets (view w) !! secretKey (om_uid (sgc_meta g)) = Some s -> goodSecret s) ->
  sgc.Reconcile SecretNamespace k w = (Ok tt, w') ->
  exists g' l' s',
    view w' = on_sgcs (insert k g') (on_lbcs (insert k l') (on_secrets (insert (secretKey (om_uid (sgc_meta g))) s') (view w))) /\
    goodSecret s' /\ keyOf s' = secretKey (om_uid (sgc_meta g)) /\
    live l' /\ lbc_Spec l' = lbSpecOf (sgc_Spec g) /\ lbc_Status l' = c_lbcs (view w) !! k ≫= lbc_Status /\
    (forall l, c_lbcs (view w) !! k = Some l -> om_uid (lbc_meta l') = om_uid (lbc_meta l)) /\
    sameObject false g g' /\ sgc_Spec g' = sgc_Spec g /\
    sgc_Status g' = withServer (withKey (sgc_Status g) s') (lbc_Status l').
Proof.
  intros Hg Hlive Hll Hgood. unfold sgc.Reconcile.
  intros (Hkey & w1 & Hw1 & Hrun)%(found c_sgcs on_sgcs k g); [|done]. unfold live in Hlive. simpl in Hlive.
  rewrite Hlive in Hrun. unfold sgc.reconcile in Hrun. apply bind_Ok_inv in Hrun as (err & w2 & Hrun & Hfail).
  destruct err as [err|]; [by go_inv|]. unfold fail_with, ret in Hfail. injection Hfail as <-.
  apply observed_Ok in Hrun as (w3 & Hrun & Hw3). rewrite Hw3. clear w2 Hw3.
  unfold sgc.reconcileBody in Hrun. apply bind_Ok_inv in Hrun as ([] & w4 & Hval & Hrun).
  destruct (validate g); [by go_inv|]. unfold ret in Hval. injection Hval as <-.
  apply bind_Ok_inv in Hrun as (e & w5 & He & Hrun).
  apply (finalizer_ensured view c_sgcs on_sgcs) in He as ((Hek & Hed & Heu) & Hes & Het & Hw5);
    [|by rewrite Hkey, Hw1|done|by eapply finalizer_same|done].
  rewrite Hkey, Hw1 in Hw5. rewrite Hkey in Hek. simpl in Hed, Heu, Hes, Het.
  apply bind_Ok_inv in Hrun as ([g' err] & w6 & Hpatch & Hrun).
  assert (err = None /\ view w3 = view w6) as [-> Hw3].
  { destruct (String.eqb _ ""); apply bind_Ok_inv in Hrun as ([] & w7 & Hev & Hret); unfold ret in Hret;
      injection Hret as -> ->; (split; [done|]); unfold sgc.event, effect in Hev; injection Hev as <-; apply Hevent. }
  apply patch_view in Hpatch as (u & m & u2 & Hu & Hm & Hrest). rewrite Hek, Hw5, part_on, lookup_insert_eq in *.
  specialize (Heu eq_refl). cbn [default from_option id] in Hm.
  apply mutateGwConfig_view in Hm as (l' & s' & Hu2 & Hs' & Hks & Hl' & Hls & Hlt & Hlu & ->);
    [|intros l; rewrite Hek, Hu; apply Hll|intros s; rewrite Heu, Hu; apply Hgood].
  rewrite Hek, Hu in Hlt, Hlu. rewrite Hek, Heu, Hu in Hu2. rewrite Heu in Hks.
  destruct Hrest as ((Hk & Hd & Hu') & Hs & Ht & Hv); [done|]. simpl in Hd, Hu', Hs, Ht.
  assert (Hsame : sameObject false g g').
  { unfold sameObject, keyOf in *. simpl in *. split_and!; [congruence..|]. intros _. rewrite Hu'; [done|reflexivity]. }
  exists g', l', s'. rewrite Hw3, Hv, Hu2, <- Hes, <- Het. unfold on_sgcs, on_lbcs, on_secrets. simpl.
  rewrite insert_insert_eq. by split_and!.
Qed.

(** An object that is not there is passed over. *)
Lemma passed_over {Obj} `{ObjKind Obj Spec Status} `{Store W Obj} objs on `{!StoreView view objs on} k
    (f : Obj -> M W unit) w w' :
  objs (view w) !! k = None ->
  (let! r := try (kGet k) in
   match r with inl err => if IsNotFound err then ret tt else throw err | inr o => f o end) w = (Ok tt, w') ->
  view w' = view w.
Proof.
  intros Ho ([e|o1] & w1 & Hget%try_Ok_inv & Hrun)%bind_Ok_inv; simpl in *.
  - apply get_fails in Hget as [Hv _]. destruct (IsNotFound e); [|by go_inv]. unfold ret in Hrun. by injection Hrun as <-.
  - apply get_view in Hget as [Ho1 _]. congruence.
Qed.

(** ** The reconciliations together *)

Inductive controller := GatewayController | LBController | VMController | Elsewhere.

(** What the controllers of one gateway share. *)
Context (k : NamespacedName) (uid : string) (spec : StaticGatewayConfigurationSpec) `{!LBServer az}.
Definition objectsOf (c : Cluster) :=
  (c_sgcs c !! k, c_lbcs c !! k, c_vmcs c !! k, c_secrets c !! secretKey uid).

(** One turn: a reconciliation of one of the gateway's objects that returns without an
    error, or anything that leaves these objects alone. *)
Inductive turn : controller -> W -> W -> Prop :=
| turn_gateway w w' : sgc.Reconcile SecretNamespace k w = (Ok tt, w') -> turn GatewayController w w'
| turn_lb w w' : lbconfig.Reconcile az LBProbePort k w = (Ok tt, w') -> turn LBController w w'
| turn_vm w w' : vmconfig.Reconcile az k w = (Ok tt, w') -> turn VMController w w'
| turn_elsewhere w w' : objectsOf (view w') = objectsOf (view w) -> turn Elsewhere w w'.
(** A history: whose turn it was, from which state to which. *)
Definition history : Type := list (controller * W * W).
Definition whose (e : controller * W * W) : controller := e.1.1.
Inductive turns : history -> W -> W -> Prop :=
| turns_nil w : turns [] w w
| turns_cons c h w1 w2 w3 : turn c w1 w2 -> turns h w2 w3 -> turns ((c, w1, w2) :: h) w1 w3.

(** The gateway is wanted, and nothing made for it is being deleted. *)
Record wanted (c : Cluster) : Prop := {
  wanted_sgc : exists g, c_sgcs c !! k = Some g /\ live g /\ sgc_Spec g = spec /\ om_uid (sgc_meta g) = uid;
  wanted_lbc l : c_lbcs c !! k = Some l -> live l;
  wanted_vmc v : c_vmcs c !! k = Some v -> live v;
  wanted_secret s : c_secrets c !! secretKey uid = Some s -> goodSecret s;
}.

(** The load balancer serves the gateway of the LB configuration at an address and a
    port. *)
Definition forwards (l : GatewayLBConfiguration) (ip : string) (port : Z) : Prop :=
  exists e pool names lb p,
    lbc_Spec e = lbc_Spec l /\ om_uid (lbc_meta e) = om_uid (lbc_meta l) /\
    getLBPropertyName e pool = Ok names /\ lb_Properties lb = Some p /\ serves az LBProbePort names e ip port p.

Section with_history.
Context (h : history).

(** In the history, the LB controller wrote this address and port into the LB
    configuration, where the load balancer serves the gateway. *)
Definition assigned (l : GatewayLBConfiguration) (ip : string) (port : Z) : Prop :=
  exists w1 w2 l1 st, (LBController, w1, w2) ∈ h /\
    c_lbcs (view w2) !! k = Some l1 /\ lbc_Spec l = lbc_Spec l1 /\ om_uid (lbc_meta l) = om_uid (lbc_meta l1) /\
    lbc_Status l1 = Some st /\ lbc_FrontendIp st = ip /\ lbc_ServerPort st = port /\ forwards l1 ip port.

(** In the history, the VM controller published these egress addresses for the
    gateway's specification. *)
Definition published (egress : string) : Prop :=
  exists w1 w2 v st, (VMController, w1, w2) ∈ h /\
    c_vmcs (view w2) !! k = Some v /\ vmc_Spec v = vmSpecOf (lbSpecOf spec) /\
    vmc_Status v = Some st /\ vmc_EgressIpPrefix st = egress /\ publishes (vmc_Spec v) egress.

(** The gateway's status: an address and a port that the load balancer serves, egress
    addresses that the VM controller published, and the public key of the private key
    in the secret it refers to. *)
Definition ready (c : Cluster) : Prop :=
  exists g l s priv,
    c_sgcs c !! k = Some g /\ c_lbcs c !! k = Some l /\ c_secrets c !! secretKey uid = Some s /\
    let profile := sgc_GatewayServerProfile (sgc_Status g) in
    assigned l (gsp_Ip profile) (gsp_Port profile) /\
    published (sgc_EgressIpPrefix (sgc_Status g)) /\
    sec_Data s !! consts.WireguardPrivateKeyName = Some priv /\ gsp_PublicKey profile = PublicKeyOf priv /\
    exists ref, gsp_PrivateKeySecretRef profile = Some ref /\ nn (ref_Namespace ref) (ref_Name ref) = secretKey uid.

(** The way there, and whose turn it is at each point. *)
Definition milestone (i : nat) (c : Cluster) : Prop :=
  match i with
  | 0 => exists l, c_lbcs c !! k = Some l /\ lbc_Spec l = lbSpecOf spec
  | 1 => exists v, c_vmcs c !! k = Some v /\ vmc_Spec v = vmSpecOf (lbSpecOf spec)
  | 2 => exists v st, c_vmcs c !! k = Some v /\ vmc_Status v = Some st /\
           published (vmc_EgressIpPrefix st)
  | 3 => exists l st, c_lbcs c !! k = Some l /\ lbc_Status l = Some st /\
           assigned l (lbc_FrontendIp st) (lbc_ServerPort st) /\
           published (lbc_EgressIpPrefix st)
  | _ => ready c
  end.
Definition chain : list controller := [GatewayController; LBController; VMController; LBController; GatewayController].

(** A turn that keeps the milestones and reaches the next one when it is its turn. *)
Definition advances (x : controller) (c c' : Cluster) : Prop :=
  wanted c' /\
  forall i, i < 5 -> (forall j, j < i -> milestone j c) -> milestone i c \/ chain !! i = Some x -> milestone i c'.

Lemma advances_same x c c' :
  wanted c -> objectsOf c' = objectsOf c ->
  (forall i, (forall j, j < i -> milestone j c) -> chain !! i = Some x -> milestone i c) -> advances x c c'.
Proof.
  intros [Hg Hl Hv Hs] Hobj Hnext. unfold objectsOf in Hobj. injection Hobj as Eg El Ev Es.
  assert (Hm : forall i, milestone i c <-> milestone i c').
  { intros [|[|[|[|i]]]]; simpl; unfold ready; by rewrite ?Eg, ?El, ?Ev, ?Es. }
  split; [split; rewrite ?Eg, ?El, ?Ev, ?Es; done|]. intros i Hi Hj [Hi'|Hx]; apply Hm; [done|by apply Hnext].
Qed.

Lemma assigned_same l l' ip port :
  lbc_Spec l' = lbc_Spec l -> om_uid (lbc_meta l') = om_uid (lbc_meta l) -> assigned l ip port -> assigned l' ip port.
Proof. intros Hs Hu (w1 & w2 & l1 & st & Hrest). exists w1, w2, l1, st. by rewrite Hs, Hu. Qed.

Lemma vm_advances w w' :
  nn_namespace k <> "" -> (VMController, w, w') ∈ h -> wanted (view w) -> vmconfig.Reconcile az k w = (Ok tt, w') ->
  advances VMController (view w) (view w').
Proof.
  intros Hns Hin Hw Hrun. destruct (c_vmcs (view w) !! k) as [v|] eqn:Hv.
  - destruct (vm_stage k v w w') as (v' & Hview & Hl' & Hs' & [st Hst] & Hpub);
      [by left|done|by apply Hw|done|]. rewrite Hview.
    destruct Hw as [Hg Hl Hvm Hs]. split; [split; simpl; [done..| |done]; rewrite lookup_insert_eq; by intros ? [= <-]|].
    intros [|[|[|[|i]]]] Hi Hj Hcase; simpl in *; unfold ready in *; simpl.
    + destruct Hcase as [?|[=]]; done.
    + destruct Hcase as [(? & ? & ?)|[=]]. rewrite lookup_insert_eq. exists v'. split; [done|]. congruence.
    + destruct (Hj 1) as (v0 & Hv0 & Hspec); [lia|]. rewrite lookup_insert_eq. exists v', st. split_and!; [done..|].
      unfold egressOf in Hpub. rewrite Hst in Hpub. simpl in Hpub. exists w, w', v', st.
      rewrite Hview, Hs', part_on, lookup_insert_eq. split_and!; try done. congruence.
    + destruct Hcase as [?|[=]]; done.
    + destruct Hcase as [?|Hx]; [done|]. by destruct i.
  - unfold vmconfig.Reconcile in Hrun. apply String.eqb_neq in Hns. rewrite Hns in Hrun. simpl in Hrun.
    apply (passed_over c_vmcs on_vmcs) in Hrun; [|done]. rewrite Hrun. apply advances_same; [done..|].
    intros [|[|[|[|[|i]]]]] Hj [=]. destruct (Hj 1) as (v & Hv' & _); [lia|]. congruence.
Qed.

Lemma lb_advances w w' :
  (LBController, w, w') ∈ h -> wanted (view w) -> lbconfig.Reconcile az LBProbePort k w = (Ok tt, w') ->
  advances LBController (view w) (view w').
Proof.
  intros Hin Hw Hrun. destruct (c_lbcs (view w) !! k) as [l|] eqn:Hl.
  - destruct (lb_stage k l w w') as (e & ip & port & u & u' & v' & l' & Hview & Hes & Heu & Hrule & Hv'l & Hv's & Hv't & Hl' & Hl's & Hl't);
      [done|by apply Hw..|done|]. rewrite Hview.
    assert (Hfw : forwards l' ip port).
    { apply (reconcileLBRule_cases az) in Hrule as (pool & names & lb & p & Hn & Hp & Hserves & _).
      exists e, pool, names, lb, p. split_and!; try done; [congruence|]. destruct Hl' as (_ & _ & Hu). simpl in Hu. by rewrite Hu. }
    assert (Has : assigned l' ip port).
    { eexists w, w', l', _. rewrite Hview. simpl. rewrite lookup_insert_eq. split_and!; try done. }
    pose proof Hl' as (Hlk & Hld & Hlu). simpl in Hld, Hlu. destruct Hw as [Hg Hlb Hvm Hs]. split.
    { split; simpl; [done| | |done]; rewrite lookup_insert_eq; intros ? [= <-]; [|done]. unfold live. simpl. rewrite Hld. by apply Hlb. }
    intros [|[|[|[|i]]]] Hi Hj Hcase; simpl in *; unfold ready in *; simpl; rewrite ?lookup_insert_eq.
    + destruct Hcase as [(l0 & ? & ?)|[=]]. exists l'. split; [done|]. congruence.
    + destruct (Hj 0) as (l0 & ? & ?); [lia|]. exists v'. split; [done|]. congruence.
    + destruct Hcase as [(v0 & st & Hv0 & Hst & Hpub)|[=]]. exists v', st. rewrite Hv't, Hv0. by split_and!.
    + destruct (Hj 2) as (v0 & st & Hv0 & Hst & Hpub); [lia|]. eexists l', _. split_and!; [done..|]. simpl.
      by rewrite Hv't, Hv0; simpl; rewrite Hst.
    + destruct Hcase as [(g & l0 & s & priv & ? & ? & ? & Hf & ?)|Hx]; [|by destruct i]. exists g, l', s, priv. do 3 (split; [done|]).
      split; [|done]. apply (assigned_same l0); [congruence|rewrite Hlu by done; congruence|done].
  - apply (passed_over c_lbcs on_lbcs) in Hrun; [|done]. rewrite Hrun. apply advances_same; [done..|].
    intros [|[|[|[|[|i]]]]] Hj [=]; (destruct (Hj 0) as (l & Hl' & _); [lia|]; congruence).
Qed.

Lemma gateway_advances w w' :
  wanted (view w) -> sgc.Reconcile SecretNamespace k w = (Ok tt, w') ->
  advances GatewayController (view w) (view w').
Proof.
  intros [(g & Hg & Hlive & Hspec & Huid) Hlb Hvm Hs] Hrun. 
  destruct (sgc_stage k g w w') as (g' & l' & s' & Hview & Hs' & Hks & Hl'l & Hl's & Hl't & Hl'u & Hg' & Hg's & Hg't);
    [done..|by rewrite Huid|done|]. rewrite Hview.
  rewrite Huid, Hspec in *. pose proof Hg' as (Hgk & Hgd & Hgu). simpl in Hgd, Hgu. split.
  { split; simpl; rewrite ?lookup_insert_eq; [|intros ? [= <-]; done|done|intros ? [= <-]; done].
    exists g'. split_and!; [done|unfold live in *; simpl in *; congruence|congruence|by rewrite Hgu]. }
  intros [|[|[|[|i]]]] Hi Hj Hcase; simpl in *; unfold ready in *; simpl; rewrite ?lookup_insert_eq.
  - by exists l'.
  - by destruct Hcase as [?|[=]].
  - by destruct Hcase as [?|[=]].
  - destruct Hcase as [(l0 & st & Hl0 & Hst & Hf & Hpub)|[=]]. destruct (Hj 0) as (l1 & ? & ?); [lia|].
    exists l', st. split_and!; [done|by rewrite Hl't, Hl0| |done]. apply (assigned_same l0); [congruence|by apply Hl'u|done].
  - destruct (Hj 3) as (l0 & st & Hl0 & Hst & Hf & Hpub); [lia|]. destruct (Hj 0) as (l1 & ? & ?); [lia|].
    destruct Hs' as [_ (priv & Hpriv & Hpk)]. exists g', l', s', priv. do 3 (split; [done|]). rewrite Hg't, Hl't, Hl0. simpl. rewrite Hst. simpl.
    split_and!; [|done|done|by rewrite Hpk|eexists; split; [done|exact Hks]]. apply (assigned_same l0); [congruence|by apply Hl'u|done].
Qed.

Lemma turn_advances x w w' :
  nn_namespace k <> "" -> turn x w w' -> (x, w, w') ∈ h -> wanted (view w) -> advances x (view w) (view w').
Proof.
  intros Hns Hturn Hin Hw. destruct Hturn; [by apply gateway_advances|by apply lb_advances|by apply vm_advances|].
  apply advances_same; [done..|]. by intros [|[|[|[|[|i]]]]] _ [=].
Qed.

Lemma turns_reach l w w' :
  nn_namespace k <> "" -> turns l w w' -> l ⊆ h -> forall n, n <= 5 -> wanted (view w) -> (forall j, j < n -> milestone j (view w)) ->
  drop n chain `sublist_of` (whose <$> l) -> forall j, j < 5 -> milestone j (view w').
Proof.
  intros Hns Hturns. induction Hturns as [w|x l w1 w2 w3 Hx _ IH]; intros Hin n Hn Hw Hm Hsub.
  - apply sublist_nil_r in Hsub. apply (f_equal length) in Hsub. rewrite length_drop in Hsub. simpl in Hsub.
    intros j Hj. apply Hm. lia.
  - apply turn_advances in Hx as [Hw' Hadv]; [|done|apply Hin; left|done].
    assert (l ⊆ h) by (intros e He; apply Hin; by right). simpl in Hsub. apply sublist_cons_r in Hsub as [Hsub|(rest & Hd & Hsub)].
    + apply (IH ltac:(done) n); [done..| |done]. intros j Hj. apply Hadv; [lia| |by left; apply Hm]. intros i Hi. apply Hm. lia.
    + assert (Hc : chain !! n = Some x) by (rewrite <- (Nat.add_0_r n), <- lookup_drop, Hd; done).
      assert (n < 5) by (by apply lookup_lt_Some in Hc).
      apply (IH ltac:(done) (S n)); [lia|done| |].
      * intros j Hj. apply Hadv; [lia| |]. { intros i Hi. apply Hm. lia. }
        destruct (decide (j = n)) as [->|]; [by right|left; apply Hm; lia].
      * replace (S n) with (n + 1) by lia. rewrite <- drop_drop, Hd. simpl. by rewrite drop_0.
Qed.
End with_history.

End stages.
