(* ===== verification/ProvisioningWitness.v ===== *)
(** * A gateway being provisioned

    The API server of [Sim] keeps what [Provisioning] asks of it, and the reconciliations
    of the three controllers run there one after the other. *)

From stdpp Require Import base tactics list strings gmap.
From Stdlib Require Import ZArith Lia.
From S2P Require Import Prelude GoStrings Types Kube Config Azure Sim LBRules LBConfig VMNet PublicIP AgentPoolVMs VMConfig.
From S2P Require Import ManagerSGC Provisioning.
Import DirectBackoff ListMeta.

Open Scope string_scope.
Open Scope list_scope.

(** The objects that are filed under their own names. *)
Definition filed {Obj} (meta : Obj -> ObjectMeta) (m : gmap NamespacedName Obj) : gmap NamespacedName Obj :=
  filter (fun kv => om_key (meta kv.2) = kv.1) m.

Definition simView (w : World) : Cluster :=
  {| c_sgcs := filed sgc_meta (w_sgcs w); c_lbcs := filed lbc_meta (w_lbcs w);
     c_vmcs := filed vmc_meta (w_vmcs w); c_secrets := filed sec_meta (w_secrets w) |}.

Lemma filed_lookup {Obj} (meta : Obj -> ObjectMeta) m k o :
  filed meta m !! k = Some o <-> m !! k = Some o /\ om_key (meta o) = k.
Proof. unfold filed. rewrite map_lookup_filter_Some. done. Qed.
Lemma filed_insert {Obj} (meta : Obj -> ObjectMeta) m o :
  filed meta (<[om_key (meta o) := o]> m) = <[om_key (meta o) := o]> (filed meta m).
Proof. unfold filed. by rewrite map_filter_insert_True. Qed.

(** The laws for one kind of object of [Sim]. *)
Section sim_store.
Context {Obj Spec Status : Type} `{OK : ObjKind Obj Spec Status}.
Context (get : World -> gmap NamespacedName Obj) (put : gmap NamespacedName Obj -> World -> World)
  (with_meta : Obj -> ObjectMeta -> Obj) (with_status : Obj -> Obj -> Obj).
Context (objs : Cluster -> gmap NamespacedName Obj)
  (on : (gmap NamespacedName Obj -> gmap NamespacedName Obj) -> Cluster -> Cluster).
Context (Hobjs : forall w, objs (simView w) = filed k_meta (get w)).
Context (Hput : forall k o w, om_key (k_meta o) = k ->
           simView (put (<[k := o]> (get w)) w) = on (insert k o) (simView w)).
Context (Hmeta : forall o s, k_meta (with_status o s) = k_meta o) (Hspec : forall o s, k_spec (with_status o s) = k_spec o)
        (Hstatus : forall o s, k_status (with_status o s) = k_status s).
#[local] Instance the_store : Store World Obj := store_of get put k_meta with_meta with_status.

Lemma fetch_cases k w :
  match objs (simView w) !! k with
  | Some o => fetch get k_meta k w = (Ok o, w) /\ om_key (k_meta o) = k
  | None => fetch get k_meta k w = (Err (EStatus "NotFound" "not found"), w)
  end.
Proof.
  rewrite Hobjs. unfold fetch, not_found, throw. destruct (filed k_meta (get w) !! k) as [o|] eqn:Ho.
  - apply filed_lookup in Ho as [-> Hk]. by rewrite decide_True.
  - destruct (get w !! k) as [o|] eqn:Hg; [|done]. rewrite decide_False; [done|]. intros Hk.
    assert (filed k_meta (get w) !! k = Some o) by (by apply filed_lookup). congruence.
Qed.

Lemma sim_store_view : StoreView simView objs on.
Proof.
  split.
  - intros k w o. rewrite Hobjs. intros [_ Hk]%filed_lookup. done.
  - intros k w o w'. simpl. pose proof (fetch_cases k w) as Hf.
    destruct (objs (simView w) !! k) as [o1|]; [destruct Hf as [-> _]|rewrite Hf]; [by intros [= -> ->]|done].
  - intros k w e w'. simpl. pose proof (fetch_cases k w) as Hf.
    destruct (objs (simView w) !! k) as [o1|]; [destruct Hf as [-> _]|rewrite Hf]; [done|by intros [= <- <-]].
  - intros o w o' w' Hu Hl. simpl in Hu. unfold bind in Hu. pose proof (fetch_cases (om_key (k_meta o)) w) as Hf.
    unfold keyOf. destruct (objs (simView w) !! om_key (k_meta o)) as [old|]; [destruct Hf as [Hf Hk]|]; rewrite Hf in Hu; [|done].
    unfold live, deleting in Hl. destruct (om_deletion (k_meta o)); [done|].
    assert (save get put k_meta (with_status o old) w = (Ok o', w')) as Hs by (by destruct (om_finalizers (k_meta o))).
    unfold save in Hs. injection Hs as <- <-. exists old. unfold sameObject, keyOf.
    rewrite Hput, Hmeta, Hspec, Hstatus by (by rewrite Hmeta). done.
  - intros o w o' w' Hu. simpl in Hu. unfold bind in Hu. pose proof (fetch_cases (om_key (k_meta o)) w) as Hf.
    unfold keyOf. destruct (objs (simView w) !! om_key (k_meta o)) as [old|]; [destruct Hf as [Hf Hk]|]; rewrite Hf in Hu; [|done].
    unfold save in Hu. injection Hu as <- <-. exists old. unfold sameObject, keyOf.
    rewrite Hput, Hmeta, Hspec, Hstatus, Hk by (by rewrite Hmeta). done.
  - intros o f w o' w' (r & w1 & Hr%try_Ok_inv & Hu)%bind_Ok_inv.
    apply bind_Ok_inv in Hu as ([m [err|]] & w2 & Hm & Hu); [unfold ret in Hu; by injection Hu|].
    apply bind_Ok_inv in Hu as (o2 & w3 & Hsv & Hu). unfold ret in Hu. injection Hu as -> ->.
    unfold save in Hsv. injection Hsv as <- <-. unfold keyOf. pose proof (fetch_cases (om_key (k_meta o)) w) as Hf.
    exists w, m, w2. split; [done|]. split.
    + destruct (objs (simView w) !! om_key (k_meta o)) as [old|]; [destruct Hf as [Hf _]|]; rewrite Hf in Hr;
        destruct r; simpl in Hr; simplify_eq/=; exact Hm.
    + intros Hk. unfold sameObject, keyOf. rewrite Hput by done. by rewrite Hk.
Qed.

Lemma sim_status_accepted : StatusAccepted simView objs.
Proof.
  intros o w [old Ho]. simpl. unfold bind. pose proof (fetch_cases (om_key (k_meta o)) w) as Hf.
  unfold keyOf in Ho. rewrite Ho in Hf. destruct Hf as [-> _]. done.
Qed.
End sim_store.

Lemma filed_put {Obj} (meta : Obj -> ObjectMeta) m k o :
  om_key (meta o) = k -> filed meta (<[k := o]> m) = <[k := o]> (filed meta m).
Proof. intros <-. apply filed_insert. Qed.

(** The four kinds. *)
Ltac sim_view law :=
  refine (law _ _ _ _ _ _ _ _ _); try done; try (by intros ? []);
  intros k o w Hk; unfold simView; simpl; by rewrite filed_put.
#[export] Instance sim_sgcs : StoreView simView c_sgcs on_sgcs.
Proof. sim_view (sim_store_view w_sgcs put_sgcs). Qed.
#[export] Instance sim_lbcs : StoreView simView c_lbcs on_lbcs.
Proof. sim_view (sim_store_view w_lbcs put_lbcs). Qed.
#[export] Instance sim_vmcs : StoreView simView c_vmcs on_vmcs.
Proof. sim_view (sim_store_view w_vmcs put_vmcs). Qed.
#[export] Instance sim_secrets : StoreView simView c_secrets on_secrets.
Proof. sim_view (sim_store_view w_secrets put_secrets). Qed.
#[export] Instance sim_lbcs_accepted : StatusAccepted simView c_lbcs.
Proof. by refine (sim_status_accepted w_lbcs put_lbcs _ _ _ _). Qed.
#[export] Instance sim_vmcs_accepted : StatusAccepted simView c_vmcs.
Proof. by refine (sim_status_accepted w_vmcs put_vmcs _ _ _ _). Qed.

(** ** The run *)

Definition pool_tags : gmap string (option string) := {[ consts.AKSNodepoolTagKey := Some "gwpool" ]}.
Definition tagged_vmss : VirtualMachineScaleSet :=
  {| vmss_Name := vmss_Name vm_vmss; vmss_Location := vmss_Location vm_vmss;
     vmss_Tags := <[consts.AKSNodepoolIPPrefixSizeTagKey := Some "31"]> pool_tags; vmss_Properties := vmss_Properties vm_vmss |}.
(** A gateway with private egress addresses. *)
Definition private_spec : StaticGatewayConfigurationSpec :=
  {| sgc_GatewayNodepoolName := "gwpool"; sgc_GatewayVmssProfile := sgc_GatewayVmssProfile (sgc_Spec (sample_sgc None));
     sgc_DefaultRoute := RouteStaticEgressGateway; sgc_ProvisionPublicIps := false;
     sgc_PublicIpPrefixId := ""; sgc_ExcludeCidrs := [] |}.
Definition wanted_gw : StaticGatewayConfiguration :=
  {| sgc_meta := sgc_meta (sample_sgc None); sgc_Spec := private_spec; sgc_Status := sgc_Status (sample_sgc None) |}.
Definition world0 : World :=
  put_sgcs {[ nn "ns" "gw1" := wanted_gw ]}
    (set_instances {[ ("vmss", "0") := vm_instance "0" "node-0" ]} (set_vmss {[ "vmss" := tagged_vmss ]} empty_world)).
Definition gwKey : NamespacedName := nn "ns" "gw1".
Definition world1 : World := Eval vm_compute in snd (sgc.Reconcile "keys" gwKey world0).
Definition world2 : World := Eval vm_compute in snd (lbconfig.Reconcile sim_az 8082 gwKey world1).
Definition world3 : World := Eval vm_compute in snd (vmconfig.Reconcile sim_az gwKey world2).
Definition world4 : World := Eval vm_compute in snd (lbconfig.Reconcile sim_az 8082 gwKey world3).
Definition world5 : World := Eval vm_compute in snd (sgc.Reconcile "keys" gwKey world4).

(** The gateway's status at the end. *)
Example provisioned_status :
  sgc_Status <$> (w_sgcs world5 !! gwKey) = Some
    {| sgc_EgressIpPrefix := "10.1.egressgateway-";
       sgc_GatewayServerProfile :=
         {| gsp_Ip := "10.0.0.4"; gsp_Port := 6000; gsp_PublicKey := "public-of-private";
            gsp_PrivateKeySecretRef := Some
              {| ref_APIVersion := "v1"; ref_Kind := "Secret"; ref_Name := "sgw-sgc-uid"; ref_Namespace := "keys" |} |} |}.
Proof. vm_compute. reflexivity. Qed.

Lemma world0_wanted : wanted "keys" gwKey "sgc-uid" private_spec (simView world0).
Proof.
  split.
  - exists wanted_gw. by split_and!.
  - by intros l Hl.
  - by intros v Hv.
  - by intros s Hs.
Qed.

Definition run5 : list (controller * World * World) :=
  [(GatewayController, world0, world1); (LBController, world1, world2); (VMController, world2, world3);
   (LBController, world3, world4); (GatewayController, world4, world5)].

Lemma turn1 : sgc.Reconcile "keys" gwKey world0 = (Ok tt, world1).
Proof. vm_cast_no_check (eq_refl (Ok tt, world1)). Qed.
Lemma turn2 : lbconfig.Reconcile sim_az 8082 gwKey world1 = (Ok tt, world2).
Proof. vm_cast_no_check (eq_refl (Ok tt, world2)). Qed.
Lemma turn3 : vmconfig.Reconcile sim_az gwKey world2 = (Ok tt, world3).
Proof. vm_cast_no_check (eq_refl (Ok tt, world3)). Qed.
Lemma turn4 : lbconfig.Reconcile sim_az 8082 gwKey world3 = (Ok tt, world4).
Proof. vm_cast_no_check (eq_refl (Ok tt, world4)). Qed.
Lemma turn5 : sgc.Reconcile "keys" gwKey world4 = (Ok tt, world5).
Proof. vm_cast_no_check (eq_refl (Ok tt, world5)). Qed.

Lemma run5_turns : turns simView sim_az 8082 "keys" gwKey "sgc-uid" run5 world0 world5.
Proof.
  apply (turns_cons _ _ _ _ _ _ GatewayController _ world0 world1); [apply turn_gateway, turn1|].
  apply (turns_cons _ _ _ _ _ _ LBController _ world1 world2); [apply turn_lb, turn2|].
  apply (turns_cons _ _ _ _ _ _ VMController _ world2 world3); [apply turn_vm, turn3|].
  apply (turns_cons _ _ _ _ _ _ LBController _ world3 world4); [apply turn_lb, turn4|].
  apply (turns_cons _ _ _ _ _ _ GatewayController _ world4 world5); [apply turn_gateway, turn5|].
  apply turns_nil.
Qed.

Lemma owner_keeps (o m m' : ObjectMeta) :
  SetControllerReference o m = inr m' -> om_key m' = om_key m /\ deleting m' = deleting m /\ om_uid m' = om_uid m.
Proof. simpl. destruct (existsb _ _); [done|]. by intros [= <-]. Qed.
Lemma finalizer_keeps (m : ObjectMeta) f :
  deleting (AddFinalizer m f) = deleting m /\ om_uid (AddFinalizer m f) = om_uid m.
Proof. simpl. by destruct (has (om_finalizers m) f). Qed.


(** ** A name that tags a scale set and a virtual machine *)

Definition both_world : World :=
  let w := set_vmss {[ "vmss" := tagged_vmss ]} empty_world in
  {| w_sgcs := w_sgcs w; w_lbcs := w_lbcs w; w_vmcs := w_vmcs w; w_secrets := w_secrets w;
     w_nodes := w_nodes w; w_lb := w_lb w; w_vmss := w_vmss w; w_instances := w_instances w;
     w_vms := [{| vm_Tags := vmss_Tags tagged_vmss |}]; w_nics := w_nics w; w_prefixes := w_prefixes w; w_pips := w_pips w;
     w_events := w_events w; w_failures := w_failures w |}.
Definition pool_lbc : GatewayLBConfiguration :=
  {| lbc_meta := lbc_meta (sgc.newLBConfig wanted_gw); lbc_Spec := lbSpecOf private_spec; lbc_Status := None |}.
Definition pool_vmc : GatewayVMConfiguration :=
  {| vmc_meta := vmc_meta (lbconfig.newVMConfig pool_lbc); vmc_Spec := vmSpecOf (lbc_Spec pool_lbc); vmc_Status := None |}.

(** An answer after retries was given in a state that the attempts had not changed. *)
Lemma retried_Ok_in {W A} (P : W -> Prop) rt settings (call : M W A) w a w' :
  keeps P call -> P w -> retried rt settings call w = (Ok a, w') -> exists w1, P w1 /\ call w1 = (Ok a, w').
Proof.
  intros Hc Hw Hrun. destruct (retried_ended rt settings call w) as (m & w1 & Hr & Hend).
  rewrite Hrun in Hend. exists w1. split; [|by destruct Hend]. clear Hend Hrun.
  induction Hr as [|n w e w1 w2 Hcall _ _ IH]; [done|]. apply IH. specialize (Hc w Hw). by rewrite Hcall in Hc.
Qed.

Lemma both_answers :
  poolAnswers sim_az (fun w => w = both_world) [tagged_vmss] (w_vms both_world) (fun _ n => w_vmss both_world !! n).
Proof.
  split.
  - intros w l w' ->.
    assert (azmanager.ListVMSS sim_az both_world = (Ok [tagged_vmss], both_world)) as -> by (vm_compute; reflexivity).
    by intros [= <- <-].
  - intros w l w' ->.
    assert (azmanager.ListVMs sim_az both_world = (Ok (w_vms both_world), both_world)) as -> by (vm_compute; reflexivity).
    by intros [= <- <-].
  - intros rg n w v w' ->. unfold azmanager.GetVMSS, azmanager.nonempty. destruct (String.eqb n ""); [done|].
    intros (w1 & -> & Hr)%(retried_Ok_in (fun w => w = both_world)); [| |done].
    + unfold vmssGet, azure, lookup_or in Hr. destruct (w_vmss both_world !! n); [by injection Hr as -> _|done].
    + intros w ->. unfold vmssGet, azure, lookup_or. by destruct (w_vmss both_world !! n).
Qed.

(** The two controllers mean different pools. *)
Lemma controllers_agree_on_pool_witness :
  fst (lbconfig.loadPool sim_az pool_lbc both_world) = Ok (agentPoolVMSS tagged_vmss) /\
  fst (vmconfig.loadPool sim_az pool_vmc both_world) = Ok (agentPoolVMs "gwpool", 31%Z) /\
  (exists s, agentPoolVMSS tagged_vmss = agentPoolVMSS s) /\ agentPoolVMs "gwpool" = agentPoolVMs "gwpool".
Proof.
  split; [vm_compute; reflexivity|]. split; [vm_compute; reflexivity|].
  apply (controllers_agree_on_pool sim_az (fun w => w = both_world) [tagged_vmss] (w_vms both_world)
    (fun _ n => w_vmss both_world !! n) pool_lbc pool_vmc both_world both_world both_world both_world
    (agentPoolVMSS tagged_vmss) (agentPoolVMs "gwpool") 31).
  - exact both_answers.
  - reflexivity.
  - reflexivity.
  - reflexivity.
  - vm_compute. reflexivity.
  - vm_compute. reflexivity.
Defined.
