(* ===== verification/Watches.v ===== *)
(** * What makes the controllers run

    The [SetupWithManager] methods: which events of which objects lead to which requests
    for [Reconcile].  The event handlers of controller-runtime are parameters; the
    predicates and the map functions are the repository's.  The theorems follow a change
    from object to object: the reconciliations of [Provisioning] wake each other. *)

From stdpp Require Import base tactics list strings gmap.
From Stdlib Require Import ZArith Lia.
From S2P Require Import Prelude GoStrings Types Kube Config Azure LBRules LBConfig VMNet PublicIP AgentPoolVMs VMConfig.
From S2P Require Import ManagerSGC NetIP Network Imds NodeStatus HealthProbe DaemonSGC DaemonPod Provisioning.

Open Scope string_scope.
Open Scope list_scope.

(** ** Events *)

Inductive Kind :=
| KStaticGatewayConfiguration | KGatewayLBConfiguration | KGatewayVMConfiguration
| KPodEndpoint | KSecret | KNode.
#[export] Instance Kind_eq_dec : EqDecision Kind.
Proof. solve_decision. Defined.
Definition kindName (k : Kind) : string :=
  match k with
  | KStaticGatewayConfiguration => "StaticGatewayConfiguration"
  | KGatewayLBConfiguration => "GatewayLBConfiguration"
  | KGatewayVMConfiguration => "GatewayVMConfiguration"
  | KPodEndpoint => "PodEndpoint" | KSecret => "Secret" | KNode => "Node"
  end.

(** An event comes from the objects of a kind or from a controller's channel.  An update
    has the object before the change besides. *)
Inductive Source := Objects (k : Kind) | Channel.
#[export] Instance Source_eq_dec : EqDecision Source.
Proof. solve_decision. Defined.
Record Event := {
  ev_source : Source;
  ev_type : vmconfig.eventKind;
  ev_old : option ObjectMeta;
  ev_object : ObjectMeta;
}.

(** The event handlers of [sigs.k8s.io/controller-runtime/pkg/handler]. *)
Class Handlers := {
  EnqueueRequestForObject : Event -> list NamespacedName;
  (** [EnqueueRequestForOwner(..., OnlyControllerOwner())], which [Owns] uses *)
  EnqueueRequestForOwner : Kind -> Event -> list NamespacedName;
  EnqueueRequestsFromMapFunc : (ObjectMeta -> list NamespacedName) -> Event -> list NamespacedName;
}.

(** The reference of the object's controller is to an owner of this kind and name. *)
Definition controlledBy (k : Kind) (name : string) (m : ObjectMeta) : Prop :=
  exists r, List.find or_controller (om_owners m) = Some r /\ or_kind r = kindName k /\ or_name r = name.

(** What the documentation of the handlers says: the object itself, the owner in the
    object's namespace, what the function maps the object to. *)
Class HandlersLaws `{Handlers} := {
  enqueue_object e : EnqueueRequestForObject e = [om_key (ev_object e)];
  enqueue_owner k name e : controlledBy k name (ev_object e) ->
    nn (om_namespace (ev_object e)) name ∈ EnqueueRequestForOwner k e;
  enqueue_mapped f e req : req ∈ f (ev_object e) -> req ∈ EnqueueRequestsFromMapFunc f e;
}.

(** ** The controllers' watches *)

Inductive Watch `{Handlers} :=
| For (k : Kind)
| Owns (k : Kind)
| Watches (k : Kind) (h : Event -> list NamespacedName) (p : Event -> bool)
| WatchChannel (h : Event -> list NamespacedName).

Section watches.
Context `{Handlers}.

(** The requests a controller for objects of kind [for_] gets on an event. *)
Definition requestsOf (for_ : Kind) (e : Event) (w : Watch) : list NamespacedName :=
  match w with
  | For k => if decide (ev_source e = Objects k) then EnqueueRequestForObject e else []
  | Owns k => if decide (ev_source e = Objects k) then EnqueueRequestForOwner for_ e else []
  | Watches k h p => if decide (ev_source e = Objects k) then if p e then h e else [] else []
  | WatchChannel h => if decide (ev_source e = Channel) then h e else []
  end.

Record Setup := { su_for : Kind; su_watches : list Watch }.
Definition requests (s : Setup) (e : Event) : list NamespacedName :=
  flat_map (requestsOf (su_for s) e) (su_watches s).

Definition secretEventOf (t : vmconfig.eventKind) : secretEvent :=
  match t with
  | vmconfig.CreateEvent => SecretCreated | vmconfig.UpdateEvent => SecretUpdated
  | vmconfig.DeleteEvent => SecretDeleted | vmconfig.GenericEvent => SecretGeneric
  end.

(** [SetupWithManager] of the manager's three controllers. *)
Definition setupManagerSGC (SecretNamespace : string) : Setup :=
  {| su_for := KStaticGatewayConfiguration;
     su_watches :=
       [For KStaticGatewayConfiguration; Owns KGatewayLBConfiguration;
        Watches KSecret (EnqueueRequestsFromMapFunc (fun o => enqueueOwningSGCFromLabels (om_labels o)))
          (fun e => secretPredicate SecretNamespace (secretEventOf (ev_type e))
                      (om_namespace (default (ev_object e) (ev_old e))))] |}.
Definition setupManagerLB : Setup :=
  {| su_for := KGatewayLBConfiguration; su_watches := [For KGatewayLBConfiguration; Owns KGatewayVMConfiguration] |}.
Definition gatewayLabels : list (string * string) :=
  [(consts.AKSNodepoolModeLabel, consts.AKSNodepoolModeValue); (consts.UpstreamNodepoolModeLabel, "true")].
Definition setupManagerVM : Setup :=
  {| su_for := KGatewayVMConfiguration;
     su_watches :=
       [For KGatewayVMConfiguration;
        Watches KNode EnqueueRequestForObject
          (fun e => vmconfig.resourceHasFilterLabel gatewayLabels (ev_type e) (om_labels (ev_object e)))] |}.

(** [SetupWithManager] of the daemon's two controllers: what the builder is given, and
    the ticker's channel, which is watched besides. *)
Definition builtDaemonSGC : Setup :=
  {| su_for := KStaticGatewayConfiguration;
     su_watches :=
       [For KStaticGatewayConfiguration;
        Watches KGatewayVMConfiguration EnqueueRequestForObject (fun _ => true)] |}.
Definition builtPodEndpoint : Setup := {| su_for := KPodEndpoint; su_watches := [For KPodEndpoint] |}.
Definition tickerSource : Watch := WatchChannel EnqueueRequestForObject.
Definition withTicker (s : Setup) : Setup := {| su_for := su_for s; su_watches := su_watches s ++ [tickerSource] |}.
Definition setupDaemonSGC : Setup := withTicker builtDaemonSGC.
Definition setupDaemonPodEndpoint : Setup := withTicker builtPodEndpoint.

(** The event [startCleanupTicker] sends on every tick. *)
Definition tickerEvent : Event :=
  {| ev_source := Channel; ev_type := vmconfig.GenericEvent; ev_old := None; ev_object := new_meta "" "" |}.
End watches.

(** ** From object to object *)

Section propagation.
Context `{HandlersLaws} `{OwnerRefs} (SecretNamespace : string).

(** The setup of the controller whose turn it is in [chain]. *)
Definition setupOf (c : controller) : option Setup :=
  match c with
  | GatewayController => Some (setupManagerSGC SecretNamespace)
  | LBController => Some setupManagerLB
  | VMController => Some setupManagerVM
  | Elsewhere => None
  end.

(** The kind of object each turn of [chain] writes last. *)
Definition writes : list Kind :=
  [KGatewayLBConfiguration; KGatewayVMConfiguration; KGatewayVMConfiguration; KGatewayLBConfiguration].

(** An event of an object made for the gateway [k]. *)
Definition eventOf (kind : Kind) (k : NamespacedName) (e : Event) : Prop :=
  ev_source e = Objects kind /\ om_key (ev_object e) = k /\
  match kind with
  | KGatewayLBConfiguration => controlledBy KStaticGatewayConfiguration (nn_name k) (ev_object e)
  | KGatewayVMConfiguration => controlledBy KGatewayLBConfiguration (nn_name k) (ev_object e)
  | _ => True
  end.

Lemma requests_in s e w req : w ∈ su_watches s -> req ∈ requestsOf (su_for s) e w -> req ∈ requests s e.
Proof.
  intros Hw Hr. unfold requests. apply list_elem_of_In, in_flat_map. exists w.
  split; by apply list_elem_of_In.
Qed.
Lemma for_wakes s kind e :
  For kind ∈ su_watches s -> ev_source e = Objects kind -> om_key (ev_object e) ∈ requests s e.
Proof.
  intros Hw He. apply (requests_in _ _ _ _ Hw). simpl. rewrite decide_True by done.
  rewrite enqueue_object. by left.
Qed.
Lemma owns_wakes s kind name e :
  Owns kind ∈ su_watches s -> ev_source e = Objects kind -> controlledBy (su_for s) name (ev_object e) ->
  nn (om_namespace (ev_object e)) name ∈ requests s e.
Proof.
  intros Hw He Hc. apply (requests_in _ _ _ _ Hw). simpl. rewrite decide_True by done. by apply enqueue_owner.
Qed.

(** C12: the reconciliations wake each other in the order the provisioning of a gateway
    needs. Whatever the manager's controllers write for a gateway [k] in the course of
    [chain] makes the API server send an event of that object, and on it the controller
    whose turn is next gets the request [k]; besides, every change of the VM
    configuration or of the gateway itself gives the daemon the request [k], and the
    change or deletion of the gateway's secret gives it to the gateway's controller. *)
Theorem reconciliations_wake_each_other k :
  (forall i kind c s e, writes !! i = Some kind -> chain !! S i = Some c -> setupOf c = Some s ->
     eventOf kind k e -> k ∈ requests s e) /\
  (forall kind e, kind = KGatewayVMConfiguration \/ kind = KStaticGatewayConfiguration ->
     eventOf kind k e -> k ∈ requests setupDaemonSGC e) /\
  (forall gwConfig labels e, om_key (sgc_meta gwConfig) = k -> ev_source e = Objects KSecret ->
     om_namespace (default (ev_object e) (ev_old e)) = SecretNamespace ->
     om_labels (ev_object e) = ownerLabels gwConfig labels ->
     ev_type e = vmconfig.UpdateEvent \/ ev_type e = vmconfig.DeleteEvent ->
     k ∈ requests (setupManagerSGC SecretNamespace) e).
Proof.
  destruct k as [ns name]. split_and!.
  - intros i kind c s e Hw Hc Hs (He & Hk & Hctl).
    assert (om_namespace (ev_object e) = ns) as Hns by (by injection Hk).
    destruct i as [|[|[|[|i]]]]; simpl in Hw, Hc; [..|done]; injection Hw as <-; injection Hc as <-; injection Hs as <-;
      simpl in Hctl; rewrite <- ?Hk.
    + by eapply for_wakes; [left|].
    + by eapply for_wakes; [left|].
    + rewrite Hk, <- Hns. by eapply (owns_wakes setupManagerLB); [right; left| |].
    + rewrite Hk, <- Hns. by eapply (owns_wakes (setupManagerSGC SecretNamespace)); [right; left| |].
  - intros kind e Hkind (He & Hk & _). rewrite <- Hk. destruct Hkind as [->| ->].
    + eapply requests_in; [right; left|]. simpl. rewrite decide_True by done. rewrite enqueue_object. by left.
    + by eapply for_wakes; [left|].
  - intros g labels e Hk He Hns Hl Ht. eapply requests_in; [right; right; left|]. simpl. rewrite decide_True by done.
    assert (secretPredicate SecretNamespace (secretEventOf (ev_type e)) (om_namespace (default (ev_object e) (ev_old e))) = true)
      as -> by (rewrite Hns; destruct Ht as [->| ->]; simpl; apply EqualFold_refl).
    apply enqueue_mapped. rewrite Hl, <- Hk, enqueueOwningSGC_owner. by left.
Qed.
End propagation.

(** ** Ticks and nodes *)

(** On every tick of the daemon's tickers both controllers get the empty request, which
    no object has, and take it for a clean-up; the pod endpoints' controller then goes on
    to look for an endpoint without a name. *)
Theorem ticks_clean_up {W} `{HandlersLaws} `{NetNS W} `{NetLink W} `{NetlinkPure} `{IPTables W} `{WgTypes} `{!WgCtrl W}
    `{ProbeServer W} `{OsEnv} `{OwnerRefs} `{Store W StaticGatewayConfiguration} `{Store W GatewayVMConfiguration}
    `{Store W Secret} `{Store W GatewayStatus} `{Store W Node} `{Store W PodEndpoint} node (w : W) :
  requests setupDaemonSGC tickerEvent = [nn "" ""] /\ requests setupDaemonPodEndpoint tickerEvent = [nn "" ""] /\
  (forall r w', daemonsgc.cleanUp node w = (r, w') ->
     snd (daemonsgc.Reconcile node (nn "" "") w) = w' /\ is_Ok (fst (daemonsgc.Reconcile node (nn "" "") w)) = is_Ok r) /\
  (forall e w', daemonpod.cleanUp node w = (Err e, w') ->
     snd (daemonpod.Reconcile node (nn "" "") w) = w' /\ is_Ok (fst (daemonpod.Reconcile node (nn "" "") w)) = false) /\
  (forall e w1 w2, daemonpod.cleanUp node w = (Ok tt, w1) -> kGet (Obj := PodEndpoint) (nn "" "") w1 = (Err e, w2) ->
     IsNotFound e = true -> daemonpod.Reconcile node (nn "" "") w = (Ok tt, w2)).
Proof.
  split_and!.
  - unfold requests. simpl. by rewrite enqueue_object.
  - unfold requests. simpl. by rewrite enqueue_object.
  - intros r w' Hc. unfold daemonsgc.Reconcile. simpl. unfold on_err. rewrite Hc. by destruct r.
  - intros e w' Hc. unfold daemonpod.Reconcile. simpl. unfold bind, on_err. by rewrite Hc.
  - intros e w1 w2 Hc Hg He. unfold daemonpod.Reconcile. simpl. unfold bind, on_err, try. rewrite Hc, Hg, He. done.
Qed.

(** A node that appears with a gateway label makes the VM controller look at the node; an
    event that only updates a node does not.  The deletion of a node gives a request too,
    but the node is gone by then and the request does nothing: the profiles of the node
    stay until something else makes the VM configuration be reconciled. *)
Theorem node_deletion_ignored {W} `{HandlersLaws} `{Backoffs} `{AzureClients W} `{ArmIDs} `{UUIDs}
    `{Store W GatewayVMConfiguration} `{Store W StaticGatewayConfiguration} `{Store W Node} `{Finalizers} `{Recorder W}
    `{Prometheus W} `{OsEnv} az e err (w w1 : W) :
  ev_source e = Objects KNode -> om_namespace (ev_object e) = "" -> om_name (ev_object e) <> "" ->
  vmconfig.ifLabelMatch (om_labels (ev_object e)) gatewayLabels = true ->
  kGet (Obj := Node) (om_key (ev_object e)) w = (Err err, w1) -> IsNotFound err = true ->
  requests setupManagerVM e =
    match ev_type e with
    | vmconfig.CreateEvent | vmconfig.DeleteEvent => [om_key (ev_object e)]
    | _ => []
    end /\
  vmconfig.Reconcile az (om_key (ev_object e)) w = (Ok tt, w1).
Proof.
  intros Hs Hns Hn Hl Hget Herr. split.
  - unfold requests. simpl. rewrite !decide_False, decide_True by congruence. unfold vmconfig.resourceHasFilterLabel.
    rewrite Hl, enqueue_object. by destruct (ev_type e).
  - unfold vmconfig.Reconcile. unfold om_key at 1 2. rewrite Hns. apply String.eqb_neq in Hn. cbn [nn_namespace nn_name].
    rewrite Hn. simpl. unfold vmconfig.reconcileNodeEvent, bind, try. by rewrite Hget, Herr.
Qed.

(** ** An implementation of the handlers *)

Definition ownerOf (k : Kind) (m : ObjectMeta) : list NamespacedName :=
  match List.find or_controller (om_owners m) with
  | Some r => if String.eqb (or_kind r) (kindName k) then [nn (om_namespace m) (or_name r)] else []
  | None => []
  end.
#[local] Instance list_handlers : Handlers := {|
  EnqueueRequestForObject e := [om_key (ev_object e)];
  EnqueueRequestForOwner k e := from_option (ownerOf k) [] (ev_old e) ++ ownerOf k (ev_object e);
  EnqueueRequestsFromMapFunc f e := from_option f [] (ev_old e) ++ f (ev_object e) |}.
#[local] Instance list_handlers_laws : HandlersLaws.
Proof.
  split; simpl.
  - done.
  - intros k name e (r & Hr & Hk & <-). apply elem_of_app. right. unfold ownerOf. rewrite Hr, Hk, String.eqb_refl. by left.
  - intros f e req Hf. apply elem_of_app. by right.
Qed.

(** The VM configuration of a gateway, and the event of its status update. *)
Definition owned_vmc : ObjectMeta :=
  {| om_name := "gw1"; om_namespace := "ns"; om_uid := "uid"; om_deletion := None; om_finalizers := [];
     om_owners := [{| or_kind := "GatewayLBConfiguration"; or_name := "gw1"; or_uid := "lbc"; or_controller := true |}];
     om_labels := ∅ |}.
Definition vmc_updated : Event :=
  {| ev_source := Objects KGatewayVMConfiguration; ev_type := vmconfig.UpdateEvent; ev_old := Some owned_vmc;
     ev_object := owned_vmc |}.

Lemma reconciliations_wake_each_other_witness :
  nn "ns" "gw1" ∈ requests setupManagerLB vmc_updated /\ nn "ns" "gw1" ∈ requests setupDaemonSGC vmc_updated.
Proof.
  assert (eventOf KGatewayVMConfiguration (nn "ns" "gw1") vmc_updated) as He.
  { split_and!; [reflexivity|reflexivity|]. eexists. split_and!; reflexivity. }
  split.
  - apply (proj1 (reconciliations_wake_each_other "keys" (nn "ns" "gw1")) 2 KGatewayVMConfiguration LBController
      setupManagerLB vmc_updated eq_refl eq_refl eq_refl He).
  - apply (proj1 (proj2 (reconciliations_wake_each_other "keys" (nn "ns" "gw1"))) KGatewayVMConfiguration vmc_updated
      (or_introl eq_refl) He).
Defined.
