(* ===== verification/Programs.v ===== *)
(** * The programs

    [cmd/kube-egress-gateway-controller], [cmd/kube-egress-gateway-daemon] and
    [cmd/kube-egress-gateway-cnimanager]: the flags with their defaults, and the order in
    which each program makes, wires and starts its parts.  A failed step ends the process
    with [os.Exit(1)].  The libraries the parts come from (controller-runtime, the Azure
    clients, gRPC) are parameters. *)

From stdpp Require Import base tactics list strings gmap.
From Stdlib Require Import Ascii ZArith Lia.
From S2P Require Import Prelude GoStrings Types Kube Config Azure LBRules LBConfig VMConfig ManagerSGC.
From S2P Require Import NetIP Network Imds HealthProbe Files JSON CNIConf CNIServer Watches.

Open Scope string_scope.
Open Scope list_scope.

(** ** Ending the process *)

Definition exitStatus1 : gerror := EText "exit status 1".

(** [if err != nil { setupLog.Error(...); os.Exit(1) }] after a call. *)
Definition orExit {W A} (c : M W A) : M W A :=
  let! r := try c in
  match r with inl _ => throw exitStatus1 | inr a => ret a end.

(** ** Parameters *)

(** [ctrl.Options], with the fields that are set. *)
Record ManagerOptions := {
  mo_MetricsBindAddress : string;
  mo_HealthProbeBindAddress : string;
  mo_LeaderElection : bool;
  mo_LeaderElectionNamespace : string;
  mo_LeaderElectionID : string;
  mo_LeaderElectionReleaseOnCancel : bool;
  mo_SecretsIn : option string;          (** the only namespace whose secrets are cached *)
  mo_WebhookPort : option Z;
}.

Section programs.
Context {W : Type} `{Handlers}.

(** Channels are told apart by their identity. *)
Definition Chan : Type := nat.

(** The reconcilers with the fields the programs set. *)
Inductive Reconciler :=
| SGCReconciler (SecretNamespace recorder : string)
| LBReconciler (az : CloudConfig) (recorder : string) (LBProbePort : Z)
| VMReconciler (az : CloudConfig) (recorder : string)
| DaemonSGCReconciler (TickerEvents : Chan) (svr : LBProbeServer)
| PodEndpointReconciler (TickerEvents : Chan).

(** controller-runtime: the manager, the builder and the checks. *)
Class CtrlRuntime := {
  Manager : Type;
  CtrlController : Type;
  NewManager : ManagerOptions -> M W Manager;
  Complete : Manager -> Setup -> Reconciler -> M W unit;
  Build : Manager -> Setup -> Reconciler -> M W CtrlController;
  controllerWatch : CtrlController -> Chan -> Watch -> M W unit;
  addRunnable : Manager -> LBProbeServer -> M W unit;
  AddHealthzCheck : Manager -> string -> M W unit;
  AddReadyzCheck : Manager -> string -> M W unit;
  StartManager : Manager -> M W unit;
}.

(** The configuration loader and the Azure client library. *)
Class AzLibrary := {
  LoadConfig : string -> M W CloudConfig;
  AuthProvider : Type;
  ClientOptions : Type;
  ClientFactory : Type;
  NewAuthProvider : CloudConfig -> M W AuthProvider;
  GetAzCoreClientOption : CloudConfig -> M W ClientOptions;
  (** rate limit, subscription, cloud, user agent *)
  NewClientFactory : option RateLimitConfig -> string -> string -> string -> ClientOptions -> AuthProvider ->
    M W ClientFactory;
}.
Context `{CtrlRuntime} `{AzLibrary} `{OsEnv}.

(** ** The controller manager *)

Record ControllerFlags := {
  cf_cloudConfigFile : string;
  cf_metricsPort : Z;
  cf_probePort : Z;
  cf_gatewayLBProbePort : Z;
  cf_enableLeaderElection : bool;
  cf_leaderElectionNamespace : string;
  cf_secretNamespace : string;
}.
Definition defaultControllerFlags : ControllerFlags :=
  {| cf_cloudConfigFile := "/etc/kubernetes/kube-egress-gateway/azure.json";
     cf_metricsPort := 8080; cf_probePort := 8081; cf_gatewayLBProbePort := 8082; cf_enableLeaderElection := false;
     cf_leaderElectionNamespace := Getenv consts.PodNamespaceEnvKey;
     cf_secretNamespace := Getenv consts.PodNamespaceEnvKey |}.

Definition controllerOptions (flags : ControllerFlags) : ManagerOptions :=
  {| mo_MetricsBindAddress := ":" +:+ Itoa (cf_metricsPort flags);
     mo_HealthProbeBindAddress := ":" +:+ Itoa (cf_probePort flags);
     mo_LeaderElection := cf_enableLeaderElection flags;
     mo_LeaderElectionNamespace := cf_leaderElectionNamespace flags;
     mo_LeaderElectionID := "0a299682.microsoft.com";
     mo_LeaderElectionReleaseOnCancel := true; mo_SecretsIn := None; mo_WebhookPort := None |}.

Definition getClientFactoryFromConfig (cloud : CloudConfig) : M W ClientFactory :=
  let! authProvider := NewAuthProvider cloud in
  let! clientOps := GetAzCoreClientOption cloud in
  NewClientFactory (RateLimit cloud) (SubscriptionID cloud) (Cloud cloud) (UserAgent cloud) clientOps authProvider.

(** The clients of the manager are the factory's, which the model has as its parameters;
    there is no error. *)
Definition CreateAzureManager (cloud : CloudConfig) (factory : ClientFactory) : M W CloudConfig := ret cloud.

Definition startManagerControllers (flags : ControllerFlags) : M W unit :=
  let! mgr := orExit (NewManager (controllerOptions flags)) in
  let! cloudConfig := orExit (LoadConfig (cf_cloudConfigFile flags)) in
  let '(cloudConfig, err) := DefaultAndValidate cloudConfig in
  do! orExit (fail_with err tt);
  let! factory := orExit (getClientFactoryFromConfig cloudConfig) in
  let! az := orExit (CreateAzureManager cloudConfig factory) in
  do! orExit (Complete mgr (setupManagerSGC (cf_secretNamespace flags))
        (SGCReconciler (cf_secretNamespace flags) "staticGatewayConfiguration-controller"));
  do! orExit (Complete mgr setupManagerLB
        (LBReconciler az "gatewayLBConfiguration-controller" (cf_gatewayLBProbePort flags)));
  do! orExit (Complete mgr setupManagerVM (VMReconciler az "gatewayVMConfiguration-controller"));
  do! orExit (AddHealthzCheck mgr "healthz");
  do! orExit (AddReadyzCheck mgr "readyz");
  orExit (StartManager mgr).

(** ** The daemon *)

Class Daemons := {
  makeChan : M W Chan;
  (** the goroutine of [startCleanupTicker], with the period in minutes *)
  goTicker : Chan -> Z -> M W unit;
}.
Context `{Daemons} `{ImdsHTTP W}.

(** What the goroutine receives and sends: an event for every tick until the context is
    done. *)
Inductive tickerInput := Tick | ContextDone.
Fixpoint cleanupTicker (inputs : list tickerInput) : list Event :=
  match inputs with
  | [] | ContextDone :: _ => []
  | Tick :: inputs' => tickerEvent :: cleanupTicker inputs'
  end.

Record DaemonFlags := {
  df_metricsPort : Z;
  df_probePort : Z;
  df_gatewayLBProbePort : Z;
  df_secretNamespace : string;
}.
Definition defaultDaemonFlags : DaemonFlags :=
  {| df_metricsPort := 8080; df_probePort := 8081; df_gatewayLBProbePort := 8082;
     df_secretNamespace := Getenv consts.PodNamespaceEnvKey |}.

Definition daemonOptions (flags : DaemonFlags) : ManagerOptions :=
  {| mo_MetricsBindAddress := ":" +:+ Itoa (df_metricsPort flags);
     mo_HealthProbeBindAddress := ":" +:+ Itoa (df_probePort flags);
     mo_LeaderElection := false; mo_LeaderElectionNamespace := ""; mo_LeaderElectionID := "";
     mo_LeaderElectionReleaseOnCancel := false; mo_SecretsIn := Some (df_secretNamespace flags);
     mo_WebhookPort := Some 9443%Z |}.

(** [SetupWithManager] of a controller with a ticker. *)
Definition setupWithTicker (mgr : Manager) (s : Setup) (r : Reconciler) (TickerEvents : Chan) : M W unit :=
  let! controller := Build mgr s r in
  controllerWatch controller TickerEvents tickerSource.

Definition startDaemonControllers (flags : DaemonFlags) : M W NodeState :=
  let! mgr := orExit (NewManager (daemonOptions flags)) in
  let! node := orExit InitNodeMetadata in
  let lbProbeServer := NewLBProbeServer (df_gatewayLBProbePort flags) in
  do! orExit (addRunnable mgr lbProbeServer);
  let! gwCleanupEvents := makeChan in
  do! orExit (setupWithTicker mgr builtDaemonSGC (DaemonSGCReconciler gwCleanupEvents lbProbeServer) gwCleanupEvents);
  let! peerCleanupEvents := makeChan in
  do! orExit (setupWithTicker mgr builtPodEndpoint (PodEndpointReconciler peerCleanupEvents) peerCleanupEvents);
  do! orExit (AddHealthzCheck mgr "healthz");
  do! orExit (AddReadyzCheck mgr "readyz");
  do! goTicker gwCleanupEvents 1;
  do! goTicker peerCleanupEvents 1;
  do! orExit (StartManager mgr);
  ret node.

(** ** The CNI manager *)

Record ServeFlags := {
  sf_grpcPort : Z;
  sf_exceptionCidrs : string;
  sf_confFileName : string;
  sf_cniUninstallConfigMapName : string;
}.
Definition defaultServeFlags : ServeFlags :=
  {| sf_grpcPort := 50051; sf_exceptionCidrs := ""; sf_confFileName := "01-egressgateway.conflist";
     sf_cniUninstallConfigMapName := "cni-uninstall" |}.

(** The only config map and the only node that are cached. *)
Record ClusterOptions := { co_ConfigMap : NamespacedName; co_NodeName : string }.

Inductive nodeEvent := NodeAdded (n : Node) | NodeUpdated (old new : Node) | NodeDeleted (n : Node).

(** The services that are registered with the gRPC server, in this order; the
    interceptors log, count and recover and leave the answers alone. *)
Inductive grpcService := HealthService | NicService.
Definition grpcServices : list grpcService := [HealthService; NicService].

(** The cluster library, gRPC and the goroutines that are started. *)
Class ServeLibrary := {
  zapNewProduction : M W unit;
  KubeCluster : Type;
  newCluster : ClusterOptions -> M W KubeCluster;
  NodeInformer : Type;
  GetNodeInformer : KubeCluster -> M W NodeInformer;
  AddEventHandler : NodeInformer -> (nodeEvent -> M W unit) -> M W unit;
  goStartCluster : KubeCluster -> M W unit;
  WaitForCacheSync : KubeCluster -> M W unit;
  goConfManager : (list watchEvent -> M W unit) -> M W unit;
  Listener : Type;
  Listen : string -> M W Listener;
  goShutdown : M W unit;
  Serve : list grpcService -> Listener -> M W unit;
  groupWait : M W unit;
}.
Context `{ServeLibrary} `{FileSystem W} `{Watcher W} `{Retries} `{Store W ConfigMap} `{Store W Node}.

Definition getKubeCluster (flags : ServeFlags) : M W KubeCluster :=
  orExit (newCluster
    {| co_ConfigMap := nn (Getenv consts.PodNamespaceEnvKey) (sf_cniUninstallConfigMapName flags);
       co_NodeName := Getenv consts.NodeNameEnvKey |}).

(** Of a node that is added or updated, the taint is looked at. *)
Definition nodeTaintHandler (mgr : CNIConf.Manager) (e : nodeEvent) : M W unit :=
  match e with
  | NodeAdded n | NodeUpdated _ n => removeNodeTaintIfNeeded (confmgr.IsReady mgr) n
  | NodeDeleted _ => ret tt
  end.

(** The config map is only read to start its informer. *)
Definition startKubeCluster (flags : ServeFlags) (k8sCluster : KubeCluster) (handler : nodeEvent -> M W unit) : M W unit :=
  let! nodeInformer := orExit (GetNodeInformer k8sCluster) in
  do! orExit (AddEventHandler nodeInformer handler);
  do! goStartCluster k8sCluster;
  do! WaitForCacheSync k8sCluster;
  do! try (kGet (Obj := ConfigMap) (nn (Getenv consts.PodNamespaceEnvKey) (sf_cniUninstallConfigMapName flags)));
  ret tt.

Definition ServiceLauncher (flags : ServeFlags) : M W unit :=
  let! r := try zapNewProduction in
  do! match r with inl _ => lift Panic | inr _ => ret tt end;
  let! k8sCluster := getKubeCluster flags in
  let! cniConfMgr := orExit (confmgr.NewCNIConfManager consts.CNIConfDir (sf_confFileName flags)
    (sf_exceptionCidrs flags) (sf_cniUninstallConfigMapName flags) (sf_grpcPort flags)) in
  do! startKubeCluster flags k8sCluster (nodeTaintHandler cniConfMgr);
  do! goConfManager (fun events => orExit (confmgr.Start cniConfMgr events));
  let! listener := orExit (Listen (":" +:+ Itoa (sf_grpcPort flags))) in
  do! goShutdown;
  do! try (Serve grpcServices listener);
  do! try groupWait;
  ret tt.

(** ** What is running was set up *)

(** A step that was passed. *)
Lemma passed_step {A B} (P : W -> Prop) (c : M W A) (k : A -> M W B) w r w' :
  keeps P c -> P w -> bind c k w = (r, w') -> ~ P w' ->
  exists a w1, c w = (Ok a, w1) /\ P w1 /\ k a w1 = (r, w').
Proof.
  intros Hc Hw Hrun HnP. specialize (Hc w Hw). unfold bind in Hrun.
  destruct (c w) as [[a|e|] w1]; simpl in *; [by eauto|exfalso; apply HnP; by injection Hrun as _ <-..].
Qed.
Lemma orExit_Ok {A} (c : M W A) w a w' : orExit c w = (Ok a, w') -> c w = (Ok a, w').
Proof.
  unfold orExit. intros (r & w1 & Hr%try_Ok_inv & Hrun)%bind_Ok_inv. destruct r as [e|b]; simpl in *; [done|].
  unfold ret in Hrun. injection Hrun as <- <-. done.
Qed.
Lemma keeps_orExit {A} (P : W -> Prop) (c : M W A) : keeps P c -> keeps P (orExit c).
Proof. intros Hc. unfold orExit. keeps_tac. Qed.
Lemma orExit_run {A} (c : M W A) w r w' : orExit c w = (r, w') -> exists result, c w = (result, w').
Proof.
  unfold orExit, bind, try. destruct (c w) as [o w1]. intros Hr. exists o. f_equal.
  by destruct o; simpl in Hr; injection Hr as _ <-.
Qed.
(** Nothing but [exit status 1] comes out of a failed step. *)
Lemma orExit_fails {A} (c : M W A) w e w' : orExit c w = (Err e, w') -> e = exitStatus1.
Proof.
  unfold orExit, bind, try. destruct (c w) as [[a|e'|] w1]; simpl; unfold ret, throw; [done| |done]. by intros [= <- _].
Qed.

(** The calls that set a manager up do not start it. *)
Class SetupCalls (P : W -> Prop) : Prop := {
  sc_new o : keeps P (NewManager o);
  sc_complete m s r : keeps P (Complete m s r);
  sc_build m s r : keeps P (Build m s r);
  sc_watch c ch w : keeps P (controllerWatch c ch w);
  sc_runnable m s : keeps P (addRunnable m s);
  sc_healthz m n : keeps P (AddHealthzCheck m n);
  sc_readyz m n : keeps P (AddReadyzCheck m n);
  sc_load f : keeps P (LoadConfig f);
  sc_auth c : keeps P (NewAuthProvider c);
  sc_options c : keeps P (GetAzCoreClientOption c);
  sc_factory rl s c u o a : keeps P (NewClientFactory rl s c u o a);
  sc_chan : keeps P makeChan;
  sc_ticker c m : keeps P (goTicker c m);
  sc_imds : keeps P InitNodeMetadata;
}.
#[local] Hint Resolve sc_new sc_complete sc_build sc_watch sc_runnable sc_healthz sc_readyz sc_load sc_auth sc_options
  sc_factory sc_chan sc_ticker sc_imds keeps_orExit : keeps.

(** Go on to the step after one that was passed. *)
Ltac step Hrun a w Ha Hw :=
  let Hw' := fresh in
  match type of Hw with ?P _ => eapply (passed_step P) in Hrun as (a & w & Ha & Hw' & Hrun) end;
    [|solve [try apply keeps_orExit; unfold getClientFactoryFromConfig, CreateAzureManager, fail_with,
      startKubeCluster, confmgr.NewCNIConfManager, confmgr.newWatcher; keeps_tac]|exact Hw|eassumption];
  clear Hw; rename Hw' into Hw.

(** The controller manager runs only when it was set up in full. Let [P] say that
    the manager was not started. If the program falsifies it, then the cloud
    configuration was loaded and accepted, and before the start the manager got the
    three controllers, with the watches of their [SetupWithManager]: the gateways'
    controller for the secrets in the namespace of the flag, the LB controller for the
    probe port of the flag, and these two, LB and VM controllers, for the accepted
    configuration. *)
Theorem manager_runs_configured (P : W -> Prop) `{!SetupCalls P} flags w r w' :
  startManagerControllers flags w = (r, w') -> P w -> ~ P w' ->
  exists mgr raw az u1 u2 u3 u4 u5 u6 u7 result,
    LoadConfig (cf_cloudConfigFile flags) u1 = (Ok raw, u2) /\ DefaultAndValidate raw = (az, None) /\ valid_config az /\
    Complete mgr (setupManagerSGC (cf_secretNamespace flags))
      (SGCReconciler (cf_secretNamespace flags) "staticGatewayConfiguration-controller") u3 = (Ok tt, u4) /\
    Complete mgr setupManagerLB
      (LBReconciler az "gatewayLBConfiguration-controller" (cf_gatewayLBProbePort flags)) u4 = (Ok tt, u5) /\
    Complete mgr setupManagerVM (VMReconciler az "gatewayVMConfiguration-controller") u5 = (Ok tt, u6) /\
    P u7 /\ StartManager mgr u7 = (result, w').
Proof.
  intros Hrun Hw HnP. unfold startManagerControllers in Hrun.
  step Hrun mgr w1 Hmgr Hw. step Hrun raw w2 Hraw Hw. destruct (DefaultAndValidate raw) as [az err] eqn:Hv.
  destruct err as [err|]; step Hrun u w3 Herr Hw; [by apply orExit_Ok in Herr|].
  step Hrun factory w4 Hf Hw. step Hrun az' w5 Haz Hw. apply orExit_Ok in Haz. unfold CreateAzureManager, ret in Haz.
  injection Haz as <- <-. step Hrun u1 w6 E1 Hw. step Hrun u2 w7 E2 Hw. step Hrun u3 w8 E3 Hw.
  step Hrun u4 w9 E4 Hw. step Hrun u5 w10 E5 Hw. destruct u1, u2, u3. apply orExit_Ok in Hraw, E1, E2, E3.
  destruct (orExit_run _ _ _ _ Hrun) as [result Hstart].
  exists mgr, raw, az, w1, w2, w4, w6, w7, w8, w10, result. split_and!; try done.
  by apply DefaultAndValidate_fixpoint in Hv as [Hv _].
Qed.

(** The daemon runs only when it was set up in full. Let [P] say that its manager
    was not started. If the program falsifies it, then the node's metadata was read, and
    before the start the manager got one health probe server, for the port of the flag,
    that is also the one the gateways' controller reports to, and the two controllers;
    each watches a channel, and a ticker was started for each of the channels. *)
Theorem daemon_runs_configured (P : W -> Prop) `{!SetupCalls P} flags w r w' :
  startDaemonControllers flags w = (r, w') -> P w -> ~ P w' ->
  exists mgr node svr gw peer c1 c2 u1 u2 u3 u4 u5 u6 u7 u8 u9 u10 u11 u12 result,
    InitNodeMetadata u1 = (Ok node, u2) /\ svr = NewLBProbeServer (df_gatewayLBProbePort flags) /\
    addRunnable mgr svr u2 = (Ok tt, u3) /\
    Build mgr builtDaemonSGC (DaemonSGCReconciler gw svr) u4 = (Ok c1, u5) /\
    controllerWatch c1 gw tickerSource u5 = (Ok tt, u6) /\
    Build mgr builtPodEndpoint (PodEndpointReconciler peer) u7 = (Ok c2, u8) /\
    controllerWatch c2 peer tickerSource u8 = (Ok tt, u9) /\
    goTicker gw 1 u10 = (Ok tt, u11) /\ goTicker peer 1 u11 = (Ok tt, u12) /\
    P u12 /\ StartManager mgr u12 = (result, w') /\ (forall n, r = Ok n -> n = node).
Proof.
  intros Hrun Hw HnP. unfold startDaemonControllers, setupWithTicker in Hrun.
  step Hrun mgr w1 Hmgr Hw. step Hrun node w2 Hnode Hw. step Hrun u1 w3 E1 Hw. step Hrun gw w4 E2 Hw.
  step Hrun u3 w5 E3 Hw. step Hrun peer w6 E4 Hw. step Hrun u5 w7 E5 Hw. step Hrun u6 w8 E6 Hw. step Hrun u7 w9 E7 Hw.
  step Hrun u8 w10 E8 Hw. step Hrun u9 w11 E9 Hw. destruct u1, u3, u5, u8, u9. apply orExit_Ok in Hnode, E1, E3, E5.
  apply bind_Ok_inv in E3 as (c1 & w12 & E3 & E3'). apply bind_Ok_inv in E5 as (c2 & w13 & E5 & E5').
  destruct (orExit (StartManager mgr) w11) as [o w14] eqn:Hstart. unfold bind in Hrun. rewrite Hstart in Hrun.
  assert (w14 = w') as -> by (by destruct o; injection Hrun).
  destruct (orExit_run _ _ _ _ Hstart) as [result Hs].
  exists mgr, node, (NewLBProbeServer (df_gatewayLBProbePort flags)), gw, peer, c1, c2, w1, w2, w3, w4, w12, w5, w6, w13, w7, w9, w10, w11, result.
  split_and!; try done. intros n ->. destruct o; [|done..]. by injection Hrun.
Qed.

(** The calls before [Serve] do not serve requests. *)
Class ServeCalls (P : W -> Prop) : Prop := {
  sv_zap : keeps P zapNewProduction;
  sv_cluster o : keeps P (newCluster o);
  sv_informer c : keeps P (GetNodeInformer c);
  sv_handler i f : keeps P (AddEventHandler i f);
  sv_start c : keeps P (goStartCluster c);
  sv_sync c : keeps P (WaitForCacheSync c);
  sv_configMap k : keeps P (kGet (Obj := ConfigMap) k);
  sv_watcher : keeps P NewWatcher;
  sv_watch d : keeps P (watcherAdd d);
  sv_close : keeps P watcherClose;
  sv_conf f : keeps P (goConfManager f);
  sv_listen a : keeps P (Listen a);
  sv_shutdown : keeps P goShutdown;
}.
#[local] Hint Resolve sv_zap sv_cluster sv_informer sv_handler sv_start sv_sync sv_configMap sv_watcher sv_watch sv_close
  sv_conf sv_listen sv_shutdown : keeps.

(** The CNI manager serves where it tells the plugins to call. Let [P] say that the
    service does not answer. If the program falsifies it, then the manager of the CNI
    configuration was made for the flags, its taint handler watches the node and its
    loop was started, and the service of the plugins is served on the listener; and the
    entry the manager writes for the plugin has the address of the very port at which
    the service listens. *)
Theorem plugins_dial_the_service (P : W -> Prop) `{!ServeCalls P} flags w r w' :
  ServiceLauncher flags w = (r, w') -> P w -> ~ P w' ->
  exists mgr informer listener u1 u2 u3 u4 u5 u6 u7 u8 u9 result services,
    confmgr.NewCNIConfManager consts.CNIConfDir (sf_confFileName flags) (sf_exceptionCidrs flags)
      (sf_cniUninstallConfigMapName flags) (sf_grpcPort flags) u1 = (Ok mgr, u2) /\
    AddEventHandler informer (nodeTaintHandler mgr) u3 = (Ok tt, u4) /\
    goConfManager (fun events => orExit (confmgr.Start mgr events)) u5 = (Ok tt, u6) /\
    Listen (":" +:+ Itoa (sf_grpcPort flags)) u6 = (Ok listener, u7) /\ P u8 /\
    Serve services listener u8 = (result, u9) /\ NicService ∈ services /\
    match egressPlugin mgr with
    | JObject fields => fields !! "socketPath" = Some (JString ("localhost:" +:+ Itoa (sf_grpcPort flags)))
    | _ => False
    end.
Proof.
  intros Hrun Hw HnP. unfold ServiceLauncher, getKubeCluster in Hrun.
  step Hrun z w1 Hz Hw. destruct z as [e|z]; step Hrun u1 w2 E1 Hw; [done|].
  step Hrun cl w3 E2 Hw. step Hrun mgr w4 Hmgr Hw.
  step Hrun u2 w5 E3 Hw. step Hrun u3 w6 E4 Hw. step Hrun listener w7 E5 Hw. step Hrun u4 w8 E6 Hw.
  destruct u3. apply orExit_Ok in Hmgr, E5. unfold startKubeCluster in E3.
  apply bind_Ok_inv in E3 as (informer & w9 & E7 & E3). apply bind_Ok_inv in E3 as ([] & w10 & E8%orExit_Ok & _).
  destruct (Serve grpcServices listener w8) as [result w13] eqn:E9.
  exists mgr, informer, listener, w3, w4, w9, w10, w5, w6, w7, w8, w13, result, grpcServices.
  split_and!; try done; [by right; left|].
  unfold confmgr.NewCNIConfManager in Hmgr. apply bind_Ok_inv in Hmgr as (cidrs & w11 & _ & Hmgr).
  apply bind_Ok_inv in Hmgr as ([] & w12 & _ & Hmgr). unfold ret in Hmgr. injection Hmgr as <- _. reflexivity.
Qed.

(** C39: the load balancer's health probes find the daemon. When the manager and the
    daemon are started for the same probe port, as they are by default, the probe the
    manager configures for a gateway goes to the port at which the daemon's server
    listens, and for its path the server answers 200 exactly when the daemon's last
    operation on the gateway added it, and 503 otherwise. *)
Theorem probe_reaches_gateway cf df name lbConfig ops :
  let uid := owner_uid (om_owners (lbc_meta lbConfig)) (om_name (lbc_meta lbConfig)) in
  cf_gatewayLBProbePort cf = df_gatewayLBProbePort df -> (0 <= df_gatewayLBProbePort df < 2 ^ 31)%Z ->
  no_byte "/"%char uid = true ->
  cf_gatewayLBProbePort defaultControllerFlags = df_gatewayLBProbePort defaultDaemonFlags /\
  let svr := NewLBProbeServer (df_gatewayLBProbePort df) in
  match pr_Properties (getExpectedLBProbe name (cf_gatewayLBProbePort cf) lbConfig) with
  | Some {| pr_RequestPath := Some path; pr_Port := Some port |} =>
      ":" +:+ Itoa port = serverAddr (fold_left apply ops svr) /\
      serveHTTP (fold_left apply ops svr) path = if served uid ops false then StatusOK else StatusServiceUnavailable
  | _ => False
  end.
Proof.
  intros uid Hport Hrange Hu. split; [done|]. intros svr.
  pose proof (probe_follows_gateway name (cf_gatewayLBProbePort cf) lbConfig (df_gatewayLBProbePort df) ops Hu) as Hp.
  unfold getExpectedLBProbe, Ptr in *. cbn [pr_Properties] in *. split; [|exact Hp].
  unfold serverAddr. rewrite apply_listenPort, Hport. simpl. unfold to_int32. by rewrite Z.mod_small, Z.add_simpl_r by lia.
Qed.
End programs.
