(* ===== verification/ProgramsWitness.v ===== *)
(** * The programs run

    A process whose libraries always succeed: the state says whether it is running. *)

From stdpp Require Import base tactics list strings gmap.
From Stdlib Require Import Ascii ZArith Lia.
From S2P Require Import Prelude GoStrings Types Kube Config Azure LBRules LBConfig VMConfig ManagerSGC.
From S2P Require Import NetIP Network Imds HealthProbe Files JSON CNIConf CNIServer Watches Programs.

Open Scope string_scope.
Open Scope list_scope.

Inductive Process := Stopped | Running.
Definition runs : M Process unit := fun _ => (Ok tt, Running).
Definition idle (w : Process) : Prop := w = Stopped.

#[local] Instance quiet_handlers : Handlers := {|
  EnqueueRequestForObject e := [om_key (ev_object e)];
  EnqueueRequestForOwner _ _ := [];
  EnqueueRequestsFromMapFunc f e := f (ev_object e) |}.
#[local] Instance ctrl_runtime : CtrlRuntime (W := Process) := {|
  Manager := unit; CtrlController := unit;
  NewManager _ := ret tt; Complete _ _ _ := ret tt; Build _ _ _ := ret tt; controllerWatch _ _ _ := ret tt;
  addRunnable _ _ := ret tt; AddHealthzCheck _ _ := ret tt; AddReadyzCheck _ _ := ret tt;
  StartManager _ := runs |}.
#[local] Instance az_library : AzLibrary (W := Process) := {|
  LoadConfig _ := ret sample_config; AuthProvider := unit; ClientOptions := unit; ClientFactory := unit;
  NewAuthProvider _ := ret tt; GetAzCoreClientOption _ := ret tt; NewClientFactory _ _ _ _ _ _ := ret tt |}.
#[local] Instance daemons : Daemons (W := Process) := {| makeChan := ret 0; goTicker _ _ := ret tt |}.
#[local] Instance imds_http : ImdsHTTP Process := fun _ _ _ =>
  ret (200%Z, "200 OK", inr (jtext "{'compute': {'tags': 'a:b'}, 'loadbalancer': {}}")).
#[local] Instance process_env : OsEnv := fun _ => "kube-egress-gateway-system".

#[local] Instance idle_setup : SetupCalls idle.
Proof.
  split; intros; intros st Hst; exact Hst.
Qed.

Lemma manager_runs_configured_witness :
  exists mgr raw az u1 u2 u3 u4 u5 u6 u7 result,
    LoadConfig "/etc/kubernetes/kube-egress-gateway/azure.json" u1 = (Ok raw, u2) /\
    DefaultAndValidate raw = (az, None) /\ valid_config az /\
    Complete mgr (setupManagerSGC "kube-egress-gateway-system")
      (SGCReconciler "kube-egress-gateway-system" "staticGatewayConfiguration-controller") u3 = (Ok tt, u4) /\
    Complete mgr setupManagerLB (LBReconciler az "gatewayLBConfiguration-controller" 8082) u4 = (Ok tt, u5) /\
    Complete mgr setupManagerVM (VMReconciler az "gatewayVMConfiguration-controller") u5 = (Ok tt, u6) /\
    idle u7 /\ StartManager mgr u7 = (result, Running).
Proof.
  refine (manager_runs_configured (H0 := ctrl_runtime) (H1 := az_library) idle defaultControllerFlags Stopped (Ok tt) Running
    _ eq_refl _).
  - vm_compute. reflexivity.
  - discriminate.
Defined.

Lemma daemon_runs_configured_witness :
  exists n, fst (startDaemonControllers defaultDaemonFlags Stopped) = Ok n /\
  exists mgr node svr gw peer c1 c2 u1 u2 u3 u4 u5 u6 u7 u8 u9 u10 u11 u12 result,
    InitNodeMetadata u1 = (Ok node, u2) /\ svr = NewLBProbeServer 8082 /\
    addRunnable mgr svr u2 = (Ok tt, u3) /\
    Build mgr builtDaemonSGC (DaemonSGCReconciler gw svr) u4 = (Ok c1, u5) /\
    controllerWatch c1 gw tickerSource u5 = (Ok tt, u6) /\
    Build mgr builtPodEndpoint (PodEndpointReconciler peer) u7 = (Ok c2, u8) /\
    controllerWatch c2 peer tickerSource u8 = (Ok tt, u9) /\
    goTicker gw 1 u10 = (Ok tt, u11) /\ goTicker peer 1 u11 = (Ok tt, u12) /\
    idle u12 /\ StartManager mgr u12 = (result, Running) /\ (forall m, Ok n = Ok m -> m = node).
Proof.
  eexists. split; [vm_compute; reflexivity|].
  refine (daemon_runs_configured (H0 := ctrl_runtime) (H1 := az_library) idle defaultDaemonFlags Stopped _ Running
    _ eq_refl _).
  - vm_compute. reflexivity.
  - discriminate.
Defined.

(** ** The CNI manager *)

#[local] Instance serve_library : ServeLibrary (W := Process) := {|
  zapNewProduction := ret tt; KubeCluster := unit; newCluster _ := ret tt; NodeInformer := unit;
  GetNodeInformer _ := ret tt; AddEventHandler _ _ := ret tt; goStartCluster _ := ret tt; WaitForCacheSync _ := ret tt;
  goConfManager _ := ret tt; Listener := unit; Listen _ := ret tt; goShutdown := ret tt; Serve _ _ := runs;
  groupWait := ret tt |}.
#[local] Instance no_files : FileSystem Process := {|
  ReadDir _ := ret []; ReadFile _ := throw (EPath true "no file"); WriteFile _ _ _ := ret tt; Rename _ _ := ret tt;
  Stat _ := throw (EPath true "no file"); Remove _ := ret tt |}.
#[local] Instance no_watcher : Watcher Process := {|
  NewWatcher := ret tt; watcherAdd _ := ret tt; watcherClose := ret tt |}.
#[local] Instance one_try : Retries := fun _ _ _ fn => fn.
#[local] Instance no_objects {Obj} : Store Process Obj := {|
  kGet _ := throw (EStatus "NotFound" ""); kList := ret []; kCreate o := ret o; kUpdate o := ret o;
  kStatusUpdate o := ret o; kDelete _ := ret tt; kCreateOrPatch o _ := ret (o, None) |}.

#[local] Instance idle_serve : ServeCalls idle.
Proof. split; intros; intros st Hst; exact Hst. Qed.

Lemma plugins_dial_the_service_witness :
  exists mgr informer listener u1 u2 u3 u4 u5 u6 u7 u8 u9 result services,
    confmgr.NewCNIConfManager consts.CNIConfDir "01-egressgateway.conflist" "" "cni-uninstall" 50051 u1 = (Ok mgr, u2) /\
    AddEventHandler informer (nodeTaintHandler mgr) u3 = (Ok tt, u4) /\
    goConfManager (fun events => orExit (confmgr.Start mgr events)) u5 = (Ok tt, u6) /\
    Listen ":50051" u6 = (Ok listener, u7) /\ idle u8 /\
    Serve services listener u8 = (result, u9) /\ NicService ∈ services /\
    match egressPlugin mgr with
    | JObject fields => fields !! "socketPath" = Some (JString "localhost:50051")
    | _ => False
    end.
Proof.
  refine (plugins_dial_the_service (H5 := serve_library) idle defaultServeFlags Stopped (Ok tt) Running _ eq_refl _).
  - vm_compute. reflexivity.
  - discriminate.
Defined.

Lemma probe_reaches_gateway_witness :
  serveHTTP (fold_left apply [Add "sgc-uid"; Add "other"] (NewLBProbeServer 8082)) "/gw/sgc-uid" = StatusOK.
Proof.
  apply (proj2 (proj2 (probe_reaches_gateway defaultControllerFlags defaultDaemonFlags None probed_lbc
    [Add "sgc-uid"; Add "other"] eq_refl ltac:(simpl; lia) eq_refl))).
Defined.
