(* ===== verification/Memory.v ===== *)
(** * Memory with pointers

    The other files pass objects as values.  Where the repository shares objects through
    pointers, this file gives them a memory: typed cells at addresses, reading, writing
    and allocation, and the patterns of the deep copies that [controller-gen] generates.
    [Rep] says which value a piece of memory represents and at which addresses it lives;
    [Copies] is what a deep copy promises. *)

From stdpp Require Import base tactics list strings gmap fin_maps sets.
From S2P Require Import Prelude.

Open Scope list_scope.

(** ** Cells *)

(** The types of the cells: the program's base types and arrays of cells' contents. *)
Inductive tag (B : Type) := TBase (b : B) | TArr (t : tag B).
Arguments TBase {B} b.
Arguments TArr {B} t.

Class Layout := {
  base : Type;
  base_eq_dec :: EqDecision base;
  baseDen : base -> Type;
  baseZero : forall b, baseDen b;
}.

#[export] Instance tag_eq_dec `{Layout} : EqDecision (tag base).
Proof. solve_decision. Defined.

Definition loc : Type := positive.
(** A pointer, or a slice by the address of its array; nil is [None]. *)
Definition ptr : Type := option loc.

(** The lemmas that a type's [DeepCopyInto] copies. *)
Create HintDb copies discriminated.

Section memory.
Context `{Layout}.

Fixpoint den (t : tag base) : Type :=
  match t with TBase b => baseDen b | TArr t => list (den t) end.
(** The zero value of a type. *)
Definition zeroOf (t : tag base) : den t :=
  match t with TBase b => baseZero b | TArr _ => [] end.

Record cell := Cell { c_tag : tag base; c_val : den c_tag }.
Abbreviation heap := (gmap loc cell).

(** The contents of a cell of the type that is expected. *)
Definition contents (t : tag base) (c : cell) : option (den t) :=
  match decide (c_tag c = t) with
  | left e => Some (eq_rect (c_tag c) den (c_val c) t e)
  | right _ => None
  end.
Definition at_ (t : tag base) (h : heap) (l : loc) : option (den t) := h !! l ≫= contents t.

Lemma contents_Cell t (x : den t) : contents t (Cell t x) = Some x.
Proof.
  unfold contents. simpl. destruct (decide (t = t)) as [e|]; [|done]. f_equal.
  by rewrite <- Eqdep_dec.eq_rect_eq_dec by (apply tag_eq_dec).
Qed.
Lemma at_insert t h l (x : den t) : at_ t (<[l := Cell t x]> h) l = Some x.
Proof. unfold at_. rewrite lookup_insert_eq. simpl. apply contents_Cell. Qed.
Lemma at_dom t h l x : at_ t h l = Some x -> l ∈ dom h.
Proof. unfold at_. intros (c & Hc & _)%bind_Some. by apply elem_of_dom_2 in Hc. Qed.

(** ** Reading, writing and allocating *)

Definition load (t : tag base) (p : ptr) : M heap (den t) := fun h =>
  match p ≫= at_ t h with Some x => (Ok x, h) | None => (Panic, h) end.
Definition store (t : tag base) (p : ptr) (x : den t) : M heap unit := fun h =>
  match p with Some l => (Ok tt, <[l := Cell t x]> h) | None => (Panic, h) end.
Definition new (t : tag base) (x : den t) : M heap loc := fun h =>
  let l := fresh (dom h) in (Ok l, <[l := Cell t x]> h).

Lemma load_at t h l x : at_ t h l = Some x -> load t (Some l) h = (Ok x, h).
Proof. unfold load. simpl. by intros ->. Qed.

(** ** The patterns of generated deep copies

    [copy] is the [DeepCopyInto] of the type: it takes the contents of [*in] to the
    contents of [*out]. *)

Definition DeepCopyInto (t : tag base) (copy : den t -> M heap (den t)) (in_ out : ptr) : M heap unit :=
  let! x := load t in_ in
  let! y := copy x in
  store t out y.

(** [DeepCopy]: nil for nil, and otherwise a new object. *)
Definition DeepCopy (t : tag base) (copy : den t -> M heap (den t)) (in_ : ptr) : M heap ptr :=
  match in_ with
  | None => ret None
  | Some _ =>
      let! out := new t (zeroOf t) in
      do! DeepCopyInto t copy in_ (Some out);
      ret (Some out)
  end.

(** [DeepCopyObject]: the copy as an interface, which is nil for a nil pointer. *)
Definition DeepCopyObject (t : tag base) (copy : den t -> M heap (den t)) (in_ : ptr) : M heap ptr :=
  let! c := DeepCopy t copy in_ in
  match c with Some l => ret (Some l) | None => ret None end.

(** A pointer field: when it is not nil, it gets a new object, into which the old one is
    copied. *)
Definition copyPtr : forall t, (den t -> M heap (den t)) -> ptr -> M heap ptr := DeepCopy.

Fixpoint copyAll {A} (copy : A -> M heap A) (l : list A) : M heap (list A) :=
  match l with
  | [] => ret []
  | x :: l => let! y := copy x in let! l' := copyAll copy l in ret (y :: l')
  end.

(** A slice field: [make] and then [copy], or a loop that copies each element. *)
Definition copySlice (t : tag base) (copy : den t -> M heap (den t)) (in_ : ptr) : M heap ptr :=
  match in_ with
  | None => ret None
  | Some _ =>
      let! a := load (TArr t) in_ in
      let! out := new (TArr t) (replicate (length a) (zeroOf t)) in
      let! b := copyAll copy a in
      do! store (TArr t) (Some out) b;
      ret (Some out)
  end.

(** ** What memory represents *)

(** The value that a piece [a] of memory stands for, and the addresses it is spread
    over. *)
Record Rep (A V : Type) := {
  value : heap -> A -> option V;
  locs : heap -> A -> gset loc;
}.
Arguments value {A V} _ _ _.
Arguments locs {A V} _ _ _.

(** The value depends on these addresses only. *)
Class RepOk {A V} (R : Rep A V) : Prop := {
  locs_dom h a v : value R h a = Some v -> locs R h a ⊆ dom h;
  locs_frame h h' a v : value R h a = Some v -> (forall l, l ∈ locs R h a -> h' !! l = h !! l) ->
    value R h' a = Some v /\ locs R h' a = locs R h a;
}.

(** [c] makes a copy: it succeeds, changes nothing that is there, and what it returns
    stands for the same value at addresses that are all new. *)
Definition Copies {A V} (R : Rep A V) (c : A -> M heap A) : Prop :=
  forall h a v, value R h a = Some v ->
    exists a' h', c a h = (Ok a', h') /\ h ⊆ h' /\ value R h' a' = Some v /\ locs R h' a' ## dom h.

(** Data without pointers. *)
Definition flat {A} : Rep A A := {| value _ a := Some a; locs _ _ := ∅ |}.
(** A pointer to a [t], and a slice of them.  Objects are trees: what a pointer leads to
    does not contain the pointer's own cell, and the parts of a struct share no cells. *)
Definition pointer {V} (t : tag base) (R : Rep (den t) V) : Rep ptr (option V) := {|
  value h p :=
    match p with
    | None => Some None
    | Some l => at_ t h l ≫= fun x => if decide (l ∈ locs R h x) then None else Some <$> value R h x
    end;
  locs h p :=
    match p with
    | None => ∅
    | Some l => {[ l ]} ∪ from_option (locs R h) ∅ (at_ t h l)
    end |}.
Definition slice {V} (t : tag base) (R : Rep (den t) V) : Rep ptr (list V) := {|
  value h p :=
    match p with
    | None => Some []
    | Some l => at_ (TArr t) h l ≫= mapM (value R h)
    end;
  locs h p :=
    match p with
    | None => ∅
    | Some l => {[ l ]} ∪ from_option (fun a => ⋃ (locs R h <$> a)) ∅ (at_ (TArr t) h l)
    end |}.
(** A struct of two parts, of which each may hold pointers; [f] makes the value. *)
Definition struct2 {S A V B U T} (a : S -> A) (b : S -> B) (f : S -> V -> U -> T) (RA : Rep A V) (RB : Rep B U) : Rep S T := {|
  value h s :=
    v ← value RA h (a s); u ← value RB h (b s);
    if decide (locs RA h (a s) ## locs RB h (b s)) then Some (f s v u) else None;
  locs h s := locs RA h (a s) ∪ locs RB h (b s) |}.

(** ** Lemmas *)

#[local] Arguments value : simpl never.
#[local] Arguments locs : simpl never.

#[export] Instance flat_ok {A} : RepOk (flat (A := A)).
Proof. split; [intros h a v _; apply empty_subseteq|done]. Qed.

Lemma at_frame t h h' l : h' !! l = h !! l -> at_ t h' l = at_ t h l.
Proof. unfold at_. by intros ->. Qed.

Lemma value_grows {A V} (R : Rep A V) `{!RepOk R} h h' a v :
  h ⊆ h' -> value R h a = Some v -> value R h' a = Some v /\ locs R h' a = locs R h a.
Proof.
  intros Hsub Hv. apply (locs_frame h h' a v); [done|]. intros l Hl. apply (locs_dom h a v Hv) in Hl.
  apply elem_of_dom in Hl as [c Hc]. rewrite Hc. by apply (lookup_weaken _ _ _ _ Hc).
Qed.

Lemma pointer_value {V} t (R : Rep (den t) V) h l v :
  value (pointer t R) h (Some l) = Some v <->
  exists x u, at_ t h l = Some x /\ value R h x = Some u /\ (l ∉ locs R h x) /\ v = Some u.
Proof.
  unfold value at 1. simpl. rewrite bind_Some. split.
  - intros (x & Hx & Hv). destruct (decide (l ∈ locs R h x)); [done|]. apply fmap_Some in Hv as (u & Hu & ->). eauto 10.
  - intros (x & u & Hx & Hu & Hl & ->). exists x. split; [done|]. rewrite decide_False by done. by rewrite Hu.
Qed.
Lemma pointer_locs {V} t (R : Rep (den t) V) h l x :
  at_ t h l = Some x -> locs (pointer t R) h (Some l) = {[ l ]} ∪ locs R h x.
Proof. intros Hx. unfold locs at 1. simpl. by rewrite Hx. Qed.

#[export] Instance pointer_ok {V} t (R : Rep (den t) V) : RepOk R -> RepOk (pointer t R).
Proof.
  intros HR. split.
  - intros h [l|] v; [|unfold locs; simpl; set_solver].
    intros (x & u & Hx & Hu & _)%pointer_value. rewrite (pointer_locs t R h l x Hx). apply at_dom in Hx.
    apply locs_dom in Hu. set_solver.
  - intros h h' [l|] v; [|done]. intros (x & u & Hx & Hu & Hl & ->)%pointer_value Hf.
    rewrite (pointer_locs t R h l x Hx) in *.
    assert (Hx' : at_ t h' l = Some x) by (rewrite <- Hx; apply at_frame, Hf; set_solver).
    destruct (locs_frame h h' x u Hu) as [Hu' Hl']; [intros l' Hin; apply Hf; set_solver|].
    rewrite (pointer_locs t R h' l x Hx'), Hl'. split; [|done]. apply pointer_value. exists x, u. by rewrite Hl'.
Qed.

Lemma mapM_frame {A V} (R : Rep A V) `{!RepOk R} h h' a vs :
  mapM (value R h) a = Some vs -> (forall l, l ∈ ⋃ (locs R h <$> a) -> h' !! l = h !! l) ->
  mapM (value R h') a = Some vs /\ locs R h' <$> a = locs R h <$> a.
Proof.
  rewrite !mapM_Some. intros Ha. induction Ha as [|x v a vs Hv _ IH]; intros Hl; [done|].
  rewrite fmap_cons, union_list_cons in Hl. rewrite !fmap_cons.
  destruct (locs_frame h h' x v Hv) as [Hv' ->]; [intros l Hx; apply Hl; set_solver|].
  destruct IH as [IH ->]; [intros l Hx; apply Hl; set_solver|]. split; [by constructor|done].
Qed.
Lemma mapM_dom {A V} (R : Rep A V) `{!RepOk R} h a vs : mapM (value R h) a = Some vs -> ⋃ (locs R h <$> a) ⊆ dom h.
Proof.
  rewrite mapM_Some. intros Ha. induction Ha as [|x v a vs Hv%locs_dom _ IH]; [set_solver|].
  rewrite fmap_cons, union_list_cons. set_solver.
Qed.

#[export] Instance slice_ok {V} t (R : Rep (den t) V) : RepOk R -> RepOk (slice t R).
Proof.
  intros HR. split.
  - intros h [l|] v; unfold value, locs; simpl; [|set_solver].
    intros (x & Hx & Hu%(mapM_dom R))%bind_Some. rewrite Hx. apply (at_dom (TArr t)) in Hx. simpl. set_solver.
  - intros h h' [l|] v; unfold value, locs; simpl; [|done].
    intros (x & Hx & Hu)%bind_Some Hl. rewrite Hx in *. simpl in *.
    rewrite (at_frame (TArr t) h h' l), Hx by (apply Hl; set_solver). simpl.
    destruct (mapM_frame R h h' x v Hu) as [-> ->]; [|done]. intros l' Hl'. apply Hl. set_solver.
Qed.

Lemma struct2_value {S A V B U T} (a : S -> A) (b : S -> B) (f : S -> V -> U -> T) RA RB h s t :
  value (struct2 a b f RA RB) h s = Some t <->
  exists v u, value RA h (a s) = Some v /\ value RB h (b s) = Some u /\ locs RA h (a s) ## locs RB h (b s) /\ t = f s v u.
Proof.
  unfold value at 1. simpl. split.
  - intros (v & Hv & (u & Hu & Ht)%bind_Some)%bind_Some. case_decide; [|done]. injection Ht as <-. eauto 10.
  - intros (v & u & Hv & Hu & Hd & ->). rewrite Hv, Hu. simpl. by rewrite decide_True.
Qed.
Lemma struct2_locs {S A V B U T} (a : S -> A) (b : S -> B) (f : S -> V -> U -> T) RA RB h s :
  locs (struct2 a b f RA RB) h s = locs RA h (a s) ∪ locs RB h (b s).
Proof. done. Qed.

#[export] Instance struct2_ok {S A V B U T} (a : S -> A) (b : S -> B) (f : S -> V -> U -> T) RA RB :
  RepOk RA -> RepOk RB -> RepOk (struct2 a b f RA RB).
Proof.
  intros HA HB. split.
  - intros h s t (v & u & Hv%locs_dom & Hu%locs_dom & _)%struct2_value. rewrite struct2_locs. set_solver.
  - intros h h' s t (v & u & Hv & Hu & Hd & ->)%struct2_value. rewrite !struct2_locs. intros Hl.
    destruct (locs_frame h h' _ v Hv) as [Hv' Hlv]; [intros l ?; apply Hl; set_solver|].
    destruct (locs_frame h h' _ u Hu) as [Hu' Hlu]; [intros l ?; apply Hl; set_solver|].
    rewrite Hlv, Hlu. split; [|done]. apply struct2_value. exists v, u. by rewrite Hlv, Hlu.
Qed.

(** ** The patterns copy *)

Lemma flat_copies {A} : Copies (flat (A := A)) ret.
Proof. intros h a v [= <-]. exists a, h. split_and!; [done..|set_solver]. Qed.

(** A new cell that is filled in later leaves the old memory as it was. *)
Lemma filled (h h2 : heap) c0 c :
  let q := fresh (dom h) in let h1 := <[q := c0]> h in
  h1 ⊆ h2 -> h ⊆ h1 /\ h ⊆ <[q := c]> h2 /\ (q ∉ dom h) /\ (q ∈ dom h1) /\ (forall l, l ∈ dom h -> h1 !! l = h !! l).
Proof.
  intros q h1 Hsub. assert (Hq : q ∉ dom h) by apply is_fresh.
  assert (Hn : h !! q = None) by (by apply not_elem_of_dom). split_and!; [by apply insert_subseteq| |done| |].
  - trans (<[q := c]> h1); [unfold h1; rewrite insert_insert_eq; by apply insert_subseteq|by apply insert_mono].
  - unfold h1. set_solver.
  - intros l Hl. apply lookup_insert_ne. by intros ->.
Qed.

(** What was copied to new addresses is still there when another cell is written. *)
Lemma copied_frame {A V} (R : Rep A V) `{!RepOk R} (h1 h2 : heap) q c a v :
  value R h2 a = Some v -> locs R h2 a ## dom h1 -> q ∈ dom h1 ->
  value R (<[q := c]> h2) a = Some v /\ locs R (<[q := c]> h2) a = locs R h2 a.
Proof. intros Hv Hl Hq. apply (locs_frame h2 _ a v Hv). intros l' Hl'. apply lookup_insert_ne. set_solver. Qed.

Lemma pointer_copies {V} t (R : Rep (den t) V) `{!RepOk R} c : Copies R c -> Copies (pointer t R) (copyPtr t c).
Proof.
  intros Hc h [l|] v; [|intros [= <-]; exists None, h; split_and!; [done..|unfold locs; simpl; set_solver]].
  intros (x & u & Hx & Hu & _ & ->)%pointer_value.
  set (q := fresh (dom h)). set (h1 := <[q := Cell t (zeroOf t)]> h).
  destruct (filled h h1 (Cell t (zeroOf t)) (Cell t (zeroOf t)) (reflexivity _)) as (Hsub & _ & Hq & Hq1 & Hold). fold q h1 in Hsub, Hq, Hq1, Hold.
  assert (Hx1 : at_ t h1 l = Some x) by (rewrite (at_frame t h h1 l); [done|by apply Hold, (at_dom t h l x)]).
  destruct (Hc h1 x u) as (y & h2 & Hrun & Hsub2 & Hy & Hly); [by apply (value_grows R h)|].
  destruct (filled h h2 (Cell t (zeroOf t)) (Cell t y) Hsub2) as (_ & Hgrow & _). fold q in Hgrow.
  destruct (copied_frame R h1 h2 q (Cell t y) y u Hy Hly Hq1) as [Hv Hl].
  exists (Some q), (<[q := Cell t y]> h2). split_and!.
  - unfold copyPtr, DeepCopy, DeepCopyInto, bind, new, load, store, ret. fold q h1. simpl. by rewrite Hx1, Hrun.
  - done.
  - apply pointer_value. exists y, u. rewrite at_insert, Hl. split_and!; [done..|set_solver|done].
  - rewrite (pointer_locs t R _ q y), Hl by apply at_insert. apply subseteq_dom in Hsub. set_solver.
Qed.

(** The elements of an array, as one piece of memory. *)
Definition elements {A V} (R : Rep A V) : Rep (list A) (list V) := {|
  value h a := mapM (value R h) a;
  locs h a := ⋃ (locs R h <$> a) |}.
Lemma elements_value {A V} (R : Rep A V) h a vs :
  value (elements R) h a = Some vs <-> Forall2 (fun x v => value R h x = Some v) a vs.
Proof. apply mapM_Some. Qed.
Lemma elements_locs {A V} (R : Rep A V) h a : locs (elements R) h a = ⋃ (locs R h <$> a).
Proof. done. Qed.
#[export] Instance elements_ok {A V} (R : Rep A V) : RepOk R -> RepOk (elements R).
Proof.
  intros HR. split; unfold value, locs; simpl.
  - intros h a vs. apply (mapM_dom R).
  - intros h h' a vs Ha Hl. destruct (mapM_frame R h h' a vs Ha Hl) as [-> ->]. done.
Qed.
Lemma elements_copies {A V} (R : Rep A V) `{!RepOk R} c : Copies R c -> Copies (elements R) (copyAll c).
Proof.
  intros Hc h a vs Ha%elements_value. revert h vs Ha.
  induction a as [|x a IH]; intros h vs Ha; inversion Ha as [|? v ? vs' Hv Hvs]; subst.
  { exists [], h. split_and!; [done..|]. rewrite elements_locs. simpl. set_solver. }
  destruct (Hc h x v Hv) as (y & h1 & Hrun & Hsub & Hy & Hly).
  destruct (IH h1 vs') as (b & h2 & Hrun2 & Hsub2 & Hb & Hlb).
  { eapply Forall2_impl; [exact Hvs|]. intros x' v' Hx'. by apply (value_grows R h). }
  destruct (value_grows R h1 h2 y v Hsub2 Hy) as [Hy2 Hly2].
  exists (y :: b), h2. split_and!.
  - simpl. unfold bind, ret. by rewrite Hrun, Hrun2.
  - by trans h1.
  - apply elements_value. apply elements_value in Hb. by constructor.
  - rewrite elements_locs, fmap_cons, union_list_cons, Hly2 in *. apply subseteq_dom in Hsub. set_solver.
Qed.

Lemma slice_copies {V} t (R : Rep (den t) V) `{!RepOk R} c : Copies R c -> Copies (slice t R) (copySlice t c).
Proof.
  intros Hc h [l|] v; unfold value at 1; simpl; [|intros [= <-]; exists None, h; split_and!; [done..|set_solver]].
  intros (x & Hx & Hu)%bind_Some.
  set (q := fresh (dom h)). set (c0 := Cell (TArr t) (replicate (length x) (zeroOf t))). set (h1 := <[q := c0]> h).
  destruct (filled h h1 c0 c0 (reflexivity _)) as (Hsub & _ & Hq & Hq1 & Hold). fold q h1 in Hsub, Hq, Hq1, Hold.
  destruct (elements_copies R c Hc h1 x v) as (y & h2 & Hrun & Hsub2 & Hy & Hly); [by apply (value_grows (elements R) h)|].
  destruct (filled h h2 c0 (Cell (TArr t) y) Hsub2) as (_ & Hgrow & _). fold q in Hgrow.
  destruct (copied_frame (elements R) h1 h2 q (Cell (TArr t) y) y v Hy Hly Hq1) as [Hv Hl].
  exists (Some q), (<[q := Cell (TArr t) y]> h2). split_and!.
  - unfold copySlice, bind, new, load, store, ret. simpl. rewrite Hx. fold q. change (<[q := _]> h) with h1. by rewrite Hrun.
  - done.
  - unfold value. simpl. by rewrite (at_insert (TArr t)).
  - unfold locs at 1. simpl. rewrite (at_insert (TArr t)). simpl. rewrite <- elements_locs, Hl. apply subseteq_dom in Hsub. set_solver.
Qed.

Lemma struct2_copies {S A V B U T} (a : S -> A) (b : S -> B) (f : S -> V -> U -> T) RA RB `{!RepOk RA} `{!RepOk RB}
    (mk : S -> A -> B -> S) ca cb :
  (forall s x y, a (mk s x y) = x) -> (forall s x y, b (mk s x y) = y) -> (forall s x y, f (mk s x y) = f s) ->
  Copies RA ca -> Copies RB cb ->
  Copies (struct2 a b f RA RB) (fun s => let! x := ca (a s) in let! y := cb (b s) in ret (mk s x y)).
Proof.
  intros Ha Hb Hf HA HB h s t (v & u & Hv & Hu & _ & ->)%struct2_value.
  destruct (HA h (a s) v Hv) as (x & h1 & Hrun & Hsub & Hx & Hlx).
  destruct (HB h1 (b s) u) as (y & h2 & Hrun2 & Hsub2 & Hy & Hly); [by apply (value_grows RB h)|].
  destruct (value_grows RA h1 h2 x v Hsub2 Hx) as [Hx2 Hlx2].
  exists (mk s x y), h2. split_and!.
  - unfold bind, ret. by rewrite Hrun, Hrun2.
  - by trans h1.
  - apply struct2_value. exists v, u. rewrite Ha, Hb, Hf, Hlx2. split_and!; [done..| |done].
    apply locs_dom in Hx. set_solver.
  - rewrite struct2_locs, Ha, Hb, Hlx2. apply subseteq_dom in Hsub. set_solver.
Qed.

Lemma Copies_ext {A V} (R : Rep A V) c c' : (forall a h, c a h = c' a h) -> Copies R c -> Copies R c'.
Proof. intros He Hc h a v Hv. rewrite <- He. by apply Hc. Qed.

(** Slices of data without pointers. *)
Lemma mapM_flat {A} (a : list A) h : mapM (value flat h) a = Some a.
Proof. apply mapM_Some. by induction a; constructor. Qed.
Lemma flat_slice_value t h l a : value (slice t flat) h (Some l) = Some a <-> at_ (TArr t) h l = Some a.
Proof.
  unfold value. simpl. rewrite bind_Some. split.
  - intros (x & Hx & Ha). rewrite (mapM_flat x h) in Ha. injection Ha as <-. done.
  - intros Ha. exists a. split; [done|apply (mapM_flat a h)].
Qed.
Lemma flat_slice_locs t h l : is_Some (at_ (TArr t) h l) -> locs (slice t flat) h (Some l) = {[ l ]}.
Proof.
  intros [a Ha]. unfold locs. simpl. simpl in Ha. rewrite Ha. simpl. trans ({[ l ]} ∪ (∅ : gset loc)); [|set_solver].
  f_equal. clear Ha. induction a as [|x a IH]; [done|]. rewrite fmap_cons, union_list_cons, IH. set_solver.
Qed.

(** ** Copies are independent *)

(** A copy and its original stand for the same value, and however the memory of one of
    them changes, as long as the other's addresses are left alone, the other stands for
    its value still. *)
Definition independent {V} (R : Rep ptr V) (v : V) (h : heap) (p q : ptr) : Prop :=
  value R h p = Some v /\ value R h q = Some v /\ locs R h p ## locs R h q /\
  forall h', ((forall l, l ∉ locs R h p -> h' !! l = h !! l) -> value R h' q = Some v) /\
             ((forall l, l ∉ locs R h q -> h' !! l = h !! l) -> value R h' p = Some v).

Lemma independent_intro {V} (R : Rep ptr V) `{!RepOk R} (v : V) h p q :
  value R h p = Some v -> value R h q = Some v -> locs R h p ## locs R h q -> independent R v h p q.
Proof.
  intros Hp Hq Hd. split_and!; [done..|]. intros h'. split; intros Hl.
  - apply (locs_frame h h' q v Hq). intros l Hin. apply Hl. set_solver.
  - apply (locs_frame h h' p v Hp). intros l Hin. apply Hl. set_solver.
Qed.

(** [DeepCopy] and [DeepCopyObject] give nil for nil and an independent copy otherwise. *)
Definition makesCopies {V} (t : tag base) (R : Rep (den t) V) (c : ptr -> M heap ptr) : Prop :=
  (forall h, c None h = (Ok None, h)) /\
  forall h p v, value (pointer t R) h (Some p) = Some v ->
    exists q h', c (Some p) h = (Ok (Some q), h') /\ h ⊆ h' /\ independent (pointer t R) v h' (Some p) (Some q).

Lemma DeepCopy_makes {V} t (R : Rep (den t) V) `{!RepOk R} c : Copies R c -> makesCopies t R (DeepCopy t c).
Proof.
  intros Hc. split; [done|]. intros h p v Hv.
  destruct (pointer_copies t R c Hc h (Some p) v Hv) as (q & h' & Hrun & Hsub & Hq & Hlq).
  destruct (value_grows (pointer t R) h h' _ v Hsub Hv) as [Hv' Hl]. apply locs_dom in Hv as Hdom.
  destruct q as [q|]; [|unfold value in Hq; simpl in Hq; injection Hq as <-; by apply pointer_value in Hv as (? & ? & _ & _ & _ & ?)].
  exists q, h'. split_and!; [done..|]. apply independent_intro; [apply _|done..|]. rewrite Hl. set_solver.
Qed.
Lemma DeepCopyObject_makes {V} t (R : Rep (den t) V) `{!RepOk R} c : Copies R c -> makesCopies t R (DeepCopyObject t c).
Proof.
  intros Hc. destruct (DeepCopy_makes t R c Hc) as [H1 H2]. unfold DeepCopyObject, bind. split.
  - intros h. by rewrite H1.
  - intros h p v Hv. destruct (H2 h p v Hv) as (q & h' & Hrun & Hrest). exists q, h'. by rewrite Hrun.
Qed.

(** [DeepCopyInto] fills an object that is not part of the one it copies. *)
Lemma DeepCopyInto_copies {V} t (R : Rep (den t) V) `{!RepOk R} c h p q v :
  Copies R c -> value (pointer t R) h (Some p) = Some v -> q ∈ dom h -> q ∉ locs (pointer t R) h (Some p) ->
  exists h', DeepCopyInto t c (Some p) (Some q) h = (Ok tt, h') /\ independent (pointer t R) v h' (Some p) (Some q) /\
    forall l, l <> q -> l ∈ dom h -> h' !! l = h !! l.
Proof.
  intros Hc Hv Hq Hn. pose proof Hv as Hv0.
  apply pointer_value in Hv as (x & u & Hx & Hu & _ & ->).
  destruct (Hc h x u Hu) as (y & h2 & Hrun & Hsub & Hy & Hly).
  destruct (copied_frame R h h2 q (Cell t y) y u Hy Hly Hq) as [Hv2 Hl2].
  assert (Hother : forall l, l <> q -> l ∈ dom h -> <[q := Cell t y]> h2 !! l = h !! l).
  { intros l Hne [c' Hc']%elem_of_dom. rewrite lookup_insert_ne, Hc' by done. by apply (lookup_weaken h). }
  exists (<[q := Cell t y]> h2). split_and!; [|apply independent_intro; [apply _|..]|done].
  - unfold DeepCopyInto, bind, load, store. simpl. by rewrite Hx, Hrun.
  - apply (locs_frame h _ (Some p) (Some u) Hv0). intros l Hl. apply Hother; [set_solver|].
    by apply (locs_dom h (Some p) (Some u) Hv0).
  - apply pointer_value. exists y, u. rewrite at_insert, Hl2. split_and!; [done..|set_solver|done].
  - assert (locs (pointer t R) (<[q := Cell t y]> h2) (Some p) = locs (pointer t R) h (Some p)) as ->.
    { apply (locs_frame h _ (Some p) (Some u) Hv0). intros l Hl. apply Hother; [set_solver|].
      by apply (locs_dom h (Some p) (Some u) Hv0). }
    apply locs_dom in Hv0. rewrite (pointer_locs t R _ q y), Hl2 by apply at_insert. set_solver.
Qed.

(** ** Changing an object in place *)

(** On objects whose value satisfies [P], [c] changes the object at [p] as [f] changes its
    value: it writes the object's own cells and new ones only. *)
Definition Edits {V} (R : Rep ptr V) (p : ptr) (P : V -> Prop) (c : M heap unit) (f : V -> V) : Prop :=
  forall h v, P v -> value R h p = Some v ->
    exists h', c h = (Ok tt, h') /\ value R h' p = Some (f v) /\
      (forall l, l ∈ dom h -> l ∉ locs R h p -> h' !! l = h !! l) /\
      (forall l, l ∈ locs R h' p -> l ∈ dom h -> l ∈ locs R h p).

Lemma Edits_ret {V} (R : Rep ptr V) p P : Edits R p P (ret tt) id.
Proof. intros h v _ Hv. by exists h. Qed.
Lemma Edits_seq {V} (R : Rep ptr V) p (P1 P2 : V -> Prop) c1 c2 f1 f2 :
  Edits R p P1 c1 f1 -> Edits R p P2 c2 f2 -> (forall v, P1 v -> P2 (f1 v)) -> Edits R p P1 (do! c1; c2) (f2 ∘ f1).
Proof.
  intros H1 H2 HP h v HP1 Hv. destruct (H1 h v HP1 Hv) as (h1 & E1 & V1 & K1 & L1).
  destruct (H2 h1 _ (HP v HP1) V1) as (h2 & E2 & V2 & K2 & L2).
  assert (Hdom : forall l, l ∈ dom h -> l ∉ locs R h p -> l ∈ dom h1).
  { intros l Hl Hn. apply elem_of_dom. rewrite K1 by done. by apply elem_of_dom. }
  exists h2. split_and!; [unfold bind; by rewrite E1|done| |].
  - intros l Hl Hn. rewrite K2; [by apply K1|by apply Hdom|]. intros Hl1. by apply Hn, L1.
  - intros l Hl2 Hl. destruct (decide (l ∈ locs R h p)) as [|Hn]; [done|]. apply L1; [|done]. apply L2; [done|by apply Hdom].
Qed.
Lemma Edits_ext {V} (R : Rep ptr V) p (P : V -> Prop) c f f' :
  (forall v, P v -> f v = f' v) -> Edits R p P c f -> Edits R p P c f'.
Proof. intros Hf He h v HP Hv. rewrite <- Hf by done. by apply He. Qed.

Lemma Edits_run {V} (R : Rep ptr V) p (P : V -> Prop) c c' f : (forall h, c h = c' h) -> Edits R p P c f -> Edits R p P c' f.
Proof. intros Hc He h v HP Hv. rewrite <- Hc. by apply He. Qed.
Lemma Edits_weaken {V} (R : Rep ptr V) p (P P' : V -> Prop) c f : (forall v, P' v -> P v) -> Edits R p P c f -> Edits R p P' c f.
Proof. intros HP He h v HP' Hv. apply He; [by apply HP|done]. Qed.

(** What is apart from an object is not changed with it. *)
Lemma Edits_apart {V} (R : Rep ptr V) `{!RepOk R} p q (P : V -> Prop) c f h v u :
  Edits R p P c f -> P v -> value R h p = Some v -> value R h q = Some u -> locs R h p ## locs R h q ->
  exists h', c h = (Ok tt, h') /\ value R h' p = Some (f v) /\ value R h' q = Some u /\ locs R h' p ## locs R h' q.
Proof.
  intros He HP Hp Hq Hd. destruct (He h v HP Hp) as (h' & E1 & V1 & K1 & L1).
  apply locs_dom in Hq as Hdom. destruct (locs_frame h h' q u Hq) as [Hq' Hl]; [intros l Hl; apply K1; set_solver|].
  exists h'. rewrite Hl. split_and!; [done..|]. set_solver.
Qed.

(** An edit of the object's own cell. *)
Definition modify (t : tag base) (p : ptr) (g : den t -> den t) : M heap unit :=
  let! x := load t p in store t p (g x).
Lemma modify_edits {V} t (R : Rep (den t) V) `{!RepOk R} l (g : den t -> den t) f :
  (forall h x u, value R h x = Some u -> value R h (g x) = Some (f u) /\ locs R h (g x) ⊆ locs R h x) ->
  Edits (pointer t R) (Some l) (fun _ => True) (modify t (Some l) g) (fmap f).
Proof.
  intros Hg h v _ (x & u & Hx & Hu & Hl & ->)%pointer_value. destruct (Hg h x u Hu) as [Hv Hsub].
  set (h' := <[l := Cell t (g x)]> h).
  destruct (locs_frame h h' (g x) (f u) Hv) as [Hv' Hl']; [intros l' Hin; apply lookup_insert_ne; set_solver|].
  exists h'. rewrite (pointer_locs t R h' l (g x)), (pointer_locs t R h l x), Hl' by (done || apply at_insert). split_and!.
  - unfold modify, bind, load, store. simpl. by rewrite Hx.
  - apply pointer_value. exists (g x), (f u). rewrite Hl'. split_and!; [apply at_insert|done|set_solver|done].
  - intros l' Hin Hn. apply lookup_insert_ne. set_solver.
  - set_solver.
Qed.

(** *** A pointer field

    [if o.F == nil { o.F = &T{} }] and then changes of [*o.F]. *)
Section field.
Context {A V U T : Type} (tS t2 : tag base) (a : den tS -> A) (b : den tS -> ptr) (setb : den tS -> ptr -> den tS).
Context (f : den tS -> V -> option U -> T) (RA : Rep A V) (R2 : Rep (den t2) U) `{!RepOk RA} `{!RepOk R2}.
Context (z : U) (get : T -> option U) (put : T -> U -> T).
Context (Hseta : forall s q, a (setb s q) = a s) (Hsetb : forall s q, b (setb s q) = q) (Hsetf : forall s q, f (setb s q) = f s).
Context (Hget : forall s v o, get (f s v o) = o) (Hput : forall s v o u, put (f s v o) u = f s v (Some u)).
Context (Hzero : forall h, value R2 h (zeroOf t2) = Some z /\ locs R2 h (zeroOf t2) = ∅).

Definition ensureField (p : ptr) : M heap unit :=
  let! s := load tS p in
  match b s with
  | Some _ => ret tt
  | None => let! q := new t2 (zeroOf t2) in store tS p (setb s (Some q))
  end.
Definition onField (p : ptr) (body : ptr -> M heap unit) : M heap unit :=
  let! s := load tS p in body (b s).

Let R : Rep ptr (option T) := pointer tS (struct2 a b f RA (pointer t2 R2)).

Lemma onField_edits l body (g : U -> U) :
  (forall q, Edits (pointer t2 R2) (Some q) (fun _ => True) (body (Some q)) (fmap g)) ->
  Edits R (Some l) (fun o => is_Some (o ≫= get)) (onField (Some l) body)
    (fmap (fun o => from_option (fun u => put o (g u)) o (get o))).
Proof.
  intros Hbody h o Ho (s & w & Hs & Hw & Hl & ->)%pointer_value. simpl in Ho.
  apply struct2_value in Hw as (v & u & Hv & Hu & Hd & ->). rewrite Hget in Ho. destruct Ho as [u' ->].
  rewrite struct2_locs in Hl. destruct (b s) as [q|] eqn:Hb; [|done].
  destruct (Hbody q h (Some u') I Hu) as (h' & Hrun & Hu' & Hkeep & Hnew).
  apply at_dom in Hs as Hld. pose proof (locs_dom _ _ _ Hv) as Hvd.
  assert (Hs' : at_ tS h' l = Some s) by (rewrite <- Hs; apply at_frame, Hkeep; [done|set_solver]).
  destruct (locs_frame h h' (a s) v Hv) as [Hv' Hlv]; [intros l' Hin; apply Hkeep; set_solver|].
  exists h'. unfold R. rewrite (pointer_locs _ _ h' l s Hs'), (pointer_locs _ _ h l s Hs), !struct2_locs, Hb, Hlv. split_and!.
  - unfold onField, bind, load. simpl. by rewrite Hs, Hb.
  - apply pointer_value. exists s, (f s v (Some (g u'))). rewrite struct2_locs, Hb, Hlv.
    split_and!; [done| |set_solver|simpl; by rewrite Hget; simpl; rewrite Hput].
    apply struct2_value. exists v, (Some (g u')). rewrite Hb, Hlv. split_and!; [done..|set_solver|done].
  - intros l' Hin Hn. apply Hkeep; [done|set_solver].
  - set_solver.
Qed.

(** A change that is left out when the field is nil. *)
Lemma onField_optional l body (g : U -> U) :
  (forall q, Edits (pointer t2 R2) (Some q) (fun _ => True) (body (Some q)) (fmap g)) -> body None = ret tt ->
  Edits R (Some l) (fun _ => True) (onField (Some l) body)
    (fmap (fun o => from_option (fun u => put o (g u)) o (get o))).
Proof.
  intros Hbody Hnil h o _ Ho. pose proof Ho as (s & w & Hs & Hw & Hl & ->)%pointer_value.
  apply struct2_value in Hw as (v & u & Hv & Hu & Hd & ->).
  destruct u as [u|]; [apply (onField_edits l body g Hbody h); [simpl; rewrite Hget; eauto|done]|].
  destruct (b s) as [q|] eqn:Hb; [by apply pointer_value in Hu as (? & ? & _ & _ & _ & ?)|].
  exists h. split_and!; [|simpl; by rewrite Hget|done..]. unfold onField, bind, load. simpl. by rewrite Hs, Hb, Hnil.
Qed.

Lemma ensureField_edits l :
  Edits R (Some l) (fun _ => True) (ensureField (Some l)) (fmap (fun o => put o (default z (get o)))).
Proof.
  intros h o _ Ho. pose proof Ho as (s & w & Hs & Hw & Hl & ->)%pointer_value.
  apply struct2_value in Hw as (v & u & Hv & Hu & Hd & ->). rewrite struct2_locs in Hl.
  destruct (b s) as [q|] eqn:Hb.
  - pose proof Hu as (x & u' & _ & _ & _ & ->)%pointer_value. exists h. split_and!; [|simpl; rewrite Hget; simpl; by rewrite Hput|done..].
    unfold ensureField, bind, load, ret. simpl. by rewrite Hs, Hb.
  - unfold value in Hu. simpl in Hu. injection Hu as <-.
    set (q := fresh (dom h)). set (h1 := <[q := Cell t2 (zeroOf t2)]> h). set (s' := setb s (Some q)).
    set (h2 := <[l := Cell tS s']> h1). assert (Hq : q ∉ dom h) by apply is_fresh.
    apply at_dom in Hs as Hld. pose proof (locs_dom _ _ _ Hv) as Hvd. destruct (Hzero h2) as [Hz Hlz].
    assert (Hlq : l <> q) by (by intros ->).
    destruct (locs_frame h h2 (a s) v Hv) as [Hv' Hlv].
    { intros l' Hin. unfold h2, h1. rewrite !lookup_insert_ne; [done|set_solver|set_solver]. }
    assert (Hq2 : at_ t2 h2 q = Some (zeroOf t2)).
    { rewrite (at_frame t2 h1 h2 q); [apply at_insert|]. by apply lookup_insert_ne. }
    assert (Hbs : b s' = Some q) by apply Hsetb. assert (Has : a s' = a s) by apply Hseta.
    exists h2. unfold R. rewrite (pointer_locs tS _ h2 l s'), (pointer_locs _ _ h l s Hs), !struct2_locs, Hbs, Has, Hlv,
      (pointer_locs t2 R2 h2 q _ Hq2), Hlz, Hb by apply at_insert. split_and!.
    + unfold ensureField, bind, load, new, store, ret. simpl. by rewrite Hs, Hb.
    + apply pointer_value. exists s', (f s v (Some z)).
      rewrite struct2_locs, Hbs, Has, Hlv, (pointer_locs t2 R2 h2 q _ Hq2), Hlz.
      split_and!; [apply at_insert| |set_solver|simpl; by rewrite Hget, Hput].
      apply struct2_value. exists v, (Some z). unfold s'. rewrite Hseta, Hsetb, Hsetf, Hlv, (pointer_locs t2 R2 h2 q _ Hq2), Hlz.
      split_and!; [done| |set_solver|done]. apply pointer_value. exists (zeroOf t2), z. rewrite Hlz. split_and!; [done..|set_solver|done].
    + intros l' Hin Hn. unfold h2, h1. rewrite !lookup_insert_ne; [done|set_solver|set_solver].
    + set_solver.
Qed.

(** The two together, on an object that is there. *)
Lemma field_edits l body (g : U -> U) :
  (forall q, Edits (pointer t2 R2) (Some q) (fun _ => True) (body (Some q)) (fmap g)) ->
  Edits R (Some l) is_Some (do! ensureField (Some l); onField (Some l) body) (fmap (fun o => put o (g (default z (get o))))).
Proof.
  intros Hbody h o [x ->] Ho. pose proof Ho as (s & w & Hs & Hw & Hl & [= ->])%pointer_value.
  apply struct2_value in Hw as (v & u & Hv & Hu & Hd & ->).
  destruct (Edits_seq R (Some l) (fun o => o = Some (f s v u)) (fun o => is_Some (o ≫= get)) (ensureField (Some l))
    (onField (Some l) body) _ _ (Edits_weaken _ _ _ _ _ _ (fun _ _ => I) (ensureField_edits l)) (onField_edits l body g Hbody)
    ltac:(intros ? ->; simpl; rewrite Hget, Hput, Hget; eauto) h (Some (f s v u)) eq_refl Ho) as (h' & Hrest).
  exists h'. simpl in Hrest. rewrite Hget, Hput, Hget in Hrest. simpl in Hrest. rewrite Hput in Hrest.
  simpl. by rewrite Hget, Hput.
Qed.
End field.
End memory.
Arguments value {_ A V} _ _ _.
Arguments locs {_ A V} _ _ _.
