(* ===== verification/DeepCopy.v ===== *)
(** * Deep copies of the custom resources
      ([api/v1alpha1/zz_generated.deepcopy.go])

    The resources in memory: structs with pointers, slices and the metadata of the API
    machinery, and the generated functions that copy them.  The controllers take a copy
    of an object before they work on it and compare the two at the end; the last section
    shows that they see exactly the changes they have made. *)

From stdpp Require Import base tactics list strings gmap sets.
From Stdlib Require Import ZArith.
From S2P Require Import Prelude GoStrings Types Kube Azure AgentPoolVMs LBRules LBConfig VMConfig Memory.

Open Scope string_scope.
Open Scope list_scope.

(** ** The structs *)

(** [metav1.TypeMeta] has no pointers. *)
Record TypeMeta := { tm_Kind : string; tm_APIVersion : string }.
(** [metav1.ListMeta], with the fields that are used. *)
Record ListMeta := { lm_ResourceVersion : string; lm_Continue : string; lm_RemainingItemCount : option Z }.

(** The metadata of objects and of lists in memory, and the cells they use, are the API
    machinery's. *)
Class MetaTypes := {
  ObjectMetaM : Type;
  ListMetaM : Type;
  LibCell : Type;
  zeroObjectMeta : ObjectMetaM;
  zeroListMeta : ListMetaM;
  zeroLibCell : LibCell;
}.

Section structs.
Context `{MetaTypes}.

Record LBM := {
  lbm_TypeMeta : TypeMeta; lbm_ObjectMeta : ObjectMetaM;
  lbm_Spec : GatewayLBConfigurationSpec; lbm_Status : ptr;
}.
Record VMStatusM := { vsm_EgressIpPrefix : string; vsm_GatewayVMProfiles : ptr }.
Record VMM := {
  vmm_TypeMeta : TypeMeta; vmm_ObjectMeta : ObjectMetaM;
  vmm_Spec : GatewayVMConfigurationSpec; vmm_Status : ptr;
}.
Record PEM := { pem_TypeMeta : TypeMeta; pem_ObjectMeta : ObjectMetaM; pem_Spec : PodEndpointSpec }.
Record GSSpecM := { gsm_ReadyGatewayConfigurations : ptr; gsm_ReadyPeerConfigurations : ptr }.
Record GSM := { gsm_TypeMeta : TypeMeta; gsm_ObjectMeta : ObjectMetaM; gsm_Spec : GSSpecM }.
Record ServerProfileM := {
  spm_Ip : string; spm_Port : Z; spm_PublicKey : string; spm_PrivateKeySecretRef : ptr;
}.
Record SGCSpecM := {
  ssm_GatewayNodepoolName : string; ssm_GatewayVmssProfile : GatewayVmssProfile; ssm_DefaultRoute : string;
  ssm_ProvisionPublicIps : bool; ssm_PublicIpPrefixId : string; ssm_ExcludeCidrs : ptr;
}.
Record SGCStatusM := { sgm_EgressIpPrefix : string; sgm_GatewayServerProfile : ServerProfileM }.
Record SGCM := {
  sgm_TypeMeta : TypeMeta; sgm_ObjectMeta : ObjectMetaM; sgm_Spec : SGCSpecM; sgm_Status : SGCStatusM;
}.
Record ListM := { lsm_TypeMeta : TypeMeta; lsm_ListMeta : ListMetaM; lsm_Items : ptr }.
End structs.

(** The types of cells.  [PodEndpointStatus] and [GatewayStatusStatus] have no fields. *)
Inductive apiType :=
| AString | AObjectReference | AGatewayVmssProfile
| ALBSpec | ALBStatus | ALB | ALBList
| AVMProfile | AVMSpec | AVMStatus | AVM | AVMList
| APESpec | APEStatus | APE | APEList
| AGateway | APeer | AGSSpec | AGSStatus | AGS | AGSList
| AServerProfile | ASGCSpec | ASGCStatus | ASGC | ASGCList
| ALib.
#[export] Instance apiType_eq_dec : EqDecision apiType.
Proof. solve_decision. Defined.

Section layout.
Context `{MetaTypes}.
Definition apiDen (t : apiType) : Type :=
  match t with
  | AString => string | AObjectReference => ObjectReference | AGatewayVmssProfile => GatewayVmssProfile
  | ALBSpec => GatewayLBConfigurationSpec | ALBStatus => GatewayLBConfigurationStatus | ALB => LBM
  | AVMProfile => GatewayVMProfile | AVMSpec => GatewayVMConfigurationSpec | AVMStatus => VMStatusM | AVM => VMM
  | APESpec => PodEndpointSpec | APEStatus => unit | APE => PEM
  | AGateway => GatewayConfiguration | APeer => PeerConfiguration | AGSSpec => GSSpecM | AGSStatus => unit | AGS => GSM
  | AServerProfile => ServerProfileM | ASGCSpec => SGCSpecM | ASGCStatus => SGCStatusM | ASGC => SGCM
  | ALBList | AVMList | APEList | AGSList | ASGCList => ListM
  | ALib => LibCell
  end.

Definition zeroTypeMeta : TypeMeta := {| tm_Kind := ""; tm_APIVersion := "" |}.
Definition zeroVmss : GatewayVmssProfile := {| VmssResourceGroup := ""; VmssName := ""; PublicIpPrefixSize := 0 |}.
Definition zeroServerProfile : ServerProfileM :=
  {| spm_Ip := ""; spm_Port := 0; spm_PublicKey := ""; spm_PrivateKeySecretRef := None |}.
Definition zeroSGCSpec : SGCSpecM :=
  {| ssm_GatewayNodepoolName := ""; ssm_GatewayVmssProfile := zeroVmss; ssm_DefaultRoute := "";
     ssm_ProvisionPublicIps := false; ssm_PublicIpPrefixId := ""; ssm_ExcludeCidrs := None |}.
Definition zeroSGCStatus : SGCStatusM := {| sgm_EgressIpPrefix := ""; sgm_GatewayServerProfile := zeroServerProfile |}.
Definition zeroLBSpec : GatewayLBConfigurationSpec :=
  {| lbc_GatewayNodepoolName := ""; lbc_GatewayVmssProfile := zeroVmss; lbc_ProvisionPublicIps := false; lbc_PublicIpPrefixId := "" |}.
Definition zeroVMSpec : GatewayVMConfigurationSpec :=
  {| vmc_GatewayNodepoolName := ""; vmc_GatewayVmssProfile := zeroVmss; vmc_ProvisionPublicIps := false; vmc_PublicIpPrefixId := "" |}.
Definition zeroPESpec : PodEndpointSpec :=
  {| pe_StaticGatewayConfiguration := ""; pe_PodIpAddress := ""; pe_PodPublicKey := "" |}.
Definition zeroGSSpec : GSSpecM := {| gsm_ReadyGatewayConfigurations := None; gsm_ReadyPeerConfigurations := None |}.
Definition zeroList : ListM := {| lsm_TypeMeta := zeroTypeMeta; lsm_ListMeta := zeroListMeta; lsm_Items := None |}.

Definition apiZero (t : apiType) : apiDen t :=
  match t with
  | AString => "" | AObjectReference => {| ref_APIVersion := ""; ref_Kind := ""; ref_Name := ""; ref_Namespace := "" |}
  | AGatewayVmssProfile => zeroVmss
  | ALBSpec => zeroLBSpec | ALBStatus => {| lbc_FrontendIp := ""; lbc_ServerPort := 0; lbc_EgressIpPrefix := "" |}
  | ALB => {| lbm_TypeMeta := zeroTypeMeta; lbm_ObjectMeta := zeroObjectMeta; lbm_Spec := zeroLBSpec; lbm_Status := None |}
  | AVMProfile => {| NodeName := ""; PrimaryIP := ""; SecondaryIP := "" |}
  | AVMSpec => zeroVMSpec | AVMStatus => {| vsm_EgressIpPrefix := ""; vsm_GatewayVMProfiles := None |}
  | AVM => {| vmm_TypeMeta := zeroTypeMeta; vmm_ObjectMeta := zeroObjectMeta; vmm_Spec := zeroVMSpec; vmm_Status := None |}
  | APESpec => zeroPESpec | APEStatus => tt
  | APE => {| pem_TypeMeta := zeroTypeMeta; pem_ObjectMeta := zeroObjectMeta; pem_Spec := zeroPESpec |}
  | AGateway => {| gc_StaticGatewayConfiguration := ""; gc_InterfaceName := "" |}
  | APeer => {| pc_PodEndpoint := ""; pc_InterfaceName := ""; pc_PublicKey := "" |}
  | AGSSpec => zeroGSSpec | AGSStatus => tt
  | AGS => {| gsm_TypeMeta := zeroTypeMeta; gsm_ObjectMeta := zeroObjectMeta; gsm_Spec := zeroGSSpec |}
  | AServerProfile => zeroServerProfile | ASGCSpec => zeroSGCSpec | ASGCStatus => zeroSGCStatus
  | ASGC => {| sgm_TypeMeta := zeroTypeMeta; sgm_ObjectMeta := zeroObjectMeta; sgm_Spec := zeroSGCSpec; sgm_Status := zeroSGCStatus |}
  | ALBList | AVMList | APEList | AGSList | ASGCList => zeroList
  | ALib => zeroLibCell
  end.

#[export] Instance api_layout : Layout := {| base := apiType; baseDen := apiDen; baseZero := apiZero |}.
End layout.

(** ** The generated functions *)

(** [DeepCopyInto] of the metadata, which is the API machinery's, and what memory with
    metadata represents. *)
Class MetaCopy `{MetaTypes} := {
  copyObjectMeta : ObjectMetaM -> M (gmap loc cell) ObjectMetaM;
  copyListMeta : ListMetaM -> M (gmap loc cell) ListMetaM;
  objectMetaRep : Rep ObjectMetaM ObjectMeta;
  listMetaRep : Rep ListMetaM ListMeta;
}.
Class MetaCopyLaws `{MetaCopy} : Prop := {
  objectMeta_ok :: RepOk objectMetaRep;
  listMeta_ok :: RepOk listMetaRep;
  objectMeta_copies : Copies objectMetaRep copyObjectMeta;
  listMeta_copies : Copies listMetaRep copyListMeta;
}.

Section deepcopy.
Context `{MetaCopy}.
Abbreviation heap := (gmap loc cell).

Definition ty (t : apiType) : tag base := TBase t.

(** [DeepCopyInto], as the contents of [*out] for those of [*in]: [*out = *in], and then
    the fields that hold pointers are replaced.  Structs without pointers are copied by
    the assignment. *)
Definition copyGatewayConfiguration : GatewayConfiguration -> M heap GatewayConfiguration := ret.
Definition copyGatewayLBConfigurationSpec : GatewayLBConfigurationSpec -> M heap GatewayLBConfigurationSpec := ret.
Definition copyGatewayLBConfigurationStatus : GatewayLBConfigurationStatus -> M heap GatewayLBConfigurationStatus := ret.
Definition copyGatewayVMConfigurationSpec : GatewayVMConfigurationSpec -> M heap GatewayVMConfigurationSpec := ret.
Definition copyGatewayVMProfile : GatewayVMProfile -> M heap GatewayVMProfile := ret.
Definition copyGatewayVmssProfile : GatewayVmssProfile -> M heap GatewayVmssProfile := ret.
Definition copyPeerConfiguration : PeerConfiguration -> M heap PeerConfiguration := ret.
Definition copyPodEndpointSpec : PodEndpointSpec -> M heap PodEndpointSpec := ret.
Definition copyPodEndpointStatus : unit -> M heap unit := ret.
Definition copyGatewayStatusStatus : unit -> M heap unit := ret.

Definition copyGatewayLBConfiguration (in_ : LBM) : M heap LBM :=
  let! meta := copyObjectMeta (lbm_ObjectMeta in_) in
  let! status := copyPtr (ty ALBStatus) ret (lbm_Status in_) in
  ret {| lbm_TypeMeta := lbm_TypeMeta in_; lbm_ObjectMeta := meta; lbm_Spec := lbm_Spec in_; lbm_Status := status |}.

Definition copyGatewayVMConfigurationStatus (in_ : VMStatusM) : M heap VMStatusM :=
  let! profiles := copySlice (ty AVMProfile) ret (vsm_GatewayVMProfiles in_) in
  ret {| vsm_EgressIpPrefix := vsm_EgressIpPrefix in_; vsm_GatewayVMProfiles := profiles |}.
Definition copyGatewayVMConfiguration (in_ : VMM) : M heap VMM :=
  let! meta := copyObjectMeta (vmm_ObjectMeta in_) in
  let! status := copyPtr (ty AVMStatus) copyGatewayVMConfigurationStatus (vmm_Status in_) in
  ret {| vmm_TypeMeta := vmm_TypeMeta in_; vmm_ObjectMeta := meta; vmm_Spec := vmm_Spec in_; vmm_Status := status |}.

Definition copyPodEndpoint (in_ : PEM) : M heap PEM :=
  let! meta := copyObjectMeta (pem_ObjectMeta in_) in
  ret {| pem_TypeMeta := pem_TypeMeta in_; pem_ObjectMeta := meta; pem_Spec := pem_Spec in_ |}.

Definition copyGatewayStatusSpec (in_ : GSSpecM) : M heap GSSpecM :=
  let! gateways := copySlice (ty AGateway) ret (gsm_ReadyGatewayConfigurations in_) in
  let! peers := copySlice (ty APeer) ret (gsm_ReadyPeerConfigurations in_) in
  ret {| gsm_ReadyGatewayConfigurations := gateways; gsm_ReadyPeerConfigurations := peers |}.
Definition copyGatewayStatus (in_ : GSM) : M heap GSM :=
  let! meta := copyObjectMeta (gsm_ObjectMeta in_) in
  let! spec := copyGatewayStatusSpec (gsm_Spec in_) in
  ret {| gsm_TypeMeta := gsm_TypeMeta in_; gsm_ObjectMeta := meta; gsm_Spec := spec |}.

Definition copyGatewayServerProfile (in_ : ServerProfileM) : M heap ServerProfileM :=
  let! ref := copyPtr (ty AObjectReference) ret (spm_PrivateKeySecretRef in_) in
  ret {| spm_Ip := spm_Ip in_; spm_Port := spm_Port in_; spm_PublicKey := spm_PublicKey in_; spm_PrivateKeySecretRef := ref |}.
Definition copyStaticGatewayConfigurationSpec (in_ : SGCSpecM) : M heap SGCSpecM :=
  let! cidrs := copySlice (ty AString) ret (ssm_ExcludeCidrs in_) in
  ret {| ssm_GatewayNodepoolName := ssm_GatewayNodepoolName in_; ssm_GatewayVmssProfile := ssm_GatewayVmssProfile in_;
         ssm_DefaultRoute := ssm_DefaultRoute in_; ssm_ProvisionPublicIps := ssm_ProvisionPublicIps in_;
         ssm_PublicIpPrefixId := ssm_PublicIpPrefixId in_; ssm_ExcludeCidrs := cidrs |}.
Definition copyStaticGatewayConfigurationStatus (in_ : SGCStatusM) : M heap SGCStatusM :=
  let! profile := copyGatewayServerProfile (sgm_GatewayServerProfile in_) in
  ret {| sgm_EgressIpPrefix := sgm_EgressIpPrefix in_; sgm_GatewayServerProfile := profile |}.
Definition copyStaticGatewayConfiguration (in_ : SGCM) : M heap SGCM :=
  let! meta := copyObjectMeta (sgm_ObjectMeta in_) in
  let! spec := copyStaticGatewayConfigurationSpec (sgm_Spec in_) in
  let! status := copyStaticGatewayConfigurationStatus (sgm_Status in_) in
  ret {| sgm_TypeMeta := sgm_TypeMeta in_; sgm_ObjectMeta := meta; sgm_Spec := spec; sgm_Status := status |}.

(** The lists: the items are copied one after the other into a new array. *)
Definition copyList (t : apiType) (copy : apiDen t -> M heap (apiDen t)) (in_ : ListM) : M heap ListM :=
  let! meta := copyListMeta (lsm_ListMeta in_) in
  let! items := copySlice (ty t) copy (lsm_Items in_) in
  ret {| lsm_TypeMeta := lsm_TypeMeta in_; lsm_ListMeta := meta; lsm_Items := items |}.
Definition copyGatewayLBConfigurationList : ListM -> M heap ListM := copyList ALB copyGatewayLBConfiguration.
Definition copyGatewayVMConfigurationList : ListM -> M heap ListM := copyList AVM copyGatewayVMConfiguration.
Definition copyPodEndpointList : ListM -> M heap ListM := copyList APE copyPodEndpoint.
Definition copyGatewayStatusList : ListM -> M heap ListM := copyList AGS copyGatewayStatus.
Definition copyStaticGatewayConfigurationList : ListM -> M heap ListM := copyList ASGC copyStaticGatewayConfiguration.

(** [DeepCopy] and [DeepCopyObject]. *)
Definition GatewayConfiguration_DeepCopy := DeepCopy (ty AGateway) copyGatewayConfiguration.
Definition GatewayLBConfiguration_DeepCopy := DeepCopy (ty ALB) copyGatewayLBConfiguration.
Definition GatewayLBConfiguration_DeepCopyObject := DeepCopyObject (ty ALB) copyGatewayLBConfiguration.
Definition GatewayLBConfigurationList_DeepCopy := DeepCopy (ty ALBList) copyGatewayLBConfigurationList.
Definition GatewayLBConfigurationList_DeepCopyObject := DeepCopyObject (ty ALBList) copyGatewayLBConfigurationList.
Definition GatewayLBConfigurationSpec_DeepCopy := DeepCopy (ty ALBSpec) copyGatewayLBConfigurationSpec.
Definition GatewayLBConfigurationStatus_DeepCopy := DeepCopy (ty ALBStatus) copyGatewayLBConfigurationStatus.
Definition GatewayServerProfile_DeepCopy := DeepCopy (ty AServerProfile) copyGatewayServerProfile.
Definition GatewayStatus_DeepCopy := DeepCopy (ty AGS) copyGatewayStatus.
Definition GatewayStatus_DeepCopyObject := DeepCopyObject (ty AGS) copyGatewayStatus.
Definition GatewayStatusList_DeepCopy := DeepCopy (ty AGSList) copyGatewayStatusList.
Definition GatewayStatusList_DeepCopyObject := DeepCopyObject (ty AGSList) copyGatewayStatusList.
Definition GatewayStatusSpec_DeepCopy := DeepCopy (ty AGSSpec) copyGatewayStatusSpec.
Definition GatewayStatusStatus_DeepCopy := DeepCopy (ty AGSStatus) copyGatewayStatusStatus.
Definition GatewayVMConfiguration_DeepCopy := DeepCopy (ty AVM) copyGatewayVMConfiguration.
Definition GatewayVMConfiguration_DeepCopyObject := DeepCopyObject (ty AVM) copyGatewayVMConfiguration.
Definition GatewayVMConfigurationList_DeepCopy := DeepCopy (ty AVMList) copyGatewayVMConfigurationList.
Definition GatewayVMConfigurationList_DeepCopyObject := DeepCopyObject (ty AVMList) copyGatewayVMConfigurationList.
Definition GatewayVMConfigurationSpec_DeepCopy := DeepCopy (ty AVMSpec) copyGatewayVMConfigurationSpec.
Definition GatewayVMConfigurationStatus_DeepCopy := DeepCopy (ty AVMStatus) copyGatewayVMConfigurationStatus.
Definition GatewayVMProfile_DeepCopy := DeepCopy (ty AVMProfile) copyGatewayVMProfile.
Definition GatewayVmssProfile_DeepCopy := DeepCopy (ty AGatewayVmssProfile) copyGatewayVmssProfile.
Definition PeerConfiguration_DeepCopy := DeepCopy (ty APeer) copyPeerConfiguration.
Definition PodEndpoint_DeepCopy := DeepCopy (ty APE) copyPodEndpoint.
Definition PodEndpoint_DeepCopyObject := DeepCopyObject (ty APE) copyPodEndpoint.
Definition PodEndpointList_DeepCopy := DeepCopy (ty APEList) copyPodEndpointList.
Definition PodEndpointList_DeepCopyObject := DeepCopyObject (ty APEList) copyPodEndpointList.
Definition PodEndpointSpec_DeepCopy := DeepCopy (ty APESpec) copyPodEndpointSpec.
Definition PodEndpointStatus_DeepCopy := DeepCopy (ty APEStatus) copyPodEndpointStatus.
Definition StaticGatewayConfiguration_DeepCopy := DeepCopy (ty ASGC) copyStaticGatewayConfiguration.
Definition StaticGatewayConfiguration_DeepCopyObject := DeepCopyObject (ty ASGC) copyStaticGatewayConfiguration.
Definition StaticGatewayConfigurationList_DeepCopy := DeepCopy (ty ASGCList) copyStaticGatewayConfigurationList.
Definition StaticGatewayConfigurationList_DeepCopyObject := DeepCopyObject (ty ASGCList) copyStaticGatewayConfigurationList.
Definition StaticGatewayConfigurationSpec_DeepCopy := DeepCopy (ty ASGCSpec) copyStaticGatewayConfigurationSpec.
Definition StaticGatewayConfigurationStatus_DeepCopy := DeepCopy (ty ASGCStatus) copyStaticGatewayConfigurationStatus.

(** ** What the structs represent *)

Definition lbRep : Rep LBM (TypeMeta * GatewayLBConfiguration) :=
  struct2 lbm_ObjectMeta lbm_Status
    (fun s m st => (lbm_TypeMeta s, {| lbc_meta := m; lbc_Spec := lbm_Spec s; lbc_Status := st |}))
    objectMetaRep (pointer (ty ALBStatus) flat).
Definition vmStatusRep : Rep VMStatusM GatewayVMConfigurationStatus :=
  struct2 vsm_GatewayVMProfiles vsm_EgressIpPrefix
    (fun _ ps e => {| vmc_EgressIpPrefix := e; vmc_GatewayVMProfiles := ps |}) (slice (ty AVMProfile) flat) flat.
Definition vmRep : Rep VMM (TypeMeta * GatewayVMConfiguration) :=
  struct2 vmm_ObjectMeta vmm_Status
    (fun s m st => (vmm_TypeMeta s, {| vmc_meta := m; vmc_Spec := vmm_Spec s; vmc_Status := st |}))
    objectMetaRep (pointer (ty AVMStatus) vmStatusRep).
Definition peRep : Rep PEM (TypeMeta * PodEndpoint) :=
  struct2 pem_ObjectMeta pem_Spec (fun s m sp => (pem_TypeMeta s, {| pe_meta := m; pe_Spec := sp |})) objectMetaRep flat.
Definition gsSpecRep : Rep GSSpecM GatewayStatusSpec :=
  struct2 gsm_ReadyGatewayConfigurations gsm_ReadyPeerConfigurations
    (fun _ gws ps => {| gs_ReadyGatewayConfigurations := gws; gs_ReadyPeerConfigurations := ps |})
    (slice (ty AGateway) flat) (slice (ty APeer) flat).
Definition gsRep : Rep GSM (TypeMeta * GatewayStatus) :=
  struct2 gsm_ObjectMeta gsm_Spec (fun s m sp => (gsm_TypeMeta s, {| gs_meta := m; gs_Spec := sp |})) objectMetaRep gsSpecRep.
Definition serverProfileRep : Rep ServerProfileM GatewayServerProfile :=
  struct2 spm_PrivateKeySecretRef (fun s => (spm_Ip s, spm_Port s, spm_PublicKey s))
    (fun _ ref '(ip, port, key) =>
       {| gsp_Ip := ip; gsp_Port := port; gsp_PublicKey := key; gsp_PrivateKeySecretRef := ref |})
    (pointer (ty AObjectReference) flat) flat.
Definition sgcSpecRep : Rep SGCSpecM StaticGatewayConfigurationSpec :=
  struct2 ssm_ExcludeCidrs (fun _ => tt)
    (fun s cidrs _ =>
       {| sgc_GatewayNodepoolName := ssm_GatewayNodepoolName s; sgc_GatewayVmssProfile := ssm_GatewayVmssProfile s;
          sgc_DefaultRoute := ssm_DefaultRoute s; sgc_ProvisionPublicIps := ssm_ProvisionPublicIps s;
          sgc_PublicIpPrefixId := ssm_PublicIpPrefixId s; sgc_ExcludeCidrs := cidrs |})
    (slice (ty AString) flat) flat.
Definition sgcStatusRep : Rep SGCStatusM StaticGatewayConfigurationStatus :=
  struct2 sgm_GatewayServerProfile sgm_EgressIpPrefix
    (fun _ profile e => {| sgc_EgressIpPrefix := e; sgc_GatewayServerProfile := profile |}) serverProfileRep flat.
Definition sgcRep : Rep SGCM (TypeMeta * StaticGatewayConfiguration) :=
  struct2 sgm_ObjectMeta (fun s => (sgm_Spec s, sgm_Status s))
    (fun s m '(sp, st) => (sgm_TypeMeta s, {| sgc_meta := m; sgc_Spec := sp; sgc_Status := st |}))
    objectMetaRep (struct2 fst snd (fun _ sp st => (sp, st)) sgcSpecRep sgcStatusRep).
Definition listRep (t : apiType) {V} (R : Rep (apiDen t) V) : Rep ListM (TypeMeta * ListMeta * list V) :=
  struct2 lsm_ListMeta lsm_Items (fun s m items => (lsm_TypeMeta s, m, items)) listMetaRep (slice (ty t) R).

(** ** They copy *)

Context `{!MetaCopyLaws}.

#[export] Instance lbRep_ok : RepOk lbRep := _.
#[export] Instance vmStatusRep_ok : RepOk vmStatusRep := _.
#[export] Instance vmRep_ok : RepOk vmRep := _.
#[export] Instance peRep_ok : RepOk peRep := _.
#[export] Instance gsSpecRep_ok : RepOk gsSpecRep := _.
#[export] Instance gsRep_ok : RepOk gsRep := _.
#[export] Instance serverProfileRep_ok : RepOk serverProfileRep := _.
#[export] Instance sgcSpecRep_ok : RepOk sgcSpecRep := _.
#[export] Instance sgcStatusRep_ok : RepOk sgcStatusRep := _.
#[export] Instance sgcRep_ok : RepOk sgcRep := _.
#[export] Instance listRep_ok t {V} (R : Rep (apiDen t) V) : RepOk R -> RepOk (listRep t R) := _.

#[local] Hint Resolve objectMeta_copies listMeta_copies flat_copies : copies.
#[local] Hint Extern 1 (Copies (pointer _ _) _) => apply pointer_copies; [apply _|] : copies.
#[local] Hint Extern 1 (Copies (slice _ _) _) => apply slice_copies; [apply _|] : copies.

Lemma lb_copies : Copies lbRep copyGatewayLBConfiguration.
Proof.
  refine (struct2_copies _ _ _ _ _ (fun s m st => {| lbm_TypeMeta := lbm_TypeMeta s; lbm_ObjectMeta := m;
    lbm_Spec := lbm_Spec s; lbm_Status := st |}) _ _ _ _ _ _ _); eauto with copies.
Qed.
Lemma vmStatus_copies : Copies vmStatusRep copyGatewayVMConfigurationStatus.
Proof.
  refine (struct2_copies _ _ _ _ _ (fun s ps e => {| vsm_EgressIpPrefix := e; vsm_GatewayVMProfiles := ps |}) _ ret _ _ _ _ _);
    eauto with copies.
Qed.
#[local] Hint Resolve vmStatus_copies : copies.
Lemma vm_copies : Copies vmRep copyGatewayVMConfiguration.
Proof.
  refine (struct2_copies _ _ _ _ _ (fun s m st => {| vmm_TypeMeta := vmm_TypeMeta s; vmm_ObjectMeta := m;
    vmm_Spec := vmm_Spec s; vmm_Status := st |}) _ _ _ _ _ _ _); eauto with copies.
Qed.
Lemma pe_copies : Copies peRep copyPodEndpoint.
Proof.
  refine (struct2_copies _ _ _ _ _ (fun s m sp => {| pem_TypeMeta := pem_TypeMeta s; pem_ObjectMeta := m; pem_Spec := sp |})
    _ ret _ _ _ _ _); eauto with copies.
Qed.
Lemma gsSpec_copies : Copies gsSpecRep copyGatewayStatusSpec.
Proof.
  refine (struct2_copies _ _ _ _ _ (fun s gws ps => {| gsm_ReadyGatewayConfigurations := gws; gsm_ReadyPeerConfigurations := ps |})
    _ _ _ _ _ _ _); eauto with copies.
Qed.
#[local] Hint Resolve gsSpec_copies : copies.
Lemma gs_copies : Copies gsRep copyGatewayStatus.
Proof.
  refine (struct2_copies _ _ _ _ _ (fun s m sp => {| gsm_TypeMeta := gsm_TypeMeta s; gsm_ObjectMeta := m; gsm_Spec := sp |})
    _ _ _ _ _ _ _); eauto with copies.
Qed.
Lemma serverProfile_copies : Copies serverProfileRep copyGatewayServerProfile.
Proof.
  refine (struct2_copies _ _ _ _ _ (fun s ref '(ip, port, key) => {| spm_Ip := ip; spm_Port := port; spm_PublicKey := key;
    spm_PrivateKeySecretRef := ref |}) _ ret _ _ _ _ _); eauto with copies; by intros s x [[? ?] ?].
Qed.
#[local] Hint Resolve serverProfile_copies : copies.
Lemma sgcSpec_copies : Copies sgcSpecRep copyStaticGatewayConfigurationSpec.
Proof.
  refine (struct2_copies _ _ _ _ _ (fun s cidrs _ => {| ssm_GatewayNodepoolName := ssm_GatewayNodepoolName s;
    ssm_GatewayVmssProfile := ssm_GatewayVmssProfile s; ssm_DefaultRoute := ssm_DefaultRoute s;
    ssm_ProvisionPublicIps := ssm_ProvisionPublicIps s; ssm_PublicIpPrefixId := ssm_PublicIpPrefixId s;
    ssm_ExcludeCidrs := cidrs |}) _ ret _ _ _ _ _); eauto with copies. by intros s x [].
Qed.
Lemma sgcStatus_copies : Copies sgcStatusRep copyStaticGatewayConfigurationStatus.
Proof.
  refine (struct2_copies _ _ _ _ _ (fun s profile e => {| sgm_EgressIpPrefix := e; sgm_GatewayServerProfile := profile |})
    _ ret _ _ _ _ _); eauto with copies.
Qed.
#[local] Hint Resolve sgcSpec_copies sgcStatus_copies : copies.
Lemma sgc_copies : Copies sgcRep copyStaticGatewayConfiguration.
Proof.
  eapply Copies_ext; [|refine (struct2_copies _ _ _ _ _ (fun s m p => {| sgm_TypeMeta := sgm_TypeMeta s; sgm_ObjectMeta := m;
    sgm_Spec := fst p; sgm_Status := snd p |}) _ _ _ _ _ _ (struct2_copies _ _ _ _ _ (fun _ x y => (x, y)) _ _ _ _ _ _ _));
    eauto with copies; by intros s x []].
  intros s h. unfold copyStaticGatewayConfiguration, bind, ret. simpl. by repeat case_match; simplify_eq.
Qed.
Lemma list_copies t {V} (R : Rep (apiDen t) V) `{!RepOk R} copy : Copies R copy -> Copies (listRep t R) (copyList t copy).
Proof.
  intros Hc. refine (struct2_copies _ _ _ _ _ (fun s m items => {| lsm_TypeMeta := lsm_TypeMeta s; lsm_ListMeta := m;
    lsm_Items := items |}) _ _ _ _ _ _ _); eauto with copies.
Qed.
#[local] Hint Resolve lb_copies vm_copies pe_copies gs_copies sgc_copies : copies.

(** C29: the deep copies of the resources and of their lists are independent of their
    originals. [DeepCopyObject] returns nil for nil; otherwise it succeeds, changes
    nothing that is in memory, and returns an object with the same value that shares no
    memory with the original: however the memory of one of the two changes, the other
    keeps its value. *)
Theorem deep_copies_independent :
  (makesCopies (ty ASGC) sgcRep StaticGatewayConfiguration_DeepCopyObject /\
   makesCopies (ty ALB) lbRep GatewayLBConfiguration_DeepCopyObject /\
   makesCopies (ty AVM) vmRep GatewayVMConfiguration_DeepCopyObject /\
   makesCopies (ty APE) peRep PodEndpoint_DeepCopyObject /\
   makesCopies (ty AGS) gsRep GatewayStatus_DeepCopyObject) /\
  makesCopies (ty ASGCList) (listRep ASGC sgcRep) StaticGatewayConfigurationList_DeepCopyObject /\
  makesCopies (ty ALBList) (listRep ALB lbRep) GatewayLBConfigurationList_DeepCopyObject /\
  makesCopies (ty AVMList) (listRep AVM vmRep) GatewayVMConfigurationList_DeepCopyObject /\
  makesCopies (ty APEList) (listRep APE peRep) PodEndpointList_DeepCopyObject /\
  makesCopies (ty AGSList) (listRep AGS gsRep) GatewayStatusList_DeepCopyObject.
Proof.
  split_and!; apply DeepCopyObject_makes; try apply _; eauto with copies; apply list_copies; try apply _; eauto with copies.
Qed.

(** ** The controllers' copies

    [existing] is a copy of the object the reconciliation then works on in place; at the
    end the two are compared. *)

#[export] Instance TypeMeta_eq_dec : EqDecision TypeMeta.
Proof. solve_decision. Defined.

(** [equality.Semantic.DeepEqual], which compares what the pointers lead to; nil and
    empty slices are equal. *)
Class DeepEquality := {
  deepEqual : apiType -> ptr -> ptr -> M heap bool;
  deepEqual_lb h p q v u :
    value (pointer (ty ALB) lbRep) h p = Some v -> value (pointer (ty ALB) lbRep) h q = Some u ->
    deepEqual ALB p q h = (Ok (bool_decide (v = u)), h);
  deepEqual_vm h p q v u :
    value (pointer (ty AVM) vmRep) h p = Some v -> value (pointer (ty AVM) vmRep) h q = Some u ->
    deepEqual AVM p q h = (Ok (bool_decide (v = u)), h);
}.
Context `{DeepEquality}.

(** [existing := &T{}; o.DeepCopyInto(existing)], the changes, and whether the status is
    to be updated. *)
Definition tracked (t : apiType) (copy : apiDen t -> M heap (apiDen t)) (o : ptr) (changes : M heap unit) : M heap bool :=
  let! existing := new (ty t) (apiZero t) in
  do! DeepCopyInto (ty t) copy o (Some existing);
  do! changes;
  let! same := deepEqual t (Some existing) o in
  ret (negb same).

(** *** LB configurations *)

Definition setLBStatus (s : LBM) (q : ptr) : LBM :=
  {| lbm_TypeMeta := lbm_TypeMeta s; lbm_ObjectMeta := lbm_ObjectMeta s; lbm_Spec := lbm_Spec s; lbm_Status := q |}.
Definition ensureLBStatus (o : ptr) : M heap unit := ensureField (ty ALB) (ty ALBStatus) lbm_Status setLBStatus o.
Definition onLBStatus (o : ptr) (g : GatewayLBConfigurationStatus -> GatewayLBConfigurationStatus) : M heap unit :=
  onField (ty ALB) lbm_Status o (fun s => modify (ty ALBStatus) s g).

(** The end of [reconcileGatewayVMConfig], and that of [reconcile]. *)
Definition collectEgress (o : ptr) (egress : string) : M heap unit :=
  do! ensureLBStatus o;
  onLBStatus o (fun s => {| lbc_FrontendIp := lbc_FrontendIp s; lbc_ServerPort := lbc_ServerPort s; lbc_EgressIpPrefix := egress |}).
Definition setFrontend (o : ptr) (ip : string) (port : Z) : M heap unit :=
  do! ensureLBStatus o;
  do! onLBStatus o (fun s => {| lbc_FrontendIp := ip; lbc_ServerPort := lbc_ServerPort s; lbc_EgressIpPrefix := lbc_EgressIpPrefix s |});
  onLBStatus o (fun s => {| lbc_FrontendIp := lbc_FrontendIp s; lbc_ServerPort := port; lbc_EgressIpPrefix := lbc_EgressIpPrefix s |}).
Definition trackLB (o : ptr) (egress : option string) (ip : string) (port : Z) : M heap bool :=
  tracked ALB copyGatewayLBConfiguration o
    (do! match egress with Some e => collectEgress o e | None => ret tt end;
     setFrontend o ip port).

(** *** VM configurations

    The reconciliation for a pool of virtual machines.  That of a scale set also drops
    profiles ([cleanProfiles] of [VMConfig]) and has the status updated before the
    comparison, which replaces the object by the API server's answer. *)

Definition setVMStatus (s : VMM) (q : ptr) : VMM :=
  {| vmm_TypeMeta := vmm_TypeMeta s; vmm_ObjectMeta := vmm_ObjectMeta s; vmm_Spec := vmm_Spec s; vmm_Status := q |}.
Definition ensureVMStatus (o : ptr) : M heap unit := ensureField (ty AVM) (ty AVMStatus) vmm_Status setVMStatus o.

(** The profile of the node is changed in the slice's array; a new one is appended, to a
    new array.  (Where the old array has room, Go's [append] writes behind its last
    element, which no slice of the object shows.) *)
Definition upsertInPlace (vmprofile : GatewayVMProfile) (s : ptr) : M heap unit :=
  let! st := load (ty AVMStatus) s in
  let! profiles := match vsm_GatewayVMProfiles st with
                   | None => ret []
                   | Some a => load (TArr (ty AVMProfile)) (Some a)
                   end in
  match find_index (fun profile => String.eqb (NodeName profile) (NodeName vmprofile)) profiles with
  | Some (i, profile) =>
      if negb (String.eqb (PrimaryIP profile) (PrimaryIP vmprofile)) || negb (String.eqb (SecondaryIP profile) (SecondaryIP vmprofile))
      then store (TArr (ty AVMProfile)) (vsm_GatewayVMProfiles st)
             (<[i := {| NodeName := NodeName profile; PrimaryIP := PrimaryIP vmprofile; SecondaryIP := SecondaryIP vmprofile |}]> profiles)
      else ret tt
  | None =>
      let! a := new (TArr (ty AVMProfile)) (profiles ++ [vmprofile]) in
      store (ty AVMStatus) s {| vsm_EgressIpPrefix := vsm_EgressIpPrefix st; vsm_GatewayVMProfiles := Some a |}
  end.
Definition noteProfileInPlace (o : ptr) (vmprofile : GatewayVMProfile) : M heap unit :=
  do! ensureVMStatus o;
  onField (ty AVM) vmm_Status o (upsertInPlace vmprofile).
Definition setEgress (o : ptr) (egress : string) : M heap unit :=
  do! ensureVMStatus o;
  onField (ty AVM) vmm_Status o (fun s => modify (ty AVMStatus) s (fun st =>
    {| vsm_EgressIpPrefix := egress; vsm_GatewayVMProfiles := vsm_GatewayVMProfiles st |})).
Fixpoint noteAll (o : ptr) (vmprofiles : list GatewayVMProfile) : M heap unit :=
  match vmprofiles with
  | [] => ret tt
  | p :: rest => do! noteProfileInPlace o p; noteAll o rest
  end.
Definition trackVM (o : ptr) (vmprofiles : list GatewayVMProfile) (egress : string) : M heap bool :=
  tracked AVM copyGatewayVMConfiguration o (do! noteAll o vmprofiles; setEgress o egress).

(** *** The comparison sees the changes *)

#[local] Arguments value : simpl never.
#[local] Arguments locs : simpl never.

Lemma tracked_sees t copy {V} (R : Rep (apiDen t) V) `{!EqDecision V} `{!RepOk R} p changes f h v :
  Copies R copy ->
  (forall h p q v u, value (pointer (ty t) R) h p = Some v -> value (pointer (ty t) R) h q = Some u ->
     deepEqual t p q h = (Ok (bool_decide (v = u)), h)) ->
  Edits (pointer (ty t) R) (Some p) is_Some changes (fmap f) ->
  value (pointer (ty t) R) h (Some p) = Some (Some v) ->
  exists h', tracked t copy (Some p) changes h = (Ok (negb (bool_decide (v = f v))), h') /\
    value (pointer (ty t) R) h' (Some p) = Some (Some (f v)).
Proof.
  intros Hc Heq He Hv. set (q := fresh (dom h)). set (h1 := <[q := Cell (ty t) (apiZero t)]> h).
  assert (Hq : q ∉ dom h) by apply is_fresh. pose proof (locs_dom _ _ _ Hv) as Hdom.
  assert (Hsub : h ⊆ h1) by (by apply insert_subseteq, not_elem_of_dom).
  destruct (value_grows (pointer (ty t) R) h h1 _ _ Hsub Hv) as [Hv1 Hl1].
  destruct (DeepCopyInto_copies (ty t) R copy h1 p q (Some v) Hc Hv1) as (h2 & Hcopy & (Hp2 & Hq2 & Hd2 & _) & _);
    [unfold h1; set_solver|rewrite Hl1; set_solver|].
  destruct (Edits_apart (pointer (ty t) R) (Some p) (Some q) is_Some changes (fmap f) h2 (Some v) (Some v) He)
    as (h3 & Hrun & Hp3 & Hq3 & _); [by eexists|done..|].
  exists h3. split; [|done]. unfold tracked, bind, new, ret. fold q. change (<[q := _]> h) with h1.
  rewrite Hcopy, Hrun, (Heq h3 _ _ _ _ Hq3 Hp3). simpl. do 2 f_equal. f_equal. by apply bool_decide_ext; split; [intros [=]|intros <-].
Qed.

Definition withStatus (o : TypeMeta * GatewayLBConfiguration) (s : GatewayLBConfigurationStatus) : TypeMeta * GatewayLBConfiguration :=
  (fst o, lbconfig.with_lbc_status (snd o) s).
Lemma lbStatus_edits l g :
  Edits (pointer (ty ALB) lbRep) (Some l) is_Some (do! ensureLBStatus (Some l); onLBStatus (Some l) g)
    (fmap (fun o => withStatus o (g (lbconfig.status_or_new (lbc_Status (snd o)))))).
Proof.
  refine (Edits_ext _ _ _ _ _ _ _ (field_edits (ty ALB) (ty ALBStatus) lbm_ObjectMeta lbm_Status setLBStatus _ objectMetaRep flat
    (apiZero ALBStatus) (fun o => lbc_Status (snd o)) withStatus _ _ _ _ _ _ l _ g _)); try done.
  intros q. by apply (modify_edits (ty ALBStatus) flat); intros h x u [= <-].
Qed.
Lemma onLBStatus_edits l g :
  Edits (pointer (ty ALB) lbRep) (Some l) (fun o => is_Some (o ≫= (fun o => lbc_Status (snd o)))) (onLBStatus (Some l) g)
    (fmap (fun o => from_option (fun s => withStatus o (g s)) o (lbc_Status (snd o)))).
Proof.
  refine (onField_edits (ty ALB) (ty ALBStatus) lbm_ObjectMeta lbm_Status setLBStatus _ objectMetaRep flat
    (apiZero ALBStatus) (fun o => lbc_Status (snd o)) withStatus _ _ _ _ _ _ l _ g _); try done.
  intros q. by apply (modify_edits (ty ALBStatus) flat); intros h x u [= <-].
Qed.

(** The changes of a reconciliation on the value, as [lbconfig] makes them. *)
Definition collected (egress : option string) (o : GatewayLBConfiguration) : GatewayLBConfiguration :=
  match egress with
  | Some e =>
      let s := lbconfig.status_or_new (lbc_Status o) in
      lbconfig.with_lbc_status o
        {| lbc_FrontendIp := lbc_FrontendIp s; lbc_ServerPort := lbc_ServerPort s; lbc_EgressIpPrefix := e |}
  | None => o
  end.
Definition fronted (ip : string) (port : Z) (o : GatewayLBConfiguration) : GatewayLBConfiguration :=
  let s := lbconfig.status_or_new (lbc_Status o) in
  lbconfig.with_lbc_status o
    {| lbc_FrontendIp := ip; lbc_ServerPort := port; lbc_EgressIpPrefix := lbc_EgressIpPrefix s |}.

Lemma trackLB_edits l egress ip port :
  Edits (pointer (ty ALB) lbRep) (Some l) is_Some
    (do! match egress with Some e => collectEgress (Some l) e | None => ret tt end; setFrontend (Some l) ip port)
    (fmap (fun o => (fst o, fronted ip port (collected egress (snd o))))).
Proof.
  assert (Hc : Edits (pointer (ty ALB) lbRep) (Some l) is_Some
    (match egress with Some e => collectEgress (Some l) e | None => ret tt end) (fmap (fun o => (fst o, collected egress (snd o))))).
  { destruct egress as [e|].
    - apply lbStatus_edits.
    - eapply Edits_ext; [|apply Edits_ret]. by intros [[tm v]|] _. }
  assert (Hf : Edits (pointer (ty ALB) lbRep) (Some l) is_Some (setFrontend (Some l) ip port)
    (fmap (fun o => (fst o, fronted ip port (snd o))))).
  { eapply Edits_run; [|eapply Edits_ext; [|eapply Edits_seq; [
      exact (lbStatus_edits l (fun s => {| lbc_FrontendIp := ip; lbc_ServerPort := lbc_ServerPort s; lbc_EgressIpPrefix := lbc_EgressIpPrefix s |}))|
      exact (onLBStatus_edits l (fun s => {| lbc_FrontendIp := lbc_FrontendIp s; lbc_ServerPort := port; lbc_EgressIpPrefix := lbc_EgressIpPrefix s |}))|]]].
    - intros h. unfold setFrontend, bind. by destruct (ensureLBStatus (Some l) h) as [[]].
    - by intros [[tm v]|] _.
    - intros v [[tm o] ->]. simpl. by eexists. }
  eapply Edits_ext; [|eapply Edits_seq; [exact Hc|exact Hf|]].
  - by intros [[tm v]|] _.
  - intros v [o ->]. by eexists.
Qed.

(** The loop over the profiles, as a list is changed by it. *)
Lemma upsertProfile_index vmprofile profiles :
  upsertProfile vmprofile profiles =
  match find_index (fun profile => String.eqb (NodeName profile) (NodeName vmprofile)) profiles with
  | Some (i, profile) =>
      <[i := {| NodeName := NodeName profile; PrimaryIP := PrimaryIP vmprofile; SecondaryIP := SecondaryIP vmprofile |}]> profiles
  | None => profiles ++ [vmprofile]
  end.
Proof.
  induction profiles as [|p l IH]; [done|]. simpl. destruct (String.eqb (NodeName p) (NodeName vmprofile)); [done|].
  rewrite IH. by destruct (find_index _ l) as [[i q]|].
Qed.

Abbreviation profilesRep := (slice (ty AVMProfile) flat).
Abbreviation vmStatusPtr := (pointer (ty AVMStatus) vmStatusRep).
Lemma vmStatusRep_locs h st : locs vmStatusRep h st = locs profilesRep h (vsm_GatewayVMProfiles st).
Proof. unfold vmStatusRep. rewrite struct2_locs. set_solver. Qed.
Lemma vmStatus_value h s o :
  value vmStatusPtr h (Some s) = Some o <->
  exists st ps, at_ (ty AVMStatus) h s = Some st /\ value profilesRep h (vsm_GatewayVMProfiles st) = Some ps /\
    (s ∉ locs profilesRep h (vsm_GatewayVMProfiles st)) /\
    o = Some {| vmc_EgressIpPrefix := vsm_EgressIpPrefix st; vmc_GatewayVMProfiles := ps |}.
Proof.
  rewrite pointer_value. split.
  - intros (st & u & Hst & (ps & e & Hps & [= <-] & _ & ->)%struct2_value & Hs & ->). exists st, ps.
    rewrite vmStatusRep_locs in Hs. by split_and!.
  - intros (st & ps & Hst & Hps & Hs & ->). eexists st, _. rewrite vmStatusRep_locs. split_and!; [done| |done|done].
    apply struct2_value. exists ps, (vsm_EgressIpPrefix st). split_and!; [done..|set_solver|done].
Qed.
Lemma vmStatus_locs h s st :
  at_ (ty AVMStatus) h s = Some st -> locs vmStatusPtr h (Some s) = {[ s ]} ∪ locs profilesRep h (vsm_GatewayVMProfiles st).
Proof. intros Hst. by rewrite (pointer_locs (ty AVMStatus) vmStatusRep h s st Hst), vmStatusRep_locs. Qed.

(** Writing the slice's array in place. *)
Lemma array_edit h s st a ps ps' :
  at_ (ty AVMStatus) h s = Some st -> vsm_GatewayVMProfiles st = Some a -> at_ (TArr (ty AVMProfile)) h a = Some ps -> s <> a ->
  let h' := <[a := Cell (TArr (ty AVMProfile)) ps']> h in
  value vmStatusPtr h' (Some s) = Some (Some {| vmc_EgressIpPrefix := vsm_EgressIpPrefix st; vmc_GatewayVMProfiles := ps' |}) /\
  locs vmStatusPtr h' (Some s) = locs vmStatusPtr h (Some s) /\ locs vmStatusPtr h (Some s) = {[ s; a ]}.
Proof.
  intros Hst Ha Hps Hne h'. assert (Ha' : at_ (TArr (ty AVMProfile)) h' a = Some ps') by apply (at_insert (TArr (ty AVMProfile))).
  assert (Hst' : at_ (ty AVMStatus) h' s = Some st) by (rewrite (at_frame _ h h' s); [done|by apply lookup_insert_ne]).
  rewrite (vmStatus_locs h' s st Hst'), (vmStatus_locs h s st Hst), Ha,
    (flat_slice_locs (ty AVMProfile) h' a), (flat_slice_locs (ty AVMProfile) h a) by eauto. split_and!; [|done|done].
  apply vmStatus_value. exists st, ps'. rewrite Ha, (flat_slice_locs (ty AVMProfile) h' a) by eauto.
  split_and!; [done|by apply flat_slice_value|set_solver|done].
Qed.

(** A slice with a new array. *)
Lemma append_edit h s st ps' :
  at_ (ty AVMStatus) h s = Some st ->
  let a := fresh (dom h) in
  let h' := <[s := Cell (ty AVMStatus) {| vsm_EgressIpPrefix := vsm_EgressIpPrefix st; vsm_GatewayVMProfiles := Some a |}]>
              (<[a := Cell (TArr (ty AVMProfile)) ps']> h) in
  value vmStatusPtr h' (Some s) = Some (Some {| vmc_EgressIpPrefix := vsm_EgressIpPrefix st; vmc_GatewayVMProfiles := ps' |}) /\
  locs vmStatusPtr h' (Some s) = {[ s; a ]}.
Proof.
  intros Hst a h'. assert (Ha : a ∉ dom h) by apply is_fresh. apply at_dom in Hst.
  assert (Hne : s <> a) by (by intros ->).
  assert (Hst' : at_ (ty AVMStatus) h' s = Some {| vsm_EgressIpPrefix := vsm_EgressIpPrefix st; vsm_GatewayVMProfiles := Some a |})
    by apply (at_insert (ty AVMStatus)).
  assert (Ha' : at_ (TArr (ty AVMProfile)) h' a = Some ps').
  { unfold h'. rewrite (at_frame (TArr (ty AVMProfile)) (<[a := Cell (TArr (ty AVMProfile)) ps']> h)); [apply (at_insert (TArr (ty AVMProfile)))|by apply lookup_insert_ne]. }
  rewrite (vmStatus_locs h' s _ Hst'). cbn [vsm_GatewayVMProfiles]. rewrite (flat_slice_locs (ty AVMProfile) h' a) by eauto. split; [|done].
  apply vmStatus_value. eexists _, ps'. split; [exact Hst'|]. cbn [vsm_GatewayVMProfiles vsm_EgressIpPrefix]. rewrite (flat_slice_locs (ty AVMProfile) h' a) by eauto.
  split_and!; [by apply flat_slice_value|set_solver|done].
Qed.

Lemma upsertInPlace_edits vmprofile s :
  Edits vmStatusPtr (Some s) (fun _ => True) (upsertInPlace vmprofile (Some s))
    (fmap (fun st => {| vmc_EgressIpPrefix := vmc_EgressIpPrefix st;
                        vmc_GatewayVMProfiles := upsertProfile vmprofile (vmc_GatewayVMProfiles st) |})).
Proof.
  intros h o _ Ho. pose proof Ho as (st & ps & Hst & Hps & Hs & ->)%vmStatus_value.
  cbn [fmap option_fmap option_map]. cbn [vmc_EgressIpPrefix vmc_GatewayVMProfiles]. rewrite upsertProfile_index.
  assert (Hload : (match vsm_GatewayVMProfiles st with
                   | None => ret [] | Some a => load (TArr (ty AVMProfile)) (Some a) end) h = (Ok ps, h)).
  { destruct (vsm_GatewayVMProfiles st) as [a|]; [|by injection Hps as <-].
    by apply (load_at (TArr (ty AVMProfile))), flat_slice_value. }
  unfold upsertInPlace. erewrite bind_Ok by (by apply load_at). erewrite bind_Ok by exact Hload.
  set (same := fun profile => String.eqb (NodeName profile) (NodeName vmprofile)).
  destruct (find_index same ps) as [[i p]|] eqn:Hi.
  - destruct (vsm_GatewayVMProfiles st) as [a|] eqn:Ha; [|by injection Hps as <-].
    apply flat_slice_value in Hps. rewrite (flat_slice_locs (ty AVMProfile) h a) in Hs by eauto.
    destruct (array_edit h s st a ps (<[i := {| NodeName := NodeName p; PrimaryIP := PrimaryIP vmprofile;
      SecondaryIP := SecondaryIP vmprofile |}]> ps) Hst Ha Hps ltac:(set_solver)) as (Hv & Hl & Hla).
    destruct (_ || _) eqn:Hd.
    + eexists. split_and!; [done|exact Hv|intros l' Hin Hn; apply lookup_insert_ne; set_solver|intros l' Hin _; rewrite <- Hl; exact Hin].
    + apply orb_false_iff in Hd as [E1%negb_false_iff%String.eqb_eq E2%negb_false_iff%String.eqb_eq].
      apply find_index_Some in Hi as (l1 & l2 & -> & <- & _). exists h. split_and!; [done| |done..]. rewrite Ho. do 2 f_equal. f_equal.
      rewrite insert_app_r_alt, Nat.sub_diag by done. simpl. rewrite <- E1, <- E2. by destruct p.
  - destruct (append_edit h s st (ps ++ [vmprofile]) Hst) as (Hv & Hl). eexists. split_and!; [done|exact Hv| |].
    + intros l' Hin Hn. rewrite (vmStatus_locs h s st Hst) in Hn.
      rewrite !lookup_insert_ne; [done|intros <-; by apply (is_fresh (dom h))|set_solver].
    + intros l' Hin Hd. assert (l' ∈ ({[ s; fresh (dom h) ]} : gset loc)) by (rewrite <- Hl; exact Hin). rewrite (vmStatus_locs h s st Hst). pose proof (is_fresh (dom h)). set_solver.
Qed.

Definition withVMStatus (o : TypeMeta * GatewayVMConfiguration) (s : GatewayVMConfigurationStatus) : TypeMeta * GatewayVMConfiguration :=
  (fst o, with_vmc_status (snd o) (Some s)).
Lemma vmStatus_edits l body g :
  (forall q, Edits vmStatusPtr (Some q) (fun _ => True) (body (Some q)) (fmap g)) ->
  Edits (pointer (ty AVM) vmRep) (Some l) is_Some (do! ensureVMStatus (Some l); onField (ty AVM) vmm_Status (Some l) body)
    (fmap (fun o => withVMStatus o (g (vmc_status_or_new (vmc_Status (snd o)))))).
Proof.
  intros Hbody.
  refine (Edits_ext _ _ _ _ _ _ _ (field_edits (ty AVM) (ty AVMStatus) vmm_ObjectMeta vmm_Status setVMStatus _ objectMetaRep vmStatusRep
    (vmc_status_or_new None) (fun o => vmc_Status (snd o)) withVMStatus _ _ _ _ _ _ l body g Hbody)); try done.
Qed.

Lemma noteAll_edits l vmprofiles :
  Edits (pointer (ty AVM) vmRep) (Some l) is_Some (noteAll (Some l) vmprofiles)
    (fmap (fun o => (fst o, fold_left noteProfile vmprofiles (snd o)))).
Proof.
  induction vmprofiles as [|p rest IH]; simpl.
  - eapply Edits_ext; [|apply Edits_ret]. by intros [[tm v]|] _.
  - eapply Edits_ext; [|eapply Edits_seq; [apply (vmStatus_edits l _ _ (upsertInPlace_edits p))|exact IH|]].
    + by intros [[tm v]|] _.
    + intros v [o ->]. by eexists.
Qed.
Lemma setEgress_edits l egress :
  Edits (pointer (ty AVM) vmRep) (Some l) is_Some (setEgress (Some l) egress)
    (fmap (fun o => withVMStatus o {| vmc_EgressIpPrefix := egress;
       vmc_GatewayVMProfiles := vmc_GatewayVMProfiles (vmc_status_or_new (vmc_Status (snd o))) |})).
Proof.
  refine (vmStatus_edits l _ (fun s => {| vmc_EgressIpPrefix := egress; vmc_GatewayVMProfiles := vmc_GatewayVMProfiles s |}) _).
  intros q. apply (modify_edits (ty AVMStatus) vmStatusRep). intros h x u (ps & e & Hps & [= <-] & Hd & ->)%struct2_value. split.
  - apply struct2_value. exists ps, egress. split_and!; [done..|set_solver|done].
  - by rewrite !vmStatusRep_locs.
Qed.
Lemma noteAll_spec vmprofiles v : vmc_Spec (fold_left noteProfile vmprofiles v) = vmc_Spec v.
Proof. revert v. induction vmprofiles as [|p l IH]; intros v; [done|]. simpl. by rewrite IH. Qed.

Lemma trackVM_edits l vmprofiles egress :
  Edits (pointer (ty AVM) vmRep) (Some l) is_Some (do! noteAll (Some l) vmprofiles; setEgress (Some l) egress)
    (fmap (fun o => let v := fold_left noteProfile vmprofiles (snd o) in
       withVMStatus (fst o, v) {| vmc_EgressIpPrefix := egress;
         vmc_GatewayVMProfiles := vmc_GatewayVMProfiles (vmc_status_or_new (vmc_Status v)) |})).
Proof.
  eapply Edits_ext; [|eapply Edits_seq; [apply (noteAll_edits l vmprofiles)|apply setEgress_edits|]].
  - by intros [[tm v]|] _.
  - intros o [x ->]. by eexists.
Qed.

(** C30: the controllers see the changes they make. The LB controller, and the VM
    controller for a pool of virtual machines, copy the object they were given, change its
    status in place, through the pointer and in the array of the slice, and compare the
    two in the end. The object then has the value that the functions on values compute,
    and the comparison says that it changed exactly when it did: the changes do not reach
    the copy. *)
Theorem status_changes_seen h p tm :
  (forall v egress ip port,
     value (pointer (ty ALB) lbRep) h (Some p) = Some (Some (tm, v)) ->
     let v' := fronted ip port (collected egress v) in
     exists h', trackLB (Some p) egress ip port h = (Ok (negb (bool_decide (v = v'))), h') /\
       value (pointer (ty ALB) lbRep) h' (Some p) = Some (Some (tm, v'))) /\
  (forall v vmprofiles ipPrefix privateIPs,
     value (pointer (ty AVM) vmRep) h (Some p) = Some (Some (tm, v)) ->
     let v' := vmconfig.withEgress (fold_left noteProfile vmprofiles v) ipPrefix privateIPs in
     exists h',
       trackVM (Some p) vmprofiles (if vmc_ProvisionPublicIps (vmc_Spec v) then ipPrefix else Join privateIPs ",") h =
         (Ok (negb (bool_decide (v = v'))), h') /\
       value (pointer (ty AVM) vmRep) h' (Some p) = Some (Some (tm, v'))).
Proof.
  split.
  - intros v egress ip port Hv v'.
    destruct (tracked_sees ALB copyGatewayLBConfiguration lbRep p _ _ h (tm, v) lb_copies deepEqual_lb (trackLB_edits p egress ip port) Hv)
      as (h' & Hrun & Hv'). exists h'. split; [|done]. unfold trackLB. rewrite Hrun. do 2 f_equal. f_equal.
    apply bool_decide_ext. simpl. fold v'. split; [by intros [=]|by intros <-].
  - intros v vmprofiles ipPrefix privateIPs Hv v'. set (egress := if vmc_ProvisionPublicIps (vmc_Spec v) then _ else _).
    destruct (tracked_sees AVM copyGatewayVMConfiguration vmRep p _ _ h (tm, v) vm_copies deepEqual_vm (trackVM_edits p vmprofiles egress) Hv)
      as (h' & Hrun & Hv'). simpl in Hrun, Hv'. unfold withVMStatus in Hrun, Hv'. simpl in Hrun, Hv'.
    assert (with_vmc_status (fold_left noteProfile vmprofiles v) (Some {| vmc_EgressIpPrefix := egress;
      vmc_GatewayVMProfiles := vmc_GatewayVMProfiles (vmc_status_or_new (vmc_Status (fold_left noteProfile vmprofiles v))) |}) = v') as Hw.
    { unfold v', vmconfig.withEgress. by rewrite noteAll_spec. }
    rewrite Hw in Hrun, Hv'. exists h'. split; [|done]. unfold trackVM. rewrite Hrun. do 2 f_equal. f_equal.
    apply bool_decide_ext. split; [by intros [=]|by intros <-].
Qed.
End deepcopy.
