(* ===== verification/DeepCopyWitness.v ===== *)
(** * Objects in a concrete memory

    Metadata whose labels are a map behind a pointer, and a GatewayLBConfiguration and a
    GatewayVMConfiguration in memory: the copies and comparisons of [DeepCopy] run on
    them. *)

From stdpp Require Import base tactics list strings gmap sets.
From Stdlib Require Import ZArith.
From S2P Require Import Prelude GoStrings Types AgentPoolVMs LBConfig VMConfig Memory DeepCopy.

Open Scope string_scope.
Open Scope list_scope.

(** ** Metadata *)

Record metaM := { mm_plain : ObjectMeta; mm_labels : ptr }.
#[local] Instance label_types : MetaTypes := {|
  ObjectMetaM := metaM; ListMetaM := ListMeta; LibCell := gmap string string;
  zeroObjectMeta := {| mm_plain := new_meta "" ""; mm_labels := None |};
  zeroListMeta := {| lm_ResourceVersion := ""; lm_Continue := ""; lm_RemainingItemCount := None |};
  zeroLibCell := ∅ |}.

Definition labelled (m : ObjectMeta) (labels : option (gmap string string)) : ObjectMeta :=
  {| om_name := om_name m; om_namespace := om_namespace m; om_uid := om_uid m; om_deletion := om_deletion m;
     om_finalizers := om_finalizers m; om_owners := om_owners m; om_labels := default ∅ labels |}.
Definition metaRep : Rep metaM ObjectMeta :=
  struct2 mm_labels mm_plain (fun _ labels m => labelled m labels) (pointer (ty ALib) flat) flat.
Definition copyMeta (m : metaM) : M (gmap loc cell) metaM :=
  let! labels := copyPtr (ty ALib) ret (mm_labels m) in
  ret {| mm_plain := mm_plain m; mm_labels := labels |}.
#[local] Instance label_copy : MetaCopy := {|
  copyObjectMeta := copyMeta; copyListMeta := ret; objectMetaRep := metaRep; listMetaRep := flat |}.
#[local] Instance label_copy_laws : MetaCopyLaws.
Proof.
  split; try apply _.
  - refine (struct2_copies _ _ _ _ _ (fun _ labels m => {| mm_plain := m; mm_labels := labels |}) _ ret _ _ _ _ _); try done.
    + apply pointer_copies; [apply _|apply flat_copies].
    + apply flat_copies.
  - apply flat_copies.
Qed.

(** Comparison of what the pointers lead to. *)
Definition compareValues {V} `{!EqDecision V} (R : Rep ptr V) (p q : ptr) : M (gmap loc cell) bool := fun h =>
  match value R h p, value R h q with
  | Some v, Some u => (Ok (bool_decide (v = u)), h)
  | _, _ => (Panic, h)
  end.
#[local] Instance label_equality : DeepEquality.
Proof.
  refine {| deepEqual t := match t with
                           | ALB => compareValues (pointer (ty ALB) lbRep)
                           | AVM => compareValues (pointer (ty AVM) vmRep)
                           | _ => fun _ _ => ret true
                           end |}.
  - intros h p q v u Hv Hu. unfold compareValues. by rewrite Hv, Hu.
  - intros h p q v u Hv Hu. unfold compareValues. by rewrite Hv, Hu.
Defined.

(** ** Two objects *)

Definition gw1 (labels : ptr) : metaM := {| mm_plain := new_meta "gw1" "ns"; mm_labels := labels |}.
Definition memory1 : gmap loc cell :=
  {[ 1%positive := Cell (ty ALB) {| lbm_TypeMeta := zeroTypeMeta; lbm_ObjectMeta := gw1 (Some 3%positive);
                                    lbm_Spec := zeroLBSpec; lbm_Status := Some 2%positive |};
     2%positive := Cell (ty ALBStatus) {| lbc_FrontendIp := "10.0.0.4"; lbc_ServerPort := 6000; lbc_EgressIpPrefix := "" |};
     3%positive := Cell (ty ALib) {[ "app" := "gateway" ]};
     4%positive := Cell (ty AVM) {| vmm_TypeMeta := zeroTypeMeta; vmm_ObjectMeta := gw1 None;
                                    vmm_Spec := zeroVMSpec; vmm_Status := Some 5%positive |};
     5%positive := Cell (ty AVMStatus) {| vsm_EgressIpPrefix := "10.0.0.8"; vsm_GatewayVMProfiles := Some 6%positive |};
     6%positive := Cell (TArr (ty AVMProfile)) [{| NodeName := "node1"; PrimaryIP := "10.0.0.7"; SecondaryIP := "10.0.0.8" |}] ]}.

Definition lb1 : GatewayLBConfiguration :=
  {| lbc_meta := labelled (new_meta "gw1" "ns") (Some {[ "app" := "gateway" ]}); lbc_Spec := zeroLBSpec;
     lbc_Status := Some {| lbc_FrontendIp := "10.0.0.4"; lbc_ServerPort := 6000; lbc_EgressIpPrefix := "" |} |}.
Definition vm1 : GatewayVMConfiguration :=
  {| vmc_meta := new_meta "gw1" "ns"; vmc_Spec := zeroVMSpec;
     vmc_Status := Some {| vmc_EgressIpPrefix := "10.0.0.8";
       vmc_GatewayVMProfiles := [{| NodeName := "node1"; PrimaryIP := "10.0.0.7"; SecondaryIP := "10.0.0.8" |}] |} |}.
Lemma lb1_there : value (pointer (ty ALB) lbRep) memory1 (Some 1%positive) = Some (Some (zeroTypeMeta, lb1)).
Proof. vm_compute. reflexivity. Qed.
Lemma vm1_there : value (pointer (ty AVM) vmRep) memory1 (Some 4%positive) = Some (Some (zeroTypeMeta, vm1)).
Proof. vm_compute. reflexivity. Qed.

Lemma deep_copies_independent_witness :
  exists q h' v, GatewayLBConfiguration_DeepCopyObject (Some 1%positive) memory1 = (Ok (Some q), h') /\
    independent (pointer (ty ALB) lbRep) v h' (Some 1%positive) (Some q).
Proof.
  destruct (proj2 (proj1 (proj2 (proj1 deep_copies_independent))) memory1 1%positive _ lb1_there) as (q & h' & Hrun & _ & Hi).
  eexists q, h', _. split; [exact Hrun|exact Hi].
Defined.

(** The egress addresses are new, so the LB configuration changed; with an address of the
    node changed in the array, the VM configuration changed too, and it did not when
    nothing is new. *)
Lemma status_changes_seen_witness :
  (exists h', trackLB (Some 1%positive) (Some "1.2.3.4/31") "10.0.0.4" 6000 memory1 = (Ok true, h')) /\
  (exists h', trackVM (Some 4%positive) [{| NodeName := "node1"; PrimaryIP := "10.0.0.9"; SecondaryIP := "10.0.0.8" |}] "10.0.0.8"
                memory1 = (Ok true, h')) /\
  (exists h', trackVM (Some 4%positive) [{| NodeName := "node1"; PrimaryIP := "10.0.0.7"; SecondaryIP := "10.0.0.8" |}] "10.0.0.8"
                memory1 = (Ok false, h')).
Proof.
  split_and!.
  - destruct (proj1 (status_changes_seen memory1 1%positive zeroTypeMeta) _ (Some "1.2.3.4/31") "10.0.0.4" 6000%Z lb1_there) as (h' & Hrun & _).
    exists h'. exact Hrun.
  - destruct (proj2 (status_changes_seen memory1 4%positive zeroTypeMeta) _
      [{| NodeName := "node1"; PrimaryIP := "10.0.0.9"; SecondaryIP := "10.0.0.8" |}] "" ["10.0.0.8"] vm1_there) as (h' & Hrun & _).
    exists h'. exact Hrun.
  - destruct (proj2 (status_changes_seen memory1 4%positive zeroTypeMeta) _
      [{| NodeName := "node1"; PrimaryIP := "10.0.0.7"; SecondaryIP := "10.0.0.8" |}] "" ["10.0.0.8"] vm1_there) as (h' & Hrun & _).
    exists h'. exact Hrun.
Defined.
